(* ===== verification/_CoqProject ===== *)
-Q . S2P
Prelude.v
PyStr.v
Dict.v
Bytes.v
Paths.v
Json.v
JsonText.v
PyJson.v
RelayServer.v
RelayClient.v
StateStore.v
HolePuncher.v
Models.v
Effects.v
Scoring.v
Relay.v
IPv4.v
Acl.v
Ipam.v
Sha256.v
Topology.v
ConfigV2.v
Nat.v
IPv6.v
Stun.v
RateLimit.v
WsManager.v
EventBus.v
WgAdapter.v
WgKeys.v
Controller.v
Dns.v
ControllerLoop.v
Uuid.v
Auth.v
WsApi.v
Health.v
DaemonSvc.v
Background.v
DevicesApi.v
NetworksApi.v
RoutesApi.v
SessionsApi.v
PolicyApi.v
AuditTrail.v
WgRuntime.v
ConfigReader.v
ApiClient.v
DaemonModels.v
Reconciler.v
EndpointMonitor.v
DaemonMain.v
DaemonTasks.v
Push.v
PunchReports.v
Migrations.v
Schemas.v
Http.v
EndToEnd.v
Lifespan.v
