(* ===== verification/Prelude.v ===== *)
(** * Midscale, a self-hosted WireGuard control plane: verification library

    Midscale is two Python programs.  The server ([src/backend/app]) keeps
    users, networks, devices and routes in a database, answers an HTTP API,
    pushes events over WebSockets, relays traffic, answers STUN and drives the
    WireGuard interface of its host.  The daemon ([src/midscaled/daemon])
    enrols a device, pulls its configuration, applies it to the device's
    interface, finds out its public address and punches holes through NAT.
    This library models both, and the places where they meet, and proves what
    they do, where that is not what they mean to do as well.

    ** How the code is modelled

    A function that only computes is a Rocq function.  A function with effects
    is of type [M S A]: it takes a state [S] and gives a value or an exception
    ([outcome]) and the state, which is kept when it raises, as Python keeps
    it.  The state is that of the component: [World] for the server's services
    (the rows of the session, the committed rows, the published events, the
    metrics), a record of the object's attributes elsewhere.  What is not code
    of the repository is an argument: the class [Env] of [Effects.v] (clock,
    random numbers, hashes and tokens, whether the ORM tracks a change made
    inside a JSON column), the answers of programs, of the network, of Redis,
    of the server as the daemon sees it, of the daemon's disk.

    - [Prelude.v] (this file): exceptions, the monad with its notations, loops,
      [Frame] (a relation kept by whatever a call does, with instances for the
      constructs of the monad), record update, lists and sorting.
    - [PyStr.v], [Dict.v], [Bytes.v], [Paths.v], [Json.v], [JsonText.v],
      [PyJson.v], [IPv4.v], [IPv6.v], [Sha256.v], [Uuid.v]: what the code uses
      of Python's own types and modules.

    ** The server

    - [Models.v], [Effects.v]: the tables ([models/]), the settings and
      constants; sessions with flush, commit and rollback, metrics, the audit
      log and events ([database.py], [services/audit.py], [event_types.py],
      [metrics.py]).
    - [Auth.v] ([core/security.py], [api/deps.py], [services/auth.py]): who is
      let in.  [device_auth_sound], [device_token_round_trip],
      [token_kinds_separate].
    - [DevicesApi.v], [NetworksApi.v], [RoutesApi.v], [SessionsApi.v],
      [PolicyApi.v] ([api/v1/]): a Definition per handler, composed with its
      dependency and its session.  [enroll_admits], [enroll_key_once],
      [revoke_locks_out], [addresses_stay_unique], [approval_decides]; over all
      mutating handlers, [AuditTrail.v]: [audit_log_append_only].
    - [Ipam.v], [Acl.v], [Scoring.v] ([services/ipam.py], [route_validation.py],
      [acl.py], [endpoint_scoring.py]): allocation is the lowest free address,
      the overlap check agrees with sharing an address, access is decided by
      the first rule that applies, scores are bounded and monotone.
    - [Topology.v], [ConfigV2.v] ([services/topology.py], [network_state.py],
      [wireguard.py], [config_renderer.py]) and [WgKeys.v]: plans and
      configurations.  [config_v2_deterministic], [config_v2_peers_active].
    - [WgAdapter.v], [Controller.v], [ControllerLoop.v] ([services/wg_adapter.py],
      [wg_controller.py]): the adapter is a class; the controller is proved
      against its laws ([reconcile_converges]), the mock adapter keeps them.
      No exception stops the loop ([controller_keeps_time]), and it stores
      nothing ([controller_stores_nothing]).
    - [Dns.v] ([services/dns_records.py], [dns_provider.py]): zones, over a
      class of providers.  [zone_published], [dns_entry_injects_line].
    - [Relay.v], [Nat.v], [DaemonSvc.v] ([services/relay.py], [nat.py],
      [daemon.py]): sessions as state machines; gauges that count how their
      number changes while the process runs ([relay_gauge_counts_active]).
    - [RelayServer.v], [Stun.v] ([services/relay_server.py], [stun_server.py],
      and the client's messages in [stun_client.py]): the wire protocols.
      [relay_stream] says that the chunks TCP delivers do not matter,
      [stun_round_trip] that client and server agree.
    - [RateLimit.v], [WsManager.v], [EventBus.v], [WsApi.v], [Health.v],
      [Background.v] ([services/rate_limiter.py], [core/middleware.py],
      [services/ws_manager.py], [event_bus.py], [api/v1/ws.py],
      [services/health.py], [main.py]): what surrounds the handlers.
      [rate_limit_window] (the limiter in memory), [ws_manager_tracks] (the
      manager refines a record of what the sockets did), [daemon_socket_sound],
      [readiness_exact].
    - [Lifespan.v] ([lifespan] of [main.py], [database.py]): what the process
      starts and in which ways its shutdown ends.  [service_stops],
      [visitor_breaks_shutdown].
    - [Migrations.v] ([alembic/]): every revision as the operations it hands to
      Alembic.  [upgrade_reaches_models], [downgrade_undoes_upgrade].
    - [Schemas.v], [Http.v] ([schemas/], the routers of [api/v1/], [main.py]):
      request bodies and answers as data, and the application as the list of its
      routes.  [strangers_change_nothing].

    ** The daemon

    - [StateStore.v] ([state_store.py]): files over a disk that is the list of
      the elementary operations done to it; a crash is a prefix of the list.
      [enrollment_crash_safe].
    - [ApiClient.v] ([api_client.py]): requests as a history, the server as a
      function of it.  [enrolled_calls_authenticated].
    - [WgRuntime.v] ([wg_runtime.py]): commands as a history, the host as a
      function of it.  [stale_peers_stay].
    - [ConfigReader.v], [Reconciler.v] ([reconciler.py]): reading and applying a
      configuration.  [ini_round_trip] (against the server's printer in
      [Topology.v]), [v2_config_typed] (against its JSON in [ConfigV2.v]),
      [reconcile_applies_config], [reboot_not_configured].
    - [EndpointMonitor.v], [HolePuncher.v], [RelayClient.v] ([endpoint_monitor.py],
      [stun_client.py], [hole_puncher.py], [relay_client.py]).
      [monitor_reports_changes]; [session_connects] (against [RelayServer.v]).
    - [DaemonModels.v], [DaemonMain.v], [DaemonTasks.v] ([models.py], [main.py],
      [heartbeat.py], [ws_client.py], [config.py], [route_advertiser.py],
      [peer_prober.py]): the process.  [enroll_then_restart].
    - [Push.v] and [PunchReports.v]: bus, sockets and daemon together
      ([config_change_wakes_all]); what follows a punch
      ([punch_ends_at_relay]).
    - [EndToEnd.v]: the daemon's client against the server's application over
      HTTP.  [remote_calls_served], [enrolled_device_configured].

    ** Loops and fuel

    Loops over data are structural.  [RelayServer.drain] has as fuel the length
    of the buffer, and a frame takes at least four bytes
    ([data_received_drains]: nothing is left over).  The JSON reader, the zone
    and INI scanners and the word splitters have the length of their text.
    [Ipam.allocate_ip] scans the finite list of the hosts of its network.
    The background loops take the number of
    their turns; nothing is claimed about more turns than are asked for.
    Integers are unbounded in Python and here; words of 32 bits, octets and
    ports are kept in their ranges where the code packs them.

    ** What is not modelled

    - A [str] is the string of its UTF-8 bytes: lengths and positions count
      bytes, [lower] and the character classes know ASCII only.
    - FastAPI, Starlette and pydantic: finding a route, reading a body by its
      fields and answering an exception are written out as documented
      ([Http.v]); how pydantic converts a value is a class with laws
      ([Schemas.v]).  CORS and the pages FastAPI adds are left out.
    - SQL: a query filters rows in the order of insertion; of the constraints
      only the foreign keys a deletion meets are checked; columns with
      [onupdate] are as the code sets them; sessions do not interleave.
    - [asyncio]: code between two awaits is one step; a task is what it does
      between two sleeps.  Where interleaving matters (sockets, chunks, the
      relay's runs, tasks of the daemon) it is an explicit sequence.
    - Histograms, log lines, full disks, missing permissions, the round-trip
      times that are only logged, signals and the command line.
    - [random.shuffle], the order of a [set] (which Python fixes when a process
      starts, so that what is proved of it is said of one process) and [repr] of
      a value that is not text are arguments.
    - A program or a service that never answers: a call of the adapter, the
      database or the network returns or raises.  A crash of the daemon keeps a
      prefix of what it did to the disk; a loss of power may not.
    - The seed script, the shell scripts and the frontend. *)
From stdpp Require Export base tactics list strings gmap sorting.

(** * Python exceptions and results *)

(** The exceptions the modelled code raises or lets through. *)
Inductive exn :=
  | HTTPException (status_code : Z) (detail : string)
  | MultipleResultsFound
  | NoResultFound
  | ValueError (msg : string)
  | AttributeError (msg : string)
  | IndexError
  | KeyError
  | TypeError
  | StructError
  | OSError
  | OverflowError
  | JSONDecodeError
  | RequestError (msg : string)
  | IntegrityError
  | RequestValidationError
  | ResponseValidationError
  | WireGuardInterfaceNotFound (interface : string)
  | WireGuardCommandError (command : string) (return_code : Z) (stderr : string)
  | WireGuardKeyError (msg : string).

#[export] Instance exn_eq_dec : EqDecision exn.
Proof. solve_decision. Defined.

(** A call either returns a value or raises. *)
Inductive outcome (A : Type) :=
  | Ok (a : A)
  | Raise (e : exn).
Arguments Ok {A} a.
Arguments Raise {A} e.

#[export] Instance outcome_ret : MRet outcome := fun A a => Ok a.
#[export] Instance outcome_bind : MBind outcome :=
  fun A B f m => match m with Ok a => f a | Raise e => Raise e end.
#[export] Instance outcome_fmap : FMap outcome :=
  fun A B f m => match m with Ok a => Ok (f a) | Raise e => Raise e end.

#[export] Instance outcome_eq_dec `{EqDecision A} : EqDecision (outcome A).
Proof. solve_decision. Defined.

(** * Stateful code that may raise

    [M S A] is a Python call over the mutable state [S].  An exception keeps
    the state it was raised in: nothing is undone unless the code undoes it. *)
Definition M (S A : Type) : Type := S -> outcome A * S.

#[export] Instance M_ret S : MRet (M S) := fun A a s => (Ok a, s).
#[export] Instance M_bind S : MBind (M S) := fun A B f m s =>
  match m s with
  | (Ok a, s') => f a s'
  | (Raise e, s') => (Raise e, s')
  end.
#[export] Instance M_fmap S : FMap (M S) := fun A B f m s =>
  match m s with
  | (Ok a, s') => (Ok (f a), s')
  | (Raise e, s') => (Raise e, s')
  end.

Section Combinators.
Context {S : Type}.

Definition raise {A} (e : exn) : M S A := fun s => (Raise e, s).
Definition get : M S S := fun s => (Ok s, s).
Definition gets {A} (f : S -> A) : M S A := fun s => (Ok (f s), s).
Definition modify (f : S -> S) : M S unit := fun s => (Ok tt, f s).

(** [try: m  except: h]; [h] decides on the exception. *)
Definition try_except {A} (m : M S A) (h : exn -> M S A) : M S A := fun s =>
  match m s with
  | (Ok a, s') => (Ok a, s')
  | (Raise e, s') => h e s'
  end.

(** [try: m  finally: f] for a finaliser that does not raise. *)
Definition try_finally {A} (m : M S A) (f : S -> S) : M S A := fun s =>
  let r := m s in (r.1, f r.2).

Definition lift {A} (o : outcome A) : M S A := fun s => (o, s).

Definition when (b : bool) (m : M S unit) : M S unit :=
  if b then m else mret tt.

(** [for x in xs: f(x)] *)
Fixpoint for_each {A} (xs : list A) (f : A -> M S unit) : M S unit :=
  match xs with
  | [] => mret tt
  | x :: rest => f x ≫= fun _ => for_each rest f
  end.

(** [[f(x) for x in xs]] with an effectful [f]. *)
Fixpoint map_each {A B} (xs : list A) (f : A -> M S B) : M S (list B) :=
  match xs with
  | [] => mret []
  | x :: rest => f x ≫= fun y => map_each rest f ≫= fun ys => mret (y :: ys)
  end.
End Combinators.

(** ** Laws of the call monad *)
Section Laws.
Context {S : Type}.

Lemma bind_ret_l {A B} (a : A) (f : A -> M S B) s : (mret a ≫= f) s = f a s.
Proof. reflexivity. Qed.

Lemma bind_ok {A B} (m : M S A) (f : A -> M S B) s a s' :
  m s = (Ok a, s') -> (m ≫= f) s = f a s'.
Proof. unfold mbind, M_bind. by intros ->. Qed.

Lemma bind_raise {A B} (m : M S A) (f : A -> M S B) s e s' :
  m s = (Raise e, s') -> (m ≫= f) s = (Raise e, s').
Proof. unfold mbind, M_bind. by intros ->. Qed.

(** A bind that returns: both halves returned. *)
Lemma bind_inv_ok {A B} (m : M S A) (f : A -> M S B) s b s'' :
  (m ≫= f) s = (Ok b, s'') ->
  exists a s', m s = (Ok a, s') /\ f a s' = (Ok b, s'').
Proof.
  unfold mbind, M_bind. destruct (m s) as [[a|e] s'] eqn:E; [eauto|done].
Qed.

(** A body whose every exception is dropped returns. *)
Lemma try_ignore_ok (m : M S unit) s : (try_except m (fun _ => mret tt) s).1 = Ok tt.
Proof. unfold try_except. by destruct (m s) as [[[]|e] s']. Qed.

Lemma for_each_app {A} (xs ys : list A) (f : A -> M S unit) s :
  for_each (xs ++ ys) f s = (for_each xs f ≫= fun _ => for_each ys f) s.
Proof.
  revert s. induction xs as [|x xs IH]; intros s; [done|].
  simpl. unfold mbind, M_bind in *. destruct (f x s) as [[[]|e] s']; [|done].
  apply IH.
Qed.
End Laws.

(** * Frames: relations every step of a call respects

    [Frame R m] says that running [m], whether it returns or raises, takes the
    state along [R].  Instances follow the structure of the code, so that the
    frame of a whole handler is found by instance search. *)
Class Frame {S A} (R : relation S) (m : M S A) : Prop :=
  frame : forall s, R s (m s).2.

Section Frames.
Context {S : Type} (R : relation S) `{!PreOrder R}.

#[export] Instance frame_ret {A} (a : A) : Frame R (mret a : M S A).
Proof. intros s. simpl. reflexivity. Qed.
#[export] Instance frame_raise {A} e : Frame R (raise e : M S A).
Proof. intros s. simpl. reflexivity. Qed.
#[export] Instance frame_get : Frame R (get : M S S).
Proof. intros s. simpl. reflexivity. Qed.
#[export] Instance frame_gets {A} (f : S -> A) : Frame R (gets f).
Proof. intros s. simpl. reflexivity. Qed.
#[export] Instance frame_lift {A} (o : outcome A) : Frame R (lift o : M S A).
Proof. intros s. simpl. reflexivity. Qed.
#[export] Instance frame_bind {A B} (m : M S A) (f : A -> M S B) :
  Frame R m -> (forall a, Frame R (f a)) -> Frame R (m ≫= f).
Proof.
  intros Hm Hf s. unfold mbind, M_bind. pose proof (Hm s) as H.
  destruct (m s) as [[a|e] s']; simpl in *; [|done].
  etrans; [exact H|apply Hf].
Qed.
#[export] Instance frame_fmap {A B} (m : M S A) (f : A -> B) :
  Frame R m -> Frame R (f <$> m).
Proof.
  intros Hm s. unfold fmap, M_fmap. pose proof (Hm s) as H.
  destruct (m s) as [[a|e] s']; exact H.
Qed.
#[export] Instance frame_try {A} (m : M S A) h :
  Frame R m -> (forall e, Frame R (h e)) -> Frame R (try_except m h).
Proof.
  intros Hm Hh s. unfold try_except. pose proof (Hm s) as H.
  destruct (m s) as [[a|e] s']; simpl in *; [done|].
  etrans; [exact H|apply Hh].
Qed.
#[export] Instance frame_when (b : bool) (m : M S unit) :
  Frame R m -> Frame R (when b m).
Proof. intros Hm. destruct b; [exact Hm|apply frame_ret]. Qed.
#[export] Instance frame_if {A} (b : bool) (m1 m2 : M S A) :
  Frame R m1 -> Frame R m2 -> Frame R (if b then m1 else m2).
Proof. by destruct b. Qed.
#[export] Instance frame_decide {A} (P : Prop) (d : Decision P) (m1 m2 : M S A) :
  Frame R m1 -> Frame R m2 -> Frame R (if d then m1 else m2).
Proof. by destruct d. Qed.
#[export] Instance frame_option {A B} (o : option B) (f : B -> M S A) (n : M S A) :
  (forall b, Frame R (f b)) -> Frame R n ->
  Frame R (match o with Some b => f b | None => n end).
Proof. by destruct o. Qed.
#[export] Instance frame_pair {A B C} (p : A * B) (f : A -> B -> M S C) :
  (forall a b, Frame R (f a b)) -> Frame R (let '(a, b) := p in f a b).
Proof. by destruct p. Qed.
#[export] Instance frame_for_each {A} (xs : list A) (f : A -> M S unit) :
  (forall x, Frame R (f x)) -> Frame R (for_each xs f).
Proof. intros Hf. induction xs; simpl; apply _. Qed.
#[export] Instance frame_map_each {A B} (xs : list A) (f : A -> M S B) :
  (forall x, Frame R (f x)) -> Frame R (map_each xs f).
Proof. intros Hf. induction xs; simpl; apply _. Qed.
Lemma frame_modify (f : S -> S) : (forall s, R s (f s)) -> Frame R (modify f).
Proof. by intros H s. Qed.
End Frames.

(** * Calls that do not look at a part of the state

    [Commutes f m] says that [m] neither reads nor writes what [f] rewrites:
    it returns the same result on both sides of [f]. *)
Class Commutes {S A} (f : S -> S) (m : M S A) : Prop :=
  commutes : forall s, m (f s) = ((m s).1, f (m s).2).

Section CommutesInstances.
Context {S : Type} (f : S -> S).

#[export] Instance commutes_ret {A} (a : A) : Commutes f (mret a : M S A).
Proof. done. Qed.
#[export] Instance commutes_raise {A} e : Commutes f (raise e : M S A).
Proof. done. Qed.
#[export] Instance commutes_lift {A} (o : outcome A) : Commutes f (lift o : M S A).
Proof. done. Qed.
#[export] Instance commutes_bind {A B} (m : M S A) (k : A -> M S B) :
  Commutes f m -> (forall a, Commutes f (k a)) -> Commutes f (m ≫= k).
Proof.
  intros Hm Hk s. unfold mbind, M_bind. rewrite (Hm s).
  destruct (m s) as [[a|e] s']; simpl; [apply Hk|done].
Qed.
#[export] Instance commutes_try {A} (m : M S A) h :
  Commutes f m -> (forall e, Commutes f (h e)) -> Commutes f (try_except m h).
Proof.
  intros Hm Hh s. unfold try_except. rewrite (Hm s).
  destruct (m s) as [[a|e] s']; simpl; [done|apply Hh].
Qed.
#[export] Instance commutes_when (b : bool) (m : M S unit) :
  Commutes f m -> Commutes f (when b m).
Proof. intros Hm. destruct b; [exact Hm|done]. Qed.
#[export] Instance commutes_if {A} (b : bool) (m1 m2 : M S A) :
  Commutes f m1 -> Commutes f m2 -> Commutes f (if b then m1 else m2).
Proof. by destruct b. Qed.
#[export] Instance commutes_option {A B} (o : option B) (k : B -> M S A) (n : M S A) :
  (forall b, Commutes f (k b)) -> Commutes f n ->
  Commutes f (match o with Some b => k b | None => n end).
Proof. by destruct o. Qed.
#[export] Instance commutes_for_each {A} (xs : list A) (k : A -> M S unit) :
  (forall x, Commutes f (k x)) -> Commutes f (for_each xs k).
Proof. intros Hk. induction xs; simpl; apply _. Qed.
Lemma commutes_gets {A} (g : S -> A) : (forall s, g (f s) = g s) -> Commutes f (gets g).
Proof. intros H s. unfold gets. by rewrite H. Qed.
Lemma commutes_modify (g : S -> S) : (forall s, g (f s) = f (g s)) -> Commutes f (modify g).
Proof. intros H s. unfold modify. simpl. by rewrite H. Qed.
End CommutesInstances.

(** * Record update: [r <| field := v |>] *)
Class SetField {R E : Type} (proj : R -> E) := set_field : E -> R -> R.
Notation "r <| proj := v |>" := (set_field (proj := proj) v r)
  (at level 12, left associativity, proj at level 1, v at level 99,
   format "r  <| proj  :=  v |>").

(** A call on a part of the state. *)
Definition zoom {T S A} (proj : T -> S) `{!SetField proj} (m : M S A) : M T A :=
  fun t => let r := m (proj t) in (r.1, t <| proj := r.2 |>).
Lemma zoom_ok {T S A} (proj : T -> S) `{!SetField proj} (m : M S A) t a s' :
  m (proj t) = (Ok a, s') -> zoom proj m t = (Ok a, t <| proj := s' |>).
Proof. unfold zoom. by intros ->. Qed.

(** * Lists *)

(** ** Python's stable [sorted], by a boolean "not after" test *)
Section StableSort.
Context {A : Type} (le : A -> A -> bool).

Fixpoint insert_stable (x : A) (l : list A) : list A :=
  match l with
  | [] => [x]
  | y :: ys => if le x y then x :: y :: ys else y :: insert_stable x ys
  end.
Definition sort_stable (l : list A) : list A := foldr insert_stable [] l.

Lemma insert_stable_perm x l : insert_stable x l ≡ₚ x :: l.
Proof.
  induction l as [|y l IH]; simpl; [done|]. destruct (le x y); [done|].
  rewrite IH. constructor.
Qed.
Lemma sort_stable_perm l : sort_stable l ≡ₚ l.
Proof. induction l as [|x l IH]; simpl; [done|]. by rewrite insert_stable_perm, IH. Qed.
Lemma sort_stable_length l : length (sort_stable l) = length l.
Proof. by rewrite sort_stable_perm. Qed.
Lemma elem_of_sort_stable x l : x ∈ sort_stable l <-> x ∈ l.
Proof. by rewrite sort_stable_perm. Qed.
Lemma sort_stable_nil l : sort_stable l = [] <-> l = [].
Proof.
  split; [|by intros ->]. intros H. apply (f_equal length) in H.
  rewrite sort_stable_length in H. by destruct l.
Qed.

Context (le_total : forall x y, le x y = true \/ le y x = true).
Context (le_trans : forall x y z, le x y = true -> le y z = true -> le x z = true).

Lemma insert_stable_sorted x l :
  StronglySorted (fun a b => le a b = true) l ->
  StronglySorted (fun a b => le a b = true) (insert_stable x l).
Proof using le_total le_trans.
  induction 1 as [|y l Hs IH Hall]; simpl; [repeat constructor|].
  destruct (le x y) eqn:E.
  - constructor; [by constructor|]. constructor; [done|].
    eapply Forall_impl; [exact Hall|]. eauto.
  - constructor; [done|]. rewrite insert_stable_perm. constructor; [|done].
    destruct (le_total x y); congruence.
Qed.
Lemma sort_stable_sorted l : StronglySorted (fun a b => le a b = true) (sort_stable l).
Proof using le_total le_trans.
  induction l; simpl; [constructor|by apply insert_stable_sorted].
Qed.
Lemma sort_stable_head l h t :
  sort_stable l = h :: t -> h ∈ l /\ forall y, y ∈ l -> le h y = true.
Proof using le_total le_trans.
  intros E. pose proof (sort_stable_sorted l) as Hs. rewrite E in Hs.
  split; [apply elem_of_sort_stable; rewrite E; left|].
  intros y Hy. apply elem_of_sort_stable in Hy. rewrite E in Hy.
  inversion_clear Hs as [|? ? _ Hall].
  apply elem_of_cons in Hy as [->|Hy]; [by destruct (le_total h h)|].
  rewrite Forall_forall in Hall. by apply Hall.
Qed.

(** Stability: elements the test cannot tell apart keep their order. *)
Definition tied (k x : A) : bool := le k x && le x k.
Lemma insert_stable_tied k x l :
  List.filter (tied k) (insert_stable x l) = List.filter (tied k) (x :: l).
Proof using le_trans.
  induction l as [|y l IH]; [done|]. simpl insert_stable. destruct (le x y) eqn:E; [done|].
  simpl in *. rewrite IH.
  destruct (tied k x) eqn:Ex, (tied k y) eqn:Ey; try done.
  unfold tied in *. apply andb_true_iff in Ex as [? ?], Ey as [? ?].
  assert (le x y = true) by eauto. congruence.
Qed.
Lemma sort_stable_tied k l :
  List.filter (tied k) (sort_stable l) = List.filter (tied k) l.
Proof using le_trans.
  induction l as [|x l IH]; [done|]. simpl sort_stable.
  rewrite insert_stable_tied. simpl. by rewrite IH.
Qed.
End StableSort.

(** [len(l)] *)
Definition len_list {A} (l : list A) : Z := Z.of_nat (length l).

(** ** Rows found and changed by a test *)
Definition update_where {A} (p : A -> bool) (f : A -> A) (l : list A) : list A :=
  (fun x => if p x then f x else x) <$> l.

Definition scalar_one_or_none {A} (rows : list A) : outcome (option A) :=
  match rows with
  | [] => Ok None
  | [x] => Ok (Some x)
  | _ => Raise MultipleResultsFound
  end.

Definition scalar_one {A} (rows : list A) : outcome A :=
  match rows with
  | [] => Raise NoResultFound
  | [x] => Ok x
  | _ => Raise MultipleResultsFound
  end.

Lemma elem_of_filter_list {A} (p : A -> bool) l x :
  x ∈ List.filter p l <-> p x = true /\ x ∈ l.
Proof. rewrite !list_elem_of_In, filter_In. tauto. Qed.

Lemma scalar_one_or_none_some {A} (p : A -> bool) l x :
  scalar_one_or_none (List.filter p l) = Ok (Some x) -> p x = true /\ x ∈ l.
Proof.
  intros H. apply elem_of_filter_list.
  destruct (List.filter p l) as [|y [|]]; simplify_eq/=; set_solver.
Qed.

Lemma update_where_length {A} p (f : A -> A) l : length (update_where p f l) = length l.
Proof. apply length_fmap. Qed.

Lemma elem_of_update_where {A} p (f : A -> A) l y :
  y ∈ update_where p f l <->
  (exists x, x ∈ l /\ p x = true /\ y = f x) \/ (y ∈ l /\ p y = false).
Proof.
  unfold update_where. rewrite list_elem_of_fmap. split.
  - intros (x & -> & Hx). destruct (p x) eqn:E; eauto.
  - intros [(x & Hx & Hp & ->)|[Hy Hp]].
    + exists x. by rewrite Hp.
    + exists y. by rewrite Hp.
Qed.

Lemma update_where_id {A} p (f : A -> A) l :
  (forall x, x ∈ l -> p x = true -> f x = x) -> update_where p f l = l.
Proof.
  intros H. unfold update_where. transitivity (id <$> l); [|apply list_fmap_id].
  apply list_fmap_ext. intros i x Hx. destruct (p x) eqn:E; [|done].
  apply H; [by eapply list_elem_of_lookup_2|done].
Qed.
