(* ===== verification/PyStr.v ===== *)
(** Python text and numbers as the code uses them: [str] methods, [int()],
    [str(int)], [datetime.isoformat].

    A Python [str] is the Rocq string of its UTF-8 bytes; the methods below
    only look at ASCII characters, which UTF-8 keeps distinct from all
    others. *)
From Stdlib Require Import Ascii.
From S2P Require Import Prelude.
Local Open Scope string_scope.
Local Open Scope list_scope.

(** * Characters *)
Definition is_digit (c : ascii) : bool :=
  let n := nat_of_ascii c in (48 <=? n)%nat && (n <=? 57)%nat.
Definition digit_value (c : ascii) : Z := Z.of_nat (nat_of_ascii c) - 48.
#[global] Arguments is_digit : simpl never.
#[global] Arguments digit_value : simpl never.
Definition is_space (c : ascii) : bool :=
  let n := nat_of_ascii c in
  (n =? 32)%nat || ((9 <=? n)%nat && (n <=? 13)%nat) || ((28 <=? n)%nat && (n <=? 31)%nat).
#[global] Arguments is_space : simpl never.
Definition lower_char (c : ascii) : ascii :=
  let n := nat_of_ascii c in
  if (65 <=? n)%nat && (n <=? 90)%nat then ascii_of_nat (n + 32) else c.

(** * [str] methods *)
Definition truthy (s : string) : bool := match s with EmptyString => false | _ => true end.
Definition opt_truthy (s : option string) : bool :=
  match s with Some t => truthy t | None => false end.

Fixpoint lower (s : string) : string :=
  match s with EmptyString => EmptyString | String c t => String (lower_char c) (lower t) end.

Fixpoint lstrip (s : string) : string :=
  match s with
  | EmptyString => EmptyString
  | String c t => if is_space c then lstrip t else s
  end.
Fixpoint rstrip (s : string) : string :=
  match s with
  | EmptyString => EmptyString
  | String c t =>
    match rstrip t with
    | EmptyString => if is_space c then EmptyString else String c EmptyString
    | t' => String c t'
    end
  end.
Definition strip (s : string) : string := rstrip (lstrip s).

Fixpoint startswith (p s : string) : bool :=
  match p, s with
  | EmptyString, _ => true
  | String a p', String b s' => Ascii.eqb a b && startswith p' s'
  | String _ _, EmptyString => false
  end.
(** [p in s] *)
Fixpoint contains_str (p s : string) : bool :=
  startswith p s || match s with EmptyString => false | String _ t => contains_str p t end.

(** [s.split(c)] for a one-character separator: never empty. *)
Fixpoint split (c : ascii) (s : string) : list string :=
  match s with
  | EmptyString => [EmptyString]
  | String a t =>
    if Ascii.eqb a c then EmptyString :: split c t
    else match split c t with
         | w :: ws => String a w :: ws
         | [] => [String a EmptyString]
         end
  end.

(** [sep.join(words)] *)
Fixpoint join (sep : string) (words : list string) : string :=
  match words with
  | [] => EmptyString
  | [w] => w
  | w :: ws => w +:+ sep +:+ join sep ws
  end.

(** [s.rsplit(c, 1)], for a string that holds [c]. *)
Fixpoint rsplit1 (c : ascii) (s : string) : option (string * string) :=
  match s with
  | EmptyString => None
  | String a t =>
    match rsplit1 c t with
    | Some (h, r) => Some (String a h, r)
    | None => if Ascii.eqb a c then Some (EmptyString, t) else None
    end
  end.

Fixpoint contains_char (c : ascii) (s : string) : bool :=
  match s with EmptyString => false | String a t => Ascii.eqb a c || contains_char c t end.

Fixpoint replace_char (c : ascii) (by_ : string) (s : string) : string :=
  match s with
  | EmptyString => EmptyString
  | String a t =>
    if Ascii.eqb a c then by_ +:+ replace_char c by_ t else String a (replace_char c by_ t)
  end.

Fixpoint str_forall (p : ascii -> bool) (s : string) : bool :=
  match s with EmptyString => true | String a t => p a && str_forall p t end.

(** [s[:n]] *)
Fixpoint take_str (n : nat) (s : string) : string :=
  match n, s with
  | O, _ | _, EmptyString => EmptyString
  | Datatypes.S m, String a t => String a (take_str m t)
  end.
(** [s[n:]] *)
Fixpoint drop_str (n : nat) (s : string) : string :=
  match n, s with
  | O, _ => s
  | _, EmptyString => EmptyString
  | Datatypes.S m, String _ t => drop_str m t
  end.

(** * Integers in text *)

(** [str(n)]: the digits of [n], most significant first.  [n] has at most
    one digit more than its binary logarithm, so the fuel suffices. *)
Definition digit_char (d : Z) : ascii := ascii_of_nat (48 + Z.to_nat d).
#[global] Arguments digit_char : simpl never.
Fixpoint dec_digits (fuel : nat) (n : Z) (acc : string) : string :=
  match fuel with
  | O => acc
  | Datatypes.S f =>
    if (n <? 10)%Z then String (digit_char n) acc
    else dec_digits f (n / 10) (String (digit_char (n mod 10)) acc)
  end.
Definition str_nat (n : Z) : string := dec_digits (Datatypes.S (Z.to_nat (Z.log2 n))) n "".
Definition str_int (n : Z) : string :=
  if (n <? 0)%Z then String "-" (str_nat (- n)) else str_nat n.

(** A run of decimal digits, read from the left. *)
Fixpoint digits_value (acc : Z) (s : string) : Z :=
  match s with
  | EmptyString => acc
  | String c t => digits_value (10 * acc + digit_value c) t
  end.

(** The digits of [int()]'s argument: digit groups with single underscores
    between them. *)
Fixpoint int_digits (prev_digit : bool) (s : string) : option string :=
  match s with
  | EmptyString => if prev_digit then Some EmptyString else None
  | String c t =>
    if is_digit c then String c <$> int_digits true t
    else if Ascii.eqb c "_" && prev_digit then int_digits false t else None
  end.

(** [int(s)] *)
Definition int_of_str (s : string) : outcome Z :=
  let '(sign, body) :=
    match strip s with
    | String "-" t => (-1, t)
    | String "+" t => (1, t)
    | t => (1, t)
    end%Z in
  match int_digits false body with
  | Some ds => Ok (sign * digits_value 0 ds)%Z
  | None => Raise (ValueError "invalid literal for int()")
  end.

(** * Dates: [datetime.fromtimestamp(t, timezone.utc).isoformat()], [t] in
    microseconds since the epoch *)
Definition US : Z := 1000000.
Definition minutes (n : Z) : Z := n * 60 * US.
Definition hours (n : Z) : Z := n * 3600 * US.
Definition days (n : Z) : Z := n * 86400 * US.
Definition seconds (n : Z) : Z := n * US.

Definition civil_from_days (z0 : Z) : Z * Z * Z :=
  let z := (z0 + 719468)%Z in
  let era := (z / 146097)%Z in
  let doe := (z - era * 146097)%Z in
  let yoe := ((doe - doe / 1460 + doe / 36524 - doe / 146096) / 365)%Z in
  let doy := (doe - (365 * yoe + yoe / 4 - yoe / 100))%Z in
  let mp := ((5 * doy + 2) / 153)%Z in
  let d := (doy - (153 * mp + 2) / 5 + 1)%Z in
  let m := (if (mp <? 10)%Z then mp + 3 else mp - 9)%Z in
  let y := (yoe + era * 400 + (if (m <=? 2)%Z then 1 else 0))%Z in
  (y, m, d).

Fixpoint zeros (n : nat) : string :=
  match n with O => EmptyString | Datatypes.S m => String "0" (zeros m) end.
Definition pad (width : nat) (n : Z) : string :=
  let s := str_int n in zeros (width - String.length s) +:+ s.

Definition isoformat (t : Z) : string :=
  let us := (t mod US)%Z in
  let sec := (t / US)%Z in
  let '(y, m, d) := civil_from_days (sec / 86400)%Z in
  let r := (sec mod 86400)%Z in
  pad 4 y +:+ "-" +:+ pad 2 m +:+ "-" +:+ pad 2 d +:+ "T"
  +:+ pad 2 (r / 3600) +:+ ":" +:+ pad 2 (r / 60 mod 60) +:+ ":" +:+ pad 2 (r mod 60)
  +:+ (if (us =? 0)%Z then "" else "." +:+ pad 6 us) +:+ "+00:00".

Example isoformat_2024 : isoformat (1709210096 * US + 45)%Z = "2024-02-29T12:34:56.000045+00:00".
Proof. reflexivity. Qed.
Example int_of_str_ex : int_of_str " 51_820 " = Ok 51820%Z.
Proof. reflexivity. Qed.
Example int_of_str_bad : int_of_str "" = Raise (ValueError "invalid literal for int()").
Proof. reflexivity. Qed.

(** [s in l] *)
Definition mem (s : string) (l : list string) : bool := existsb (String.eqb s) l.

(** * Facts *)
Lemma mem_true s l : mem s l = true <-> s ∈ l.
Proof.
  unfold mem. rewrite existsb_exists. setoid_rewrite <-list_elem_of_In.
  setoid_rewrite String.eqb_eq. split; [intros (x & ? & ->)|]; eauto.
Qed.
Lemma mem_false s l : mem s l = false <-> s ∉ l.
Proof. rewrite <-mem_true. destruct (mem s l); naive_solver. Qed.

Lemma str_forall_app p s t : str_forall p (s +:+ t) = str_forall p s && str_forall p t.
Proof. induction s; simpl; [done|]. by rewrite IHs, andb_assoc. Qed.

Lemma split_no_sep c s : contains_char c s = false -> split c s = [s].
Proof.
  induction s as [|a s IH]; simpl; [done|]. intros [-> H]%orb_false_iff. by rewrite IH.
Qed.

Lemma split_app_sep c s t :
  contains_char c s = false -> split c (s +:+ String c t) = s :: split c t.
Proof.
  induction s as [|a s IH]; simpl.
  - by rewrite Ascii.eqb_refl.
  - intros [-> H]%orb_false_iff. by rewrite IH.
Qed.

(** Splitting undoes joining, for words free of the separator. *)
Lemma join_cons c w v ws :
  join (String c "") (w :: v :: ws) = w +:+ String c (join (String c "") (v :: ws)).
Proof. done. Qed.
Lemma split_join c w ws :
  Forall (fun x => contains_char c x = false) (w :: ws) ->
  split c (join (String c "") (w :: ws)) = w :: ws.
Proof.
  revert w. induction ws as [|v ws IH]; intros w Hall; inversion_clear Hall as [|? ? Hw Hws].
  - by apply split_no_sep.
  - rewrite join_cons, split_app_sep by done. f_equal. by apply IH.
Qed.

(** Joining undoes splitting, always. *)
Lemma split_ne c s : split c s <> [].
Proof. destruct s as [|a s]; simpl; [done|]. destruct (Ascii.eqb a c), (split c s); done. Qed.
Lemma join_split c s : join (String c "") (split c s) = s.
Proof.
  induction s as [|a s IH]; [done|]. simpl.
  pose proof (split_ne c s) as Hne.
  destruct (Ascii.eqb_spec a c) as [->|Hac].
  - destruct (split c s) as [|w ws]; [done|].
    rewrite join_cons. by rewrite IH.
  - destruct (split c s) as [|w ws]; [done|].
    rewrite <-IH. by destruct ws.
Qed.

Lemma rsplit1_app c h t :
  contains_char c t = false -> rsplit1 c (h +:+ String c t) = Some (h, t).
Proof.
  intros Ht. induction h as [|a h IH]; simpl.
  - assert (rsplit1 c t = None) as ->.
    { clear -Ht. induction t as [|a t IH]; simpl in *; [done|].
      apply orb_false_iff in Ht as [-> Ht]. by rewrite IH. }
    by rewrite Ascii.eqb_refl.
  - by rewrite IH.
Qed.

(** ** Decimal text *)
Lemma digit_char_spec d :
  (0 <= d < 10)%Z -> digit_value (digit_char d) = d /\ is_digit (digit_char d) = true.
Proof.
  intros Hd.
  assert (d = 0 \/ d = 1 \/ d = 2 \/ d = 3 \/ d = 4 \/ d = 5 \/ d = 6 \/ d = 7 \/ d = 8 \/ d = 9)%Z
    as Hc by lia.
  destruct_or! Hc; subst; split; vm_compute; reflexivity.
Qed.
Lemma digit_value_char d : (0 <= d < 10)%Z -> digit_value (digit_char d) = d.
Proof. apply digit_char_spec. Qed.
Lemma is_digit_char d : (0 <= d < 10)%Z -> is_digit (digit_char d) = true.
Proof. apply digit_char_spec. Qed.

Lemma dec_digits_forall fuel n acc :
  (0 <= n)%Z -> str_forall is_digit (dec_digits fuel n acc) = str_forall is_digit acc.
Proof.
  revert n acc. induction fuel as [|f IH]; intros n acc Hn; cbn [dec_digits]; [done|].
  destruct (Z.ltb_spec n 10); [|rewrite IH by (apply Z.div_pos; lia)]; cbn [str_forall].
  - by rewrite is_digit_char by lia.
  - by rewrite is_digit_char by (apply Z.mod_pos_bound; lia).
Qed.

Lemma dec_digits_value fuel n acc :
  (0 <= n < 2 ^ Z.of_nat fuel)%Z -> digits_value 0 (dec_digits fuel n acc) = digits_value n acc.
Proof.
  revert n acc. induction fuel as [|f IH]; intros n acc Hn; cbn [dec_digits].
  - replace n with 0%Z by (simpl in Hn; lia). done.
  - destruct (Z.ltb_spec n 10).
    + cbn [digits_value]. by rewrite digit_value_char by lia.
    + rewrite IH; cbn [digits_value].
      * rewrite digit_value_char by (apply Z.mod_pos_bound; lia). f_equal.
        rewrite (Z.div_mod n 10) at 3 by lia. lia.
      * split; [apply Z.div_pos; lia|]. apply Z.div_lt_upper_bound; [lia|].
        replace (2 ^ Z.of_nat (Datatypes.S f))%Z with (2 * 2 ^ Z.of_nat f)%Z in Hn by
          (rewrite Nat2Z.inj_succ, Z.pow_succ_r; lia). lia.
Qed.

Lemma str_nat_value n : (0 <= n)%Z -> digits_value 0 (str_nat n) = n.
Proof.
  intros Hn. unfold str_nat. rewrite dec_digits_value; [done|]. split; [done|].
  rewrite Nat2Z.inj_succ, Z2Nat.id by apply Z.log2_nonneg.
  destruct (Z.eq_dec n 0%Z) as [->|]; [done|]. apply Z.log2_spec. lia.
Qed.
Lemma str_nat_digits n : (0 <= n)%Z -> str_forall is_digit (str_nat n) = true.
Proof. intros. unfold str_nat. by rewrite dec_digits_forall. Qed.
Lemma str_nat_ne n : str_nat n <> "".
Proof.
  unfold str_nat. assert (forall f m acc, acc <> "" -> dec_digits f m acc <> "") as H.
  { induction f; intros; simpl; [done|]. destruct (m <? 10)%Z; [done|]. by apply IHf. }
  simpl. destruct (n <? 10)%Z; [done|]. by apply H.
Qed.

Lemma int_digits_all p s :
  str_forall is_digit s = true -> s <> "" \/ p = true -> int_digits p s = Some s.
Proof.
  revert p. induction s as [|c s IH]; intros p; simpl.
  - by intros _ [?| ->].
  - intros [-> H]%andb_true_iff _. rewrite IH by auto. done.
Qed.

Lemma digit_not_space c : is_digit c = true -> is_space c = false.
Proof. by destruct c as [[] [] [] [] [] [] [] []]. Qed.

Lemma strip_digits s : str_forall is_digit s = true -> strip s = s.
Proof.
  intros H. unfold strip. assert (lstrip s = s) as ->.
  { destruct s as [|c s]; [done|]. simpl in *. apply andb_true_iff in H as [Hc _].
    by rewrite (digit_not_space c). }
  induction s as [|c s IH]; [done|]. simpl in *. apply andb_true_iff in H as [Hc Hs].
  rewrite IH by done. rewrite (digit_not_space c) by done. by destruct s.
Qed.

Lemma digits_no_sign c :
  is_digit c = true -> c <> "-"%char /\ c <> "+"%char.
Proof. intros H. split; intros ->; discriminate. Qed.

(** [int(str(n)) == n] *)
Lemma int_of_str_int n : (0 <= n)%Z -> int_of_str (str_int n) = Ok n.
Proof.
  intros Hn. unfold str_int. destruct (Z.ltb_spec n 0); [lia|]. clear H.
  unfold int_of_str. rewrite strip_digits by (by apply str_nat_digits).
  pose proof (str_nat_digits n Hn) as Hd. pose proof (str_nat_ne n) as Hne.
  pose proof (str_nat_value n Hn) as Hv.
  destruct (str_nat n) as [|c s] eqn:E; [done|]. simpl in Hd.
  apply andb_true_iff in Hd as [Hc Hs]. destruct (digits_no_sign c Hc) as [Hm Hp].
  assert (int_digits false (String c s) = Some (String c s)) as Hid.
  { apply int_digits_all; [|by left]. simpl. by rewrite Hc. }
  assert (match String c s with
     | String "-" t => (-1, t) | String "+" t => (1, t) | t => (1, t) end
     = (1, String c s))%Z as ->.
  { clear -Hm Hp. by destruct c as [[] [] [] [] [] [] [] []]. }
  rewrite Hid, Hv. f_equal. lia.
Qed.

Lemma contains_char_forall c p s :
  p c = false -> str_forall p s = true -> contains_char c s = false.
Proof.
  intros Hp. induction s as [|a s IH]; simpl; [done|]. intros [Ha Hs]%andb_true_iff.
  rewrite IH by done. destruct (Ascii.eqb_spec a c) as [->|]; [congruence|done].
Qed.
Lemma str_nat_contains c n : is_digit c = false -> (0 <= n)%Z -> contains_char c (str_nat n) = false.
Proof. intros. by apply (contains_char_forall c is_digit); [|apply str_nat_digits]. Qed.
Lemma contains_app c s t : contains_char c (s +:+ t) = contains_char c s || contains_char c t.
Proof.
  induction s as [|a s IH]; [done|].
  transitivity (Ascii.eqb a c || contains_char c (s +:+ t)); [done|].
  rewrite IH. cbn [contains_char]. by rewrite orb_assoc.
Qed.
