(* ===== verification/Dict.v ===== *)
(** Python dicts with string keys as association lists in insertion order. *)
From S2P Require Import Prelude.
Local Open Scope string_scope.
Local Open Scope list_scope.

Fixpoint dict_get {V} (k : string) (d : list (string * V)) : option V :=
  match d with [] => None | (k', v) :: d => if String.eqb k' k then Some v else dict_get k d end.
Fixpoint dict_set {V} (k : string) (v : V) (d : list (string * V)) : list (string * V) :=
  match d with
  | [] => [(k, v)]
  | (k', v') :: d => if String.eqb k' k then (k, v) :: d else (k', v') :: dict_set k v d
  end.
Definition dict_del {V} (k : string) (d : list (string * V)) : list (string * V) :=
  List.filter (fun kv => negb (String.eqb kv.1 k)) d.

(** * Lemmas *)
Lemma dict_get_in {V} k (v : V) d : dict_get k d = Some v -> (k, v) ∈ d.
Proof.
  induction d as [|[k' v'] d IH]; [done|]. cbn. destruct (String.eqb_spec k' k) as [->|]; intros H.
  - simplify_eq. left.
  - right. by apply IH.
Qed.
Lemma dict_get_unique {V} k (v : V) d : NoDup d.*1 -> (k, v) ∈ d -> dict_get k d = Some v.
Proof.
  induction d as [|[k' v'] d IH]; [set_solver|]. cbn. intros [Hn Hd]%NoDup_cons [[= <- <-]|Hin]%elem_of_cons.
  - by rewrite String.eqb_refl.
  - rewrite (proj2 (String.eqb_neq k' k)); [by apply IH|]. intros ->. apply Hn. by apply (list_elem_of_fmap_2 fst _ (k, v)).
Qed.
Lemma elem_of_dict_set {V} k (v : V) d x :
  NoDup d.*1 -> x ∈ dict_set k v d <-> x = (k, v) \/ (x ∈ d /\ x.1 <> k).
Proof.
  induction d as [|[k' v'] d IH]; cbn; [set_solver|]. intros [Hn Hd]%NoDup_cons.
  destruct (String.eqb_spec k' k) as [->|Hne].
  - rewrite !elem_of_cons. split.
    + intros [->|Hx]; [by left|]. right. split; [by right|]. intros Hk. apply Hn. rewrite <-Hk. by apply list_elem_of_fmap_2.
    + intros [->|[[->|Hx] Hk]]; [by left|done|by right].
  - rewrite !elem_of_cons, IH by done. split.
    + intros [->|[->|[Hx Hk]]]; [right; by split; [left|]|by left|right; by split; [right|]].
    + intros [->|[[->|Hx] Hk]]; [right; by left|by left|right; by right].
Qed.
Lemma dict_set_keys {V} k (v : V) d : NoDup d.*1 -> NoDup (dict_set k v d).*1.
Proof.
  induction d as [|[k' v'] d IH]; cbn; [intros; apply NoDup_singleton|]. intros [Hn Hd]%NoDup_cons.
  destruct (String.eqb_spec k' k) as [->|Hne]; cbn; apply NoDup_cons; split; auto.
  intros ((k0 & v0) & -> & Hx)%list_elem_of_fmap. apply elem_of_dict_set in Hx as [[= -> _]|[Hx _]]; [done| |done].
  apply Hn. by apply (list_elem_of_fmap_2 fst _ (k0, v0)).
Qed.
Lemma elem_of_dict_del {V} k (d : list (string * V)) x : x ∈ dict_del k d <-> x ∈ d /\ x.1 <> k.
Proof. unfold dict_del. rewrite elem_of_filter_list, negb_true_iff, String.eqb_neq. tauto. Qed.
Lemma dict_del_keys {V} k (d : list (string * V)) : NoDup d.*1 -> NoDup (dict_del k d).*1.
Proof.
  unfold dict_del. induction d as [|[k' v'] d IH]; [done|]. cbn. intros [Hn Hd]%NoDup_cons.
  destruct (String.eqb_spec k' k); cbn; [by apply IH|]. apply NoDup_cons. split; [|by apply IH].
  intros (x & Hx & [_ Hin]%elem_of_filter_list)%list_elem_of_fmap. apply Hn. rewrite Hx. by apply list_elem_of_fmap_2.
Qed.
Lemma dict_get_set {V} k (v : V) d : dict_get k (dict_set k v d) = Some v.
Proof.
  induction d as [|[k' v'] d IH]; cbn; [by rewrite String.eqb_refl|].
  destruct (String.eqb_spec k' k) as [->|Hne]; cbn; [by rewrite String.eqb_refl|].
  by rewrite (proj2 (String.eqb_neq k' k)).
Qed.
Lemma dict_get_set_ne {V} k k' (v : V) d : k' <> k -> dict_get k' (dict_set k v d) = dict_get k' d.
Proof.
  intros Hne. induction d as [|[k0 v0] d IH]; cbn; [by rewrite (proj2 (String.eqb_neq k k'))|].
  destruct (String.eqb_spec k0 k) as [->|Hk]; cbn; [by rewrite (proj2 (String.eqb_neq k k'))|].
  by rewrite IH.
Qed.
