(* ===== verification/Bytes.v ===== *)
(** Python [bytes] as the code uses them: [struct.pack]/[struct.unpack] in
    network order, [bytes.hex], [bytes.index], strict UTF-8 decoding.

    A [bytes] value is the Rocq string of its bytes, so [str.encode()] is the
    identity and [bytes.decode()] only checks that the bytes are UTF-8. *)
From Stdlib Require Import Ascii.
From S2P Require Import Prelude PyStr.
Local Open Scope string_scope.
Local Open Scope list_scope.
Local Open Scope Z_scope.

Definition bytes := string.

Definition byte_of_Z (z : Z) : ascii := ascii_of_N (Z.to_N (z mod 256)).
Definition Z_of_byte (c : ascii) : Z := Z.of_N (N_of_ascii c).
#[global] Arguments byte_of_Z : simpl never.
#[global] Arguments Z_of_byte : simpl never.

Definition len (b : bytes) : Z := Z.of_nat (String.length b).

(** The [n] low bytes of [z], most significant first. *)
Fixpoint be_bytes (n : nat) (z : Z) : bytes :=
  match n with
  | O => EmptyString
  | Datatypes.S m => String (byte_of_Z (z / 256 ^ Z.of_nat m)) (be_bytes m z)
  end.
Fixpoint be_value_acc (acc : Z) (b : bytes) : Z :=
  match b with
  | EmptyString => acc
  | String c t => be_value_acc (256 * acc + Z_of_byte c) t
  end.
Definition be_value (b : bytes) : Z := be_value_acc 0 b.

(** [struct.pack] of one unsigned [n]-byte field in network order. *)
Definition pack (n : nat) (z : Z) : outcome bytes :=
  if (0 <=? z) && (z <? 256 ^ Z.of_nat n) then Ok (be_bytes n z) else Raise StructError.
(** [struct.unpack] of one such field: the data must be exactly as long. *)
Definition unpack (n : nat) (b : bytes) : outcome Z :=
  if (String.length b =? n)%nat then Ok (be_value b) else Raise StructError.

(** [b[i:j]] for [0 <= i <= j]. *)
Definition slice (i j : nat) (b : bytes) : bytes := take_str (j - i) (drop_str i b).
(** [b[i]] *)
Definition byte_at (i : nat) (b : bytes) : outcome Z :=
  match String.get i b with Some c => Ok (Z_of_byte c) | None => Raise IndexError end.

Definition hex_char (n : N) : ascii := ascii_of_N (if (n <? 10)%N then 48 + n else 87 + n).
Fixpoint hex (b : bytes) : string :=
  match b with
  | EmptyString => EmptyString
  | String c t =>
    String (hex_char (N_of_ascii c / 16)) (String (hex_char (N_of_ascii c mod 16)) (hex t))
  end.

(** [b.index(c)], with the parts before and after the separator. *)
Fixpoint break_at (c : ascii) (b : bytes) : outcome (bytes * bytes) :=
  match b with
  | EmptyString => Raise (ValueError "subsection not found")
  | String a t =>
    if Ascii.eqb a c then Ok (EmptyString, t)
    else match break_at c t with
         | Ok (h, r) => Ok (String a h, r)
         | Raise e => Raise e
         end
  end.

(** Strict UTF-8: no overlong forms, no surrogates, nothing above U+10FFFF. *)
Definition between (lo hi : N) (c : ascii) : bool := (lo <=? N_of_ascii c)%N && (N_of_ascii c <=? hi)%N.
Fixpoint utf8_valid (b : bytes) : bool :=
  match b with
  | EmptyString => true
  | String c t =>
    if between 0 127 c then utf8_valid t
    else if between 194 223 c then
      match t with String c1 t1 => between 128 191 c1 && utf8_valid t1 | _ => false end
    else if between 224 239 c then
      match t with
      | String c1 (String c2 t2) =>
        between (if between 224 224 c then 160 else 128) (if between 237 237 c then 159 else 191) c1
        && between 128 191 c2 && utf8_valid t2
      | _ => false
      end
    else if between 240 244 c then
      match t with
      | String c1 (String c2 (String c3 t3)) =>
        between (if between 240 240 c then 144 else 128) (if between 244 244 c then 143 else 191) c1
        && between 128 191 c2 && between 128 191 c3 && utf8_valid t3
      | _ => false
      end
    else false
  end.
(** [b.decode()]; [UnicodeDecodeError] is a [ValueError]. *)
Definition decode (b : bytes) : outcome string :=
  if utf8_valid b then Ok b else Raise (ValueError "utf-8 codec can't decode").

(** * Facts *)
Lemma Z_of_byte_bound c : 0 <= Z_of_byte c < 256.
Proof. unfold Z_of_byte. pose proof (N_ascii_bounded c). lia. Qed.
Lemma Z_of_byte_of_Z z : Z_of_byte (byte_of_Z z) = z mod 256.
Proof.
  unfold Z_of_byte, byte_of_Z. pose proof (Z.mod_pos_bound z 256).
  rewrite N_ascii_embedding; lia.
Qed.
Lemma byte_of_Z_of_byte c : byte_of_Z (Z_of_byte c) = c.
Proof.
  unfold byte_of_Z. rewrite Z.mod_small by apply Z_of_byte_bound.
  unfold Z_of_byte. by rewrite N2Z.id, ascii_N_embedding.
Qed.

Lemma str_length_app s t : String.length (s +:+ t) = (String.length s + String.length t)%nat.
Proof. induction s; simpl; [done|]. by rewrite IHs. Qed.
Lemma str_app_assoc (s t u : string) : (s +:+ t) +:+ u = s +:+ (t +:+ u).
Proof. induction s as [|c s IH]; [done|]. exact (f_equal (String c) IH). Qed.
Lemma str_app_nil (s : string) : s +:+ "" = s.
Proof. induction s as [|c s IH]; [done|]. exact (f_equal (String c) IH). Qed.
Lemma take_str_app s t : take_str (String.length s) (s +:+ t) = s.
Proof. induction s; simpl; [by destruct t|]. by rewrite IHs. Qed.
Lemma drop_str_app s t : drop_str (String.length s) (s +:+ t) = t.
Proof. by induction s. Qed.
Lemma take_str_len n s t : String.length s = n -> take_str n (s +:+ t) = s.
Proof. intros <-. apply take_str_app. Qed.
Lemma drop_str_len n s t : String.length s = n -> drop_str n (s +:+ t) = t.
Proof. intros <-. apply drop_str_app. Qed.
Lemma take_drop_str n s : take_str n s +:+ drop_str n s = s.
Proof.
  revert s. induction n as [|n IH]; intros [|c s]; try done. exact (f_equal (String c) (IH s)).
Qed.
Lemma take_str_length n s : String.length (take_str n s) = (n `min` String.length s)%nat.
Proof. revert s. induction n as [|n IH]; intros [|c s]; simpl; try done. by rewrite IH. Qed.
Lemma startswith_drop p t : startswith p t = true -> t = p +:+ drop_str (String.length p) t.
Proof.
  revert t. induction p as [|a p IH]; intros [|b t] E; try done.
  cbn in E. apply andb_true_iff in E as [->%Ascii.eqb_eq E]. exact (f_equal (String b) (IH t E)).
Qed.
Lemma drop_str_drop m n (t : string) : drop_str m (drop_str n t) = drop_str (n + m) t.
Proof. revert t. induction n as [|n IH]; [done|]. intros [|c t]; [by destruct m|apply IH]. Qed.
Lemma drop_str_length n s : String.length (drop_str n s) = (String.length s - n)%nat.
Proof. revert s. induction n as [|n IH]; intros [|c s]; simpl; done. Qed.
Lemma take_str_all n s : (String.length s <= n)%nat -> take_str n s = s.
Proof. revert s. induction n as [|n IH]; intros [|c s]; simpl; intros; try done; [lia|]. rewrite IH; [done|lia]. Qed.
Lemma take_str_app_le n s t : (n <= String.length s)%nat -> take_str n (s +:+ t) = take_str n s.
Proof.
  revert s. induction n as [|n IH]; intros [|c s] H; cbn in H; try lia; try (by destruct t).
  exact (f_equal (String c) (IH s ltac:(lia))).
Qed.
Lemma drop_str_app_le n s t : (n <= String.length s)%nat -> drop_str n (s +:+ t) = drop_str n s +:+ t.
Proof.
  revert s. induction n as [|n IH]; intros [|c s] H; cbn in H; try done; try lia. apply IH. lia.
Qed.

Lemma be_bytes_length n z : String.length (be_bytes n z) = n.
Proof. induction n; simpl; [done|]. by rewrite IHn. Qed.

Lemma be_value_acc_bytes n acc z :
  be_value_acc acc (be_bytes n z) = acc * 256 ^ Z.of_nat n + z mod 256 ^ Z.of_nat n.
Proof.
  revert acc. induction n as [|n IH]; intros acc; cbn [be_bytes be_value_acc].
  - rewrite Z.mod_1_r. lia.
  - rewrite IH, Z_of_byte_of_Z, Nat2Z.inj_succ, Z.pow_succ_r by lia.
    set (p := 256 ^ Z.of_nat n). assert (0 < p) by (apply Z.pow_pos_nonneg; lia).
    rewrite (Z.mul_comm 256 p), (Z.rem_mul_r z p 256) by lia. lia.
Qed.
Lemma be_value_bytes n z : 0 <= z < 256 ^ Z.of_nat n -> be_value (be_bytes n z) = z.
Proof. intros H. unfold be_value. rewrite be_value_acc_bytes, Z.mod_small by done. lia. Qed.

Lemma unpack_pack n z b : pack n z = Ok b -> unpack n b = Ok z.
Proof.
  unfold pack, unpack. destruct (_ && _) eqn:E; [|done]. intros [= <-].
  rewrite be_bytes_length, Nat.eqb_refl. rewrite be_value_bytes; [done|lia].
Qed.
Lemma pack_ok n z : 0 <= z < 256 ^ Z.of_nat n -> pack n z = Ok (be_bytes n z).
Proof. intros H. unfold pack. by replace (_ && _) with true by lia. Qed.
Lemma pack_length n z b : pack n z = Ok b -> String.length b = n.
Proof. unfold pack. case_match; [|done]. intros [= <-]. apply be_bytes_length. Qed.

Lemma be_value_pack n z b : pack n z = Ok b -> be_value b = z.
Proof.
  unfold pack. destruct (_ && _) eqn:E; [|done]. intros H.
  assert (b = be_bytes n z) as -> by congruence. apply be_value_bytes. lia.
Qed.

Lemma be_value_acc_bound b acc :
  0 <= acc -> acc * 256 ^ len b <= be_value_acc acc b < (acc + 1) * 256 ^ len b.
Proof.
  revert acc. induction b as [|c b IH]; intros acc Hacc; unfold len in *; cbn [be_value_acc String.length].
  - rewrite Z.pow_0_r. lia.
  - rewrite Nat2Z.inj_succ, Z.pow_succ_r by lia. pose proof (Z_of_byte_bound c).
    specialize (IH (256 * acc + Z_of_byte c) ltac:(lia)).
    assert (0 < 256 ^ Z.of_nat (String.length b)) by (apply Z.pow_pos_nonneg; lia). nia.
Qed.
Lemma be_value_bound b : 0 <= be_value b < 256 ^ len b.
Proof. pose proof (be_value_acc_bound b 0). unfold be_value. lia. Qed.

Lemma break_at_app c h t :
  contains_char c h = false -> break_at c (h +:+ String c t) = Ok (h, t).
Proof.
  induction h as [|a h IH]; simpl; [by rewrite Ascii.eqb_refl|].
  intros [-> H]%orb_false_iff. by rewrite IH.
Qed.
