(* ===== verification/Paths.v ===== *)
(** File names: [os.path.join], with the facts its callers share. *)
From Stdlib Require Import Ascii.
From S2P Require Import Prelude PyStr Bytes.
Local Open Scope string_scope.
Local Open Scope list_scope.

(** [os.path.join(a, b)] for two parts. *)
Fixpoint ends_slash (s : string) : bool :=
  match s with EmptyString => false | String c EmptyString => Ascii.eqb c "/" | String _ t => ends_slash t end.
Definition path_join (a b : string) : string :=
  if startswith "/" b then b
  else if negb (truthy a) || ends_slash a then a +:+ b
  else a +:+ "/" +:+ b.

Lemma startswith_slash a b : truthy a = true -> startswith "/" a = false -> startswith "/" (a +:+ b) = false.
Proof. destruct a as [|c a]; [done|]. intros _ H. cbn in *. done. Qed.
Lemma path_join_pre dir :
  exists pre, forall name, startswith "/" name = false -> path_join dir name = pre +:+ name.
Proof.
  destruct (negb (truthy dir) || ends_slash dir) eqn:E.
  - exists dir. intros name Hn. unfold path_join. by rewrite Hn, E.
  - exists (dir +:+ "/"). intros name Hn. unfold path_join. by rewrite Hn, E, str_app_assoc.
Qed.
Lemma ends_slash_app a b : truthy b = true -> ends_slash (a +:+ b) = ends_slash b.
Proof.
  intros Hb. induction a as [|c a IH]; [done|].
  change (match a +:+ b with "" => Ascii.eqb c "/" | _ => ends_slash (a +:+ b) end = ends_slash b).
  rewrite IH. destruct a, b; done.
Qed.
Lemma app_inj (p a b : string) : p +:+ a = p +:+ b -> a = b.
Proof. induction p as [|c p IH]; [done|]. intros H. apply IH. by injection H. Qed.
