(* ===== verification/Json.v ===== *)
(** JSON values and Python's [json] module: [dumps] with its default
    separators, and [loads], a recursive descent over the text.

    A float is kept as the literal it was read from; the code never computes
    with one.  Text is UTF-8; [dumps] escapes what is not ASCII, as the
    module's default does. *)
From Stdlib Require Import Ascii.
From S2P Require Import Prelude PyStr.
Local Open Scope string_scope.
Local Open Scope list_scope.


Inductive json :=
  | JNull
  | JBool (b : bool)
  | JInt (n : Z)
  | JFloat (literal : string)
  | JStr (s : string)
  | JArr (items : list json)
  | JObj (members : list (string * json)).

(** * Dictionaries: association lists in insertion order *)
Definition obj := list (string * json).

Fixpoint obj_get (k : string) (o : obj) : option json :=
  match o with
  | [] => None
  | (k', v) :: rest => if String.eqb k k' then Some v else obj_get k rest
  end.
(** [d[k] = v]: an old key keeps its place, a new key goes last. *)
Fixpoint obj_set (k : string) (v : json) (o : obj) : obj :=
  match o with
  | [] => [(k, v)]
  | (k', v') :: rest => if String.eqb k k' then (k, v) :: rest else (k', v') :: obj_set k v rest
  end.

Lemma obj_get_set k v o : obj_get k (obj_set k v o) = Some v.
Proof.
  induction o as [|[k' v'] o IH]; simpl; [by rewrite String.eqb_refl|].
  destruct (String.eqb_spec k k') as [->|Hk]; simpl.
  - by rewrite String.eqb_refl.
  - apply String.eqb_neq in Hk. by rewrite Hk.
Qed.
Lemma obj_get_set_ne k k' v o : k <> k' -> obj_get k (obj_set k' v o) = obj_get k o.
Proof.
  intros Hk. induction o as [|[k1 v1] o IH]; simpl.
  - by rewrite (proj2 (String.eqb_neq k k')).
  - destruct (String.eqb_spec k' k1) as [->|?]; simpl; [by rewrite (proj2 (String.eqb_neq k k1))|].
    by rewrite IH.
Qed.
Lemma obj_set_fresh k v o : k ∉ o.*1 -> obj_set k v o = o ++ [(k, v)].
Proof.
  induction o as [|[k1 v1] o IH]; csimpl; [done|]. intros [Hk Ho]%not_elem_of_cons.
  apply String.eqb_neq in Hk. rewrite Hk. by rewrite IH.
Qed.

(** JSON views of optional columns. *)
Definition jstr_opt (s : option string) : json := match s with Some t => JStr t | None => JNull end.
Definition jint_opt (n : option Z) : json := match n with Some z => JInt z | None => JNull end.

(** Python's truth of a JSON value. *)
Definition json_truthy (j : json) : bool :=
  match j with
  | JNull => false
  | JBool b => b
  | JInt n => negb (n =? 0)%Z
  | JFloat l => negb (str_forall (fun c => Ascii.eqb c "0" || Ascii.eqb c "." || Ascii.eqb c "-") l)
  | JStr s => truthy s
  | JArr l => match l with [] => false | _ => true end
  | JObj l => match l with [] => false | _ => true end
  end.

(** * [dumps] *)
Definition hex_digit (n : N) : ascii :=
  ascii_of_N (if (n <? 10)%N then 48 + n else 87 + n).
Definition hex4 (n : N) : string :=
  String (hex_digit (n / 4096 mod 16)) (String (hex_digit (n / 256 mod 16))
    (String (hex_digit (n / 16 mod 16)) (String (hex_digit (n mod 16)) ""))).
Definition u_escape (n : N) : string := String "\" (String "u" (hex4 n)).

(** The code point at the head of UTF-8 text and the number of further bytes
    it takes. *)
Definition cont (c : ascii) : N := (N_of_ascii c mod 64)%N.
Definition code_point (c : ascii) (t : string) : N * nat :=
  let n := N_of_ascii c in
  match t with
  | String c1 (String c2 (String c3 _)) =>
    if (240 <=? n)%N then ((n mod 8) * 262144 + cont c1 * 4096 + cont c2 * 64 + cont c3, 3%nat)%N
    else if (224 <=? n)%N then ((n mod 16) * 4096 + cont c1 * 64 + cont c2, 2%nat)%N
    else ((n mod 32) * 64 + cont c1, 1%nat)%N
  | String c1 (String c2 _) =>
    if (224 <=? n)%N then ((n mod 16) * 4096 + cont c1 * 64 + cont c2, 2%nat)%N
    else ((n mod 32) * 64 + cont c1, 1%nat)%N
  | String c1 _ => ((n mod 32) * 64 + cont c1, 1%nat)%N
  | _ => (n, 0%nat)
  end.
Definition u_escape_point (n : N) : string :=
  if (n <? 65536)%N then u_escape n
  else u_escape (55296 + (n - 65536) / 1024) +:+ u_escape (56320 + (n - 65536) mod 1024).

Definition escape_ascii (c : ascii) : string :=
  let n := N_of_ascii c in
  if (n =? 34)%N then String "\" (String c "")
  else if (n =? 92)%N then "\\"
  else if (n =? 10)%N then "\n"
  else if (n =? 13)%N then "\r"
  else if (n =? 9)%N then "\t"
  else if (n =? 8)%N then "\b"
  else if (n =? 12)%N then "\f"
  else if (n <? 32)%N || (n =? 127)%N then u_escape n
  else String c "".

(** [skip] counts the continuation bytes the last escape has covered. *)
Fixpoint escape (skip : nat) (s : string) : string :=
  match s with
  | EmptyString => ""
  | String c t =>
    match skip with
    | Datatypes.S k => escape k t
    | O =>
      if (N_of_ascii c <? 128)%N then escape_ascii c +:+ escape 0 t
      else let '(n, k) := code_point c t in u_escape_point n +:+ escape k t
    end
  end.
Definition QUOTE : ascii := ascii_of_nat 34.
Definition dump_str (s : string) : string := String QUOTE (escape 0 s +:+ String QUOTE "").

Fixpoint dumps (j : json) : string :=
  match j with
  | JNull => "null"
  | JBool true => "true"
  | JBool false => "false"
  | JInt n => str_int n
  | JFloat l => l
  | JStr s => dump_str s
  | JArr items => "[" +:+ join ", " (dumps <$> items) +:+ "]"
  | JObj members =>
    "{" +:+ join ", " ((fun '(k, v) => dump_str k +:+ ": " +:+ dumps v) <$> members) +:+ "}"
  end.

(** * [loads] *)
Definition is_ws (c : ascii) : bool :=
  let n := N_of_ascii c in (n =? 32)%N || (n =? 9)%N || (n =? 10)%N || (n =? 13)%N.
Fixpoint skip_ws (s : string) : string :=
  match s with
  | String c t => if is_ws c then skip_ws t else s
  | EmptyString => s
  end.
Fixpoint span_digits (s : string) : string * string :=
  match s with
  | String c t => if is_digit c then let '(d, r) := span_digits t in (String c d, r) else ("", s)
  | EmptyString => ("", "")
  end.

Definition hex_value (c : ascii) : option N :=
  let n := N_of_ascii c in
  if (48 <=? n)%N && (n <=? 57)%N then Some (n - 48)%N
  else if (97 <=? n)%N && (n <=? 102)%N then Some (n - 87)%N
  else if (65 <=? n)%N && (n <=? 70)%N then Some (n - 55)%N
  else None.
Definition read_hex4 (s : string) : option (N * string) :=
  match s with
  | String a (String b (String c (String d t))) =>
    a' ← hex_value a; b' ← hex_value b; c' ← hex_value c; d' ← hex_value d;
    Some (a' * 4096 + b' * 256 + c' * 16 + d', t)%N
  | _ => None
  end.
Definition utf8 (n : N) : string :=
  let ch x := ascii_of_N x in
  if (n <? 128)%N then String (ch n) ""
  else if (n <? 2048)%N then String (ch (192 + n / 64)%N) (String (ch (128 + n mod 64)%N) "")
  else if (n <? 65536)%N then
    String (ch (224 + n / 4096)%N) (String (ch (128 + n / 64 mod 64)%N) (String (ch (128 + n mod 64)%N) ""))
  else String (ch (240 + n / 262144)%N) (String (ch (128 + n / 4096 mod 64)%N)
    (String (ch (128 + n / 64 mod 64)%N) (String (ch (128 + n mod 64)%N) ""))).

(** After a backslash. *)
Definition read_escape (s : string) : option (string * string) :=
  match s with
  | EmptyString => None
  | String c t =>
    let n := N_of_ascii c in
    if (n =? 34)%N || (n =? 92)%N || (n =? 47)%N then Some (String c "", t)
    else if (n =? 98)%N then Some (String (ascii_of_N 8) "", t)
    else if (n =? 102)%N then Some (String (ascii_of_N 12) "", t)
    else if (n =? 110)%N then Some (String (ascii_of_N 10) "", t)
    else if (n =? 114)%N then Some (String (ascii_of_N 13) "", t)
    else if (n =? 116)%N then Some (String (ascii_of_N 9) "", t)
    else if (n =? 117)%N then
      '(u, t1) ← read_hex4 t;
      match t1 with
      | String x (String y t2) =>
        if (55296 <=? u)%N && (u <? 56320)%N && Ascii.eqb x "\" && Ascii.eqb y "u" then
          match read_hex4 t2 with
          | Some (l, t3) =>
            if (56320 <=? l)%N && (l <? 57344)%N
            then Some (utf8 (65536 + (u - 55296) * 1024 + (l - 56320)), t3)%N
            else Some (utf8 u, t1)
          | None => None
          end
        else Some (utf8 u, t1)
      | _ => Some (utf8 u, t1)
      end
    else None
  end.

(** The rest of a string literal, its opening quote already read. *)
Fixpoint read_str (fuel : nat) (s : string) : option (string * string) :=
  match fuel, s with
  | Datatypes.S f, String c t =>
    let n := N_of_ascii c in
    if (n =? 34)%N then Some ("", t)
    else if (n =? 92)%N then
      '(e, t1) ← read_escape t; '(rest, t2) ← read_str f t1; Some (e +:+ rest, t2)
    else if (n <? 32)%N then None
    else '(rest, t1) ← read_str f t; Some (String c rest, t1)
  | _, _ => None
  end.

Definition read_exp (s : string) : string * string :=
  match s with
  | String e t =>
    if Ascii.eqb e "e" || Ascii.eqb e "E" then
      let '(sg, t1) := match t with
                       | String c t' => if Ascii.eqb c "+" || Ascii.eqb c "-" then (String c "", t') else ("", t)
                       | _ => ("", t)
                       end in
      match span_digits t1 with
      | ("", _) => ("", s)
      | (d, r) => (String e (sg +:+ d), r)
      end
    else ("", s)
  | _ => ("", s)
  end.
Definition read_frac (s : string) : string * string :=
  match s with
  | String "." t => match span_digits t with ("", _) => ("", s) | (d, r) => (String "." d, r) end
  | _ => ("", s)
  end.

(** A number: an integer unless a fraction or an exponent follows. *)
Definition read_number (s : string) : option (json * string) :=
  let '(sign, body) := match s with String "-" t => ("-", t) | _ => ("", s) end in
  let '(ds, rest) := match body with
                     | String "0" t => ("0", t)
                     | _ => span_digits body
                     end in
  match ds with
  | EmptyString => None
  | _ =>
    let '(fr, r1) := read_frac rest in
    let '(ex, r2) := read_exp r1 in
    match fr +:+ ex with
    | EmptyString =>
      Some (JInt (if truthy sign then - digits_value 0 ds else digits_value 0 ds)%Z, r2)
    | _ => Some (JFloat (sign +:+ ds +:+ fr +:+ ex), r2)
    end
  end.

Definition literal (w : string) (j : json) (s : string) : option (json * string) :=
  if startswith w s then Some (j, drop_str (String.length w) s) else None.

(** [read_value], [read_items] and [read_members] of the decoder, the opening
    bracket of the last two already read. *)
Inductive want := WValue | WItems (acc : list json) | WMembers (acc : obj).
Fixpoint read (fuel : nat) (w : want) (s0 : string) : option (json * string) :=
  match fuel with
  | O => None
  | Datatypes.S f =>
    let s := skip_ws s0 in
    match w with
    | WValue =>
      match s with
      | EmptyString => None
      | String c t =>
        if Ascii.eqb c QUOTE then '(x, r) ← read_str (Datatypes.S (String.length t)) t; Some (JStr x, r)
        else if Ascii.eqb c "{" then
          match skip_ws t with
          | String "}" r => Some (JObj [], r)
          | r => read f (WMembers []) r
          end
        else if Ascii.eqb c "[" then
          match skip_ws t with
          | String "]" r => Some (JArr [], r)
          | r => read f (WItems []) r
          end
        else if Ascii.eqb c "n" then literal "null" JNull s
        else if Ascii.eqb c "t" then literal "true" (JBool true) s
        else if Ascii.eqb c "f" then literal "false" (JBool false) s
        else if Ascii.eqb c "N" then literal "NaN" (JFloat "NaN") s
        else if Ascii.eqb c "I" then literal "Infinity" (JFloat "Infinity") s
        else if startswith "-I" s then literal "-Infinity" (JFloat "-Infinity") s
        else read_number s
      end
    | WItems acc =>
      '(x, r) ← read f WValue s;
      match skip_ws r with
      | String "," r1 => read f (WItems (x :: acc)) r1
      | String "]" r1 => Some (JArr (rev (x :: acc)), r1)
      | _ => None
      end
    | WMembers acc =>
      match s with
      | String c t =>
        if Ascii.eqb c QUOTE then
          '(k, r) ← read_str (Datatypes.S (String.length t)) t;
          match skip_ws r with
          | String ":" r1 =>
            '(x, r2) ← read f WValue r1;
            match skip_ws r2 with
            | String "," r3 => read f (WMembers (obj_set k x acc)) r3
            | String "}" r3 => Some (JObj (obj_set k x acc), r3)
            | _ => None
            end
          | _ => None
          end
        else None
      | EmptyString => None
      end
    end
  end.

(** Every step of [read] consumes a character or turns to a part of the text,
    so twice the length is enough fuel. *)
Definition loads (s : string) : outcome json :=
  match read (2 * String.length s + 2) WValue s with
  | Some (j, r) => match skip_ws r with EmptyString => Ok j | _ => Raise JSONDecodeError end
  | None => Raise JSONDecodeError
  end.

Definition sample : json :=
  JObj [("token", JStr "a-b"); ("session_id", JNull);
        ("stats", JObj [("rx", JInt 120); ("tx", JInt (-7)); ("l", JArr [JBool true; JBool false; JArr []])])].
Example loads_dumps_sample : loads (dumps sample) = Ok sample.
Proof. vm_compute. reflexivity. Qed.
Example loads_float : loads " [1.5e3 , -0, 12 ]" = Ok (JArr [JFloat "1.5e3"; JInt 0; JInt 12]).
Proof. vm_compute. reflexivity. Qed.
Example loads_bad : loads "{1:2}" = Raise JSONDecodeError /\ loads "[1,]" = Raise JSONDecodeError
  /\ loads "01" = Raise JSONDecodeError.
Proof. vm_compute. repeat split. Qed.
