(* ===== verification/JsonText.v ===== *)
(** Reading JSON text back: [json.loads] undoes [json.dumps] and
    [json.dump(..., indent=2)] on values without floats whose text is ASCII
    and whose objects name each key once. *)
From Stdlib Require Import Ascii.
From S2P Require Import Prelude PyStr Bytes Json.
Local Open Scope string_scope.
Local Open Scope list_scope.
Local Open Scope Z_scope.

(** Induction over the nested lists of a value. *)
Lemma json_nested_ind (P : json -> Prop) :
  P JNull -> (forall b, P (JBool b)) -> (forall n, P (JInt n)) -> (forall l, P (JFloat l)) ->
  (forall s, P (JStr s)) -> (forall l, Forall P l -> P (JArr l)) ->
  (forall m, Forall (fun kv => P kv.2) m -> P (JObj m)) -> forall j, P j.
Proof.
  intros Hnull Hbool Hint Hfloat Hstr Harr Hobj. fix rec 1.
  intros [|b|n|l|s|items|members]; [apply Hnull|apply Hbool|apply Hint|apply Hfloat|apply Hstr| |].
  - apply Harr. induction items as [|x items IH]; [constructor|]. constructor; [apply rec|exact IH].
  - apply Hobj. induction members as [|[k x] members IH]; constructor; [apply rec|exact IH].
Qed.

Lemma some_bind {A B} (a : A) (f : A -> option B) : Some a ≫= f = f a.
Proof. reflexivity. Qed.

(** * Values whose text reads back *)
Definition ascii_text (s : string) : bool := str_forall (fun c => (N_of_ascii c <? 128)%N) s.
Fixpoint plain (j : json) : bool :=
  match j with
  | JFloat _ => false
  | JStr s => ascii_text s
  | JArr items => forallb plain items
  | JObj members =>
    forallb (fun '(k, v) => ascii_text k && plain v) members && bool_decide (NoDup members.*1)
  | _ => true
  end.

(** * Layouts: where the printer breaks lines

    [before n] stands after an opening and before a closing bracket at depth
    [n], [gap n] after a comma. *)
Section Layout.
Context (before gap : nat -> string).

Fixpoint print (n : nat) (j : json) : string :=
  match j with
  | JArr [] => "[]"
  | JArr items =>
    "[" +:+ before (S n) +:+ join ("," +:+ gap (S n)) (print (S n) <$> items) +:+ before n +:+ "]"
  | JObj [] => "{}"
  | JObj members =>
    "{" +:+ before (S n) +:+
    join ("," +:+ gap (S n)) ((fun '(k, v) => dump_str k +:+ ": " +:+ print (S n) v) <$> members) +:+
    before n +:+ "}"
  | _ => dumps j
  end.
End Layout.

Definition compact (n : nat) : string := "".
Definition space (n : nat) : string := " ".
Fixpoint spaces (n : nat) : string := match n with O => "" | S m => String " " (spaces m) end.
Definition line (n : nat) : string := String (ascii_of_nat 10) (spaces (2 * n)).

(** [json.dump(data, f, indent=2)] *)
Definition dump_indent (j : json) : string := print line line 0 j.

Lemma dumps_print n j : dumps j = print compact space n j.
Proof.
  revert n. induction j as [| | | | |[|x l] Hl|[|[k v] l] Hl] using json_nested_ind; intros depth; try done.
  - assert (dumps <$> x :: l = print compact space (S depth) <$> x :: l) as E
      by (apply Forall_fmap_ext; eapply Forall_impl; [exact Hl|]; eauto).
    cbn [dumps print]. by rewrite E.
  - match goal with |- dumps (JObj ?m) = _ => set (ms := m) in * end.
    assert (((fun '(k, v) => dump_str k +:+ ": " +:+ dumps v) <$> ms) =
            ((fun '(k, v) => dump_str k +:+ ": " +:+ print compact space (S depth) v) <$> ms)) as E.
    { apply Forall_fmap_ext. eapply Forall_impl; [exact Hl|]. intros [k' v'] H. cbn in *. by rewrite (H (S depth)). }
    cbn [dumps]. rewrite E. done.
Qed.

(** * White space *)
Lemma skip_ws_app p s : str_forall is_ws p = true -> skip_ws (p +:+ s) = skip_ws s.
Proof.
  induction p as [|c p IH]; [done|]. cbn [str_forall]. intros [Hc Hp]%andb_true_iff.
  transitivity (skip_ws (String c (p +:+ s))); [done|]. cbn [skip_ws]. rewrite Hc. by apply IH.
Qed.
Lemma skip_ws_head c s : is_ws c = false -> skip_ws (String c s) = String c s.
Proof. intros H. cbn. by rewrite H. Qed.
Lemma read_ws f w p s : str_forall is_ws p = true -> read f w (p +:+ s) = read f w s.
Proof. intros H. destruct f; [done|]. cbn [read]. by rewrite skip_ws_app. Qed.

(** * Strings *)
Definition plain_char (c : ascii) : bool :=
  let n := N_of_ascii c in negb (n =? 34)%N && negb (n =? 92)%N && negb (n <? 32)%N.
Lemma escape_char c t :
  (N_of_ascii c <? 128)%N = true ->
  (plain_char c = true /\ escape_ascii c = String c "") \/
  exists e, escape_ascii c = String "\" e /\ read_escape (e +:+ t) = Some (String c "", t).
Proof.
  intros Hc. destruct t as [|x [|y t]];
    destruct c as [[] [] [] [] [] [] [] []]; try (vm_compute in Hc; discriminate Hc);
    try (left; split; reflexivity); right; eexists; split; reflexivity.
Qed.

Lemma read_str_escape s r f :
  ascii_text s = true -> (String.length s < f)%nat ->
  read_str f (escape 0 s +:+ String QUOTE r) = Some (s, r).
Proof.
  revert f. induction s as [|c s IH]; intros [|f] Hs Hf; cbn [String.length] in Hf; try lia; [done|].
  cbn [ascii_text str_forall] in Hs. apply andb_true_iff in Hs as [Hc Hs].
  cbn [escape]. rewrite Hc, str_app_assoc.
  specialize (IH f Hs ltac:(lia)).
  destruct (escape_char c (escape 0 s +:+ String QUOTE r) Hc) as [[Hp ->]|(e & -> & He)].
  - unfold plain_char in Hp. rewrite !andb_true_iff, !negb_true_iff in Hp. destruct Hp as [[H1 H2] H3].
    change (read_str (S f) (String c (escape 0 s +:+ String QUOTE r)) = Some (String c s, r)).
    cbn [read_str]. rewrite H1, H2, H3, IH. done.
  - change (read_str (S f) (String "\" (e +:+ (escape 0 s +:+ String QUOTE r))) = Some (String c s, r)).
    cbn [read_str]. cbn [N.eqb N_of_ascii]. rewrite He. cbn. by rewrite IH.
Qed.

(** * Numbers *)
(** What may follow a value: nothing, white space, a comma or a bracket. *)
Definition stops (r : string) : bool :=
  match r with
  | EmptyString => true
  | String c _ => is_ws c || Ascii.eqb c "," || Ascii.eqb c "]" || Ascii.eqb c "}"
  end.
(** A character no value can start or continue with. *)
Lemma stops_no_number r :
  stops r = true -> span_digits r = ("", r) /\ read_frac r = ("", r) /\ read_exp r = ("", r).
Proof.
  destruct r as [|c r]; [done|]. cbn [stops]. intros H.
  destruct c as [[] [] [] [] [] [] [] []]; try (vm_compute in H; discriminate H); done.
Qed.
Lemma span_digits_app d r :
  str_forall is_digit d = true -> span_digits r = ("", r) -> span_digits (d +:+ r) = (d, r).
Proof.
  intros Hd Hr. induction d as [|c d IH]; [done|]. cbn [str_forall] in Hd.
  apply andb_true_iff in Hd as [Hc Hd].
  change (span_digits (String c (d +:+ r)) = (String c d, r)). cbn [span_digits]. by rewrite Hc, IH.
Qed.

(** Decimal text has no leading zero. *)
Lemma dec_digits_head f n acc :
  0 < n < 2 ^ Z.of_nat f -> exists c t, dec_digits f n acc = String c t /\ Ascii.eqb c "0" = false /\ is_digit c = true.
Proof.
  revert n acc. induction f as [|f IH]; intros n acc Hn; [cbn in Hn; lia|]. cbn [dec_digits].
  destruct (Z.ltb_spec n 10) as [Hlt|Hge].
  - eexists _, _. split; [done|]. split; [|apply is_digit_char; lia].
    assert (n = 1 \/ n = 2 \/ n = 3 \/ n = 4 \/ n = 5 \/ n = 6 \/ n = 7 \/ n = 8 \/ n = 9) as Hc by lia.
    destruct_or! Hc; subst; reflexivity.
  - apply IH. rewrite Nat2Z.inj_succ, Z.pow_succ_r in Hn by lia.
    split; [apply Z.div_str_pos; lia|apply Z.div_lt_upper_bound; lia].
Qed.
Lemma str_nat_head n : 0 < n -> exists c t, str_nat n = String c t /\ Ascii.eqb c "0" = false /\ is_digit c = true.
Proof.
  intros Hn. apply dec_digits_head. rewrite Nat2Z.inj_succ, Z2Nat.id by apply Z.log2_nonneg.
  split; [done|]. by apply Z.log2_spec.
Qed.

Lemma digits_of_nat n r body :
  0 <= n -> stops r = true -> body = str_nat n +:+ r ->
  match body with String "0" t => ("0", t) | _ => span_digits body end = (str_nat n, r).
Proof.
  intros Hn Hr ->. destruct (stops_no_number r Hr) as (Hd & _ & _).
  destruct (Z.eq_dec n 0) as [->|]; [done|].
  pose proof (span_digits_app (str_nat n) r (str_nat_digits n Hn) Hd) as Hs.
  destruct (str_nat_head n ltac:(lia)) as (c & t & E & Hc & _). rewrite E in *.
  change (String c t +:+ r) with (String c (t +:+ r)) in *.
  destruct c as [[] [] [] [] [] [] [] []]; try exact Hs. discriminate Hc.
Qed.

Lemma read_number_str n r : stops r = true -> read_number (str_int n +:+ r) = Some (JInt n, r).
Proof.
  intros Hr. destruct (stops_no_number r Hr) as (_ & Hf & He). unfold str_int, read_number.
  destruct (Z.ltb_spec n 0) as [Hneg|Hpos].
  - change (String "-" (str_nat (- n)) +:+ r) with (String "-" (str_nat (- n) +:+ r)).
    cbv iota beta. rewrite (digits_of_nat (- n) r) by (done || lia).
    pose proof (str_nat_ne (- n)). destruct (str_nat (- n)) eqn:E; [done|]. rewrite <-E.
    rewrite Hf, He. cbn [String.append truthy]. rewrite str_nat_value by lia. by rewrite Z.opp_involutive.
  - assert (match str_nat n +:+ r with String "-" t => ("-", t) | _ => ("", str_nat n +:+ r) end = ("", str_nat n +:+ r)) as ->.
    { pose proof (str_nat_digits n Hpos) as Hd. pose proof (str_nat_ne n). destruct (str_nat n) as [|c t]; [done|].
      apply andb_true_iff in Hd as [Hd _]. destruct (digits_no_sign c Hd) as [Hm _].
      change (String c t +:+ r) with (String c (t +:+ r)).
      destruct c as [[] [] [] [] [] [] [] []]; try done. }
    rewrite (digits_of_nat n r) by done.
    pose proof (str_nat_ne n). destruct (str_nat n) eqn:E; [done|]. rewrite <-E.
    rewrite Hf, He. cbn [String.append truthy]. by rewrite str_nat_value by lia.
Qed.

(** * Values *)

(** The fuel a value needs, below twice the length of its text. *)
Fixpoint need (j : json) : nat :=
  match j with
  | JArr items => S (sum_list_with (fun x => S (need x)) items)
  | JObj members => S (sum_list_with (fun kv => S (need kv.2)) members)
  | _ => 1
  end.

Lemma literal_app w j r : literal w j (w +:+ r) = Some (j, r).
Proof.
  unfold literal. assert (startswith w (w +:+ r) = true) as ->; [|by rewrite drop_str_app].
  induction w as [|c w IH]; [done|].
  change (Ascii.eqb c c && startswith w (w +:+ r) = true). by rewrite Ascii.eqb_refl.
Qed.

Section Reading.
Context (before gap : nat -> string).
Context (before_ws : forall n, str_forall is_ws (before n) = true).
Context (gap_ws : forall n, str_forall is_ws (gap n) = true).
Local Notation text := (print before gap).

(** A value starts with a character that is no white space and no closing
    bracket. *)
Lemma print_head n j :
  plain j = true -> exists c t, text n j = String c t /\ is_ws c = false /\
    Ascii.eqb c "]" = false /\ Ascii.eqb c "}" = false.
Proof.
  intros Hj. destruct j as [|[]|z| |s|[|]|[|]]; try done; try (eexists _, _; split; [reflexivity|done]).
  cbn [text dumps]. unfold str_int. destruct (Z.ltb_spec z 0) as [|Hz].
  - eexists _, _. split; [reflexivity|done].
  - pose proof (str_nat_digits z Hz) as Hd. pose proof (str_nat_ne z).
    destruct (str_nat z) as [|c t]; [done|]. eexists _, _. split; [reflexivity|].
    apply andb_true_iff in Hd as [Hd _].
    destruct c as [[] [] [] [] [] [] [] []]; try (vm_compute in Hd; discriminate Hd); done.
Qed.

Lemma read_number_value f n r : stops r = true -> read (S f) WValue (str_int n +:+ r) = Some (JInt n, r).
Proof.
  intros Hr. pose proof (read_number_str n r Hr) as Hn. cbn [read].
  unfold str_int in *. destruct (Z.ltb_spec n 0) as [Hz|Hz].
  - pose proof (str_nat_digits (- n) ltac:(lia)) as Hd. pose proof (str_nat_ne (- n)).
    destruct (str_nat (- n)) as [|c t]; [done|]. apply andb_true_iff in Hd as [Hd _].
    destruct c as [[] [] [] [] [] [] [] []]; try (vm_compute in Hd; discriminate Hd); exact Hn.
  - pose proof (str_nat_digits n ltac:(lia)) as Hd. pose proof (str_nat_ne n).
    destruct (str_nat n) as [|c t]; [done|]. apply andb_true_iff in Hd as [Hd _].
    destruct c as [[] [] [] [] [] [] [] []]; try (vm_compute in Hd; discriminate Hd); exact Hn.
Qed.

Lemma dump_str_reads s r :
  ascii_text s = true ->
  exists u, dump_str s +:+ r = String QUOTE u /\ read_str (S (String.length u)) u = Some (s, r).
Proof.
  intros Hs. exists (escape 0 s +:+ String QUOTE r). split.
  - transitivity (String QUOTE ((escape 0 s +:+ String QUOTE "") +:+ r)); [done|]. by rewrite str_app_assoc.
  - apply read_str_escape; [done|]. rewrite str_length_app.
    assert (String.length s <= String.length (escape 0 s))%nat; [|lia].
    induction s as [|c s IH]; [done|]. cbn in Hs. apply andb_true_iff in Hs as [Hc Hs].
    cbn [escape]. rewrite Hc, str_length_app. specialize (IH Hs). cbn [String.length].
    assert (1 <= String.length (escape_ascii c))%nat; [|lia].
    destruct (escape_char c "" Hc) as [[_ ->]|(e & -> & _)]; cbn; lia.
Qed.

Lemma read_skip f w s : read f w (skip_ws s) = read f w s.
Proof.
  destruct f as [|f]; [done|]. cbn [read]. assert (skip_ws (skip_ws s) = skip_ws s) as ->; [|done].
  induction s as [|c s IH]; [done|]. cbn [skip_ws]. destruct (is_ws c) eqn:E; [done|]. by apply skip_ws_head.
Qed.
Lemma stops_ws p s : str_forall is_ws p = true -> stops s = true -> stops (p +:+ s) = true.
Proof.
  destruct p as [|c p]; [done|]. intros [Hc _]%andb_true_iff _.
  change (is_ws c || Ascii.eqb c "," || Ascii.eqb c "]" || Ascii.eqb c "}" = true). by rewrite Hc.
Qed.

Definition reads (j : json) : Prop :=
  forall n f r, stops r = true -> (need j <= f)%nat -> read f WValue (text n j +:+ r) = Some (j, r).

Lemma read_items n m r x l acc f :
  Forall reads (x :: l) -> (sum_list_with (fun x => S (need x)) (x :: l) <= f)%nat ->
  read f (WItems acc) (join ("," +:+ gap n) (text n <$> x :: l) +:+ before m +:+ String "]" r)
  = Some (JArr (rev acc ++ x :: l), r).
Proof using before_ws gap_ws.
  revert x acc f. induction l as [|y l IH]; intros x acc f Hl Hf; inversion_clear Hl as [|? ? Hx Hl'];
    destruct f as [|f]; cbn [sum_list_with] in Hf; try lia; cbn [read]; rewrite read_skip.
  - cbn [fmap list_fmap join]. rewrite Hx; [|by apply stops_ws|lia]. cbn.
    by rewrite skip_ws_app.
  - change (join ("," +:+ gap n) (text n <$> x :: y :: l))
      with (text n x +:+ ("," +:+ gap n) +:+ join ("," +:+ gap n) (text n <$> y :: l)).
    rewrite !str_app_assoc, Hx; [|done|cbn in Hf; lia]. rewrite some_bind; cbv beta iota.
    change ("," +:+ gap n +:+ ?t) with (String "," (gap n +:+ t)).
    rewrite skip_ws_head by done.
    rewrite read_ws by done. rewrite IH; [|done|cbn in *; lia]. cbn [rev]. by rewrite <-app_assoc.
Qed.
Definition member_text (n : nat) : string * json -> string :=
  fun '(k, v) => dump_str k +:+ ": " +:+ text n v.
Lemma read_member n f kv acc r :
  ascii_text kv.1 = true -> reads kv.2 -> stops r = true -> (need kv.2 <= f)%nat -> kv.1 ∉ acc.*1 ->
  read (S f) (WMembers acc) (member_text n kv +:+ r) =
  match skip_ws r with
  | String "," r3 => read f (WMembers (acc ++ [kv])) r3
  | String "}" r3 => Some (JObj (acc ++ [kv]), r3)
  | _ => None
  end.
Proof.
  destruct kv as [k v]. cbn [fst snd]. intros Hk Hv Hr Hf Hacc. cbn [read member_text].
  rewrite str_app_assoc. destruct (dump_str_reads k (String ":" (String " " (text n v) +:+ r)) Hk) as (u & Hu & Hread).
  change (": " +:+ text n v) with (String ":" (String " " (text n v))).
  change (String ":" (String " " (text n v)) +:+ r) with (String ":" (String " " (text n v) +:+ r)).
  rewrite Hu, skip_ws_head by done.
  rewrite Ascii.eqb_refl, Hread, some_bind; cbv beta iota.
  rewrite skip_ws_head by done. cbn match.
  change (String " " (text n v) +:+ r) with (" " +:+ (text n v +:+ r)). rewrite read_ws by done.
  rewrite Hv by done. rewrite some_bind; cbv beta iota. by rewrite obj_set_fresh.
Qed.
Lemma read_members n m r x l acc f :
  Forall (fun kv => ascii_text kv.1 = true /\ reads kv.2) (x :: l) -> NoDup (acc ++ x :: l).*1 ->
  (sum_list_with (fun kv => S (need kv.2)) (x :: l) <= f)%nat ->
  read f (WMembers acc) (join ("," +:+ gap n) (member_text n <$> x :: l) +:+ before m +:+ String "}" r)
  = Some (JObj (acc ++ x :: l), r).
Proof using before_ws gap_ws.
  revert x acc f. induction l as [|y l IH]; intros x acc f Hl Hn Hf; inversion_clear Hl as [|? ? [Hk Hx] Hl'];
    destruct f as [|f]; cbn [sum_list_with] in Hf; try lia;
    (assert (x.1 ∉ acc.*1) as Hacc
       by (rewrite fmap_app, NoDup_app in Hn; intros Hin; eapply (proj1 (proj2 Hn)); [exact Hin|left])).
  - cbn [fmap list_fmap join]. rewrite read_member; [|done..|by apply stops_ws|lia|done].
    by rewrite skip_ws_app.
  - change (join ("," +:+ gap n) (member_text n <$> x :: y :: l))
      with (member_text n x +:+ ("," +:+ gap n) +:+ join ("," +:+ gap n) (member_text n <$> y :: l)).
    rewrite !str_app_assoc, read_member; [|done..|lia|done].
    change ("," +:+ gap n +:+ ?t) with (String "," (gap n +:+ t)).
    rewrite skip_ws_head by done.
    rewrite read_ws by done. rewrite IH; [by rewrite <-app_assoc|done|by rewrite <-app_assoc|cbn in *; lia].
Qed.

Lemma read_print j : plain j = true -> reads j.
Proof using before_ws gap_ws.
  induction j as [|b|z|l|s|l Hl|l Hl] using json_nested_ind; intros Hj n f r Hr Hf;
    (destruct f as [|f]; [cbn in Hf; lia|]).
  - apply (literal_app "null").
  - destruct b; [apply (literal_app "true")|apply (literal_app "false")].
  - by apply read_number_value.
  - done.
  - cbn [print dumps read]. destruct (dump_str_reads s r Hj) as (u & -> & Hu).
    rewrite skip_ws_head by done. by rewrite Ascii.eqb_refl, Hu, some_bind.
  - destruct l as [|x l]; [done|]. assert (Forall reads (x :: l)) as Hall.
    { apply Forall_forall. intros y Hy. rewrite Forall_forall in Hl. apply Hl; [done|].
      cbn [plain] in Hj. rewrite forallb_forall in Hj. apply Hj. by apply list_elem_of_In. }
    destruct (print_head (S n) x) as (c & t & Ec & Hws & Hb & _); [by apply andb_true_iff in Hj as [? _]|].
    change (text n (JArr (x :: l)) +:+ r) with (String "[" ((before (S n) +:+
      join ("," +:+ gap (S n)) (text (S n) <$> x :: l) +:+ before n +:+ "]") +:+ r)).
    cbn [read]. rewrite skip_ws_head by done. rewrite !str_app_assoc.
    pose proof (read_items (S n) n r x l [] f Hall ltac:(cbn in *; lia)) as Hi.
    change (rev [] ++ x :: l) with (x :: l) in Hi. change ("]" +:+ r) with (String "]" r). rewrite skip_ws_app by done.
    set (body := join _ _ +:+ _) in *. assert (exists t', body = String c t') as [t' ->].
    { unfold body. destruct l; cbn [fmap list_fmap join]; rewrite Ec; by eexists. }
    rewrite skip_ws_head by done. rewrite <-Hi. destruct c as [[] [] [] [] [] [] [] []]; done.
  - destruct l as [|x l]; [done|]. cbn [plain] in Hj. apply andb_true_iff in Hj as [Hj Hn%bool_decide_eq_true].
    assert (Forall (fun kv => ascii_text kv.1 = true /\ reads kv.2) (x :: l)) as Hall.
    { apply Forall_forall. intros [k y] Hy. rewrite Forall_forall in Hl. rewrite forallb_forall in Hj.
      specialize (Hj (k, y) (proj1 (list_elem_of_In _ _) Hy)). apply andb_true_iff in Hj as [Hk Hp].
      split; [done|]. by apply (Hl (k, y)). }
    change (text n (JObj (x :: l)) +:+ r) with (String "{" ((before (S n) +:+
      join ("," +:+ gap (S n)) (member_text (S n) <$> x :: l) +:+ before n +:+ "}") +:+ r)).
    cbn [read]. rewrite skip_ws_head by done. rewrite !str_app_assoc.
    pose proof (read_members (S n) n r x l [] f Hall Hn ltac:(cbn in *; lia)) as Hi.
    change ([] ++ x :: l) with (x :: l) in Hi. change ("}" +:+ r) with (String "}" r). rewrite skip_ws_app by done.
    set (body := join _ _ +:+ _) in *. assert (exists t', body = String QUOTE t') as [t' ->].
    { unfold body. destruct x as [k v], l; cbn [fmap list_fmap join member_text]; by eexists. }
    by rewrite skip_ws_head.
Qed.

(** Twice its length is fuel enough for the text of a value. *)
Lemma join_length {A} (w : A -> string) sep x l :
  String.length (join sep (w <$> x :: l)) =
  (String.length (w x) + sum_list_with (fun y => String.length sep + String.length (w y)) l)%nat.
Proof.
  revert x. induction l as [|y l IH]; intros x; [cbn; lia|].
  change (join sep (w <$> x :: y :: l)) with (w x +:+ sep +:+ join sep (w <$> y :: l)).
  rewrite !str_length_app, IH. cbn. lia.
Qed.
Lemma sum_bound {A} (g h : A -> nat) l :
  Forall (fun y => (S (g y) <= 2 * h y)%nat) l ->
  (sum_list_with (fun y => S (g y)) l <= 2 * sum_list_with h l)%nat.
Proof. induction 1; cbn in *; lia. Qed.

Lemma sum_mono {A} (g h : A -> nat) l :
  (forall y, (g y <= h y)%nat) -> (sum_list_with g l <= sum_list_with h l)%nat.
Proof. intros Hgh. induction l as [|y l IH]; cbn; [done|]. specialize (Hgh y). lia. Qed.

Lemma need_length n j : plain j = true -> (S (need j) <= 2 * String.length (text n j))%nat.
Proof.
  revert n. induction j as [|[]|z|l|s|l Hl|l Hl] using json_nested_ind; intros n Hj; try done; try (cbn; lia).
  - cbn [need print dumps]. unfold str_int. pose proof (str_nat_ne z).
    destruct (Z.ltb_spec z 0), (str_nat z); done || (cbn; lia).
  - destruct l as [|x l]; [cbn; lia|].
    cbn [print need]. rewrite !str_length_app, join_length, !str_length_app. cbn [String.length plain] in *.
    rewrite forallb_forall in Hj.
    pose proof (sum_bound need (fun y => String.length (text (S n) y)) (x :: l)) as Hb. cbn in Hb.
    assert (sum_list_with (fun y => String.length (text (S n) y)) l <=
      sum_list_with (fun y => 1 + String.length (gap (S n)) + String.length (text (S n) y)) l)%nat by
      (apply sum_mono; intros; lia).
    cbn in *. enough (S (need x) + sum_list_with (fun y => S (need y)) l <=
      2 * (String.length (text (S n) x) + sum_list_with (fun y => String.length (text (S n) y)) l))%nat by lia.
    etrans; [apply Hb|lia]. apply Forall_forall. intros y Hy. rewrite Forall_forall in Hl.
    apply Hl; [done|]. apply Hj. by apply (list_elem_of_In (x :: l)).
  - destruct l as [|x l]; [cbn; lia|].
    change (text n (JObj (x :: l))) with (String "{" (before (S n) +:+
      join ("," +:+ gap (S n)) (member_text (S n) <$> x :: l) +:+ before n +:+ "}")).
    cbn [need String.length]. rewrite !str_length_app, join_length, !str_length_app. cbn [String.length plain] in *.
    apply andb_true_iff in Hj as [Hj _]. rewrite forallb_forall in Hj.
    pose proof (sum_bound (fun kv => need kv.2) (fun y => String.length (member_text (S n) y)) (x :: l)) as Hb. cbn in Hb.
    assert (sum_list_with (fun y => String.length (member_text (S n) y)) l <=
      sum_list_with (fun y => 1 + String.length (gap (S n)) + String.length (member_text (S n) y)) l)%nat by
      (apply sum_mono; intros; lia).
    cbn in *. enough (S (need x.2) + sum_list_with (fun y => S (need y.2)) l <=
      2 * (String.length (member_text (S n) x) + sum_list_with (fun y => String.length (member_text (S n) y)) l))%nat by lia.
    etrans; [apply Hb|lia]. apply Forall_forall. intros [k y] Hy. rewrite Forall_forall in Hl.
    specialize (Hj (k, y) (proj1 (list_elem_of_In _ _) Hy)). apply andb_true_iff in Hj as [_ Hp].
    specialize (Hl _ Hy (S n) Hp). cbn in *. rewrite !str_length_app. lia.
Qed.
Lemma loads_print n j : plain j = true -> loads (text n j) = Ok j.
Proof using before_ws gap_ws.
  intros Hj. unfold loads. pose proof (need_length n j Hj).
  pose proof (read_print j Hj n (2 * String.length (text n j) + 2)%nat "" eq_refl ltac:(lia)) as Hr.
  rewrite str_app_nil in Hr. by rewrite Hr.
Qed.
End Reading.

(** [json.loads(json.dumps(j)) == j] *)
Lemma loads_dumps j : plain j = true -> loads (dumps j) = Ok j.
Proof. intros Hj. rewrite (dumps_print 0). apply loads_print; [..|done]; by intros n. Qed.
(** [json.load] of what [json.dump(j, f, indent=2)] wrote is [j]. *)
Lemma line_ws n : str_forall is_ws (line n) = true.
Proof.
  change (str_forall is_ws (spaces (2 * n)) = true). induction (2 * n)%nat; done.
Qed.
Lemma loads_dump_indent j : plain j = true -> loads (dump_indent j) = Ok j.
Proof. apply loads_print; apply line_ws. Qed.

Definition NEWLINE : string := String (ascii_of_nat 10) "".
Definition Q : string := String QUOTE "".
Example dump_indent_layout :
  dump_indent (JObj [("a", JArr [JInt 1; JNull]); ("b", JObj [])]) =
  "{" +:+ NEWLINE +:+ "  " +:+ Q +:+ "a" +:+ Q +:+ ": [" +:+ NEWLINE +:+ "    1," +:+ NEWLINE +:+
  "    null" +:+ NEWLINE +:+ "  ]," +:+ NEWLINE +:+ "  " +:+ Q +:+ "b" +:+ Q +:+ ": {}" +:+ NEWLINE +:+ "}".
Proof. vm_compute. reflexivity. Qed.

(** * JSON text is ASCII, and so UTF-8 *)
Lemma ascii_app s t : ascii_text (s +:+ t) = ascii_text s && ascii_text t.
Proof. apply str_forall_app. Qed.
Lemma ascii_utf8 s : ascii_text s = true -> utf8_valid s = true.
Proof.
  induction s as [|c s IH]; [done|]. intros [Hc Hs]%andb_true_iff. cbn [utf8_valid].
  unfold between at 1. rewrite (proj2 (N.leb_le 0 _)) by lia. apply N.ltb_lt in Hc.
  rewrite (proj2 (N.leb_le _ 127)) by lia. by apply IH.
Qed.
Lemma ascii_char c t : (N_of_ascii c <? 128)%N = true -> ascii_text (String c t) = ascii_text t.
Proof. intros H. unfold ascii_text at 1. cbn [str_forall]. by rewrite H. Qed.
Lemma ascii_escape s : ascii_text s = true -> ascii_text (escape 0 s) = true.
Proof.
  induction s as [|c s IH]; [done|]. intros [Hc Hs]%andb_true_iff. cbn [escape].
  rewrite Hc, ascii_app, IH by done. rewrite andb_true_r.
  destruct c as [[] [] [] [] [] [] [] []]; try (vm_compute in Hc; discriminate Hc); reflexivity.
Qed.
Lemma ascii_dump_str s : ascii_text s = true -> ascii_text (dump_str s) = true.
Proof. intros Hs. unfold dump_str. rewrite ascii_char, ascii_app, ascii_escape by done. done. Qed.
Lemma ascii_digits s : str_forall is_digit s = true -> ascii_text s = true.
Proof.
  induction s as [|c s IH]; [done|]. intros [Hc Hs]%andb_true_iff. rewrite ascii_char; [by apply IH|].
  destruct c as [[] [] [] [] [] [] [] []]; try (vm_compute in Hc; discriminate Hc); reflexivity.
Qed.
Lemma ascii_int n : ascii_text (str_int n) = true.
Proof.
  unfold str_int. destruct (Z.ltb_spec n 0); [rewrite ascii_char by done|]; apply ascii_digits, str_nat_digits; lia.
Qed.
Lemma ascii_join sep l :
  ascii_text sep = true -> Forall (fun w => ascii_text w = true) l -> ascii_text (join sep l) = true.
Proof.
  intros Hsep. induction 1 as [|w l Hw Hl IH]; [done|]. destruct l as [|v l]; [done|].
  change (join sep (w :: v :: l)) with (w +:+ sep +:+ join sep (v :: l)).
  by rewrite !ascii_app, Hw, Hsep, IH.
Qed.
Lemma ascii_ws p : str_forall is_ws p = true -> ascii_text p = true.
Proof.
  induction p as [|c p IH]; [done|]. intros [Hc Hp]%andb_true_iff. rewrite ascii_char; [by apply IH|].
  destruct c as [[] [] [] [] [] [] [] []]; try (vm_compute in Hc; discriminate Hc); reflexivity.
Qed.
Lemma ascii_print before gap n j :
  (forall n, str_forall is_ws (before n) = true) -> (forall n, str_forall is_ws (gap n) = true) ->
  plain j = true -> ascii_text (print before gap n j) = true.
Proof.
  intros Hb Hg. revert n. assert (forall n, ascii_text (before n) = true) as Hb' by (intros; by apply ascii_ws).
  assert (forall n, ascii_text ("," +:+ gap n) = true) as Hg' by (intros; by apply (ascii_ws (gap _))).
  induction j as [|[]|z|l|s|l Hl|l Hl] using json_nested_ind; intros n Hj; try done.
  - apply ascii_int.
  - by apply ascii_dump_str.
  - destruct l as [|x l]; [done|]. set (xs := x :: l) in *.
    change (ascii_text ("[" +:+ before (S n) +:+ join ("," +:+ gap (S n)) (print before gap (S n) <$> xs) +:+ before n +:+ "]") = true).
    rewrite !ascii_app, !Hb', ascii_join; [done..|]. apply Forall_fmap. cbn [plain] in Hj.
    rewrite forallb_forall in Hj. apply Forall_forall. intros y Hy. rewrite Forall_forall in Hl.
    apply Hl; [done|]. apply Hj. by apply list_elem_of_In.
  - destruct l as [|x l]; [done|]. set (xs := x :: l) in *.
    change (ascii_text ("{" +:+ before (S n) +:+ join ("," +:+ gap (S n)) (member_text before gap (S n) <$> xs) +:+ before n +:+ "}") = true).
    rewrite !ascii_app, !Hb', ascii_join; [done..|]. apply Forall_fmap. cbn [plain] in Hj.
    apply andb_true_iff in Hj as [Hj _]. rewrite forallb_forall in Hj.
    apply Forall_forall. intros [k y] Hy. rewrite Forall_forall in Hl. cbn.
    specialize (Hj (k, y) (proj1 (list_elem_of_In _ _) Hy)). apply andb_true_iff in Hj as [Hk Hp].
    pose proof (Hl (k, y) Hy (S n) Hp : ascii_text (print before gap (S n) y) = true) as E.
    by rewrite !ascii_app, ascii_dump_str, E.
Qed.
Lemma ascii_dumps j : plain j = true -> ascii_text (dumps j) = true.
Proof. intros Hj. rewrite (dumps_print 0). by apply ascii_print. Qed.
Lemma decode_dumps j : plain j = true -> decode (dumps j) = Ok (dumps j).
Proof. intros Hj. unfold decode. by rewrite ascii_utf8 by by apply ascii_dumps. Qed.
Lemma decode_dump_indent j : plain j = true -> decode (dump_indent j) = Ok (dump_indent j).
Proof.
  intros Hj. unfold decode. rewrite ascii_utf8; [done|]. apply ascii_print; [apply line_ws..|done].
Qed.

(** A new member leaves a plain object plain. *)
Lemma obj_set_keys k v o : (obj_set k v o).*1 = if bool_decide (k ∈ o.*1) then o.*1 else o.*1 ++ [k].
Proof.
  induction o as [|[k' v'] o IH]; [done|]. cbn. destruct (String.eqb_spec k k') as [->|Hk]; cbn.
  - rewrite bool_decide_eq_true_2; [done|left].
  - rewrite IH. destruct (decide (k ∈ o.*1)) as [Hin|Hin].
    + rewrite !bool_decide_eq_true_2; [done|by right|done].
    + rewrite !bool_decide_eq_false_2; [done| |done]. by intros [|]%elem_of_cons.
Qed.
Lemma plain_set k v o :
  plain (JObj o) = true -> ascii_text k = true -> plain v = true -> plain (JObj (obj_set k v o)) = true.
Proof.
  intros Ho Hk Hv. cbn [plain] in *. apply andb_true_iff in Ho as [Ho Hn%bool_decide_eq_true].
  apply andb_true_iff. split.
  - clear Hn. induction o as [|[k' v'] o IH]; cbn in *; [by rewrite Hk, Hv|].
    apply andb_true_iff in Ho as [Ho1 Ho2]. destruct (String.eqb_spec k k') as [->|?]; cbn.
    + by rewrite Hk, Hv.
    + by rewrite Ho1, IH.
  - apply bool_decide_eq_true. rewrite obj_set_keys. case_bool_decide as Hin; [done|].
    apply NoDup_app. split_and!; [done| |apply NoDup_singleton]. intros x Hx ->%list_elem_of_singleton. done.
Qed.
