(* ===== verification/PyJson.v ===== *)
(** Python's views of a JSON value whose type the code does not check: the
    methods it calls on one, and the exceptions they raise when the value is
    of another type. *)
From Stdlib Require Import Ascii.
From S2P Require Import Prelude PyStr Json.
Local Open Scope string_scope.
Local Open Scope list_scope.
Local Open Scope Z_scope.

(** The characters of UTF-8 text. *)
Definition is_cont (c : ascii) : bool := (128 <=? N_of_ascii c)%N && (N_of_ascii c <? 192)%N.
Fixpoint chars (s : string) : list string :=
  match s with
  | EmptyString => []
  | String c t =>
    match chars t with
    | String d u :: l => if is_cont d then String c (String d u) :: l else String c "" :: String d u :: l
    | l => String c "" :: l
    end
  end.
Definition text_item (j : json) : outcome string := match j with JStr s => Ok s | _ => Raise TypeError end.
(** [sep.join(x)] *)
Definition py_join (sep : string) (j : json) : outcome string :=
  match j with
  | JArr l => join sep <$> mapM text_item l
  | JStr s => Ok (join sep (chars s))
  | JObj o => Ok (join sep o.*1)
  | _ => Raise TypeError
  end.
Definition hashable (j : json) : bool := match j with JArr _ | JObj _ => false | _ => true end.


(** [d.get(k, default)] on a value that is usually a dictionary. *)
Definition get_or (j : json) (k : string) (dflt : json) : outcome json :=
  match j with JObj o => Ok (default dflt (obj_get k o)) | _ => Raise (AttributeError "get") end.
(** What a [for] statement runs over. *)
Definition items (j : json) : outcome (list json) :=
  match j with
  | JArr l => Ok l
  | JStr s => Ok (JStr <$> chars s)
  | JObj o => Ok (JStr <$> o.*1)
  | _ => Raise TypeError
  end.

(** [a == b].  Two numbers with a point are compared by their literals. *)
Definition as_int (j : json) : option Z :=
  match j with JInt n => Some n | JBool b => Some (if b then 1 else 0) | _ => None end.
Fixpoint py_eq (a b : json) : bool :=
  match a, b with
  | JNull, JNull => true
  | JStr s, JStr t => String.eqb s t
  | JFloat s, JFloat t => String.eqb s t
  | JArr l, JArr m =>
    (fix all (l m : list json) : bool :=
       match l, m with [], [] => true | x :: l, y :: m => py_eq x y && all l m | _, _ => false end) l m
  | JObj o, JObj u =>
    (length o =? length u)%nat &&
    (fix all (o : list (string * json)) : bool :=
       match o with
       | [] => true
       | (k, v) :: o => match obj_get k u with Some w => py_eq v w | None => false end && all o
       end) o
  | _, _ => match as_int a, as_int b with Some n, Some m => n =? m | _, _ => false end
  end.

(** [str(x)]; [repr] is what Python prints for a number with a point, a list
    and a dictionary, where the code puts one into text that nothing reads
    back. *)
Section Text.
Context (repr : json -> string).
Definition py_str (j : json) : string :=
  match j with
  | JNull => "None"
  | JBool b => if b then "True" else "False"
  | JInt n => str_int n
  | JStr s => s
  | _ => repr j
  end.
End Text.

Lemma py_eq_str s t : py_eq (JStr s) (JStr t) = String.eqb s t.
Proof. done. Qed.
Lemma py_eq_str_refl s : py_eq (JStr s) (JStr s) = true.
Proof. apply String.eqb_refl. Qed.
