(* ===== verification/RelayServer.v ===== *)
(** The TCP relay of [backend/app/services/relay_server.py]: the framing and
    the handlers of [RelayProtocol], and the registry of [RelayServer].

    Connections are named by numbers; [protocols] holds the protocol object of
    each, so that the registry and the handlers share them as the code does.
    What a transport is asked to write is appended to [sent]. *)
From Stdlib Require Import Ascii.
From S2P Require Import Prelude PyStr Bytes Json.
Local Open Scope string_scope.
Local Open Scope list_scope.
Local Open Scope Z_scope.

Definition RELAY_MAGIC : bytes := "MIDSCALE_RELAY_V1".
Definition HEADER_SIZE : nat := 4.
Definition MSG_TYPE_PING : Z := 1.
Definition MSG_TYPE_PONG : Z := 2.
Definition MSG_TYPE_DATA : Z := 3.
Definition MSG_TYPE_CONNECT : Z := 4.
Definition MSG_TYPE_CONNECT_ACK : Z := 5.
Definition MSG_TYPE_DISCONNECT : Z := 6.
Definition MSG_TYPE_HEARTBEAT : Z := 7.
Definition MSG_TYPE_HEARTBEAT_ACK : Z := 8.

(** * Dictionary keys: the JSON values Python can hash ([True] is [1]) *)
Inductive key := KNone | KInt (n : Z) | KFloat (literal : string) | KStr (s : string).
#[export] Instance key_eq_dec : EqDecision key.
Proof. solve_decision. Defined.
#[export] Instance key_countable : Countable key.
Proof.
  refine (inj_countable' (fun k => match k with
      | KNone => inl (inl tt) | KInt n => inl (inr n)
      | KFloat l => inr (inl l) | KStr s => inr (inr s) end)
    (fun x : (() + Z) + (string + string) => match x with
      | inl (inl _) => KNone | inl (inr n) => KInt n
      | inr (inl l) => KFloat l | inr (inr s) => KStr s end) _).
  by intros [].
Defined.
(** Of two equal numbers an integer and a float are kept apart here, as are two
    texts of one float: Python takes 1 and 1.0 for one key. *)
Definition hash_key (j : json) : outcome key :=
  match j with
  | JNull => Ok KNone
  | JBool b => Ok (KInt (if b then 1 else 0))
  | JInt n => Ok (KInt n)
  | JFloat l => Ok (KFloat l)
  | JStr s => Ok (KStr s)
  | JArr _ | JObj _ => Raise TypeError
  end.

(** [data.get(k, d)] on what [json.loads] returned. *)
Definition json_get (data : json) (k : string) (d : json) : outcome json :=
  match data with
  | JObj o => Ok (default d (obj_get k o))
  | _ => Raise (AttributeError "get")
  end.

(** * State *)
Record RelayServer := mkRelayServer {
  host : string;
  port : Z;
  running : bool;
  connections : gmap key nat;
  heartbeats : gmap key Z;
  valid_tokens : gmap key string
}.
#[export] Instance set_running : SetField running :=
  fun v r => mkRelayServer (host r) (port r) v (connections r) (heartbeats r) (valid_tokens r).
#[export] Instance set_connections : SetField connections :=
  fun v r => mkRelayServer (host r) (port r) (running r) v (heartbeats r) (valid_tokens r).
#[export] Instance set_heartbeats : SetField heartbeats :=
  fun v r => mkRelayServer (host r) (port r) (running r) (connections r) v (valid_tokens r).
#[export] Instance set_valid_tokens : SetField valid_tokens :=
  fun v r => mkRelayServer (host r) (port r) (running r) (connections r) (heartbeats r) v.
Definition new_server (h : string) (p : Z) : RelayServer := mkRelayServer h p false ∅ ∅ ∅.

Record RelayProtocol := mkRelayProtocol {
  transport : bool;
  buffer : bytes;
  session_token : json;
  device_id : json;
  peer_addr : string
}.
#[export] Instance set_transport : SetField transport :=
  fun v r => mkRelayProtocol v (buffer r) (session_token r) (device_id r) (peer_addr r).
#[export] Instance set_buffer : SetField buffer :=
  fun v r => mkRelayProtocol (transport r) v (session_token r) (device_id r) (peer_addr r).
#[export] Instance set_session_token : SetField session_token :=
  fun v r => mkRelayProtocol (transport r) (buffer r) v (device_id r) (peer_addr r).
#[export] Instance set_device_id : SetField device_id :=
  fun v r => mkRelayProtocol (transport r) (buffer r) (session_token r) v (peer_addr r).
Definition new_protocol : RelayProtocol := mkRelayProtocol false "" JNull JNull "".

(** The process: its server, its protocol objects, what it has written, and
    the readings of its two clocks. *)
Record Relay := mkRelay {
  server : RelayServer;
  protocols : gmap nat RelayProtocol;
  sent : list (nat * bytes);
  monotonic : Z;
  utcnow : Z
}.
#[export] Instance set_server : SetField server :=
  fun v r => mkRelay v (protocols r) (sent r) (monotonic r) (utcnow r).
#[export] Instance set_protocols : SetField protocols :=
  fun v r => mkRelay (server r) v (sent r) (monotonic r) (utcnow r).
#[export] Instance set_sent : SetField sent :=
  fun v r => mkRelay (server r) (protocols r) v (monotonic r) (utcnow r).

Definition on_server (f : RelayServer -> RelayServer) (r : Relay) : Relay := r <| server := f (server r) |>.
Definition on_protocol (c : nat) (f : RelayProtocol -> RelayProtocol) (r : Relay) : Relay :=
  r <| protocols := alter f c (protocols r) |>.
(** An attribute of the protocol object [c]. *)
Definition attr {A} (c : nat) (g : RelayProtocol -> A) : M Relay A := fun r =>
  match protocols r !! c with
  | Some p => (Ok (g p), r)
  | None => (Raise (AttributeError "protocol"), r)
  end.

(** * [RelayServer]: the registry *)
Definition add_valid_token (token session_id : string) (s : RelayServer) : RelayServer :=
  s <| valid_tokens := <[KStr token := session_id]> (valid_tokens s) |>.

(** [stored == session_id], [stored] being [None] or a string. *)
Definition same_session (stored : option string) (session_id : json) : bool :=
  match stored, session_id with
  | None, JNull => true
  | Some t, JStr u => String.eqb t u
  | _, _ => false
  end.
Definition validate_session (token session_id : json) : M Relay bool :=
  k ← lift (hash_key token);
  gets (fun r => same_session (valid_tokens (server r) !! k) session_id).

Definition register_connection (device : json) (c : nat) : M Relay unit :=
  k ← lift (hash_key device);
  modify (fun r => on_server (fun s => s <| connections := <[k := c]> (connections s) |>
                                         <| heartbeats := <[k := monotonic r]> (heartbeats s) |>) r).

(** [v != device_id], [v] being a string. *)
Definition differs (device : json) (v : string) : bool :=
  match device with JStr d => negb (String.eqb v d) | _ => true end.
Definition unregister_connection (device : json) : M Relay unit :=
  k ← lift (hash_key device);
  modify (on_server (fun s =>
    s <| connections := delete k (connections s) |>
      <| heartbeats := delete k (heartbeats s) |>
      <| valid_tokens := filter (fun '(_, v) => differs device v = true) (valid_tokens s) |>)).

Definition get_connection (device : string) : M Relay (option nat) :=
  gets (fun r => connections (server r) !! KStr device).

Definition update_heartbeat (device : json) : M Relay unit :=
  k ← lift (hash_key device);
  modify (fun r => on_server (fun s => s <| heartbeats := <[k := monotonic r]> (heartbeats s) |>) r).

(** The keys of the registry are hashable again when they are used as ids. *)
Definition key_json (k : key) : json :=
  match k with KNone => JNull | KInt n => JInt n | KFloat l => JFloat l | KStr s => JStr s end.

Definition remove_expired_tokens : M Relay unit :=
  stale ← gets (fun r =>
    (filter (fun '(_, ts) => ts < monotonic r - 120) (map_to_list (heartbeats (server r)))).*1);
  for_each stale (fun k => unregister_connection (key_json k)).

(** * [RelayProtocol]: the handlers of connection [c] *)
Definition frame_of (payload : bytes) : outcome bytes :=
  header ← pack HEADER_SIZE (len payload); Ok (header +:+ payload).
Definition _send_message (c : nat) (msg_type : Z) (body : bytes) : M Relay unit :=
  connected ← attr c transport;
  if negb connected then mret tt else
  let payload := RELAY_MAGIC +:+ String (byte_of_Z msg_type) body in
  f ← lift (frame_of payload);
  modify (fun r => r <| sent := sent r ++ [(c, f)] |>).

Definition _send_pong (c : nat) : M Relay unit := _send_message c MSG_TYPE_PONG "".

(** [except (json.JSONDecodeError, KeyError)] *)
Definition except_parse (e : exn) : M Relay unit :=
  match e with JSONDecodeError | KeyError => mret tt | _ => raise e end.

Definition connect_ack (session_id device : json) : bytes :=
  dumps (JObj [("status", JStr "connected"); ("session_id", session_id); ("device_id", device)]).
Definition connect_nack : bytes :=
  dumps (JObj [("status", JStr "rejected"); ("reason", JStr "invalid token or session")]).

Definition _handle_connect (c : nat) (body : bytes) : M Relay unit :=
  try_except (
    text ← lift (decode body);
    data ← lift (loads text);
    token ← lift (json_get data "token" (JStr ""));
    modify (on_protocol c (fun p => p <| session_token := token |>));;
    device ← lift (json_get data "device_id" (JStr ""));
    modify (on_protocol c (fun p => p <| device_id := device |>));;
    session_id ← lift (json_get data "session_id" (JStr ""));
    is_valid ← validate_session token session_id;
    if is_valid : bool then
      register_connection device c;;
      _send_message c MSG_TYPE_CONNECT_ACK (connect_ack session_id device)
    else _send_message c MSG_TYPE_CONNECT_ACK connect_nack)
  except_parse.

Definition data_message (from_device : json) (data : bytes) : bytes :=
  dumps (JObj [("from_device_id", from_device); ("data", JStr (hex data))]).

Definition _handle_data (c : nat) (body : bytes) : M Relay unit :=
  try_except (
    '(target, relay_data) ← lift (break_at "|" body);
    target_device_id ← lift (decode target);
    target_conn ← get_connection target_device_id;
    match target_conn with
    | Some t =>
      me ← attr c device_id;
      _send_message t MSG_TYPE_DATA (data_message me relay_data)
    | None => mret tt
    end)
  (fun e => match e with ValueError _ | IndexError => mret tt | _ => raise e end).

Definition _handle_disconnect (c : nat) : M Relay unit :=
  device ← attr c device_id;
  when (json_truthy device) (unregister_connection device);;
  modify (on_protocol c (fun p => p <| session_token := JNull |> <| device_id := JNull |>)).

Definition heartbeat_ack (now : Z) : bytes :=
  dumps (JObj [("status", JStr "ok"); ("timestamp", JStr (isoformat now))]).

Definition _handle_heartbeat (c : nat) (body : bytes) : M Relay unit :=
  try_except (
    text ← lift (decode body);
    data ← lift (loads text);
    _ ← lift (json_get data "stats" (JObj []));
    device ← attr c device_id;
    when (json_truthy device) (update_heartbeat device);;
    now ← gets utcnow;
    _send_message c MSG_TYPE_HEARTBEAT_ACK (heartbeat_ack now))
  except_parse.

(** Whatever a handler raises is logged and dropped. *)
Definition _handle_message (c : nat) (payload : bytes) : M Relay unit :=
  try_except (
    if negb (startswith RELAY_MAGIC payload) then mret tt else
    let inner := drop_str (String.length RELAY_MAGIC) payload in
    msg_type ← lift (byte_at 0 inner);
    let body := drop_str 1 inner in
    if msg_type =? MSG_TYPE_PING then _send_pong c
    else if msg_type =? MSG_TYPE_CONNECT then _handle_connect c body
    else if msg_type =? MSG_TYPE_DATA then _handle_data c body
    else if msg_type =? MSG_TYPE_DISCONNECT then _handle_disconnect c
    else if msg_type =? MSG_TYPE_HEARTBEAT then _handle_heartbeat c body
    else mret tt)
  (fun _ => mret tt).

(** The frame at the head of a buffer: its payload and what follows it. *)
Definition next_frame (b : bytes) : option (bytes * bytes) :=
  if (String.length b <? HEADER_SIZE)%nat then None else
  let msg_len := be_value (take_str HEADER_SIZE b) in
  let total_len := Z.of_nat HEADER_SIZE + msg_len in
  if len b <? total_len then None
  else Some (slice HEADER_SIZE (Z.to_nat total_len) b, drop_str (Z.to_nat total_len) b).

(** The loop of [data_received].  A frame is at least its header long, so a
    buffer of [n] bytes holds fewer than [n + 1] frames. *)
Fixpoint drain (fuel : nat) (c : nat) : M Relay unit :=
  match fuel with
  | O => mret tt
  | Datatypes.S f =>
    b ← attr c buffer;
    match next_frame b with
    | None => mret tt
    | Some (payload, rest) =>
      modify (on_protocol c (fun p => p <| buffer := rest |>));;
      _handle_message c payload;;
      drain f c
    end
  end.
Definition data_received (c : nat) (data : bytes) : M Relay unit :=
  modify (on_protocol c (fun p => p <| buffer := buffer p +:+ data |>));;
  b ← attr c buffer;
  drain (Datatypes.S (String.length b)) c.

(** [create_server]'s factory and [connection_made]. *)
Definition connection_made (c : nat) (addr : string) : M Relay unit :=
  modify (fun r => r <| protocols :=
    <[c := mkRelayProtocol true "" JNull JNull addr]> (protocols r) |>).

Definition connection_lost (c : nat) : M Relay unit :=
  device ← attr c device_id;
  when (json_truthy device) (unregister_connection device);;
  modify (on_protocol c (fun p => p <| transport := false |>)).

(** The registry's side of [start] and [stop]; the listening socket is in
    [Lifespan.v]. *)
Definition start : M Relay unit :=
  already ← gets (fun r => running (server r));
  if (already : bool) then mret tt else modify (on_server (fun s => s <| running := true |>)).
Definition stop : M Relay unit :=
  modify (on_server (fun s => s <| running := false |>));;
  conns ← gets (fun r => (map_to_list (connections (server r))).*2);
  for_each conns _handle_disconnect;;
  modify (on_server (fun s => s <| connections := ∅ |> <| heartbeats := ∅ |> <| valid_tokens := ∅ |>)).

(** * Framing *)

(** The reference splitter: the payloads of the complete frames of a buffer,
    and what is left of it. *)
Fixpoint frames_fuel (fuel : nat) (b : bytes) : list bytes * bytes :=
  match fuel with
  | O => ([], b)
  | Datatypes.S f =>
    match next_frame b with
    | None => ([], b)
    | Some (p, r) => let '(ps, r') := frames_fuel f r in (p :: ps, r')
    end
  end.
Definition frames (b : bytes) : list bytes * bytes := frames_fuel (Datatypes.S (String.length b)) b.

Lemma next_frame_intro h p r :
  String.length h = HEADER_SIZE -> be_value h = len p -> next_frame (h +:+ p +:+ r) = Some (p, r).
Proof.
  intros Hh Hp. unfold next_frame. rewrite !str_length_app, Hh.
  rewrite (proj2 (Nat.ltb_ge _ _)) by lia.
  rewrite <-Hh, take_str_app, Hp, Hh. unfold len. rewrite !str_length_app, Hh.
  rewrite (proj2 (Z.ltb_ge _ _)) by lia.
  replace (Z.to_nat _) with (HEADER_SIZE + String.length p)%nat by lia.
  unfold slice.
  replace (drop_str HEADER_SIZE (h +:+ p +:+ r)) with (p +:+ r) by (by rewrite <-Hh, drop_str_app).
  replace (_ + _ - _)%nat with (String.length p) by lia. rewrite take_str_app.
  do 2 f_equal. rewrite <-str_app_assoc, <-Hh, <-str_length_app. apply drop_str_app.
Qed.

Lemma next_frame_elim b p r :
  next_frame b = Some (p, r) ->
  exists h, b = h +:+ p +:+ r /\ String.length h = HEADER_SIZE /\ be_value h = len p.
Proof.
  unfold next_frame. destruct (Nat.ltb_spec (String.length b) HEADER_SIZE) as [|Hlen]; [done|].
  set (h := take_str HEADER_SIZE b). pose proof (be_value_bound h) as Hb.
  destruct (Z.ltb_spec (len b) (Z.of_nat HEADER_SIZE + be_value h)) as [|Htot]; [done|].
  intros [= <- <-]. exists h. unfold len in *.
  set (n := Z.to_nat (be_value h)).
  replace (Z.to_nat (Z.of_nat HEADER_SIZE + be_value h)) with (HEADER_SIZE + n)%nat by lia.
  unfold slice. replace (HEADER_SIZE + n - HEADER_SIZE)%nat with n by lia.
  assert (forall i j (s : bytes), drop_str (i + j) s = drop_str j (drop_str i s)) as Hdd.
  { clear. induction i as [|i IH]; [done|]. intros j [|c s]; [by destruct j|]. apply IH. }
  rewrite Hdd, take_drop_str. unfold h. rewrite take_drop_str. split_and!; [done| |].
  - rewrite take_str_length. lia.
  - fold h. rewrite take_str_length, drop_str_length. lia.
Qed.

Lemma next_frame_shorter b p r :
  next_frame b = Some (p, r) -> (String.length r < String.length b)%nat.
Proof.
  intros (h & -> & Hh & _)%next_frame_elim. rewrite !str_length_app, Hh.
  unfold HEADER_SIZE. lia.
Qed.

Lemma next_frame_app b p r d :
  next_frame b = Some (p, r) -> next_frame (b +:+ d) = Some (p, r +:+ d).
Proof.
  intros (h & -> & Hh & Hv)%next_frame_elim. rewrite !str_app_assoc. by apply next_frame_intro.
Qed.

Lemma frames_fuel_enough f b :
  (String.length b < f)%nat -> frames_fuel f b = frames b.
Proof.
  unfold frames. generalize (Datatypes.S (String.length b)), (Nat.lt_succ_diag_r (String.length b)).
  revert b. induction f as [|f IH]; intros b [|g] Hg Hf; [lia..|]. simpl.
  destruct (next_frame b) as [[p r]|] eqn:E; [|done].
  apply next_frame_shorter in E. by rewrite (IH r g) by lia.
Qed.

Lemma frames_unfold b :
  frames b = match next_frame b with
             | None => ([], b)
             | Some (p, r) => (p :: (frames r).1, (frames r).2)
             end.
Proof.
  unfold frames at 1. simpl. destruct (next_frame b) as [[p r]|] eqn:E; [|done].
  apply next_frame_shorter in E. rewrite frames_fuel_enough by lia. by destruct (frames r).
Qed.

(** Induction along the frames of a buffer. *)
Lemma frames_ind (P : bytes -> Prop) :
  (forall b, next_frame b = None -> P b) ->
  (forall b p r, next_frame b = Some (p, r) -> P r -> P b) -> forall b, P b.
Proof.
  intros Hn Hs b. remember (String.length b) as n eqn:Hlen.
  revert b Hlen. induction (lt_wf n) as [n _ IH]. intros b ->.
  destruct (next_frame b) as [[p r]|] eqn:E; [|by apply Hn].
  eapply Hs; [done|]. eapply IH; [by eapply next_frame_shorter|done].
Qed.

(** What is left holds no complete frame. *)
Lemma frames_rest b : next_frame (frames b).2 = None.
Proof.
  induction b as [b E|b p r E IH] using frames_ind; rewrite frames_unfold, E; done.
Qed.

Lemma frames_app (b d : bytes) :
  frames (b +:+ d) =
  ((frames b).1 ++ (frames ((frames b).2 +:+ d)).1, (frames ((frames b).2 +:+ d)).2).
Proof.
  induction b as [b E|b p r E IH] using frames_ind.
  - rewrite (frames_unfold b), E. cbn. by rewrite <-surjective_pairing.
  - rewrite (frames_unfold b), E, (frames_unfold (b +:+ d)), (next_frame_app _ _ _ _ E), IH. done.
Qed.

Lemma frame_of_elim p f :
  frame_of p = Ok f -> exists h, f = h +:+ p /\ String.length h = HEADER_SIZE /\ be_value h = len p.
Proof.
  unfold frame_of. destruct (pack HEADER_SIZE (len p)) as [h|e] eqn:E; [|done].
  intros Hf. injection Hf as <-. exists h. eauto using pack_length, be_value_pack.
Qed.

Lemma frames_frame_of p f rest :
  frame_of p = Ok f -> frames (f +:+ rest) = (p :: (frames rest).1, (frames rest).2).
Proof.
  intros (h & -> & Hh & Hv)%frame_of_elim.
  by rewrite frames_unfold, str_app_assoc, next_frame_intro.
Qed.

(** * Handlers do not look at buffers *)
Definition on_buffer (c : nat) (g : bytes -> bytes) : Relay -> Relay :=
  on_protocol c (fun p => p <| buffer := g (buffer p) |>).

Ltac relay_unfold :=
  unfold on_buffer, on_protocol, on_server, set_field, set_protocols, set_server, set_sent; cbn.

(** An attribute, or an update of the protocol object, that ignores the
    buffer. *)
Lemma commutes_attr {A} c g d (a : RelayProtocol -> A) :
  (forall p v, a (p <| buffer := v |>) = a p) -> Commutes (on_buffer c g) (attr d a).
Proof.
  intros Ha s. unfold attr, on_buffer, on_protocol. simpl. rewrite lookup_alter.
  destruct (decide (c = d)) as [<-|Hcd].
  - destruct (protocols s !! c); simpl; [by rewrite Ha|done].
  - by destruct (protocols s !! d).
Qed.
Lemma commutes_on_protocol c g d (u : RelayProtocol -> RelayProtocol) :
  (forall p v, u (p <| buffer := v |>) = u p <| buffer := v |>) ->
  (forall p, buffer (u p) = buffer p) ->
  Commutes (on_buffer c g) (modify (on_protocol d u)).
Proof.
  intros Hu Hb. apply commutes_modify. intros s. relay_unfold. f_equal. apply map_eq. intros e. rewrite !lookup_alter.
  repeat case_decide; subst; try done;
    destruct (protocols s !! _); simpl; rewrite ?Hu, ?Hb; done.
Qed.

#[local] Hint Extern 1 (Commutes _ (attr _ _)) => (apply commutes_attr; reflexivity) : typeclass_instances.
#[local] Hint Extern 1 (Commutes _ (modify (on_protocol _ _))) =>
  (apply commutes_on_protocol; reflexivity) : typeclass_instances.
#[local] Hint Extern 2 (Commutes _ (modify _)) => (apply commutes_modify; reflexivity) : typeclass_instances.
#[local] Hint Extern 2 (Commutes _ (gets _)) => (apply commutes_gets; reflexivity) : typeclass_instances.

#[local] Typeclasses Opaque except_parse _send_message _send_pong _handle_connect _handle_data
  _handle_disconnect _handle_heartbeat _handle_message validate_session register_connection
  unregister_connection update_heartbeat get_connection.

#[local] Instance commutes_except_parse c g e : Commutes (on_buffer c g) (except_parse e).
Proof. unfold except_parse. destruct e; apply _. Qed.
#[local] Instance commutes_send c g d t b : Commutes (on_buffer c g) (_send_message d t b).
Proof. unfold _send_message. apply _. Qed.
#[local] Instance commutes_connect c g d b : Commutes (on_buffer c g) (_handle_connect d b).
Proof. unfold _handle_connect, validate_session, register_connection. apply _. Qed.
#[local] Instance commutes_data c g d b : Commutes (on_buffer c g) (_handle_data d b).
Proof.
  unfold _handle_data, get_connection. apply commutes_try; [|by intros []; apply _].
  apply commutes_bind; [apply _|]. intros []. apply _.
Qed.
#[local] Instance commutes_disconnect c g d : Commutes (on_buffer c g) (_handle_disconnect d).
Proof. unfold _handle_disconnect, unregister_connection. apply _. Qed.
#[local] Instance commutes_heartbeat c g d b : Commutes (on_buffer c g) (_handle_heartbeat d b).
Proof. unfold _handle_heartbeat, update_heartbeat. apply _. Qed.
#[local] Instance commutes_message c g d b : Commutes (on_buffer c g) (_handle_message d b).
Proof. unfold _handle_message, _send_pong. apply _. Qed.

(** A message is handled whatever it holds: no exception leaves the handler. *)
Lemma handle_message_ok c b s : (_handle_message c b s).1 = Ok tt.
Proof. apply try_ignore_ok. Qed.
Lemma handle_messages_ok c ps s : (for_each ps (_handle_message c) s).1 = Ok tt.
Proof.
  revert s. induction ps as [|p ps IH]; intros s; [done|]. simpl.
  unfold mbind, M_bind. pose proof (handle_message_ok c p s) as H.
  destruct (_handle_message c p s) as [o s']; simpl in H; subst o. apply IH.
Qed.

(** Handling keeps every protocol object and its buffer. *)
Definition same_buffers (s s' : Relay) : Prop :=
  forall c, buffer <$> protocols s' !! c = buffer <$> protocols s !! c.
#[export] Instance same_buffers_preorder : PreOrder same_buffers.
Proof. split; [by intros s c|]. intros s1 s2 s3 H1 H2 c. by rewrite H2, H1. Qed.

Lemma same_buffers_on_protocol c u :
  (forall p, buffer (u p) = buffer p) -> Frame same_buffers (modify (on_protocol c u)).
Proof.
  intros Hu. apply frame_modify. intros s d. unfold on_protocol. simpl. rewrite lookup_alter.
  case_decide; subst; [|done]. destruct (protocols s !! d); simpl; [by rewrite Hu|done].
Qed.
Lemma same_buffers_attr {A} c (a : RelayProtocol -> A) : Frame same_buffers (attr c a).
Proof. intros s. unfold attr. by destruct (protocols s !! c). Qed.
#[local] Hint Resolve same_buffers_attr : typeclass_instances.
#[local] Hint Extern 1 (Frame same_buffers (modify (on_protocol _ _))) =>
  (apply same_buffers_on_protocol; reflexivity) : typeclass_instances.
#[local] Hint Extern 2 (Frame same_buffers (modify _)) =>
  (apply frame_modify; intros ? ?; reflexivity) : typeclass_instances.

#[local] Instance same_buffers_parse e : Frame same_buffers (except_parse e).
Proof. unfold except_parse. destruct e; apply _. Qed.
#[local] Instance same_buffers_send d t b : Frame same_buffers (_send_message d t b).
Proof. unfold _send_message. apply _. Qed.
#[local] Instance same_buffers_connect d b : Frame same_buffers (_handle_connect d b).
Proof. unfold _handle_connect, validate_session, register_connection. apply _. Qed.
#[local] Instance same_buffers_data d b : Frame same_buffers (_handle_data d b).
Proof.
  unfold _handle_data, get_connection. apply frame_try; [apply _| |by intros []; apply _].
  apply frame_bind; [apply _..|]. intros []. apply _.
Qed.
#[local] Instance same_buffers_disconnect d : Frame same_buffers (_handle_disconnect d).
Proof. unfold _handle_disconnect, unregister_connection. apply _. Qed.
#[local] Instance same_buffers_heartbeat d b : Frame same_buffers (_handle_heartbeat d b).
Proof. unfold _handle_heartbeat, update_heartbeat. apply _. Qed.
#[local] Instance same_buffers_message d b : Frame same_buffers (_handle_message d b).
Proof. unfold _handle_message, _send_pong. apply _. Qed.

(** ** [data_received] against the reference splitter *)
Definition buffer_of (c : nat) (s : Relay) : bytes := default "" (buffer <$> protocols s !! c).
Definition connected (c : nat) (s : Relay) : Prop := is_Some (protocols s !! c).

Lemma attr_buffer c s : connected c s -> attr c buffer s = (Ok (buffer_of c s), s).
Proof. intros [p Hp]. unfold attr, buffer_of. by rewrite Hp. Qed.

Lemma buffer_of_frame c s s' : same_buffers s s' -> buffer_of c s' = buffer_of c s.
Proof. intros H. unfold buffer_of. by rewrite H. Qed.
Lemma connected_frame c s s' : same_buffers s s' -> connected c s -> connected c s'.
Proof.
  intros H [p Hp]. specialize (H c). rewrite Hp in H. unfold connected.
  destruct (protocols s' !! c); [eauto|done].
Qed.
Lemma buffer_of_set c g s : connected c s -> buffer_of c (on_buffer c g s) = g (buffer_of c s).
Proof.
  intros [p Hp]. unfold buffer_of, on_buffer, on_protocol. simpl. by rewrite lookup_alter_eq, Hp.
Qed.
Lemma connected_set c g s : connected c s -> connected c (on_buffer c g s).
Proof.
  intros [p Hp]. unfold connected, on_buffer, on_protocol. simpl. rewrite lookup_alter_eq, Hp. by eexists.
Qed.
Lemma on_buffer_comp c g h s : on_buffer c g (on_buffer c h s) = on_buffer c (g ∘ h) s.
Proof.
  destruct s. relay_unfold. f_equal.
  rewrite alter_alter_eq. apply alter_ext. done.
Qed.
Lemma on_buffer_same c g s :
  (connected c s -> g (buffer_of c s) = buffer_of c s) -> on_buffer c g s = s.
Proof.
  intros H. unfold buffer_of, connected in *. destruct s. relay_unfold. f_equal.
  apply map_eq. intros d. rewrite lookup_alter. case_decide; subst; [|done].
  simpl in H. destruct (protocols0 !! d) as [p|] eqn:E; [|done]. simpl in *.
  rewrite H by eauto. by destruct p.
Qed.

Lemma handle_messages_commute c g ps :
  Commutes (on_buffer c g) (for_each ps (_handle_message c)).
Proof. apply commutes_for_each. apply _. Qed.

Lemma drain_spec f c s :
  connected c s -> (String.length (buffer_of c s) < f)%nat ->
  drain f c s =
  for_each (frames (buffer_of c s)).1 (_handle_message c)
           (on_buffer c (fun _ => (frames (buffer_of c s)).2) s).
Proof.
  revert s. induction f as [|f IH]; intros s Hc Hf; [lia|]. cbn [drain].
  unfold mbind, M_bind at 1. rewrite attr_buffer by done.
  rewrite frames_unfold. destruct (next_frame (buffer_of c s)) as [[p r]|] eqn:E.
  - apply next_frame_shorter in E as Hlt. cbn [fst snd for_each].
    set (s1 := on_buffer c (fun _ => r) s).
    assert (connected c s1) as Hc1 by by apply connected_set.
    assert (buffer_of c s1 = r) as Hb1 by by apply buffer_of_set.
    unfold M_bind at 1, modify. change (on_protocol c (fun p0 => p0 <| buffer := r |>) s) with s1.
    pose proof (same_buffers_message c p s1) as Hfr.
    pose proof (handle_message_ok c p s1) as Hok.
    pose proof (commutes_message c (fun _ => (frames r).2) c p s1) as Hcm.
    unfold s1 in Hcm. rewrite on_buffer_comp in Hcm. fold s1 in Hcm.
    change ((fun _ => (frames r).2) ∘ (fun _ => r)) with (fun _ : bytes => (frames r).2) in Hcm.
    unfold mbind, M_bind. rewrite Hcm.
    destruct (_handle_message c p s1) as [o s2]. cbn [fst snd] in *. subst o.
    rewrite IH; erewrite ?buffer_of_frame by exact Hfr; rewrite ?Hb1; [done| |lia].
    by eapply connected_frame.
  - cbn. by rewrite on_buffer_same.
Qed.

Lemma data_received_spec c d s :
  connected c s ->
  data_received c d s =
  for_each (frames (buffer_of c s +:+ d)).1 (_handle_message c)
           (on_buffer c (fun _ => (frames (buffer_of c s +:+ d)).2) s).
Proof.
  intros Hc. unfold data_received, mbind, M_bind, modify.
  change (on_protocol c _ s) with (on_buffer c (fun b => b +:+ d) s).
  rewrite attr_buffer by by apply connected_set.
  rewrite drain_spec; [|by apply connected_set|lia].
  rewrite buffer_of_set by done. by rewrite on_buffer_comp.
Qed.

Definition concat_str (l : list bytes) : bytes := foldr String.append "" l.

Lemma frames_concat ps fs :
  Forall2 (fun p f => frame_of p = Ok f) ps fs -> frames (concat_str fs) = (ps, "").
Proof.
  induction 1 as [|p f ps fs Hpf _ IH]; [done|].
  change (concat_str (f :: fs)) with (f +:+ concat_str fs). by rewrite (frames_frame_of p), IH.
Qed.

Lemma data_received_chunks c chunks s :
  connected c s -> next_frame (buffer_of c s) = None ->
  for_each chunks (data_received c) s =
  for_each (frames (buffer_of c s +:+ concat_str chunks)).1 (_handle_message c)
           (on_buffer c (fun _ => (frames (buffer_of c s +:+ concat_str chunks)).2) s).
Proof.
  revert s. induction chunks as [|d chunks IH]; intros s Hc Hn.
  - change (concat_str []) with "". rewrite str_app_nil, frames_unfold, Hn. cbn [fst snd for_each].
    by rewrite on_buffer_same.
  - change (concat_str (d :: chunks)) with (d +:+ concat_str chunks).
    rewrite <-str_app_assoc, frames_app. cbn [fst snd for_each].
    set (b := buffer_of c s +:+ d). rewrite for_each_app.
    unfold mbind, M_bind. rewrite data_received_spec by done. fold b.
    set (s1 := on_buffer c (fun _ => (frames b).2) s).
    assert (Frame same_buffers (for_each (frames b).1 (_handle_message c))) as Hfr
      by (apply frame_for_each; apply _).
    specialize (Hfr s1). pose proof (handle_messages_ok c (frames b).1 s1) as Hok.
    assert (connected c s1) as Hc1 by by apply connected_set.
    assert (buffer_of c s1 = (frames b).2) as Hb1 by by apply buffer_of_set.
    set (rest := (frames ((frames b).2 +:+ concat_str chunks)).2).
    replace (on_buffer c (fun _ => rest) s) with (on_buffer c (fun _ => rest) s1)
      by (unfold s1; by rewrite on_buffer_comp).
    rewrite (handle_messages_commute c _ (frames b).1 s1).
    destruct (for_each (frames b).1 (_handle_message c) s1) as [o s2]. cbn [fst snd] in *. subst o.
    rewrite IH.
    + by erewrite buffer_of_frame, Hb1 by exact Hfr.
    + by eapply connected_frame.
    + erewrite buffer_of_frame, Hb1 by exact Hfr. apply frames_rest.
Qed.

(** * The registry *)

(** Writing to a transport leaves the registry alone. *)
Definition same_server (s s' : Relay) : Prop :=
  server s' = server s /\ monotonic s' = monotonic s /\ protocols s' = protocols s.
#[export] Instance same_server_preorder : PreOrder same_server.
Proof. split; [by split|]. intros s1 s2 s3 (?&?&?) (?&?&?). split_and!; congruence. Qed.
#[local] Instance same_server_send d t b : Frame same_server (_send_message d t b).
Proof.
  unfold _send_message. apply frame_bind; [apply _| |intros a].
  - intros s. unfold attr. by destruct (protocols s !! d).
  - apply frame_if; [apply _|]. apply frame_bind; [apply _..|]. intros f. by apply frame_modify.
Qed.

(** The value the handlers read for a missing member. *)
Definition member (o : obj) (k : string) : json := default (JStr "") (obj_get k o).

Lemma handle_connect_eq c body s o kt :
  connected c s -> utf8_valid body = true -> loads body = Ok (JObj o) ->
  hash_key (member o "token") = Ok kt ->
  exists s1, server s1 = server s /\ monotonic s1 = monotonic s /\ sent s1 = sent s /\
    protocols s1 = alter (fun p => p <| session_token := member o "token" |>
                                     <| device_id := member o "device_id" |>) c (protocols s) /\
    _handle_connect c body s =
    try_except (
      if same_session (valid_tokens (server s) !! kt) (member o "session_id") then
        register_connection (member o "device_id") c;;
        _send_message c MSG_TYPE_CONNECT_ACK (connect_ack (member o "session_id") (member o "device_id"))
      else _send_message c MSG_TYPE_CONNECT_ACK connect_nack) except_parse s1.
Proof.
  intros Hc Hutf Hl Hk.
  exists (on_protocol c (fun p => p <| device_id := member o "device_id" |>)
           (on_protocol c (fun p => p <| session_token := member o "token" |>) s)).
  split_and!; [done..| |].
  - unfold on_protocol. cbn. rewrite alter_alter_eq. by apply alter_ext.
  - unfold _handle_connect, try_except, decode. rewrite Hutf.
    unfold validate_session, lift, modify, gets, mbind, M_bind. cbv beta iota. rewrite Hl.
    cbn [json_get]. cbv beta iota. fold (member o "token"). rewrite Hk. cbv beta iota.
    fold (member o "device_id") (member o "session_id").
    change (server (on_protocol c _ _)) with (server s).
    by destruct (same_session _ _).
Qed.

(** The protocols that survive a call keep their transport and their ids. *)
Lemma try_frame {A} (R : relation Relay) `{!PreOrder R} (m : M Relay A) h s :
  Frame R m -> (forall e, Frame R (h e)) -> R s (try_except m h s).2.
Proof. intros Hm Hh. apply frame_try; apply _ || done. Qed.

Lemma register_eq device c k s :
  hash_key device = Ok k ->
  register_connection device c s =
  (Ok tt, on_server (fun sv => sv <| connections := <[k := c]> (connections sv) |>
                                  <| heartbeats := <[k := monotonic s]> (heartbeats sv) |>) s).
Proof. intros Hk. unfold register_connection. rewrite Hk. done. Qed.

Definition unregistered (device : json) (k : key) (sv : RelayServer) : RelayServer :=
  sv <| connections := delete k (connections sv) |>
     <| heartbeats := delete k (heartbeats sv) |>
     <| valid_tokens := filter (fun '(_, v) => differs device v = true) (valid_tokens sv) |>.
Lemma unregister_eq device k s :
  hash_key device = Ok k -> unregister_connection device s = (Ok tt, on_server (unregistered device k) s).
Proof. intros Hk. unfold unregister_connection. rewrite Hk. done. Qed.

Lemma hash_key_json k : hash_key (key_json k) = Ok k.
Proof. by destruct k. Qed.

(** Unregistering several ids. *)
Lemma unregister_all ks s :
  exists sv, for_each ks (fun k => unregister_connection (key_json k)) s = (Ok tt, s <| server := sv |>)
    /\ (forall k, connections sv !! k = if decide (k ∈ ks) then None else connections (server s) !! k)
    /\ (forall k, heartbeats sv !! k = if decide (k ∈ ks) then None else heartbeats (server s) !! k).
Proof.
  revert s. induction ks as [|k ks IH]; intros s.
  - exists (server s). split; [by destruct s|]. split; intros k; case_decide; set_solver.
  - cbn [for_each]. unfold mbind, M_bind. rewrite (unregister_eq _ k) by apply hash_key_json.
    destruct (IH (on_server (unregistered (key_json k) k) s)) as (sv & -> & Hc & Hh).
    exists sv. split; [done|]. split; intros j.
    + rewrite Hc. cbn. rewrite lookup_delete. repeat case_decide; set_solver.
    + rewrite Hh. cbn. rewrite lookup_delete. repeat case_decide; set_solver.
Qed.

(** ** Every registered connection has a heartbeat *)
Definition registry_wf (s : Relay) : Prop :=
  forall k c, connections (server s) !! k = Some c -> is_Some (heartbeats (server s) !! k).
Definition keeps_wf (s s' : Relay) : Prop := registry_wf s -> registry_wf s'.
#[export] Instance keeps_wf_preorder : PreOrder keeps_wf.
Proof. unfold keeps_wf. split; [by intros s|]. intros s1 s2 s3. tauto. Qed.

Lemma keeps_wf_same_server {A} (m : M Relay A) : Frame same_server m -> Frame keeps_wf m.
Proof. intros H s. unfold keeps_wf, registry_wf. destruct (H s) as [Hs _]. by rewrite Hs. Qed.
Lemma keeps_wf_attr {A} c (a : RelayProtocol -> A) : Frame keeps_wf (attr c a).
Proof. intros s. unfold attr. by destruct (protocols s !! c). Qed.
#[local] Hint Resolve keeps_wf_attr : typeclass_instances.
#[local] Hint Extern 1 (Frame keeps_wf (modify (on_protocol _ _))) =>
  (apply frame_modify; intros ?; exact id) : typeclass_instances.
#[local] Hint Extern 1 (Frame keeps_wf (_send_message _ _ _)) =>
  (apply keeps_wf_same_server; apply _) : typeclass_instances.

#[local] Instance keeps_wf_register d c : Frame keeps_wf (register_connection d c).
Proof.
  apply frame_bind; [apply _..|]. intros k. apply frame_modify. intros s H j d' Hj. cbn in *.
  apply lookup_insert_Some in Hj as [[<- _]|[Hne Hj]].
  - rewrite lookup_insert_eq. by eexists.
  - rewrite lookup_insert_ne by done. by eapply H.
Qed.
#[local] Instance keeps_wf_unregister d : Frame keeps_wf (unregister_connection d).
Proof.
  apply frame_bind; [apply _..|]. intros k. apply frame_modify. intros s H j d' Hj. cbn in *.
  apply lookup_delete_Some in Hj as [Hne Hj]. rewrite lookup_delete_ne by done. by eapply H.
Qed.
#[local] Instance keeps_wf_heartbeat d : Frame keeps_wf (update_heartbeat d).
Proof.
  apply frame_bind; [apply _..|]. intros k. apply frame_modify. intros s H j d' Hj. cbn in *.
  apply H in Hj. destruct (decide (k = j)) as [->|]; [rewrite lookup_insert_eq; by eexists|].
  by rewrite lookup_insert_ne.
Qed.
#[local] Instance keeps_wf_parse e : Frame keeps_wf (except_parse e).
Proof. unfold except_parse. destruct e; apply _. Qed.
#[local] Instance keeps_wf_connect d b : Frame keeps_wf (_handle_connect d b).
Proof. unfold _handle_connect, validate_session. apply _. Qed.
#[local] Instance keeps_wf_data d b : Frame keeps_wf (_handle_data d b).
Proof.
  unfold _handle_data, get_connection. apply frame_try; [apply _| |by intros []; apply _].
  apply frame_bind; [apply _..|]. intros []. apply _.
Qed.
#[local] Instance keeps_wf_disconnect d : Frame keeps_wf (_handle_disconnect d).
Proof. unfold _handle_disconnect. apply _. Qed.
#[local] Instance keeps_wf_handle_heartbeat d b : Frame keeps_wf (_handle_heartbeat d b).
Proof. unfold _handle_heartbeat. apply _. Qed.
#[local] Instance keeps_wf_message d b : Frame keeps_wf (_handle_message d b).
Proof. unfold _handle_message, _send_pong. apply _. Qed.
#[local] Instance keeps_wf_drain f c : Frame keeps_wf (drain f c).
Proof.
  induction f as [|f IH]; cbn [drain]; [apply _|]. apply frame_bind; [apply _..|].
  intros b. apply frame_option; [|apply _]. intros []. apply _.
Qed.

(** The events of the process: what the event loop calls, the fallback path
    adding a token, the heartbeats devices send to [api/v1/relay.py], and time
    going on. *)
Inductive relay_event :=
  | ConnectionMade (c : nat) (addr : string)
  | DataReceived (c : nat) (data : bytes)
  | ConnectionLost (c : nat)
  | AddToken (token session_id : string)
  | ApiHeartbeat (device : string)
  | RemoveExpired
  | Start
  | Stop
  | Clock (mono utc : Z).
Definition relay_step (e : relay_event) : M Relay unit :=
  match e with
  | ConnectionMade c addr => connection_made c addr
  | DataReceived c d => data_received c d
  | ConnectionLost c => connection_lost c
  | AddToken t i => modify (on_server (add_valid_token t i))
  | ApiHeartbeat d =>
    modify (fun r => on_server (fun s => s <| heartbeats := <[KStr d := monotonic r]> (heartbeats s) |>) r)
  | RemoveExpired => remove_expired_tokens
  | Start => start
  | Stop => stop
  | Clock m u => modify (fun r => mkRelay (server r) (protocols r) (sent r) m u)
  end.
(** A run: an exception ends the callback it was raised in, not the run. *)
Definition relay_run (es : list relay_event) (s : Relay) : Relay :=
  foldl (fun s e => (relay_step e s).2) s es.
Definition boot (h : string) (p : Z) : Relay := mkRelay (new_server h p) ∅ [] 0 0.

#[local] Instance keeps_wf_step e : Frame keeps_wf (relay_step e).
Proof.
  destruct e; cbn; try (apply frame_modify; intros ?; exact id).
  - unfold data_received. apply _.
  - unfold connection_lost. apply _.
  - apply frame_modify. intros s H j c Hj. cbn in *. apply H in Hj.
    destruct (decide (KStr device = j)) as [->|]; [rewrite lookup_insert_eq; by eexists|by rewrite lookup_insert_ne].
  - unfold remove_expired_tokens. apply _.
  - unfold start. apply frame_bind; [apply _..|]. intros []; [apply _|]. apply frame_modify. intros ?; exact id.
  - unfold stop. apply frame_bind; [apply _| |intros _].
    { apply frame_modify; intros ?; exact id. }
    apply frame_bind; [apply _..|]. intros conns. apply frame_bind; [apply _..|]. intros _.
    apply frame_modify. intros s H k c Hk. cbn in Hk. by rewrite lookup_empty in Hk.
Qed.

#[local] Instance same_server_parse e : Frame same_server (except_parse e).
Proof. unfold except_parse. destruct e; apply _. Qed.

(** A whole CONNECT, as far as the registry and the protocol objects go. *)
Lemma handle_connect_state c body s o kt kd :
  connected c s -> utf8_valid body = true -> loads body = Ok (JObj o) ->
  hash_key (member o "token") = Ok kt -> hash_key (member o "device_id") = Ok kd ->
  let s' := (_handle_connect c body s).2 in
  let ok := same_session (valid_tokens (server s) !! kt) (member o "session_id") in
  server s' = (if ok then server s <| connections := <[kd := c]> (connections (server s)) |>
                                   <| heartbeats := <[kd := monotonic s]> (heartbeats (server s)) |>
               else server s) /\
  protocols s' = alter (fun p => p <| session_token := member o "token" |>
                                   <| device_id := member o "device_id" |>) c (protocols s).
Proof.
  intros Hc Hutf Hl Hk Hd. cbv zeta.
  destruct (handle_connect_eq c body s o kt Hc Hutf Hl Hk) as (s1 & Hs & Hm & _ & Hp & ->).
  destruct (same_session _ _).
  - unfold try_except. unfold mbind, M_bind. rewrite (register_eq _ _ kd) by done.
    set (s2 := on_server _ s1).
    pose proof (same_server_send c MSG_TYPE_CONNECT_ACK
      (connect_ack (member o "session_id") (member o "device_id")) s2) as Hf.
    destruct (_send_message _ _ _ s2) as [[[]|e] s3]; cbn [snd] in *.
    + destruct Hf as (-> & _ & ->). unfold s2. cbn. by rewrite Hs, Hm, Hp.
    + destruct (same_server_parse e s3) as (-> & _ & ->).
      destruct Hf as (-> & _ & ->). unfold s2. cbn. by rewrite Hs, Hm, Hp.
  - assert (Frame same_server (try_except (_send_message c MSG_TYPE_CONNECT_ACK connect_nack) except_parse))
      as Hf by (apply frame_try; apply _).
    destruct (Hf s1) as (-> & _ & ->). by rewrite Hs, Hp.
Qed.

(** A DISCONNECT of a connection whose id is the string [v]. *)
Lemma handle_disconnect_state c s p v :
  protocols s !! c = Some p -> device_id p = JStr v -> truthy v = true ->
  server (_handle_disconnect c s).2 = unregistered (JStr v) (KStr v) (server s).
Proof.
  intros Hp Hd Hv. unfold _handle_disconnect, mbind, M_bind, attr. rewrite Hp, Hd. cbn [json_truthy].
  rewrite Hv. cbn [when]. by rewrite (unregister_eq _ (KStr v)).
Qed.

Lemma send_message_eq c t b s p f :
  protocols s !! c = Some p -> transport p = true ->
  frame_of (RELAY_MAGIC +:+ String (byte_of_Z t) b) = Ok f ->
  _send_message c t b s = (Ok tt, s <| sent := sent s ++ [(c, f)] |>).
Proof.
  intros Hp Ht Hf. unfold _send_message, mbind, M_bind, attr. rewrite Hp, Ht. cbn [negb].
  cbv zeta. unfold lift. by rewrite Hf.
Qed.

Lemma run_keeps_wf es s : registry_wf s -> registry_wf (relay_run es s).
Proof.
  unfold relay_run. revert s. induction es as [|e es IH]; intros s H; [done|].
  cbn. apply IH. by apply (keeps_wf_step e s).
Qed.
Lemma boot_wf h p : registry_wf (boot h p).
Proof. by intros k c Hk. Qed.

(** * Properties *)

(** C1. TCP may cut the stream of a connection anywhere: whatever the chunks
    [data_received] is called with, if together they are the frames of the
    messages [ps] then each message is handled exactly once, in order, and
    nothing stays in the buffer. *)
Theorem relay_stream c s ps fs chunks :
  connected c s -> buffer_of c s = "" ->
  Forall2 (fun p f => frame_of p = Ok f) ps fs ->
  concat_str chunks = concat_str fs ->
  for_each chunks (data_received c) s = for_each ps (_handle_message c) s.
Proof.
  intros Hc Hb Hps Hch. rewrite data_received_chunks by (try rewrite Hb; done).
  rewrite Hb, Hch. change ("" +:+ concat_str fs) with (concat_str fs).
  rewrite (frames_concat ps fs Hps). by rewrite on_buffer_same.
Qed.

(** C35. The loop of [data_received] ends with no complete frame in the
    buffer, whatever was received. *)
Theorem data_received_drains c d s :
  connected c s ->
  (data_received c d s).1 = Ok tt /\
  next_frame (buffer_of c (data_received c d s).2) = None.
Proof.
  intros Hc. rewrite data_received_spec by done. split; [apply handle_messages_ok|].
  assert (Frame same_buffers (for_each (frames (buffer_of c s +:+ d)).1 (_handle_message c))) as Hfr
    by (apply frame_for_each; apply _).
  erewrite buffer_of_frame by apply Hfr. rewrite buffer_of_set by done. apply frames_rest.
Qed.

(** C34. At any point of any run of the server, each registered connection has
    a heartbeat time, so that the expiry sweep can see it. *)
Theorem registry_wf_run h p es : registry_wf (relay_run es (boot h p)).
Proof. apply run_keeps_wf, boot_wf. Qed.

(** The expiry sweep keeps exactly the registered connections whose last
    heartbeat is at most 120 seconds old, with their heartbeat. *)
Theorem remove_expired_sweeps s k c :
  registry_wf s ->
  (remove_expired_tokens s).1 = Ok tt /\
  (connections (server (remove_expired_tokens s).2) !! k = Some c <->
   connections (server s) !! k = Some c /\
   exists ts, heartbeats (server s) !! k = Some ts /\ monotonic s - 120 <= ts).
Proof.
  intros Hwf. unfold remove_expired_tokens, mbind, M_bind, gets.
  set (stale := (filter _ _).*1). destruct (unregister_all stale s) as (sv & -> & Hc & _).
  split; [done|]. cbn. rewrite Hc.
  assert (k ∈ stale <-> exists ts, heartbeats (server s) !! k = Some ts /\ ts < monotonic s - 120) as Hst.
  { unfold stale. rewrite list_elem_of_fmap. split.
    - intros ([j ts] & -> & [Hlt Hin]%list_elem_of_filter). exists ts.
      by apply elem_of_map_to_list in Hin.
    - intros (ts & Hts & Hlt). exists (k, ts). split; [done|].
      apply list_elem_of_filter. split; [done|]. by apply elem_of_map_to_list. }
  case_decide as Hd.
  - split; [done|]. intros [Hk (ts & Hts & Hle)]. apply Hst in Hd as (ts' & Hts' & Hlt).
    simplify_eq. lia.
  - split; [|by intros []]. intros Hk. split; [done|].
    destruct (Hwf k c Hk) as [ts Hts]. exists ts. split; [done|].
    destruct (decide (ts < monotonic s - 120)); [|lia]. exfalso. apply Hd, Hst. eauto.
Qed.

(** A CONNECT registers the connection under the device it names exactly
    when the server knows the token for the session it names; otherwise the
    registry is left as it was. *)
Theorem connect_registers c body s o kt kd :
  connected c s -> utf8_valid body = true -> loads body = Ok (JObj o) ->
  hash_key (member o "token") = Ok kt -> hash_key (member o "device_id") = Ok kd ->
  connections (server (_handle_connect c body s).2) =
  if same_session (valid_tokens (server s) !! kt) (member o "session_id")
  then <[kd := c]> (connections (server s)) else connections (server s).
Proof.
  intros Hc Hu Hl Hk Hd. destruct (handle_connect_state c body s o kt kd) as [-> _]; try done.
  by destruct (same_session _ _).
Qed.

(** A CONNECT whose session id is the JSON null and whose token the server
    has never seen is accepted, under any device id: [None == None]. *)
Theorem connect_null_session c body s o kt kd :
  connected c s -> utf8_valid body = true -> loads body = Ok (JObj o) ->
  obj_get "session_id" o = Some JNull ->
  hash_key (member o "token") = Ok kt -> valid_tokens (server s) !! kt = None ->
  hash_key (member o "device_id") = Ok kd ->
  connections (server (_handle_connect c body s).2) !! kd = Some c.
Proof.
  intros Hc Hu Hl Hnull Hk Hnone Hd.
  destruct (handle_connect_state c body s o kt kd) as [-> _]; try done.
  unfold member at 1. rewrite Hnull, Hnone. cbn. by rewrite lookup_insert_eq.
Qed.

(** A rejected CONNECT still leaves its device id on the connection, so a
    DISCONNECT after it takes the named device's own connection out of the
    registry, whichever connection that is. *)
Theorem rejected_connect_evicts c body s o kt v c0 :
  connected c s -> utf8_valid body = true -> loads body = Ok (JObj o) ->
  hash_key (member o "token") = Ok kt -> member o "device_id" = JStr v -> truthy v = true ->
  same_session (valid_tokens (server s) !! kt) (member o "session_id") = false ->
  connections (server s) !! KStr v = Some c0 -> c0 <> c ->
  let s1 := (_handle_connect c body s).2 in
  connections (server s1) !! KStr v = Some c0 /\
  connections (server (_handle_disconnect c s1).2) !! KStr v = None.
Proof.
  intros Hc Hu Hl Hk Hd Hv Hrej Hvict _. cbv zeta.
  assert (hash_key (member o "device_id") = Ok (KStr v)) as Hkd by by rewrite Hd.
  destruct (handle_connect_state c body s o kt (KStr v) Hc Hu Hl Hk Hkd) as [Hs Hp].
  rewrite Hrej in Hs. split; [by rewrite Hs|].
  destruct Hc as [p Hpc].
  erewrite (handle_disconnect_state c _ _ v); [|by rewrite Hp, lookup_alter_eq, Hpc|by rewrite <-Hd|done].
  cbn. by rewrite lookup_delete_eq.
Qed.

(** DATA for a registered device is written once, to that device's
    connection, as one DATA frame that names the sender and carries the bytes
    in hexadecimal; nothing else changes. *)
Theorem data_delivered c s p target t pt relay_data f :
  protocols s !! c = Some p ->
  contains_char "|" target = false -> utf8_valid target = true ->
  connections (server s) !! KStr target = Some t ->
  protocols s !! t = Some pt -> transport pt = true ->
  frame_of (RELAY_MAGIC +:+ String (byte_of_Z MSG_TYPE_DATA) (data_message (device_id p) relay_data)) = Ok f ->
  _handle_data c (target +:+ String "|" relay_data) s = (Ok tt, s <| sent := sent s ++ [(t, f)] |>).
Proof.
  intros Hp Hbar Hutf Ht Hpt Htr Hf. unfold _handle_data, try_except, lift, mbind, M_bind.
  rewrite break_at_app by done. unfold decode. rewrite Hutf. unfold get_connection, gets.
  rewrite Ht. unfold attr. rewrite Hp. by erewrite send_message_eq.
Qed.

(** * Witnesses *)
Definition message (t : Z) (body : bytes) : bytes := RELAY_MAGIC +:+ String (byte_of_Z t) body.
Definition framed (payload : bytes) : bytes :=
  match frame_of payload with Ok f => f | Raise _ => "" end.
Definition connect_members (token device : string) (session_id : json) : obj :=
  [("token", JStr token); ("device_id", JStr device); ("session_id", session_id)].
Definition connect_body (token device : string) (session_id : json) : bytes :=
  dumps (JObj (connect_members token device session_id)).
(** Device [alice] is connected on connection 1; connection 2 is idle. *)
Definition demo : Relay :=
  relay_run [AddToken "tok-a" "s1"; ConnectionMade 1 "10.0.0.1:4000"; ConnectionMade 2 "10.0.0.2:4000";
             DataReceived 1 (framed (message MSG_TYPE_CONNECT (connect_body "tok-a" "alice" (JStr "s1"))))]
            (boot "0.0.0.0" 8765).
Example demo_registered : connections (server demo) !! KStr "alice" = Some 1%nat.
Proof. vm_compute. reflexivity. Qed.

Lemma relay_stream_witness :
  for_each [take_str 7 (framed (message MSG_TYPE_PING ""));
            drop_str 7 (framed (message MSG_TYPE_PING "")) +:+ framed (message MSG_TYPE_DISCONNECT "")]
           (data_received 1) demo =
  for_each [message MSG_TYPE_PING ""; message MSG_TYPE_DISCONNECT ""] (_handle_message 1) demo.
Proof.
  apply (relay_stream 1 demo [message MSG_TYPE_PING ""; message MSG_TYPE_DISCONNECT ""]
           [framed (message MSG_TYPE_PING ""); framed (message MSG_TYPE_DISCONNECT "")]).
  - vm_compute. by eexists.
  - vm_compute. reflexivity.
  - repeat constructor.
  - vm_compute. reflexivity.
Defined.

Lemma data_received_drains_witness :
  next_frame (buffer_of 1 (data_received 1 (String "000"%char "abc") demo).2) = None.
Proof.
  refine (proj2 (data_received_drains 1 (String "000"%char "abc") demo _)). vm_compute. by eexists.
Defined.

Lemma remove_expired_sweeps_witness :
  connections (server (remove_expired_tokens (relay_run [Clock 100 0] demo)).2) !! KStr "alice" = Some 1%nat
  /\ connections (server (remove_expired_tokens (relay_run [Clock 121 0] demo)).2) !! KStr "alice" <> Some 1%nat.
Proof.
  split.
  - apply (remove_expired_sweeps (relay_run [Clock 100 0] demo) (KStr "alice") 1).
    + apply run_keeps_wf, run_keeps_wf, boot_wf.
    + split; [vm_compute; reflexivity|]. exists 0. split; [vm_compute; reflexivity|]. vm_compute. discriminate.
  - vm_compute. discriminate.
Defined.

Lemma connect_registers_witness :
  connections (server (_handle_connect 2 (connect_body "bad" "bob" (JStr "s1")) demo).2) =
  connections (server demo).
Proof.
  refine (connect_registers 2 (connect_body "bad" "bob" (JStr "s1")) demo
    (connect_members "bad" "bob" (JStr "s1")) (KStr "bad") (KStr "bob") _ _ _ _ _);
    [vm_compute; by eexists|vm_compute; reflexivity..].
Defined.

Lemma connect_null_session_witness :
  connections (server (_handle_connect 2 (connect_body "bad" "alice" JNull) demo).2) !! KStr "alice" = Some 2%nat.
Proof.
  refine (connect_null_session 2 (connect_body "bad" "alice" JNull) demo
    (connect_members "bad" "alice" JNull) (KStr "bad") (KStr "alice") _ _ _ _ _ _ _);
    [vm_compute; by eexists|vm_compute; reflexivity..].
Defined.

Lemma rejected_connect_evicts_witness :
  connections (server (_handle_disconnect 2
    (_handle_connect 2 (connect_body "bad" "alice" (JStr "x")) demo).2).2) !! KStr "alice" = None.
Proof.
  refine (proj2 (rejected_connect_evicts 2 (connect_body "bad" "alice" (JStr "x")) demo
    (connect_members "bad" "alice" (JStr "x")) (KStr "bad") "alice" 1 _ _ _ _ _ _ _ _ _));
    [vm_compute; by eexists|vm_compute; reflexivity..|lia].
Defined.

Lemma data_delivered_witness :
  (_handle_data 2 ("alice" +:+ String "|" "hi") demo).1 = Ok tt.
Proof.
  erewrite (data_delivered 2 demo (mkRelayProtocol true "" JNull JNull "10.0.0.2:4000") "alice" 1
    (mkRelayProtocol true "" (JStr "tok-a") (JStr "alice") "10.0.0.1:4000") "hi");
    [reflexivity|vm_compute; reflexivity..].
Defined.
