(* ===== verification/RelayClient.v ===== *)
(** The relay client of the daemon: [midscaled/daemon/relay_client.py], and
    the handlers of [midscaled/daemon/main.py] that open relay sessions.

    The client speaks to the server of RelayServer.v: the same frames, read
    from and written to one stream.  What the writer is asked to write is
    appended to [written], what the API client is asked to report to
    [reported], and the waits between connections to [slept]. *)
From Stdlib Require Import Ascii.
From S2P Require Import Prelude PyStr Bytes Json JsonText Dict.
From S2P Require RelayServer.
Local Open Scope string_scope.
Local Open Scope list_scope.
Local Open Scope Z_scope.

Definition RELAY_MAGIC : bytes := "MIDSCALE_RELAY_V1".
Definition HEADER_SIZE : nat := 4.
Definition MSG_TYPE_PONG : Z := 2.
Definition MSG_TYPE_DATA : Z := 3.
Definition MSG_TYPE_CONNECT : Z := 4.
Definition MSG_TYPE_CONNECT_ACK : Z := 5.
Definition MSG_TYPE_DISCONNECT : Z := 6.
Definition MSG_TYPE_HEARTBEAT : Z := 7.
Definition MSG_TYPE_HEARTBEAT_ACK : Z := 8.
Definition _RECONNECT_BASE_DELAY : Z := 1.
Definition _RECONNECT_MAX_DELAY : Z := 60.

(** * State *)
Record active_session := mkActive { as_token : string; connected_at : Z }.
Record DaemonRelayClient := mkClient {
  _device_id : string;
  _running : bool;
  _writer : bool;
  _active_sessions : list (string * active_session);
  _bytes_tx : Z;
  _bytes_rx : Z;
  _connected : bool;
  written : list bytes;
  reported : list (string * Z * Z);
  slept : list Z;
  monotonic : Z
}.
#[export] Instance set_running : SetField _running := fun v r =>
  mkClient (_device_id r) v (_writer r) (_active_sessions r) (_bytes_tx r) (_bytes_rx r) (_connected r)
    (written r) (reported r) (slept r) (monotonic r).
#[export] Instance set_writer : SetField _writer := fun v r =>
  mkClient (_device_id r) (_running r) v (_active_sessions r) (_bytes_tx r) (_bytes_rx r) (_connected r)
    (written r) (reported r) (slept r) (monotonic r).
#[export] Instance set_active_sessions : SetField _active_sessions := fun v r =>
  mkClient (_device_id r) (_running r) (_writer r) v (_bytes_tx r) (_bytes_rx r) (_connected r)
    (written r) (reported r) (slept r) (monotonic r).
#[export] Instance set_bytes_rx : SetField _bytes_rx := fun v r =>
  mkClient (_device_id r) (_running r) (_writer r) (_active_sessions r) (_bytes_tx r) v (_connected r)
    (written r) (reported r) (slept r) (monotonic r).
#[export] Instance set_connected : SetField _connected := fun v r =>
  mkClient (_device_id r) (_running r) (_writer r) (_active_sessions r) (_bytes_tx r) (_bytes_rx r) v
    (written r) (reported r) (slept r) (monotonic r).
#[export] Instance set_written : SetField written := fun v r =>
  mkClient (_device_id r) (_running r) (_writer r) (_active_sessions r) (_bytes_tx r) (_bytes_rx r) (_connected r)
    v (reported r) (slept r) (monotonic r).
#[export] Instance set_reported : SetField reported := fun v r =>
  mkClient (_device_id r) (_running r) (_writer r) (_active_sessions r) (_bytes_tx r) (_bytes_rx r) (_connected r)
    (written r) v (slept r) (monotonic r).
#[export] Instance set_slept : SetField slept := fun v r =>
  mkClient (_device_id r) (_running r) (_writer r) (_active_sessions r) (_bytes_tx r) (_bytes_rx r) (_connected r)
    (written r) (reported r) v (monotonic r).
#[export] Instance set_monotonic : SetField monotonic := fun v r =>
  mkClient (_device_id r) (_running r) (_writer r) (_active_sessions r) (_bytes_tx r) (_bytes_rx r) (_connected r)
    (written r) (reported r) (slept r) v.
Definition new_client (device_id : string) : DaemonRelayClient :=
  mkClient device_id false false [] 0 0 false [] [] [] 0.

(** * Sending *)
Definition _send_message (msg_type : Z) (body : bytes) : M DaemonRelayClient unit :=
  open ← gets _writer;
  if negb open then mret tt else
  let payload := RELAY_MAGIC +:+ String (byte_of_Z msg_type) body in
  header ← lift (pack HEADER_SIZE (len payload));
  modify (fun r => r <| written := written r ++ [header +:+ payload] |>).

Definition connect_members (token device session_id : string) : obj :=
  [("token", JStr token); ("device_id", JStr device); ("session_id", JStr session_id)].
Definition connect_session (session_id token : string) : M DaemonRelayClient unit :=
  device ← gets _device_id;
  _send_message MSG_TYPE_CONNECT (dumps (JObj (connect_members token device session_id)));;
  modify (fun r => r <| _active_sessions := dict_set session_id (mkActive token (monotonic r)) (_active_sessions r) |>).

Definition disconnect_session (session_id : string) : M DaemonRelayClient unit :=
  _send_message MSG_TYPE_DISCONNECT (dumps (JObj [("session_id", JStr session_id)]));;
  modify (fun r => r <| _active_sessions := dict_del session_id (_active_sessions r) |>).

(** One turn of [_heartbeat_loop], after its sleep. *)
Definition heartbeat_tick : M DaemonRelayClient unit :=
  try_except (
    device ← gets _device_id;
    _send_message MSG_TYPE_HEARTBEAT (dumps (JObj [("device_id", JStr device)])))
  (fun _ => mret tt).

(** One turn of [_stats_report_loop], after its sleep.  The API call answers a
    truth value nobody looks at. *)
Definition request_relay_session_update (session_id : string) (tx rx : Z) : M DaemonRelayClient unit :=
  modify (fun r => r <| reported := reported r ++ [(session_id, tx, rx)] |>).
Definition stats_message (device : string) (tx rx : Z) : bytes :=
  dumps (JObj [("device_id", JStr device); ("stats", JObj [("bytes_tx", JInt tx); ("bytes_rx", JInt rx)])]).
Definition stats_tick : M DaemonRelayClient unit :=
  try_except (
    tx ← gets _bytes_tx;
    rx ← gets _bytes_rx;
    device ← gets _device_id;
    when ((0 <? tx) || (0 <? rx))
      (_send_message MSG_TYPE_HEARTBEAT (stats_message device tx rx));;
    sessions ← gets (fun r => (_active_sessions r).*1);
    for_each sessions (fun session_id => request_relay_session_update session_id tx rx))
  (fun _ => mret tt).

(** * Receiving *)

(** [bytes.fromhex(s)]: pairs of digits, with white space between pairs. *)
Definition hex_space (c : ascii) : bool :=
  let n := nat_of_ascii c in (n =? 32)%nat || ((9 <=? n)%nat && (n <=? 13)%nat).
Fixpoint fromhex (s : string) : outcome bytes :=
  match s with
  | EmptyString => Ok EmptyString
  | String c t =>
    if hex_space c then fromhex t else
    match hex_value c, t with
    | Some h, String c2 t2 =>
      match hex_value c2 with
      | Some l => rest ← fromhex t2; Ok (String (byte_of_Z (Z.of_N (16 * h + l))) rest)
      | None => Raise (ValueError "non-hexadecimal number found in fromhex() arg")
      end
    | _, _ => Raise (ValueError "non-hexadecimal number found in fromhex() arg")
    end
  end.

Definition _handle_data (body : bytes) : M DaemonRelayClient unit :=
  try_except (
    text ← lift (decode body);
    data ← lift (loads text);
    _ ← lift (RelayServer.json_get data "from_device_id" (JStr ""));
    payload_hex ← lift (RelayServer.json_get data "data" (JStr ""));
    payload ← lift (match payload_hex with JStr h => fromhex h | _ => Raise TypeError end);
    modify (fun r => r <| _bytes_rx := _bytes_rx r + len payload |>))
  (fun e => match e with JSONDecodeError | ValueError _ | KeyError => mret tt | _ => raise e end).

Definition is_str (t : string) (j : json) : bool := match j with JStr u => String.eqb u t | _ => false end.
(** The acknowledgement is only logged, a rejection too. *)
Definition _handle_connect_ack (body : bytes) : M DaemonRelayClient unit :=
  try_except (
    text ← lift (decode body);
    data ← lift (loads text);
    status ← lift (RelayServer.json_get data "status" (JStr ""));
    if is_str "connected" status
    then _ ← lift (RelayServer.json_get data "session_id" JNull); mret tt
    else _ ← lift (RelayServer.json_get data "reason" JNull); mret tt)
  (fun e => match e with JSONDecodeError => mret tt | _ => raise e end).

Definition _handle_message (payload : bytes) : M DaemonRelayClient unit :=
  try_except (
    if negb (startswith RELAY_MAGIC payload) then mret tt else
    let inner := drop_str (String.length RELAY_MAGIC) payload in
    msg_type ← lift (byte_at 0 inner);
    let body := drop_str 1 inner in
    if msg_type =? MSG_TYPE_PONG then mret tt
    else if msg_type =? MSG_TYPE_CONNECT_ACK then _handle_connect_ack body
    else if msg_type =? MSG_TYPE_DATA then _handle_data body
    else if msg_type =? MSG_TYPE_DISCONNECT then mret tt
    else if msg_type =? MSG_TYPE_HEARTBEAT_ACK then mret tt
    else mret tt)
  (fun _ => mret tt).

(** The frame at the head of the buffer, and the loop over the complete
    frames: it answers what is left. *)
Definition next_frame (b : bytes) : option (bytes * bytes) :=
  if (String.length b <? HEADER_SIZE)%nat then None else
  let msg_len := be_value (take_str HEADER_SIZE b) in
  let total_len := Z.of_nat HEADER_SIZE + msg_len in
  if len b <? total_len then None
  else Some (slice HEADER_SIZE (Z.to_nat total_len) b, drop_str (Z.to_nat total_len) b).
Fixpoint drain (fuel : nat) (b : bytes) : M DaemonRelayClient bytes :=
  match fuel with
  | O => mret b
  | S f =>
    match next_frame b with
    | None => mret b
    | Some (payload, rest) => _handle_message payload;; drain f rest
    end
  end.

(** What a call of [read] can do. *)
Inductive read_event := Received (data : bytes) | ReadTimeout | ReadError.
(** [_read_loop] over the reads the connection serves; it ends at an empty
    read, at an error, or when the client stops. *)
Fixpoint read_loop (b : bytes) (reads : list read_event) : M DaemonRelayClient unit :=
  match reads with
  | [] => mret tt
  | e :: rest =>
    running ← gets _running;
    if negb running then mret tt else
    match e with
    | Received EmptyString => mret tt
    | Received data =>
      left_over ← drain (S (String.length (b +:+ data))) (b +:+ data);
      read_loop left_over rest
    | ReadTimeout => read_loop b rest
    | ReadError => mret tt
    end
  end.
Definition _read_loop (reads : list read_event) : M DaemonRelayClient unit := read_loop "" reads.

(** * The connection loop *)
Definition start : M DaemonRelayClient unit := modify (fun r => r <| _running := true |>).
Definition stop : M DaemonRelayClient unit :=
  modify (fun r => r <| _running := false |> <| _writer := false |> <| _connected := false |>).

(** What an attempt to connect can do: a connection with its reads, or a
    failure of one of the three kinds the loop tells apart in its log. *)
Inductive attempt := Connected (reads : list read_event) | NotConnected.
Fixpoint _run (delay : Z) (attempts : list attempt) : M DaemonRelayClient unit :=
  match attempts with
  | [] => mret tt
  | a :: rest =>
    running ← gets _running;
    if negb running then mret tt else
    delay' ← match a with
             | Connected reads =>
               modify (fun r => r <| _writer := true |> <| _connected := true |>);;
               _read_loop reads;;
               mret _RECONNECT_BASE_DELAY
             | NotConnected => mret delay
             end;
    modify (fun r => r <| _connected := false |> <| slept := slept r ++ [delay'] |>);;
    _run (Z.min (delay' * 2) _RECONNECT_MAX_DELAY) rest
  end.

(** * The daemon's handlers that open sessions *)

(** [_on_relay_fallback(data)] with [data["data"]["relay_session_id"]]. *)
Definition _on_relay_fallback (relay_session_id : string) : M DaemonRelayClient unit :=
  connected ← gets _connected;
  if negb connected then mret tt
  else when (truthy relay_session_id) (connect_session relay_session_id "").

(** [_request_relay_fallback]: [answer] is what the API answers, with its
    success, session id and token. *)
Definition _request_relay_fallback (answer : bool * option string * option string) :
    M DaemonRelayClient unit :=
  match answer with
  | (true, Some session_id, Some token) =>
    when (truthy session_id && truthy token) (connect_session session_id token)
  | _ => mret tt
  end.

(** * Facts *)
Lemma hex_space_digit n : (n < 16)%N -> hex_space (hex_char n) = false /\ hex_value (hex_char n) = Some n.
Proof.
  intros Hn. assert (n ∈ (N.of_nat <$> seq 0 16)) as Hin.
  { apply list_elem_of_fmap. exists (N.to_nat n). rewrite N2Nat.id, elem_of_seq. split; [done|lia]. }
  clear Hn. cbn in Hin. repeat (apply elem_of_cons in Hin as [->|Hin]; [done|]). by apply elem_of_nil in Hin.
Qed.
(** [bytes.fromhex(b.hex()) == b] *)
Lemma fromhex_hex b : fromhex (hex b) = Ok b.
Proof.
  induction b as [|c b IH]; [done|]. cbn [hex fromhex].
  pose proof (N_ascii_bounded c) as Hc.
  destruct (hex_space_digit (N_of_ascii c / 16)) as [-> ->]; [apply N.Div0.div_lt_upper_bound; lia|].
  destruct (hex_space_digit (N_of_ascii c mod 16)) as [_ ->]; [by apply N.mod_lt|].
  rewrite IH. cbn. do 2 f_equal. rewrite <-N.Div0.div_mod. apply byte_of_Z_of_byte.
Qed.

Lemma hex_ascii b : ascii_text (hex b) = true.
Proof.
  induction b as [|c b IH]; [done|]. cbn [hex].
  rewrite !ascii_char; [done|..]; rewrite N.ltb_lt; unfold hex_char;
    pose proof (N_ascii_bounded c); pose proof (N.mod_lt (N_of_ascii c) 16 ltac:(done));
    assert (N_of_ascii c / 16 < 16)%N by (apply N.Div0.div_lt_upper_bound; lia);
    destruct (_ <? 10)%N; rewrite N_ascii_embedding; lia.
Qed.

(** ** The frames of the stream *)
Lemma next_frame_server b : next_frame b = RelayServer.next_frame b.
Proof. reflexivity. Qed.

(** Handling a message changes the byte count at most. *)
Definition same_running (s s' : DaemonRelayClient) : Prop := _running s' = _running s.
#[local] Instance same_running_pre : PreOrder same_running.
Proof. split; [done|]. intros ? ? ? H1 H2. unfold same_running in *. congruence. Qed.
#[local] Instance ack_frame body : Frame same_running (_handle_connect_ack body).
Proof.
  intros s. unfold _handle_connect_ack, try_except, mbind, M_bind, mret, M_ret, lift. repeat (case_match; simplify_eq/=; try done).
Qed.
#[local] Instance data_frame body : Frame same_running (_handle_data body).
Proof.
  intros s. unfold _handle_data, try_except, mbind, M_bind, lift, modify. repeat (case_match; simplify_eq/=; try done).
Qed.
#[local] Typeclasses Opaque _handle_connect_ack _handle_data.
#[local] Instance handle_message_frame p : Frame same_running (_handle_message p).
Proof. unfold _handle_message. apply _. Qed.
Lemma client_message_ok p s : (_handle_message p s).1 = Ok tt.
Proof. apply try_ignore_ok. Qed.

Lemma client_drain_spec f b s :
  (String.length b < f)%nat ->
  drain f b s = (for_each (RelayServer.frames b).1 _handle_message ≫= fun _ => mret (RelayServer.frames b).2) s.
Proof.
  revert b s. induction f as [|f IH]; intros b s Hf; [lia|]. cbn [drain].
  change (next_frame b) with (RelayServer.next_frame b). rewrite RelayServer.frames_unfold.
  destruct (RelayServer.next_frame b) as [[p r]|] eqn:E; [|done]. apply RelayServer.next_frame_shorter in E.
  cbn [fst snd for_each]. unfold mbind, M_bind in *. pose proof (client_message_ok p s) as Hok.
  destruct (_handle_message p s) as [o s']. cbn in Hok. subst o. cbn. apply IH. lia.
Qed.
Lemma handle_messages_run ps s :
  exists s', for_each ps _handle_message s = (Ok tt, s') /\ _running s' = _running s.
Proof.
  revert s. induction ps as [|p ps IH]; intros s; [by exists s|]. cbn [for_each].
  pose proof (client_message_ok p s) as Hok. pose proof (handle_message_frame p s) as Hr.
  unfold mbind, M_bind. destruct (_handle_message p s) as [o s1]. cbn in Hok, Hr. subst o.
  destruct (IH s1) as (s' & -> & Hs'). exists s'. by rewrite Hs', Hr.
Qed.

(** Whatever chunks the stream comes in, the loop handles its frames, in
    order, once each. *)
Lemma read_loop_spec b chunks s :
  _running s = true -> Forall (fun c => c <> "") chunks -> RelayServer.next_frame b = None ->
  read_loop b (Received <$> chunks) s =
  for_each (RelayServer.frames (b +:+ RelayServer.concat_str chunks)).1 _handle_message s.
Proof.
  intros Hrun Hne Hb. revert b s Hrun Hb. induction Hne as [|c chunks Hc Hne IH]; intros b s Hrun Hb.
  - change (RelayServer.concat_str []) with "". rewrite str_app_nil, RelayServer.frames_unfold, Hb. done.
  - change (RelayServer.concat_str (c :: chunks)) with (c +:+ RelayServer.concat_str chunks).
    rewrite <-str_app_assoc, RelayServer.frames_app. cbn [fst]. rewrite for_each_app.
    cbn [fmap list_fmap read_loop]. unfold gets. unfold mbind at 1, M_bind at 1. cbn beta iota. rewrite Hrun. cbn [negb].
    destruct c as [|a c]; [done|].
    unfold mbind at 1, M_bind at 1. rewrite client_drain_spec by lia. unfold mbind, M_bind.
    destruct (handle_messages_run (RelayServer.frames (b +:+ String a c)).1 s) as (s' & -> & Hs').
    cbn. apply IH; [congruence|]. apply RelayServer.frames_rest.
Qed.

(** ** What is sent *)
(** The message of a type and a body, and whether its length fits the header. *)
Definition message (t : Z) (body : bytes) : bytes := RELAY_MAGIC +:+ String (byte_of_Z t) body.
Definition fits (body : bytes) : Prop := 18 + len body < 2 ^ 32.

Lemma message_framed t body :
  fits body -> exists f, RelayServer.frame_of (message t body) = Ok f.
Proof.
  intros Hf. unfold RelayServer.frame_of. change RelayServer.HEADER_SIZE with HEADER_SIZE.
  rewrite pack_ok; [by eexists|]. unfold fits, len, message in *.
  rewrite str_length_app. change (String.length RELAY_MAGIC) with 17%nat. cbn [String.length].
  change (256 ^ Z.of_nat HEADER_SIZE) with (2 ^ 32). lia.
Qed.
Lemma frame_send_run t body s f :
  _writer s = true -> RelayServer.frame_of (message t body) = Ok f ->
  _send_message t body s = (Ok tt, s <| written := written s ++ [f] |>).
Proof.
  intros Hw Hf. unfold _send_message, gets. unfold mbind at 1, M_bind at 1. cbn beta iota. rewrite Hw. cbn [negb].
  unfold RelayServer.frame_of in Hf. change RelayServer.HEADER_SIZE with HEADER_SIZE in Hf.
  fold (message t body). unfold mbind, M_bind, lift.
  destruct (pack HEADER_SIZE (len (message t body))) as [h|e]; [|done]. cbn in Hf. by simplify_eq.
Qed.
Lemma connect_run session_id token s f :
  _writer s = true ->
  RelayServer.frame_of (message MSG_TYPE_CONNECT (dumps (JObj (connect_members token (_device_id s) session_id)))) = Ok f ->
  connect_session session_id token s =
  (Ok tt, s <| written := written s ++ [f] |>
            <| _active_sessions := dict_set session_id (mkActive token (monotonic s)) (_active_sessions s) |>).
Proof.
  intros Hw Hf. unfold connect_session, gets. unfold mbind at 1, M_bind at 1. cbn beta iota.
  unfold mbind, M_bind. by rewrite (frame_send_run _ _ _ _ Hw Hf).
Qed.

(** ** What the server makes of it *)
Lemma server_message c body r :
  RelayServer._handle_message c (message MSG_TYPE_CONNECT body) r =
  try_except (RelayServer._handle_connect c body) (fun _ => mret tt) r.
Proof. unfold RelayServer._handle_message, message, RelayServer.RELAY_MAGIC, RELAY_MAGIC. reflexivity. Qed.

Lemma connect_delivered c r device session_id token chunks f :
  RelayServer.connected c r -> RelayServer.buffer_of c r = "" ->
  ascii_text device = true -> ascii_text session_id = true -> ascii_text token = true ->
  RelayServer.frame_of (message MSG_TYPE_CONNECT (dumps (JObj (connect_members token device session_id)))) = Ok f ->
  RelayServer.concat_str chunks = f ->
  RelayServer.connections (RelayServer.server (for_each chunks (RelayServer.data_received c) r).2) =
  if decide (RelayServer.valid_tokens (RelayServer.server r) !! RelayServer.KStr token = Some session_id)
  then <[RelayServer.KStr device := c]> (RelayServer.connections (RelayServer.server r))
  else RelayServer.connections (RelayServer.server r).
Proof.
  intros Hc Hb Hd Hs Ht Hf Hch. set (o := connect_members token device session_id) in *.
  assert (plain (JObj o) = true) as Hp by (cbn; by rewrite Hd, Hs, Ht).
  rewrite RelayServer.data_received_chunks by (done || by rewrite Hb). rewrite Hb, Hch.
  change ("" +:+ f) with f. rewrite <-(str_app_nil f). rewrite (RelayServer.frames_frame_of _ _ "" Hf).
  change (RelayServer.frames "") with (@nil bytes, ""). cbn [fst snd for_each].
  rewrite RelayServer.on_buffer_same by done. unfold mbind, M_bind.
  pose proof (RelayServer.handle_message_ok c (message MSG_TYPE_CONNECT (dumps (JObj o))) r) as Hok.
  pose proof (server_message c (dumps (JObj o)) r) as Hm.
  destruct (RelayServer._handle_message c _ r) as [x r'] eqn:E. cbn in Hok. subst x. cbn [snd mret M_ret].
  assert (r' = (RelayServer._handle_connect c (dumps (JObj o)) r).2) as ->.
  { unfold try_except in Hm. destruct (RelayServer._handle_connect _ _ _) as [[]]; by inversion Hm. }
  destruct (RelayServer.handle_connect_state c (dumps (JObj o)) r o
    (RelayServer.KStr token) (RelayServer.KStr device)) as [-> _]; try done.
  - by apply ascii_utf8, ascii_dumps.
  - by apply loads_dumps.
  - cbn. destruct (_ !! RelayServer.KStr token) as [t|] eqn:Et; cbn; [|by case_decide].
    destruct (String.eqb_spec t session_id) as [->|Hne]; case_decide; simplify_eq; done.
Qed.

(** ** What the server sends *)
Definition data_frame_of (m : json * bytes) : outcome bytes :=
  RelayServer.frame_of (message MSG_TYPE_DATA (RelayServer.data_message m.1 m.2)).
Definition total_length (l : list bytes) : Z := foldr (fun b n => len b + n) 0 l.

Lemma handle_data_message from payload s :
  plain from = true ->
  _handle_message (message MSG_TYPE_DATA (RelayServer.data_message from payload)) s =
  (Ok tt, s <| _bytes_rx := _bytes_rx s + len payload |>).
Proof.
  intros Hp. set (j := JObj [("from_device_id", from); ("data", JStr (hex payload))]).
  assert (plain j = true) as Hj by (cbn; by rewrite Hp, hex_ascii).
  change (_handle_message (message MSG_TYPE_DATA (dumps j)) s = (Ok tt, s <| _bytes_rx := _bytes_rx s + len payload |>)).
  transitivity (try_except (_handle_data (dumps j)) (fun _ => mret tt) s); [reflexivity|].
  unfold _handle_data, try_except, mbind, M_bind, lift. rewrite decode_dumps, loads_dumps by done.
  cbn. by rewrite fromhex_hex.
Qed.
Lemma handle_data_messages msgs s :
  Forall (fun m => plain m.1 = true) msgs ->
  for_each ((fun m => message MSG_TYPE_DATA (RelayServer.data_message m.1 m.2)) <$> msgs) _handle_message s =
  (Ok tt, s <| _bytes_rx := _bytes_rx s + total_length msgs.*2 |>).
Proof.
  intros Hm. revert s. induction Hm as [|m msgs Hp Hm IH]; intros s.
  - cbn. destruct s. cbn. unfold set_field, set_bytes_rx; cbn. by rewrite Z.add_0_r.
  - cbn [fmap list_fmap for_each]. unfold mbind, M_bind. rewrite handle_data_message by done.
    rewrite IH. destruct s. unfold set_field, set_bytes_rx; cbn. by rewrite Z.add_assoc.
Qed.

(** ** The statistics *)
Definition charged (session_id : string) (l : list (string * Z * Z)) : Z :=
  foldr (fun e n => if String.eqb e.1.1 session_id then e.2 + n else n) 0 l.
Lemma charged_app i l1 l2 : charged i (l1 ++ l2) = charged i l1 + charged i l2.
Proof. unfold charged. induction l1 as [|e l1 IH]; cbn; [done|]. destruct (String.eqb _ _); lia. Qed.
Lemma charged_once i tx rx l : NoDup l -> i ∈ l -> charged i ((fun k => (k, tx, rx)) <$> l) = rx.
Proof.
  intros Hn Hi. induction Hn as [|k l Hk Hn IH]; [by apply elem_of_nil in Hi|].
  cbn [fmap list_fmap charged foldr fst snd]. destruct (String.eqb_spec k i) as [->|Hne].
  - assert (charged i ((fun k => (k, tx, rx)) <$> l) = 0) as E; [|unfold charged in E; rewrite E; lia].
    clear -Hk. induction l as [|j l IH]; [done|]. apply not_elem_of_cons in Hk as [Hj Hk].
    cbn. rewrite (proj2 (String.eqb_neq j i)) by done. by apply IH.
  - apply IH. by apply elem_of_cons in Hi as [->|].
Qed.

Definition stats_fit (s : DaemonRelayClient) : Prop :=
  fits (stats_message (_device_id s) (_bytes_tx s) (_bytes_rx s)).
Lemma stats_report_run l tx rx s :
  for_each l (fun i => request_relay_session_update i tx rx) s =
  (Ok tt, s <| reported := reported s ++ ((fun i => (i, tx, rx)) <$> l) |>).
Proof.
  revert s. induction l as [|i l IH]; intros s; cbn [for_each fmap list_fmap].
  - destruct s. unfold set_field, set_reported; cbn. by rewrite app_nil_r.
  - unfold mbind, M_bind, request_relay_session_update at 1, modify. rewrite IH.
    destruct s. unfold set_field, set_reported; cbn. by rewrite <-app_assoc.
Qed.
(** A turn of the loop writes a heartbeat when bytes were counted, and reports
    the counts for every session. *)
Lemma stats_tick_run s :
  stats_fit s -> exists l, stats_tick s =
  (Ok tt, s <| written := written s ++ l |>
            <| reported := reported s ++ ((fun i => (i, _bytes_tx s, _bytes_rx s)) <$> (_active_sessions s).*1) |>).
Proof.
  intros Hf. destruct (message_framed MSG_TYPE_HEARTBEAT _ Hf) as [f Hm].
  unfold stats_tick, try_except, mbind, M_bind, gets, when. destruct (_ || _).
  - destruct (_writer s) eqn:Hw.
    + exists [f]. rewrite (frame_send_run _ _ _ _ Hw Hm). cbn. by rewrite stats_report_run.
    + exists []. unfold _send_message, mbind, M_bind, gets. rewrite Hw. cbn. rewrite stats_report_run.
      destruct s. unfold set_field, set_reported, set_written; cbn. by rewrite app_nil_r.
  - exists []. cbn. rewrite stats_report_run.
    destruct s. unfold set_field, set_reported, set_written; cbn. by rewrite app_nil_r.
Qed.

(** ** Waiting between attempts *)
(** The [k]-th wait after one of [delay]. *)
Fixpoint backoff (delay : Z) (k : nat) : Z :=
  match k with O => delay | S m => backoff (Z.min (delay * 2) _RECONNECT_MAX_DELAY) m end.
Lemma backoff_closed delay k :
  1 <= delay <= _RECONNECT_MAX_DELAY -> backoff delay k = Z.min (delay * 2 ^ Z.of_nat k) _RECONNECT_MAX_DELAY.
Proof.
  revert delay. induction k as [|k IH]; intros delay Hd; cbn [backoff]; [lia|].
  rewrite IH by (unfold _RECONNECT_MAX_DELAY in *; lia). rewrite Nat2Z.inj_succ, Z.pow_succ_r by lia.
  assert (1 <= 2 ^ Z.of_nat k) by (apply Z.lt_pred_le, Z.pow_pos_nonneg; lia).
  unfold _RECONNECT_MAX_DELAY in *. destruct (Z.min_spec (delay * 2) 60) as [[? ->]|[? ->]]; nia.
Qed.
Lemma run_not_connected n delay s :
  _running s = true ->
  slept (_run delay (replicate n NotConnected) s).2 = slept s ++ ((fun k => backoff delay k) <$> seq 0 n).
Proof.
  revert delay s. induction n as [|n IH]; intros delay s Hr; [cbn; by rewrite app_nil_r|].
  cbn [replicate _run]. unfold mbind, M_bind, gets, modify. rewrite Hr. cbn [negb]. cbn beta iota.
  change ((mret delay : M DaemonRelayClient Z) s) with (Ok delay, s). cbn beta iota.
  rewrite IH by done. cbn [slept set_field set_slept set_connected].
  rewrite <-app_assoc. f_equal. cbn [app seq fmap list_fmap]. f_equal.
  rewrite <-(fmap_S_seq 0 n), <-list_fmap_compose. by apply list_fmap_ext.
Qed.

(** * Properties *)

(** C14. CONNECT, end to end: the session the client opens is registered by the
    server, for the client's device and the connection the bytes came over, if
    and only if the server holds the token for that session, whatever chunks
    the stream is cut into. *)
Theorem session_connects c r cl session_id token :
  RelayServer.connected c r -> RelayServer.buffer_of c r = "" -> _writer cl = true ->
  ascii_text (_device_id cl) = true -> ascii_text session_id = true -> ascii_text token = true ->
  fits (dumps (JObj (connect_members token (_device_id cl) session_id))) ->
  exists f cl', connect_session session_id token cl = (Ok tt, cl') /\ written cl' = written cl ++ [f] /\
    forall chunks, RelayServer.concat_str chunks = f ->
    RelayServer.connections (RelayServer.server (for_each chunks (RelayServer.data_received c) r).2) =
    if decide (RelayServer.valid_tokens (RelayServer.server r) !! RelayServer.KStr token = Some session_id)
    then <[RelayServer.KStr (_device_id cl) := c]> (RelayServer.connections (RelayServer.server r))
    else RelayServer.connections (RelayServer.server r).
Proof.
  intros Hc Hb Hw Hd Hs Ht Hf. destruct (message_framed MSG_TYPE_CONNECT _ Hf) as [f Hm].
  eexists f, _. split; [by apply connect_run|]. split; [done|]. intros chunks Hch. by eapply connect_delivered.
Qed.

(** DATA, end to end: whatever chunks the messages of the server arrive in,
    the client counts the bytes of their payloads, once each. *)
Theorem relayed_data_counted msgs fs chunks cl :
  Forall (fun m => plain m.1 = true) msgs -> Forall2 (fun m f => data_frame_of m = Ok f) msgs fs ->
  RelayServer.concat_str chunks = RelayServer.concat_str fs -> Forall (fun c => c <> "") chunks ->
  _running cl = true ->
  _read_loop (Received <$> chunks) cl = (Ok tt, cl <| _bytes_rx := _bytes_rx cl + total_length msgs.*2 |>).
Proof.
  intros Hp Hfs Hch Hne Hr. unfold _read_loop. rewrite read_loop_spec by done. rewrite Hch.
  change ("" +:+ ?t) with t. erewrite RelayServer.frames_concat.
  - cbn [fst]. by apply handle_data_messages.
  - apply Forall2_fmap_l. eapply Forall2_impl; [exact Hfs|]. by intros m f H.
Qed.

(** The session of a relay fallback the server announces is opened with an
    empty token, which stands for no session: the server registers nothing,
    and the client keeps the session as active. *)
Theorem relay_fallback_rejected c r cl session_id f chunks :
  RelayServer.connected c r -> RelayServer.buffer_of c r = "" ->
  RelayServer.valid_tokens (RelayServer.server r) !! RelayServer.KStr "" = None ->
  _connected cl = true -> _writer cl = true -> truthy session_id = true ->
  ascii_text (_device_id cl) = true -> ascii_text session_id = true ->
  RelayServer.frame_of (message MSG_TYPE_CONNECT (dumps (JObj (connect_members "" (_device_id cl) session_id)))) = Ok f ->
  RelayServer.concat_str chunks = f ->
  (exists cl', _on_relay_fallback session_id cl = (Ok tt, cl') /\ written cl' = written cl ++ [f] /\
     dict_get session_id (_active_sessions cl') = Some (mkActive "" (monotonic cl))) /\
  RelayServer.connections (RelayServer.server (for_each chunks (RelayServer.data_received c) r).2) =
  RelayServer.connections (RelayServer.server r).
Proof.
  intros Hc Hb Hnone Hco Hw Htr Hd Hs Hf Hch. split.
  - eexists. split; [|split].
    + unfold _on_relay_fallback, mbind, M_bind, gets. rewrite Hco. cbn [negb]. rewrite Htr.
      by apply connect_run.
    + done.
    + cbn. apply dict_get_set.
  - rewrite (connect_delivered c r (_device_id cl) session_id "" chunks f) by done.
    by rewrite Hnone, decide_False.
Qed.

(** The client reports running totals where the server adds what is reported:
    [n] turns of the loop without new traffic charge a session [n] times the
    bytes the client received. *)
Theorem stats_charge_again n session_id cl :
  stats_fit cl -> NoDup (_active_sessions cl).*1 -> session_id ∈ (_active_sessions cl).*1 ->
  let cl' := Nat.iter n (fun s => (stats_tick s).2) cl in
  charged session_id (reported cl') = charged session_id (reported cl) + Z.of_nat n * _bytes_rx cl /\
  _bytes_rx cl' = _bytes_rx cl.
Proof.
  intros Hf Hn Hin cl'. enough (stats_fit cl' /\ _active_sessions cl' = _active_sessions cl /\ _bytes_rx cl' = _bytes_rx cl /\
    charged session_id (reported cl') = charged session_id (reported cl) + Z.of_nat n * _bytes_rx cl) by tauto.
  subst cl'. induction n as [|n IH]; [cbn; split_and!; auto with lia|].
  change (Nat.iter (S n) ?g ?x) with (g (Nat.iter n g x)).
  destruct IH as (Hfit & Ha & Hb & Hch). destruct (stats_tick_run _ Hfit) as [l E]. cbv beta. rewrite E. cbn [snd].
  split_and!; [exact Hfit|done|done|].
  cbn [reported set_field set_reported set_written]. rewrite charged_app, charged_once; rewrite ?Ha; [|done..].
  rewrite Hch, Hb. lia.
Qed.

(** The waits between failing attempts double up to one minute. *)
Theorem reconnect_backoff n cl :
  _running cl = true ->
  slept (_run _RECONNECT_BASE_DELAY (replicate n NotConnected) cl).2 =
  slept cl ++ ((fun k => Z.min (2 ^ Z.of_nat k) _RECONNECT_MAX_DELAY) <$> seq 0 n).
Proof.
  intros Hr. rewrite run_not_connected by done. f_equal. apply list_fmap_ext. intros _ k _.
  rewrite backoff_closed by (unfold _RECONNECT_BASE_DELAY, _RECONNECT_MAX_DELAY; lia).
  by rewrite Z.mul_1_l.
Qed.

(** * Witnesses *)
Definition demo_client : DaemonRelayClient :=
  mkClient "dev-a" true true [] 0 7 true [] [] [] 42.
Definition demo_relay : RelayServer.Relay :=
  RelayServer.mkRelay (RelayServer.add_valid_token "tok" "s-1" (RelayServer.new_server "0.0.0.0" 8765))
    {[ 1%nat := RelayServer.mkRelayProtocol true "" JNull JNull "10.0.0.1:4000" ]} [] 0 0.
Definition written_frame (session_id token : string) : bytes :=
  match written (connect_session session_id token demo_client).2 with [f] => f | _ => "" end.

Lemma session_connects_witness :
  RelayServer.connections (RelayServer.server (for_each
    [take_str 3 (written_frame "s-1" "tok"); drop_str 3 (written_frame "s-1" "tok")]
    (RelayServer.data_received 1) demo_relay).2) !! RelayServer.KStr "dev-a" = Some 1%nat.
Proof.
  destruct (session_connects 1 demo_relay demo_client "s-1" "tok") as (f & cl' & Hrun & Hw & Hall);
    [by eexists|vm_compute; reflexivity..|].
  assert (f = written_frame "s-1" "tok") as ->.
  { unfold written_frame. rewrite Hrun. cbn [snd]. by rewrite Hw. }
  rewrite Hall by (vm_compute; reflexivity). vm_compute. reflexivity.
Defined.

Lemma relayed_data_counted_witness :
  exists f, data_frame_of (JStr "dev-b", "hello") = Ok f /\
  _read_loop (Received <$> [take_str 10 f; drop_str 10 f]) demo_client =
  (Ok tt, demo_client <| _bytes_rx := 12 |>).
Proof.
  destruct (message_framed MSG_TYPE_DATA (RelayServer.data_message (JStr "dev-b") "hello")) as [f Hf];
    [vm_compute; reflexivity|].
  exists f. split; [exact Hf|].
  rewrite (relayed_data_counted [(JStr "dev-b", "hello")] [f] _ demo_client); [reflexivity|..].
  - by repeat constructor.
  - repeat constructor. exact Hf.
  - unfold RelayServer.concat_str. cbn [foldr]. rewrite !str_app_nil. apply take_drop_str.
  - vm_compute in Hf. injection Hf as <-. repeat constructor; vm_compute; discriminate.
  - reflexivity.
Defined.

Lemma relay_fallback_rejected_witness :
  RelayServer.connections (RelayServer.server (for_each [written_frame "s-1" ""]
    (RelayServer.data_received 1) demo_relay).2) = ∅ /\
  dict_get "s-1" (_active_sessions (_on_relay_fallback "s-1" demo_client).2) = Some (mkActive "" 42).
Proof.
  destruct (relay_fallback_rejected 1 demo_relay demo_client "s-1" (written_frame "s-1" "") [written_frame "s-1" ""])
    as [(cl' & -> & _ & Hd) ->]; [by eexists|vm_compute; reflexivity..|]. split; [reflexivity|exact Hd].
Defined.

Definition demo_active : DaemonRelayClient := (connect_session "s-1" "tok" demo_client).2.
Lemma stats_charge_again_witness :
  charged "s-1" (reported (Nat.iter 3 (fun s => (stats_tick s).2) demo_active)) = 21.
Proof.
  destruct (stats_charge_again 3 "s-1" demo_active) as [H _];
    [vm_compute; reflexivity|vm_compute; repeat constructor; set_solver|vm_compute; left|].
  rewrite H. vm_compute. reflexivity.
Defined.
Lemma reconnect_backoff_witness :
  slept (_run _RECONNECT_BASE_DELAY (replicate 8 NotConnected) demo_client).2 = [1; 2; 4; 8; 16; 32; 60; 60].
Proof. rewrite (reconnect_backoff 8 demo_client) by reflexivity. reflexivity. Defined.
