(* ===== verification/StateStore.v ===== *)
(** The daemon's local state: [midscaled/daemon/state_store.py], and what
    [midscaled/daemon/main.py] makes of it when the daemon starts.

    The disk is the list of the elementary operations done to it, so that a
    crash is a prefix of that list: a file is truncated, then written in the
    pieces [flush] cuts its text into, then moved or given a mode.  Running
    out of disk space and missing permissions are not modelled. *)
From Stdlib Require Import Ascii.
From S2P Require Import Prelude PyStr Bytes Paths Json JsonText.
Local Open Scope string_scope.
Local Open Scope list_scope.
Local Open Scope Z_scope.

(** * The disk *)
Record file := mkFile { contents : string; mode : Z }.
Inductive fs_op :=
  | Truncate (path : string)
  | Append (path text : string)
  | Chmod (path : string) (m : Z)
  | Replace (src dst : string)
  | Remove (path : string).
Abbreviation files := (gmap string file).

(** [stat.S_IRUSR | stat.S_IWUSR] *)
Definition OWNER_ONLY : Z := Z.lor 256 128.

Record StateStore := mkStore {
  _state_dir : string;
  _identity : json;
  _enrollment : json;
  _cache : json;
  disk : list fs_op
}.
#[export] Instance set_identity : SetField _identity :=
  fun v r => mkStore (_state_dir r) v (_enrollment r) (_cache r) (disk r).
#[export] Instance set_enrollment : SetField _enrollment :=
  fun v r => mkStore (_state_dir r) (_identity r) v (_cache r) (disk r).
#[export] Instance set_cache : SetField _cache :=
  fun v r => mkStore (_state_dir r) (_identity r) (_enrollment r) v (disk r).
#[export] Instance set_disk : SetField disk :=
  fun v r => mkStore (_state_dir r) (_identity r) (_enrollment r) (_cache r) v.

(** [StateStore(state_dir)] on a disk, before [load]. *)
Definition new_store (state_dir : string) (d : list fs_op) : StateStore :=
  mkStore state_dir (JObj []) (JObj []) (JObj []) d.
Definition _identity_file (s : StateStore) : string := path_join (_state_dir s) "identity.json".
Definition _enrollment_file (s : StateStore) : string := path_join (_state_dir s) "enrollment.json".
Definition _cache_file (s : StateStore) : string := path_join (_state_dir s) "cache.json".
Definition key_file (dir : string) : string := path_join (path_join dir "keys") "private.key".

(** ** Python's views of a value that is usually a dictionary *)
Definition py_get (j : json) (k : string) : outcome (option json) :=
  match j with JObj o => Ok (obj_get k o) | _ => Raise (AttributeError "get") end.
Definition py_set (j : json) (k : string) (v : json) : outcome json :=
  match j with JObj o => Ok (JObj (obj_set k v o)) | _ => Raise TypeError end.
(** [k in j] *)
Definition py_in (k : string) (j : json) : outcome bool :=
  match j with
  | JObj o => Ok (match obj_get k o with Some _ => true | None => false end)
  | JArr l => Ok (existsb (fun x => match x with JStr t => String.eqb t k | _ => false end) l)
  | JStr s => Ok (contains_str k s)
  | _ => Raise TypeError
  end.

Section Disk.
(** How buffered text reaches the disk, and the mode of a new file. *)
Context (flush : string -> list string) (created_mode : Z).

Definition apply_op (fs : files) (o : fs_op) : files :=
  match o with
  | Truncate p => <[p := mkFile "" (match fs !! p with Some f => mode f | None => created_mode end)]> fs
  | Append p t => alter (fun f => mkFile (contents f +:+ t) (mode f)) p fs
  | Chmod p m => alter (fun f => mkFile (contents f) m) p fs
  | Replace a b => match fs !! a with Some f => <[b := f]> (delete a fs) | None => fs end
  | Remove p => delete p fs
  end.
Definition fs_of (d : list fs_op) : files := foldl apply_op ∅ d.
(** The files after a crash of the daemon, before which it did the first [n]
    operations.  (After a loss of power it may be others: nothing is synced.) *)
Definition fs_at (n : nat) (d : list fs_op) : files := fs_of (take n d).

Definition fs_do (ops : list fs_op) : M StateStore unit := modify (fun s => s <| disk := disk s ++ ops |>).
(** [with open(path, "w") as f: f.write(text)] *)
Definition write_ops (path text : string) : list fs_op := Truncate path :: (Append path <$> flush text).

Definition file_exists (path : string) : M StateStore bool :=
  gets (fun s => match fs_of (disk s) !! path with Some _ => true | None => false end).

(** * The operations of [StateStore] *)
Definition read_json (fs : files) (path : string) : outcome json :=
  match fs !! path with
  | None => Ok (JObj [])
  | Some f =>
    match decode (contents f) ≫= loads with
    | Ok j => Ok j
    | Raise JSONDecodeError => Ok (JObj [])
    | Raise e => Raise e
    end
  end.
Definition _read_json (path : string) : M StateStore json :=
  fs ← gets (fun s => fs_of (disk s)); lift (read_json fs path).
Definition _write_json (path : string) (data : json) : M StateStore unit :=
  fs_do (write_ops path (dump_indent data)).
Definition secure_ops (path text : string) : list fs_op :=
  let tmp := path +:+ ".tmp" in
  write_ops tmp text ++ [Chmod tmp OWNER_ONLY; Replace tmp path].
Definition _secure_write (path : string) (data : json) : M StateStore unit :=
  fs_do (secure_ops path (dump_indent data)).

Definition load : M StateStore unit :=
  identity_file ← gets _identity_file;
  identity ← _read_json identity_file;
  modify (fun s => s <| _identity := identity |>);;
  enrollment_file ← gets _enrollment_file;
  enrollment ← _read_json enrollment_file;
  modify (fun s => s <| _enrollment := enrollment |>);;
  cache_file ← gets _cache_file;
  cache ← _read_json cache_file;
  modify (fun s => s <| _cache := cache |>);;
  _ ← lift (py_in "device_id" identity);
  _ ← lift (py_in "device_token" enrollment);
  mret tt.

Definition save_identity (device_id : string) : M StateStore unit :=
  old ← gets _identity;
  new ← lift (py_set old "device_id" (JStr device_id));
  modify (fun s => s <| _identity := new |>);;
  path ← gets _identity_file;
  _write_json path new.
Definition get_device_id : M StateStore (option json) := d ← gets _identity; lift (py_get d "device_id").

Definition enrolled (device_id device_token : string) (network_id : option string) (old : json) : outcome json :=
  e1 ← py_set old "device_id" (JStr device_id);
  e2 ← py_set e1 "device_token" (JStr device_token);
  py_set e2 "network_id" (JStr (default "" network_id)).
Definition save_enrollment (device_id device_token private_key : string) (network_id : option string) :
    M StateStore unit :=
  old ← gets _enrollment;
  new ← lift (enrolled device_id device_token network_id old);
  modify (fun s => s <| _enrollment := new |>);;
  path ← gets _enrollment_file;
  _secure_write path new;;
  dir ← gets _state_dir;
  fs_do (secure_ops (key_file dir) (private_key +:+ String (ascii_of_nat 10) "")).
Definition get_device_token : M StateStore (option json) := d ← gets _enrollment; lift (py_get d "device_token").
Definition get_network_id : M StateStore (option json) :=
  d ← gets _enrollment;
  net ← lift (py_get d "network_id");
  mret (match net with Some j => if json_truthy j then Some j else None | None => None end).
Definition get_private_key_path : M StateStore string := gets (fun s => key_file (_state_dir s)).
Definition has_enrollment : M StateStore bool :=
  d ← gets _enrollment;
  there ← lift (py_in "device_token" d);
  path ← get_private_key_path;
  key ← file_exists path;
  mret (there && key).

Definition update_cache (key : string) (value : json) : M StateStore unit :=
  old ← gets _cache;
  new ← lift (py_set old key value);
  modify (fun s => s <| _cache := new |>);;
  path ← gets _cache_file;
  _write_json path new.
Definition get_cache (key : string) : M StateStore (option json) := d ← gets _cache; lift (py_get d key).

Definition remove_existing (path : string) : M StateStore unit :=
  there ← file_exists path;
  when there (fs_do [Remove path]).
Definition clear : M StateStore unit :=
  modify (fun s => s <| _identity := JObj [] |> <| _enrollment := JObj [] |> <| _cache := JObj [] |>);;
  paths ← gets (fun s => [_identity_file s; _enrollment_file s; _cache_file s]);
  for_each paths remove_existing;;
  path ← get_private_key_path;
  remove_existing path.

(** * The daemon's start *)

(** What [enroll] stores of a successful answer, in its order. *)
Definition store_enrollment (device_id device_token private_key : string) (network_id : option string) :
    M StateStore unit :=
  save_enrollment device_id device_token private_key network_id;;
  save_identity device_id.

(** What [MidscaledDaemon.run] does with the state: go on with an identity and
    a token, register with the pre-auth key, or exit. *)
Inductive decision := Restored (device_id device_token : json) | LegacyRegister | Incomplete | NoKey.
Definition opt_json_truthy (o : option json) : bool := match o with Some j => json_truthy j | None => false end.
Definition restore (preauth_key : string) : M StateStore decision :=
  load;;
  stored_id ← get_device_id;
  device_token ← get_device_token;
  let unregistered : M StateStore decision :=
    enrolled ← has_enrollment;
    mret (if enrolled : bool then Incomplete else if truthy preauth_key then LegacyRegister else NoKey) in
  match stored_id, device_token with
  | Some i, Some t => if json_truthy i && json_truthy t then mret (Restored i t) else unregistered
  | _, _ => unregistered
  end.

(** * Facts *)
Context (flush_text : forall t, foldr String.append "" (flush t) = t).

(** ** Paths *)
Lemma key_file_pre dir pre :
  (forall name, startswith "/" name = false -> path_join dir name = pre +:+ name) ->
  key_file dir = pre +:+ "keys/private.key".
Proof.
  intros Hpre. unfold key_file. rewrite (Hpre "keys") by done. unfold path_join at 1. cbn [startswith Ascii.eqb].
  rewrite ends_slash_app by done. assert (truthy (pre +:+ "keys") = true) as -> by by destruct pre.
  cbn. by rewrite str_app_assoc.
Qed.
(** ** The disk *)
Lemma fs_of_app d1 d2 : fs_of (d1 ++ d2) = foldl apply_op (fs_of d1) d2.
Proof. apply foldl_app. Qed.

(** An operation leaves the paths it does not name alone. *)
Definition names (o : fs_op) : list string :=
  match o with Truncate p | Append p _ | Chmod p _ | Remove p => [p] | Replace a b => [a; b] end.
Lemma apply_op_other fs o q : q ∉ names o -> apply_op fs o !! q = fs !! q.
Proof.
  destruct o as [p|p t|p m|a b|p]; cbn [names apply_op]; intros Hq; apply not_elem_of_cons in Hq as [Hp Hq].
  - by rewrite lookup_insert_ne.
  - by rewrite lookup_alter_ne.
  - by rewrite lookup_alter_ne.
  - apply not_elem_of_cons in Hq as [Hb _]. destruct (fs !! a); [|done].
    by rewrite lookup_insert_ne, lookup_delete_ne.
  - by rewrite lookup_delete_ne.
Qed.
Lemma apply_ops_other fs ops q :
  Forall (fun o => q ∉ names o) ops -> foldl apply_op fs ops !! q = fs !! q.
Proof.
  intros H. revert fs. induction H as [|o ops Ho H IH]; intros fs; [done|]. cbn.
  rewrite IH. by apply apply_op_other.
Qed.

(** What a write leaves. *)
Lemma appends_run fs p l f :
  fs !! p = Some f ->
  foldl apply_op fs (Append p <$> l) !! p = Some (mkFile (contents f +:+ foldr String.append "" l) (mode f)).
Proof.
  revert fs f. induction l as [|t l IH]; intros fs f Hf; cbn; [by destruct f; rewrite str_app_nil|].
  erewrite IH; [|by rewrite lookup_alter_eq, Hf]. cbn. by rewrite str_app_assoc.
Qed.
Lemma write_run fs p t :
  exists m, foldl apply_op fs (write_ops p t) !! p = Some (mkFile t m).
Proof using flush_text.
  eexists. cbn. erewrite appends_run; [|by rewrite lookup_insert_eq]. cbn. by rewrite flush_text.
Qed.
Lemma write_names p t q : q <> p -> Forall (fun o => q ∉ names o) (write_ops p t).
Proof.
  intros Hq. constructor; [by cbn; intros ->%list_elem_of_singleton|].
  apply Forall_fmap, Forall_forall. intros x _. cbn. by intros ->%list_elem_of_singleton.
Qed.
Lemma secure_run fs p t :
  foldl apply_op fs (secure_ops p t) !! p = Some (mkFile t OWNER_ONLY) /\
  foldl apply_op fs (secure_ops p t) !! (p +:+ ".tmp") = None.
Proof using flush_text.
  unfold secure_ops. rewrite foldl_app. destruct (write_run fs (p +:+ ".tmp") t) as [m Hm].
  set (fs1 := foldl apply_op fs _) in *. cbn [foldl apply_op]. rewrite lookup_alter_eq.
  rewrite Hm. cbn. split; [by rewrite lookup_insert_eq|].
  rewrite lookup_insert_ne; [by rewrite lookup_delete_eq|].
  intros Heq. assert (String.length p = String.length (p +:+ ".tmp")) as Hl by by rewrite <-Heq.
  rewrite str_length_app in Hl. cbn in Hl. lia.
Qed.
(** Until its last operation a secure write touches its temporary file only. *)
Lemma secure_split p t :
  exists ops, secure_ops p t = ops ++ [Replace (p +:+ ".tmp") p] /\
    forall q, q <> p +:+ ".tmp" -> Forall (fun o => q ∉ names o) ops.
Proof.
  exists (write_ops (p +:+ ".tmp") t ++ [Chmod (p +:+ ".tmp") OWNER_ONLY]). split.
  - unfold secure_ops. cbv zeta. by rewrite <-app_assoc.
  - intros q Hq. apply Forall_app. split; [by apply write_names|]. constructor; [|done].
    cbn. by intros ->%list_elem_of_singleton.
Qed.
Lemma take_snoc {A} n (l : list A) x : (n < length (l ++ [x]))%nat -> take n (l ++ [x]) = take n l.
Proof. rewrite length_app. cbn. intros H. rewrite take_app_le; [done|lia]. Qed.
(** Cut anywhere, a secure write has left the old file or the new one. *)
Lemma secure_cut fs p t n :
  foldl apply_op fs (take n (secure_ops p t)) !! p = fs !! p \/
  foldl apply_op fs (take n (secure_ops p t)) !! p = Some (mkFile t OWNER_ONLY).
Proof using flush_text.
  destruct (secure_split p t) as (ops & E & Hops).
  destruct (Nat.lt_ge_cases n (length (secure_ops p t))) as [Hn|Hn].
  - left. rewrite E in *. rewrite take_snoc by done. apply apply_ops_other.
    apply Forall_take, Hops. intros Heq.
    assert (String.length p = String.length (p +:+ ".tmp")) as Hl by by rewrite <-Heq.
    rewrite str_length_app in Hl. cbn in Hl. lia.
  - right. rewrite take_ge by done. apply secure_run.
Qed.
Lemma secure_other fs p t n q :
  q <> p -> q <> p +:+ ".tmp" -> foldl apply_op fs (take n (secure_ops p t)) !! q = fs !! q.
Proof.
  intros Hp Ht. destruct (secure_split p t) as (ops & -> & Hops). apply apply_ops_other, Forall_take.
  apply Forall_app. split; [by apply Hops|]. constructor; [|done]. cbn. set_solver.
Qed.

(** ** Running the operations *)
Lemma read_dumped fs path j m :
  plain j = true -> fs !! path = Some (mkFile (dump_indent j) m) -> read_json fs path = Ok j.
Proof.
  intros Hj Hf. unfold read_json. rewrite Hf. cbn [contents]. rewrite decode_dump_indent by done.
  cbn. by rewrite loads_dump_indent.
Qed.
Lemma save_enrollment_run i t k net s o :
  _enrollment s = JObj o ->
  exists o', enrolled i t net (JObj o) = Ok (JObj o') /\
    save_enrollment i t k net s =
    (Ok tt, s <| _enrollment := JObj o' |> <| disk := disk s ++
      (secure_ops (_enrollment_file s) (dump_indent (JObj o')) ++
       secure_ops (key_file (_state_dir s)) (k +:+ String (ascii_of_nat 10) "")) |>).
Proof.
  intros Ho. eexists. split; [reflexivity|].
  unfold save_enrollment, mbind, M_bind, gets. rewrite Ho, app_assoc. reflexivity.
Qed.
Lemma save_identity_run i s o :
  _identity s = JObj o ->
  save_identity i s =
  (Ok tt, s <| _identity := JObj (obj_set "device_id" (JStr i) o) |>
            <| disk := disk s ++ write_ops (_identity_file s) (dump_indent (JObj (obj_set "device_id" (JStr i) o))) |>).
Proof. intros Ho. unfold save_identity, mbind, M_bind, gets. by rewrite Ho. Qed.

Lemma enrolled_members i t net o o' :
  enrolled i t net (JObj o) = Ok (JObj o') ->
  obj_get "device_id" o' = Some (JStr i) /\ obj_get "device_token" o' = Some (JStr t).
Proof.
  intros [= <-]. rewrite !(obj_get_set_ne _ "network_id"), obj_get_set by done. split; [|done].
  by rewrite obj_get_set_ne, obj_get_set.
Qed.
Lemma enrolled_plain i t net o o' :
  plain (JObj o) = true -> ascii_text i = true -> ascii_text t = true -> ascii_text (default "" net) = true ->
  enrolled i t net (JObj o) = Ok (JObj o') -> plain (JObj o') = true.
Proof. intros Ho Hi Ht Hn [= <-]. by repeat apply plain_set. Qed.

Ltac apart := rewrite ?str_app_assoc; let E := fresh in (intros E%app_inj; discriminate E).

Lemma load_run dir d i e c :
  let s := new_store dir d in
  read_json (fs_of d) (_identity_file s) = Ok (JObj i) ->
  read_json (fs_of d) (_enrollment_file s) = Ok (JObj e) ->
  read_json (fs_of d) (_cache_file s) = Ok c ->
  load s = (Ok tt, mkStore dir (JObj i) (JObj e) c d).
Proof.
  intros s Hi He Hc. unfold load, _read_json, mbind, M_bind, gets, lift, modify.
  change (disk s) with d. rewrite Hi. cbn [disk set_field set_identity]. change (disk s) with d.
  change (_enrollment_file (s <| _identity := JObj i |>)) with (_enrollment_file s). rewrite He.
  cbn [disk set_field set_identity set_enrollment]. change (disk s) with d.
  change (_cache_file (s <| _identity := JObj i |> <| _enrollment := JObj e |>)) with (_cache_file s). rewrite Hc.
  reflexivity.
Qed.
Lemma restore_run pk dir d i e c :
  let s := new_store dir d in
  read_json (fs_of d) (_identity_file s) = Ok (JObj i) ->
  read_json (fs_of d) (_enrollment_file s) = Ok (JObj e) ->
  read_json (fs_of d) (_cache_file s) = Ok c ->
  (restore pk s).1 = Ok (
    match obj_get "device_id" i, obj_get "device_token" e with
    | Some id, Some token =>
      if json_truthy id && json_truthy token then Restored id token
      else match fs_of d !! key_file dir with
           | Some _ => Incomplete | None => if truthy pk then LegacyRegister else NoKey end
    | _, None => if truthy pk then LegacyRegister else NoKey
    | None, Some _ =>
      match fs_of d !! key_file dir with
      | Some _ => Incomplete | None => if truthy pk then LegacyRegister else NoKey end
    end).
Proof.
  intros s Hi He Hc. pose proof (load_run dir d i e c Hi He Hc) as Hl. fold s in Hl.
  unfold restore. unfold mbind at 1, M_bind at 1. rewrite Hl.
  unfold get_device_id, get_device_token, has_enrollment, get_private_key_path, file_exists, mbind, M_bind, gets, lift.
  cbn -[key_file fs_of obj_get].
  destruct (obj_get "device_id" i) as [id|], (obj_get "device_token" e) as [token|] eqn:Et;
    cbn -[key_file fs_of obj_get]; rewrite ?Et; try done.
  - destruct (json_truthy id && json_truthy token); [done|].
    cbn -[key_file fs_of obj_get]. rewrite Et. by destruct (fs_of d !! key_file dir).
  - by destruct (fs_of d !! key_file dir).
Qed.

(** The operations of an enrolment: the enrollment file, the key, then the
    identity. *)
Definition enrollment_ops (dir k : string) (e : obj) : list fs_op :=
  secure_ops (path_join dir "enrollment.json") (dump_indent (JObj e)) ++
  secure_ops (key_file dir) (k +:+ String (ascii_of_nat 10) "").
Definition identity_ops (dir i : string) (o : obj) : list fs_op :=
  write_ops (path_join dir "identity.json") (dump_indent (JObj (obj_set "device_id" (JStr i) o))).
Lemma store_enrollment_run i t k net s e o :
  _enrollment s = JObj e -> _identity s = JObj o ->
  exists e' s', enrolled i t net (JObj e) = Ok (JObj e') /\ store_enrollment i t k net s = (Ok tt, s') /\
    _state_dir s' = _state_dir s /\
    disk s' = (disk s ++ enrollment_ops (_state_dir s) k e') ++ identity_ops (_state_dir s) i o.
Proof.
  intros He Ho. destruct (save_enrollment_run i t k net s e He) as (e' & He' & Hrun).
  eexists e', _. split; [done|]. split; [|split].
  - unfold store_enrollment, mbind, M_bind. rewrite Hrun. by apply save_identity_run.
  - done.
  - done.
Qed.

(** What the files hold after the writes of an enrolment. *)
Lemma secure_full_other fs p t q :
  q <> p -> q <> p +:+ ".tmp" -> foldl apply_op fs (secure_ops p t) !! q = fs !! q.
Proof. intros. rewrite <-(take_ge (secure_ops p t) (length (secure_ops p t))) by done. by apply secure_other. Qed.
Lemma after_enrollment fs dir k e :
  let fs' := foldl apply_op fs (enrollment_ops dir k e) in
  fs' !! path_join dir "enrollment.json" = Some (mkFile (dump_indent (JObj e)) OWNER_ONLY) /\
  fs' !! key_file dir = Some (mkFile (k +:+ String (ascii_of_nat 10) "") OWNER_ONLY) /\
  fs' !! path_join dir "identity.json" = fs !! path_join dir "identity.json" /\
  fs' !! path_join dir "cache.json" = fs !! path_join dir "cache.json".
Proof using flush_text.
  destruct (path_join_pre dir) as (pre & Hpre). pose proof (key_file_pre _ _ Hpre) as Hk.
  cbv zeta. unfold enrollment_ops. rewrite foldl_app. split; [|split; [apply secure_run|]];
    rewrite Hk, !Hpre by done; rewrite !secure_full_other by apart; try done. apply secure_run.
Qed.
Lemma after_identity fs dir i o :
  let fs' := foldl apply_op fs (identity_ops dir i o) in
  (exists m, fs' !! path_join dir "identity.json" =
    Some (mkFile (dump_indent (JObj (obj_set "device_id" (JStr i) o))) m)) /\
  fs' !! path_join dir "enrollment.json" = fs !! path_join dir "enrollment.json" /\
  fs' !! path_join dir "cache.json" = fs !! path_join dir "cache.json" /\
  fs' !! key_file dir = fs !! key_file dir.
Proof using flush_text.
  destruct (path_join_pre dir) as (pre & Hpre). pose proof (key_file_pre _ _ Hpre) as Hk.
  cbv zeta. unfold identity_ops. split; [apply write_run|].
  rewrite Hk, !Hpre by done. by rewrite !apply_ops_other by (apply write_names; apart).
Qed.
Lemma read_same fs fs' p : fs' !! p = fs !! p -> read_json fs' p = read_json fs p.
Proof. intros H. unfold read_json. by rewrite H. Qed.

(** After an enrolment the next start of the daemon restores the device's
    identity and its token, and finds the private key, which only its owner
    can read. *)
Lemma restart_restores s e o c i t k net preauth_key :
  _enrollment s = JObj e -> _identity s = JObj o -> plain (JObj e) = true -> plain (JObj o) = true ->
  ascii_text i = true -> ascii_text t = true -> ascii_text (default "" net) = true ->
  truthy i = true -> truthy t = true ->
  read_json (fs_of (disk s)) (_cache_file s) = Ok c ->
  exists s', store_enrollment i t k net s = (Ok tt, s') /\
    (restore preauth_key (new_store (_state_dir s) (disk s'))).1 = Ok (Restored (JStr i) (JStr t)) /\
    fs_of (disk s') !! key_file (_state_dir s) = Some (mkFile (k +:+ String (ascii_of_nat 10) "") OWNER_ONLY).
Proof using flush_text.
  intros He Ho Hep Hop Hi Ht Hn Hti Htt Hc.
  destruct (store_enrollment_run i t k net s e o He Ho) as (e' & s' & He' & Hrun & _ & Hd).
  exists s'. split; [exact Hrun|]. set (dir := _state_dir s) in *.
  destruct (after_enrollment (fs_of (disk s)) dir k e') as (Ae & Ak & Ai & Ac).
  destruct (after_identity (fs_of (disk s ++ enrollment_ops dir k e')) dir i o) as ([m Bi] & Be & Bc & Bk).
  rewrite <-fs_of_app in Ae, Ak, Ai, Ac, Bi, Be, Bc, Bk. rewrite <-Hd in Bi, Be, Bc, Bk.
  split; [|by rewrite Bk].
  rewrite (restore_run preauth_key dir (disk s') (obj_set "device_id" (JStr i) o) e' c).
  - destruct (enrolled_members _ _ _ _ _ He') as [_ ->]. rewrite obj_get_set. cbn [json_truthy]. by rewrite Hti, Htt.
  - eapply read_dumped; [apply plain_set; [exact Hop|done|exact Hi]|exact Bi].
  - eapply read_dumped; [exact (enrolled_plain i t net e e' Hep Hi Ht Hn He')|].
    unfold _enrollment_file. cbn [_state_dir new_store]. rewrite Be. exact Ae.
  - rewrite <-Hc. apply (read_same _ _ (path_join dir "cache.json")). by rewrite Bc.
Qed.

(** * Properties *)

(** C18. A crash at any point of [save_enrollment] leaves the old enrollment or the
    new one, never a part of it, and a new private key only with the new
    enrollment. *)
Theorem enrollment_crash_safe s e i t k net n :
  _enrollment s = JObj e -> plain (JObj e) = true ->
  ascii_text i = true -> ascii_text t = true -> ascii_text (default "" net) = true ->
  exists s' e', save_enrollment i t k net s = (Ok tt, s') /\ enrolled i t net (JObj e) = Ok (JObj e') /\
    let before := fs_of (disk s) in
    let after := fs_at (length (disk s) + n) (disk s') in
    (read_json after (_enrollment_file s) = read_json before (_enrollment_file s) /\
     after !! key_file (_state_dir s) = before !! key_file (_state_dir s)) \/
    (read_json after (_enrollment_file s) = Ok (JObj e') /\
     (after !! key_file (_state_dir s) = before !! key_file (_state_dir s) \/
      after !! key_file (_state_dir s) = Some (mkFile (k +:+ String (ascii_of_nat 10) "") OWNER_ONLY))).
Proof using flush_text.
  intros He Hep Hi Ht Hn. destruct (save_enrollment_run i t k net s e He) as (e' & He' & Hrun).
  eexists _, e'. split; [exact Hrun|]. split; [done|]. cbv zeta. cbn [disk set_field set_disk].
  unfold fs_at. rewrite take_app_add, fs_of_app, take_app, foldl_app.
  pose proof (enrolled_plain i t net e e' Hep Hi Ht Hn He') as Hp'.
  unfold _enrollment_file. destruct (path_join_pre (_state_dir s)) as (pre & Hpre).
  rewrite (key_file_pre _ _ Hpre), Hpre by done.
  set (A := secure_ops (pre +:+ "enrollment.json") _). set (B := secure_ops (pre +:+ "keys/private.key") _).
  set (fs := fs_of (disk s)).
  assert (forall fs1 j, foldl apply_op fs1 (take j B) !! (pre +:+ "enrollment.json") = fs1 !! (pre +:+ "enrollment.json"))
    as HB by (intros; apply secure_other; apart).
  assert (forall j, foldl apply_op fs (take j A) !! (pre +:+ "keys/private.key") = fs !! (pre +:+ "keys/private.key"))
    as HA by (intros; apply secure_other; apart).
  assert (foldl apply_op fs (take n A) !! (pre +:+ "enrollment.json") = fs !! (pre +:+ "enrollment.json") \/
    foldl apply_op fs (take n A) !! (pre +:+ "enrollment.json") = Some (mkFile (dump_indent (JObj e')) OWNER_ONLY))
    as [Hold|Hnew] by apply secure_cut.
  - destruct (Nat.lt_ge_cases n (length A)) as [Hlt|Hge].
    + replace (n - length A)%nat with O by lia. cbn [take foldl]. left. split; [|apply HA]. by apply read_same.
    + right. rewrite (take_ge A) by done. split.
      * eapply read_dumped; [exact Hp'|]. rewrite HB. apply secure_run.
      * rewrite <-(HA (length A)), (take_ge A) by done. apply secure_cut.
  - right. split; [eapply read_dumped; [exact Hp'|]; rewrite HB; exact Hnew|].
    rewrite <-(HA n). apply secure_cut.
Qed.

(** A crash between the two writes of a first enrolment, or within the second
    one, whose file is truncated in place, leaves a state the daemon refuses to
    start from, although the enrollment holds the device's id. *)
Theorem interrupted_enrollment_blocks dir i t k net s1 preauth_key cut :
  save_enrollment i t k net (new_store dir []) = (Ok tt, s1) ->
  ascii_text i = true -> ascii_text t = true -> ascii_text (default "" net) = true ->
  cut = [] \/ cut = [Truncate (path_join dir "identity.json")] ->
  (restore preauth_key (new_store dir (disk s1 ++ cut))).1 = Ok Incomplete.
Proof using flush_text.
  intros Hrun Hi Ht Hn Hcut. destruct (save_enrollment_run i t k net (new_store dir []) [] eq_refl) as (e' & He' & Hrun').
  assert (disk s1 = enrollment_ops dir k e') as -> by (rewrite Hrun' in Hrun; by injection Hrun as <-).
  destruct (after_enrollment ∅ dir k e') as (Ae & Ak & Ai & Ac). rewrite lookup_empty in Ai, Ac.
  destruct (path_join_pre dir) as (pre & Hpre). pose proof (key_file_pre _ _ Hpre) as Hk.
  assert (forall q, q <> pre +:+ "identity.json" ->
    fs_of (enrollment_ops dir k e' ++ cut) !! q = foldl apply_op ∅ (enrollment_ops dir k e') !! q) as Hq.
  { intros q Hq. rewrite fs_of_app. apply apply_ops_other. rewrite Hpre in Hcut by done.
    destruct Hcut as [->| ->]; repeat constructor. cbn. set_solver. }
  rewrite (restore_run preauth_key dir _ [] e' (JObj [])).
  - destruct (enrolled_members _ _ _ _ _ He') as [_ ->]. cbn [obj_get]. rewrite Hq, Ak; [done|].
    rewrite Hk. apart.
  - unfold _identity_file. cbn [_state_dir new_store]. destruct Hcut as [->| ->].
    + rewrite app_nil_r. unfold read_json, fs_of. by rewrite Ai.
    + unfold read_json. rewrite fs_of_app. cbn [foldl apply_op]. by rewrite lookup_insert_eq.
  - eapply read_dumped; [by apply (enrolled_plain i t net [] e')|]. unfold _enrollment_file. cbn [_state_dir new_store].
    rewrite Hq; [exact Ae|]. rewrite Hpre by done. apart.
  - unfold read_json, _cache_file. cbn [_state_dir new_store]. rewrite Hq, Ac; [done|]. rewrite Hpre by done. apart.
Qed.
End Disk.

(** * Witnesses *)
Definition two_pieces (t : string) : list string := [take_str 8 t; drop_str 8 t].
Lemma two_pieces_text t : foldr String.append "" (two_pieces t) = t.
Proof. unfold two_pieces. cbn [foldr]. rewrite str_app_nil. apply take_drop_str. Qed.
Definition first_start : StateStore := new_store "/var/lib/midscaled" [].

Lemma enrollment_crash_safe_witness :
  exists s', save_enrollment two_pieces "dev-1" "pre.secret" "K" None first_start = (Ok tt, s') /\
    let after := fs_at 420 3 (disk s') in
    read_json after "/var/lib/midscaled/enrollment.json" = Ok (JObj []) /\
    after !! "/var/lib/midscaled/keys/private.key" = None.
Proof.
  destruct (enrollment_crash_safe two_pieces 420 two_pieces_text first_start [] "dev-1" "pre.secret" "K" None 3)
    as (s' & e' & Hrun & He & Hcase); [reflexivity..|].
  exists s'. split; [exact Hrun|]. cbv zeta in Hcase. destruct Hcase as [[H1 H2]|[H1 _]]; [by split|].
  exfalso. injection He as <-. assert (s' = (save_enrollment two_pieces "dev-1" "pre.secret" "K" None first_start).2)
    as -> by by rewrite Hrun.
  vm_compute in H1. discriminate H1.
Defined.

Definition interrupted : StateStore := (save_enrollment two_pieces "dev-1" "pre.secret" "K" None first_start).2.
Lemma interrupted_enrollment_blocks_witness :
  (restore 420 "midscale_key" (new_store "/var/lib/midscaled" (disk interrupted ++ []))).1 = Ok Incomplete.
Proof.
  apply (interrupted_enrollment_blocks two_pieces 420 two_pieces_text "/var/lib/midscaled" "dev-1" "pre.secret" "K" None);
    [vm_compute; reflexivity|reflexivity..|by left].
Defined.
