(* ===== verification/HolePuncher.v ===== *)
(** UDP hole punching: [midscaled/daemon/hole_puncher.py].

    The futures of [_PunchProtocol] are booleans: done or not.  What happens
    while a coroutine is suspended is an argument: [world] says, by the number
    of attempts already made, whether the puncher still runs, which datagrams
    arrive while the attempt waits, whether sending raises, and the readings
    of the monotonic clock in microseconds. *)
From Stdlib Require Import Ascii.
From S2P Require Import Prelude PyStr Bytes Dict.
Local Open Scope string_scope.
Local Open Scope list_scope.
Local Open Scope Z_scope.

Definition _PUNCH_MAGIC : bytes := "MIDSCALE_PUNCH_V1".

(** * Data *)
(** A candidate of an event: a dictionary with these keys, if it has them. *)
Record candidate := mkCandidate {
  c_side : option string;
  c_endpoint : option string;
  c_port : option Z
}.
Record CandidatePair := mkPair {
  local_endpoint : string;
  local_port : Z;
  remote_endpoint : string;
  remote_port : Z;
  pair_key : string
}.
(** The constructor with [__post_init__]. *)
Definition new_pair (le : string) (lp : Z) (re : string) (rp : Z) : CandidatePair :=
  mkPair le lp re rp (le +:+ ":" +:+ str_int lp +:+ "->" +:+ re +:+ ":" +:+ str_int rp).
Record PunchAttempt := mkAttempt {
  at_pair : CandidatePair;
  started_at : Z;
  completed_at : option Z;
  success : bool;
  latency_ms : option Z;
  error : option string
}.
Inductive callback := OnSuccess | OnFailure | OnRelayFallback.
#[export] Instance callback_eq_dec : EqDecision callback.
Proof. solve_decision. Defined.
Record PunchSession := mkSession {
  session_id : string;
  target_device_id : string;
  candidates : list CandidatePair;
  attempts : list PunchAttempt;
  state : string;
  result_endpoint : option string;
  result_port : option Z;
  result_latency_ms : option Z;
  callbacks : list callback
}.
#[export] Instance set_attempts : SetField attempts := fun v r =>
  mkSession (session_id r) (target_device_id r) (candidates r) v (state r) (result_endpoint r) (result_port r)
    (result_latency_ms r) (callbacks r).
#[export] Instance set_state : SetField state := fun v r =>
  mkSession (session_id r) (target_device_id r) (candidates r) (attempts r) v (result_endpoint r) (result_port r)
    (result_latency_ms r) (callbacks r).
#[export] Instance set_result_endpoint : SetField result_endpoint := fun v r =>
  mkSession (session_id r) (target_device_id r) (candidates r) (attempts r) (state r) v (result_port r)
    (result_latency_ms r) (callbacks r).
#[export] Instance set_result_port : SetField result_port := fun v r =>
  mkSession (session_id r) (target_device_id r) (candidates r) (attempts r) (state r) (result_endpoint r) v
    (result_latency_ms r) (callbacks r).
#[export] Instance set_result_latency : SetField result_latency_ms := fun v r =>
  mkSession (session_id r) (target_device_id r) (candidates r) (attempts r) (state r) (result_endpoint r) (result_port r)
    v (callbacks r).

(** * State: the puncher with its protocol object

    [_active_sessions] keeps the keys: the session object itself is what the
    coroutine below hands on.  [called] lists the callbacks, in order. *)
Record HolePuncher := mkPuncher {
  _enabled : bool;
  _retries : Z;
  _bind_port : Z;
  _transport : bool;
  _active_sessions : list (string * unit);
  _expected_responses : list (string * bool);
  sent : list (bytes * string * Z);
  called : list (callback * string)
}.
#[export] Instance set_active : SetField _active_sessions := fun v r =>
  mkPuncher (_enabled r) (_retries r) (_bind_port r) (_transport r) v (_expected_responses r) (sent r) (called r).
#[export] Instance set_expected : SetField _expected_responses := fun v r =>
  mkPuncher (_enabled r) (_retries r) (_bind_port r) (_transport r) (_active_sessions r) v (sent r) (called r).
#[export] Instance set_sent : SetField sent := fun v r =>
  mkPuncher (_enabled r) (_retries r) (_bind_port r) (_transport r) (_active_sessions r) (_expected_responses r) v (called r).
#[export] Instance set_called : SetField called := fun v r =>
  mkPuncher (_enabled r) (_retries r) (_bind_port r) (_transport r) (_active_sessions r) (_expected_responses r) (sent r) v.

(** A datagram: its bytes and the address it comes from. *)
Definition datagram : Type := bytes * string * Z.

(** * [_PunchProtocol] *)
Definition expect_response (key : string) : M HolePuncher unit :=
  modify (fun p => p <| _expected_responses := dict_set key false (_expected_responses p) |>).
Definition forget_response (key : string) : M HolePuncher unit :=
  modify (fun p => p <| _expected_responses := dict_del key (_expected_responses p) |>).
Definition deliver_response (key : string) : M HolePuncher unit :=
  future ← gets (fun p => dict_get key (_expected_responses p));
  match future with
  | Some false => modify (fun p => p <| _expected_responses := dict_set key true (_expected_responses p) |>)
  | _ => mret tt
  end.
Definition addr_key (host : string) (port : Z) : string := host +:+ ":" +:+ str_int port +:+ "->...".
Definition handle_datagram (d : datagram) : M HolePuncher unit :=
  let '(data, host, port) := d in
  when (startswith _PUNCH_MAGIC data) (deliver_response (addr_key host port)).
Definition datagram_received (d : datagram) : M HolePuncher unit :=
  let '(data, host, port) := d in
  when (startswith _PUNCH_MAGIC data) (deliver_response (addr_key host port));;
  handle_datagram d.

(** * [HolePuncher] *)
Record world := mkWorld {
  running_at : nat -> bool;
  arrivals : nat -> list datagram;
  send_raises : nat -> option string;
  clock_at : nat -> Z * Z;
  stamp : nat -> bytes
}.

Section Puncher.
(** [random.shuffle], and what happens meanwhile. *)
Context (shuffle : list CandidatePair -> list CandidatePair) (w : world).

Definition on_side (side : string) (c : candidate) : bool :=
  match c_side c with Some s => String.eqb s side | None => false end.
Definition candidate_pair (bind_port : Z) (ic tc : candidate) : CandidatePair :=
  new_pair (default "127.0.0.1" (c_endpoint ic)) (default bind_port (c_port ic))
           (default "" (c_endpoint tc)) (default bind_port (c_port tc)).
Definition sides (cs : list candidate) : list candidate * list candidate :=
  match List.filter (on_side "initiator") cs, List.filter (on_side "target") cs with
  | [], _ | _, [] => (cs, cs)
  | ics, tcs => (ics, tcs)
  end.
Definition _build_candidate_pairs (bind_port : Z) (cs : list candidate) : list CandidatePair :=
  let '(ics, tcs) := sides cs in
  match ic ← ics; tc ← tcs; [candidate_pair bind_port ic tc] with
  | [] => shuffle [new_pair "127.0.0.1" bind_port "127.0.0.1" bind_port]
  | pairs => shuffle pairs
  end.

(** The [n]-th attempt: three datagrams, then two seconds of waiting. *)
Definition _attempt_pair (n : nat) (cp : CandidatePair) : M HolePuncher PunchAttempt :=
  let '(started, completed) := clock_at w n in
  let failed done_ e := mkAttempt cp started done_ false None (Some e) in
  open ← gets _transport;
  if negb open then mret (failed None "no transport") else
  match send_raises w n with
  | Some e => mret (failed (Some completed) e)
  | None =>
    let payload := _PUNCH_MAGIC +:+ take_str 8 (stamp w n) in
    modify (fun p => p <| sent := sent p ++ repeat (payload, remote_endpoint cp, remote_port cp) 3 |>);;
    expect_response (pair_key cp);;
    for_each (arrivals w n) datagram_received;;
    future ← gets (fun p => dict_get (pair_key cp) (_expected_responses p));
    forget_response (pair_key cp);;
    mret (match future with
          | Some true =>
            mkAttempt cp started (Some completed) true (Some (Z.quot (completed - started) 1000)) None
          | _ => failed (Some completed) "timeout"
          end)
  end.

(** How a pass over the pairs ends. *)
Inductive outcome_of_pass := Stopped | Reached | Exhausted.
Fixpoint try_pairs (n : nat) (pairs : list CandidatePair) (s : PunchSession) :
    M HolePuncher (outcome_of_pass * nat * PunchSession) :=
  match pairs with
  | [] => mret (Exhausted, n, s)
  | cp :: rest =>
    if negb (running_at w n) then mret (Stopped, n, s) else
    attempt ← _attempt_pair n cp;
    let s := s <| attempts := attempts s ++ [attempt] |> in
    if success attempt then
      mret (Reached, S n, s <| state := "connected" |> <| result_endpoint := Some (remote_endpoint cp) |>
        <| result_port := Some (remote_port cp) |> <| result_latency_ms := latency_ms attempt |>)
    else try_pairs (S n) rest s
  end.
Fixpoint retry (rounds n : nat) (s : PunchSession) : M HolePuncher (outcome_of_pass * PunchSession) :=
  match rounds with
  | O => mret (Exhausted, s)
  | S more =>
    if negb (running_at w n) then mret (Stopped, s) else
    '(o, n', s') ← try_pairs n (candidates s) s;
    match o with Exhausted => retry more n' s' | _ => mret (o, s') end
  end.
Definition call (c : callback) (s : PunchSession) : M HolePuncher unit :=
  when (bool_decide (c ∈ callbacks s)) (modify (fun p => p <| called := called p ++ [(c, session_id s)] |>)).
Definition _execute_punch (s : PunchSession) : M HolePuncher PunchSession :=
  rounds ← gets (fun p => Z.to_nat (_retries p));
  '(o, s') ← retry rounds 0 s;
  s'' ← match o with
        | Stopped => mret s'
        | Reached => call OnSuccess s';; mret s'
        | Exhausted =>
          let s' := s' <| state := "failed" |> in
          call OnFailure s';; call OnRelayFallback s';; mret s'
        end;
  modify (fun p => p <| _active_sessions := dict_del (session_id s) (_active_sessions p) |>);;
  mret s''.

Definition initiate_punch (sid target : string) (cs : list candidate) (cbs : list callback) :
    M HolePuncher PunchSession :=
  enabled ← gets _enabled;
  if negb enabled then mret (mkSession sid target [] [] "disabled" None None None []) else
  pairs ← gets (fun p => _build_candidate_pairs (_bind_port p) cs);
  let s := mkSession sid target pairs [] "punching" None None None cbs in
  modify (fun p => p <| _active_sessions := dict_set sid tt (_active_sessions p) |>);;
  mret s.
End Puncher.

(** * Facts *)
Fixpoint last_char (s : string) : option ascii :=
  match s with EmptyString => None | String c EmptyString => Some c | String _ t => last_char t end.
Lemma last_char_app a b : b <> "" -> last_char (a +:+ b) = last_char b.
Proof.
  intros Hb. induction a as [|c a IH]; [done|].
  change (match a +:+ b with "" => Some c | _ => last_char (a +:+ b) end = last_char b).
  rewrite IH. destruct a, b; done.
Qed.
Lemma last_char_digits s : s <> "" -> str_forall is_digit s = true -> exists d, last_char s = Some d /\ is_digit d = true.
Proof.
  induction s as [|c s IH]; [done|]. intros _ [Hc Hs]%andb_true_iff.
  destruct s as [|c' s]; [by exists c|]. apply IH; done.
Qed.
(** A key of a pair ends in a digit of its port; the key of an address never
    does. *)
Definition ends_in_digit (k : string) : Prop := exists d, last_char k = Some d /\ is_digit d = true.
Lemma new_pair_key le lp re rp : ends_in_digit (pair_key (new_pair le lp re rp)).
Proof.
  unfold ends_in_digit, new_pair, pair_key.
  assert (exists a t, le +:+ ":" +:+ str_int lp +:+ "->" +:+ re +:+ ":" +:+ str_int rp = a +:+ t /\
    t <> "" /\ str_forall is_digit t = true) as (a & t & -> & Ht & Hd).
  { unfold str_int at 2. destruct (Z.ltb_spec rp 0).
    - exists (le +:+ ":" +:+ str_int lp +:+ "->" +:+ re +:+ ":-"), (str_nat (- rp)).
      rewrite !str_app_assoc. split; [done|]. split; [apply str_nat_ne|apply str_nat_digits; lia].
    - exists (le +:+ ":" +:+ str_int lp +:+ "->" +:+ re +:+ ":"), (str_nat rp).
      rewrite !str_app_assoc. split; [done|]. split; [apply str_nat_ne|apply str_nat_digits; lia]. }
  rewrite last_char_app by done. by apply last_char_digits.
Qed.
Lemma addr_key_dot h p : ~ ends_in_digit (addr_key h p).
Proof.
  unfold ends_in_digit, addr_key. intros (d & Hl & Hd).
  rewrite <-!str_app_assoc, last_char_app in Hl by done. injection Hl as <-. by vm_compute in Hd.
Qed.

(** No future waits under the key of an address, and none is done. *)
Definition waiting (p : HolePuncher) : Prop :=
  forall k b, dict_get k (_expected_responses p) = Some b -> ends_in_digit k /\ b = false.
Lemma datagram_ignored d p : waiting p -> datagram_received d p = (Ok tt, p).
Proof.
  intros Hw. destruct d as [[data host] port]. unfold datagram_received, handle_datagram, when.
  assert (deliver_response (addr_key host port) p = (Ok tt, p)) as E.
  { unfold deliver_response, mbind, M_bind, gets.
    destruct (dict_get (addr_key host port) (_expected_responses p)) as [b|] eqn:E; [|done].
    apply Hw in E as [Hk _]. by apply addr_key_dot in Hk. }
  unfold mbind, M_bind. destruct (startswith _PUNCH_MAGIC data); [|done]. by rewrite !E.
Qed.
Lemma datagrams_ignored ds p : waiting p -> for_each ds datagram_received p = (Ok tt, p).
Proof.
  intros Hw. induction ds as [|d ds IH]; [done|]. cbn [for_each]. unfold mbind, M_bind.
  by rewrite datagram_ignored.
Qed.
Lemma dict_get_del {V} k k' (d : list (string * V)) v : dict_get k (dict_del k' d) = Some v -> dict_get k d = Some v.
Proof.
  unfold dict_del. induction d as [|[k0 v0] d IH]; [done|]. cbn. destruct (String.eqb_spec k0 k') as [->|Hne]; cbn.
  - intros H. destruct (String.eqb_spec k' k) as [->|]; [|by apply IH].
    exfalso. clear IH. induction d as [|[k1 v1] d IH]; [done|]. cbn in H.
    destruct (String.eqb_spec k1 k) as [->|Hk]; cbn in H; [by apply IH|].
    rewrite (proj2 (String.eqb_neq k1 k)) in H by done. by apply IH.
  - destruct (String.eqb k0 k); [done|apply IH].
Qed.
Lemma waiting_expect k p :
  waiting p -> ends_in_digit k -> waiting (p <| _expected_responses := dict_set k false (_expected_responses p) |>).
Proof.
  intros Hw Hk k' b. cbn. destruct (decide (k' = k)) as [->|Hne].
  - rewrite dict_get_set. intros [= <-]. done.
  - rewrite dict_get_set_ne by done. apply Hw.
Qed.
Lemma waiting_forget k p :
  waiting p -> waiting (p <| _expected_responses := dict_del k (_expected_responses p) |>).
Proof. intros Hw k' b Hb. cbn in Hb. apply dict_get_del in Hb. by apply Hw. Qed.

(** What an attempt leaves as it was. *)
Definition keeps (p p' : HolePuncher) : Prop :=
  waiting p' /\ called p' = called p /\ _active_sessions p' = _active_sessions p /\ _retries p' = _retries p.
Lemma attempt_fails w n cp p :
  waiting p -> ends_in_digit (pair_key cp) ->
  exists a p', _attempt_pair w n cp p = (Ok a, p') /\ success a = false /\ at_pair a = cp /\ keeps p p'.
Proof.
  intros Hw Hk. unfold _attempt_pair. destruct (clock_at w n) as [started completed].
  unfold mbind at 1, M_bind at 1, gets. destruct (_transport p); cbn [negb]; [|by eexists _, _].
  destruct (send_raises w n) as [e|]; [by eexists _, _|].
  unfold mbind, M_bind, modify, expect_response, gets.
  set (p1 := p <| sent := _ |>). assert (waiting p1) as Hw1 by exact Hw.
  set (p2 := p1 <| _expected_responses := dict_set (pair_key cp) false (_expected_responses p1) |>).
  assert (waiting p2) as Hw2 by by apply waiting_expect. unfold modify. cbn beta iota. fold p2.
  rewrite datagrams_ignored by done. cbn [_expected_responses set_field set_expected p2].
  rewrite dict_get_set. unfold forget_response, modify. cbn beta iota.
  eexists _, _. split; [reflexivity|]. split; [done|]. split; [done|].
  split; [by apply waiting_forget|]. done.
Qed.

Definition failing (a : PunchAttempt) : Prop := success a = false.
Lemma try_pairs_fail w n pairs s p :
  waiting p -> Forall (fun cp => ends_in_digit (pair_key cp)) pairs -> (forall n, running_at w n = true) ->
  exists l p', try_pairs w n pairs s p =
    (Ok (Exhausted, (n + length pairs)%nat, s <| attempts := attempts s ++ l |>), p') /\
    Forall failing l /\ at_pair <$> l = pairs /\ keeps p p'.
Proof.
  intros Hw Hp Hrun. revert n s p Hw. induction Hp as [|cp pairs Hcp Hp IH]; intros n s p Hw.
  - exists [], p. cbn. split_and!; try done. rewrite Nat.add_0_r. destruct s; cbn.
    unfold set_field, set_attempts; cbn. by rewrite app_nil_r.
  - cbn [try_pairs]. rewrite Hrun. cbn [negb].
    destruct (attempt_fails w n cp p Hw Hcp) as (a & p1 & Ha & Hs & Hat & Hw1 & Hc1 & Hs1 & Hr1).
    unfold mbind, M_bind. rewrite Ha, Hs.
    destruct (IH (S n) (s <| attempts := attempts s ++ [a] |>) p1 Hw1) as (l & p' & -> & Hl & Hpairs & Hw' & Hc' & Hs' & Hr').
    exists (a :: l), p'. split_and!; [|by constructor|cbn; by f_equal|split; [done|split_and!; congruence]].
    cbn [length]. rewrite Nat.add_succ_r. do 3 f_equal. destruct s; unfold set_field, set_attempts; cbn.
    by rewrite <-app_assoc.
Qed.
Lemma retry_fails w rounds n s p :
  waiting p -> Forall (fun cp => ends_in_digit (pair_key cp)) (candidates s) -> (forall n, running_at w n = true) ->
  exists l p', retry w rounds n s p = (Ok (Exhausted, s <| attempts := attempts s ++ l |>), p') /\
    Forall failing l /\ at_pair <$> l = concat (repeat (candidates s) rounds) /\ keeps p p'.
Proof.
  intros Hw Hp Hrun. revert n s p Hw Hp. induction rounds as [|rounds IH]; intros n s p Hw Hp.
  - exists [], p. cbn. split_and!; try done. destruct s; unfold set_field, set_attempts; cbn. by rewrite app_nil_r.
  - cbn [retry]. rewrite Hrun. cbn [negb].
    destruct (try_pairs_fail w n (candidates s) s p Hw Hp Hrun) as (l1 & p1 & E & Hl1 & Hat1 & Hw1 & Hc1 & Hs1 & Hr1).
    unfold mbind, M_bind. rewrite E. cbn beta iota.
    set (s1 := s <| attempts := attempts s ++ l1 |>).
    destruct (IH (n + length (candidates s))%nat s1 p1 Hw1 Hp)
      as (l2 & p2 & E2 & Hl2 & Hat2 & Hw2 & Hc2 & Hs2 & Hr2).
    exists (l1 ++ l2), p2. split_and!; [|by apply Forall_app| |split; [done|split_and!; congruence]].
    + etrans; [exact E2|]. do 3 f_equal. subst s1. destruct s; unfold set_field, set_attempts; cbn. by rewrite <-app_assoc.
    + rewrite fmap_app, Hat1. cbn [repeat concat]. by rewrite Hat2.
Qed.

(** Every pair the engine builds has the key its constructor gave it. *)
Lemma built_keys shuffle bind_port cs :
  (forall l, shuffle l ≡ₚ l) ->
  Forall (fun cp => ends_in_digit (pair_key cp)) (_build_candidate_pairs shuffle bind_port cs).
Proof.
  intros Hsh. unfold _build_candidate_pairs. destruct (sides cs) as [ics tcs].
  assert (Forall (fun cp => ends_in_digit (pair_key cp)) (ic ← ics; tc ← tcs; [candidate_pair bind_port ic tc])) as H.
  { apply Forall_forall. intros cp (ic & Hic & _)%list_elem_of_bind.
    apply list_elem_of_bind in Hic as (tc & ->%list_elem_of_singleton & _). apply new_pair_key. }
  destruct (ic ← ics; _) as [|cp l]; [|by rewrite Hsh].
  rewrite Hsh. constructor; [apply new_pair_key|done].
Qed.

Lemma call_run c s p :
  call c s p = (Ok tt, p <| called := called p ++ (if bool_decide (c ∈ callbacks s) then [(c, session_id s)] else []) |>).
Proof.
  unfold call, when. case_bool_decide; [done|]. destruct p; unfold set_field, set_called; cbn. by rewrite app_nil_r.
Qed.

(** * Properties *)

(** No hole punch succeeds: the answers of the peer are looked up under a key
    no attempt waits under.  Whatever datagrams arrive, a session that is not
    stopped tries every pair in every round, in order, fails, and asks for the
    relay. *)
Theorem punch_never_connects shuffle w p sid target cs cbs s p1 :
  (forall l, shuffle l ≡ₚ l) -> _expected_responses p = [] -> (forall n, running_at w n = true) ->
  _enabled p = true -> initiate_punch shuffle sid target cs cbs p = (Ok s, p1) ->
  exists s' p', _execute_punch w s p1 = (Ok s', p') /\ state s' = "failed" /\
    Forall failing (attempts s') /\
    at_pair <$> attempts s' = concat (repeat (candidates s) (Z.to_nat (_retries p))) /\
    called p' = called p ++ List.filter (fun e => bool_decide (e.1 ∈ cbs)) [(OnFailure, sid); (OnRelayFallback, sid)] /\
    dict_get sid (_active_sessions p') = None.
Proof.
  intros Hsh Hexp Hrun Hen Hi. unfold initiate_punch, mbind, M_bind, gets, modify in Hi. rewrite Hen in Hi.
  cbn in Hi. injection Hi as <- <-. set (pairs := _build_candidate_pairs _ _ _) in *.
  set (s := mkSession sid target pairs [] "punching" None None None cbs). set (p1 := p <| _active_sessions := dict_set sid tt (_active_sessions p) |>) in *.
  assert (waiting p1) as Hw by (intros k b; cbn; by rewrite Hexp).
  destruct (retry_fails w (Z.to_nat (_retries p1)) 0 s p1 Hw (built_keys shuffle _ cs Hsh) Hrun)
    as (l & p2 & E & Hl & Hat & _ & Hc & _ & _).
  unfold _execute_punch, mbind, M_bind, gets, modify. rewrite E. rewrite !call_run. eexists _, _.
  split; [reflexivity|]. split; [done|]. split; [exact Hl|]. split; [exact Hat|]. split.
  - cbn. rewrite Hc, <-app_assoc. f_equal. by do 2 case_bool_decide.
  - cbn. match goal with |- ?g = None => destruct g as [u|] eqn:Eg; [|done] end.
    apply dict_get_in, elem_of_dict_del in Eg. by destruct Eg as [_ []].
Qed.

(** * Witness *)
Definition demo_puncher : HolePuncher := mkPuncher true 3 51820 true [] [] [] [].
Definition demo_candidates : list candidate :=
  [mkCandidate (Some "initiator") (Some "10.0.0.1") (Some 51820);
   mkCandidate (Some "target") (Some "203.0.113.9") (Some 40000)].
(** Every attempt is answered at once by the peer it was sent to. *)
Definition answering : world :=
  mkWorld (fun _ => true) (fun _ => [(_PUNCH_MAGIC, "203.0.113.9", 40000)]) (fun _ => None)
    (fun n => (Z.of_nat n, Z.of_nat n + 2000000)) (fun _ => "17000000").
Lemma punch_never_connects_witness :
  exists s p1, initiate_punch (fun l => l) "n-1" "dev-b" demo_candidates [OnSuccess; OnRelayFallback] demo_puncher = (Ok s, p1) /\
  exists s' p', _execute_punch answering s p1 = (Ok s', p') /\ state s' = "failed" /\
    length (attempts s') = 3%nat /\ called p' = [(OnRelayFallback, "n-1")].
Proof.
  destruct (initiate_punch (fun l => l) "n-1" "dev-b" demo_candidates [OnSuccess; OnRelayFallback] demo_puncher)
    as [[s|e] p1] eqn:Hi; [|vm_compute in Hi; discriminate Hi].
  exists s, p1. split; [done|].
  destruct (punch_never_connects (fun l => l) answering demo_puncher "n-1" "dev-b" demo_candidates
    [OnSuccess; OnRelayFallback] s p1 ltac:(done) eq_refl ltac:(done) eq_refl Hi)
    as (s' & p' & Hrun & Hs & _ & Hat & Hc & _).
  assert (candidates s = [new_pair "10.0.0.1" 51820 "203.0.113.9" 40000]) as Hcs
    by (vm_compute in Hi; injection Hi as <- _; vm_compute; reflexivity).
  exists s', p'. split; [exact Hrun|]. split; [exact Hs|]. split.
  - apply (f_equal length) in Hat. rewrite length_fmap, Hcs in Hat. exact Hat.
  - rewrite Hc. reflexivity.
Defined.
