(* ===== verification/Models.v ===== *)
(** The data model: one record per table of [backend/app/models], the
    database as the rows of its tables, the settings of
    [backend/app/config.py] and the constants of
    [backend/app/core/constants.py].

    A UUID is its canonical text, so [str(id)] is the id; a timestamp is the
    number of microseconds since the epoch; a JSON column holds a JSON
    object or a list of strings. *)
From Stdlib Require Import Ascii.
From S2P Require Import Prelude PyStr Json.
Local Open Scope string_scope.
Local Open Scope list_scope.

Definition uuid := string.

(** [models/user.py]: user accounts *)
Module User.
Record User := mk {
  id : uuid;
  email : string;
  password_hash : string;
  display_name : string;
  is_active : bool;
  is_superuser : bool;
  created_at : Z;
  updated_at : Z
}.
#[global] Instance set_User_id : SetField id := fun v r => mk v (email r) (password_hash r) (display_name r) (is_active r) (is_superuser r) (created_at r) (updated_at r).
#[global] Instance set_User_email : SetField email := fun v r => mk (id r) v (password_hash r) (display_name r) (is_active r) (is_superuser r) (created_at r) (updated_at r).
#[global] Instance set_User_password_hash : SetField password_hash := fun v r => mk (id r) (email r) v (display_name r) (is_active r) (is_superuser r) (created_at r) (updated_at r).
#[global] Instance set_User_display_name : SetField display_name := fun v r => mk (id r) (email r) (password_hash r) v (is_active r) (is_superuser r) (created_at r) (updated_at r).
#[global] Instance set_User_is_active : SetField is_active := fun v r => mk (id r) (email r) (password_hash r) (display_name r) v (is_superuser r) (created_at r) (updated_at r).
#[global] Instance set_User_is_superuser : SetField is_superuser := fun v r => mk (id r) (email r) (password_hash r) (display_name r) (is_active r) v (created_at r) (updated_at r).
#[global] Instance set_User_created_at : SetField created_at := fun v r => mk (id r) (email r) (password_hash r) (display_name r) (is_active r) (is_superuser r) v (updated_at r).
#[global] Instance set_User_updated_at : SetField updated_at := fun v r => mk (id r) (email r) (password_hash r) (display_name r) (is_active r) (is_superuser r) (created_at r) v.
#[global] Instance User_eq_dec : EqDecision User.
Proof. solve_decision. Defined.
End User.

(** [models/network.py]: networks *)
Module Network.
Record Network := mk {
  id : uuid;
  name : string;
  subnet : string;
  description : option string;
  interface_name : option string;
  topology : option string;
  owner_id : option uuid;
  created_at : Z
}.
#[global] Instance set_Network_id : SetField id := fun v r => mk v (name r) (subnet r) (description r) (interface_name r) (topology r) (owner_id r) (created_at r).
#[global] Instance set_Network_name : SetField name := fun v r => mk (id r) v (subnet r) (description r) (interface_name r) (topology r) (owner_id r) (created_at r).
#[global] Instance set_Network_subnet : SetField subnet := fun v r => mk (id r) (name r) v (description r) (interface_name r) (topology r) (owner_id r) (created_at r).
#[global] Instance set_Network_description : SetField description := fun v r => mk (id r) (name r) (subnet r) v (interface_name r) (topology r) (owner_id r) (created_at r).
#[global] Instance set_Network_interface_name : SetField interface_name := fun v r => mk (id r) (name r) (subnet r) (description r) v (topology r) (owner_id r) (created_at r).
#[global] Instance set_Network_topology : SetField topology := fun v r => mk (id r) (name r) (subnet r) (description r) (interface_name r) v (owner_id r) (created_at r).
#[global] Instance set_Network_owner_id : SetField owner_id := fun v r => mk (id r) (name r) (subnet r) (description r) (interface_name r) (topology r) v (created_at r).
#[global] Instance set_Network_created_at : SetField created_at := fun v r => mk (id r) (name r) (subnet r) (description r) (interface_name r) (topology r) (owner_id r) v.
End Network.

(** [models/device.py]: devices *)
Module Device.
Record Device := mk {
  id : uuid;
  name : string;
  user_id : option uuid;
  network_id : uuid;
  public_key : option string;
  private_key_enc : option string;
  ip_address : option string;
  dns_enabled : bool;
  is_active : bool;
  is_node_owned : bool;
  device_token_hash : option string;
  device_token_prefix : option string;
  enrollment_status : string;
  enrolled_at : option Z;
  last_seen_at : option Z;
  revoked_at : option Z;
  tags : option (list string);
  last_handshake : option Z;
  exit_node_id : option uuid;
  created_at : Z;
  updated_at : Z
}.
#[global] Instance set_Device_id : SetField id := fun v r => mk v (name r) (user_id r) (network_id r) (public_key r) (private_key_enc r) (ip_address r) (dns_enabled r) (is_active r) (is_node_owned r) (device_token_hash r) (device_token_prefix r) (enrollment_status r) (enrolled_at r) (last_seen_at r) (revoked_at r) (tags r) (last_handshake r) (exit_node_id r) (created_at r) (updated_at r).
#[global] Instance set_Device_name : SetField name := fun v r => mk (id r) v (user_id r) (network_id r) (public_key r) (private_key_enc r) (ip_address r) (dns_enabled r) (is_active r) (is_node_owned r) (device_token_hash r) (device_token_prefix r) (enrollment_status r) (enrolled_at r) (last_seen_at r) (revoked_at r) (tags r) (last_handshake r) (exit_node_id r) (created_at r) (updated_at r).
#[global] Instance set_Device_user_id : SetField user_id := fun v r => mk (id r) (name r) v (network_id r) (public_key r) (private_key_enc r) (ip_address r) (dns_enabled r) (is_active r) (is_node_owned r) (device_token_hash r) (device_token_prefix r) (enrollment_status r) (enrolled_at r) (last_seen_at r) (revoked_at r) (tags r) (last_handshake r) (exit_node_id r) (created_at r) (updated_at r).
#[global] Instance set_Device_network_id : SetField network_id := fun v r => mk (id r) (name r) (user_id r) v (public_key r) (private_key_enc r) (ip_address r) (dns_enabled r) (is_active r) (is_node_owned r) (device_token_hash r) (device_token_prefix r) (enrollment_status r) (enrolled_at r) (last_seen_at r) (revoked_at r) (tags r) (last_handshake r) (exit_node_id r) (created_at r) (updated_at r).
#[global] Instance set_Device_public_key : SetField public_key := fun v r => mk (id r) (name r) (user_id r) (network_id r) v (private_key_enc r) (ip_address r) (dns_enabled r) (is_active r) (is_node_owned r) (device_token_hash r) (device_token_prefix r) (enrollment_status r) (enrolled_at r) (last_seen_at r) (revoked_at r) (tags r) (last_handshake r) (exit_node_id r) (created_at r) (updated_at r).
#[global] Instance set_Device_private_key_enc : SetField private_key_enc := fun v r => mk (id r) (name r) (user_id r) (network_id r) (public_key r) v (ip_address r) (dns_enabled r) (is_active r) (is_node_owned r) (device_token_hash r) (device_token_prefix r) (enrollment_status r) (enrolled_at r) (last_seen_at r) (revoked_at r) (tags r) (last_handshake r) (exit_node_id r) (created_at r) (updated_at r).
#[global] Instance set_Device_ip_address : SetField ip_address := fun v r => mk (id r) (name r) (user_id r) (network_id r) (public_key r) (private_key_enc r) v (dns_enabled r) (is_active r) (is_node_owned r) (device_token_hash r) (device_token_prefix r) (enrollment_status r) (enrolled_at r) (last_seen_at r) (revoked_at r) (tags r) (last_handshake r) (exit_node_id r) (created_at r) (updated_at r).
#[global] Instance set_Device_dns_enabled : SetField dns_enabled := fun v r => mk (id r) (name r) (user_id r) (network_id r) (public_key r) (private_key_enc r) (ip_address r) v (is_active r) (is_node_owned r) (device_token_hash r) (device_token_prefix r) (enrollment_status r) (enrolled_at r) (last_seen_at r) (revoked_at r) (tags r) (last_handshake r) (exit_node_id r) (created_at r) (updated_at r).
#[global] Instance set_Device_is_active : SetField is_active := fun v r => mk (id r) (name r) (user_id r) (network_id r) (public_key r) (private_key_enc r) (ip_address r) (dns_enabled r) v (is_node_owned r) (device_token_hash r) (device_token_prefix r) (enrollment_status r) (enrolled_at r) (last_seen_at r) (revoked_at r) (tags r) (last_handshake r) (exit_node_id r) (created_at r) (updated_at r).
#[global] Instance set_Device_is_node_owned : SetField is_node_owned := fun v r => mk (id r) (name r) (user_id r) (network_id r) (public_key r) (private_key_enc r) (ip_address r) (dns_enabled r) (is_active r) v (device_token_hash r) (device_token_prefix r) (enrollment_status r) (enrolled_at r) (last_seen_at r) (revoked_at r) (tags r) (last_handshake r) (exit_node_id r) (created_at r) (updated_at r).
#[global] Instance set_Device_device_token_hash : SetField device_token_hash := fun v r => mk (id r) (name r) (user_id r) (network_id r) (public_key r) (private_key_enc r) (ip_address r) (dns_enabled r) (is_active r) (is_node_owned r) v (device_token_prefix r) (enrollment_status r) (enrolled_at r) (last_seen_at r) (revoked_at r) (tags r) (last_handshake r) (exit_node_id r) (created_at r) (updated_at r).
#[global] Instance set_Device_device_token_prefix : SetField device_token_prefix := fun v r => mk (id r) (name r) (user_id r) (network_id r) (public_key r) (private_key_enc r) (ip_address r) (dns_enabled r) (is_active r) (is_node_owned r) (device_token_hash r) v (enrollment_status r) (enrolled_at r) (last_seen_at r) (revoked_at r) (tags r) (last_handshake r) (exit_node_id r) (created_at r) (updated_at r).
#[global] Instance set_Device_enrollment_status : SetField enrollment_status := fun v r => mk (id r) (name r) (user_id r) (network_id r) (public_key r) (private_key_enc r) (ip_address r) (dns_enabled r) (is_active r) (is_node_owned r) (device_token_hash r) (device_token_prefix r) v (enrolled_at r) (last_seen_at r) (revoked_at r) (tags r) (last_handshake r) (exit_node_id r) (created_at r) (updated_at r).
#[global] Instance set_Device_enrolled_at : SetField enrolled_at := fun v r => mk (id r) (name r) (user_id r) (network_id r) (public_key r) (private_key_enc r) (ip_address r) (dns_enabled r) (is_active r) (is_node_owned r) (device_token_hash r) (device_token_prefix r) (enrollment_status r) v (last_seen_at r) (revoked_at r) (tags r) (last_handshake r) (exit_node_id r) (created_at r) (updated_at r).
#[global] Instance set_Device_last_seen_at : SetField last_seen_at := fun v r => mk (id r) (name r) (user_id r) (network_id r) (public_key r) (private_key_enc r) (ip_address r) (dns_enabled r) (is_active r) (is_node_owned r) (device_token_hash r) (device_token_prefix r) (enrollment_status r) (enrolled_at r) v (revoked_at r) (tags r) (last_handshake r) (exit_node_id r) (created_at r) (updated_at r).
#[global] Instance set_Device_revoked_at : SetField revoked_at := fun v r => mk (id r) (name r) (user_id r) (network_id r) (public_key r) (private_key_enc r) (ip_address r) (dns_enabled r) (is_active r) (is_node_owned r) (device_token_hash r) (device_token_prefix r) (enrollment_status r) (enrolled_at r) (last_seen_at r) v (tags r) (last_handshake r) (exit_node_id r) (created_at r) (updated_at r).
#[global] Instance set_Device_tags : SetField tags := fun v r => mk (id r) (name r) (user_id r) (network_id r) (public_key r) (private_key_enc r) (ip_address r) (dns_enabled r) (is_active r) (is_node_owned r) (device_token_hash r) (device_token_prefix r) (enrollment_status r) (enrolled_at r) (last_seen_at r) (revoked_at r) v (last_handshake r) (exit_node_id r) (created_at r) (updated_at r).
#[global] Instance set_Device_last_handshake : SetField last_handshake := fun v r => mk (id r) (name r) (user_id r) (network_id r) (public_key r) (private_key_enc r) (ip_address r) (dns_enabled r) (is_active r) (is_node_owned r) (device_token_hash r) (device_token_prefix r) (enrollment_status r) (enrolled_at r) (last_seen_at r) (revoked_at r) (tags r) v (exit_node_id r) (created_at r) (updated_at r).
#[global] Instance set_Device_exit_node_id : SetField exit_node_id := fun v r => mk (id r) (name r) (user_id r) (network_id r) (public_key r) (private_key_enc r) (ip_address r) (dns_enabled r) (is_active r) (is_node_owned r) (device_token_hash r) (device_token_prefix r) (enrollment_status r) (enrolled_at r) (last_seen_at r) (revoked_at r) (tags r) (last_handshake r) v (created_at r) (updated_at r).
#[global] Instance set_Device_created_at : SetField created_at := fun v r => mk (id r) (name r) (user_id r) (network_id r) (public_key r) (private_key_enc r) (ip_address r) (dns_enabled r) (is_active r) (is_node_owned r) (device_token_hash r) (device_token_prefix r) (enrollment_status r) (enrolled_at r) (last_seen_at r) (revoked_at r) (tags r) (last_handshake r) (exit_node_id r) v (updated_at r).
#[global] Instance set_Device_updated_at : SetField updated_at := fun v r => mk (id r) (name r) (user_id r) (network_id r) (public_key r) (private_key_enc r) (ip_address r) (dns_enabled r) (is_active r) (is_node_owned r) (device_token_hash r) (device_token_prefix r) (enrollment_status r) (enrolled_at r) (last_seen_at r) (revoked_at r) (tags r) (last_handshake r) (exit_node_id r) (created_at r) v.
#[global] Instance Device_eq_dec : EqDecision Device.
Proof. solve_decision. Defined.
End Device.

(** [models/endpoint.py]: known endpoints of devices *)
Module DeviceEndpoint.
Record DeviceEndpoint := mk {
  id : uuid;
  device_id : uuid;
  endpoint : string;
  source : string;
  port : Z;
  local_ip : option string;
  public_ip : option string;
  priority : Z;
  is_active : bool;
  last_seen : Z;
  latency_ms : option Z;
  reachable : bool;
  last_probe_at : option Z;
  failure_count : Z;
  success_count : Z;
  score : Z;
  created_at : Z
}.
#[global] Instance set_DeviceEndpoint_id : SetField id := fun v r => mk v (device_id r) (endpoint r) (source r) (port r) (local_ip r) (public_ip r) (priority r) (is_active r) (last_seen r) (latency_ms r) (reachable r) (last_probe_at r) (failure_count r) (success_count r) (score r) (created_at r).
#[global] Instance set_DeviceEndpoint_device_id : SetField device_id := fun v r => mk (id r) v (endpoint r) (source r) (port r) (local_ip r) (public_ip r) (priority r) (is_active r) (last_seen r) (latency_ms r) (reachable r) (last_probe_at r) (failure_count r) (success_count r) (score r) (created_at r).
#[global] Instance set_DeviceEndpoint_endpoint : SetField endpoint := fun v r => mk (id r) (device_id r) v (source r) (port r) (local_ip r) (public_ip r) (priority r) (is_active r) (last_seen r) (latency_ms r) (reachable r) (last_probe_at r) (failure_count r) (success_count r) (score r) (created_at r).
#[global] Instance set_DeviceEndpoint_source : SetField source := fun v r => mk (id r) (device_id r) (endpoint r) v (port r) (local_ip r) (public_ip r) (priority r) (is_active r) (last_seen r) (latency_ms r) (reachable r) (last_probe_at r) (failure_count r) (success_count r) (score r) (created_at r).
#[global] Instance set_DeviceEndpoint_port : SetField port := fun v r => mk (id r) (device_id r) (endpoint r) (source r) v (local_ip r) (public_ip r) (priority r) (is_active r) (last_seen r) (latency_ms r) (reachable r) (last_probe_at r) (failure_count r) (success_count r) (score r) (created_at r).
#[global] Instance set_DeviceEndpoint_local_ip : SetField local_ip := fun v r => mk (id r) (device_id r) (endpoint r) (source r) (port r) v (public_ip r) (priority r) (is_active r) (last_seen r) (latency_ms r) (reachable r) (last_probe_at r) (failure_count r) (success_count r) (score r) (created_at r).
#[global] Instance set_DeviceEndpoint_public_ip : SetField public_ip := fun v r => mk (id r) (device_id r) (endpoint r) (source r) (port r) (local_ip r) v (priority r) (is_active r) (last_seen r) (latency_ms r) (reachable r) (last_probe_at r) (failure_count r) (success_count r) (score r) (created_at r).
#[global] Instance set_DeviceEndpoint_priority : SetField priority := fun v r => mk (id r) (device_id r) (endpoint r) (source r) (port r) (local_ip r) (public_ip r) v (is_active r) (last_seen r) (latency_ms r) (reachable r) (last_probe_at r) (failure_count r) (success_count r) (score r) (created_at r).
#[global] Instance set_DeviceEndpoint_is_active : SetField is_active := fun v r => mk (id r) (device_id r) (endpoint r) (source r) (port r) (local_ip r) (public_ip r) (priority r) v (last_seen r) (latency_ms r) (reachable r) (last_probe_at r) (failure_count r) (success_count r) (score r) (created_at r).
#[global] Instance set_DeviceEndpoint_last_seen : SetField last_seen := fun v r => mk (id r) (device_id r) (endpoint r) (source r) (port r) (local_ip r) (public_ip r) (priority r) (is_active r) v (latency_ms r) (reachable r) (last_probe_at r) (failure_count r) (success_count r) (score r) (created_at r).
#[global] Instance set_DeviceEndpoint_latency_ms : SetField latency_ms := fun v r => mk (id r) (device_id r) (endpoint r) (source r) (port r) (local_ip r) (public_ip r) (priority r) (is_active r) (last_seen r) v (reachable r) (last_probe_at r) (failure_count r) (success_count r) (score r) (created_at r).
#[global] Instance set_DeviceEndpoint_reachable : SetField reachable := fun v r => mk (id r) (device_id r) (endpoint r) (source r) (port r) (local_ip r) (public_ip r) (priority r) (is_active r) (last_seen r) (latency_ms r) v (last_probe_at r) (failure_count r) (success_count r) (score r) (created_at r).
#[global] Instance set_DeviceEndpoint_last_probe_at : SetField last_probe_at := fun v r => mk (id r) (device_id r) (endpoint r) (source r) (port r) (local_ip r) (public_ip r) (priority r) (is_active r) (last_seen r) (latency_ms r) (reachable r) v (failure_count r) (success_count r) (score r) (created_at r).
#[global] Instance set_DeviceEndpoint_failure_count : SetField failure_count := fun v r => mk (id r) (device_id r) (endpoint r) (source r) (port r) (local_ip r) (public_ip r) (priority r) (is_active r) (last_seen r) (latency_ms r) (reachable r) (last_probe_at r) v (success_count r) (score r) (created_at r).
#[global] Instance set_DeviceEndpoint_success_count : SetField success_count := fun v r => mk (id r) (device_id r) (endpoint r) (source r) (port r) (local_ip r) (public_ip r) (priority r) (is_active r) (last_seen r) (latency_ms r) (reachable r) (last_probe_at r) (failure_count r) v (score r) (created_at r).
#[global] Instance set_DeviceEndpoint_score : SetField score := fun v r => mk (id r) (device_id r) (endpoint r) (source r) (port r) (local_ip r) (public_ip r) (priority r) (is_active r) (last_seen r) (latency_ms r) (reachable r) (last_probe_at r) (failure_count r) (success_count r) v (created_at r).
#[global] Instance set_DeviceEndpoint_created_at : SetField created_at := fun v r => mk (id r) (device_id r) (endpoint r) (source r) (port r) (local_ip r) (public_ip r) (priority r) (is_active r) (last_seen r) (latency_ms r) (reachable r) (last_probe_at r) (failure_count r) (success_count r) (score r) v.
End DeviceEndpoint.

(** [models/nat_session.py]: hole punching sessions *)
Module NATSession.
Record NATSession := mk {
  id : uuid;
  initiator_device_id : uuid;
  target_device_id : uuid;
  state : string;
  selected_candidate : option obj;
  connectivity_established : bool;
  extra_metadata : option obj;
  created_at : Z;
  updated_at : Z;
  expires_at : Z
}.
#[global] Instance set_NATSession_id : SetField id := fun v r => mk v (initiator_device_id r) (target_device_id r) (state r) (selected_candidate r) (connectivity_established r) (extra_metadata r) (created_at r) (updated_at r) (expires_at r).
#[global] Instance set_NATSession_initiator_device_id : SetField initiator_device_id := fun v r => mk (id r) v (target_device_id r) (state r) (selected_candidate r) (connectivity_established r) (extra_metadata r) (created_at r) (updated_at r) (expires_at r).
#[global] Instance set_NATSession_target_device_id : SetField target_device_id := fun v r => mk (id r) (initiator_device_id r) v (state r) (selected_candidate r) (connectivity_established r) (extra_metadata r) (created_at r) (updated_at r) (expires_at r).
#[global] Instance set_NATSession_state : SetField state := fun v r => mk (id r) (initiator_device_id r) (target_device_id r) v (selected_candidate r) (connectivity_established r) (extra_metadata r) (created_at r) (updated_at r) (expires_at r).
#[global] Instance set_NATSession_selected_candidate : SetField selected_candidate := fun v r => mk (id r) (initiator_device_id r) (target_device_id r) (state r) v (connectivity_established r) (extra_metadata r) (created_at r) (updated_at r) (expires_at r).
#[global] Instance set_NATSession_connectivity_established : SetField connectivity_established := fun v r => mk (id r) (initiator_device_id r) (target_device_id r) (state r) (selected_candidate r) v (extra_metadata r) (created_at r) (updated_at r) (expires_at r).
#[global] Instance set_NATSession_extra_metadata : SetField extra_metadata := fun v r => mk (id r) (initiator_device_id r) (target_device_id r) (state r) (selected_candidate r) (connectivity_established r) v (created_at r) (updated_at r) (expires_at r).
#[global] Instance set_NATSession_created_at : SetField created_at := fun v r => mk (id r) (initiator_device_id r) (target_device_id r) (state r) (selected_candidate r) (connectivity_established r) (extra_metadata r) v (updated_at r) (expires_at r).
#[global] Instance set_NATSession_updated_at : SetField updated_at := fun v r => mk (id r) (initiator_device_id r) (target_device_id r) (state r) (selected_candidate r) (connectivity_established r) (extra_metadata r) (created_at r) v (expires_at r).
#[global] Instance set_NATSession_expires_at : SetField expires_at := fun v r => mk (id r) (initiator_device_id r) (target_device_id r) (state r) (selected_candidate r) (connectivity_established r) (extra_metadata r) (created_at r) (updated_at r) v.
End NATSession.

(** [models/relay_session.py]: relay sessions *)
Module RelaySession.
Record RelaySession := mk {
  id : uuid;
  initiator_device_id : uuid;
  target_device_id : uuid;
  relay_region : string;
  relay_node : string;
  relay_token : string;
  state : string;
  bytes_tx : Z;
  bytes_rx : Z;
  connected_at : option Z;
  expires_at : option Z;
  created_at : Z;
  updated_at : Z
}.
#[global] Instance set_RelaySession_id : SetField id := fun v r => mk v (initiator_device_id r) (target_device_id r) (relay_region r) (relay_node r) (relay_token r) (state r) (bytes_tx r) (bytes_rx r) (connected_at r) (expires_at r) (created_at r) (updated_at r).
#[global] Instance set_RelaySession_initiator_device_id : SetField initiator_device_id := fun v r => mk (id r) v (target_device_id r) (relay_region r) (relay_node r) (relay_token r) (state r) (bytes_tx r) (bytes_rx r) (connected_at r) (expires_at r) (created_at r) (updated_at r).
#[global] Instance set_RelaySession_target_device_id : SetField target_device_id := fun v r => mk (id r) (initiator_device_id r) v (relay_region r) (relay_node r) (relay_token r) (state r) (bytes_tx r) (bytes_rx r) (connected_at r) (expires_at r) (created_at r) (updated_at r).
#[global] Instance set_RelaySession_relay_region : SetField relay_region := fun v r => mk (id r) (initiator_device_id r) (target_device_id r) v (relay_node r) (relay_token r) (state r) (bytes_tx r) (bytes_rx r) (connected_at r) (expires_at r) (created_at r) (updated_at r).
#[global] Instance set_RelaySession_relay_node : SetField relay_node := fun v r => mk (id r) (initiator_device_id r) (target_device_id r) (relay_region r) v (relay_token r) (state r) (bytes_tx r) (bytes_rx r) (connected_at r) (expires_at r) (created_at r) (updated_at r).
#[global] Instance set_RelaySession_relay_token : SetField relay_token := fun v r => mk (id r) (initiator_device_id r) (target_device_id r) (relay_region r) (relay_node r) v (state r) (bytes_tx r) (bytes_rx r) (connected_at r) (expires_at r) (created_at r) (updated_at r).
#[global] Instance set_RelaySession_state : SetField state := fun v r => mk (id r) (initiator_device_id r) (target_device_id r) (relay_region r) (relay_node r) (relay_token r) v (bytes_tx r) (bytes_rx r) (connected_at r) (expires_at r) (created_at r) (updated_at r).
#[global] Instance set_RelaySession_bytes_tx : SetField bytes_tx := fun v r => mk (id r) (initiator_device_id r) (target_device_id r) (relay_region r) (relay_node r) (relay_token r) (state r) v (bytes_rx r) (connected_at r) (expires_at r) (created_at r) (updated_at r).
#[global] Instance set_RelaySession_bytes_rx : SetField bytes_rx := fun v r => mk (id r) (initiator_device_id r) (target_device_id r) (relay_region r) (relay_node r) (relay_token r) (state r) (bytes_tx r) v (connected_at r) (expires_at r) (created_at r) (updated_at r).
#[global] Instance set_RelaySession_connected_at : SetField connected_at := fun v r => mk (id r) (initiator_device_id r) (target_device_id r) (relay_region r) (relay_node r) (relay_token r) (state r) (bytes_tx r) (bytes_rx r) v (expires_at r) (created_at r) (updated_at r).
#[global] Instance set_RelaySession_expires_at : SetField expires_at := fun v r => mk (id r) (initiator_device_id r) (target_device_id r) (relay_region r) (relay_node r) (relay_token r) (state r) (bytes_tx r) (bytes_rx r) (connected_at r) v (created_at r) (updated_at r).
#[global] Instance set_RelaySession_created_at : SetField created_at := fun v r => mk (id r) (initiator_device_id r) (target_device_id r) (relay_region r) (relay_node r) (relay_token r) (state r) (bytes_tx r) (bytes_rx r) (connected_at r) (expires_at r) v (updated_at r).
#[global] Instance set_RelaySession_updated_at : SetField updated_at := fun v r => mk (id r) (initiator_device_id r) (target_device_id r) (relay_region r) (relay_node r) (relay_token r) (state r) (bytes_tx r) (bytes_rx r) (connected_at r) (expires_at r) (created_at r) v.
End RelaySession.

(** [models/route.py]: advertised routes *)
Module AdvertisedRoute.
Record AdvertisedRoute := mk {
  id : uuid;
  device_id : uuid;
  network_id : uuid;
  prefix : string;
  enabled : bool;
  approved : bool;
  is_exit_node : bool;
  created_at : Z;
  updated_at : Z
}.
#[global] Instance set_AdvertisedRoute_id : SetField id := fun v r => mk v (device_id r) (network_id r) (prefix r) (enabled r) (approved r) (is_exit_node r) (created_at r) (updated_at r).
#[global] Instance set_AdvertisedRoute_device_id : SetField device_id := fun v r => mk (id r) v (network_id r) (prefix r) (enabled r) (approved r) (is_exit_node r) (created_at r) (updated_at r).
#[global] Instance set_AdvertisedRoute_network_id : SetField network_id := fun v r => mk (id r) (device_id r) v (prefix r) (enabled r) (approved r) (is_exit_node r) (created_at r) (updated_at r).
#[global] Instance set_AdvertisedRoute_prefix : SetField prefix := fun v r => mk (id r) (device_id r) (network_id r) v (enabled r) (approved r) (is_exit_node r) (created_at r) (updated_at r).
#[global] Instance set_AdvertisedRoute_enabled : SetField enabled := fun v r => mk (id r) (device_id r) (network_id r) (prefix r) v (approved r) (is_exit_node r) (created_at r) (updated_at r).
#[global] Instance set_AdvertisedRoute_approved : SetField approved := fun v r => mk (id r) (device_id r) (network_id r) (prefix r) (enabled r) v (is_exit_node r) (created_at r) (updated_at r).
#[global] Instance set_AdvertisedRoute_is_exit_node : SetField is_exit_node := fun v r => mk (id r) (device_id r) (network_id r) (prefix r) (enabled r) (approved r) v (created_at r) (updated_at r).
#[global] Instance set_AdvertisedRoute_created_at : SetField created_at := fun v r => mk (id r) (device_id r) (network_id r) (prefix r) (enabled r) (approved r) (is_exit_node r) v (updated_at r).
#[global] Instance set_AdvertisedRoute_updated_at : SetField updated_at := fun v r => mk (id r) (device_id r) (network_id r) (prefix r) (enabled r) (approved r) (is_exit_node r) (created_at r) v.
#[global] Instance AdvertisedRoute_eq_dec : EqDecision AdvertisedRoute.
Proof. solve_decision. Defined.
End AdvertisedRoute.

(** [models/preauth_key.py]: pre-authentication keys *)
Module PreAuthKey.
Record PreAuthKey := mk {
  id : uuid;
  key : string;
  network_id : uuid;
  reusable : bool;
  expires_at : Z;
  created_at : Z;
  used_by : option (list string)
}.
#[global] Instance set_PreAuthKey_id : SetField id := fun v r => mk v (key r) (network_id r) (reusable r) (expires_at r) (created_at r) (used_by r).
#[global] Instance set_PreAuthKey_key : SetField key := fun v r => mk (id r) v (network_id r) (reusable r) (expires_at r) (created_at r) (used_by r).
#[global] Instance set_PreAuthKey_network_id : SetField network_id := fun v r => mk (id r) (key r) v (reusable r) (expires_at r) (created_at r) (used_by r).
#[global] Instance set_PreAuthKey_reusable : SetField reusable := fun v r => mk (id r) (key r) (network_id r) v (expires_at r) (created_at r) (used_by r).
#[global] Instance set_PreAuthKey_expires_at : SetField expires_at := fun v r => mk (id r) (key r) (network_id r) (reusable r) v (created_at r) (used_by r).
#[global] Instance set_PreAuthKey_created_at : SetField created_at := fun v r => mk (id r) (key r) (network_id r) (reusable r) (expires_at r) v (used_by r).
#[global] Instance set_PreAuthKey_used_by : SetField used_by := fun v r => mk (id r) (key r) (network_id r) (reusable r) (expires_at r) (created_at r) v.
End PreAuthKey.

(** [models/acl.py]: access rules *)
Module ACLRule.
Record ACLRule := mk {
  id : uuid;
  network_id : uuid;
  src_tags : list string;
  dst_tags : list string;
  action : string;
  priority : Z;
  created_at : Z
}.
#[global] Instance set_ACLRule_id : SetField id := fun v r => mk v (network_id r) (src_tags r) (dst_tags r) (action r) (priority r) (created_at r).
#[global] Instance set_ACLRule_network_id : SetField network_id := fun v r => mk (id r) v (src_tags r) (dst_tags r) (action r) (priority r) (created_at r).
#[global] Instance set_ACLRule_src_tags : SetField src_tags := fun v r => mk (id r) (network_id r) v (dst_tags r) (action r) (priority r) (created_at r).
#[global] Instance set_ACLRule_dst_tags : SetField dst_tags := fun v r => mk (id r) (network_id r) (src_tags r) v (action r) (priority r) (created_at r).
#[global] Instance set_ACLRule_action : SetField action := fun v r => mk (id r) (network_id r) (src_tags r) (dst_tags r) v (priority r) (created_at r).
#[global] Instance set_ACLRule_priority : SetField priority := fun v r => mk (id r) (network_id r) (src_tags r) (dst_tags r) (action r) v (created_at r).
#[global] Instance set_ACLRule_created_at : SetField created_at := fun v r => mk (id r) (network_id r) (src_tags r) (dst_tags r) (action r) (priority r) v.
End ACLRule.

(** [models/dns.py]: DNS entries *)
Module DNSEntry.
Record DNSEntry := mk {
  id : uuid;
  network_id : uuid;
  domain : string;
  address : string;
  created_at : Z
}.
#[global] Instance set_DNSEntry_id : SetField id := fun v r => mk v (network_id r) (domain r) (address r) (created_at r).
#[global] Instance set_DNSEntry_network_id : SetField network_id := fun v r => mk (id r) v (domain r) (address r) (created_at r).
#[global] Instance set_DNSEntry_domain : SetField domain := fun v r => mk (id r) (network_id r) v (address r) (created_at r).
#[global] Instance set_DNSEntry_address : SetField address := fun v r => mk (id r) (network_id r) (domain r) v (created_at r).
#[global] Instance set_DNSEntry_created_at : SetField created_at := fun v r => mk (id r) (network_id r) (domain r) (address r) v.
End DNSEntry.

(** [models/audit.py]: the audit log *)
Module AuditLog.
Record AuditLog := mk {
  id : uuid;
  actor_id : option string;
  actor_type : string;
  action : string;
  target_type : string;
  target_id : option string;
  details : option obj;
  ip_address : option string;
  created_at : Z
}.
#[global] Instance set_AuditLog_id : SetField id := fun v r => mk v (actor_id r) (actor_type r) (action r) (target_type r) (target_id r) (details r) (ip_address r) (created_at r).
#[global] Instance set_AuditLog_actor_id : SetField actor_id := fun v r => mk (id r) v (actor_type r) (action r) (target_type r) (target_id r) (details r) (ip_address r) (created_at r).
#[global] Instance set_AuditLog_actor_type : SetField actor_type := fun v r => mk (id r) (actor_id r) v (action r) (target_type r) (target_id r) (details r) (ip_address r) (created_at r).
#[global] Instance set_AuditLog_action : SetField action := fun v r => mk (id r) (actor_id r) (actor_type r) v (target_type r) (target_id r) (details r) (ip_address r) (created_at r).
#[global] Instance set_AuditLog_target_type : SetField target_type := fun v r => mk (id r) (actor_id r) (actor_type r) (action r) v (target_id r) (details r) (ip_address r) (created_at r).
#[global] Instance set_AuditLog_target_id : SetField target_id := fun v r => mk (id r) (actor_id r) (actor_type r) (action r) (target_type r) v (details r) (ip_address r) (created_at r).
#[global] Instance set_AuditLog_details : SetField details := fun v r => mk (id r) (actor_id r) (actor_type r) (action r) (target_type r) (target_id r) v (ip_address r) (created_at r).
#[global] Instance set_AuditLog_ip_address : SetField ip_address := fun v r => mk (id r) (actor_id r) (actor_type r) (action r) (target_type r) (target_id r) (details r) v (created_at r).
#[global] Instance set_AuditLog_created_at : SetField created_at := fun v r => mk (id r) (actor_id r) (actor_type r) (action r) (target_type r) (target_id r) (details r) (ip_address r) v.
End AuditLog.
(** * The database: the rows of each table, in insertion order *)
Record DB := mkDB {
  users : list User.User;
  networks : list Network.Network;
  devices : list Device.Device;
  endpoints : list DeviceEndpoint.DeviceEndpoint;
  nat_sessions : list NATSession.NATSession;
  relay_sessions : list RelaySession.RelaySession;
  routes : list AdvertisedRoute.AdvertisedRoute;
  preauth_keys : list PreAuthKey.PreAuthKey;
  acl_rules : list ACLRule.ACLRule;
  dns_entries : list DNSEntry.DNSEntry;
  audit_logs : list AuditLog.AuditLog
}.
Definition empty_db : DB := mkDB [] [] [] [] [] [] [] [] [] [] [].
#[export] Instance set_DB_users : SetField users := fun v r => mkDB v (networks r) (devices r) (endpoints r) (nat_sessions r) (relay_sessions r) (routes r) (preauth_keys r) (acl_rules r) (dns_entries r) (audit_logs r).
#[export] Instance set_DB_networks : SetField networks := fun v r => mkDB (users r) v (devices r) (endpoints r) (nat_sessions r) (relay_sessions r) (routes r) (preauth_keys r) (acl_rules r) (dns_entries r) (audit_logs r).
#[export] Instance set_DB_devices : SetField devices := fun v r => mkDB (users r) (networks r) v (endpoints r) (nat_sessions r) (relay_sessions r) (routes r) (preauth_keys r) (acl_rules r) (dns_entries r) (audit_logs r).
#[export] Instance set_DB_endpoints : SetField endpoints := fun v r => mkDB (users r) (networks r) (devices r) v (nat_sessions r) (relay_sessions r) (routes r) (preauth_keys r) (acl_rules r) (dns_entries r) (audit_logs r).
#[export] Instance set_DB_nat_sessions : SetField nat_sessions := fun v r => mkDB (users r) (networks r) (devices r) (endpoints r) v (relay_sessions r) (routes r) (preauth_keys r) (acl_rules r) (dns_entries r) (audit_logs r).
#[export] Instance set_DB_relay_sessions : SetField relay_sessions := fun v r => mkDB (users r) (networks r) (devices r) (endpoints r) (nat_sessions r) v (routes r) (preauth_keys r) (acl_rules r) (dns_entries r) (audit_logs r).
#[export] Instance set_DB_routes : SetField routes := fun v r => mkDB (users r) (networks r) (devices r) (endpoints r) (nat_sessions r) (relay_sessions r) v (preauth_keys r) (acl_rules r) (dns_entries r) (audit_logs r).
#[export] Instance set_DB_preauth_keys : SetField preauth_keys := fun v r => mkDB (users r) (networks r) (devices r) (endpoints r) (nat_sessions r) (relay_sessions r) (routes r) v (acl_rules r) (dns_entries r) (audit_logs r).
#[export] Instance set_DB_acl_rules : SetField acl_rules := fun v r => mkDB (users r) (networks r) (devices r) (endpoints r) (nat_sessions r) (relay_sessions r) (routes r) (preauth_keys r) v (dns_entries r) (audit_logs r).
#[export] Instance set_DB_dns_entries : SetField dns_entries := fun v r => mkDB (users r) (networks r) (devices r) (endpoints r) (nat_sessions r) (relay_sessions r) (routes r) (preauth_keys r) (acl_rules r) v (audit_logs r).
#[export] Instance set_DB_audit_logs : SetField audit_logs := fun v r => mkDB (users r) (networks r) (devices r) (endpoints r) (nat_sessions r) (relay_sessions r) (routes r) (preauth_keys r) (acl_rules r) (dns_entries r) v.

(** A table of the database: where its rows are and what their primary key
    is. *)
Class Table (R : Type) := {
  rows : DB -> list R;
  set_rows : list R -> DB -> DB;
  row_id : R -> uuid;
  rows_set : forall l db, rows (set_rows l db) = l;
  set_rows_rows : forall db, set_rows (rows db) db = db;
  set_rows_set : forall l l' db, set_rows l (set_rows l' db) = set_rows l db
}.
#[export] Instance users_table : Table User.User.
Proof.
  refine {| rows := users; set_rows := fun l db => db <| users := l |>; row_id := User.id |};
    [done|by intros []|done].
Defined.
#[export] Instance networks_table : Table Network.Network.
Proof.
  refine {| rows := networks; set_rows := fun l db => db <| networks := l |>; row_id := Network.id |};
    [done|by intros []|done].
Defined.
#[export] Instance devices_table : Table Device.Device.
Proof.
  refine {| rows := devices; set_rows := fun l db => db <| devices := l |>; row_id := Device.id |};
    [done|by intros []|done].
Defined.
#[export] Instance endpoints_table : Table DeviceEndpoint.DeviceEndpoint.
Proof.
  refine {| rows := endpoints; set_rows := fun l db => db <| endpoints := l |>; row_id := DeviceEndpoint.id |};
    [done|by intros []|done].
Defined.
#[export] Instance nat_sessions_table : Table NATSession.NATSession.
Proof.
  refine {| rows := nat_sessions; set_rows := fun l db => db <| nat_sessions := l |>; row_id := NATSession.id |};
    [done|by intros []|done].
Defined.
#[export] Instance relay_sessions_table : Table RelaySession.RelaySession.
Proof.
  refine {| rows := relay_sessions; set_rows := fun l db => db <| relay_sessions := l |>; row_id := RelaySession.id |};
    [done|by intros []|done].
Defined.
#[export] Instance routes_table : Table AdvertisedRoute.AdvertisedRoute.
Proof.
  refine {| rows := routes; set_rows := fun l db => db <| routes := l |>; row_id := AdvertisedRoute.id |};
    [done|by intros []|done].
Defined.
#[export] Instance preauth_keys_table : Table PreAuthKey.PreAuthKey.
Proof.
  refine {| rows := preauth_keys; set_rows := fun l db => db <| preauth_keys := l |>; row_id := PreAuthKey.id |};
    [done|by intros []|done].
Defined.
#[export] Instance acl_rules_table : Table ACLRule.ACLRule.
Proof.
  refine {| rows := acl_rules; set_rows := fun l db => db <| acl_rules := l |>; row_id := ACLRule.id |};
    [done|by intros []|done].
Defined.
#[export] Instance dns_entries_table : Table DNSEntry.DNSEntry.
Proof.
  refine {| rows := dns_entries; set_rows := fun l db => db <| dns_entries := l |>; row_id := DNSEntry.id |};
    [done|by intros []|done].
Defined.
#[export] Instance audit_logs_table : Table AuditLog.AuditLog.
Proof.
  refine {| rows := audit_logs; set_rows := fun l db => db <| audit_logs := l |>; row_id := AuditLog.id |};
    [done|by intros []|done].
Defined.

(** Writing one table leaves the others alone. *)
Class OtherTable (R R' : Type) `{Table R, Table R'} : Prop :=
  rows_set_other : forall (l : list R) db, rows (R := R') (set_rows l db) = rows db.
#[export] Hint Extern 0 (OtherTable _ _) => (intros ? ?; reflexivity) : typeclass_instances.

(** * Settings, with the defaults of the class *)
Record Settings := mkSettings {
  debug : bool;
  access_token_expire_minutes : Z;
  refresh_token_expire_days : Z;
  wireguard_interface : string;
  wireguard_port : Z;
  wireguard_server_endpoint : string;
  wireguard_topology : string;
  setting_dns_enabled : bool;
  dns_domain : string;
  dns_zones_path : string;
  dns_coredns_reload_cmd : string;
  dns_default_ttl : Z;
  relay_host : string;
  relay_port : Z;
  rate_limit_enabled : bool;
  rate_limit_default_max : Z;
  rate_limit_default_window_seconds : Z;
  rate_limit_auth_max : Z;
  rate_limit_auth_window_seconds : Z;
  rate_limit_register_max : Z;
  rate_limit_register_window_seconds : Z;
  rate_limit_heartbeat_max : Z;
  rate_limit_heartbeat_window_seconds : Z;
  rate_limit_websocket_max : Z;
  rate_limit_websocket_window_seconds : Z;
  rate_limit_admin_max : Z;
  rate_limit_admin_window_seconds : Z;
  stale_device_days : Z
}.
Definition default_settings : Settings := {|
  debug := false;
  access_token_expire_minutes := 30;
  refresh_token_expire_days := 7;
  wireguard_interface := "wg0";
  wireguard_port := 51820;
  wireguard_server_endpoint := "";
  wireguard_topology := "star";
  setting_dns_enabled := false;
  dns_domain := "wg.midscale";
  dns_zones_path := "/etc/coredns/zones";
  dns_coredns_reload_cmd := "";
  dns_default_ttl := 300;
  relay_host := "0.0.0.0";
  relay_port := 8765;
  rate_limit_enabled := true;
  rate_limit_default_max := 120;
  rate_limit_default_window_seconds := 60;
  rate_limit_auth_max := 10;
  rate_limit_auth_window_seconds := 60;
  rate_limit_register_max := 20;
  rate_limit_register_window_seconds := 60;
  rate_limit_heartbeat_max := 60;
  rate_limit_heartbeat_window_seconds := 60;
  rate_limit_websocket_max := 30;
  rate_limit_websocket_window_seconds := 60;
  rate_limit_admin_max := 60;
  rate_limit_admin_window_seconds := 60;
  stale_device_days := 7
|}.

(** * Protocol constants *)
Definition CONFIG_V2_VERSION := "2".
Definition CONFIG_V2_SCHEMA_VERSION := "1".
Definition CONFIG_V2_MIN_DAEMON_VERSION := "0.1.0".
Definition TOPOLOGY_STAR := "star".
Definition TOPOLOGY_MESH := "mesh".
Definition TOPOLOGY_HYBRID := "hybrid".
Definition EVENT_PEER_SYNCED := "peer.synced".
Definition EVENT_PEER_ADDED := "peer.added".
Definition EVENT_PEER_REMOVED := "peer.removed".
Definition EVENT_DEVICE_ONLINE := "device.online".
Definition EVENT_DEVICE_OFFLINE := "device.offline".
Definition EVENT_DEVICE_ENROLLED := "device.enrolled".
Definition EVENT_DEVICE_REVOKED := "device.revoked".
Definition EVENT_DEVICE_HEARTBEAT := "device.heartbeat".
Definition EVENT_DNS_UPDATED := "dns.updated".
Definition EVENT_NETWORK_CREATED := "network.created".
Definition EVENT_NETWORK_CHANGED := "network.changed".
Definition EVENT_NETWORK_DELETED := "network.deleted".
Definition EVENT_CONFIG_CHANGED := "config.changed".
Definition EVENT_ENDPOINT_REPORTED := "endpoint.reported".
Definition EVENT_ENDPOINT_STALE := "endpoint.stale".
Definition EVENT_ENDPOINT_PROBE := "endpoint.probe".
Definition EVENT_ROUTE_CHANGED := "route.changed".
Definition EVENT_ACL_CHANGED := "acl.changed".
Definition EVENT_NAT_PUNCH_REQUESTED := "nat.punch_requested".
Definition EVENT_NAT_PUNCH_STARTED := "nat.punch_started".
Definition EVENT_NAT_PUNCH_SUCCEEDED := "nat.punch_succeeded".
Definition EVENT_NAT_PUNCH_FAILED := "nat.punch_failed".
Definition EVENT_NAT_CONNECTIVITY_VALIDATED := "nat.connectivity_validated".
Definition EVENT_RELAY_REQUESTED := "relay.requested".
Definition EVENT_RELAY_CONNECTED := "relay.connected".
Definition EVENT_RELAY_FAILED := "relay.failed".
Definition EVENT_RELAY_EXPIRED := "relay.expired".
Definition EVENT_RELAY_STATS_UPDATED := "relay.stats_updated".
Definition EVENT_RELAY_FALLBACK := "relay.fallback".
Definition EVENT_CHANNEL_PREFIX := "midscale:event".
