(* ===== verification/Effects.v ===== *)
(** What the services act on: the database session, the event bus and the
    metrics, with the calls of [backend/app/database.py],
    [services/event_bus.py], [services/metrics.py] and [services/audit.py].

    The environment ([Env]) gives what the code asks of the outside: the
    settings, the clock, random identifiers and tokens, the cryptographic
    library, and three documented behaviours of third-party classes that the
    code depends on.  Every reading of the environment takes the next tick, so
    two readings are independent. *)
From S2P Require Import Prelude PyStr Bytes Json RelayServer Models.
Local Open Scope string_scope.
Local Open Scope list_scope.
Local Open Scope Z_scope.

Class Env := {
  settings : Settings;
  (** [datetime.now(timezone.utc)] *)
  clock : nat -> Z;
  (** [uuid.uuid4()] *)
  uuid4 : nat -> uuid;
  (** [secrets.token_urlsafe(n)] *)
  token_urlsafe : nat -> Z -> string;
  (** passlib's bcrypt context: [hash] (salted) and [verify] *)
  pwd_hash : nat -> string -> string;
  pwd_verify : string -> string -> bool;
  (** [wg genkey] and [wg pubkey]: private and public key *)
  wg_keypair : nat -> string * string;
  (** [Fernet.encrypt] and [Fernet.decrypt] under the configured key *)
  fernet_encrypt : nat -> string -> string;
  fernet_decrypt : string -> outcome string;
  (** [jwt.encode], and [jwt.decode] with its errors as [None] *)
  jwt_encode : obj -> string;
  jwt_decode : string -> option obj;
  (** SQLAlchemy: is an in-place change of a plain JSON column written? *)
  orm_tracks_json : bool;
  (** prometheus_client: does a Counter have [dec]? *)
  counter_has_dec : bool;
  (** pydantic: does a model have [get]? *)
  model_has_get : bool;
  (** the order in which a Python set of strings is listed: Python draws the
      seed of its hashes when a process starts, so an [Env] is one process *)
  set_order : list string -> list string
}.

(** * Metrics *)
Inductive metric :=
  | CONTROLLER_RUNS (interface : string)
  | CONTROLLER_PEERS_ADDED (interface : string)
  | CONTROLLER_PEERS_REMOVED (interface : string)
  | CONTROLLER_ERRORS (interface : string)
  | WS_CONNECTIONS
  | WS_MESSAGES_SENT
  | EVENTS_PUBLISHED (event_type : string)
  | DNS_ZONES_MANAGED
  | DEVICES_TOTAL
  | DEVICES_ONLINE
  | AUDIT_EVENTS (action : string)
  | ROUTES_TOTAL
  | ROUTES_APPROVED
  | EXIT_NODES_TOTAL
  | DEVICE_ENROLLMENT (result : string)
  | DAEMON_AUTH_FAILURES (reason : string)
  | RATE_LIMIT_BLOCKED (limiter path : string)
  | ENDPOINT_PROBE_TOTAL (result : string)
  | ENDPOINT_REACHABLE
  | ENDPOINT_SCORE_UPDATES
  | NAT_PUNCH_TOTAL (result : string)
  | NAT_CONNECTIVITY_TOTAL (result : string)
  | NAT_SESSION_ACTIVE
  | RELAY_SESSIONS_TOTAL (state : string)
  | RELAY_CONNECTIONS_ACTIVE
  | RELAY_FALLBACK_TOTAL.
#[export] Instance metric_eq_dec : EqDecision metric.
Proof. solve_decision. Defined.

Definition is_gauge (m : metric) : bool :=
  match m with
  | WS_CONNECTIONS | DNS_ZONES_MANAGED | DEVICES_TOTAL | DEVICES_ONLINE | ENDPOINT_REACHABLE
  | NAT_SESSION_ACTIVE | RELAY_CONNECTIONS_ACTIVE => true
  | _ => false
  end.

(** * Events *)
Record Event := mkEvent {
  event_type : string;
  event_data : obj;
  event_id : string;
  event_created_at : string
}.
Definition event_channel (event_type : string) : string := EVENT_CHANNEL_PREFIX +:+ ":" +:+ event_type.
Definition wildcard_channel : string := EVENT_CHANNEL_PREFIX +:+ ":*".
Definition event_to_dict (e : Event) : obj :=
  [("id", JStr (event_id e)); ("type", JStr (event_type e));
   ("created_at", JStr (event_created_at e)); ("data", JObj (event_data e))].

(** [ConfigChangedPayload.to_dict]: empty members are left out. *)
Definition config_changed_payload (device_id : option string) (network_id : string)
    (revision hash : option string) (reason timestamp : string) : obj :=
  [("network_id", JStr network_id); ("reason", JStr reason); ("timestamp", JStr timestamp)]
  ++ (if opt_truthy device_id then [("device_id", jstr_opt device_id)] else [])
  ++ (if opt_truthy revision then [("revision", jstr_opt revision)] else [])
  ++ (if opt_truthy hash then [("hash", jstr_opt hash)] else []).

(** * The world *)
Record World := mkWorld {
  w_tick : nat;
  w_db : DB;                     (* what the session sees *)
  w_committed : DB;              (* what the last commit left *)
  w_events : list Event;         (* published, oldest first *)
  w_metrics : metric -> Z;
  w_relay : option RelayServer   (* [get_relay_server()] *)
}.
#[export] Instance set_w_tick : SetField w_tick :=
  fun v w => mkWorld v (w_db w) (w_committed w) (w_events w) (w_metrics w) (w_relay w).
#[export] Instance set_w_db : SetField w_db :=
  fun v w => mkWorld (w_tick w) v (w_committed w) (w_events w) (w_metrics w) (w_relay w).
#[export] Instance set_w_committed : SetField w_committed :=
  fun v w => mkWorld (w_tick w) (w_db w) v (w_events w) (w_metrics w) (w_relay w).
#[export] Instance set_w_events : SetField w_events :=
  fun v w => mkWorld (w_tick w) (w_db w) (w_committed w) v (w_metrics w) (w_relay w).
#[export] Instance set_w_metrics : SetField w_metrics :=
  fun v w => mkWorld (w_tick w) (w_db w) (w_committed w) (w_events w) v (w_relay w).
#[export] Instance set_w_relay : SetField w_relay :=
  fun v w => mkWorld (w_tick w) (w_db w) (w_committed w) (w_events w) (w_metrics w) v.
Definition world_of (db : DB) : World := mkWorld 0 db db [] (fun _ => 0) None.

Definition IO : Type -> Type := M World.

Section Calls.
  Context `{Env}.

(** Each reading of the environment takes a tick. *)
Definition tick {A} (f : nat -> A) : IO A := fun w => (Ok (f (w_tick w)), w <| w_tick := S (w_tick w) |>).
Definition now : IO Z := tick clock.
Definition new_uuid : IO uuid := tick uuid4.

(** ** [prometheus_client] *)
Definition add_metric (m : metric) (n : Z) (f : metric -> Z) : metric -> Z :=
  fun m' => if decide (m' = m) then f m' + n else f m'.
Definition inc_by (m : metric) (n : Z) : IO unit :=
  modify (fun w => w <| w_metrics := add_metric m n (w_metrics w) |>).
Definition inc (m : metric) : IO unit := inc_by m 1.
Definition dec_by (m : metric) (n : Z) : IO unit :=
  if is_gauge m || counter_has_dec then inc_by m (- n) else raise (AttributeError "dec").
Definition dec (m : metric) : IO unit := dec_by m 1.
Definition set_metric (m : metric) (n : Z) : IO unit :=
  modify (fun w => w <| w_metrics := (fun m' => if decide (m' = m) then n else w_metrics w m') |>).

(** ** [EventBus.publish] of a fresh [Event]: counted, then delivered; what
    a delivery raises is logged and dropped *)
Definition publish (type : string) (data : obj) : IO unit :=
  id ← new_uuid;
  t ← now;
  inc (EVENTS_PUBLISHED type);;
  modify (fun w => w <| w_events := w_events w ++ [mkEvent type data id (isoformat t)] |>).

(** ** The session *)
Section Tables.
  Context {R : Type} `{Table R}.

Definition select_where (p : R -> bool) : IO (list R) := gets (fun w => List.filter p (rows (w_db w))).
(** [result.scalar_one_or_none()] *)
Definition select_one (p : R -> bool) : IO (option R) :=
  rs ← select_where p; lift (scalar_one_or_none rs).
Definition by_id (i : uuid) (r : R) : bool := String.eqb (row_id r) i.
Definition on_rows (f : list R -> list R) (w : World) : World :=
  w <| w_db := set_rows (f (rows (w_db w))) (w_db w) |>.
(** [session.add(row)] *)
Definition add_row (r : R) : IO unit := modify (on_rows (fun l => l ++ [r])).
(** An assignment to attributes of the object whose key is [i]. *)
Definition update_row (i : uuid) (f : R -> R) : IO unit := modify (on_rows (update_where (by_id i) f)).
(** [session.delete(row)] *)
Definition delete_row (i : uuid) : IO unit := modify (on_rows (List.filter (fun r => negb (by_id i r)))).
(** The attributes of an object already loaded, as they are now. *)
Definition reload (i : uuid) : IO R :=
  r ← gets (fun w => List.find (by_id i) (rows (w_db w)));
  match r with Some x => mret x | None => raise NoResultFound end.
End Tables.

Definition commit : IO unit := modify (fun w => w <| w_committed := w_db w |>).
Definition rollback : IO unit := modify (fun w => w <| w_db := w_committed w |>).

(** [get_session]: a request that returns is committed, one that raises is
    rolled back. *)
Definition with_session {A} (m : IO A) : IO A :=
  try_except (a ← m; commit;; mret a) (fun e => rollback;; raise e).

(** ** [AuditLogger.log] *)
Definition audit (action actor_type : string) (actor_id : option string) (target_type : string)
    (target_id : option string) (details : obj) (ip_address : option string) : IO unit :=
  t ← now;
  id ← new_uuid;
  add_row (AuditLog.mk id actor_id actor_type action target_type target_id (Some details) ip_address t);;
  inc (AUDIT_EVENTS action).

(** The foreign key of a row to a device, checked by the flush. *)
Definition fk_device (i : uuid) : IO unit :=
  ds ← select_where (by_id (R := Device.Device) i);
  match ds with [] => raise IntegrityError | _ => mret tt end.

(** A change of an object whose [updated_at] column has an [onupdate]: the
    flush sets it when some column has changed. *)
Definition flush_row {R} `{Table R, EqDecision R} (touch : Z -> R -> R) (i : uuid) (f : R -> R) : IO unit :=
  t ← now;
  update_row i (fun r => if decide (f r = r) then r else touch t (f r)).
Definition flush_device (i : uuid) (f : Device.Device -> Device.Device) : IO unit :=
  flush_row (fun t d => d <| Device.updated_at := t |>) i f.
End Calls.

(** * How the calls act on the database *)

(** [keeps_table R] frames: table [R] of the session view is as it was. *)
Definition keeps_db (w w' : World) : Prop := w_db w' = w_db w.
#[export] Instance keeps_db_preorder : PreOrder keeps_db.
Proof. unfold keeps_db. split; [by intros w|]. intros w1 w2 w3. congruence. Qed.
Definition keeps_metric (m : metric) (w w' : World) : Prop := w_metrics w' m = w_metrics w m.
#[export] Instance keeps_metric_preorder m : PreOrder (keeps_metric m).
Proof. unfold keeps_metric. split; [by intros w|]. intros w1 w2 w3. congruence. Qed.

Section Frames.
Context `{Env}.

#[export] Instance keeps_db_tick {A} (f : nat -> A) : Frame keeps_db (tick f).
Proof. by intros w. Qed.
#[export] Instance keeps_db_inc m n : Frame keeps_db (inc_by m n).
Proof. by intros w. Qed.
#[export] Instance keeps_db_publish t d : Frame keeps_db (publish t d).
Proof. by intros w. Qed.
#[export] Instance keeps_db_commit : Frame keeps_db commit.
Proof. by intros w. Qed.
#[export] Instance keeps_db_dec m n : Frame keeps_db (dec_by m n).
Proof. unfold dec_by. apply _. Qed.
End Frames.

(** * Rows and their keys *)
Section RowLemmas.
Context `{Env} {R : Type} `{Table R}.

Definition ids (l : list R) : list uuid := row_id <$> l.
(** The primary key of the table. *)
Definition keyed (w : World) : Prop := NoDup (ids (rows (w_db w))).

Lemma by_id_true i (r : R) : by_id i r = true <-> row_id r = i.
Proof. unfold by_id. apply String.eqb_eq. Qed.
Lemma by_id_false i (r : R) : by_id i r = false <-> row_id r <> i.
Proof. unfold by_id. apply String.eqb_neq. Qed.

Lemma ids_update i f (l : list R) :
  (forall r, row_id (f r) = row_id r) -> ids (update_where (by_id i) f l) = ids l.
Proof.
  intros Hf. unfold ids, update_where. rewrite <-list_fmap_compose.
  apply list_fmap_ext. intros j r _. simpl. by destruct (by_id i r).
Qed.

Lemma keyed_eq (l : list R) r r' :
  NoDup (ids l) -> r ∈ l -> r' ∈ l -> row_id r = row_id r' -> r = r'.
Proof.
  intros Hnd Hr Hr' Heq. apply list_elem_of_lookup in Hr as [i Hi], Hr' as [j Hj].
  enough (i = j) by congruence. eapply (NoDup_lookup (ids l)); [done| |]; unfold ids.
  - by rewrite list_lookup_fmap, Hi.
  - rewrite list_lookup_fmap, Hj. cbn. by rewrite Heq.
Qed.

Lemma find_by_id (l : list R) r :
  NoDup (ids l) -> r ∈ l -> List.find (by_id (row_id r)) l = Some r.
Proof.
  intros Hnd Hr. destruct (List.find _ l) as [r'|] eqn:E.
  - apply find_some in E as [Hin Hid]. apply by_id_true in Hid.
    apply list_elem_of_In in Hin. f_equal. by eapply keyed_eq.
  - exfalso. apply list_elem_of_In in Hr. apply (find_none _ _ E) in Hr.
    by apply by_id_false in Hr.
Qed.

Lemma find_updated (l : list R) r f :
  NoDup (ids l) -> r ∈ l -> (forall r, row_id (f r) = row_id r) ->
  List.find (by_id (row_id r)) (update_where (by_id (row_id r)) f l) = Some (f r).
Proof.
  intros Hnd Hr Hf. rewrite <-(Hf r) at 1. apply find_by_id.
  - by rewrite ids_update.
  - apply elem_of_update_where. left. exists r. split_and!; [done| |done]. by apply by_id_true.
Qed.

(** How many rows pass a test, after one row changed. *)
Lemma count_update (q : R -> bool) (l : list R) r f :
  NoDup (ids l) -> r ∈ l ->
  (Z.of_nat (length (List.filter q (update_where (by_id (row_id r)) f l))) =
   Z.of_nat (length (List.filter q l)) - Z.b2z (q r) + Z.b2z (q (f r)))%Z.
Proof.
  induction l as [|a l IH]; [set_solver|]. unfold ids. cbn [fmap list_fmap].
  intros [Hna Hnd]%NoDup_cons Hr. cbn [update_where fmap list_fmap].
  apply elem_of_cons in Hr as [->|Hr].
  - fold (update_where (by_id (row_id a)) f l).
    rewrite (update_where_id (by_id (row_id a)) f l).
    + rewrite (proj2 (by_id_true _ a) eq_refl). cbn [List.filter].
      destruct (q a), (q (f a)); cbn [length Z.b2z]; lia.
    + intros x Hx [=Hid%by_id_true]. exfalso. apply Hna. rewrite <-Hid. by apply list_elem_of_fmap_2.
  - fold (update_where (by_id (row_id r)) f l). rewrite (proj2 (by_id_false _ a)).
    2:{ intros Heq. apply Hna. rewrite Heq. by apply list_elem_of_fmap_2. }
    specialize (IH Hnd Hr). cbn [List.filter]. destruct (q a); cbn [length]; lia.
Qed.

(** The loop "for each row that passes [p], change it" changes exactly the
    rows that pass. *)
Lemma for_each_update (xs : list R) (f : R -> R) w :
  (forall r, row_id (f r) = row_id r) ->
  NoDup (ids xs) -> (forall x, x ∈ xs -> x ∈ rows (w_db w)) -> keyed w ->
  for_each xs (fun x => update_row (row_id x) f) w =
  (Ok tt, on_rows (update_where (fun r => bool_decide (row_id r ∈ ids xs)) f) w).
Proof.
  intros Hf. revert w. induction xs as [|x xs IH]; intros w Hnd Hin Hk.
  - cbn. f_equal. unfold on_rows. rewrite update_where_id.
    + rewrite set_rows_rows. by destruct w.
    + intros r _ Hr. apply bool_decide_eq_true in Hr. by apply elem_of_nil in Hr.
  - cbn [for_each]. unfold mbind, M_bind, update_row at 1, modify.
    unfold ids in Hnd. rewrite fmap_cons in Hnd. apply NoDup_cons in Hnd as [Hx Hnd].
    fold (ids xs) in Hx, Hnd. assert (rows (w_db (on_rows (update_where (by_id (row_id x)) f) w)) =
            update_where (by_id (row_id x)) f (rows (w_db w))) as Hrows by (cbn; apply rows_set).
    rewrite IH; [|done| |].
    + f_equal. unfold on_rows at 1. rewrite Hrows. unfold on_rows. cbn.
      unfold set_field, set_w_db. cbn. f_equal.
      assert (forall l l' db, set_rows l (set_rows l' db) = set_rows l db) as Hss by apply set_rows_set.
      rewrite Hss. f_equal. unfold update_where. rewrite <-list_fmap_compose.
      apply list_fmap_ext. intros i r _. cbn. destruct (by_id (row_id x) r) eqn:E.
      * apply by_id_true in E. rewrite Hf, E.
        rewrite (bool_decide_eq_false_2 _ Hx). rewrite bool_decide_eq_true_2; [done|]. left.
      * apply by_id_false in E.
        rewrite (bool_decide_ext (row_id r ∈ ids xs) (row_id r ∈ ids (x :: xs))); [done|].
        unfold ids. rewrite fmap_cons, elem_of_cons. tauto.
    + intros y Hy. rewrite Hrows. apply elem_of_update_where. right. split; [by apply Hin; right|].
      apply by_id_false. intros Heq. apply Hx. rewrite <-Heq. by apply list_elem_of_fmap_2.
    + unfold keyed. rewrite Hrows, ids_update by done. done.
Qed.

Lemma NoDup_ids_filter p (l : list R) : NoDup (ids l) -> NoDup (ids (List.filter p l)).
Proof.
  unfold ids. induction l as [|a l IH]; [done|]. cbn [List.filter]. rewrite fmap_cons.
  intros [Hn Hnd]%NoDup_cons. specialize (IH Hnd). destruct (p a); [|done].
  rewrite fmap_cons. apply NoDup_cons. split; [|done].
  intros (x & Hx & [_ Hin]%elem_of_filter_list)%list_elem_of_fmap.
  apply Hn, list_elem_of_fmap. eauto.
Qed.

Lemma sweep_update (p : R -> bool) (f : R -> R) w :
  (forall r, row_id (f r) = row_id r) -> keyed w ->
  for_each (List.filter p (rows (w_db w))) (fun x => update_row (row_id x) f) w =
  (Ok tt, on_rows (update_where p f) w).
Proof.
  intros Hf Hk. rewrite for_each_update; [|done|by apply NoDup_ids_filter| |done].
  2:{ by intros x [_ ?]%elem_of_filter_list. }
  unfold on_rows. match goal with |- context [update_where ?q f ?l] =>
    assert (update_where q f l = update_where p f l) as ->; [|done] end.
  unfold update_where. apply list_fmap_ext. intros j r Hj.
  apply list_elem_of_lookup_2 in Hj.
  rewrite (bool_decide_ext _ (p r = true)); [by destruct (p r)|].
  unfold ids. rewrite list_elem_of_fmap. split.
  - intros (x & Hx & [Hst Hin]%elem_of_filter_list). by rewrite (keyed_eq (rows (w_db w)) r x).
  - intros Hst. exists r. split; [done|]. by apply elem_of_filter_list.
Qed.
End RowLemmas.

(** * Running calls *)
Definition committed (w : World) : World := w <| w_committed := w_db w |>.
Definition ticked (w : World) : World := w <| w_tick := S (w_tick w) |>.
Definition metered (m : metric) (n : Z) (w : World) : World :=
  w <| w_metrics := add_metric m n (w_metrics w) |>.

Lemma metered_same m n w : w_metrics (metered m n w) m = w_metrics w m + n.
Proof. cbn. unfold add_metric. by rewrite decide_True. Qed.
Lemma metered_other m m' n w : m' <> m -> w_metrics (metered m n w) m' = w_metrics w m'.
Proof. intros. cbn. unfold add_metric. by rewrite decide_False. Qed.
Lemma metrics_committed w : w_metrics (committed w) = w_metrics w.
Proof. done. Qed.
Lemma metrics_ticked w : w_metrics (ticked w) = w_metrics w.
Proof. done. Qed.
Lemma metrics_on_rows `{Table R} f w : w_metrics (on_rows (R := R) f w) = w_metrics w.
Proof. done. Qed.
(** Reads a metric off the result of a run. *)
Ltac metrics := rewrite ?metered_same, ?metered_other, ?metrics_committed, ?metrics_on_rows,
  ?metrics_ticked by done.

Section Runs.
Context `{Env}.

Lemma run_bind {A B} (m : IO A) (k : A -> IO B) w :
  (m ≫= k) w = match m w with (Ok a, w') => k a w' | (Raise e, w') => (Raise e, w') end.
Proof. reflexivity. Qed.
Lemma ret_inv {A} (a b : A) (w w' : World) : (mret a : IO A) w = (Ok b, w') -> a = b /\ w = w'.
Proof. intros [= <- <-]. done. Qed.
Lemma run_select `{Table R} {B} p (k : list R -> IO B) w :
  (select_where p ≫= k) w = k (List.filter p (rows (w_db w))) w.
Proof. reflexivity. Qed.
Lemma run_ret {A B} (a : A) (k : A -> IO B) w : (mret a ≫= k) w = k a w.
Proof. reflexivity. Qed.
Lemma run_lift {A B} (o : outcome A) a (k : A -> IO B) w : o = Ok a -> (lift o ≫= k) w = k a w.
Proof. by intros ->. Qed.
Lemma run_modify {B} f (k : unit -> IO B) w : (modify f ≫= k) w = k tt (f w).
Proof. reflexivity. Qed.
Lemma run_tick {A B} (f : nat -> A) (k : A -> IO B) w :
  (tick f ≫= k) w = k (f (w_tick w)) (ticked w).
Proof. reflexivity. Qed.
Lemma run_now {B} (k : Z -> IO B) w : (now ≫= k) w = k (clock (w_tick w)) (ticked w).
Proof. reflexivity. Qed.
Lemma run_uuid {B} (k : uuid -> IO B) w : (new_uuid ≫= k) w = k (uuid4 (w_tick w)) (ticked w).
Proof. reflexivity. Qed.
Lemma run_inc {B} m (k : unit -> IO B) w : (inc m ≫= k) w = k tt (metered m 1 w).
Proof. reflexivity. Qed.
Lemma run_inc_by {B} m n (k : unit -> IO B) w : (inc_by m n ≫= k) w = k tt (metered m n w).
Proof. reflexivity. Qed.
Lemma run_commit {B} (k : unit -> IO B) w : (commit ≫= k) w = k tt (committed w).
Proof. reflexivity. Qed.
Lemma run_when {B} b (m : IO unit) (k : unit -> IO B) w :
  (when b m ≫= k) w = if b then (m ≫= k) w else k tt w.
Proof. by destruct b. Qed.
Lemma run_dec_gauge {B} m n (k : unit -> IO B) w :
  is_gauge m = true -> (dec_by m n ≫= k) w = k tt (metered m (- n) w).
Proof. intros Hg. unfold dec_by. by rewrite Hg. Qed.

(** Publishing changes the clock, the event log and the event counters. *)
Definition quiet (w w' : World) : Prop :=
  w_db w' = w_db w /\ w_committed w' = w_committed w /\ w_relay w' = w_relay w /\
  (w_tick w <= w_tick w')%nat /\
  (forall m, (forall t, m <> EVENTS_PUBLISHED t) -> w_metrics w' m = w_metrics w m).
#[export] Instance quiet_preorder : PreOrder quiet.
Proof.
  unfold quiet. split; [intros w; split_and!; done|].
  intros w1 w2 w3 (?&?&?&?&Ha) (?&?&?&?&Hb). split_and!; try congruence; [lia|].
  intros m Hm. rewrite Hb, Ha; done.
Qed.
Lemma quiet_ticked w : quiet w (ticked w).
Proof. split_and!; cbn; try done. lia. Qed.
Lemma publish_quiet t d w : exists w', publish t d w = (Ok tt, w') /\ quiet w w'.
Proof.
  unfold publish. rewrite run_uuid, run_now, run_inc. eexists. split; [done|].
  split_and!; cbn; try done; [lia|]. intros m Hm. unfold add_metric. case_decide; [|done].
  by edestruct Hm.
Qed.
Lemma when_publish {A} b t d (x : A) w :
  exists w', (when b (publish t d);; mret x) w = (Ok x, w') /\ quiet w w'.
Proof.
  rewrite run_when. destruct b; [|by exists w].
  destruct (publish_quiet t d w) as (w' & Hp & Hq). exists w'. split; [|done].
  by rewrite run_bind, Hp.
Qed.

Section RowRuns.
Context {R : Type} `{Table R}.

Lemma select_one_keyed (p : R -> bool) i w :
  keyed (R := R) w -> (forall r, p r = true -> row_id r = i) ->
  exists o, select_one p w = (Ok o, w) /\
    match o with
    | Some r => p r = true /\ r ∈ rows (w_db w)
    | None => forall r, r ∈ rows (w_db w) -> p r = false
    end.
Proof.
  intros Hk Hp. unfold select_one, select_where. rewrite run_bind. cbn. unfold lift.
  destruct (List.filter p (rows (w_db w))) as [|r [|r' l]] eqn:E.
  - exists None. split; [done|]. intros r Hr. destruct (p r) eqn:Er; [|done].
    assert (r ∈ List.filter p (rows (w_db w))) by by apply elem_of_filter_list.
    rewrite E in *. set_solver.
  - exists (Some r). split; [done|]. apply elem_of_filter_list. rewrite E. left.
  - exfalso. assert (NoDup (r :: r' :: l)) as Hnd.
    { rewrite <-E. apply NoDup_ListNoDup, List.NoDup_filter, NoDup_ListNoDup.
      by eapply NoDup_fmap_1. }
    assert (r ∈ List.filter p (rows (w_db w))) as [Hr1 Hr2]%elem_of_filter_list by (rewrite E; left).
    assert (r' ∈ List.filter p (rows (w_db w))) as [Hr1' Hr2']%elem_of_filter_list
      by (rewrite E; right; left).
    assert (r = r') as -> by (eapply keyed_eq; [done..|]; by rewrite (Hp r), (Hp r')).
    apply NoDup_cons in Hnd as [Hnin _]. set_solver.
Qed.

Lemma update_commit_reload {B} (k : R -> IO B) w r f :
  keyed w -> r ∈ rows (w_db w) -> (forall r, row_id (f r) = row_id r) ->
  (update_row (row_id r) f;; commit;; r' ← reload (row_id r); k r') w =
  k (f r) (committed (on_rows (update_where (by_id (row_id r)) f) w)).
Proof.
  intros Hk Hr Hf. unfold update_row. rewrite run_bind. cbn. rewrite run_bind. cbn.
  rewrite run_bind. unfold reload. rewrite run_bind. cbn. rewrite rows_set.
  by rewrite find_updated.
Qed.

Lemma add_commit_reload {B} (k : R -> IO B) w r i :
  keyed w -> row_id r = i -> i ∉ ids (rows (w_db w)) ->
  (add_row r;; commit;; r' ← reload i; k r') w =
  k r (committed (on_rows (fun l => l ++ [r]) w)).
Proof.
  intros Hk <- Hr. unfold add_row. rewrite run_bind. cbn. rewrite run_bind. cbn.
  rewrite run_bind. unfold reload. rewrite run_bind. cbn. rewrite rows_set.
  rewrite find_by_id; [done| |set_solver].
  unfold ids. rewrite fmap_app. apply NoDup_app. split_and!; [done| |apply NoDup_singleton].
  intros i Hi Hin%list_elem_of_singleton. by subst.
Qed.
End RowRuns.
End Runs.

(** * Frames of the calls

    A preorder on worlds that only looks at one table, or that a change of
    the other parts of the world respects, is carried through a handler by
    these instances. *)
Lemma for_each_when {S A} (p : A -> bool) (f : A -> M S unit) xs s :
  for_each xs (fun x => when (p x) (f x)) s = for_each (List.filter p xs) f s.
Proof.
  revert s. induction xs as [|x xs IH]; intros s; [done|]. cbn [for_each List.filter].
  destruct (p x); cbn [when for_each]; unfold mbind, M_bind.
  - destruct (f x s) as [[[]|e] s']; [apply IH|done].
  - apply IH.
Qed.

Lemma select_one_inv `{Table R} (p : R -> bool) w o w' :
  select_one p w = (Ok o, w') ->
  w' = w /\ match o with
            | Some r => p r = true /\ r ∈ rows (w_db w)
            | None => forall r, r ∈ rows (w_db w) -> p r = false
            end.
Proof.
  unfold select_one, select_where, lift, gets, mbind, M_bind. intros Hrun.
  destruct (List.filter p (rows (w_db w))) as [|r [|r' l]] eqn:E; simplify_eq/=.
  - split; [done|]. intros r Hr. destruct (p r) eqn:Er; [|done].
    assert (r ∈ List.filter p (rows (w_db w'))) by by apply elem_of_filter_list.
    rewrite E in *. set_solver.
  - split; [done|]. apply elem_of_filter_list. rewrite E. left.
Qed.

Lemma select_one_unique `{Table R} (p : R -> bool) w r :
  keyed (R := R) w -> r ∈ rows (w_db w) -> p r = true ->
  (forall r', r' ∈ rows (w_db w) -> p r' = true -> r' = r) ->
  select_one p w = (Ok (Some r), w).
Proof.
  intros Hk Hr Hp Huniq. unfold select_one, select_where, lift, gets, mbind, M_bind.
  assert (forall x, x ∈ List.filter p (rows (w_db w)) <-> x = r) as Hf.
  { intros x. rewrite elem_of_filter_list. split; [intros [??]; by apply Huniq|by intros ->]. }
  assert (NoDup (List.filter p (rows (w_db w)))) as Hnd.
  { apply NoDup_ListNoDup, List.NoDup_filter, NoDup_ListNoDup. by eapply NoDup_fmap_1. }
  destruct (List.filter p (rows (w_db w))) as [|x [|y l]].
  - exfalso. by apply (not_elem_of_nil r), Hf.
  - assert (x = r) as -> by (apply Hf; left). done.
  - exfalso. assert (x = r) as -> by (apply Hf; left). assert (y = r) as -> by (apply Hf; right; left).
    apply NoDup_cons in Hnd as [Hn _]. apply Hn. left.
Qed.
Lemma select_by_id `{Table R} w (r : R) :
  keyed (R := R) w -> r ∈ rows (w_db w) -> select_one (by_id (row_id r)) w = (Ok (Some r), w).
Proof.
  intros Hk Hr. apply select_one_unique; [done|done|by apply by_id_true|].
  intros r' Hr' Hid%by_id_true. by eapply keyed_eq.
Qed.
(** Two rows that pass: the query raises. *)
Lemma select_one_multiple `{Table R} (p : R -> bool) w r r' :
  r ∈ rows (w_db w) -> r' ∈ rows (w_db w) -> p r = true -> p r' = true -> r <> r' ->
  select_one p w = (Raise MultipleResultsFound, w).
Proof.
  intros Hr Hr' Hp Hp' Hne. unfold select_one, select_where, lift, gets, mbind, M_bind.
  assert (r ∈ List.filter p (rows (w_db w))) as H1 by by apply elem_of_filter_list.
  assert (r' ∈ List.filter p (rows (w_db w))) as H2 by by apply elem_of_filter_list.
  destruct (List.filter p (rows (w_db w))) as [|x [|y l]]; [set_solver| |done].
  apply list_elem_of_singleton in H1, H2. congruence.
Qed.

(** Respecting every change that leaves the rows of table [R] alone. *)
Class TableRel (R : Type) `{Table R} (rel : relation World) : Prop :=
  table_rel : forall w w', rows (R := R) (w_db w') = rows (w_db w) -> rel w w'.

Section TableFrames.
Context `{Env} {R : Type} `{Table R} (rel : relation World) `{!TableRel R rel}.

#[export] Instance table_tick {A} (f : nat -> A) : Frame rel (tick f).
Proof. intros w. by apply table_rel. Qed.
#[export] Instance table_inc m n : Frame rel (inc_by m n).
Proof. intros w. by apply table_rel. Qed.
#[export] Instance table_set_metric m n : Frame rel (set_metric m n).
Proof. intros w. by apply table_rel. Qed.
#[export] Instance table_dec m n : Frame rel (dec_by m n).
Proof. intros w. apply table_rel. unfold dec_by. by destruct (_ || _). Qed.
#[export] Instance table_publish t d : Frame rel (publish t d).
Proof. intros w. by apply table_rel. Qed.
#[export] Instance table_commit : Frame rel commit.
Proof. intros w. by apply table_rel. Qed.
#[export] Instance table_select `{Table R'} (p : R' -> bool) : Frame rel (select_where p).
Proof. intros w. by apply table_rel. Qed.
#[export] Instance table_select_one `{Table R'} (p : R' -> bool) : Frame rel (select_one p).
Proof.
  intros w. apply table_rel. unfold select_one, select_where, mbind, M_bind, gets, lift.
  by destruct (scalar_one_or_none _).
Qed.
#[export] Instance table_reload `{Table R'} i : Frame rel (reload (R := R') i).
Proof.
  intros w. apply table_rel. unfold reload, mbind, M_bind, gets. by destruct (List.find _ _).
Qed.
#[export] Instance table_update_other `{Table R'} `{!OtherTable R' R} i f : Frame rel (update_row (R := R') i f).
Proof. intros w. apply table_rel. cbn. unfold on_rows, set_field, set_w_db. cbn. apply rows_set_other. Qed.
#[export] Instance table_add_other `{Table R'} `{!OtherTable R' R} r : Frame rel (add_row (R := R') r).
Proof. intros w. apply table_rel. cbn. unfold on_rows, set_field, set_w_db. cbn. apply rows_set_other. Qed.
#[export] Instance table_delete_other `{Table R'} `{!OtherTable R' R} i : Frame rel (delete_row (R := R') i).
Proof. intros w. apply table_rel. cbn. unfold on_rows, set_field, set_w_db. cbn. apply rows_set_other. Qed.
End TableFrames.

(** The rows of table [R] stay as they are. *)
Definition keeps_rows (R : Type) `{Table R} (w w' : World) : Prop :=
  rows (R := R) (w_db w') = rows (w_db w).
#[export] Instance keeps_rows_preorder R `{Table R} : PreOrder (keeps_rows R).
Proof. unfold keeps_rows. split; [by intros w|]. intros w1 w2 w3. congruence. Qed.
#[export] Instance keeps_rows_table R `{Table R} : TableRel R (keeps_rows R).
Proof. by intros w w'. Qed.

(** Each row of table [R] goes along [step], no row is added or removed. *)
Definition rows_step {R : Type} `{Table R} (step : relation R) (w w' : World) : Prop :=
  Forall2 step (rows (w_db w)) (rows (w_db w')).
#[export] Instance rows_step_preorder {R} `{Table R} (step : relation R) `{!PreOrder step} :
  PreOrder (rows_step step).
Proof.
  split; unfold rows_step.
  - intros w. apply Forall_Forall2_diag, Forall_forall. done.
  - intros w1 w2 w3 H12 H23. by etrans.
Qed.
#[export] Instance rows_step_table {R} `{Table R} (step : relation R) `{!PreOrder step} :
  TableRel R (rows_step step).
Proof. intros w w' Hrows. unfold rows_step. rewrite Hrows. apply Forall_Forall2_diag, Forall_forall. done. Qed.
Lemma rows_step_update {R} `{Table R} (step : relation R) `{!PreOrder step} i f :
  (forall r, row_id r = i -> step r (f r)) -> Frame (rows_step step) (update_row (R := R) i f).
Proof.
  intros Hf w. unfold rows_step, update_row, modify. cbn. rewrite rows_set. unfold update_where.
  apply Forall2_fmap_r, Forall_Forall2_diag, Forall_forall. intros r _. change (step r (if by_id i r then f r else r)).
  destruct (by_id i r) eqn:E; [|reflexivity]. by apply Hf, by_id_true.
Qed.

(** Nothing is committed. *)
Definition uncommitted (w w' : World) : Prop := w_committed w' = w_committed w.
#[export] Instance uncommitted_preorder : PreOrder uncommitted.
Proof. unfold uncommitted. split; [by intros w|]. intros w1 w2 w3. congruence. Qed.

Section Uncommitted.
Context `{Env}.

#[export] Instance uncommitted_tick {A} (f : nat -> A) : Frame uncommitted (tick f).
Proof. by intros w. Qed.
#[export] Instance uncommitted_inc m n : Frame uncommitted (inc_by m n).
Proof. by intros w. Qed.
#[export] Instance uncommitted_dec m n : Frame uncommitted (dec_by m n).
Proof. unfold dec_by. apply _. Qed.
#[export] Instance uncommitted_set_metric m n : Frame uncommitted (set_metric m n).
Proof. by intros w. Qed.
#[export] Instance uncommitted_publish t d : Frame uncommitted (publish t d).
Proof. by intros w. Qed.
#[export] Instance uncommitted_select `{Table R} (p : R -> bool) : Frame uncommitted (select_where p).
Proof. by intros w. Qed.
#[export] Instance uncommitted_select_one `{Table R} (p : R -> bool) : Frame uncommitted (select_one p).
Proof.
  intros w. unfold select_one, select_where, mbind, M_bind, gets, lift. by destruct (scalar_one_or_none _).
Qed.
#[export] Instance uncommitted_reload `{Table R} i : Frame uncommitted (reload (R := R) i).
Proof. intros w. unfold reload, mbind, M_bind, gets. by destruct (List.find _ _). Qed.
#[export] Instance uncommitted_update `{Table R} i f : Frame uncommitted (update_row (R := R) i f).
Proof. by intros w. Qed.
#[export] Instance uncommitted_add `{Table R} r : Frame uncommitted (add_row (R := R) r).
Proof. by intros w. Qed.
#[export] Instance uncommitted_delete `{Table R} i : Frame uncommitted (delete_row (R := R) i).
Proof. by intros w. Qed.
#[export] Instance uncommitted_rollback : Frame uncommitted rollback.
Proof. by intros w. Qed.

(** A request that raises leaves the database as it was committed. *)
Lemma with_session_raises {A} (m : IO A) w e w' :
  Frame uncommitted m -> with_session m w = (Raise e, w') -> w_db w' = w_committed w /\ w_committed w' = w_committed w.
Proof.
  intros Hm. unfold with_session, try_except. rewrite run_bind. specialize (Hm w).
  destruct (m w) as [[a|e1] w1]; [done|]. unfold rollback, modify, mbind, M_bind. intros [= <- <-]. cbn in *.
  split; exact Hm.
Qed.
Lemma with_session_ok {A} (m : IO A) w a w' :
  with_session m w = (Ok a, w') -> exists w1, m w = (Ok a, w1) /\ w' = committed w1.
Proof.
  unfold with_session, try_except. rewrite run_bind. destruct (m w) as [[a1|e1] w1]; [|done].
  rewrite run_commit. intros [<- <-]%ret_inv. by exists w1.
Qed.
End Uncommitted.

#[export] Typeclasses Opaque tick inc_by set_metric dec_by publish commit select_where select_one reload
  update_row add_row delete_row.
#[export] Typeclasses Transparent now new_uuid inc dec.

(** * A concrete environment, for the witnesses

    The clock advances one second per reading; the third-party behaviours are
    the documented ones. *)
Definition demo_uuid (n : nat) : uuid :=
  let s := str_nat (Z.of_nat n) in "00000000-0000-4000-8000-" +:+ (zeros (12 - String.length s) +:+ s).
Lemma zeros_value k s : digits_value 0 (zeros k +:+ s) = digits_value 0 s.
Proof. induction k as [|k IH]; [done|]. exact IH. Qed.
Lemma demo_uuid_fresh i j : demo_uuid i = demo_uuid j -> i = j.
Proof.
  unfold demo_uuid. intros Heq.
  apply (f_equal (drop_str (String.length "00000000-0000-4000-8000-"))) in Heq. rewrite !drop_str_app in Heq.
  apply (f_equal (digits_value 0)) in Heq. rewrite !zeros_value, !str_nat_value in Heq; lia.
Qed.
#[export] Instance demo_env : Env := {|
  settings := default_settings;
  clock := fun n => seconds (Z.of_nat n);
  uuid4 := demo_uuid;
  token_urlsafe := fun n _ => str_nat (Z.of_nat n) +:+ "-token-urlsafe";
  pwd_hash := fun _ p => "$2b$" +:+ p;
  pwd_verify := fun p h => String.eqb ("$2b$" +:+ p) h;
  wg_keypair := fun n => ("priv" +:+ str_nat (Z.of_nat n), "pub" +:+ str_nat (Z.of_nat n));
  fernet_encrypt := fun _ s => "enc:" +:+ s;
  fernet_decrypt := fun s => if startswith "enc:" s then Ok (drop_str 4 s) else Raise (ValueError "InvalidToken");
  jwt_encode := fun o => dumps (JObj o);
  jwt_decode := fun s => match loads s with Ok (JObj o) => Some o | _ => None end;
  orm_tracks_json := false;
  counter_has_dec := false;
  model_has_get := false;
  set_order := fun l => l
|}.
