(* ===== verification/Scoring.v ===== *)
(** Endpoint scores and candidate order:
    [backend/app/services/endpoint_scoring.py]. *)
From S2P Require Import Prelude PyStr Json Models.
Local Open Scope string_scope.
Local Open Scope list_scope.
Local Open Scope Z_scope.

Definition BASE_SCORE : Z := 50.
Definition SCORE_MAX : Z := 200.

Definition compute_endpoint_score (reachable : bool) (latency_ms : option Z)
    (failure_count success_count priority : Z) : Z :=
  let score := BASE_SCORE in
  let score := if reachable then score + 100 else score in
  let score := score - Z.min priority 100 in
  let score := match latency_ms with Some l => score - l / 10 | None => score end in
  let score := score - failure_count * 5 in
  let score := score + success_count * 2 in
  Z.max 0 (Z.min score SCORE_MAX).

(** The sort key of both orders: [latency_ms or 9999] takes a latency of zero
    for a missing one. *)
Definition latency_or_9999 (l : option Z) : Z :=
  match l with Some z => if z =? 0 then 9999 else z | None => 9999 end.
Definition endpoint_key (e : DeviceEndpoint.DeviceEndpoint) : list Z :=
  [DeviceEndpoint.score e;
   if DeviceEndpoint.reachable e then 1 else 0;
   - latency_or_9999 (DeviceEndpoint.latency_ms e);
   - DeviceEndpoint.priority e].

(** Python's order on tuples of integers of one length. *)
Fixpoint tuple_le (a b : list Z) : bool :=
  match a, b with
  | x :: a', y :: b' => if x =? y then tuple_le a' b' else x <? y
  | _, _ => true
  end.
(** [reverse=True]: larger keys first, equal keys in their old order. *)
Definition not_after (x y : DeviceEndpoint.DeviceEndpoint) : bool :=
  tuple_le (endpoint_key y) (endpoint_key x).

Definition sort_endpoint_candidates (endpoints : list DeviceEndpoint.DeviceEndpoint)
    : list DeviceEndpoint.DeviceEndpoint := sort_stable not_after endpoints.
Definition select_best_endpoint (endpoints : list DeviceEndpoint.DeviceEndpoint)
    : option DeviceEndpoint.DeviceEndpoint :=
  match endpoints with
  | [] => None
  | _ => head (sort_stable not_after endpoints)
  end.

(** * The order *)
Lemma tuple_le_total a b : tuple_le a b = true \/ tuple_le b a = true.
Proof.
  revert b. induction a as [|x a IH]; intros [|y b]; simpl; auto.
  rewrite (Z.eqb_sym y x). destruct (Z.eqb_spec x y); [apply IH|].
  destruct (Z.ltb_spec x y), (Z.ltb_spec y x); auto; lia.
Qed.
Lemma tuple_le_trans a b c :
  length a = length b -> length b = length c ->
  tuple_le a b = true -> tuple_le b c = true -> tuple_le a c = true.
Proof.
  revert b c. induction a as [|x a IH]; intros [|y b] [|z c]; simpl; try done.
  intros [= H1] [= H2].
  destruct (Z.eqb_spec x y), (Z.eqb_spec y z), (Z.eqb_spec x z); subst; try lia; eauto.
Qed.
Lemma tuple_le_antisym a b :
  length a = length b -> tuple_le a b = true -> tuple_le b a = true -> a = b.
Proof.
  revert b. induction a as [|x a IH]; intros [|y b]; simpl; try done. intros [= Hl].
  rewrite (Z.eqb_sym y x). destruct (Z.eqb_spec x y); [|lia]. intros. f_equal; auto.
Qed.

Lemma not_after_total x y : not_after x y = true \/ not_after y x = true.
Proof. apply tuple_le_total. Qed.
Lemma not_after_trans x y z : not_after x y = true -> not_after y z = true -> not_after x z = true.
Proof. unfold not_after. intros. by eapply (tuple_le_trans _ (endpoint_key y)). Qed.

Lemma select_best_head endpoints : select_best_endpoint endpoints = head (sort_endpoint_candidates endpoints).
Proof. by destruct endpoints. Qed.
Lemma select_best_some endpoints e :
  select_best_endpoint endpoints = Some e ->
  e ∈ endpoints /\ forall y, y ∈ endpoints -> not_after e y = true.
Proof.
  rewrite select_best_head. intros H. unfold sort_endpoint_candidates in H.
  destruct (sort_stable not_after endpoints) as [|h t] eqn:E; [done|].
  injection H as <-. eapply sort_stable_head; [apply not_after_total|apply not_after_trans|done].
Qed.

(** * Properties *)

(** C38. A score lies between 0 and 200 whatever the inputs, never decreases
    with reachability or a success and never increases with latency, a failure
    or a larger priority number; all this with or without a measured latency.
    A latency that is measured (and not negative) never scores better than none,
    and costs nothing below ten milliseconds. *)
Theorem score_bounds_monotone reachable (latency : option Z) failure success priority :
  let score := compute_endpoint_score in
  let s := score reachable latency failure success priority in
  0 <= s <= SCORE_MAX /\
  s <= score true latency failure success priority /\
  (forall l l', latency = Some l -> l <= l' -> score reachable (Some l') failure success priority <= s) /\
  (forall l, 0 <= l -> score reachable (Some l) failure success priority <=
                     score reachable None failure success priority) /\
  (forall l, 0 <= l < 10 -> score reachable (Some l) failure success priority =
                          score reachable None failure success priority) /\
  (forall f', failure <= f' -> score reachable latency f' success priority <= s) /\
  (forall n', success <= n' -> s <= score reachable latency failure n' priority) /\
  (forall p', priority <= p' -> score reachable latency failure success p' <= s).
Proof.
  cbv zeta. unfold compute_endpoint_score, BASE_SCORE, SCORE_MAX.
  split_and!; try (destruct reachable, latency; lia).
  - intros l l' -> Hl. pose proof (Z.div_le_mono l l' 10 ltac:(lia) Hl). destruct reachable; lia.
  - intros l Hl. pose proof (Z.div_pos l 10 Hl ltac:(lia)). destruct reachable; lia.
  - intros l Hl. by rewrite (Z.div_small l 10), Z.sub_0_r by lia.
Qed.

(** Sorting candidates permutes them, puts larger keys first, and keeps
    the order of candidates whose keys are equal; the selected endpoint is the
    first of them, so no candidate has a better key. *)
Theorem candidates_sorted endpoints :
  sort_endpoint_candidates endpoints ≡ₚ endpoints /\
  StronglySorted (fun a b => tuple_le (endpoint_key b) (endpoint_key a) = true)
    (sort_endpoint_candidates endpoints) /\
  (forall k, List.filter (tied not_after k) (sort_endpoint_candidates endpoints) =
             List.filter (tied not_after k) endpoints) /\
  select_best_endpoint endpoints = head (sort_endpoint_candidates endpoints).
Proof.
  split_and!.
  - apply sort_stable_perm.
  - apply (sort_stable_sorted not_after); [apply not_after_total|apply not_after_trans].
  - intros k. apply sort_stable_tied, not_after_trans.
  - apply select_best_head.
Qed.

(** Of two endpoints that differ only in their latency, the one that
    answers in zero milliseconds loses to any that answers within 9998: the
    key takes latency 0 for "unknown". *)
Theorem zero_latency_loses e slow :
  DeviceEndpoint.latency_ms e = Some 0 -> 0 < slow < 9999 ->
  let e' := e <| DeviceEndpoint.latency_ms := Some slow |> in
  select_best_endpoint [e; e'] = Some e'.
Proof.
  intros Hl Hs. cbv zeta. unfold select_best_endpoint. cbn [sort_stable foldr insert_stable].
  unfold not_after. cbn. rewrite Hl. cbn.
  rewrite !Z.eqb_refl. cbn. unfold latency_or_9999. rewrite (proj2 (Z.eqb_neq slow 0)) by lia.
  rewrite (proj2 (Z.eqb_neq _ _)) by lia. rewrite (proj2 (Z.ltb_ge _ _)) by lia. done.
Qed.

Definition demo_endpoint (latency : option Z) : DeviceEndpoint.DeviceEndpoint :=
  DeviceEndpoint.mk "e1" "d1" "203.0.113.9" "stun" 51820 None None 100 true 0 latency true None 0 3 120 0.
Lemma zero_latency_loses_witness :
  select_best_endpoint [demo_endpoint (Some 0); demo_endpoint (Some 40)] = Some (demo_endpoint (Some 40)).
Proof. apply (zero_latency_loses (demo_endpoint (Some 0)) 40); [reflexivity|lia]. Defined.
