(* ===== verification/Relay.v ===== *)
(** Relay sessions: [backend/app/services/relay.py].

    The session rows move between the states [pending], [active], [expired]
    and [failed]; the gauge [RELAY_CONNECTIONS_ACTIVE] counts the active
    ones. *)
From S2P Require Import Prelude PyStr Bytes Json Models Effects.
From S2P Require RelayServer.
Local Open Scope string_scope.
Local Open Scope list_scope.
Local Open Scope Z_scope.

Definition RELAY_DEFAULT_REGION := "default".
Definition RELAY_DEFAULT_NODE := "relay0".
Definition RELAY_SESSION_TIMEOUT_HOURS : Z := 24.
Definition RELAY_TOKEN_BYTES : Z := 32.

Import RelaySession.

Section Relay.
  Context `{Env}.

(** The members every relay event names. *)
Definition relay_event_data (r : RelaySession) (more : obj) : obj :=
  [("session_id", JStr (id r)); ("initiator_device_id", JStr (initiator_device_id r));
   ("target_device_id", JStr (target_device_id r))] ++ more.

Definition create_relay_session (initiator target : uuid) (event_bus : bool)
    (region node : string) : IO RelaySession :=
  relay_token ← tick (fun t => token_urlsafe t RELAY_TOKEN_BYTES);
  t ← now;
  let expires_at := t + hours RELAY_SESSION_TIMEOUT_HOURS in
  session_id ← new_uuid;
  created ← now;
  updated ← now;
  add_row (RelaySession.mk session_id initiator target region node relay_token "pending" 0 0
             None (Some expires_at) created updated);;
  commit;;
  relay_session ← reload session_id;
  inc (RELAY_SESSIONS_TOTAL "pending");;
  when event_bus (publish EVENT_RELAY_REQUESTED
    (relay_event_data relay_session [("relay_region", JStr region); ("relay_node", JStr node)]));;
  mret relay_session.

Definition activate_relay_session (relay_session_id : uuid) (event_bus : bool)
    : IO (option RelaySession) :=
  found ← select_one (fun r => by_id relay_session_id r && String.eqb (state r) "pending");
  match found with
  | None => mret None
  | Some r =>
    t1 ← now;
    t2 ← now;
    update_row (id r) (fun r => r <| state := "active" |> <| connected_at := Some t1 |>
                                  <| updated_at := t2 |>);;
    commit;;
    r' ← reload (id r);
    inc RELAY_CONNECTIONS_ACTIVE;;
    inc (RELAY_SESSIONS_TOTAL "active");;
    when event_bus (publish EVENT_RELAY_CONNECTED
      (relay_event_data r' [("relay_node", JStr (relay_node r'))]));;
    mret (Some r')
  end.

(** [expire_relay_session] and [fail_relay_session] differ in the state they
    set and the event they publish. *)
Definition end_relay_session (final event : string) (relay_session_id : uuid) (event_bus : bool)
    : IO (option RelaySession) :=
  found ← select_one (by_id (R := RelaySession) relay_session_id);
  match found with
  | None => mret None
  | Some r =>
    let was_active := String.eqb (state r) "active" in
    t ← now;
    update_row (id r) (fun r => r <| state := final |> <| updated_at := t |>);;
    commit;;
    r' ← reload (id r);
    when was_active (dec RELAY_CONNECTIONS_ACTIVE);;
    when event_bus (publish event (relay_event_data r' []));;
    mret (Some r')
  end.
Definition expire_relay_session := end_relay_session "expired" EVENT_RELAY_EXPIRED.
Definition fail_relay_session := end_relay_session "failed" EVENT_RELAY_FAILED.

Record relay_candidate := mkRelayCandidate {
  rc_relay_node : string;
  rc_relay_region : string;
  rc_relay_endpoint : string;
  rc_priority : Z;
  rc_preferred : bool
}.
Definition get_best_relay_candidate : relay_candidate := {|
  rc_relay_node := RELAY_DEFAULT_NODE;
  rc_relay_region := RELAY_DEFAULT_REGION;
  rc_relay_endpoint := relay_host settings +:+ ":" +:+ str_int (relay_port settings);
  rc_priority := 50;
  rc_preferred := true
|}.

Definition update_relay_stats (relay_session_id : uuid) (tx rx : Z) (event_bus : bool)
    : IO (option RelaySession) :=
  found ← select_one (by_id (R := RelaySession) relay_session_id);
  match found with
  | None => mret None
  | Some r =>
    t ← now;
    update_row (id r) (fun r => r <| bytes_tx := bytes_tx r + tx |> <| bytes_rx := bytes_rx r + rx |>
                                  <| updated_at := t |>);;
    commit;;
    r' ← reload (id r);
    when event_bus (publish EVENT_RELAY_STATS_UPDATED
      [("session_id", JStr (id r')); ("bytes_tx", JInt (bytes_tx r')); ("bytes_rx", JInt (bytes_rx r'))]);;
    mret (Some r')
  end.

(** [expires_at <= now]: SQL does not match a NULL. *)
Definition expired_at (t : Z) (r : RelaySession) : bool :=
  match expires_at r with Some e => e <=? t | None => false end.
Definition is_active_session (r : RelaySession) : bool := String.eqb (state r) "active".
Definition stale_session (t : Z) (r : RelaySession) : bool :=
  (String.eqb (state r) "pending" || is_active_session r) && expired_at t r.

Definition cleanup_expired_relays : IO Z :=
  t ← now;
  stale ← select_where (stale_session t);
  let active_count := len_list (List.filter is_active_session stale) in
  for_each stale (fun s => update_row (row_id s) (fun r => r <| state := "expired" |> <| updated_at := t |>));;
  commit;;
  when (negb (active_count =? 0)) (dec_by RELAY_CONNECTIONS_ACTIVE active_count);;
  when (negb (len_list stale =? 0)) (inc_by (RELAY_SESSIONS_TOTAL "expired") (len_list stale));;
  mret (len_list stale).

Definition get_relay_session_by_id (relay_session_id : uuid) : IO (option RelaySession) :=
  select_one (by_id (R := RelaySession) relay_session_id).

Definition auto_create_relay_fallback (initiator target : uuid) (event_bus : bool) : IO RelaySession :=
  relay_session ← create_relay_session initiator target event_bus RELAY_DEFAULT_REGION RELAY_DEFAULT_NODE;
  inc RELAY_FALLBACK_TOTAL;;
  mret relay_session.

(** * What each operation does *)
Local Notation gauge := RELAY_CONNECTIONS_ACTIVE.
Local Notation sessions w := (rows (R := RelaySession) (w_db w)).

Definition activated (t1 t2 : Z) (r : RelaySession) : RelaySession :=
  r <| state := "active" |> <| connected_at := Some t1 |> <| updated_at := t2 |>.
Definition ended (final : string) (t : Z) (r : RelaySession) : RelaySession :=
  r <| state := final |> <| updated_at := t |>.

Lemma activate_run i b w :
  keyed (R := RelaySession) w ->
  (activate_relay_session i b w = (Ok None, w) /\
   forall r, r ∈ sessions w -> id r = i -> state r <> "pending") \/
  (exists r w', r ∈ sessions w /\ id r = i /\ state r = "pending" /\
    let f := activated (clock (w_tick w)) (clock (S (w_tick w))) in
    activate_relay_session i b w = (Ok (Some (f r)), w') /\
    quiet (metered (RELAY_SESSIONS_TOTAL "active") 1 (metered gauge 1
            (committed (on_rows (update_where (by_id i) f) (ticked (ticked w)))))) w').
Proof.
  intros Hk. unfold activate_relay_session. rewrite run_bind.
  destruct (select_one_keyed (fun r => by_id i r && String.eqb (state r) "pending") i w) as (o & -> & Ho);
    [done| |].
  { intros r [Hid _]%andb_true_iff. by apply by_id_true. }
  destruct o as [r|].
  - right. destruct Ho as [[Hid Hp]%andb_true_iff Hr]. apply by_id_true in Hid. apply String.eqb_eq in Hp.
    cbn in Hid. subst i. rewrite !run_now.
    change (id r) with (row_id r). rewrite update_commit_reload by done.
    rewrite !run_inc.
    match goal with |- context [(when b (publish ?t ?d);; mret ?x) ?w] =>
      destruct (when_publish b t d x w) as (w' & -> & Hq) end.
    by exists r, w'.
  - left. split; [done|]. intros r Hr <- Hp. specialize (Ho r Hr).
    rewrite Hp, (proj2 (by_id_true _ _)) in Ho by done. done.
Qed.

Lemma end_run final ev i b w :
  keyed (R := RelaySession) w ->
  (end_relay_session final ev i b w = (Ok None, w) /\
   forall r, r ∈ sessions w -> id r <> i) \/
  (exists r w', r ∈ sessions w /\ id r = i /\
    let f := ended final (clock (w_tick w)) in
    end_relay_session final ev i b w = (Ok (Some (f r)), w') /\
    quiet (let w1 := committed (on_rows (update_where (by_id i) f) (ticked w)) in
           if is_active_session r then metered gauge (-1) w1 else w1) w').
Proof.
  intros Hk. unfold end_relay_session. rewrite run_bind.
  destruct (select_one_keyed (by_id (R := RelaySession) i) i w) as (o & -> & Ho);
    [done|intros r; apply by_id_true|].
  destruct o as [r|].
  - right. destruct Ho as [Hid Hr]. apply by_id_true in Hid. cbn in Hid. subst i. rewrite run_now.
    change (id r) with (row_id r). rewrite update_commit_reload by done.
    rewrite run_when. unfold is_active_session.
    destruct (String.eqb (state r) "active") eqn:Ea; unfold dec; rewrite ?run_dec_gauge by done;
      (match goal with |- context [(when b (publish ?t ?d);; mret ?x) ?w] =>
         destruct (when_publish b t d x w) as (w' & E & Hq) end; exists r, w'; split_and!; [done|done|exact E|]; unfold is_active_session; rewrite Ea; exact Hq).
  - left. split; [done|]. intros r Hr Hid. specialize (Ho r Hr). apply by_id_false in Ho. by apply Ho.
Qed.

Lemma create_run initiator target b region node w :
  keyed (R := RelaySession) w -> uuid4 (S (S (w_tick w))) ∉ ids (sessions w) ->
  exists r w', create_relay_session initiator target b region node w = (Ok r, w') /\
    id r = uuid4 (S (S (w_tick w))) /\ state r = "pending" /\
    initiator_device_id r = initiator /\ target_device_id r = target /\
    relay_token r = token_urlsafe (w_tick w) RELAY_TOKEN_BYTES /\
    expires_at r = Some (clock (S (w_tick w)) + hours 24) /\
    quiet (metered (RELAY_SESSIONS_TOTAL "pending") 1 (committed (on_rows (fun l => l ++ [r])
            (ticked (ticked (ticked (ticked (ticked w)))))))) w'.
Proof.
  intros Hk Hfresh. unfold create_relay_session. rewrite run_tick, run_now, run_uuid, !run_now.
  set (r := RelaySession.mk _ _ _ _ _ _ _ _ _ _ _ _ _).
  rewrite (add_commit_reload _ _ r _); [|exact Hk|reflexivity|exact Hfresh]. rewrite run_inc.
  match goal with |- context [(when b (publish ?t ?d);; mret ?x) ?w] =>
    destruct (when_publish b t d x w) as (w' & -> & Hq) end.
  by exists r, w'.
Qed.

Lemma update_stats_run i tx rx b w :
  keyed (R := RelaySession) w ->
  (update_relay_stats i tx rx b w = (Ok None, w) /\ forall r, r ∈ sessions w -> id r <> i) \/
  (exists r w', r ∈ sessions w /\ id r = i /\
    let f r := r <| bytes_tx := bytes_tx r + tx |> <| bytes_rx := bytes_rx r + rx |>
                 <| updated_at := clock (w_tick w) |> in
    update_relay_stats i tx rx b w = (Ok (Some (f r)), w') /\
    quiet (committed (on_rows (update_where (by_id i) f) (ticked w))) w').
Proof.
  intros Hk. unfold update_relay_stats. rewrite run_bind.
  destruct (select_one_keyed (by_id (R := RelaySession) i) i w) as (o & -> & Ho);
    [done|intros r; apply by_id_true|].
  destruct o as [r|].
  - right. destruct Ho as [Hid Hr]. apply by_id_true in Hid. cbn in Hid. subst i. rewrite run_now.
    change (id r) with (row_id r). rewrite update_commit_reload by done.
    match goal with |- context [(when b (publish ?t ?d);; mret ?x) ?w] =>
      destruct (when_publish b t d x w) as (w' & -> & Hq) end.
    by exists r, w'.
  - left. split; [done|]. intros r Hr Hid. specialize (Ho r Hr). apply by_id_false in Ho. by apply Ho.
Qed.

(** The sweep, as one update of the table. *)
Definition swept (t : Z) (l : list RelaySession) : list RelaySession :=
  update_where (stale_session t) (ended "expired" t) l.
Lemma cleanup_run w :
  keyed (R := RelaySession) w ->
  let t := clock (w_tick w) in
  let stale := List.filter (stale_session t) (sessions w) in
  exists w', cleanup_expired_relays w = (Ok (len_list stale), w') /\
    w_db w' = set_rows (swept t (sessions w)) (w_db w) /\ w_committed w' = w_db w' /\
    (w_tick w' = S (w_tick w)) /\
    w_metrics w' gauge = w_metrics w gauge - len_list (List.filter is_active_session stale) /\
    w_relay w' = w_relay w.
Proof.
  intros Hk t stale. unfold cleanup_expired_relays. rewrite run_now. fold t.
  unfold select_where. rewrite run_bind. cbn [gets]. change (sessions (ticked w)) with (sessions w).
  rewrite run_bind, (sweep_update (stale_session t) (ended "expired" t) (ticked w)) by done.
  rewrite run_commit, run_when. fold t.
  change (List.filter (stale_session t) (sessions (ticked w))) with stale.
  set (n := len_list (List.filter is_active_session stale)).
  change (sessions (ticked w)) with (sessions w). fold stale n.
  destruct (Z.eqb_spec n 0) as [Hn|Hn]; cbn [negb]; [|rewrite run_dec_gauge by done];
    rewrite run_when; fold t stale n;
    (destruct (Z.eqb_spec (len_list stale) 0) as [Hs|Hs]; cbn [negb]; [|rewrite run_inc_by]);
    eexists; (split; [reflexivity|]); split_and!; try done; repeat metrics; lia.
Qed.

(** * The invariant of the sessions and their gauge *)
Context (uuid4_fresh : forall i j, uuid4 i = uuid4 j -> i = j).

Definition active_sessions (w : World) : Z := len_list (List.filter is_active_session (sessions w)).
(** [before] is the number of sessions that were active when the process began
    to count, with its gauge at zero. *)
Record relay_inv (before : Z) (w : World) : Prop := {
  inv_keyed : keyed (R := RelaySession) w;
  inv_issued : forall r n, r ∈ sessions w -> (w_tick w <= n)%nat -> id r <> uuid4 n;
  inv_gauge : w_metrics w gauge = active_sessions w - before
}.

Lemma quiet_inv k w w' : quiet w w' -> relay_inv k w -> relay_inv k w'.
Proof.
  intros (Hdb & _ & _ & Ht & Hm) [Hk Hi Hg]. constructor.
  - unfold keyed. by rewrite Hdb.
  - intros r n Hr Hn. rewrite Hdb in Hr. apply Hi; [done|lia].
  - unfold active_sessions. rewrite Hdb, Hm by done. done.
Qed.

(** Replacing one session by [f] of it. *)
Lemma update_inv k w w' i r (f : RelaySession -> RelaySession) :
  relay_inv k w -> r ∈ sessions w -> id r = i -> (forall r, id (f r) = id r) ->
  w_db w' = set_rows (update_where (by_id i) f (sessions w)) (w_db w) ->
  (w_tick w <= w_tick w')%nat ->
  w_metrics w' gauge = w_metrics w gauge - Z.b2z (is_active_session r) + Z.b2z (is_active_session (f r)) ->
  relay_inv k w'.
Proof.
  intros [Hk Hi Hg] Hr <- Hf Hdb Ht Hm. constructor.
  - unfold keyed. rewrite Hdb, rows_set. by rewrite (ids_update (R := RelaySession)).
  - intros x n Hx Hn. rewrite Hdb, rows_set in Hx.
    apply elem_of_update_where in Hx as [(y & Hy & _ & ->)|[Hx _]]; [rewrite Hf|]; (apply Hi; [done|lia]).
  - unfold active_sessions, len_list. rewrite Hdb, rows_set.
    change (id r) with (row_id r). rewrite (count_update is_active_session) by done.
    rewrite Hm, Hg. unfold active_sessions, len_list. lia.
Qed.

Lemma relay_inv_table k w w' :
  relay_inv k w -> w_db w' = w_db w -> (w_tick w <= w_tick w')%nat ->
  w_metrics w' gauge = w_metrics w gauge -> relay_inv k w'.
Proof.
  intros [Hk Hi Hg] Hdb Ht Hm. constructor.
  - unfold keyed. by rewrite Hdb.
  - intros r n Hr Hn. rewrite Hdb in Hr. apply Hi; [done|lia].
  - unfold active_sessions. by rewrite Hdb, Hm.
Qed.

(** The operations of the service. *)
Inductive relay_op :=
  | Create (initiator target : uuid) (bus : bool) (region node : string)
  | Fallback (initiator target : uuid) (bus : bool)
  | Activate (i : uuid) (bus : bool)
  | Expire (i : uuid) (bus : bool)
  | Fail_ (i : uuid) (bus : bool)
  | UpdateStats (i : uuid) (tx rx : Z) (bus : bool)
  | Cleanup.
Definition run_relay_op (op : relay_op) : IO unit :=
  match op with
  | Create a b bus region node => create_relay_session a b bus region node;; mret tt
  | Fallback a b bus => auto_create_relay_fallback a b bus;; mret tt
  | Activate i bus => activate_relay_session i bus;; mret tt
  | Expire i bus => expire_relay_session i bus;; mret tt
  | Fail_ i bus => fail_relay_session i bus;; mret tt
  | UpdateStats i tx rx bus => update_relay_stats i tx rx bus;; mret tt
  | Cleanup => cleanup_expired_relays;; mret tt
  end.

Lemma create_inv k a b bus region node w :
  relay_inv k w ->
  exists r w', create_relay_session a b bus region node w = (Ok r, w') /\ relay_inv k w' /\
    sessions w' = sessions w ++ [r] /\ state r = "pending" /\ id r ∉ ids (sessions w).
Proof.
  intros Hinv. pose proof Hinv as [Hk Hi Hg].
  assert (uuid4 (S (S (w_tick w))) ∉ ids (sessions w)) as Hfresh.
  { intros (r & Hr & Hin)%list_elem_of_fmap. apply (Hi r (S (S (w_tick w))) Hin); [lia|done]. }
  destruct (create_run a b bus region node w Hk Hfresh) as (r & w' & Hrun & Hid & Hst & _ & _ & _ & _ & Hq).
  exists r, w'. split; [done|]. pose proof Hq as (Hdb & _ & _ & _ & _).
  assert (sessions w' = sessions w ++ [r]) as Hrows by by rewrite Hdb.
  split_and!; [|done|done|by rewrite Hid].
  eapply quiet_inv; [exact Hq|]. constructor.
  - unfold keyed. cbn. unfold ids. rewrite fmap_app. apply NoDup_app.
    split_and!; [done| |apply NoDup_singleton].
    intros i Hin ->%list_elem_of_singleton. by rewrite Hid in Hin.
  - cbn. intros x n [Hx|Hx%list_elem_of_singleton]%elem_of_app Hn.
    + apply Hi; [done|lia].
    + subst x. rewrite Hid. intros Heq%uuid4_fresh. lia.
  - metrics. unfold active_sessions, len_list in *. cbn. rewrite List.filter_app, length_app. cbn.
    unfold is_active_session at 2. rewrite Hst. cbn. rewrite Hg. cbn. lia.
Qed.

Lemma cleanup_inv k w :
  relay_inv k w -> exists n w', cleanup_expired_relays w = (Ok n, w') /\ relay_inv k w' /\
    sessions w' = swept (clock (w_tick w)) (sessions w).
Proof.
  intros [Hk Hi Hg]. destruct (cleanup_run w Hk) as (w' & Hrun & Hdb & _ & Ht & Hm & _).
  eexists _, w'. split; [exact Hrun|].
  assert (sessions w' = swept (clock (w_tick w)) (sessions w)) as Hrows by (rewrite Hdb; apply rows_set).
  split; [|done]. constructor.
  - unfold keyed. rewrite Hrows. unfold ids, swept, update_where. rewrite <-list_fmap_compose.
    erewrite list_fmap_ext; [exact Hk|]. intros j r _. cbn. by destruct (stale_session _ r).
  - intros r n Hr Hn. rewrite Hrows in Hr. rewrite Ht in Hn.
    apply elem_of_update_where in Hr as [(y & Hy & _ & ->)|[Hr _]]; [apply (Hi y)|apply (Hi r)]; done || lia.
  - rewrite Hm, Hg. unfold active_sessions, len_list. rewrite Hrows.
    clear. generalize (clock (w_tick w)) as t. intros t. unfold swept.
    induction (sessions w) as [|r l IH]; [cbn; lia|]. cbn [update_where fmap list_fmap List.filter].
    fold (update_where (stale_session t) (ended "expired" t) l).
    destruct (stale_session t r) eqn:Es; cbn [List.filter].
    + change (is_active_session (ended "expired" t r)) with false. cbn iota.
      destruct (is_active_session r); cbn [length]; lia.
    + destruct (is_active_session r); cbn [length]; lia.
Qed.

(** How a session may change in one operation: it keeps its identity and its
    parties, and its state moves along an edge of the state machine. *)
Definition state_edge (a b : string) : Prop :=
  a = b \/ (a = "pending" /\ b = "active") \/ b = "expired" \/ b = "failed".
Definition session_moves (r r' : RelaySession) : Prop :=
  id r' = id r /\ initiator_device_id r' = initiator_device_id r /\
  target_device_id r' = target_device_id r /\ relay_token r' = relay_token r /\
  expires_at r' = expires_at r /\ state_edge (state r) (state r').
Definition table_moves (w w' : World) : Prop :=
  exists l new, sessions w' = l ++ new /\ Forall2 session_moves (sessions w) l /\
    Forall (fun r => state r = "pending") new.

Lemma table_moves_update w w' p f :
  sessions w' = update_where p f (sessions w) ->
  (forall r, r ∈ sessions w -> p r = true -> session_moves r (f r)) -> table_moves w w'.
Proof.
  intros Hrows Hf. eexists _, []. rewrite app_nil_r. split; [exact Hrows|]. split; [|done].
  unfold update_where. apply Forall2_fmap_r, Forall_Forall2_diag, Forall_forall.
  intros r Hr. change (session_moves r (if p r then f r else r)).
  destruct (p r) eqn:E; [by apply Hf|]. split_and!; try done. by left.
Qed.
Lemma table_moves_same w w' : sessions w' = sessions w -> table_moves w w'.
Proof.
  intros Hs. apply (table_moves_update w w' (fun _ => false) (fun r => r)); [|done].
  rewrite Hs. symmetry. by apply update_where_id.
Qed.

Lemma relay_op_sound k op w :
  relay_inv k w ->
  exists w', run_relay_op op w = (Ok tt, w') /\ relay_inv k w' /\ table_moves w w'.
Proof.
  intros Hinv. pose proof Hinv as [Hk _ _].
  assert (forall final ev i bus, final = "expired" \/ final = "failed" ->
    exists w', (end_relay_session final ev i bus;; mret tt) w = (Ok tt, w') /\ relay_inv k w' /\ table_moves w w')
    as Hend.
  { intros final ev i bus Hfin. rewrite run_bind.
    destruct (end_run final ev i bus w Hk) as [[-> _]|(r & w' & Hr & Hid & -> & Hq)].
    - exists w. split_and!; [done..|]. by apply table_moves_same.
    - exists w'. split; [done|].
      assert (is_active_session (ended final (clock (w_tick w)) r) = false) as Hna by by destruct Hfin as [->| ->].
      split.
      + eapply quiet_inv; [exact Hq|]. cbv zeta.
        destruct (is_active_session r) eqn:Ea; (eapply update_inv; [exact Hinv|exact Hr|exact Hid| |reflexivity| |]);
          try done; try (cbn; lia); rewrite Ea, Hna; metrics; cbn [Z.b2z]; lia.
      + destruct Hq as (Hdb & _). eapply table_moves_update.
        * rewrite Hdb. destruct (is_active_session r); cbn; reflexivity.
        * intros x _ _. split_and!; try done. by destruct Hfin as [->| ->]; [right; right; left|right; right; right]. }
  destruct op as [a b bus region node|a b bus|i bus|i bus|i bus|i tx rx bus|]; cbn [run_relay_op].
  - rewrite run_bind. destruct (create_inv k a b bus region node w Hinv) as (r & w' & -> & ? & Hrows & Hst & _).
    exists w'. split_and!; [done..|]. exists (sessions w), [r]. split_and!; [done| |by repeat constructor].
    apply Forall_Forall2_diag, Forall_forall. intros. split_and!; try done. by left.
  - unfold auto_create_relay_fallback. rewrite !run_bind.
    destruct (create_inv k a b bus RELAY_DEFAULT_REGION RELAY_DEFAULT_NODE w Hinv)
      as (r & w' & -> & Hi' & Hrows & Hst & _).
    exists (metered RELAY_FALLBACK_TOTAL 1 w'). split; [done|]. split.
    + eapply relay_inv_table; [exact Hi'|done|done|]. by metrics.
    + exists (sessions w), [r]. split_and!; [done| |by repeat constructor].
      apply Forall_Forall2_diag, Forall_forall. intros. split_and!; try done. by left.
  - rewrite run_bind. destruct (activate_run i bus w Hk) as [[-> _]|(r & w' & Hr & Hid & Hst & -> & Hq)].
    + exists w. split_and!; [done..|]. by apply table_moves_same.
    + exists w'. split; [done|]. split.
      * eapply quiet_inv; [exact Hq|].
        eapply update_inv; [exact Hinv|exact Hr|exact Hid| |done| |]; [done|cbn; lia|].
        unfold is_active_session. rewrite Hst. repeat metrics. cbn. lia.
      * destruct Hq as (Hdb & _). eapply table_moves_update; [rewrite Hdb; cbn; reflexivity|].
        intros x Hx Hxi%String.eqb_eq. assert (x = r) as -> by (eapply keyed_eq; [exact Hk|..]; cbn; congruence || done).
        split_and!; try done. right. left. done.
  - by apply Hend; left.
  - by apply Hend; right.
  - rewrite run_bind. destruct (update_stats_run i tx rx bus w Hk) as [[-> _]|(r & w' & Hr & Hid & -> & Hq)].
    + exists w. split_and!; [done..|]. by apply table_moves_same.
    + exists w'. split; [done|]. split.
      * eapply quiet_inv; [exact Hq|].
        eapply update_inv; [exact Hinv|exact Hr|exact Hid| |done| |]; [done|cbn; lia|].
        metrics. change (is_active_session (_ <| updated_at := _ |>)) with (is_active_session r). lia.
      * destruct Hq as (Hdb & _). eapply table_moves_update; [rewrite Hdb; cbn; reflexivity|].
        intros x _ _. split_and!; try done. by left.
  - rewrite run_bind. destruct (cleanup_inv k w Hinv) as (n & w' & -> & ? & Hrows). exists w'.
    split_and!; [done..|]. eapply table_moves_update; [exact Hrows|].
    intros x _ _. split_and!; try done. by right; right; left.
Qed.

Lemma relay_ops_sound k ops w :
  relay_inv k w -> exists w', for_each ops run_relay_op w = (Ok tt, w') /\ relay_inv k w'.
Proof.
  revert w. induction ops as [|op ops IH]; intros w Hinv; [by exists w|]. cbn [for_each].
  rewrite run_bind. destruct (relay_op_sound k op w Hinv) as (w1 & -> & Hinv1 & _). by apply IH.
Qed.

(** A process that starts on the table of an earlier one: the ids of its rows
    differ and are not handed out again, and the gauge is at zero. *)
Lemma relay_inv_start db :
  keyed (R := RelaySession) (world_of db) ->
  (forall r n, r ∈ relay_sessions db -> id r <> uuid4 n) ->
  relay_inv (active_sessions (world_of db)) (world_of db).
Proof using H.
  intros Hk Hfresh. constructor; [done| |].
  - intros r n Hr _. by apply Hfresh.
  - cbn. lia.
Qed.

(** * Properties *)

(** C15. Whatever operations the service runs after a start, in any order and
    with any arguments, on a table whose session ids differ and are not issued
    again, each of them returns and session ids stay unique.  The
    gauge of active relay connections, which starts at zero, is the number of
    sessions in state "active" less those the database held as active when the
    process started: from a table without active sessions it counts them, and
    after a restart with active ones it counts too few by their number. *)
Theorem relay_gauge_counts_active db ops :
  keyed (R := RelaySession) (world_of db) ->
  (forall r n, r ∈ relay_sessions db -> id r <> uuid4 n) ->
  exists w, for_each ops run_relay_op (world_of db) = (Ok tt, w) /\
    keyed (R := RelaySession) w /\
    w_metrics w gauge = active_sessions w - active_sessions (world_of db).
Proof.
  intros Hk Hfresh. destruct (relay_ops_sound _ ops _ (relay_inv_start db Hk Hfresh)) as (w & Hrun & [Hk' _ Hg]).
  by exists w.
Qed.

(** One operation adds sessions in state "pending" at most, and moves
    each existing one along an edge of the state machine (to "active" only
    from "pending", otherwise only to "expired" or "failed"), keeping its
    parties, its token and its expiry time. *)
Theorem relay_op_transitions k op w :
  relay_inv k w -> (run_relay_op op w).1 = Ok tt /\ table_moves w (run_relay_op op w).2.
Proof. intros Hinv. by destruct (relay_op_sound k op w Hinv) as (w' & -> & _ & ?). Qed.

(** The cleanup returns how many sessions it expired; after it no pending
    or active session has an expiry time up to the moment it read, and every
    session that was not stale is as it was. *)
Theorem cleanup_expires_exactly k w :
  relay_inv k w ->
  let t := clock (w_tick w) in
  exists w', cleanup_expired_relays w = (Ok (len_list (List.filter (stale_session t) (sessions w))), w') /\
    Forall (fun r => stale_session t r = false) (sessions w') /\
    Forall2 (fun r r' => r' = if stale_session t r then ended "expired" t r else r) (sessions w) (sessions w') /\
    w_committed w' = w_db w'.
Proof.
  intros [Hk _ _] t. destruct (cleanup_run w Hk) as (w' & Hrun & Hdb & Hc & _).
  exists w'. split; [exact Hrun|].
  assert (sessions w' = swept t (sessions w)) as -> by (rewrite Hdb; apply rows_set).
  split_and!; [| |done].
  - apply Forall_forall. intros r [(y & _ & Hy & ->)|[_ Hr]]%elem_of_update_where; [|done].
    unfold stale_session. done.
  - unfold swept, update_where. apply Forall2_fmap_r, Forall_Forall2_diag, Forall_forall. done.
Qed.
End Relay.

(** * Witnesses *)
Definition demo_world : World :=
  (for_each [Create "dev-a" "dev-b" true "default" "relay0"; Activate (demo_uuid 2) true]
     run_relay_op (world_of empty_db)).2.
Lemma demo_world_inv : relay_inv 0 demo_world.
Proof.
  destruct (relay_ops_sound (H := demo_env) demo_uuid_fresh 0
    [Create "dev-a" "dev-b" true "default" "relay0"; Activate (demo_uuid 2) true] (world_of empty_db))
    as (w & Hrun & Hw).
  - apply (relay_inv_start (H := demo_env) empty_db); [constructor|]. by intros r n Hr%not_elem_of_nil.
  - unfold demo_world. by rewrite Hrun.
Qed.

(** The database a new process finds: one active session, with an id of its
    own. *)
Definition restarted_db : DB :=
  set_rows (update_where (fun _ => true) (fun r => r <| id := "old" |>) (relay_sessions (w_db demo_world))) empty_db.
Lemma restarted_fresh r n : r ∈ relay_sessions restarted_db -> id r <> demo_uuid n.
Proof.
  intros Hr. assert (id r = "old") as ->; [|by destruct n].
  assert (Forall (fun r => id r = "old") (relay_sessions restarted_db)) as Hall by (vm_compute; by repeat constructor).
  rewrite Forall_forall in Hall. by apply Hall.
Qed.

(** A session is opened and used, and the one of the earlier process ends: one
    active session, and a gauge of zero. *)
Lemma relay_gauge_counts_active_witness :
  exists w, for_each [Create "a" "b" true "default" "relay0"; Activate (demo_uuid 2) false; Expire "old" false]
      run_relay_op (world_of restarted_db) = (Ok tt, w) /\ keyed (R := RelaySession) w /\
    w_metrics w RELAY_CONNECTIONS_ACTIVE = active_sessions w - 1.
Proof.
  exact (relay_gauge_counts_active (H := demo_env) demo_uuid_fresh restarted_db _
    ltac:(vm_compute; apply NoDup_singleton) restarted_fresh).
Defined.

Lemma relay_op_transitions_witness :
  table_moves demo_world (run_relay_op (Expire (demo_uuid 2) true) demo_world).2.
Proof. exact (proj2 (relay_op_transitions (H := demo_env) demo_uuid_fresh 0 (Expire (demo_uuid 2) true) demo_world demo_world_inv)). Defined.

Lemma cleanup_expires_exactly_witness :
  exists w', cleanup_expired_relays demo_world = (Ok 0, w').
Proof.
  destruct (cleanup_expires_exactly 0 demo_world demo_world_inv) as (w' & Hrun & _).
  exists w'. rewrite Hrun. reflexivity.
Defined.
