(* ===== verification/IPv4.v ===== *)
(** IPv4 addresses and networks: what the code uses of Python's [ipaddress].

    An address is its 32-bit value; a network is its first address and its
    prefix length.  Parsing follows the module check by check, with its error
    texts (a string is quoted with single quotes). *)
From Stdlib Require Import Ascii.
From S2P Require Import Prelude PyStr Bytes.
Local Open Scope string_scope.
Local Open Scope list_scope.
Local Open Scope Z_scope.

Definition quoted (s : string) : string := "'" +:+ s +:+ "'".

(** * Addresses *)
Definition parse_octet (s : string) : outcome Z :=
  if negb (truthy s) then Raise (ValueError "Empty octet not permitted")
  else if negb (str_forall is_digit s) then
    Raise (ValueError ("Only decimal digits permitted in " +:+ quoted s))
  else if (3 <? String.length s)%nat then
    Raise (ValueError ("At most 3 characters permitted in " +:+ quoted s))
  else if negb (String.eqb s "0") && startswith "0" s then
    Raise (ValueError ("Leading zeros are not permitted in " +:+ quoted s))
  else
    let n := digits_value 0 s in
    if 255 <? n then Raise (ValueError ("Octet " +:+ str_int n +:+ " (> 255) not permitted"))
    else Ok n.

Definition exn_text (e : exn) : string :=
  match e with ValueError m => m | AttributeError m => m | HTTPException _ d => d | _ => "" end.

(** [_ip_int_from_string] *)
Definition ip_int_from_string (s : string) : outcome Z :=
  if negb (truthy s) then Raise (ValueError "Address cannot be empty") else
  match split "." s with
  | [a; b; c; d] =>
    match (a' ← parse_octet a; b' ← parse_octet b; c' ← parse_octet c; d' ← parse_octet d;
           Ok (a' * 16777216 + b' * 65536 + c' * 256 + d')) with
    | Ok n => Ok n
    | Raise e => Raise (ValueError (exn_text e +:+ " in " +:+ quoted s))
    end
  | _ => Raise (ValueError ("Expected 4 octets in " +:+ quoted s))
  end.

(** [IPv4Address(s)] *)
Definition IPv4Address (s : string) : outcome Z :=
  if contains_char "/" s then Raise (ValueError ("Unexpected '/' in " +:+ quoted s))
  else ip_int_from_string s.

(** [str(address)] *)
Definition ip_str (n : Z) : string :=
  str_nat (n / 16777216) +:+ "." +:+ str_nat (n / 65536 mod 256) +:+ "." +:+
  str_nat (n / 256 mod 256) +:+ "." +:+ str_nat (n mod 256).

(** * Networks *)
Record IPv4Network_t := mkNet { network_address : Z; prefixlen : Z }.

(** The netmask of a prefix length, and the span of addresses under it. *)
Definition span (p : Z) : Z := 2 ^ (32 - p).
Definition netmask (p : Z) : Z := 2 ^ 32 - span p.

Definition invalid_netmask {A} (s : string) : outcome A :=
  Raise (ValueError (quoted s +:+ " is not a valid netmask")).
Definition prefix_from_prefix_string (s : string) : outcome Z :=
  if negb (truthy s && str_forall is_digit s) then invalid_netmask s
  else let p := digits_value 0 s in if p <=? 32 then Ok p else invalid_netmask s.
Definition prefix_from_ip_int (n : Z) : option Z :=
  List.find (fun p => netmask p =? n) (seqZ 0 33).
Definition prefix_from_ip_string (s : string) : outcome Z :=
  match ip_int_from_string s with
  | Raise _ => invalid_netmask s
  | Ok n =>
    match prefix_from_ip_int n with
    | Some p => Ok p
    | None =>
      match prefix_from_ip_int (Z.lxor n 4294967295) with
      | Some p => Ok p
      | None => invalid_netmask s
      end
    end
  end.
Definition make_netmask (s : string) : outcome Z :=
  match prefix_from_prefix_string s with
  | Ok p => Ok p
  | Raise _ => prefix_from_ip_string s
  end.

(** [IPv4Network(s, strict=False)] *)
Definition IPv4Network (s : string) : outcome IPv4Network_t :=
  match split "/" s with
  | [a] => n ← IPv4Address a; Ok (mkNet n 32)
  | [a; m] =>
    n ← IPv4Address a;
    p ← make_netmask m;
    Ok (mkNet (Z.land n (netmask p)) p)
  | _ => Raise (ValueError ("Only one '/' permitted in " +:+ quoted s))
  end.

Definition broadcast_address (n : IPv4Network_t) : Z := network_address n + span (prefixlen n) - 1.
(** [address in network] *)
Definition in_net (a : Z) (n : IPv4Network_t) : bool :=
  (network_address n <=? a) && (a <=? broadcast_address n).
(** [list(net.hosts())] *)
Definition hosts (n : IPv4Network_t) : list Z :=
  if prefixlen n =? 32 then [network_address n]
  else if prefixlen n =? 31 then seqZ (network_address n) 2
  else seqZ (network_address n + 1) (span (prefixlen n) - 2).
(** [a.overlaps(b)] *)
Definition overlaps (a b : IPv4Network_t) : bool :=
  in_net (network_address b) a || in_net (broadcast_address b) a ||
  in_net (network_address a) b || in_net (broadcast_address a) b.
Definition net_str (n : IPv4Network_t) : string :=
  ip_str (network_address n) +:+ "/" +:+ str_nat (prefixlen n).

Definition ip (a b c d : Z) : Z := a * 16777216 + b * 65536 + c * 256 + d.
(** The module's list of private networks, and the exceptions in it. *)
Definition private_networks : list IPv4Network_t :=
  [mkNet (ip 0 0 0 0) 8; mkNet (ip 10 0 0 0) 8; mkNet (ip 127 0 0 0) 8; mkNet (ip 169 254 0 0) 16;
   mkNet (ip 172 16 0 0) 12; mkNet (ip 192 0 0 0) 24; mkNet (ip 192 0 0 170) 31;
   mkNet (ip 192 0 2 0) 24; mkNet (ip 192 168 0 0) 16; mkNet (ip 198 18 0 0) 15;
   mkNet (ip 198 51 100 0) 24; mkNet (ip 203 0 113 0) 24; mkNet (ip 240 0 0 0) 4;
   mkNet (ip 255 255 255 255) 32].
Definition private_exceptions : list IPv4Network_t :=
  [mkNet (ip 192 0 0 9) 32; mkNet (ip 192 0 0 10) 32].
Definition is_private (n : IPv4Network_t) : bool :=
  existsb (fun p => in_net (network_address n) p && in_net (broadcast_address n) p) private_networks &&
  forallb (fun p => negb (in_net (network_address n) p) && negb (in_net (broadcast_address n) p))
    private_exceptions.
Definition loopback_network : IPv4Network_t := mkNet (ip 127 0 0 0) 8.
Definition is_loopback (n : IPv4Network_t) : bool :=
  in_net (network_address n) loopback_network && in_net (broadcast_address n) loopback_network.

(** * Facts *)
Lemma span_pos p : 0 <= p <= 32 -> 0 < span p.
Proof. intros. apply Z.pow_pos_nonneg; lia. Qed.
Lemma span_split p : 0 <= p <= 32 -> 2 ^ p * span p = 2 ^ 32.
Proof. intros. unfold span. rewrite <-Z.pow_add_r by lia. f_equal. lia. Qed.

(** Masking keeps the part of the address above the host bits. *)
Lemma land_netmask n p :
  0 <= n < 2 ^ 32 -> 0 <= p <= 32 -> Z.land n (netmask p) = n - n mod span p.
Proof.
  intros Hn Hp. assert (netmask p = Z.shiftl (Z.ones p) (32 - p)) as ->.
  { unfold netmask. rewrite Z.shiftl_mul_pow2, Z.ones_equiv by lia. fold (span p).
    rewrite <-(span_split p) by done. lia. }
  assert (n - n mod span p = Z.shiftl (Z.shiftr n (32 - p)) (32 - p)) as ->.
  { rewrite Z.shiftl_mul_pow2, Z.shiftr_div_pow2 by lia. fold (span p).
    pose proof (span_pos p Hp). rewrite Z.mod_eq by lia. lia. }
  apply Z.bits_inj'. intros k Hk. rewrite Z.land_spec, !Z.shiftl_spec by done.
  destruct (Z.ltb_spec k (32 - p)) as [Hlt|Hge].
  - rewrite (Z.testbit_neg_r (Z.ones p)), (Z.testbit_neg_r (Z.shiftr _ _)) by lia. by rewrite andb_false_r.
  - rewrite Z.shiftr_spec by lia. replace (k - (32 - p) + (32 - p)) with k by lia.
    rewrite Z.testbit_ones by lia. destruct (Z.ltb_spec (k - (32 - p)) p) as [Hin|Hout].
    + replace (0 <=? k - (32 - p)) with true by lia. by rewrite andb_true_r.
    + rewrite andb_false_r, andb_false_r. symmetry.
      apply Z.bits_above_log2; [lia|]. destruct (Z.eq_dec n 0) as [->|]; [simpl; lia|].
      apply Z.log2_lt_pow2; [lia|]. eapply Z.lt_le_trans; [apply Hn|]. apply Z.pow_le_mono_r; lia.
Qed.

(** ** Reading back what is printed *)
Lemma digits_value_lower acc s :
  str_forall is_digit s = true -> 0 <= acc -> acc * 10 ^ len s <= digits_value acc s.
Proof.
  revert acc. induction s as [|c s IH]; intros acc Hs Hacc; unfold len in *; cbn [String.length].
  - rewrite Z.pow_0_r. cbn. lia.
  - cbn [str_forall] in Hs. apply andb_true_iff in Hs as [Hc Hs]. cbn [digits_value].
    assert (0 <= digit_value c) as Hd.
    { unfold is_digit in Hc. unfold digit_value. apply andb_true_iff in Hc as [H1%Nat.leb_le _]. lia. }
    specialize (IH (10 * acc + digit_value c) Hs ltac:(lia)).
    rewrite Nat2Z.inj_succ, Z.pow_succ_r by lia.
    assert (0 < 10 ^ Z.of_nat (String.length s)) by (apply Z.pow_pos_nonneg; lia). nia.
Qed.

(** The text of a number below 256 is one of 256 strings: by computation. *)
Definition octet_ok (n : Z) : bool :=
  match parse_octet (str_nat n) with Ok m => m =? n | Raise _ => false end.
Lemma octets_ok : forallb octet_ok (seqZ 0 256) = true.
Proof. vm_compute. reflexivity. Qed.
Lemma parse_octet_str n : 0 <= n < 256 -> parse_octet (str_nat n) = Ok n.
Proof.
  intros Hn. pose proof (proj1 (forallb_forall _ _) octets_ok n) as H.
  rewrite <-list_elem_of_In, elem_of_seqZ in H. specialize (H ltac:(lia)). unfold octet_ok in H.
  destruct (parse_octet (str_nat n)) as [m|]; [|done]. apply Z.eqb_eq in H. by subst.
Qed.

Lemma str_nat_no_dot n : 0 <= n -> contains_char "." (str_nat n) = false.
Proof. by apply str_nat_contains. Qed.

Lemma split_dots a b c d :
  0 <= a -> 0 <= b -> 0 <= c -> 0 <= d ->
  split "." (str_nat a +:+ "." +:+ str_nat b +:+ "." +:+ str_nat c +:+ "." +:+ str_nat d)
  = [str_nat a; str_nat b; str_nat c; str_nat d].
Proof.
  intros. apply (split_join "." (str_nat a) [str_nat b; str_nat c; str_nat d]).
  repeat constructor; by apply str_nat_no_dot.
Qed.

Lemma ip_str_no_slash n : 0 <= n < 2 ^ 32 -> contains_char "/" (ip_str n) = false.
Proof.
  intros Hn. unfold ip_str. rewrite !contains_app.
  assert (forall m, 0 <= m -> contains_char "/" (str_nat m) = false) as H by (intros; by apply str_nat_contains).
  rewrite !H; [done|apply Z.mod_pos_bound; lia..|apply Z.div_pos; lia].
Qed.

(** [IPv4Address(str(a)) == a] *)
Lemma IPv4Address_str n : 0 <= n < 2 ^ 32 -> IPv4Address (ip_str n) = Ok n.
Proof.
  intros Hn. unfold IPv4Address. rewrite ip_str_no_slash by done.
  unfold ip_int_from_string.
  assert (truthy (ip_str n) = true) as ->.
  { unfold ip_str. destruct (str_nat (n / 16777216)) eqn:E; [by apply str_nat_ne in E|done]. }
  cbn [negb]. unfold ip_str.
  rewrite split_dots by (try apply Z.mod_pos_bound; try apply Z.div_pos; lia).
  rewrite !parse_octet_str; try (apply Z.mod_pos_bound; lia).
  - cbn. f_equal.
    pose proof (Z.div_mod n 256). pose proof (Z.div_mod (n / 256) 256). pose proof (Z.div_mod (n / 65536) 256).
    rewrite (Z.div_div n 256 256) in * by lia. rewrite (Z.div_div n 65536 256) in * by lia.
    change (256 * 256) with 65536 in *. change (65536 * 256) with 16777216 in *. lia.
  - split; [apply Z.div_pos; lia|]. apply Z.div_lt_upper_bound; lia.
Qed.

Lemma ip_str_inj a b : 0 <= a < 2 ^ 32 -> 0 <= b < 2 ^ 32 -> ip_str a = ip_str b -> a = b.
Proof.
  intros Ha Hb Heq. pose proof (IPv4Address_str a Ha) as H1. rewrite Heq, IPv4Address_str in H1 by done.
  by injection H1.
Qed.

(** ** What the parser returns *)
Lemma digits_value_nonneg acc s : str_forall is_digit s = true -> 0 <= acc -> 0 <= digits_value acc s.
Proof.
  intros Hs Hacc. pose proof (digits_value_lower acc s Hs Hacc).
  assert (0 < 10 ^ len s) by (apply Z.pow_pos_nonneg; unfold len; lia). nia.
Qed.
Lemma parse_octet_bound s n : parse_octet s = Ok n -> 0 <= n < 256.
Proof.
  unfold parse_octet. repeat (case_match; try done). intros [= <-].
  match goal with Hd : negb (str_forall is_digit s) = false |- _ => apply negb_false_iff in Hd as Hdig end.
  pose proof (digits_value_nonneg 0 s Hdig ltac:(lia)).
  match goal with Hl : (255 <? _) = false |- _ => apply Z.ltb_ge in Hl end. lia.
Qed.
Lemma ip_int_bound s n : ip_int_from_string s = Ok n -> 0 <= n < 2 ^ 32.
Proof.
  unfold ip_int_from_string. case_match; [done|].
  destruct (split "." s) as [|a [|b [|c [|d [|]]]]]; try done.
  destruct (parse_octet a) as [a'|] eqn:Ea; [|done].
  destruct (parse_octet b) as [b'|] eqn:Eb; [|done].
  destruct (parse_octet c) as [c'|] eqn:Ec; [|done].
  destruct (parse_octet d) as [d'|] eqn:Ed; [|done].
  cbn. intros [= <-]. apply parse_octet_bound in Ea, Eb, Ec, Ed. lia.
Qed.
Lemma IPv4Address_bound s n : IPv4Address s = Ok n -> 0 <= n < 2 ^ 32.
Proof. unfold IPv4Address. case_match; [done|]. apply ip_int_bound. Qed.
Lemma prefix_from_ip_int_bound n p : prefix_from_ip_int n = Some p -> 0 <= p <= 32.
Proof.
  unfold prefix_from_ip_int. intros [Hin _]%find_some.
  apply list_elem_of_In, elem_of_seqZ in Hin. lia.
Qed.
Lemma make_netmask_bound s p : make_netmask s = Ok p -> 0 <= p <= 32.
Proof.
  unfold make_netmask, prefix_from_prefix_string, prefix_from_ip_string, invalid_netmask.
  destruct (truthy s && str_forall is_digit s) eqn:Ed; cbn [negb].
  - apply andb_true_iff in Ed as [_ Ed]. pose proof (digits_value_nonneg 0 s Ed ltac:(lia)).
    destruct (Z.leb_spec (digits_value 0 s) 32); [intros [= <-]; lia|].
    repeat (case_match; try done); intros [= <-]; eauto using prefix_from_ip_int_bound.
  - repeat (case_match; try done); intros [= <-]; eauto using prefix_from_ip_int_bound.
Qed.

(** A legal prefix length, and an aligned span of 32-bit addresses. *)
Definition net_wf (n : IPv4Network_t) : Prop :=
  0 <= prefixlen n <= 32 /\ 0 <= network_address n /\ (span (prefixlen n) | network_address n) /\
  broadcast_address n < 2 ^ 32.

Lemma masked_wf n p : 0 <= n < 2 ^ 32 -> 0 <= p <= 32 -> net_wf (mkNet (n - n mod span p) p).
Proof.
  intros Hn Hp. pose proof (span_pos p Hp) as Hs. pose proof (span_split p Hp) as Hpow.
  unfold net_wf, broadcast_address. cbn. pose proof (Z.mod_pos_bound n (span p) Hs).
  assert (n - n mod span p = span p * (n / span p)) as E by (rewrite Z.mod_eq by lia; lia).
  split_and!; try lia.
  - pose proof (Z.mod_le n (span p)). lia.
  - rewrite E. apply Z.divide_factor_l.
  - rewrite E. assert (n / span p < 2 ^ p); [|nia].
    apply Z.div_lt_upper_bound; lia.
Qed.

Lemma IPv4Network_wf s n : IPv4Network s = Ok n -> net_wf n.
Proof.
  unfold IPv4Network. destruct (split "/" s) as [|a [|m [|]]]; try done.
  - destruct (IPv4Address a) as [x|] eqn:Ea; [|done]. intros [= <-].
    apply IPv4Address_bound in Ea. replace x with (x - x mod span 32) at 1 by (change (span 32) with 1; rewrite Z.mod_1_r; lia).
    apply masked_wf; lia.
  - destruct (IPv4Address a) as [x|] eqn:Ea; [|done].
    destruct (make_netmask m) as [p|] eqn:Em; [|done]. cbn. intros [= <-].
    apply IPv4Address_bound in Ea. apply make_netmask_bound in Em.
    rewrite land_netmask by done. by apply masked_wf.
Qed.

Lemma net_wf_range n h : net_wf n -> in_net h n = true -> 0 <= h < 2 ^ 32.
Proof. unfold in_net. intros (_ & ? & _ & ?) [?%Z.leb_le ?%Z.leb_le]%andb_true_iff. lia. Qed.

Lemma hosts_in_net n h : net_wf n -> h ∈ hosts n -> in_net h n = true.
Proof.
  intros (Hp & _). unfold hosts, in_net, broadcast_address. pose proof (span_pos (prefixlen n) Hp).
  destruct (Z.eqb_spec (prefixlen n) 32) as [E32|]; [|destruct (Z.eqb_spec (prefixlen n) 31) as [E31|]].
  - rewrite list_elem_of_singleton. intros ->. lia.
  - rewrite elem_of_seqZ. rewrite E31. change (span 31) with 2. lia.
  - rewrite elem_of_seqZ. lia.
Qed.

(** Two networks overlap when they share an address. *)
Lemma overlaps_spec a b :
  net_wf a -> net_wf b -> overlaps a b = true <-> exists h, in_net h a = true /\ in_net h b = true.
Proof.
  intros (Hpa & _) (Hpb & _). pose proof (span_pos _ Hpa). pose proof (span_pos _ Hpb).
  unfold overlaps, in_net, broadcast_address. split.
  - rewrite !orb_true_iff, !andb_true_iff, !Z.leb_le. intros Ho.
    exists (Z.max (network_address a) (network_address b)). lia.
  - intros (h & Ha & Hb). lia.
Qed.
