(* ===== verification/Acl.v ===== *)
(** Access rules between devices: [services/acl.py]. *)
From S2P Require Import Prelude PyStr Json Models Effects.
Local Open Scope string_scope.
Local Open Scope list_scope.
Local Open Scope Z_scope.

Definition rules_of (network_id : uuid) (r : ACLRule.ACLRule) : bool := String.eqb (ACLRule.network_id r) network_id.
Definition priority_le (a b : ACLRule.ACLRule) : bool := ACLRule.priority a <=? ACLRule.priority b.

(** [not rule_tags or tags.intersection(rule_tags)] *)
Definition tags_match (rule_tags tags : list string) : bool :=
  match rule_tags with [] => true | _ => existsb (fun t => mem t tags) rule_tags end.
Definition rule_applies (source_tags dest_tags : list string) (rule : ACLRule.ACLRule) : bool :=
  tags_match (ACLRule.src_tags rule) source_tags && tags_match (ACLRule.dst_tags rule) dest_tags.

Definition has_address (ip : string) (d : Device.Device) : bool :=
  bool_decide (Device.ip_address d = Some ip).

Definition check_device_access (source_device_id : uuid) (dest_ip : string) : IO bool :=
  source ← select_one (R := Device.Device) (by_id source_device_id);
  match source with
  | None => mret false
  | Some source =>
    if negb (Device.is_active source) then mret false else
    dest ← select_one (R := Device.Device) (has_address dest_ip);
    match dest with
    | None => mret false
    | Some dest =>
      if negb (Device.is_active dest) then mret false
      else if negb (String.eqb (Device.network_id source) (Device.network_id dest)) then mret false
      else
        rules ← select_where (rules_of (Device.network_id source));
        match sort_stable priority_le rules with
        | [] => mret true
        | rules =>
          let source_tags := default [] (Device.tags source) in
          let dest_tags := default [] (Device.tags dest) in
          match List.find (rule_applies source_tags dest_tags) rules with
          | Some rule => mret (String.eqb (ACLRule.action rule) "allow")
          | None => mret true
          end
        end
    end
  end.

(** * Facts *)
Lemma has_address_true ip d : has_address ip d = true <-> Device.ip_address d = Some ip.
Proof. unfold has_address. apply bool_decide_eq_true. Qed.
Lemma priority_le_total a b : priority_le a b = true \/ priority_le b a = true.
Proof. unfold priority_le. lia. Qed.
Lemma priority_le_trans a b c : priority_le a b = true -> priority_le b c = true -> priority_le a c = true.
Proof. unfold priority_le. lia. Qed.

(** The first rule found in a sorted list is a first one among those that
    apply. *)
Lemma find_sorted (p : ACLRule.ACLRule -> bool) l r :
  StronglySorted (fun a b => priority_le a b = true) l -> List.find p l = Some r ->
  r ∈ l /\ p r = true /\ forall r', r' ∈ l -> p r' = true -> ACLRule.priority r <= ACLRule.priority r'.
Proof.
  induction 1 as [|a l Hs IH Hall]; [done|]. cbn [List.find]. destruct (p a) eqn:E.
  - intros [= ->]. split_and!; [left|done|]. intros r' [->|Hr']%elem_of_cons _; [lia|].
    rewrite Forall_forall in Hall. apply Hall in Hr'. unfold priority_le in Hr'. lia.
  - intros Hf. destruct (IH Hf) as (Hin & Hp & Hle). split_and!; [by right|done|].
    intros r' [->|Hr']%elem_of_cons Hp'; [congruence|]. by apply Hle.
Qed.

(** ** The verdict, by the rules *)
Section Verdict.
Context (db : DB) (source dest : Device.Device).
Definition applies (r : ACLRule.ACLRule) : Prop :=
  r ∈ acl_rules db /\ ACLRule.network_id r = Device.network_id source /\
  rule_applies (default [] (Device.tags source)) (default [] (Device.tags dest)) r = true.
Definition first_rule (r : ACLRule.ACLRule) : Prop :=
  applies r /\ forall r', applies r' -> ACLRule.priority r <= ACLRule.priority r'.
Definition reachable : Prop :=
  Device.is_active source = true /\ Device.is_active dest = true /\ Device.network_id source = Device.network_id dest.
Definition justified (verdict : bool) : Prop :=
  (verdict = true -> reachable /\ ((forall r, ~ applies r) \/ exists r, first_rule r /\ ACLRule.action r = "allow")) /\
  (verdict = false -> ~ reachable \/ exists r, first_rule r /\ ACLRule.action r <> "allow").
End Verdict.
Lemma access_verdict source dest dest_ip w :
  keyed (R := Device.Device) w -> source ∈ devices (w_db w) -> dest ∈ devices (w_db w) ->
  Device.ip_address dest = Some dest_ip ->
  (forall d, d ∈ devices (w_db w) -> Device.ip_address d = Some dest_ip -> d = dest) ->
  exists verdict, check_device_access (Device.id source) dest_ip w = (Ok verdict, w) /\
    justified (w_db w) source dest verdict.
Proof.
  intros Hk Hs Hd Hip Huniq. unfold check_device_access, justified.
  change (Device.id source) with (row_id source). rewrite run_bind, select_by_id by done.
  destruct (Device.is_active source) eqn:Es; cbn [negb].
  2:{ exists false. split_and!; [done|done|]. intros _. left. intros (? & _). congruence. }
  rewrite run_bind, (select_one_unique _ w dest);
    [|done|done|by apply has_address_true|intros d Hin Hda%has_address_true; by apply Huniq].
  destruct (Device.is_active dest) eqn:Ed; cbn [negb].
  2:{ exists false. split_and!; [done|done|]. intros _. left. intros (_ & ? & _). congruence. }
  destruct (String.eqb_spec (Device.network_id source) (Device.network_id dest)) as [Hn|Hn]; cbn [negb].
  2:{ exists false. split_and!; [done|done|]. intros _. left. intros (_ & _ & ?). congruence. }
  unfold select_where. rewrite run_bind. cbn [gets]. set (l := List.filter _ _).
  assert (forall r, r ∈ sort_stable priority_le l <-> r ∈ acl_rules (w_db w) /\ ACLRule.network_id r = Device.network_id source) as Hl.
  { intros r. rewrite elem_of_sort_stable. unfold l, rules_of. rewrite elem_of_filter_list, String.eqb_eq. cbn. tauto. }
  pose proof (sort_stable_sorted priority_le priority_le_total priority_le_trans l) as Hsorted.
  assert (reachable source dest) as Hreach by done.
  set (p := rule_applies _ _) in *. destruct (List.find p (sort_stable priority_le l)) as [r|] eqn:E.
  - destruct (find_sorted _ _ _ Hsorted E) as (Hin & Hp & Hmin). apply Hl in Hin as [Hin Hnet].
    assert (first_rule (w_db w) source dest r) as Hfirst.
    { split; [done|]. intros r' (H1 & H2 & H3). apply Hmin; [|done]. by apply Hl. }
    exists (String.eqb (ACLRule.action r) "allow"). split.
    { destruct (sort_stable priority_le l) as [|r0 rs]; [done|]. by rewrite E. }
    split.
    + intros Ha%String.eqb_eq. eauto.
    + intros Ha%String.eqb_neq. eauto.
  - exists true. split.
    { destruct (sort_stable priority_le l) as [|r0 rs]; [done|]. by rewrite E. }
    split; [|done]. intros _. split; [done|]. left.
    intros r (H1 & H2 & H3). assert (r ∈ sort_stable priority_le l) as Hr by by apply Hl.
    apply list_elem_of_In in Hr. apply (find_none _ _ E) in Hr. fold p in H3. congruence.
Qed.

(** * Properties *)
(** C19. Between two devices, when no other one has the address that is asked for,
    the verdict is that of a rule with the least priority among the rules of
    their network that apply to their tags, and "allow" when none applies; an
    inactive device or a device of another network is never reached.  The
    database is only read. *)
Theorem acl_first_match source dest dest_ip w :
  keyed (R := Device.Device) w -> source ∈ devices (w_db w) -> dest ∈ devices (w_db w) ->
  Device.ip_address dest = Some dest_ip ->
  (forall d, d ∈ devices (w_db w) -> Device.ip_address d = Some dest_ip -> d = dest) ->
  exists verdict, check_device_access (Device.id source) dest_ip w = (Ok verdict, w) /\
    justified (w_db w) source dest verdict.
Proof. apply access_verdict. Qed.

(** Addresses are unique in a network, not over all of them, but the
    destination is looked up over all: a second device with the same address,
    in whatever network, makes the check raise. *)
Theorem acl_shared_address_raises source d1 d2 dest_ip w :
  keyed (R := Device.Device) w -> source ∈ devices (w_db w) -> Device.is_active source = true ->
  d1 ∈ devices (w_db w) -> d2 ∈ devices (w_db w) -> d1 <> d2 ->
  Device.ip_address d1 = Some dest_ip -> Device.ip_address d2 = Some dest_ip ->
  check_device_access (Device.id source) dest_ip w = (Raise MultipleResultsFound, w).
Proof.
  intros Hk Hs Ha H1 H2 Hne Hi1 Hi2. unfold check_device_access.
  change (Device.id source) with (row_id source). rewrite run_bind, select_by_id by done.
  rewrite Ha. cbn [negb]. rewrite run_bind, (select_one_multiple _ w d1 d2); [done|done|done| | |done];
    by apply has_address_true.
Qed.

(** * Witnesses *)
Definition acl_device (i net ip tag : string) : Device.Device :=
  Device.mk i i None net (Some ("pk-" +:+ i)) None (Some ip) true true false None None "active" None None None
    (Some [tag]) None None 0 0.
Definition acl_rule (i : string) (src dst : list string) (action : string) (priority : Z) : ACLRule.ACLRule :=
  ACLRule.mk i "net" src dst action priority 0.
Definition acl_db : DB :=
  empty_db <| devices := [acl_device "a" "net" "10.0.0.2" "dev"; acl_device "b" "net" "10.0.0.3" "prod";
                          acl_device "c" "other" "10.0.0.4" "prod"; acl_device "d" "net" "10.0.0.4" "prod"] |>
           <| acl_rules := [acl_rule "r1" [] [] "allow" 100; acl_rule "r2" ["dev"] ["prod"] "deny" 10] |>.
Lemma acl_db_keyed : keyed (R := Device.Device) (world_of acl_db).
Proof. apply (bool_decide_unpack _). vm_compute. exact I. Qed.

Lemma acl_first_match_witness :
  check_device_access "a" "10.0.0.3" (world_of acl_db) = (Ok false, world_of acl_db).
Proof.
  destruct (acl_first_match (acl_device "a" "net" "10.0.0.2" "dev") (acl_device "b" "net" "10.0.0.3" "prod")
    "10.0.0.3" (world_of acl_db)) as ([] & Hrun & Ht); [apply acl_db_keyed|set_solver|set_solver|done| | |exact Hrun].
  - intros d Hd Hip. change (devices (w_db (world_of acl_db))) with (devices acl_db) in Hd. unfold acl_db in Hd. cbn in Hd.
    repeat (apply elem_of_cons in Hd as [->|Hd]; [done|]). by apply elem_of_nil in Hd.
  - exfalso. clear Ht. vm_compute in Hrun. discriminate Hrun.
Defined.
Lemma acl_shared_address_raises_witness :
  (check_device_access "a" "10.0.0.4" (world_of acl_db)).1 = Raise MultipleResultsFound.
Proof.
  exact (f_equal fst (acl_shared_address_raises (acl_device "a" "net" "10.0.0.2" "dev")
    (acl_device "c" "other" "10.0.0.4" "prod") (acl_device "d" "net" "10.0.0.4" "prod") "10.0.0.4" (world_of acl_db)
    acl_db_keyed ltac:(set_solver) eq_refl ltac:(set_solver) ltac:(set_solver) ltac:(discriminate) eq_refl eq_refl)).
Defined.
