(* ===== verification/Ipam.v ===== *)
(** Address allocation and route prefixes: [backend/app/services/ipam.py] and
    [backend/app/services/route_validation.py]. *)
From Stdlib Require Import Ascii.
From S2P Require Import Prelude PyStr Bytes Json Models Effects IPv4.
Local Open Scope string_scope.
Local Open Scope list_scope.
Local Open Scope Z_scope.

Section Ipam.
  Context `{Env}.

Definition _network_address (subnet : string) : outcome IPv4Network_t :=
  match IPv4Network subnet with
  | Ok n => Ok n
  | Raise (ValueError e) => Raise (HTTPException 400 ("Invalid subnet: " +:+ e))
  | Raise e => Raise e
  end.

(** The addresses the network's devices hold. *)
Definition used_ips (network_id : uuid) (devices : list Device.Device) : list string :=
  omap (fun d => if String.eqb (Device.network_id d) network_id then Device.ip_address d else None) devices.


(** The scan of [allocate_ip]: the first host that is neither the gateway nor
    in use. *)
Fixpoint first_free (gateway : option string) (used : list string) (available : list Z) : option string :=
  match available with
  | [] => None
  | host :: rest =>
    let s := ip_str host in
    if match gateway with Some g => String.eqb s g | None => false end then first_free gateway used rest
    else if negb (mem s used) then Some s
    else first_free gateway used rest
  end.

Definition allocate_ip (network_id : uuid) (subnet : string) : IO string :=
  net ← lift (_network_address subnet);
  used ← gets (fun w => used_ips network_id (devices (w_db w)));
  let available := hosts net in
  let gateway := ip_str <$> head available in
  match first_free gateway used available with
  | Some s => mret s
  | None => raise (HTTPException 409 "No available IP addresses in subnet")
  end.

Definition release_ip (device_id : uuid) : IO unit :=
  found ← select_one (by_id (R := Device.Device) device_id);
  match found with
  | Some d => flush_device (Device.id d) (fun d => d <| Device.ip_address := None |>)
  | None => mret tt
  end.

(** * Route prefixes *)
Definition _FORBIDDEN_PREFIXES : list string :=
  ["127.0.0.0/8"; "169.254.0.0/16"; "224.0.0.0/4"; "240.0.0.0/4"; "0.0.0.0/8"].

Definition check_safe_prefix (prefix : string) (is_exit_node : bool) : outcome unit :=
  if mem prefix _FORBIDDEN_PREFIXES then
    Raise (HTTPException 400 ("Route prefix " +:+ prefix +:+ " is reserved and cannot be advertised"))
  else if String.eqb prefix "0.0.0.0/0" then
    if negb is_exit_node then Raise (HTTPException 400 "0.0.0.0/0 can only be advertised as an exit node")
    else Ok tt
  else if String.eqb prefix "::/0" then
    if negb is_exit_node then Raise (HTTPException 400 "::/0 can only be advertised as an exit node")
    else Ok tt
  else
    match IPv4Network prefix with
    | Raise (ValueError e) => Raise (HTTPException 400 ("Invalid CIDR prefix: " +:+ e))
    | Raise e => Raise e
    | Ok net =>
      if prefixlen net <? 8 then
        Raise (HTTPException 400
          ("Prefix length /" +:+ str_int (prefixlen net) +:+ " is too broad. Minimum is /8."))
      else if negb (is_private net) && negb (is_loopback net) then
        if debug settings then Ok tt
        else Raise (HTTPException 400
          ("Public IP range " +:+ prefix +:+ " cannot be advertised as a subnet route"))
      else Ok tt
    end.

Fixpoint first_overlap (new_net : IPv4Network_t) (existing_prefixes : list string) : option string :=
  match existing_prefixes with
  | [] => None
  | existing :: rest =>
    match IPv4Network existing with
    | Raise _ => first_overlap new_net rest
    | Ok existing_net => if overlaps new_net existing_net then Some existing else first_overlap new_net rest
    end
  end.
Definition check_overlap (existing_prefixes : list string) (new_prefix : string) : option string :=
  match IPv4Network new_prefix with
  | Raise _ => None
  | Ok new_net => first_overlap new_net existing_prefixes
  end.

(** * Facts *)
Lemma first_free_some g used available s :
  first_free g used available = Some s ->
  exists h pre post, available = pre ++ h :: post /\ s = ip_str h /\ g <> Some s /\ s ∉ used /\
    forall h', h' ∈ pre -> g = Some (ip_str h') \/ ip_str h' ∈ used.
Proof.
  induction available as [|h rest IH]; [done|]. cbn [first_free].
  assert (forall b, b = match g with Some g => String.eqb (ip_str h) g | None => false end ->
    if b then g = Some (ip_str h) else g <> Some (ip_str h)) as Hg.
  { intros b ->. destruct g as [g|]; [|done]. destruct (String.eqb_spec (ip_str h) g); congruence. }
  specialize (Hg _ eq_refl). destruct (match g with Some _ => _ | None => _ end).
  - intros (h' & pre & post & -> & -> & Hne & Hnu & Hpre)%IH.
    exists h', (h :: pre), post. split_and!; try done. set_solver.
  - destruct (mem (ip_str h) used) eqn:Em; cbn [negb].
    + apply mem_true in Em. intros (h' & pre & post & -> & -> & Hne & Hnu & Hpre)%IH.
      exists h', (h :: pre), post. split_and!; try done. set_solver.
    + intros [= <-]. apply mem_false in Em. exists h, [], rest. split_and!; try done. set_solver.
Qed.
Lemma first_free_none g used available :
  first_free g used available = None ->
  forall h, h ∈ available -> g = Some (ip_str h) \/ ip_str h ∈ used.
Proof.
  induction available as [|h rest IH]; [set_solver|]. cbn [first_free]. intros Hf h' Hh'.
  destruct (match g with Some _ => _ | None => _ end) eqn:Eg.
  - apply elem_of_cons in Hh' as [->|Hh']; [|by apply IH]. left.
    destruct g as [g|]; [|done]. apply String.eqb_eq in Eg. by subst.
  - destruct (mem (ip_str h) used) eqn:Em; cbn [negb] in Hf; [|done]. apply mem_true in Em.
    apply elem_of_cons in Hh' as [->|Hh']; [by right|by apply IH].
Qed.

Lemma elem_of_used_ips network_id ds s :
  s ∈ used_ips network_id ds <->
  exists d, d ∈ ds /\ Device.network_id d = network_id /\ Device.ip_address d = Some s.
Proof.
  unfold used_ips. rewrite list_elem_of_omap. split.
  - intros (d & Hd & Hs). destruct (String.eqb_spec (Device.network_id d) network_id); [|done]. eauto.
  - intros (d & Hd & <- & Hs). exists d. by rewrite String.eqb_refl.
Qed.


Lemma hosts_sorted n a b pre post :
  hosts n = pre ++ a :: post -> b ∈ hosts n -> b < a -> b ∈ pre.
Proof.
  assert (forall m len, hosts n = seqZ m len -> hosts n = pre ++ a :: post -> b ∈ hosts n -> b < a -> b ∈ pre)
    as Hseq.
  { intros m len -> Heq Hb Hlt. rewrite Heq in Hb.
    apply elem_of_app in Hb as [?|[->|Hb]%elem_of_cons]; [done|lia|]. exfalso.
    apply list_elem_of_lookup in Hb as [j Hj].
    assert (seqZ m len !! (length pre) = Some a) as Ha by (rewrite Heq, lookup_app_r, Nat.sub_diag; done).
    assert (seqZ m len !! (length pre + S j)%nat = Some b) as Hb'.
    { rewrite Heq, lookup_app_r by lia. by replace (length pre + S j - length pre)%nat with (S j) by lia. }
    apply lookup_seqZ in Ha, Hb'. lia. }
  unfold hosts in *. repeat case_match; eauto.
  destruct pre as [|x [|]]; intros E Hb Hlt; simplify_eq/=;
    apply list_elem_of_singleton in Hb; subst; lia.
Qed.

Lemma allocate_ip_run network_id subnet net w :
  IPv4Network subnet = Ok net ->
  allocate_ip network_id subnet w =
  (match first_free (ip_str <$> head (hosts net)) (used_ips network_id (devices (w_db w))) (hosts net) with
   | Some s => Ok s
   | None => Raise (HTTPException 409 "No available IP addresses in subnet")
   end, w).
Proof.
  intros Hnet. unfold allocate_ip, _network_address. rewrite Hnet.
  unfold lift, gets, mbind, M_bind. cbv beta iota zeta. by destruct (first_free _ _ _).
Qed.

(** * Properties *)

(** C36. For a subnet the parser accepts, [allocate_ip] reads the database only
    and either returns the text of the lowest host address of the subnet that
    is not the gateway (the first host) and that no device of the network
    holds, or answers 409, and then every other host address is held. *)
Theorem allocate_ip_lowest_free network_id subnet net w :
  IPv4Network subnet = Ok net ->
  let used := used_ips network_id (devices (w_db w)) in
  let taken h := head (hosts net) = Some h \/ ip_str h ∈ used in
  (exists h, allocate_ip network_id subnet w = (Ok (ip_str h), w) /\ h ∈ hosts net /\ in_net h net = true /\
     ~ taken h /\ forall h', h' ∈ hosts net -> h' < h -> taken h') \/
  (allocate_ip network_id subnet w = (Raise (HTTPException 409 "No available IP addresses in subnet"), w) /\
   forall h, h ∈ hosts net -> taken h).
Proof.
  intros Hnet used taken. pose proof (IPv4Network_wf _ _ Hnet) as Hwf.
  assert (forall h, h ∈ hosts net -> 0 <= h < 2 ^ 32) as Hr
    by (intros; eapply net_wf_range, hosts_in_net; done).
  assert (forall h, h ∈ hosts net -> ip_str <$> head (hosts net) = Some (ip_str h) -> head (hosts net) = Some h)
    as Hgw.
  { intros h Hh. destruct (hosts net) as [|g l] eqn:E; [done|]. cbn. intros [= Hg].
    f_equal. apply ip_str_inj; [apply Hr; left|by apply Hr|done]. }
  rewrite (allocate_ip_run _ _ net) by done. fold used.
  destruct (first_free (ip_str <$> head (hosts net)) used (hosts net)) as [s|] eqn:E.
  - left. apply first_free_some in E as (h & pre & post & Hsplit & -> & Hg & Hu & Hpre).
    assert (h ∈ hosts net) as Hh by (rewrite Hsplit; set_solver).
    exists h. split_and!; [done|done|by apply hosts_in_net| |].
    + intros [Hhd|?]; [|done]. by rewrite Hhd in Hg.
    + intros h' Hh' Hlt. destruct (Hpre h') as [Hg'|?]; [by eapply hosts_sorted|left|by right].
      by apply Hgw.
  - right. split; [done|]. intros h Hh. destruct (first_free_none _ _ _ E h Hh) as [?|?]; [left|by right].
    by apply Hgw.
Qed.

(** A route prefix passes the check only as an exit node's default route
    or, outside debug mode, when it parses to a network of prefix length 8 at
    least whose every address lies in one of the private networks. *)
Theorem check_safe_prefix_sound prefix exit :
  check_safe_prefix prefix exit = Ok tt -> debug settings = false ->
  (exit = true /\ (prefix = "0.0.0.0/0" \/ prefix = "::/0")) \/
  (exists net, IPv4Network prefix = Ok net /\ 8 <= prefixlen net /\
     exists p, p ∈ private_networks /\ forall h, in_net h net = true -> in_net h p = true).
Proof.
  unfold check_safe_prefix. intros Hc Hd. destruct (mem prefix _); [done|].
  destruct (String.eqb_spec prefix "0.0.0.0/0"); [left; destruct exit; by auto|].
  destruct (String.eqb_spec prefix "::/0"); [left; destruct exit; by auto|].
  destruct (IPv4Network prefix) as [net|[]] eqn:En; try done.
  destruct (Z.ltb_spec (prefixlen net) 8); [done|]. right. exists net. split; [done|]. split; [done|].
  assert (exists p, p ∈ private_networks /\ in_net (network_address net) p = true /\
    in_net (broadcast_address net) p = true) as (p & Hp & Ha & Hb).
  { rewrite Hd in Hc. destruct (is_private net) eqn:Epr.
    - unfold is_private in Epr. apply andb_true_iff in Epr as [(p & Hp & [? ?]%andb_true_iff)%existsb_exists _].
      exists p. by rewrite list_elem_of_In.
    - destruct (is_loopback net) eqn:El; [|done]. unfold is_loopback in El.
      apply andb_true_iff in El as [? ?]. exists loopback_network. split; [|done]. unfold private_networks.
      right. right. left. }
  exists p. split; [done|]. intros h Hh. unfold in_net in *. lia.
Qed.

(** The reserved networks are compared as text, so they pass the check
    under another spelling: any longer prefix of loopback, the loopback and
    link-local networks written with a host address in them. *)
Theorem reserved_prefixes_pass :
  (forall p, 9 <= p <= 32 -> check_safe_prefix ("127.0.0.0/" +:+ str_nat p) false = Ok tt) /\
  check_safe_prefix "127.0.0.1/8" false = Ok tt /\ check_safe_prefix "169.254.0.1/16" false = Ok tt /\
  check_safe_prefix "0.0.0.0/08" false = Ok tt.
Proof.
  split; [|split_and!; vm_compute; reflexivity]. intros p Hp.
  assert (forallb (fun p => match check_safe_prefix ("127.0.0.0/" +:+ str_nat p) false with
                            | Ok _ => true | Raise _ => false end) (seqZ 9 24) = true) as Hall
    by (vm_compute; reflexivity).
  rewrite forallb_forall in Hall. specialize (Hall p). rewrite <-list_elem_of_In, elem_of_seqZ in Hall.
  specialize (Hall ltac:(lia)). by destruct (check_safe_prefix _ false) as [[]|].
Qed.

(** C37. [check_overlap] answers the first existing prefix that shares an
    address with the new one, and nothing when none does or the new prefix
    does not parse; existing prefixes that do not parse are passed over. *)
Theorem check_overlap_spec existing prefix new :
  IPv4Network prefix = Ok new ->
  let shares e := exists n h, IPv4Network e = Ok n /\ in_net h new = true /\ in_net h n = true in
  match check_overlap existing prefix with
  | Some e => exists pre post, existing = pre ++ e :: post /\ shares e /\ forall x, x ∈ pre -> ~ shares x
  | None => forall e, e ∈ existing -> ~ shares e
  end.
Proof.
  intros Hnew shares. pose proof (IPv4Network_wf _ _ Hnew) as Hwf. unfold check_overlap. rewrite Hnew.
  induction existing as [|x l IH]; cbn [first_overlap]; [set_solver|].
  assert (forall n, IPv4Network x = Ok n -> shares x <-> overlaps new n = true) as Hov.
  { intros n Hn. rewrite overlaps_spec by eauto using IPv4Network_wf. unfold shares. split.
    - intros (n' & h & Hn' & ? & ?). rewrite Hn in Hn'. injection Hn' as <-. eauto.
    - intros (h & ? & ?). eauto. }
  destruct (IPv4Network x) as [n|e] eqn:En.
  - specialize (Hov n eq_refl). destruct (overlaps new n) eqn:Eo.
    + exists [], l. split; [done|]. split; [by apply Hov|set_solver].
    + assert (~ shares x) as Hx by (rewrite Hov; done).
      destruct (first_overlap new l) as [y|].
      * destruct IH as (pre & post & -> & ? & Hpre). exists (x :: pre), post. split_and!; try done.
        intros z [->|Hz]%elem_of_cons; [done|by apply Hpre].
      * intros z [->|Hz]%elem_of_cons; [done|by apply IH].
  - assert (~ shares x) as Hx by (intros (n & h & Hn & _); congruence).
    destruct (first_overlap new l) as [y|].
    + destruct IH as (pre & post & -> & ? & Hpre). exists (x :: pre), post. split_and!; try done.
      intros z [->|Hz]%elem_of_cons; [done|by apply Hpre].
    + intros z [->|Hz]%elem_of_cons; [done|by apply IH].
Qed.
End Ipam.

(** * Witnesses *)
Lemma allocate_ip_lowest_free_witness :
  exists h, allocate_ip "net" "10.0.0.0/30" (world_of empty_db) = (Ok (ip_str h), world_of empty_db).
Proof.
  destruct (allocate_ip_lowest_free "net" "10.0.0.0/30" (mkNet (ip 10 0 0 0) 30) (world_of empty_db))
    as [(h & Hrun & _)|[_ Hall]]; [vm_compute; reflexivity|by exists h|].
  exfalso. destruct (Hall (ip 10 0 0 2)) as [Hhd|Hu]; [|discriminate Hhd|].
  - apply elem_of_seqZ. vm_compute. done.
  - by apply not_elem_of_nil in Hu.
Defined.
Lemma check_safe_prefix_sound_witness :
  exists net, IPv4Network "192.168.7.0/24" = Ok net /\ 8 <= prefixlen net.
Proof.
  destruct (check_safe_prefix_sound (H := demo_env) "192.168.7.0/24" false) as [[[=] _]|(net & Hn & Hp & _)];
    [vm_compute; reflexivity|reflexivity|]. by exists net.
Defined.
Lemma check_overlap_spec_witness :
  exists pre post, ["bad"; "10.1.0.0/16"; "10.0.0.0/8"] = pre ++ "10.1.0.0/16" :: post.
Proof.
  pose proof (check_overlap_spec ["bad"; "10.1.0.0/16"; "10.0.0.0/8"] "10.1.2.0/24" (mkNet (ip 10 1 2 0) 24)
    ltac:(vm_compute; reflexivity)) as Hs.
  cbv zeta in Hs. replace (check_overlap _ _) with (Some "10.1.0.0/16") in Hs by (vm_compute; reflexivity).
  destruct Hs as (pre & post & Hsplit & _). by exists pre, post.
Defined.
