(* ===== verification/Topology.v ===== *)
(** Connectivity plans: [backend/app/services/topology.py].

    A plan generator is a pure function of the device states, the routes and
    the endpoints; the three generators share their interface
    ([TopologyGenerator] below is the abstract class's method). *)
From Stdlib Require Import Ascii.
From S2P Require Import Prelude PyStr Bytes Json Models Effects IPv4.
Local Open Scope string_scope.
Local Open Scope list_scope.
Local Open Scope Z_scope.

Definition endpoint_row : Type := DeviceEndpoint.DeviceEndpoint.

Inductive TopologyType := STAR | MESH | HYBRID.
(** [TopologyType(value)] *)
Definition topology_type (value : string) : outcome TopologyType :=
  if String.eqb value "star" then Ok STAR
  else if String.eqb value "mesh" then Ok MESH
  else if String.eqb value "hybrid" then Ok HYBRID
  else Raise (ValueError (quoted value +:+ " is not a valid TopologyType")).

Record DeviceState := mkDeviceState {
  ds_id : string;
  ds_public_key : string;
  ds_ip_address : string;
  ds_dns_enabled : bool;
  ds_exit_node_id : option string
}.
Record NetworkState := mkNetworkState { ns_subnet : string; ns_topology : option string }.
Record PeerPlan := mkPeerPlan {
  pp_public_key : string;
  pp_allowed_ips : list string;
  pp_endpoint : option string;
  pp_endpoint_port : option Z;
  pp_persistent_keepalive : option Z;
  pp_relay_fallback : bool
}.
Record TopologyPlan := mkTopologyPlan {
  tp_device_id : string;
  tp_address : string;
  tp_subnet : string;
  tp_dns_servers : option (list string);
  tp_peers : list PeerPlan;
  tp_mtu : option Z
}.
Record PeerConfig := mkPeerConfig {
  pc_public_key : string;
  pc_allowed_ips : list string;
  pc_endpoint : option string;
  pc_endpoint_port : option Z;
  pc_persistent_keepalive : option Z
}.
Record WireGuardConfig := mkWireGuardConfig {
  wc_private_key : string;
  wc_address : string;
  wc_subnet : string;
  wc_listen_port : option Z;
  wc_dns_servers : option (list string);
  wc_peers : list PeerConfig;
  wc_mtu : option Z
}.

(** Python's [a or b] on optional strings and integers, and truth of an
    optional list. *)
Definition or_str (a b : option string) : option string := if opt_truthy a then a else b.
Definition int_truthy (a : option Z) : bool := match a with Some z => negb (z =? 0) | None => false end.
Definition or_int (a b : option Z) : option Z := if int_truthy a then a else b.
Definition list_truthy {A} (l : list A) : bool := match l with [] => false | _ => true end.

(** ** [WireGuardConfig.to_ini] *)
Definition peer_lines (p : PeerConfig) : list string :=
  ["[Peer]"; "PublicKey = " +:+ pc_public_key p]
  ++ (if opt_truthy (pc_endpoint p) then
        ["Endpoint = " +:+ default "" (pc_endpoint p) +:+ ":" +:+
         str_int (default 51820 (or_int (pc_endpoint_port p) None))] else [])
  ++ (if list_truthy (pc_allowed_ips p) then ["AllowedIPs = " +:+ join ", " (pc_allowed_ips p)] else [])
  ++ (match pc_persistent_keepalive p with
      | Some k => ["PersistentKeepalive = " +:+ str_int k] | None => [] end)
  ++ [""].
Definition NL : string := String (ascii_of_nat 10) "".
Definition to_ini (c : WireGuardConfig) : outcome string :=
  net ← IPv4Network (wc_subnet c);
  Ok (join NL (
    ["[Interface]"; "PrivateKey = " +:+ wc_private_key c;
     "Address = " +:+ wc_address c +:+ "/" +:+ str_int (prefixlen net)]
    ++ (if int_truthy (wc_listen_port c) then ["ListenPort = " +:+ str_int (default 0 (wc_listen_port c))] else [])
    ++ (match wc_dns_servers c with
        | Some (s :: l) => ["DNS = " +:+ join ", " (s :: l)] | _ => [] end)
    ++ (if int_truthy (wc_mtu c) then ["MTU = " +:+ str_int (default 0 (wc_mtu c))] else [])
    ++ [""]
    ++ concat (peer_lines <$> wc_peers c))).

(** ** Endpoints *)
Definition endpoint_rank (e : endpoint_row) : Z * Z :=
  (- DeviceEndpoint.priority e, - DeviceEndpoint.last_seen e).
Definition rank_le (a b : endpoint_row) : bool :=
  let '(p, s) := endpoint_rank a in
  let '(q, t) := endpoint_rank b in
  (p <? q) || ((p =? q) && (s <=? t)).
Definition _sort_endpoints (eps : list endpoint_row) : list endpoint_row := sort_stable rank_le eps.
Definition _best_endpoint (eps : list endpoint_row) : option string * option Z :=
  match _sort_endpoints (List.filter DeviceEndpoint.is_active eps) with
  | [] => (None, None)
  | best :: _ => (Some (DeviceEndpoint.endpoint best), Some (DeviceEndpoint.port best))
  end.

(** * The generators *)
Section Generators.
  Context `{Env}.

Definition server_endpoint : string :=
  if truthy (wireguard_server_endpoint settings) then wireguard_server_endpoint settings else "localhost".
Definition server_port : Z := wireguard_port settings.

Record plan_input := mkPlanInput {
  pi_device : DeviceState;
  pi_all_devices : list DeviceState;
  pi_network : NetworkState;
  pi_server_device_id : string;
  pi_routes_by_device : gmap string (list string);
  pi_endpoints_by_device : gmap string (list endpoint_row)
}.

Definition has_id (i : string) (d : DeviceState) : bool := String.eqb (ds_id d) i.
Definition plan_of (i : plan_input) (peers : list PeerPlan) : TopologyPlan :=
  mkTopologyPlan (ds_id (pi_device i)) (ds_ip_address (pi_device i)) (ns_subnet (pi_network i)) None peers None.

(** The address of a device and the routes it advertises. *)
Definition allowed_ips_of (i : plan_input) (d : DeviceState) : list string :=
  (ds_ip_address d +:+ "/32") :: default [] (pi_routes_by_device i !! ds_id d).

(** The exit-node clause at the end of each generator. *)
Definition exit_node_peers (i : plan_input) (peers : list PeerPlan) : list PeerPlan :=
  let device := pi_device i in
  if opt_truthy (ds_exit_node_id device) &&
     negb (String.eqb (default "" (ds_exit_node_id device)) (pi_server_device_id i)) then
    match List.filter (has_id (default "" (ds_exit_node_id device))) (pi_all_devices i) with
    | ed :: _ =>
      if truthy (ds_public_key ed) &&
         negb (existsb (fun p => String.eqb (pp_public_key p) (ds_public_key ed)) peers)
      then peers ++ [mkPeerPlan (ds_public_key ed) ["0.0.0.0/0"; "::/0"] None None None false]
      else peers
    | [] => peers
    end
  else peers.

Definition star_plan (i : plan_input) : TopologyPlan :=
  let sid := pi_server_device_id i in
  match List.find (has_id sid) (pi_all_devices i) with
  | None => plan_of i []
  | Some server =>
    plan_of i (
      if has_id sid (pi_device i) then
        (fun other => mkPeerPlan (ds_public_key other) (allowed_ips_of i other) None None None false)
          <$> List.filter (fun other => negb (has_id sid other)) (pi_all_devices i)
      else
        exit_node_peers i
          [mkPeerPlan (ds_public_key server) [ns_subnet (pi_network i)]
             (Some server_endpoint) (Some server_port) (Some 25) false])
  end.

Definition others (i : plan_input) : list DeviceState :=
  List.filter (fun other => negb (has_id (ds_id (pi_device i)) other)) (pi_all_devices i).

Definition mesh_peer (i : plan_input) (other : DeviceState) : PeerPlan :=
  let eps := default [] (pi_endpoints_by_device i !! ds_id other) in
  let '(ep, ep_port) := _best_endpoint eps in
  let is_server := has_id (pi_server_device_id i) other in
  mkPeerPlan (ds_public_key other) (allowed_ips_of i other)
    (or_str ep (if is_server then Some server_endpoint else None))
    (or_int ep_port (if is_server then Some server_port else None))
    (Some 25) (negb (list_truthy eps)).
Definition mesh_plan (i : plan_input) : TopologyPlan :=
  plan_of i (exit_node_peers i (mesh_peer i <$> others i)).

Definition hybrid_peer (i : plan_input) (other : DeviceState) : PeerPlan :=
  let eps := default [] (pi_endpoints_by_device i !! ds_id other) in
  let '(ep, ep_port) := _best_endpoint eps in
  if has_id (pi_server_device_id i) other then
    mkPeerPlan (ds_public_key other) [ns_subnet (pi_network i)]
      (or_str ep (Some server_endpoint)) (or_int ep_port (Some server_port)) (Some 25) false
  else if opt_truthy ep then
    mkPeerPlan (ds_public_key other) (allowed_ips_of i other) ep ep_port (Some 25) false
  else mkPeerPlan (ds_public_key other) (allowed_ips_of i other) None None None true.
Definition hybrid_plan (i : plan_input) : TopologyPlan :=
  plan_of i (exit_node_peers i (hybrid_peer i <$> others i)).

(** [TopologyGenerator.generate_plan], by generator. *)
Definition generate_plan (t : TopologyType) : plan_input -> TopologyPlan :=
  match t with STAR => star_plan | MESH => mesh_plan | HYBRID => hybrid_plan end.

(** [_get_topology_generator_from_state] and [_get_topology_generator] of
    [services/wireguard.py]: the network's own topology, or the default. *)
Definition get_topology_generator (topology : option string) : outcome TopologyType :=
  topology_type (if opt_truthy topology then default "" topology else wireguard_topology settings).

(** ** [generate_configs], the legacy entry point *)
Definition state_of_device (d : Device.Device) : DeviceState :=
  mkDeviceState (Device.id d) (default "" (Device.public_key d)) (default "" (Device.ip_address d))
    (Device.dns_enabled d)
    (if opt_truthy (Device.exit_node_id d) then Device.exit_node_id d else None).
Definition planned (d : Device.Device) : bool :=
  opt_truthy (Device.public_key d) && opt_truthy (Device.ip_address d).
Definition peer_config (p : PeerPlan) : PeerConfig :=
  mkPeerConfig (pp_public_key p) (pp_allowed_ips p) (pp_endpoint p) (pp_endpoint_port p)
    (pp_persistent_keepalive p).

Fixpoint configs_for (t : TopologyType) (mk_input : DeviceState -> plan_input) (server_id subnet : string)
    (dns_servers : option (list string)) (ds : list Device.Device)
    : outcome (list (uuid * WireGuardConfig)) :=
  match ds with
  | [] => Ok []
  | d :: rest =>
    if negb (opt_truthy (Device.private_key_enc d)) || negb (planned d)
    then configs_for t mk_input server_id subnet dns_servers rest
    else
      let plan := generate_plan t (mk_input (state_of_device d)) in
      private ← fernet_decrypt (default "" (Device.private_key_enc d));
      more ← configs_for t mk_input server_id subnet dns_servers rest;
      Ok ((Device.id d,
           mkWireGuardConfig private (default "" (Device.ip_address d)) subnet
             (if String.eqb (Device.id d) server_id then Some server_port else None)
             (if Device.dns_enabled d then dns_servers else None)
             (peer_config <$> tp_peers plan) None) :: more)
  end.
Definition generate_configs (t : TopologyType) (devices : list Device.Device) (server_device : Device.Device)
    (network : Network.Network) (dns_servers : option (list string))
    (routes : gmap string (list string)) (endpoints : gmap string (list endpoint_row))
    : outcome (list (uuid * WireGuardConfig)) :=
  let all_devices := state_of_device <$> List.filter planned devices in
  let network_state := mkNetworkState (Network.subnet network) None in
  configs_for t (fun d => mkPlanInput d all_devices network_state (Device.id server_device) routes endpoints)
    (Device.id server_device) (Network.subnet network) dns_servers devices.

(** * Facts *)
Lemma find_has_id i l d : List.find (has_id i) l = Some d -> d ∈ l /\ ds_id d = i.
Proof.
  intros [Hin Hid]%find_some. split; [by apply list_elem_of_In|]. by apply String.eqb_eq in Hid.
Qed.
Lemma elem_of_others i d : d ∈ others i <-> d ∈ pi_all_devices i /\ ds_id d <> ds_id (pi_device i).
Proof.
  unfold others. rewrite elem_of_filter_list. unfold has_id. rewrite negb_true_iff, String.eqb_neq. tauto.
Qed.

(** The exit-node clause adds a default-route peer exactly for a known exit
    node, other than the server, that is not among the peers yet. *)
Lemma exit_node_peers_cases i peers :
  exit_node_peers i peers = peers \/
  exists e ed, ds_exit_node_id (pi_device i) = Some e /\ e <> pi_server_device_id i /\
    ed ∈ pi_all_devices i /\ ds_id ed = e /\
    (forall p, p ∈ peers -> pp_public_key p <> ds_public_key ed) /\
    exit_node_peers i peers =
      peers ++ [mkPeerPlan (ds_public_key ed) ["0.0.0.0/0"; "::/0"] None None None false].
Proof.
  unfold exit_node_peers. destruct (ds_exit_node_id (pi_device i)) as [e|]; [|by left]. cbn.
  destruct (truthy e); [|by left]. destruct (String.eqb_spec e (pi_server_device_id i)) as [|Hs]; [by left|].
  cbn. destruct (List.filter (has_id e) (pi_all_devices i)) as [|ed l] eqn:El; [by left|].
  assert (ed ∈ List.filter (has_id e) (pi_all_devices i)) as [Hid Hin]%elem_of_filter_list by (rewrite El; left).
  apply String.eqb_eq in Hid. destruct (truthy (ds_public_key ed)); [|by left]. cbn.
  destruct (existsb _ peers) eqn:Ex; [by left|]. right. exists e, ed. split_and!; try done.
  intros p Hp Heq. apply not_true_iff_false in Ex. apply Ex, existsb_exists.
  exists p. split; [by apply list_elem_of_In|by apply String.eqb_eq].
Qed.

Lemma mesh_peer_key i d : pp_public_key (mesh_peer i d) = ds_public_key d.
Proof. unfold mesh_peer. by destruct (_best_endpoint _). Qed.
Lemma mesh_peer_allowed i d : pp_allowed_ips (mesh_peer i d) = allowed_ips_of i d.
Proof. unfold mesh_peer. by destruct (_best_endpoint _). Qed.
Lemma mesh_peer_relay i d :
  pp_relay_fallback (mesh_peer i d) = true <-> default [] (pi_endpoints_by_device i !! ds_id d) = [].
Proof.
  unfold mesh_peer. destruct (_best_endpoint _). cbn.
  by destruct (pi_endpoints_by_device i !! ds_id d) as [[|]|].
Qed.
Lemma hybrid_peer_key i d : pp_public_key (hybrid_peer i d) = ds_public_key d.
Proof. unfold hybrid_peer. destruct (_best_endpoint _). by repeat case_match. Qed.

Lemma rank_le_total a b : rank_le a b = true \/ rank_le b a = true.
Proof. unfold rank_le, endpoint_rank. lia. Qed.
Lemma rank_le_trans a b c : rank_le a b = true -> rank_le b c = true -> rank_le a c = true.
Proof. unfold rank_le, endpoint_rank. lia. Qed.

(** In mesh and hybrid an exit node other than the device itself is already a
    peer, so the clause never adds it. *)
Lemma direct_exit_node_ignored i (peer_of : DeviceState -> PeerPlan) e :
  (forall d, pp_public_key (peer_of d) = ds_public_key d) ->
  ds_exit_node_id (pi_device i) = Some e -> e <> ds_id (pi_device i) ->
  exit_node_peers i (peer_of <$> others i) = peer_of <$> others i.
Proof.
  intros Hkey He Hne. destruct (exit_node_peers_cases i (peer_of <$> others i))
    as [?|(e' & ed & He' & _ & Hin & Hid & Hnone & _)]; [done|].
  exfalso. apply (Hnone (peer_of ed)); [|apply Hkey]. apply list_elem_of_fmap_2, elem_of_others.
  split; [done|]. congruence.
Qed.

(** * Properties *)

(** Star: a device that is not the server gets the server as its peer for
    the whole subnet and, besides, at most a default-route peer for an exit
    node; the server gets one peer per other device, for the device's address
    and approved routes; without a server there are no peers. *)
Theorem star_plan_shape i :
  match List.find (has_id (pi_server_device_id i)) (pi_all_devices i) with
  | None => tp_peers (star_plan i) = []
  | Some server =>
    if has_id (pi_server_device_id i) (pi_device i) then
      Forall2 (fun d p => pp_public_key p = ds_public_key d /\ pp_allowed_ips p = allowed_ips_of i d)
        (List.filter (fun d => negb (has_id (pi_server_device_id i) d)) (pi_all_devices i))
        (tp_peers (star_plan i))
    else exists hub rest, tp_peers (star_plan i) = hub :: rest /\
      pp_public_key hub = ds_public_key server /\ pp_allowed_ips hub = [ns_subnet (pi_network i)] /\
      pp_endpoint hub = Some server_endpoint /\
      (rest = [] \/ exists e ed, ds_exit_node_id (pi_device i) = Some e /\ ed ∈ pi_all_devices i /\
         ds_id ed = e /\ e <> pi_server_device_id i /\
         rest = [mkPeerPlan (ds_public_key ed) ["0.0.0.0/0"; "::/0"] None None None false])
  end.
Proof.
  unfold star_plan. destruct (List.find _ _) as [server|]; [|done].
  destruct (has_id _ (pi_device i)); cbn [tp_peers plan_of].
  - apply Forall2_fmap_r, Forall_Forall2_diag, Forall_forall. done.
  - set (hub := mkPeerPlan (ds_public_key server) _ _ _ _ _).
    destruct (exit_node_peers_cases i [hub]) as [->|(e & ed & He & Hs & Hin & Hid & _ & ->)].
    + exists hub, []. split_and!; try done. by left.
    + eexists hub, [_]. split_and!; try done. right. exists e, ed. done.
Qed.

(** Mesh: the peers of a device are the other devices, in order, so two
    devices are each other's peers or neither is; a peer is marked for relay
    fallback exactly when no active endpoint of it is known. *)
Theorem mesh_plan_complete i :
  ds_exit_node_id (pi_device i) <> Some (ds_id (pi_device i)) ->
  Forall2 (fun d p => pp_public_key p = ds_public_key d /\ pp_allowed_ips p = allowed_ips_of i d /\
             (pp_relay_fallback p = true <-> default [] (pi_endpoints_by_device i !! ds_id d) = []))
    (others i) (tp_peers (mesh_plan i)) /\
  forall d, d ∈ pi_all_devices i ->
    d ∈ others i <->
    pi_device i ∈ others (mkPlanInput d (pi_device i :: pi_all_devices i) (pi_network i) (pi_server_device_id i)
      (pi_routes_by_device i) (pi_endpoints_by_device i)).
Proof.
  intros Hexit. split.
  - unfold mesh_plan. cbn [tp_peers plan_of].
    assert (exit_node_peers i (mesh_peer i <$> others i) = mesh_peer i <$> others i) as ->.
    { destruct (ds_exit_node_id (pi_device i)) as [e|] eqn:He.
      - eapply direct_exit_node_ignored; [apply mesh_peer_key|done|]. congruence.
      - unfold exit_node_peers. by rewrite He. }
    apply Forall2_fmap_r, Forall_Forall2_diag, Forall_forall. intros d _.
    split; [apply mesh_peer_key|]. split; [apply mesh_peer_allowed|apply mesh_peer_relay].
  - intros d Hd. rewrite !elem_of_others. cbn. split; intros [_ Hne].
    + split; [left|congruence].
    + split; [done|congruence].
Qed.

(** In mesh and hybrid networks an exit node changes nothing: the plan of
    a device that has chosen another device as its exit node is the plan it
    has with no exit node, so no default route is ever configured. *)
Theorem mesh_hybrid_ignore_exit_node t i e :
  t <> STAR ->
  ds_exit_node_id (pi_device i) = Some e -> e <> ds_id (pi_device i) ->
  let no_exit := mkDeviceState (ds_id (pi_device i)) (ds_public_key (pi_device i))
                   (ds_ip_address (pi_device i)) (ds_dns_enabled (pi_device i)) None in
  generate_plan t i =
  generate_plan t (mkPlanInput no_exit (pi_all_devices i) (pi_network i) (pi_server_device_id i)
                     (pi_routes_by_device i) (pi_endpoints_by_device i)).
Proof.
  intros Ht He Hne. cbv zeta. destruct t; [done| |]; cbn [generate_plan];
    unfold mesh_plan, hybrid_plan, plan_of; cbn [pi_device ds_id ds_ip_address]; f_equal.
  - erewrite direct_exit_node_ignored by (try apply mesh_peer_key; done). done.
  - erewrite direct_exit_node_ignored by (try apply hybrid_peer_key; done). done.
Qed.
End Generators.

(** * Witnesses *)
Definition demo_dev (n : string) (exit : option string) : DeviceState :=
  mkDeviceState n ("pk-" +:+ n) ("10.0.0." +:+ n) false exit.
Definition demo_input (exit : option string) : plan_input :=
  mkPlanInput (demo_dev "2" exit) [demo_dev "1" None; demo_dev "2" exit; demo_dev "3" None]
    (mkNetworkState "10.0.0.0/24" (Some "mesh")) "1" ∅ ∅.
Lemma mesh_plan_complete_witness :
  length (tp_peers (mesh_plan (demo_input None))) = 2%nat.
Proof.
  destruct (mesh_plan_complete (demo_input None)) as [Hall _]; [discriminate|].
  symmetry. exact (Forall2_length _ _ _ Hall).
Defined.
Lemma mesh_hybrid_ignore_exit_node_witness :
  length (tp_peers (generate_plan MESH (demo_input (Some "3")))) = 2%nat.
Proof.
  rewrite (mesh_hybrid_ignore_exit_node MESH (demo_input (Some "3")) "3"); [reflexivity|discriminate|reflexivity|].
  intros Heq. discriminate Heq.
Defined.
