(* ===== verification/ConfigV2.v ===== *)
(** Device configurations: the reads of
    [backend/app/services/network_state.py], [build_config_v2] and
    [get_device_config] of [services/wireguard.py], the renderer and the hash
    of [services/config_renderer.py]. *)
From Stdlib Require Import Ascii.
From S2P Require Import Prelude PyStr Bytes Json Models Effects IPv4 Sha256 Scoring Topology.
From S2P Require Relay.
Local Open Scope string_scope.
Local Open Scope list_scope.
Local Open Scope Z_scope.

Definition SERVER_NAME : string := "__midscale_server__".

(** [d.setdefault(k(r), []).append(v(r))] over the rows, in order. *)
Definition group_by {R V} (k : R -> string) (v : R -> V) (l : list R) : gmap string (list V) :=
  foldl (fun m r => <[k r := default [] (m !! k r) ++ [v r]]> m) ∅ l.

Lemma group_by_from {R V} (k : R -> string) (v : R -> V) l (m : gmap string (list V)) i :
  default [] (foldl (fun m r => <[k r := default [] (m !! k r) ++ [v r]]> m) m l !! i) =
  default [] (m !! i) ++ (v <$> List.filter (fun r => String.eqb (k r) i) l).
Proof.
  revert m. induction l as [|r l IH]; intros m; cbn [foldl List.filter]; [by rewrite app_nil_r|].
  rewrite IH. destruct (String.eqb_spec (k r) i) as [->|Hne].
  - rewrite lookup_insert_eq. cbn. by rewrite <-app_assoc.
  - by rewrite lookup_insert_ne.
Qed.
Lemma group_by_lookup {R V} (k : R -> string) (v : R -> V) l i :
  default [] (group_by k v l !! i) = v <$> List.filter (fun r => String.eqb (k r) i) l.
Proof. unfold group_by. by rewrite group_by_from, lookup_empty. Qed.

(** * Response models ([schemas/device.py]) *)
Record EndpointCandidate := mkEndpointCandidate {
  ec_endpoint : string; ec_port : Z; ec_source : string; ec_priority : Z;
  ec_last_seen_at : option string; ec_local_ip : option string; ec_public_ip : option string;
  ec_reachable : bool; ec_latency_ms : option Z; ec_score : Z; ec_preferred : bool
}.
Record PeerInfo := mkPeerInfo {
  pi_public_key : string;
  pi_allowed_ips : list string;
  pi_endpoint : option string;
  pi_endpoint_port : option Z;
  pi_persistent_keepalive : option Z;
  pi_endpoint_candidates : list EndpointCandidate;
  pi_relay_fallback : bool;
  pi_relay_candidates : option (list Relay.relay_candidate);
  pi_relay_required : bool
}.
Record interface_config := mkInterface { if_address : string; if_dns : option (list string) }.
Record DeviceConfigV2Response := mkConfigV2 {
  cv_interface : interface_config;
  cv_peers : list PeerInfo;
  cv_routes : list string;
  cv_exit_node : option string;
  cv_version : string;
  cv_config_version : string;
  cv_schema_version : string;
  cv_min_daemon_version : option string;
  cv_revision : string;
  cv_generated_at : string;
  cv_hash : string
}.

(** [model_dump()] *)
Definition jstrs (l : list string) : json := JArr (JStr <$> l).
Definition dump_candidate (c : EndpointCandidate) : json :=
  JObj [("endpoint", JStr (ec_endpoint c)); ("port", JInt (ec_port c)); ("source", JStr (ec_source c));
        ("priority", JInt (ec_priority c)); ("last_seen_at", jstr_opt (ec_last_seen_at c));
        ("local_ip", jstr_opt (ec_local_ip c)); ("public_ip", jstr_opt (ec_public_ip c));
        ("reachable", JBool (ec_reachable c)); ("latency_ms", jint_opt (ec_latency_ms c));
        ("score", JInt (ec_score c)); ("preferred", JBool (ec_preferred c))].
Definition dump_relay (c : Relay.relay_candidate) : json :=
  JObj [("relay_node", JStr (Relay.rc_relay_node c)); ("relay_region", JStr (Relay.rc_relay_region c));
        ("relay_endpoint", JStr (Relay.rc_relay_endpoint c)); ("priority", JInt (Relay.rc_priority c));
        ("preferred", JBool (Relay.rc_preferred c))].
Definition dump_peer (p : PeerInfo) : json :=
  JObj [("public_key", JStr (pi_public_key p)); ("allowed_ips", jstrs (pi_allowed_ips p));
        ("endpoint", jstr_opt (pi_endpoint p)); ("endpoint_port", jint_opt (pi_endpoint_port p));
        ("persistent_keepalive", jint_opt (pi_persistent_keepalive p));
        ("endpoint_candidates", JArr (dump_candidate <$> pi_endpoint_candidates p));
        ("relay_fallback", JBool (pi_relay_fallback p));
        ("relay_candidates", match pi_relay_candidates p with
                             | Some l => JArr (dump_relay <$> l) | None => JNull end);
        ("relay_required", JBool (pi_relay_required p))].
Definition dump_interface (i : interface_config) : json :=
  JObj [("address", JStr (if_address i));
        ("dns", match if_dns i with Some l => jstrs l | None => JNull end); ("mtu", JNull)].

(** ** [json.dumps(..., sort_keys=True)] and the hash *)
Definition key_le (a b : string * json) : bool := String.leb a.1 b.1.
Fixpoint sort_keys (j : json) : json :=
  match j with
  | JArr items => JArr (sort_keys <$> items)
  | JObj members => JObj (sort_stable key_le ((fun '(k, v) => (k, sort_keys v)) <$> members))
  | _ => j
  end.
Definition compute_config_hash (config_data : json) : string :=
  sha256_hexdigest (dumps (sort_keys config_data)).

(** The part of a configuration the hash covers. *)
Definition config_data (i : interface_config) (peers : list PeerInfo) (routes : list string)
    (exit_node : option string) : json :=
  JObj [("interface", dump_interface i); ("peers", JArr (dump_peer <$> peers)); ("routes", jstrs routes);
        ("exit_node", jstr_opt exit_node); ("version", JStr CONFIG_V2_VERSION);
        ("config_version", JStr CONFIG_V2_VERSION); ("schema_version", JStr CONFIG_V2_SCHEMA_VERSION)].
Definition config_at (t : Z) (i : interface_config) (peers : list PeerInfo) (routes : list string)
    (exit_node : option string) : DeviceConfigV2Response :=
  mkConfigV2 i peers routes exit_node CONFIG_V2_VERSION CONFIG_V2_VERSION CONFIG_V2_SCHEMA_VERSION
    (Some CONFIG_V2_MIN_DAEMON_VERSION) (str_int (t / US)) (isoformat t)
    (compute_config_hash (config_data i peers routes exit_node)).

Definition is_mesh_or_hybrid (ttype : string) : bool := mem ttype ["mesh"; "hybrid"].

Section Config.
  Context `{Env}.

(** * Reads of [network_state.py] *)
Definition build_network_state (network_id : uuid) : IO NetworkState :=
  rs ← select_where (by_id (R := Network.Network) network_id);
  network ← lift (scalar_one rs);
  mret (mkNetworkState (Network.subnet network) (Network.topology network)).

Definition has {A} (o : option A) : bool := match o with Some _ => true | None => false end.
Definition plannable (network_id : uuid) (d : Device.Device) : bool :=
  String.eqb (Device.network_id d) network_id && Device.is_active d
  && has (Device.public_key d) && has (Device.ip_address d).
Definition device_state (d : Device.Device) : DeviceState :=
  mkDeviceState (Device.id d) (default "" (Device.public_key d)) (default "" (Device.ip_address d))
    (Device.dns_enabled d)
    (if opt_truthy (Device.exit_node_id d) then Device.exit_node_id d else None).
(** The id of the last device that has the server's name. *)
Definition server_id_of (ds : list Device.Device) : option string :=
  foldl (fun acc d => if String.eqb (Device.name d) SERVER_NAME then Some (Device.id d) else acc) None ds.
Definition build_device_states (network_id : uuid) : IO (list DeviceState * option string) :=
  ds ← select_where (plannable network_id);
  mret (device_state <$> ds, server_id_of ds).

(** [list({e.address for e in entries})] *)
Definition addresses (entries : list DNSEntry.DNSEntry) : list string :=
  set_order (remove_dups (DNSEntry.address <$> entries)).
Definition build_dns_servers (network_id : uuid) : IO (option (list string)) :=
  es ← select_where (fun e => String.eqb (DNSEntry.network_id e) network_id);
  mret (if list_truthy es then Some (addresses es) else None).

Definition route_active (network_id : uuid) (r : AdvertisedRoute.AdvertisedRoute) : bool :=
  String.eqb (AdvertisedRoute.network_id r) network_id && AdvertisedRoute.approved r
  && AdvertisedRoute.enabled r.
Definition build_routes_by_device (network_id : uuid) : IO (list string * gmap string (list string)) :=
  rs ← select_where (route_active network_id);
  mret (AdvertisedRoute.prefix <$> rs,
        group_by AdvertisedRoute.device_id AdvertisedRoute.prefix rs).

(** [ORDER BY priority DESC, last_seen DESC] is the rank [_sort_endpoints]
    uses. *)
Definition build_endpoints_by_device (network_id : uuid) : IO (gmap string (list endpoint_row)) :=
  ds ← select_where (fun d => String.eqb (Device.network_id d) network_id && Device.is_active d);
  eps ← select_where (fun e => DeviceEndpoint.is_active e &&
                               mem (DeviceEndpoint.device_id e) (Device.id <$> ds));
  mret (group_by DeviceEndpoint.device_id (fun e => e) (sort_stable rank_le eps)).

(** * [build_config_v2] *)
Definition candidate (best_id : option uuid) (e : endpoint_row) : EndpointCandidate :=
  mkEndpointCandidate (DeviceEndpoint.endpoint e) (DeviceEndpoint.port e) (DeviceEndpoint.source e)
    (DeviceEndpoint.priority e) (Some (isoformat (DeviceEndpoint.last_seen e)))
    (DeviceEndpoint.local_ip e) (DeviceEndpoint.public_ip e) (DeviceEndpoint.reachable e)
    (DeviceEndpoint.latency_ms e) (DeviceEndpoint.score e)
    (bool_decide (Some (DeviceEndpoint.id e) = best_id)).
(** The loop over the sorted candidates that picks the endpoint. *)
Definition pick_endpoint (best_id : option uuid) (start : option string * option Z)
    (sorted_eps : list endpoint_row) : option string * option Z :=
  foldl (fun acc e =>
    if negb (has acc.1) || bool_decide (Some (DeviceEndpoint.id e) = best_id)
    then (Some (DeviceEndpoint.endpoint e), Some (DeviceEndpoint.port e)) else acc) start sorted_eps.

(** [{ds.public_key: ds.id for ds in device_states}] *)
Definition key_to_device (states : list DeviceState) : gmap string string :=
  foldl (fun m d => <[ds_public_key d := ds_id d]> m) ∅ states.

Definition peer_info (mesh_or_hybrid : bool) (pk_to_device_id : gmap string string)
    (eps_by_device : gmap string (list endpoint_row)) (pp : PeerPlan) : PeerInfo :=
  let peer_device_id := default "" (pk_to_device_id !! pp_public_key pp) in
  let d_eps := default [] (eps_by_device !! peer_device_id) in
  let ranked := list_truthy d_eps && mesh_or_hybrid in
  let best_id := DeviceEndpoint.id <$> select_best_endpoint d_eps in
  let sorted_eps := sort_endpoint_candidates d_eps in
  let '(best_ep, best_port) :=
    if ranked then pick_endpoint best_id (pp_endpoint pp, pp_endpoint_port pp) sorted_eps
    else (pp_endpoint pp, pp_endpoint_port pp) in
  let relay_fallback := if list_truthy d_eps then false else pp_relay_fallback pp in
  let relay_required := relay_fallback && mesh_or_hybrid in
  mkPeerInfo (pp_public_key pp) (pp_allowed_ips pp)
    (or_str best_ep (pp_endpoint pp)) (or_int best_port (pp_endpoint_port pp))
    (pp_persistent_keepalive pp)
    (if ranked then candidate best_id <$> sorted_eps else [])
    relay_required
    (if relay_required then Some [Relay.get_best_relay_candidate] else None)
    relay_required.

Definition build_config_v2 (device : Device.Device) : IO DeviceConfigV2Response :=
  let network_id := Device.network_id device in
  network_state ← build_network_state network_id;
  '(device_states, server_device_id) ← build_device_states network_id;
  dns_servers ← (if Device.dns_enabled device then build_dns_servers network_id else mret None);
  '(routes, routes_by_device) ← build_routes_by_device network_id;
  eps_by_device ← build_endpoints_by_device network_id;
  let ttype_str := if opt_truthy (ns_topology network_state)
                   then default "" (ns_topology network_state) else wireguard_topology settings in
  match List.find (has_id (Device.id device)) device_states with
  | None => raise (HTTPException 404 "Device not found in active devices")
  | Some current_dev_state =>
    generator ← lift (get_topology_generator (ns_topology network_state));
    let plan := generate_plan generator
      (mkPlanInput current_dev_state device_states network_state (default "" server_device_id)
         routes_by_device eps_by_device) in
    let peers := peer_info (is_mesh_or_hybrid ttype_str) (key_to_device device_states) eps_by_device
                   <$> tp_peers plan in
    net ← lift (IPv4Network (ns_subnet network_state));
    let interface :=
      mkInterface (ds_ip_address current_dev_state +:+ "/" +:+ str_int (prefixlen net)) dns_servers in
    t ← now;
    mret (config_at t interface peers routes
            (if opt_truthy (Device.exit_node_id device) then Device.exit_node_id device else None))
  end.

(** * [render_config] *)
Definition render_config (plan : TopologyPlan) (dns_servers : option (list string)) (routes : list string)
    (exit_node_id : option string) (topology_type : string) : IO DeviceConfigV2Response :=
  net ← lift (IPv4Network (tp_subnet plan));
  let peers := (fun pp => mkPeerInfo (pp_public_key pp) (pp_allowed_ips pp) (pp_endpoint pp)
      (pp_endpoint_port pp) (pp_persistent_keepalive pp) []
      (pp_relay_fallback pp && is_mesh_or_hybrid topology_type) None false) <$> tp_peers plan in
  let interface := mkInterface (tp_address plan +:+ "/" +:+ str_int (prefixlen net)) dns_servers in
  t ← now;
  mret (config_at t interface peers routes exit_node_id).

(** * [get_device_config], the INI form *)
Definition get_device_config (device_id : uuid) : IO string :=
  found ← select_one (by_id (R := Device.Device) device_id);
  match found with
  | None => raise (HTTPException 404 "Device not found")
  | Some device =>
    if negb (opt_truthy (Device.public_key device)) || negb (opt_truthy (Device.private_key_enc device))
       || negb (opt_truthy (Device.ip_address device))
    then raise (HTTPException 400 "Device keys not yet generated") else
    let network_id := Device.network_id device in
    nets ← select_where (by_id (R := Network.Network) network_id);
    network ← lift (scalar_one nets);
    all_devices ← select_where (plannable network_id);
    match List.find (fun d => String.eqb (Device.name d) SERVER_NAME) all_devices with
    | None => raise (HTTPException 500 "Server device not found in network")
    | Some server_device =>
      dns_servers ← (if Device.dns_enabled device then build_dns_servers network_id else mret None);
      '(_, routes_by_device) ← build_routes_by_device network_id;
      generator ← lift (get_topology_generator (Network.topology network));
      configs ← lift (generate_configs generator all_devices server_device network dns_servers
                        routes_by_device ∅);
      match List.find (fun '(i, _) => String.eqb i (Device.id device)) (rev configs) with
      | None => raise (HTTPException 500 "Failed to generate device config")
      | Some (_, config) => lift (to_ini config)
      end
    end
  end.

(** ** Older renderings *)
Definition generate_device_config (private_key device_ip subnet server_public_key server_endpoint : string)
    (server_port : Z) (dns_servers : option (list string)) : outcome string :=
  net ← IPv4Network subnet;
  let dns_line := match dns_servers with
                  | Some (s :: l) => "DNS = " +:+ join ", " (s :: l) +:+ NL | _ => "" end in
  Ok ("[Interface]" +:+ NL +:+ "PrivateKey = " +:+ private_key +:+ NL +:+
      "Address = " +:+ device_ip +:+ "/" +:+ str_int (prefixlen net) +:+ NL +:+ dns_line +:+ NL +:+ NL +:+
      "[Peer]" +:+ NL +:+ "PublicKey = " +:+ server_public_key +:+ NL +:+
      "Endpoint = " +:+ server_endpoint +:+ ":" +:+ str_int server_port +:+ NL +:+
      "AllowedIPs = " +:+ subnet +:+ NL +:+ "PersistentKeepalive = 25" +:+ NL).

Definition get_server_public_key : IO (option string) :=
  ds ← select_where (fun d => String.eqb (Device.name d) SERVER_NAME && has (Device.public_key d));
  found ← lift (scalar_one_or_none ds);
  mret (match found with Some d => Device.public_key d | None => None end).

(** [save_device_keys]; the key pair comes from the [wg] binary. *)
Definition save_device_keys (device_id : uuid) : IO unit :=
  '(private_key, public_key) ← tick wg_keypair;
  enc ← tick (fun n => fernet_encrypt n private_key);
  flush_device device_id (fun d => d <| Device.private_key_enc := Some enc |>
                                     <| Device.public_key := Some public_key |>).

(** * [build_config_v2] as a function of the database *)
Definition states_of (db : DB) (network_id : uuid) : list Device.Device :=
  List.filter (plannable network_id) (devices db).
Definition config_parts (db : DB) (device : Device.Device)
    : outcome (interface_config * list PeerInfo * list string * option string) :=
  let network_id := Device.network_id device in
  match scalar_one (List.filter (by_id (R := Network.Network) network_id) (networks db)) with
  | Raise e => Raise e
  | Ok network =>
    let ds := states_of db network_id in
    let dns := if Device.dns_enabled device then
      (let es := List.filter (fun e => String.eqb (DNSEntry.network_id e) network_id) (dns_entries db) in
       if list_truthy es then Some (addresses es) else None) else None in
    let rs := List.filter (route_active network_id) (routes db) in
    let eps := group_by DeviceEndpoint.device_id (fun e => e) (sort_stable rank_le
      (List.filter (fun e => DeviceEndpoint.is_active e && mem (DeviceEndpoint.device_id e)
         (Device.id <$> List.filter (fun d => String.eqb (Device.network_id d) network_id && Device.is_active d)
                          (devices db))) (endpoints db))) in
    let ttype := if opt_truthy (Network.topology network)
                 then default "" (Network.topology network) else wireguard_topology settings in
    match List.find (has_id (Device.id device)) (device_state <$> ds) with
    | None => Raise (HTTPException 404 "Device not found in active devices")
    | Some current =>
      generator ← get_topology_generator (Network.topology network);
      let plan := generate_plan generator
        (mkPlanInput current (device_state <$> ds)
           (mkNetworkState (Network.subnet network) (Network.topology network))
           (default "" (server_id_of ds))
           (group_by AdvertisedRoute.device_id AdvertisedRoute.prefix rs) eps) in
      net ← IPv4Network (Network.subnet network);
      Ok (mkInterface (ds_ip_address current +:+ "/" +:+ str_int (prefixlen net)) dns,
          peer_info (is_mesh_or_hybrid ttype) (key_to_device (device_state <$> ds)) eps <$> tp_peers plan,
          AdvertisedRoute.prefix <$> rs,
          if opt_truthy (Device.exit_node_id device) then Device.exit_node_id device else None)
    end
  end.

Lemma build_config_v2_run device w :
  build_config_v2 device w =
  match config_parts (w_db w) device with
  | Raise e => (Raise e, w)
  | Ok (i, p, r, x) => (Ok (config_at (clock (w_tick w)) i p r x), ticked w)
  end.
Proof.
  unfold build_config_v2, config_parts, build_network_state, build_device_states, build_dns_servers,
    build_routes_by_device, build_endpoints_by_device, select_where, gets, lift.
  unfold mbind, M_bind, mret, M_ret, outcome_bind. cbv beta iota zeta.
  change (rows (w_db w)) with (networks (w_db w)).
  destruct (scalar_one _) as [network|e]; [|done]. cbv beta iota. cbn [ns_topology ns_subnet].
  destruct (Device.dns_enabled device); cbv beta iota.
  all: unfold states_of; destruct (List.find _ _) as [current|]; [|done].
  all: destruct (get_topology_generator _) as [g|e]; [|done]; cbv beta iota.
  all: destruct (IPv4Network _) as [net|e]; [|done]; reflexivity.
Qed.

(** Every peer of a plan has the key of one of the planned devices. *)
Lemma plan_keys t i p :
  p ∈ tp_peers (generate_plan t i) -> exists d, d ∈ pi_all_devices i /\ pp_public_key p = ds_public_key d.
Proof.
  assert (forall peers, (forall q, q ∈ peers -> exists d, d ∈ pi_all_devices i /\ pp_public_key q = ds_public_key d) ->
    p ∈ exit_node_peers i peers -> exists d, d ∈ pi_all_devices i /\ pp_public_key p = ds_public_key d) as Hexit.
  { intros peers Hp. destruct (exit_node_peers_cases i peers) as [->|(e & ed & _ & _ & Hin & _ & _ & ->)];
      [apply Hp|]. intros [Hq|Hq%list_elem_of_singleton]%elem_of_app; [by apply Hp|]. exists ed. by subst p. }
  destruct t; cbn [generate_plan].
  - unfold star_plan. destruct (List.find _ _) as [server|] eqn:Es; [|cbn; set_solver].
    cbn [tp_peers plan_of]. destruct (has_id _ (pi_device i)).
    + intros (d & -> & [_ Hd]%elem_of_filter_list)%list_elem_of_fmap. by exists d.
    + apply Hexit. intros q ->%list_elem_of_singleton. exists server. split; [|done].
      by eapply find_has_id.
  - apply Hexit. intros q (d & -> & [Hd _]%elem_of_others)%list_elem_of_fmap.
    exists d. by rewrite mesh_peer_key.
  - apply Hexit. intros q (d & -> & [Hd _]%elem_of_others)%list_elem_of_fmap.
    exists d. by rewrite hybrid_peer_key.
Qed.

Lemma peer_info_key b m eps pp : pi_public_key (peer_info b m eps pp) = pp_public_key pp.
Proof. unfold peer_info. by destruct (if _ && _ then _ else _). Qed.

(** ** The endpoint of a peer *)
Lemma pick_endpoint_settled best_id start l :
  has start.1 = true -> (forall e, e ∈ l -> Some (DeviceEndpoint.id e) <> best_id) ->
  pick_endpoint best_id start l = start.
Proof.
  revert start. induction l as [|e l IH]; intros start Hs Hl; [done|]. cbn [pick_endpoint foldl].
  rewrite Hs, (bool_decide_eq_false_2 (Some (DeviceEndpoint.id e) = best_id)) by (apply Hl; left).
  cbn. apply IH; [done|]. set_solver.
Qed.
Lemma pick_endpoint_best best start l :
  NoDup (DeviceEndpoint.id <$> best :: l) ->
  pick_endpoint (Some (DeviceEndpoint.id best)) start (best :: l) =
  (Some (DeviceEndpoint.endpoint best), Some (DeviceEndpoint.port best)).
Proof.
  rewrite fmap_cons. intros [Hn _]%NoDup_cons. cbn [pick_endpoint foldl].
  rewrite (bool_decide_eq_true_2 (Some (DeviceEndpoint.id best) = Some (DeviceEndpoint.id best))) by done.
  rewrite orb_true_r. apply pick_endpoint_settled; [done|].
  intros e He [= Heq]. apply Hn. rewrite <-Heq. by apply list_elem_of_fmap_2.
Qed.

(** * Properties *)

(** C24. What a configuration says is a function of the database: two builds over
    the same rows, at whatever times, fail with the same exception or agree on
    everything but the revision and the generation time, which are the time of
    the build, the hash included; and a build writes nothing.  This is said of
    one process: another one may list the DNS servers, which are a set, in
    another order. *)
Theorem config_v2_deterministic device w1 w2 :
  w_db w1 = w_db w2 ->
  w_db (build_config_v2 device w1).2 = w_db w1 /\
  match (build_config_v2 device w1).1, (build_config_v2 device w2).1 with
  | Ok c1, Ok c2 =>
    cv_hash c1 = cv_hash c2 /\ cv_peers c1 = cv_peers c2 /\ cv_interface c1 = cv_interface c2 /\
    cv_routes c1 = cv_routes c2 /\ cv_exit_node c1 = cv_exit_node c2 /\
    cv_revision c1 = str_int (clock (w_tick w1) / US) /\ cv_generated_at c1 = isoformat (clock (w_tick w1))
  | Raise e1, Raise e2 => e1 = e2
  | _, _ => False
  end.
Proof.
  intros Hdb. rewrite !build_config_v2_run, Hdb.
  by destruct (config_parts (w_db w2) device) as [[[[i p] r] x]|e].
Qed.

(** C25. A device's configuration names active devices of its own network only:
    each peer's key is the key of an active device of the network that has an
    address, and the device itself is one of those, else the answer is 404. *)
Theorem config_v2_peers_active device w c :
  (build_config_v2 device w).1 = Ok c ->
  (exists d, d ∈ devices (w_db w) /\ plannable (Device.network_id device) d = true /\
     Device.id d = Device.id device) /\
  forall p, p ∈ cv_peers c -> exists d, d ∈ devices (w_db w) /\
    plannable (Device.network_id device) d = true /\ Device.public_key d = Some (pi_public_key p).
Proof.
  rewrite build_config_v2_run. unfold config_parts. cbv zeta.
  destruct (scalar_one _) as [network|e]; [|done].
  destruct (List.find _ _) as [current|] eqn:Ec; [|done].
  unfold mbind, outcome_bind.
  destruct (get_topology_generator _) as [g|e]; [|done]. destruct (IPv4Network _) as [net|e]; [|done].
  cbn [fst]. intros [= <-]. cbn [cv_peers config_at].
  apply find_has_id in Ec as [(d0 & -> & [Hp0 Hd0]%elem_of_filter_list)%list_elem_of_fmap Hid]. split; [by exists d0|].
  intros p (pp & -> & Hpp)%list_elem_of_fmap. rewrite peer_info_key.
  apply plan_keys in Hpp as (ds & Hds & ->). cbn in Hds.
  apply list_elem_of_fmap in Hds as (d & -> & [Hp Hd]%elem_of_filter_list). exists d. split_and!; try done.
  unfold plannable in Hp. cbn. by destruct (Device.public_key d); [|rewrite !andb_false_r in Hp].
Qed.

(** In mesh and hybrid networks a peer with known endpoints (with distinct
    ids) is configured with the endpoint and port of the best-ranked one, lists
    all of them with exactly that one preferred, and needs no relay; a peer
    with none is relayed when its plan says so. *)
Theorem peer_info_uses_best keys eps pp best rest :
  let d_eps := default [] (eps !! default "" (keys !! pp_public_key pp)) in
  let p := peer_info true keys eps pp in
  NoDup (DeviceEndpoint.id <$> d_eps) ->
  sort_endpoint_candidates d_eps = best :: rest ->
  truthy (DeviceEndpoint.endpoint best) = true -> DeviceEndpoint.port best <> 0 ->
  pi_endpoint p = Some (DeviceEndpoint.endpoint best) /\
  pi_endpoint_port p = Some (DeviceEndpoint.port best) /\
  pi_relay_required p = false /\
  length (pi_endpoint_candidates p) = length d_eps /\
  ec_preferred <$> pi_endpoint_candidates p = true :: replicate (length rest) false.
Proof.
  intros d_eps p Hnd Hsort Hep Hport.
  assert (NoDup (DeviceEndpoint.id <$> best :: rest)) as Hnd'.
  { rewrite <-Hsort. unfold sort_endpoint_candidates. by rewrite (sort_stable_perm not_after). }
  assert (select_best_endpoint d_eps = Some best) as Hbest by by rewrite select_best_head, Hsort.
  assert (list_truthy d_eps = true) as Htr by (destruct d_eps; [by cbn in Hsort|done]).
  unfold p, peer_info. cbv zeta. fold d_eps. rewrite Htr, Hbest, Hsort. cbn [andb].
  change (DeviceEndpoint.id <$> Some best) with (Some (DeviceEndpoint.id best)).
  rewrite pick_endpoint_best by done. cbn [pi_endpoint pi_endpoint_port pi_relay_required pi_endpoint_candidates].
  split_and!; try done.
  - unfold or_str. cbn. by rewrite Hep.
  - unfold or_int. cbn. by destruct (Z.eqb_spec (DeviceEndpoint.port best) 0).
  - rewrite length_fmap, <-Hsort. unfold sort_endpoint_candidates. apply sort_stable_length.
  - rewrite !fmap_cons. cbn [candidate ec_preferred]. rewrite bool_decide_eq_true_2 by done. f_equal.
    rewrite fmap_cons in Hnd'. apply NoDup_cons in Hnd' as [Hn _]. clear -Hn.
    induction rest as [|e rest IH]; [done|]. rewrite fmap_cons in Hn. apply not_elem_of_cons in Hn as [Hne Hn].
    rewrite !fmap_cons. cbn [length replicate candidate ec_preferred].
    rewrite bool_decide_eq_false_2 by congruence. f_equal. by apply IH.
Qed.
End Config.

(** * A small network, for the witnesses *)
Definition demo_device (i name ip : string) : Device.Device :=
  Device.mk i name None "net-1" (Some ("pk-" +:+ i)) (Some "enc:sk") (Some ip) true true true
    None None "active" None None None (Some []) None None 0 0.
Definition demo_ep (i d : string) (score : Z) : DeviceEndpoint.DeviceEndpoint :=
  DeviceEndpoint.mk i d ("198.51.100." +:+ i) "stun" 51820 None None 100 true 0 (Some 20) true None 0 0 score 0.
Definition demo_db : DB :=
  empty_db <| networks := [Network.mk "net-1" "lab" "10.0.0.0/24" None None (Some "mesh") None 0] |>
    <| devices := [demo_device "srv" SERVER_NAME "10.0.0.1"; demo_device "a" "alice" "10.0.0.2";
                   demo_device "b" "bob" "10.0.0.3"] |>
    <| endpoints := [demo_ep "7" "b" 40; demo_ep "8" "b" 90] |>.
Definition demo_alice : Device.Device := demo_device "a" "alice" "10.0.0.2".

Lemma config_v2_deterministic_witness :
  w_db (build_config_v2 demo_alice (world_of demo_db)).2 = demo_db /\
  is_Some (match (build_config_v2 demo_alice (world_of demo_db)).1 with Ok c => Some (cv_hash c) | _ => None end).
Proof.
  split.
  - exact (proj1 (config_v2_deterministic demo_alice (world_of demo_db) (world_of demo_db) eq_refl)).
  - vm_compute. by eexists.
Defined.
Lemma demo_peer :
  match (build_config_v2 demo_alice (world_of demo_db)).1 with
  | Ok c => existsb (fun p => String.eqb (pi_public_key p) "pk-b") (cv_peers c)
  | Raise _ => false
  end = true.
Proof. vm_compute. reflexivity. Qed.
Lemma config_v2_peers_active_witness :
  exists c p d, (build_config_v2 demo_alice (world_of demo_db)).1 = Ok c /\ p ∈ cv_peers c /\
    pi_public_key p = "pk-b" /\ d ∈ devices demo_db /\ Device.is_active d = true /\ Device.public_key d = Some "pk-b".
Proof.
  pose proof demo_peer as Hpeer. pose proof (config_v2_peers_active demo_alice (world_of demo_db)) as Hpeers.
  destruct ((build_config_v2 demo_alice (world_of demo_db)).1) as [c|e]; [|discriminate Hpeer].
  apply existsb_exists in Hpeer as (p & Hp%list_elem_of_In & Hkey%String.eqb_eq).
  destruct (proj2 (Hpeers c eq_refl) p Hp) as (d & Hd & Hpl & Hpk). exists c, p, d. rewrite Hkey in Hpk.
  unfold plannable in Hpl. rewrite !andb_true_iff in Hpl. split_and!; try done; tauto.
Defined.
Lemma peer_info_uses_best_witness :
  pi_endpoint (peer_info true {["pk-b" := "b"]} {["b" := [demo_ep "7" "b" 40; demo_ep "8" "b" 90]]}
    (mkPeerPlan "pk-b" ["10.0.0.3/32"] None None (Some 25) false)) = Some "198.51.100.8".
Proof.
  refine (proj1 (peer_info_uses_best {["pk-b" := "b"]} {["b" := [demo_ep "7" "b" 40; demo_ep "8" "b" 90]]}
    (mkPeerPlan "pk-b" ["10.0.0.3/32"] None None (Some 25) false) (demo_ep "8" "b" 90) [demo_ep "7" "b" 40] _ _ _ _)).
  - apply (bool_decide_unpack _). vm_compute. exact I.
  - vm_compute. reflexivity.
  - vm_compute. reflexivity.
  - vm_compute. discriminate.
Defined.
