(* ===== verification/Nat.v ===== *)
(** NAT traversal sessions: [backend/app/services/nat.py].

    [pending -> coordinating -> connected | failed], with [expired] for the
    sessions a sweep finds past their time; reported results promote the
    endpoint that answered and may fall back to a relay. *)
From S2P Require Import Prelude PyStr Bytes Json Models Effects Scoring Topology ConfigV2.
From S2P Require RelayServer Relay.
Local Open Scope string_scope.
Local Open Scope list_scope.
Local Open Scope Z_scope.

Definition SESSION_TIMEOUT_MINUTES : Z := 5.
Definition STALE_ENDPOINT_CUTOFF_MINUTES : Z := 30.

Import NATSession.

(** A JSON value as the integer Python computes with. *)
Definition json_int (j : json) : outcome Z :=
  match j with
  | JInt n => Ok n
  | JBool b => Ok (Z.b2z b)
  | _ => Raise TypeError
  end.

Section Nat.
  Context `{Env}.

Definition nat_event_data (s : NATSession) (more : obj) : obj :=
  [("session_id", JStr (id s)); ("initiator_device_id", JStr (initiator_device_id s));
   ("target_device_id", JStr (target_device_id s))] ++ more.

Definition create_nat_session (initiator target : uuid) (event_bus : bool) (extra : obj) : IO NATSession :=
  t ← now;
  let expires_at := t + minutes SESSION_TIMEOUT_MINUTES in
  session_id ← new_uuid;
  created ← now;
  updated ← now;
  add_row (NATSession.mk session_id initiator target "pending" None false (Some extra)
             created updated expires_at);;
  commit;;
  nat_session ← reload session_id;
  inc NAT_SESSION_ACTIVE;;
  when event_bus (publish EVENT_NAT_PUNCH_REQUESTED (nat_event_data nat_session []));;
  mret nat_session.

Definition startable (session_id : uuid) (t : Z) (s : NATSession) : bool :=
  by_id session_id s && String.eqb (state s) "pending" && (t <? expires_at s).
Definition start_punch (nat_session_id : uuid) (event_bus : bool) : IO (option NATSession) :=
  t ← now;
  found ← select_one (startable nat_session_id t);
  match found with
  | None => mret None
  | Some s =>
    t2 ← now;
    update_row (id s) (fun s => s <| state := "coordinating" |> <| updated_at := t2 |>);;
    commit;;
    s' ← reload (id s);
    when event_bus (publish EVENT_NAT_PUNCH_STARTED (nat_event_data s' []));;
    mret (Some s')
  end.

(** [ORDER BY score DESC]; equal scores in table order. *)
Definition score_ge (a b : DeviceEndpoint.DeviceEndpoint) : bool :=
  DeviceEndpoint.score b <=? DeviceEndpoint.score a.
Definition active_endpoint_of (device_id : uuid) (e : DeviceEndpoint.DeviceEndpoint) : bool :=
  String.eqb (DeviceEndpoint.device_id e) device_id && DeviceEndpoint.is_active e.
Definition get_active_endpoints_by_device (device_id : uuid) : IO (list DeviceEndpoint.DeviceEndpoint) :=
  eps ← select_where (active_endpoint_of device_id);
  mret (sort_stable score_ge eps).

Definition endpoint_dict (e : DeviceEndpoint.DeviceEndpoint) : json :=
  JObj [("endpoint", JStr (DeviceEndpoint.endpoint e)); ("port", JInt (DeviceEndpoint.port e));
        ("source", JStr (DeviceEndpoint.source e)); ("local_ip", jstr_opt (DeviceEndpoint.local_ip e));
        ("public_ip", jstr_opt (DeviceEndpoint.public_ip e)); ("priority", JInt (DeviceEndpoint.priority e))].
Definition pair_key (ie te : DeviceEndpoint.DeviceEndpoint) : string :=
  DeviceEndpoint.endpoint ie +:+ ":" +:+ str_int (DeviceEndpoint.port ie) +:+ "->" +:+
  DeviceEndpoint.endpoint te +:+ ":" +:+ str_int (DeviceEndpoint.port te).
Definition candidate_pairs (ies tes : list DeviceEndpoint.DeviceEndpoint) : list json :=
  ie ← ies; te ← tes;
  [JObj [("initiator", endpoint_dict ie); ("target", endpoint_dict te); ("pair_key", JStr (pair_key ie te))]].
Definition build_candidate_pairs (initiator target : uuid) : IO (list json) :=
  ies ← get_active_endpoints_by_device initiator;
  tes ← get_active_endpoints_by_device target;
  mret (candidate_pairs ies tes).

(** ** [_promote_endpoint] *)
Definition promotable (device_id : uuid) (endpoint : string) (port : Z)
    (e : DeviceEndpoint.DeviceEndpoint) : bool :=
  String.eqb (DeviceEndpoint.device_id e) device_id && String.eqb (DeviceEndpoint.endpoint e) endpoint
  && (DeviceEndpoint.port e =? port) && DeviceEndpoint.is_active e.
Definition promoted (latency_ms : option Z) (t : Z) (e : DeviceEndpoint.DeviceEndpoint)
    : DeviceEndpoint.DeviceEndpoint :=
  let success_count := DeviceEndpoint.success_count e + 1 in
  let score :=
    if DeviceEndpoint.score e =? 0 then
      compute_endpoint_score true latency_ms (DeviceEndpoint.failure_count e) success_count
        (DeviceEndpoint.priority e)
    else Z.min (DeviceEndpoint.score e + 30) 200 in
  e <| DeviceEndpoint.success_count := success_count |> <| DeviceEndpoint.reachable := true |>
    <| DeviceEndpoint.latency_ms := (match latency_ms with Some l => Some l | None => DeviceEndpoint.latency_ms e end) |>
    <| DeviceEndpoint.score := score |> <| DeviceEndpoint.last_probe_at := Some t |>.

Definition _promote_endpoint (device_id : uuid) (endpoint : string) (port : Z) (latency_ms : option Z)
    : IO (Z * bool) :=
  found ← select_one (promotable device_id endpoint port);
  match found with
  | None => mret (0, false)
  | Some ep =>
    t ← now;
    update_row (DeviceEndpoint.id ep) (promoted latency_ms t);;
    commit;;
    ep' ← reload (DeviceEndpoint.id ep);
    inc ENDPOINT_SCORE_UPDATES;;
    ep_list ← get_active_endpoints_by_device device_id;
    let best := select_best_endpoint ep_list in
    let preferred := bool_decide (DeviceEndpoint.id <$> best = Some (DeviceEndpoint.id ep')) in
    when preferred (
      for_each ep_list (fun other =>
        when (negb (String.eqb (DeviceEndpoint.id other) (DeviceEndpoint.id ep')))
          (update_row (DeviceEndpoint.id other) (fun e => e <| DeviceEndpoint.is_active := false |>)));;
      commit);;
    mret (DeviceEndpoint.score ep', preferred)
  end.

(** ** [_publish_config_changed] *)
Definition _publish_config_changed (nat_session : NATSession) (event_bus : bool) : IO unit :=
  if negb event_bus then mret tt else
  for_each [initiator_device_id nat_session; target_device_id nat_session] (fun device_id =>
    found ← select_one (by_id (R := Device.Device) device_id);
    match found with
    | None => mret tt
    | Some device =>
      try_except (
        config ← build_config_v2 device;
        (if model_has_get then mret tt else raise (AttributeError "get"));;
        t ← now;
        publish EVENT_CONFIG_CHANGED
          (config_changed_payload (Some device_id) (Device.network_id device) (Some (cv_revision config))
             (Some (cv_hash config)) ("nat_punch_successful:" +:+ id nat_session) (isoformat t)))
      (fun _ => mret tt)
    end).

(** ** [record_punch_result] *)
Definition selected (endpoint : option string) (port latency_ms : option Z) : obj :=
  [("endpoint", jstr_opt endpoint); ("port", jint_opt port); ("latency_ms", jint_opt latency_ms)].
Definition failure_count_of (m : obj) : outcome Z := json_int (default (JInt 0) (obj_get "failure_count" m)).

Definition relay_fallback (s : NATSession) (event_bus : bool) : IO unit :=
  relay_session ← Relay.auto_create_relay_fallback (initiator_device_id s) (target_device_id s) event_bus;
  when event_bus (
    modify (fun w => w <| w_relay := (RelayServer.add_valid_token (RelaySession.relay_token relay_session)
                                        (RelaySession.id relay_session)) <$> w_relay w |>);;
    publish EVENT_RELAY_FALLBACK
      [("nat_session_id", JStr (id s)); ("relay_session_id", JStr (RelaySession.id relay_session));
       ("initiator_device_id", JStr (initiator_device_id s)); ("target_device_id", JStr (target_device_id s))]).

(** The failure branch.  The metadata dictionary is changed in place: the row
    is written only when the attribute was assigned (it held [None]) or when
    the column tracks in-place changes. *)
Definition punch_failed (s : NATSession) (error : option string) (event_bus : bool) : IO unit :=
  update_row (id s) (fun s => s <| state := "failed" |>);;
  let assigned := negb (has (extra_metadata s)) in
  let before := default [] (extra_metadata s) in
  when assigned (update_row (id s) (fun s => s <| extra_metadata := Some before |>));;
  let with_error := obj_set "error" (jstr_opt error) before in
  when (assigned || orm_tracks_json) (update_row (id s) (fun s => s <| extra_metadata := Some with_error |>));;
  count ← lift (failure_count_of with_error);
  let after := obj_set "failure_count" (JInt (count + 1)) with_error in
  when (assigned || orm_tracks_json) (update_row (id s) (fun s => s <| extra_metadata := Some after |>));;
  inc (NAT_PUNCH_TOTAL "failed");;
  when event_bus (publish EVENT_NAT_PUNCH_FAILED (nat_event_data s [("error", jstr_opt error)]));;
  failures ← lift (failure_count_of after);
  when (2 <=? failures) (relay_fallback s event_bus).

Definition punch_succeeded (s : NATSession) (endpoint : option string) (port latency_ms : option Z)
    (event_bus : bool) : IO unit :=
  update_row (id s) (fun s => s <| state := "connected" |> <| connectivity_established := true |>
                                <| selected_candidate := Some (selected endpoint port latency_ms) |>);;
  inc (NAT_PUNCH_TOTAL "success");;
  when event_bus (publish EVENT_NAT_PUNCH_SUCCEEDED
    (nat_event_data s [("selected_endpoint", jstr_opt endpoint); ("selected_port", jint_opt port);
                       ("latency_ms", jint_opt latency_ms)]));;
  match endpoint, port with
  | Some e, Some p =>
    if truthy e && negb (p =? 0) then
      _promote_endpoint (target_device_id s) e p latency_ms;;
      _publish_config_changed s event_bus
    else mret tt
  | _, _ => mret tt
  end.

Definition record_punch_result (nat_session_id : uuid) (success : bool) (selected_endpoint : option string)
    (selected_port latency_ms : option Z) (error : option string) (event_bus : bool)
    : IO (option NATSession) :=
  found ← select_one (by_id (R := NATSession) nat_session_id);
  match found with
  | None => mret None
  | Some s =>
    (if success then punch_succeeded s selected_endpoint selected_port latency_ms event_bus
     else punch_failed s error event_bus);;
    t ← now;
    update_row (id s) (fun s => s <| updated_at := t |>);;
    commit;;
    s' ← reload (id s);
    mret (Some s')
  end.

(** ** [validate_connectivity] *)
Record validation := mkValidation {
  v_status : string; v_session_id : string; v_direct_path_promoted : bool; v_score : Z; v_preferred : bool
}.
Definition validate_connectivity (nat_session_id : uuid) (target_endpoint : string) (target_port : Z)
    (reachable : bool) (latency_ms : option Z) (event_bus : bool) : IO validation :=
  found ← select_one (by_id (R := NATSession) nat_session_id);
  match found with
  | None =>
    inc (NAT_CONNECTIVITY_TOTAL "failed");;
    mret (mkValidation "session_not_found" nat_session_id false 0 false)
  | Some s =>
    '(score, preferred) ← (
      if reachable then
        update_row (id s) (fun s => s <| connectivity_established := true |>
          <| selected_candidate := Some (selected (Some target_endpoint) (Some target_port) latency_ms) |>
          <| state := "connected" |>);;
        promotion ← _promote_endpoint (target_device_id s) target_endpoint target_port latency_ms;
        _publish_config_changed s event_bus;;
        inc (NAT_CONNECTIVITY_TOTAL "success");;
        mret promotion
      else inc (NAT_CONNECTIVITY_TOTAL "failed");; mret (0, false));
    t ← now;
    update_row (id s) (fun s => s <| updated_at := t |>);;
    commit;;
    when event_bus (publish EVENT_NAT_CONNECTIVITY_VALIDATED
      (nat_event_data s [("reachable", JBool reachable); ("target_endpoint", JStr target_endpoint);
         ("target_port", JInt target_port); ("latency_ms", jint_opt latency_ms);
         ("direct_path_promoted", JBool reachable)]));;
    mret (mkValidation (if reachable then "connected" else "failed") nat_session_id reachable score preferred)
  end.

Definition live_states : list string := ["pending"; "coordinating"; "punching"].
Definition stale_nat_session (t : Z) (s : NATSession) : bool := mem (state s) live_states && (expires_at s <=? t).
Definition expire_stale_sessions : IO Z :=
  t ← now;
  stale ← select_where (stale_nat_session t);
  for_each stale (fun s => update_row (row_id s) (fun s => s <| state := "expired" |> <| updated_at := t |>));;
  commit;;
  when (list_truthy stale) (dec_by NAT_SESSION_ACTIVE (len_list stale));;
  mret (len_list stale).

Definition get_session_by_id (nat_session_id : uuid) : IO (option NATSession) :=
  select_one (by_id (R := NATSession) nat_session_id).

(** * Frames of the handlers *)
Local Notation sessions w := (rows (R := NATSession) (w_db w)).
Local Notation eps w := (rows (R := DeviceEndpoint.DeviceEndpoint) (w_db w)).

(** Building a configuration only reads. *)
Lemma build_config_frame (rel : relation World) `{Table R} `{!PreOrder rel} `{!TableRel R rel} d :
  Frame rel (build_config_v2 d).
Proof.
  intros w. rewrite build_config_v2_run. destruct (config_parts _ d) as [[[[i p] r] x]|e]; cbn; [|done].
  by apply table_rel.
Qed.

#[local] Typeclasses Opaque build_config_v2 get_active_endpoints_by_device _promote_endpoint
  _publish_config_changed relay_fallback punch_failed punch_succeeded when for_each.

Section OtherTables.
Context {R : Type} `{Table R} (rel : relation World) `{!PreOrder rel} `{!TableRel R rel}.

#[local] Hint Extern 2 (Frame _ (modify _)) =>
  (apply frame_modify; intros ?; apply table_rel; reflexivity) : typeclass_instances.
#[local] Instance frame_config d : Frame rel (build_config_v2 d) := build_config_frame rel d.
#[local] Instance frame_active d : Frame rel (get_active_endpoints_by_device d).
Proof. unfold get_active_endpoints_by_device. apply _. Qed.
Lemma frame_promote `{!OtherTable DeviceEndpoint.DeviceEndpoint R} d e p l :
  Frame rel (_promote_endpoint d e p l).
Proof. unfold _promote_endpoint. apply _. Qed.
Lemma frame_publish_config s b : Frame rel (_publish_config_changed s b).
Proof. unfold _publish_config_changed. apply _. Qed.
Lemma frame_relay_fallback `{!OtherTable RelaySession.RelaySession R} s b : Frame rel (relay_fallback s b).
Proof.
  unfold relay_fallback, Relay.auto_create_relay_fallback, Relay.create_relay_session. apply _.
Qed.
End OtherTables.
#[local] Hint Resolve frame_promote frame_publish_config frame_relay_fallback : typeclass_instances.

(** * Configuration events *)

(** What [_publish_config_changed] leaves alone when models have no [get]. *)
Definition silent (w w' : World) : Prop := w_db w' = w_db w /\ w_events w' = w_events w.
#[local] Instance silent_preorder : PreOrder silent.
Proof. unfold silent. split; [by intros w|]. intros w1 w2 w3 [] []. split; congruence. Qed.

Lemma publish_config_silent s b :
  model_has_get = false -> Frame silent (_publish_config_changed s b).
Proof.
  intros Hget. unfold _publish_config_changed. rewrite Hget. apply frame_if; [apply _|].
  apply frame_for_each; [apply _|]. intros i. apply frame_bind; [apply _| |].
  - intros w. unfold select_one, select_where, mbind, M_bind, gets, lift. by destruct (scalar_one_or_none _).
  - intros [d|]; [|apply _]. apply frame_try; [apply _| |apply _].
    intros w. unfold mbind, M_bind. rewrite build_config_v2_run.
    by destruct (config_parts _ d) as [[[[i' p] r] x]|e].
Qed.

(** * The promotion of an endpoint *)
Definition deactivated (e : DeviceEndpoint.DeviceEndpoint) : DeviceEndpoint.DeviceEndpoint :=
  e <| DeviceEndpoint.is_active := false |>.

Lemma active_run d w :
  get_active_endpoints_by_device d w =
  (Ok (sort_stable score_ge (List.filter (active_endpoint_of d) (eps w))), w).
Proof. reflexivity. Qed.

(** The endpoints after a promotion. *)
Definition after_promotion (ep : DeviceEndpoint.DeviceEndpoint) (latency_ms : option Z) (t : Z)
    (l : list DeviceEndpoint.DeviceEndpoint) : list DeviceEndpoint.DeviceEndpoint :=
  update_where (by_id (DeviceEndpoint.id ep)) (promoted latency_ms t) l.
Definition wins (ep : DeviceEndpoint.DeviceEndpoint) (l : list DeviceEndpoint.DeviceEndpoint) : bool :=
  bool_decide (DeviceEndpoint.id <$> select_best_endpoint
     (sort_stable score_ge (List.filter (active_endpoint_of (DeviceEndpoint.device_id ep)) l)) =
   Some (DeviceEndpoint.id ep)).
Definition loses_to (ep e : DeviceEndpoint.DeviceEndpoint) : bool :=
  active_endpoint_of (DeviceEndpoint.device_id ep) e && negb (by_id (DeviceEndpoint.id ep) e).

Lemma promote_run d e p lat w ep :
  keyed (R := DeviceEndpoint.DeviceEndpoint) w ->
  select_one (promotable d e p) w = (Ok (Some ep), w) ->
  let l := after_promotion ep lat (clock (w_tick w)) (eps w) in
  let preferred := wins ep l in
  exists w', _promote_endpoint d e p lat w =
    (Ok (DeviceEndpoint.score (promoted lat (clock (w_tick w)) ep), preferred), w') /\
    eps w' = (if preferred then update_where (loses_to ep) deactivated l else l).
Proof.
  intros Hk Hsel l preferred. destruct (select_one_inv _ _ _ _ Hsel) as [_ [Hp Hin]].
  assert (DeviceEndpoint.device_id ep = d) as Hd.
  { unfold promotable in Hp. rewrite !andb_true_iff, String.eqb_eq in Hp. tauto. }
  unfold _promote_endpoint. rewrite run_bind, Hsel, run_now.
  change (DeviceEndpoint.id ep) with (row_id ep). rewrite update_commit_reload by done.
  rewrite run_inc, run_bind, active_run. subst d.
  set (w1 := metered ENDPOINT_SCORE_UPDATES 1 _).
  assert (eps w1 = l) as Hl by reflexivity.
  change (DeviceEndpoint.id (promoted lat (clock (w_tick w)) ep)) with (DeviceEndpoint.id ep).
  rewrite Hl. fold (wins ep l). fold preferred. rewrite run_when.
  destruct preferred; [|by eexists].
  rewrite run_bind. rewrite (run_bind (for_each _ _)), for_each_when.
  set (xs := List.filter _ (sort_stable score_ge _)).
  assert (keyed (R := DeviceEndpoint.DeviceEndpoint) w1) as Hk1.
  { unfold keyed. rewrite Hl. unfold l, after_promotion. by rewrite ids_update. }
  assert (forall x, x ∈ xs <-> x ∈ l /\ loses_to ep x = true) as Hxs.
  { intros x. unfold xs. rewrite elem_of_filter_list, elem_of_sort_stable, elem_of_filter_list.
    unfold loses_to. rewrite andb_true_iff. unfold by_id. cbn. tauto. }
  match goal with |- context [for_each xs ?f w1] =>
    change (for_each xs f w1) with (for_each xs (fun x => update_row (row_id x) deactivated) w1) end.
  rewrite (for_each_update xs deactivated w1); [|done| |by intros x [? _]%Hxs|done].
  2:{ unfold xs. apply NoDup_ids_filter. unfold ids. rewrite (sort_stable_perm score_ge).
      apply (NoDup_ids_filter _ l). exact Hk1. }
  eexists. split; [reflexivity|].
  change (update_where (fun r => bool_decide (row_id r ∈ ids xs)) deactivated l =
          update_where (loses_to ep) deactivated l).
  unfold update_where. apply list_fmap_ext.
  intros j x Hx. apply list_elem_of_lookup_2 in Hx.
  rewrite (bool_decide_ext _ (loses_to ep x = true)); [by destruct (loses_to ep x)|].
  unfold ids. rewrite list_elem_of_fmap. split.
  - intros (y & Hy & [Hyl Hly]%Hxs). by rewrite (keyed_eq l x y).
  - intros Hlx. exists x. split; [done|]. by apply Hxs.
Qed.

(** * A failed punch whose metadata is not tracked *)
Definition failed_row (t : Z) (s : NATSession) : NATSession :=
  s <| state := "failed" |> <| updated_at := t |>.

Lemma select_session (s : NATSession) w :
  keyed (R := NATSession) w -> s ∈ sessions w ->
  select_one (by_id (R := NATSession) (id s)) w = (Ok (Some s), w).
Proof.
  intros Hk Hs. destruct (select_one_keyed (by_id (R := NATSession) (id s)) (id s) w Hk) as ([s'|] & -> & Ho);
    [intros r; apply by_id_true| |].
  - destruct Ho as [Hid Hs']. apply by_id_true in Hid. do 2 f_equal. f_equal. by eapply keyed_eq.
  - specialize (Ho s Hs). apply by_id_false in Ho. by edestruct Ho.
Qed.

Lemma when_publish_run b t d w : exists w', when b (publish t d) w = (Ok tt, w') /\ quiet w w'.
Proof. destruct b; [apply publish_quiet|by exists w]. Qed.

Lemma punch_failed_run s m c error bus w :
  orm_tracks_json = false -> extra_metadata s = Some m -> failure_count_of m = Ok c -> c < 1 ->
  exists w', punch_failed s error bus w = (Ok tt, w') /\
    quiet (metered (NAT_PUNCH_TOTAL "failed") 1
            (on_rows (update_where (by_id (id s)) (fun s => s <| state := "failed" |>)) w)) w'.
Proof.
  intros Horm Hm Hc Hlt. unfold punch_failed. rewrite Hm, Horm. cbn [has negb orb when].
  change (default [] (Some m)) with m.
  assert (failure_count_of (obj_set "error" (jstr_opt error) m) = Ok c) as Hc'.
  { unfold failure_count_of. by rewrite obj_get_set_ne. }
  unfold update_row. rewrite run_modify, !run_ret, (run_lift _ c) by done. rewrite run_ret, run_inc, run_bind.
  match goal with |- context [when bus (publish ?t ?d) ?w] =>
    destruct (when_publish_run bus t d w) as (w2 & -> & Hq) end.
  exists w2. split; [|exact Hq]. rewrite (run_lift _ (c + 1)) by (unfold failure_count_of; by rewrite obj_get_set).
  destruct (Z.leb_spec 2 (c + 1)); [lia|done].
Qed.

Lemma record_failed_run s m c ep port lat error bus w :
  orm_tracks_json = false ->
  keyed (R := NATSession) w -> s ∈ sessions w ->
  extra_metadata s = Some m -> failure_count_of m = Ok c -> c < 1 ->
  exists w' t, record_punch_result (id s) false ep port lat error bus w = (Ok (Some (failed_row t s)), w') /\
    sessions w' = update_where (by_id (id s)) (failed_row t) (sessions w) /\
    relay_sessions (w_db w') = relay_sessions (w_db w) /\
    w_metrics w' RELAY_FALLBACK_TOTAL = w_metrics w RELAY_FALLBACK_TOTAL.
Proof.
  intros Horm Hk Hs Hm Hc Hlt. unfold record_punch_result.
  rewrite run_bind, select_session by done. rewrite run_bind.
  destruct (punch_failed_run s m c error bus w) as (w2 & -> & Hdb & _ & _ & _ & Hmet); [done..|].
  rewrite run_now.
  assert (sessions (ticked w2) = update_where (by_id (id s)) (fun s => s <| state := "failed" |>) (sessions w)) as Hrows.
  { change (sessions (ticked w2)) with (sessions w2). by rewrite Hdb. }
  set (t := clock (w_tick w2)). set (s1 := s <| state := "failed" |>).
  assert (s1 ∈ sessions (ticked w2)) as Hs1.
  { rewrite Hrows. apply elem_of_update_where. left. exists s. split_and!; [done| |done]. by apply by_id_true. }
  assert (keyed (R := NATSession) (ticked w2)) as Hk2.
  { unfold keyed. rewrite Hrows. by rewrite ids_update. }
  change (id s) with (row_id s1). rewrite update_commit_reload by done.
  eexists _, t. split; [reflexivity|]. split_and!.
  - change (update_where (by_id (id s)) (fun s => s <| updated_at := t |>) (sessions (ticked w2)) =
            update_where (by_id (id s)) (failed_row t) (sessions w)).
    rewrite Hrows. unfold update_where. rewrite <-list_fmap_compose. apply list_fmap_ext.
    intros j x _. unfold compose. destruct (by_id (id s) x) eqn:E; [|by rewrite E].
    change (by_id (id s) (x <| state := "failed" |>)) with (by_id (id s) x). by rewrite E.
  - change (relay_sessions (w_db w2) = relay_sessions (w_db w)). by rewrite Hdb.
  - change (w_metrics w2 RELAY_FALLBACK_TOTAL = w_metrics w RELAY_FALLBACK_TOTAL). rewrite Hmet by done. by metrics.
Qed.

(** A report of a failed punch. *)
Record failure_report := mkFailure { fr_error : option string; fr_bus : bool }.
Definition report_failure (session_id : uuid) (r : failure_report) : IO unit :=
  record_punch_result session_id false None None None (fr_error r) (fr_bus r);; mret tt.

Lemma report_failures reports s m c w :
  orm_tracks_json = false ->
  keyed (R := NATSession) w -> s ∈ sessions w ->
  extra_metadata s = Some m -> failure_count_of m = Ok c -> c < 1 ->
  exists w', for_each reports (report_failure (id s)) w = (Ok tt, w') /\
    relay_sessions (w_db w') = relay_sessions (w_db w) /\
    w_metrics w' RELAY_FALLBACK_TOTAL = w_metrics w RELAY_FALLBACK_TOTAL.
Proof.
  intros Horm. revert s w. induction reports as [|r reports IH]; intros s w Hk Hs Hm Hc Hlt; [by exists w|].
  cbn [for_each]. rewrite run_bind. unfold report_failure at 1. rewrite run_bind.
  destruct (record_failed_run s m c None None None (fr_error r) (fr_bus r) w)
    as (w1 & t & -> & Hrows & Hrel & Hmet); [done..|].
  assert (id (failed_row t s) = id s) as Hid by done. rewrite <-Hid.
  destruct (IH (failed_row t s) w1) as (w2 & Hrun & Hrel2 & Hmet2); [| |done..|].
  - unfold keyed. rewrite Hrows. by rewrite ids_update.
  - rewrite Hrows. apply elem_of_update_where. left. exists s. split_and!; [done| |done]. by apply by_id_true.
  - exists w2. split; [exact Hrun|]. by rewrite Hrel2, Hmet2.
Qed.

(** * Steps of the sessions *)
Definition same_parties (s s' : NATSession) : Prop :=
  id s' = id s /\ initiator_device_id s' = initiator_device_id s /\
  target_device_id s' = target_device_id s /\ expires_at s' = expires_at s.

(** What a report may do to a session: name its outcome, or nothing. *)
Definition result_step (s s' : NATSession) : Prop :=
  same_parties s s' /\ (state s' = state s \/ state s' = "connected" \/ state s' = "failed").
#[local] Instance result_step_preorder : PreOrder result_step.
Proof.
  split; unfold result_step, same_parties.
  - intros s. split_and!; try done. by left.
  - intros s1 s2 s3 [(? & ? & ? & ?) H12] [(? & ? & ? & ?) H23]. split_and!; try congruence.
    destruct H23 as [->|?]; [done|by right].
Qed.
#[local] Hint Extern 1 (Frame (rows_step result_step) (update_row (R := NATSession) _ _)) =>
  (apply rows_step_update; [apply _|]; intros ? ?; split; [done|]; cbn; auto) : typeclass_instances.

Lemma record_result_steps i success ep port lat error bus :
  Frame (rows_step result_step) (record_punch_result i success ep port lat error bus).
Proof. unfold record_punch_result, punch_succeeded, punch_failed. apply _. Qed.
Lemma validate_steps i ep port reachable lat bus :
  Frame (rows_step result_step) (validate_connectivity i ep port reachable lat bus).
Proof. unfold validate_connectivity. apply _. Qed.

(** * Expiry *)
Definition expired_row (t : Z) (s : NATSession) : NATSession :=
  s <| state := "expired" |> <| updated_at := t |>.
Lemma expire_run w :
  keyed (R := NATSession) w ->
  let t := clock (w_tick w) in
  let n := len_list (List.filter (stale_nat_session t) (sessions w)) in
  exists w', expire_stale_sessions w = (Ok n, w') /\
    sessions w' = update_where (stale_nat_session t) (expired_row t) (sessions w) /\
    w_committed w' = w_db w' /\
    w_metrics w' NAT_SESSION_ACTIVE = w_metrics w NAT_SESSION_ACTIVE - n.
Proof.
  intros Hk t n. unfold expire_stale_sessions. rewrite run_now. fold t.
  unfold select_where. rewrite run_bind. cbn [gets].
  rewrite run_bind, (sweep_update (stale_nat_session t) (expired_row t) (ticked w)) by done.
  rewrite run_commit, run_when. change (sessions (ticked w)) with (sessions w).
  unfold n. destruct (List.filter (stale_nat_session t) (sessions w)) as [|s l] eqn:E; cbn [list_truthy].
  - eexists. split; [reflexivity|]. split_and!; [done|done|].
    change (w_metrics w NAT_SESSION_ACTIVE = w_metrics w NAT_SESSION_ACTIVE - 0). lia.
  - rewrite run_dec_gauge by done. eexists. split; [reflexivity|]. split_and!; [done|done|]. metrics. lia.
Qed.

(** * Properties *)

(** When [_promote_endpoint] returns, either no active endpoint matched
    and nothing changed, or exactly the matching endpoint was promoted: it is
    active and reachable with the returned score, a score that was not
    negative ends between 0 and 200, endpoints of other devices are untouched,
    and if it is reported preferred it is the only active endpoint its device
    has left. *)
Theorem promote_endpoint_spec d e p lat w score preferred w' :
  keyed (R := DeviceEndpoint.DeviceEndpoint) w ->
  _promote_endpoint d e p lat w = (Ok (score, preferred), w') ->
  (score = 0 /\ preferred = false /\ w' = w /\ forall x, x ∈ eps w -> promotable d e p x = false) \/
  exists ep, ep ∈ eps w /\ promotable d e p ep = true /\
    (0 <= DeviceEndpoint.score ep -> 0 <= score <= 200) /\
    Forall2 (fun x x' => DeviceEndpoint.id x' = DeviceEndpoint.id x /\
               (DeviceEndpoint.device_id x <> d -> x' = x)) (eps w) (eps w') /\
    (exists ep', ep' ∈ eps w' /\ DeviceEndpoint.id ep' = DeviceEndpoint.id ep /\
       DeviceEndpoint.is_active ep' = true /\ DeviceEndpoint.reachable ep' = true /\
       DeviceEndpoint.score ep' = score) /\
    (preferred = true -> forall x, x ∈ eps w' -> DeviceEndpoint.device_id x = d ->
       DeviceEndpoint.is_active x = true -> DeviceEndpoint.id x = DeviceEndpoint.id ep).
Proof.
  intros Hk Hrun. destruct (select_one (promotable d e p) w) as [[[ep|]|ex] w1] eqn:Hsel.
  - pose proof (select_one_inv _ _ _ _ Hsel) as [-> [Hp Hin]]. right. exists ep. split; [done|]. split; [done|].
    destruct (promote_run d e p lat w ep Hk Hsel) as (w2 & Hrun2 & Heps). rewrite Hrun in Hrun2.
    injection Hrun2 as -> -> <-. set (t := clock (w_tick w)) in *.
    set (l := after_promotion ep lat t (eps w)) in *.
    assert (DeviceEndpoint.device_id ep = d /\ DeviceEndpoint.is_active ep = true) as [Hd Hact].
    { unfold promotable in Hp. rewrite !andb_true_iff, String.eqb_eq in Hp. tauto. }
    assert (promoted lat t ep ∈ l) as Hpl.
    { apply elem_of_update_where. left. exists ep. split_and!; [done| |done]. by apply by_id_true. }
    assert (Forall2 (fun x x' => DeviceEndpoint.id x' = DeviceEndpoint.id x /\
      (DeviceEndpoint.device_id x <> d -> x' = x)) (eps w) l) as Hl.
    { unfold l, after_promotion, update_where. apply Forall2_fmap_r, Forall_Forall2_diag, Forall_forall.
      intros x Hx. cbn beta delta [compose]. destruct (by_id (DeviceEndpoint.id ep) x) eqn:E; [|done].
      split; [done|]. intros Hne. apply by_id_true in E. exfalso. apply Hne. by rewrite (keyed_eq (eps w) x ep). }
    split_and!.
    + intros H0. unfold promoted. cbn. destruct (Z.eqb_spec (DeviceEndpoint.score ep) 0).
      * unfold compute_endpoint_score, SCORE_MAX. lia.
      * lia.
    + rewrite Heps. destruct (wins ep l); [|done].
      unfold update_where. apply Forall2_fmap_r. eapply Forall2_impl; [exact Hl|]. intros x x' [Hid Hx].
      cbn beta delta [compose]. destruct (loses_to ep x') eqn:E; [|done]. split; [done|]. intros Hne. exfalso.
      specialize (Hx Hne). subst x'. unfold loses_to, active_endpoint_of in E.
      rewrite !andb_true_iff, String.eqb_eq in E. destruct E as [[E _] _]. congruence.
    + exists (promoted lat t ep). split_and!; [|done..]. rewrite Heps. destruct (wins ep l); [|done].
      apply elem_of_update_where. right. split; [done|]. unfold loses_to.
      change (by_id (DeviceEndpoint.id ep) (promoted lat t ep)) with (by_id (DeviceEndpoint.id ep) ep).
      assert (by_id (DeviceEndpoint.id ep) ep = true) as -> by by apply by_id_true.
      by rewrite andb_false_r.
    + intros Hw x Hx Hxd Hxa. rewrite Heps in Hx. change (wins ep l = true) in Hw. rewrite Hw in Hx.
      apply elem_of_update_where in Hx as [(y & _ & _ & ->)|[_ Hlose]]; [done|].
      unfold loses_to, active_endpoint_of in Hlose. rewrite Hxd, Hxa, Hd, String.eqb_refl in Hlose.
      cbn in Hlose. apply negb_false_iff in Hlose. by apply String.eqb_eq in Hlose.
  - pose proof (select_one_inv _ _ _ _ Hsel) as [-> Hnone]. left.
    unfold _promote_endpoint in Hrun. rewrite run_bind, Hsel in Hrun. cbn in Hrun. injection Hrun as <- <- <-. by split_and!.
  - unfold _promote_endpoint in Hrun. by rewrite run_bind, Hsel in Hrun.
Qed.

(** As long as the JSON column does not track in-place changes, the relay
    fallback cannot fire for a session made by [create_nat_session]: however
    many failures are reported, the failure count read back is below two each
    time, so no relay session is created and no fallback is counted. *)
Theorem fallback_never_fires reports s m c w :
  orm_tracks_json = false ->
  keyed (R := NATSession) w -> s ∈ sessions w ->
  extra_metadata s = Some m -> failure_count_of m = Ok c -> c < 1 ->
  exists w', for_each reports (report_failure (id s)) w = (Ok tt, w') /\
    relay_sessions (w_db w') = relay_sessions (w_db w) /\
    w_metrics w' RELAY_FALLBACK_TOTAL = w_metrics w RELAY_FALLBACK_TOTAL.
Proof. intros. by eapply report_failures. Qed.

(** As long as configuration models have no [get], announcing a changed
    configuration after a successful punch publishes nothing: the
    [AttributeError] is swallowed, the database and the event log stay as they
    were. *)
Theorem config_change_never_announced s bus w :
  model_has_get = false ->
  w_db (_publish_config_changed s bus w).2 = w_db w /\
  w_events (_publish_config_changed s bus w).2 = w_events w.
Proof. intros Hget. apply (publish_config_silent s bus Hget w). Qed.

(** The expiry sweep returns the number of sessions it expired and lowers
    the gauge by it; afterwards no live session is past its time, sessions
    that were not stale are as they were, and the result is committed. *)
Theorem expire_stale_sessions_spec w :
  keyed (R := NATSession) w ->
  let t := clock (w_tick w) in
  exists n w', expire_stale_sessions w = (Ok n, w') /\
    Forall2 (fun s s' => s' = if stale_nat_session t s then expired_row t s else s) (sessions w) (sessions w') /\
    Forall (fun s => stale_nat_session t s = false) (sessions w') /\
    w_metrics w' NAT_SESSION_ACTIVE = w_metrics w NAT_SESSION_ACTIVE - n /\
    n = len_list (List.filter (stale_nat_session t) (sessions w)) /\ w_committed w' = w_db w'.
Proof.
  intros Hk t. destruct (expire_run w Hk) as (w' & Hrun & Hrows & Hc & Hm). eexists _, w'.
  split; [exact Hrun|]. rewrite Hrows. fold t. split_and!; [| |exact Hm|done|done].
  - unfold update_where. by apply Forall2_fmap_r, Forall_Forall2_diag, Forall_forall.
  - apply Forall_forall. by intros s [(y & _ & Hy & ->)|[_ Hs]]%elem_of_update_where.
Qed.

(** A reported result has no state guard: it moves any session, an expired
    one too, to "connected" or "failed" (or leaves its state), and never
    changes a session's parties or expiry; a successful result without an
    endpoint always ends in "connected". *)
Theorem results_ignore_state i success ep port lat error bus w :
  keyed (R := NATSession) w ->
  rows_step result_step w (record_punch_result i success ep port lat error bus w).2 /\
  forall s, s ∈ sessions w -> exists s',
    (record_punch_result (id s) true None port lat error bus w).1 = Ok (Some s') /\
    state s' = "connected" /\ connectivity_established s' = true.
Proof.
  intros Hk. split; [apply record_result_steps|]. intros s Hs.
  unfold record_punch_result. rewrite run_bind, select_session by done. unfold punch_succeeded.
  rewrite run_bind. unfold update_row at 1. rewrite run_modify, run_inc, run_bind.
  match goal with |- context [when bus (publish ?t ?d) ?w] =>
    destruct (when_publish_run bus t d w) as (w2 & -> & Hdb & _) end.
  cbn [mret M_ret]. rewrite run_now.
  set (s1 := s <| state := "connected" |> <| connectivity_established := true |>
               <| selected_candidate := Some (selected None port lat) |>).
  assert (keyed (R := NATSession) (ticked w2)) as Hk2.
  { unfold keyed. change (sessions (ticked w2)) with (sessions w2). rewrite Hdb.
    change (NoDup (ids (update_where (by_id (id s)) (fun s => s <| state := "connected" |>
      <| connectivity_established := true |> <| selected_candidate := Some (selected None port lat) |>) (sessions w)))).
    by rewrite ids_update. }
  assert (s1 ∈ sessions (ticked w2)) as Hs1.
  { change (sessions (ticked w2)) with (sessions w2). rewrite Hdb. apply elem_of_update_where. left.
    exists s. split_and!; [done| |done]. by apply by_id_true. }
  change (id s) with (row_id s1). rewrite update_commit_reload by done.
  eexists. split; [reflexivity|done].
Qed.
End Nat.

(** * Witnesses *)
Definition demo_session (st : string) : NATSession :=
  NATSession.mk "n1" "a" "b" st None false (Some [("initiator_port", JInt 51820)]) 0 0 (minutes 5).
Definition demo_nat (st : string) : World :=
  world_of (demo_db <| nat_sessions := [demo_session st] |>).
Lemma demo_nat_keyed st : keyed (R := NATSession) (demo_nat st).
Proof. repeat constructor. set_solver. Qed.
Lemma demo_nat_endpoints st : keyed (R := DeviceEndpoint.DeviceEndpoint) (demo_nat st).
Proof. apply (bool_decide_unpack _). vm_compute. exact I. Qed.

Lemma promote_endpoint_spec_witness :
  let r := _promote_endpoint "b" "198.51.100.8" 51820 (Some 12) (demo_nat "coordinating") in
  r.1 = Ok (120, true) /\
  exists ep', ep' ∈ endpoints (w_db r.2) /\ DeviceEndpoint.score ep' = 120.
Proof.
  cbv zeta. assert ((_promote_endpoint "b" "198.51.100.8" 51820 (Some 12) (demo_nat "coordinating")).1 = Ok (120, true)) as Hr
    by (vm_compute; reflexivity).
  destruct (_promote_endpoint "b" "198.51.100.8" 51820 (Some 12) (demo_nat "coordinating")) as [o w'] eqn:E.
  cbn [fst snd] in *. split; [exact Hr|]. subst o.
  destruct (promote_endpoint_spec "b" "198.51.100.8" 51820 (Some 12) (demo_nat "coordinating") 120 true w'
    (demo_nat_endpoints _) E)
    as [(Hz & _)|(ep & _ & _ & _ & _ & (ep' & Hin & _ & _ & _ & Hs) & _)]; [discriminate Hz|].
  exists ep'. split; [exact Hin|exact Hs].
Defined.

Lemma fallback_never_fires_witness :
  exists w', for_each (replicate 5 (mkFailure (Some "timeout") true)) (report_failure "n1") (demo_nat "coordinating")
               = (Ok tt, w') /\ relay_sessions (w_db w') = [].
Proof.
  destruct (fallback_never_fires (H := demo_env) (replicate 5 (mkFailure (Some "timeout") true))
    (demo_session "coordinating") [("initiator_port", JInt 51820)] 0 (demo_nat "coordinating"))
    as (w' & Hrun & Hrel & _); [reflexivity|apply demo_nat_keyed|left|reflexivity|reflexivity|lia|].
  exists w'. split; [exact Hrun|exact Hrel].
Defined.

Lemma config_change_never_announced_witness :
  w_events (_publish_config_changed (demo_session "connected") true (demo_nat "connected")).2 = [].
Proof. exact (proj2 (config_change_never_announced (H := demo_env) (demo_session "connected") true (demo_nat "connected") eq_refl)). Defined.

Lemma expire_stale_sessions_spec_witness :
  exists n w', expire_stale_sessions (demo_nat "pending" <| w_tick := 300%nat |>) = (Ok n, w') /\
    Forall (fun s => stale_nat_session (minutes 5) s = false) (nat_sessions (w_db w')).
Proof.
  destruct (expire_stale_sessions_spec (demo_nat "pending" <| w_tick := 300%nat |>))
    as (n & w' & Hrun & _ & Hall & _); [apply demo_nat_keyed|].
  exists n, w'. split; [exact Hrun|exact Hall].
Defined.

Lemma results_ignore_state_witness :
  exists s', (record_punch_result "n1" true None None None None true (demo_nat "expired")).1 = Ok (Some s') /\
    state s' = "connected".
Proof.
  destruct (proj2 (results_ignore_state "n1" true None None None None true (demo_nat "expired")
    (demo_nat_keyed "expired")) (demo_session "expired")) as (s' & Hr & Hs & _); [left|].
  by exists s'.
Defined.
