(* ===== verification/IPv6.v ===== *)
(** IPv6 addresses: what the code uses of Python's [ipaddress.ip_address] and
    of [socket.inet_ntop].  An address is its 128-bit value. *)
From Stdlib Require Import Ascii.
From S2P Require Import Prelude PyStr Bytes Json IPv4.
Local Open Scope string_scope.
Local Open Scope list_scope.
Local Open Scope Z_scope.

(** * Parsing, check by check as in [IPv6Address._ip_int_from_string] *)
Fixpoint hex_acc (acc : Z) (s : string) : option Z :=
  match s with
  | EmptyString => Some acc
  | String c t => match hex_value c with Some v => hex_acc (16 * acc + Z.of_N v) t | None => None end
  end.
Definition parse_hextet (s : string) : outcome Z :=
  match hex_acc 0 s with
  | None => Raise (ValueError "Only hex digits permitted")
  | Some n =>
    if (4 <? String.length s)%nat then Raise (ValueError "At most 4 characters permitted")
    else if negb (truthy s) then Raise (ValueError "invalid literal for int()")
    else Ok n
  end.
Definition parse_hextets (parts : list string) : outcome Z :=
  foldl (fun acc p => n ← acc; v ← parse_hextet p; Ok (n * 65536 + v)) (Ok 0) parts.

Definition bad_ip6 {A} : outcome A := Raise (ValueError "not an IPv6 address").

(** The positions, other than the first and the last, of an empty part. *)
Definition gaps (parts : list string) : list nat :=
  List.filter (fun i => String.eqb (nth i parts "") "") (seq 1 (length parts - 2)).

(** The last part may be an IPv4 address. *)
Definition expand_ipv4 (parts : list string) : outcome (list string) :=
  let l := List.last parts "" in
  if contains_char "." l then
    n ← IPv4Address l;
    Ok (removelast parts ++ [hex4 (Z.to_N (n / 65536)); hex4 (Z.to_N (n mod 65536))])
  else Ok parts.

Definition ip6_int_from_string (s : string) : outcome Z :=
  if negb (truthy s) then bad_ip6 else
  let parts := split ":" s in
  if (length parts <? 3)%nat then bad_ip6 else
  parts ← expand_ipv4 parts;
  if (9 <? length parts)%nat then bad_ip6 else
  let first := nth 0 parts "" in let last := List.last parts "" in
  match gaps parts with
  | _ :: _ :: _ => bad_ip6
  | [skip_index] =>
    let hi := skip_index in
    let lo := (length parts - skip_index - 1)%nat in
    let hi' := if truthy first then hi else (hi - 1)%nat in
    let lo' := if truthy last then lo else (lo - 1)%nat in
    if negb (truthy first) && negb (hi' =? 0)%nat then bad_ip6
    else if negb (truthy last) && negb (lo' =? 0)%nat then bad_ip6
    else if (8 <=? hi' + lo')%nat then bad_ip6
    else
      high ← parse_hextets (take hi' parts);
      low ← parse_hextets (drop (length parts - lo') parts);
      Ok (high * 65536 ^ Z.of_nat (8 - hi') + low)
  | [] =>
    if negb (length parts =? 8)%nat || negb (truthy first) || negb (truthy last) then bad_ip6
    else parse_hextets parts
  end.

(** [_split_scope_id] *)
Definition split_scope_id (s : string) : outcome string :=
  match split "%" s with
  | [a] => Ok a
  | [a; scope] => if truthy scope then Ok a else bad_ip6
  | _ => bad_ip6
  end.
Definition IPv6Address (s : string) : outcome Z :=
  if contains_char "/" s then bad_ip6 else a ← split_scope_id s; ip6_int_from_string a.

(** [ip_address(s).packed]: four or sixteen bytes. *)
Definition ip_address_packed (s : string) : outcome bytes :=
  match IPv4Address s with
  | Ok n => Ok (be_bytes 4 n)
  | Raise _ =>
    match IPv6Address s with
    | Ok n => Ok (be_bytes 16 n)
    | Raise _ => Raise (ValueError (quoted s +:+ " does not appear to be an IPv4 or IPv6 address"))
    end
  end.

(** * Printing, as [inet_ntop(AF_INET6, .)] does *)
Definition hextets (n : Z) : list Z :=
  (fun i => n / 65536 ^ Z.of_nat (7 - i) mod 65536) <$> seq 0 8.
(** Lower-case hexadecimal without leading zeros. *)
Fixpoint strip_zeros (s : string) : string :=
  match s with
  | String "0" ((String _ _) as t) => strip_zeros t
  | _ => s
  end.
Definition hextet_str (n : Z) : string := strip_zeros (hex4 (Z.to_N n)).
Definition zero_run (ws : list Z) (i : nat) : nat :=
  (fix run (l : list Z) := match l with 0 :: t => S (run t) | _ => 0%nat end) (drop i ws).
(** The first longest run of at least two zero words. *)
Definition best_run (ws : list Z) : option (nat * nat) :=
  foldl (fun best i =>
    let r := zero_run ws i in
    if (r <? 2)%nat then best
    else match best with Some (_, n) => if (n <? r)%nat then Some (i, r) else best | None => Some (i, r) end)
    None (seq 0 8).
Definition colons (ws : list Z) : string := join ":" (hextet_str <$> ws).
Definition inet_ntop6 (n : Z) : string :=
  let ws := hextets n in
  match best_run ws with
  | None => colons ws
  | Some (b, l) =>
    if (b =? 0)%nat && ((l =? 6)%nat || ((l =? 5)%nat && (nth 5 ws 0 =? 65535))) then
      (if (l =? 6)%nat then "::" else "::ffff:") +:+ ip_str (n mod 2 ^ 32)
    else colons (take b ws) +:+ "::" +:+ colons (drop (b + l) ws)
  end.

(** * Samples *)
Example parse_ip6 :
  IPv6Address <$> ["::"; "::1"; "2001:db8::8:800:200c:417a"; "::ffff:192.0.2.1"; "fe80::1%eth0"; "1::2::3"; "1:2:3"; ":1::2"]
  = [Ok 0; Ok 1; Ok 42540766411282592856906245548098208122; Ok 281473902969345; Ok 338288524927261089654018896841347694593;
     Raise (ValueError "not an IPv6 address"); Raise (ValueError "not an IPv6 address");
     Raise (ValueError "not an IPv6 address")].
Proof. vm_compute. reflexivity. Qed.
Example print_ip6 :
  inet_ntop6 <$> [0; 1; 42540766411282592856906245548098208122; 281473902969345; 2 ^ 127 + 2 ^ 32]
  = ["::"; "::1"; "2001:db8::8:800:200c:417a"; "::ffff:192.0.2.1"; "8000::1:0:0"].
Proof. vm_compute. reflexivity. Qed.
