(* ===== verification/Stun.v ===== *)
(** STUN: the server of [services/stun_server.py] and the client's messages in
    [midscaled/daemon/stun_client.py].

    Messages are byte strings, fields are read with [struct.unpack_from].  The
    UDP endpoint is the list of datagrams sent; the sockets, the future of a
    query and its timeout are not modelled. *)
From Stdlib Require Import Ascii.
From S2P Require Import Prelude PyStr Bytes IPv4 IPv6.
Local Open Scope string_scope.
Local Open Scope list_scope.
Local Open Scope Z_scope.

Definition STUN_MAGIC_COOKIE : Z := 554869826.   (* 0x2112A442 *)
Definition STUN_BINDING_REQUEST : Z := 1.
Definition STUN_BINDING_RESPONSE : Z := 257.     (* 0x0101 *)
Definition STUN_XOR_MAPPED_ADDRESS : Z := 32.    (* 0x0020 *)
Definition STUN_HEADER_SIZE : nat := 20.

(** One field of [struct.unpack_from]: [n] bytes at an offset. *)
Definition unpack_at (n off : nat) (data : bytes) : outcome Z :=
  if (off + n <=? String.length data)%nat then Ok (be_value (slice off (off + n) data)) else Raise StructError.

(** * The server *)
Definition _pack_ip (ip_str : string) : outcome bytes := ip_address_packed ip_str.

Definition _build_binding_response (request_data : bytes) (src_addr : string * Z) : outcome (option bytes) :=
  if (String.length request_data <? STUN_HEADER_SIZE)%nat then Ok None else
  msg_type ← unpack_at 2 0 request_data;
  msg_len ← unpack_at 2 2 request_data;
  cookie ← unpack_at 4 4 request_data;
  if negb (cookie =? STUN_MAGIC_COOKIE) then Ok None
  else if negb (msg_type =? STUN_BINDING_REQUEST) then Ok None else
  let transaction_id := slice 8 20 request_data in
  if negb (String.length transaction_id =? 12)%nat then Ok None else
  let '(ip_str, port) := src_addr in
  match _pack_ip ip_str with
  | Raise _ => Ok None
  | Ok packed_ip =>
    let xored_port := Z.lxor port (Z.shiftr STUN_MAGIC_COOKIE 16) in
    ip ← unpack 4 packed_ip;
    xored_ip ← pack 4 (Z.lxor ip STUN_MAGIC_COOKIE);
    port_bytes ← pack 2 xored_port;
    let attr_value := be_bytes 1 0 +:+ be_bytes 1 1 +:+ port_bytes +:+ xored_ip in
    let attr_length := len attr_value in
    Ok (Some (be_bytes 2 STUN_BINDING_RESPONSE +:+ be_bytes 2 attr_length +:+ be_bytes 4 STUN_MAGIC_COOKIE
      +:+ transaction_id
      +:+ be_bytes 2 STUN_XOR_MAPPED_ADDRESS +:+ be_bytes 2 attr_length +:+ attr_value))
  end.

(** The length of a binding request; anything else is ignored. *)
Definition _parse_request (request_data : bytes) : outcome (option Z) :=
  if (String.length request_data <? STUN_HEADER_SIZE)%nat then Ok None else
  msg_type ← unpack_at 2 0 request_data;
  msg_len ← unpack_at 2 2 request_data;
  cookie ← unpack_at 4 4 request_data;
  if negb (cookie =? STUN_MAGIC_COOKIE) || negb (msg_type =? STUN_BINDING_REQUEST) then Ok None
  else Ok (Some msg_len).

Record StunServer := mkStunServer {
  st_host : string;
  st_port : Z;
  st_running : bool;
  st_transport : bool;
  st_sent : list (bytes * (string * Z))
}.
Definition new_stun_server (host : string) (port : Z) : StunServer := mkStunServer host port false false [].

(** What binding the socket gives: the port it got, or an [OSError]. *)
Definition start (bound : option Z) (s : StunServer) : StunServer :=
  if st_running s then s
  else match bound with
       | Some p => mkStunServer (st_host s) p true true (st_sent s)
       | None => mkStunServer (st_host s) (st_port s) false (st_transport s) (st_sent s)
       end.
Definition stop (s : StunServer) : StunServer :=
  if st_running s then mkStunServer (st_host s) (st_port s) false false (st_sent s) else s.

(** [handler] of a datagram: its exceptions are logged and dropped. *)
Definition handler (data : bytes) (addr : string * Z) (s : StunServer) : StunServer :=
  match (parsed ← _parse_request data;
         match parsed with
         | Some _ => _build_binding_response data addr
         | None => Ok None
         end) with
  | Ok (Some response) =>
    if st_transport s
    then mkStunServer (st_host s) (st_port s) (st_running s) (st_transport s) (st_sent s ++ [(response, addr)])
    else s
  | _ => s
  end.

(** * The client *)
(** [random.randbytes(12)] is the argument. *)
Definition _build_binding_request (transaction_id : bytes) : bytes :=
  be_bytes 2 STUN_BINDING_REQUEST +:+ be_bytes 2 0 +:+ be_bytes 4 STUN_MAGIC_COOKIE +:+ transaction_id.

(** The address in an XOR-MAPPED-ADDRESS value at [offset], if its family is
    known. *)
Definition mapped_address (data : bytes) (offset : nat) (attr_length : Z) : outcome (option (string * Z)) :=
  reserved ← unpack_at 1 offset data;
  family ← unpack_at 1 (offset + 1) data;
  xored_port ← unpack_at 2 (offset + 2) data;
  let port := Z.lxor xored_port (Z.shiftr STUN_MAGIC_COOKIE 16) in
  if (family =? 1) && (8 <=? attr_length) then
    xored_ip ← unpack_at 4 (offset + 4) data;
    Ok (Some (ip_str (Z.lxor xored_ip STUN_MAGIC_COOKIE), port))
  else if (family =? 2) && (20 <=? attr_length) then
    w0 ← unpack_at 4 (offset + 4) data;
    w1 ← unpack_at 4 (offset + 8) data;
    w2 ← unpack_at 4 (offset + 12) data;
    w3 ← unpack_at 4 (offset + 16) data;
    let x w := Z.lxor w STUN_MAGIC_COOKIE in
    Ok (Some (inet_ntop6 (x w0 * 2 ^ 96 + x w1 * 2 ^ 64 + x w2 * 2 ^ 32 + x w3), port))
  else Ok None.

(** The loop over the attributes; each turn moves the offset by four at
    least. *)
Fixpoint scan (fuel : nat) (data : bytes) (offset end_ : nat) : outcome (option (string * Z)) :=
  match fuel with
  | O => Ok None
  | S fuel =>
    if (offset + 4 <=? end_)%nat then
      attr_type ← unpack_at 2 offset data;
      attr_length ← unpack_at 2 (offset + 2) data;
      found ← (if (attr_type =? STUN_XOR_MAPPED_ADDRESS) && (8 <=? attr_length)
               then mapped_address data (offset + 4) attr_length else Ok None);
      match found with
      | Some r => Ok (Some r)
      | None => scan fuel data (offset + (4 + Z.to_nat attr_length + (if Z.odd attr_length then 1 else 0))) end_
      end
    else Ok None
  end.

Definition _parse_binding_response (data expected_tid : bytes) : outcome (option (string * Z)) :=
  if (String.length data <? STUN_HEADER_SIZE)%nat then Ok None else
  msg_type ← unpack_at 2 0 data;
  msg_len ← unpack_at 2 2 data;
  cookie ← unpack_at 4 4 data;
  if negb (cookie =? STUN_MAGIC_COOKIE) then Ok None
  else if negb (msg_type =? STUN_BINDING_RESPONSE) then Ok None else
  let tid := slice 8 20 data in
  if negb (String.eqb tid expected_tid) || negb (String.length tid =? 12)%nat then Ok None else
  let end_ := (STUN_HEADER_SIZE + Z.to_nat msg_len)%nat in
  scan end_ data STUN_HEADER_SIZE end_.

(** * Reading fields back *)
Lemma unpack_at_app n k a b : unpack_at n (String.length a + k) (a +:+ b) = unpack_at n k b.
Proof.
  unfold unpack_at, slice. rewrite str_length_app.
  replace (String.length a + k + n - (String.length a + k))%nat with n by lia.
  replace (k + n - k)%nat with n by lia.
  assert (drop_str (String.length a + k) (a +:+ b) = drop_str k b) as ->.
  { induction a as [|c a IH]; [done|]. exact IH. }
  destruct (Nat.leb_spec (k + n) (String.length b)), (Nat.leb_spec (String.length a + k + n) (String.length a + String.length b));
    try done; lia.
Qed.
Lemma unpack_at_skip n m k z b : unpack_at n (m + k) (be_bytes m z +:+ b) = unpack_at n k b.
Proof. rewrite <-(be_bytes_length m z) at 1. apply unpack_at_app. Qed.
Lemma unpack_at_here n z b : 0 <= z < 256 ^ Z.of_nat n -> unpack_at n 0 (be_bytes n z +:+ b) = Ok z.
Proof.
  intros Hz. unfold unpack_at, slice. rewrite str_length_app, be_bytes_length.
  replace (0 + n <=? n + String.length b)%nat with true by (symmetry; apply Nat.leb_le; lia).
  rewrite Nat.add_0_l, Nat.sub_0_r. cbn [drop_str].
  rewrite <-(be_bytes_length n z) at 1. rewrite take_str_app. by rewrite be_value_bytes.
Qed.
Lemma unpack_at_last n z : 0 <= z < 256 ^ Z.of_nat n -> unpack_at n 0 (be_bytes n z) = Ok z.
Proof. intros. rewrite <-(str_app_nil (be_bytes n z)). by apply unpack_at_here. Qed.

Lemma lxor_bound a b n : 0 <= n -> 0 <= a < 2 ^ n -> 0 <= b < 2 ^ n -> 0 <= Z.lxor a b < 2 ^ n.
Proof.
  intros Hn Ha Hb. assert (0 <= Z.lxor a b) as H0 by (apply Z.lxor_nonneg; lia). split; [done|].
  destruct (Z.eq_dec (Z.lxor a b) 0) as [->|Hne]; [lia|].
  destruct (Z.eq_dec n 0) as [->|Hn0].
  { assert (a = 0) as -> by lia. assert (b = 0) as -> by lia. done. }
  apply Z.log2_lt_pow2; [lia|]. pose proof (Z.log2_lxor a b ltac:(lia) ltac:(lia)).
  assert (Z.log2 a < n) by (destruct (Z.eq_dec a 0) as [->|]; [cbn; lia|apply Z.log2_lt_pow2; lia]).
  assert (Z.log2 b < n) by (destruct (Z.eq_dec b 0) as [->|]; [cbn; lia|apply Z.log2_lt_pow2; lia]).
  lia.
Qed.
Lemma xor_port_bound port :
  0 <= port < 65536 -> 0 <= Z.lxor port (Z.shiftr STUN_MAGIC_COOKIE 16) < 65536.
Proof. intros Hp. apply (lxor_bound _ _ 16); [lia|done|]. by vm_compute. Qed.
Lemma xor_ip_bound n : 0 <= n < 2 ^ 32 -> 0 <= Z.lxor n STUN_MAGIC_COOKIE < 2 ^ 32.
Proof. intros Hn. apply lxor_bound; [lia|done|]. by vm_compute. Qed.
Lemma lxor_twice a b : Z.lxor (Z.lxor a b) b = a.
Proof. by rewrite Z.lxor_assoc, Z.lxor_nilpotent, Z.lxor_0_r. Qed.

(** * Messages as the protocol lays them out *)
Definition reply (msg_len : Z) (tid attrs : bytes) : bytes :=
  be_bytes 2 STUN_BINDING_RESPONSE +:+ be_bytes 2 msg_len +:+ be_bytes 4 STUN_MAGIC_COOKIE +:+ tid +:+ attrs.
Definition attribute (type : Z) (value : bytes) : bytes :=
  be_bytes 2 type +:+ be_bytes 2 (len value) +:+ value.
Definition xor_address (n port : Z) : bytes :=
  be_bytes 1 0 +:+ be_bytes 1 1 +:+ be_bytes 2 (Z.lxor port (Z.shiftr STUN_MAGIC_COOKIE 16)) +:+
  be_bytes 4 (Z.lxor n STUN_MAGIC_COOKIE).

Lemma xor_address_len n port : len (xor_address n port) = 8.
Proof. unfold len, xor_address. by rewrite !str_length_app, !be_bytes_length. Qed.
Lemma reply_length m tid attrs :
  String.length tid = 12%nat -> String.length (reply m tid attrs) = (20 + String.length attrs)%nat.
Proof. intros H. unfold reply. rewrite !str_length_app, !be_bytes_length, H. lia. Qed.
Lemma unpack_at_attrs n k m tid attrs :
  String.length tid = 12%nat -> unpack_at n (20 + k) (reply m tid attrs) = unpack_at n k attrs.
Proof.
  intros H. unfold reply. change (20 + k)%nat with (2 + (2 + (4 + (12 + k))))%nat.
  rewrite !unpack_at_skip, <-H. apply unpack_at_app.
Qed.
Lemma transaction_id_of (a b c : Z) tid rest :
  String.length tid = 12%nat ->
  slice 8 20 (be_bytes 2 a +:+ be_bytes 2 b +:+ be_bytes 4 c +:+ tid +:+ rest) = tid.
Proof.
  intros H. unfold slice. change (20 - 8)%nat with 12%nat. rewrite <-!str_app_assoc.
  set (h := (be_bytes 2 a +:+ be_bytes 2 b) +:+ be_bytes 4 c).
  assert (String.length h = 8%nat) as Hh by (unfold h; by rewrite !str_length_app, !be_bytes_length).
  rewrite str_app_assoc, drop_str_len by done. by apply take_str_len.
Qed.
Lemma header_fields (a b c : Z) rest :
  0 <= a < 65536 -> 0 <= b < 65536 -> 0 <= c < 2 ^ 32 ->
  let m := be_bytes 2 a +:+ be_bytes 2 b +:+ be_bytes 4 c +:+ rest in
  unpack_at 2 0 m = Ok a /\ unpack_at 2 2 m = Ok b /\ unpack_at 4 4 m = Ok c.
Proof.
  intros Ha Hb Hc m. subst m. split_and!.
  - by apply unpack_at_here.
  - change 2%nat with (2 + 0)%nat at 2. rewrite unpack_at_skip. by apply unpack_at_here.
  - change 4%nat with (2 + (2 + 0))%nat at 2. rewrite !unpack_at_skip. by apply unpack_at_here.
Qed.

Lemma build_response_run tid n port :
  String.length tid = 12%nat -> 0 <= n < 2 ^ 32 -> 0 <= port < 65536 ->
  _build_binding_response (_build_binding_request tid) (ip_str n, port) =
  Ok (Some (reply 8 tid (attribute STUN_XOR_MAPPED_ADDRESS (xor_address n port)))).
Proof.
  intros Htid Hn Hp. unfold _build_binding_response, _build_binding_request.
  destruct (header_fields STUN_BINDING_REQUEST 0 STUN_MAGIC_COOKIE tid) as (H1 & H2 & H3); [done..|].
  rewrite H1, H2, H3. rewrite !str_length_app, !be_bytes_length, Htid. cbn [Nat.ltb Nat.leb Nat.add STUN_HEADER_SIZE].
  cbn [mbind outcome_bind]. 
  pose proof (transaction_id_of STUN_BINDING_REQUEST 0 STUN_MAGIC_COOKIE tid "" Htid) as Hs.
  rewrite str_app_nil in Hs. rewrite Hs, Htid.
  unfold _pack_ip, ip_address_packed. rewrite IPv4Address_str by done. cbn [Z.eqb Pos.eqb negb STUN_MAGIC_COOKIE STUN_BINDING_REQUEST Nat.eqb].
  unfold unpack. rewrite be_bytes_length, be_value_bytes by done. cbn [Nat.eqb mbind outcome_bind].
  rewrite (pack_ok 4) by by apply xor_ip_bound.
  rewrite (pack_ok 2) by by apply xor_port_bound.
  cbn [mbind outcome_bind]. unfold reply, attribute. fold (xor_address n port). rewrite xor_address_len. done.
Qed.

Lemma parse_reply m tid attrs :
  String.length tid = 12%nat -> 0 <= m < 65536 ->
  forall tid', _parse_binding_response (reply m tid attrs) tid' =
    if String.eqb tid tid' then scan (20 + Z.to_nat m) (reply m tid attrs) 20 (20 + Z.to_nat m) else Ok None.
Proof.
  intros Htid Hm tid'. unfold _parse_binding_response. rewrite reply_length by done.
  destruct (header_fields STUN_BINDING_RESPONSE m STUN_MAGIC_COOKIE (tid +:+ attrs)) as (H1 & H2 & H3); [done..|].
  fold (reply m tid attrs) in H1, H2, H3. rewrite H1, H2, H3.
  replace (slice 8 20 (reply m tid attrs)) with tid by (symmetry; by apply transaction_id_of).
  rewrite Htid. cbn [mbind outcome_bind Nat.eqb negb orb]. rewrite orb_false_r.
  by destruct (String.eqb tid tid').
Qed.

(** * The attribute loop *)
(** Enough fuel: the rest of the message shrinks by four bytes a turn. *)
Lemma scan_fuel f1 f2 data off end_ :
  (end_ < off + 4 * f1 + 4)%nat -> (end_ < off + 4 * f2 + 4)%nat ->
  scan f1 data off end_ = scan f2 data off end_.
Proof.
  revert f2 off. induction f1 as [|f1 IH]; intros [|f2] off H1 H2; cbn [scan]; try done.
  - destruct (Nat.leb_spec (off + 4) end_); [lia|done].
  - destruct (Nat.leb_spec (off + 4) end_); [lia|done].
  - destruct (off + 4 <=? end_)%nat; [|done].
    destruct (unpack_at 2 off data) as [t|]; [|done]. destruct (unpack_at 2 (off + 2) data) as [l|]; [|done].
    cbn [mbind outcome_bind]. destruct (if _ && _ then _ else _) as [[r|]|]; [done| |done].
    apply IH; lia.
Qed.

(** One turn over an attribute the client does not look for. *)
Definition skipped (l : Z) : nat := 4 + Z.to_nat l + (if Z.odd l then 1 else 0).
Lemma scan_skip fuel data off end_ t l :
  (off + 4 <= end_)%nat -> t <> STUN_XOR_MAPPED_ADDRESS ->
  unpack_at 2 off data = Ok t -> unpack_at 2 (off + 2) data = Ok l ->
  scan (S fuel) data off end_ = scan fuel data (off + skipped l) end_.
Proof.
  intros Hoff Ht H1 H2. cbn [scan]. apply Nat.leb_le in Hoff. rewrite Hoff, H1, H2. cbn [mbind outcome_bind].
  by rewrite (proj2 (Z.eqb_neq t _) Ht).
Qed.
Lemma xor_attribute_fields n port rest :
  0 <= n < 2 ^ 32 -> 0 <= port < 65536 ->
  let a := attribute STUN_XOR_MAPPED_ADDRESS (xor_address n port) +:+ rest in
  unpack_at 2 0 a = Ok STUN_XOR_MAPPED_ADDRESS /\ unpack_at 2 2 a = Ok 8 /\
  unpack_at 1 4 a = Ok 0 /\ unpack_at 1 5 a = Ok 1 /\
  unpack_at 2 6 a = Ok (Z.lxor port (Z.shiftr STUN_MAGIC_COOKIE 16)) /\
  unpack_at 4 8 a = Ok (Z.lxor n STUN_MAGIC_COOKIE).
Proof.
  intros Hn Hp a. subst a. unfold attribute. rewrite xor_address_len. unfold xor_address. rewrite !str_app_assoc.
  pose proof (xor_port_bound port Hp). pose proof (xor_ip_bound n Hn). split_and!.
  - by apply unpack_at_here.
  - change 2%nat with (2 + 0)%nat at 2. rewrite unpack_at_skip. by apply unpack_at_here.
  - change 4%nat with (2 + (2 + 0))%nat. rewrite !unpack_at_skip. by apply unpack_at_here.
  - change 5%nat with (2 + (2 + (1 + 0)))%nat. rewrite !unpack_at_skip. by apply unpack_at_here.
  - change 6%nat with (2 + (2 + (1 + (1 + 0))))%nat. rewrite !unpack_at_skip. by apply unpack_at_here.
  - change 8%nat with (2 + (2 + (1 + (1 + (2 + 0)))))%nat. rewrite !unpack_at_skip. by apply unpack_at_here.
Qed.
(** The turn that finds the address. *)
Lemma scan_found fuel data off end_ n port rest :
  (off + 4 <= end_)%nat -> 0 <= n < 2 ^ 32 -> 0 <= port < 65536 ->
  (forall m k, unpack_at m (off + k) data =
     unpack_at m k (attribute STUN_XOR_MAPPED_ADDRESS (xor_address n port) +:+ rest)) ->
  scan (S fuel) data off end_ = Ok (Some (ip_str n, port)).
Proof.
  intros Hoff Hn Hp Hdata. destruct (xor_attribute_fields n port rest Hn Hp) as (H0 & H2 & H4 & H5 & H6 & H8).
  pose proof (Hdata 2%nat 0%nat) as E. rewrite Nat.add_0_r in E. cbn [scan]. apply Nat.leb_le in Hoff.
  rewrite Hoff, E, H0, Hdata, H2. unfold mapped_address. rewrite <-!Nat.add_assoc, !Hdata. cbn [Nat.add].
  rewrite H4, H5, H6, H8. cbn [mbind outcome_bind]. rewrite !Z.eqb_refl. cbn [andb Z.leb Z.compare Pos.compare Pos.compare_cont].
  cbn [mbind outcome_bind]. by rewrite !lxor_twice.
Qed.

(** Attributes the client does not look for, with values of even length. *)
Definition skippable (a : Z * bytes) : Prop :=
  0 <= a.1 < 65536 /\ a.1 <> STUN_XOR_MAPPED_ADDRESS /\ len a.2 < 65536 /\ Z.even (len a.2) = true.
Definition attributes (l : list (Z * bytes)) : bytes :=
  foldr (fun a rest => attribute a.1 a.2 +:+ rest) "" l.
Lemma attribute_length t v : String.length (attribute t v) = (4 + String.length v)%nat.
Proof. unfold attribute. by rewrite !str_length_app, !be_bytes_length. Qed.
Lemma attribute_fields t v rest :
  0 <= t < 65536 -> len v < 65536 ->
  unpack_at 2 0 (attribute t v +:+ rest) = Ok t /\ unpack_at 2 2 (attribute t v +:+ rest) = Ok (len v).
Proof.
  intros Ht Hv. unfold attribute. rewrite !str_app_assoc. split; [by apply unpack_at_here|].
  change 2%nat with (2 + 0)%nat at 2. rewrite unpack_at_skip. apply unpack_at_here.
  unfold len in *. cbn. lia.
Qed.
Lemma scan_attributes l n port rest fuel data off end_ :
  Forall skippable l -> 0 <= n < 2 ^ 32 -> 0 <= port < 65536 ->
  (off + String.length (attributes l) + 4 <= end_)%nat -> (end_ < off + 4 * fuel + 4)%nat ->
  (forall m k, unpack_at m (off + k) data = unpack_at m k
     (attributes l +:+ attribute STUN_XOR_MAPPED_ADDRESS (xor_address n port) +:+ rest)) ->
  scan fuel data off end_ = Ok (Some (ip_str n, port)).
Proof.
  intros Hl Hn Hp. revert fuel off. induction Hl as [|[t v] l (Ht & Hne & Hv & Heven) Hl IH]; intros fuel off Hoff Hfuel Hdata.
  - destruct fuel as [|fuel]; [cbn in *; lia|]. apply (scan_found _ _ _ _ n port rest); [cbn in Hoff; lia|done|done|exact Hdata].
  - cbn [attributes foldr fst snd] in *. fold (attributes l) in *. rewrite str_length_app, attribute_length in Hoff.
    destruct fuel as [|fuel]; [lia|]. rewrite str_app_assoc in Hdata.
    destruct (attribute_fields t v (attributes l +:+ attribute STUN_XOR_MAPPED_ADDRESS (xor_address n port) +:+ rest)
      Ht Hv) as [H0 H2].
    assert (skipped (len v) = String.length (attribute t v)) as Hs.
    { unfold skipped. rewrite <-Z.negb_even, Heven, attribute_length. unfold len. cbn. lia. }
    rewrite (scan_skip _ _ _ _ t (len v)); [|lia|done| |by rewrite Hdata].
    + rewrite Hs. apply IH; [rewrite attribute_length; lia|rewrite attribute_length; lia|].
      intros m k. rewrite <-Nat.add_assoc, Hdata. apply unpack_at_app.
    + rewrite <-(Nat.add_0_r off). by rewrite Hdata.
Qed.

(** * Properties *)

(** C32. The client reads from the server's answer to its own request exactly
    the IPv4 address and port the server saw, and nothing from it under
    another transaction id.  The answer's length field, though, says 8 bytes
    where 12 follow the header. *)
Theorem stun_round_trip tid n port :
  String.length tid = 12%nat -> 0 <= n < 2 ^ 32 -> 0 <= port < 65536 ->
  exists resp, _build_binding_response (_build_binding_request tid) (ip_str n, port) = Ok (Some resp) /\
    _parse_binding_response resp tid = Ok (Some (ip_str n, port)) /\
    (forall tid', tid' <> tid -> _parse_binding_response resp tid' = Ok None) /\
    unpack_at 2 2 resp = Ok 8 /\ String.length resp = (STUN_HEADER_SIZE + 12)%nat.
Proof.
  intros Htid Hn Hp. rewrite build_response_run by done. eexists. split; [done|].
  set (a := attribute _ _). split_and!.
  - rewrite parse_reply, String.eqb_refl by done.
    apply (scan_attributes [] n port ""); [constructor|done|done|vm_compute; lia|vm_compute; lia|].
    intros m k. rewrite unpack_at_attrs by done. by rewrite str_app_nil.
  - intros tid' Hne. rewrite parse_reply by done. by rewrite (proj2 (String.eqb_neq tid tid') (not_eq_sym Hne)).
  - by destruct (header_fields STUN_BINDING_RESPONSE 8 STUN_MAGIC_COOKIE (tid +:+ a)) as (_ & H & _).
  - rewrite reply_length by done. unfold a. rewrite attribute_length. pose proof (xor_address_len n port) as Hl.
    unfold len in Hl. apply (Nat2Z.inj _ 8) in Hl. by rewrite Hl.
Qed.

(** The client finds the mapped address behind any attributes of even
    length it does not know, whatever follows it. *)
Theorem stun_client_skips tid l n port rest m :
  String.length tid = 12%nat -> Forall skippable l -> 0 <= n < 2 ^ 32 -> 0 <= port < 65536 ->
  len (attributes l) + 4 <= m < 65536 ->
  _parse_binding_response (reply m tid
    (attributes l +:+ attribute STUN_XOR_MAPPED_ADDRESS (xor_address n port) +:+ rest)) tid
  = Ok (Some (ip_str n, port)).
Proof.
  intros Htid Hl Hn Hp Hm. unfold len in Hm. rewrite parse_reply, String.eqb_refl by (done || lia).
  apply (scan_attributes l n port rest); [done..|lia|lia|]. intros j k. by rewrite unpack_at_attrs.
Qed.

(** RFC 5389 pads attribute values to four bytes, the client skips to two:
    behind a value one byte longer than a multiple of four it reads the
    padding as an attribute and misses the address. *)
Theorem stun_padding_misread tid t v n port :
  String.length tid = 12%nat -> 0 <= t < 65536 -> t <> STUN_XOR_MAPPED_ADDRESS ->
  0 <= n < 2 ^ 32 -> 0 <= port < 65536 -> len v mod 4 = 1 -> len v < 65000 ->
  _parse_binding_response (reply (len v + 19) tid
    (attribute t v +:+ be_bytes 3 0 +:+ attribute STUN_XOR_MAPPED_ADDRESS (xor_address n port))) tid = Ok None.
Proof.
  intros Htid Ht Hne Hn Hp Hmod Hv. set (a := attribute STUN_XOR_MAPPED_ADDRESS _).
  assert (0 <= len v) as Hv0 by (unfold len; lia).
  rewrite parse_reply, String.eqb_refl by (done || lia). set (data := reply _ _ _).
  destruct (attribute_fields t v (be_bytes 3 0 +:+ a) Ht ltac:(lia)) as [H0 H2].
  assert (forall m k, unpack_at m (20 + (4 + String.length v + (1 + k))) data =
    unpack_at m k (be_bytes 2 0 +:+ a)) as Hrest.
  { intros m k. unfold data. rewrite unpack_at_attrs, <-(attribute_length t v), unpack_at_app by done.
    change (be_bytes 3 0) with (be_bytes 1 0 +:+ be_bytes 2 0). rewrite str_app_assoc. apply unpack_at_skip. }
  assert (skipped (len v) = 4 + String.length v + (1 + 0))%nat as Hs.
  { unfold skipped. assert (Z.odd (len v) = true) as -> by (rewrite Zodd_mod; apply Zeq_is_eq_bool;
      rewrite (Z.div_mod (len v) 4) by lia; rewrite Hmod; rewrite (Z.mul_comm 4), Z.add_mod by lia;
      change 4 with (2 * 2); rewrite Z.mul_assoc, Z.mod_mul by lia; done).
    unfold len. lia. }
  replace (20 + Z.to_nat (len v + 19))%nat with (S (S (S (36 + String.length v)))) at 1 by (unfold len; lia).
  rewrite (scan_skip _ _ _ _ t (len v)); [|lia|done| |].
  2:{ unfold data. change 20%nat with (20 + 0)%nat. by rewrite unpack_at_attrs. }
  2:{ unfold data. by rewrite unpack_at_attrs. }
  rewrite Hs. rewrite (scan_skip _ _ _ _ 0 32); [|unfold len; lia|done| |].
  - cbn [scan]. destruct (Nat.leb_spec (20 + (4 + String.length v + (1 + 0)) + skipped 32 + 4)
      (20 + Z.to_nat (len v + 19))) as [Hle|]; [|done]. exfalso. unfold len, skipped in Hle. cbn in Hle. lia.
  - rewrite Hrest. by apply unpack_at_here.
  - replace (20 + (4 + String.length v + (1 + 0)) + 2)%nat with (20 + (4 + String.length v + (1 + 2)))%nat by lia.
    rewrite Hrest.
    change 2%nat with (2 + 0)%nat at 2. rewrite unpack_at_skip. unfold a, attribute. by apply unpack_at_here.
Qed.

(** * Witnesses *)
Definition demo_tid : bytes := "abcdefghijkl".
Lemma stun_round_trip_witness :
  exists resp, _build_binding_response (_build_binding_request demo_tid) ("203.0.113.9", 40001) = Ok (Some resp) /\
    _parse_binding_response resp demo_tid = Ok (Some ("203.0.113.9", 40001)).
Proof.
  destruct (stun_round_trip demo_tid (ip 203 0 113 9) 40001) as (resp & Hb & Hp & _); [done|done|done|].
  exists resp. split; [exact Hb|exact Hp].
Defined.
Lemma stun_client_skips_witness :
  _parse_binding_response (reply 40 demo_tid (attributes [(32802, "midscale"); (1, "xx")] +:+
    attribute STUN_XOR_MAPPED_ADDRESS (xor_address (ip 203 0 113 9) 40001) +:+ "tail")) demo_tid
  = Ok (Some ("203.0.113.9", 40001)).
Proof.
  exact (stun_client_skips demo_tid [(32802, "midscale"); (1, "xx")] (ip 203 0 113 9) 40001 "tail" 40
    eq_refl ltac:(repeat constructor; by vm_compute) ltac:(by vm_compute) ltac:(by vm_compute) ltac:(by vm_compute)).
Defined.
Lemma stun_padding_misread_witness :
  _parse_binding_response (reply 24 demo_tid (attribute 32802 "coder" +:+ be_bytes 3 0 +:+
    attribute STUN_XOR_MAPPED_ADDRESS (xor_address (ip 203 0 113 9) 40001))) demo_tid = Ok None.
Proof.
  exact (stun_padding_misread demo_tid 32802 "coder" (ip 203 0 113 9) 40001
    eq_refl ltac:(by vm_compute) ltac:(by vm_compute) ltac:(by vm_compute) ltac:(by vm_compute) eq_refl eq_refl).
Defined.
