(* ===== verification/RateLimit.v ===== *)
(** The sliding-window rate limiter of [services/rate_limiter.py], in memory
    and over Redis, whose answers are an argument, and the middleware of
    [core/middleware.py].

    [time.monotonic()] is the argument [now], in microseconds; the deque of a
    client is the list of its time stamps, oldest first. *)
From Stdlib Require Import Ascii.
From S2P Require Import Prelude PyStr.
Local Open Scope string_scope.
Local Open Scope list_scope.
Local Open Scope Z_scope.

Record RateLimiter := mkRateLimiter {
  rl_max : Z;
  rl_window : Z;                      (* seconds *)
  rl_clients : gmap string (list Z)   (* a defaultdict of deques *)
}.
#[export] Instance set_rl_clients : SetField rl_clients :=
  fun v s => mkRateLimiter (rl_max s) (rl_window s) v.
Definition new_rate_limiter (max_requests window_seconds : Z) : RateLimiter :=
  mkRateLimiter max_requests window_seconds ∅.

Definition window_start (now : Z) (s : RateLimiter) : Z := now - seconds (rl_window s).

(** [while timestamps and timestamps[0] < window_start: timestamps.popleft()] *)
Fixpoint popleft_before (start : Z) (l : list Z) : list Z :=
  match l with
  | t :: rest => if t <? start then popleft_before start rest else l
  | [] => []
  end.

Definition _check_memory (key : string) (now : Z) : M RateLimiter (bool * Z) := fun s =>
  let timestamps := popleft_before (window_start now s) (default [] (rl_clients s !! key)) in
  let kept := s <| rl_clients := <[key := timestamps]> (rl_clients s) |> in
  if rl_max s <=? len_list timestamps then
    match timestamps with
    | [] => (Raise IndexError, kept)
    | oldest :: _ =>
      let retry_after := Z.quot (oldest + seconds (rl_window s) - now) US in
      (Ok (false, Z.max retry_after 1), kept)
    end
  else (Ok (true, 0), s <| rl_clients := <[key := timestamps ++ [now]]> (rl_clients s) |>).

Definition reset (key : string) (s : RateLimiter) : RateLimiter :=
  s <| rl_clients := delete key (rl_clients s) |>.

(** One turn of [_periodic_cleanup]. *)
Definition stale_client (start : Z) (v : list Z) : bool :=
  match last v with Some t => t <? start | None => false end.
Definition _periodic_cleanup (now : Z) (s : RateLimiter) : RateLimiter :=
  s <| rl_clients := filter (fun kv => stale_client (window_start now s) kv.2 = false) (rl_clients s) |>.

(** The Redis backend, over what Redis answers to its three transactions: the
    number of time stamps left in the window (none when there is no result),
    the oldest one's score, and the addition.  [now] is the time; whatever
    fails lets the request pass. *)
Definition _check_redis (now : Z) (s : RateLimiter) (counted oldest : outcome (option Z)) (added : outcome unit) : bool * Z :=
  match counted with
  | Raise _ => (true, 0)
  | Ok count =>
    if rl_max s <=? default 0 count then
      match oldest with
      | Raise _ => (true, 0)
      | Ok score =>
        let oldest_score := default now score in
        (false, Z.max (Z.quot (oldest_score + seconds (rl_window s) - now) US) 1)
      end
    else match added with Raise _ => (true, 0) | Ok _ => (true, 0) end
  end.

(** [check]: [redis] is what Redis answers when the limiter is connected;
    [now] is the monotonic clock and [wall] the time. *)
Definition check (redis : option (outcome (option Z) * outcome (option Z) * outcome unit)) (key : string) (now wall : Z) :
    M RateLimiter (bool * Z) :=
  match redis with
  | Some (counted, oldest, added) => gets (fun s => _check_redis wall s counted oldest added)
  | None => _check_memory key now
  end.

(** * The middleware's choice *)
Definition _classify_path (path : string) : string :=
  if startswith "/api/v1/auth/" path then "auth"
  else if contains_str "/register" path then "register"
  else if contains_str "/heartbeat" path then "heartbeat"
  else if startswith "/ws" path then "websocket"
  else if startswith "/api/v1/routes/" path || startswith "/api/v1/audit" path then "admin"
  else "default".
Definition _get_limiter (limiters : gmap string RateLimiter) (path : string) : option RateLimiter :=
  match limiters !! _classify_path path with
  | Some l => Some l
  | None => limiters !! "default"
  end.

(** The limiters by name, and what the two counters were told: requests by
    method, path and status, refusals by limiter and path. *)
Record Gate := mkGate {
  rate_limiters : gmap string RateLimiter;
  API_REQUESTS : list (string * string * string);
  gate_blocked : list (string * string)
}.
#[export] Instance set_rate_limiters : SetField rate_limiters := fun v g => mkGate v (API_REQUESTS g) (gate_blocked g).
#[export] Instance set_API_REQUESTS : SetField API_REQUESTS := fun v g => mkGate (rate_limiters g) v (gate_blocked g).
#[export] Instance set_gate_blocked : SetField gate_blocked := fun v g => mkGate (rate_limiters g) (API_REQUESTS g) v.
Inductive gate_answer :=
  | TooManyRequests (retry_after limit reset : Z)
  | Passed (status : Z).
(** The name under which [_get_limiter] finds its limiter. *)
Definition limiter_key (limiters : gmap string RateLimiter) (path : string) : string :=
  if bool_decide (is_Some (limiters !! _classify_path path)) then _classify_path path else "default".
Definition count_request (method path status : string) : M Gate unit :=
  modify (fun g => g <| API_REQUESTS := API_REQUESTS g ++ [(method, path, status)] |>).
(** [now] and [wall] are the monotonic clock and the time; [call_next] is what
    the application makes of the request. *)
Definition dispatch (redis : option (outcome (option Z) * outcome (option Z) * outcome unit)) (client : option string) (method path : string)
    (now wall : Z) (call_next : outcome Z) : M Gate gate_answer :=
  let client_ip := default "127.0.0.1" client in
  limiters ← gets rate_limiters;
  let pass : M Gate gate_answer :=
    status ← lift call_next; count_request method path (str_int status);; mret (Passed status) in
  match _get_limiter limiters path with
  | None => pass
  | Some limiter =>
    let checked := check redis client_ip now wall limiter in
    modify (fun g => g <| rate_limiters := <[limiter_key limiters path := checked.2]> (rate_limiters g) |>);;
    '(allowed, retry_after) ← lift checked.1;
    if (allowed : bool) then pass else
    count_request method path "429";;
    modify (fun g => g <| gate_blocked := gate_blocked g ++ [(_classify_path path, path)] |>);;
    mret (TooManyRequests retry_after (rl_max limiter) ((wall + seconds retry_after) / US))
  end.

(** * Runs: what a limiter let through *)
Inductive rate_event :=
  | Check (key : string) (now : Z)
  | Reset (key : string)
  | Cleanup (now : Z).

(** The allowed requests of each key since its last reset, oldest first. *)
Definition allowed (h : gmap string (list Z)) (key : string) : list Z := default [] (h !! key).
Definition rate_step (e : rate_event) (sh : RateLimiter * gmap string (list Z)) : RateLimiter * gmap string (list Z) :=
  let '(s, h) := sh in
  match e with
  | Check key now =>
    let '(r, s') := _check_memory key now s in
    (s', match r with Ok (true, _) => <[key := allowed h key ++ [now]]> h | _ => h end)
  | Reset key => (reset key s, delete key h)
  | Cleanup now => (_periodic_cleanup now s, h)
  end.
Definition rate_run (es : list rate_event) (sh : RateLimiter * gmap string (list Z)) : RateLimiter * gmap string (list Z) :=
  foldl (fun sh e => rate_step e sh) sh es.

(** The clock does not go back: each reading is at least the last one. *)
Fixpoint monotone (now : Z) (es : list rate_event) : Prop :=
  match es with
  | [] => True
  | (Check _ t | Cleanup t) :: rest => now <= t /\ monotone t rest
  | Reset _ :: rest => monotone now rest
  end.

Definition within (a b : Z) (l : list Z) : list Z := List.filter (fun t => (a <=? t) && (t <=? b)) l.

(** * Lemmas *)
Definition stamps (s : RateLimiter) (key : string) : list Z := default [] (rl_clients s !! key).

Lemma popleft_split start l :
  exists old, l = old ++ popleft_before start l /\ Forall (fun t => t < start) old.
Proof.
  induction l as [|t l (old & Heq & Hold)]; [by exists []|]. cbn [popleft_before].
  destruct (Z.ltb_spec t start); [|by exists []].
  exists (t :: old). split; [by rewrite Heq at 1|by constructor].
Qed.
Lemma popleft_sorted start l :
  StronglySorted Z.le l -> Forall (fun t => start <= t) (popleft_before start l).
Proof.
  induction 1 as [|t l Hs IH Hall]; [constructor|]. cbn [popleft_before].
  destruct (Z.ltb_spec t start) as [|Hge]; [done|]. constructor; [done|].
  eapply Forall_impl; [exact Hall|]. cbn. lia.
Qed.
Lemma sorted_app_r (l1 l2 : list Z) : StronglySorted Z.le (l1 ++ l2) -> StronglySorted Z.le l2.
Proof. induction l1; [done|]. by inversion 1; subst; auto. Qed.
Lemma sorted_snoc (l : list Z) t :
  StronglySorted Z.le l -> Forall (fun x => x <= t) l -> StronglySorted Z.le (l ++ [t]).
Proof.
  induction 1 as [|x l Hs IH Hall]; intros Hf; [repeat constructor|].
  apply Forall_cons in Hf as [Hx Hf]. constructor; [by apply IH|]. apply Forall_app. by split; [|constructor].
Qed.
Lemma within_app a b l1 l2 : within a b (l1 ++ l2) = within a b l1 ++ within a b l2.
Proof. unfold within. induction l1 as [|x l1 IH]; [done|]. cbn. destruct (_ && _); cbn; by rewrite IH. Qed.
Lemma within_nil a b l : Forall (fun t => t < a) l -> within a b l = [].
Proof.
  unfold within. induction 1 as [|x l Hx Hl IH]; [done|]. cbn. by replace (a <=? x) with false by lia.
Qed.
Lemma within_all a b l : Forall (fun t => a <= t <= b) l -> within a b l = l.
Proof.
  unfold within. induction 1 as [|x l Hx Hl IH]; [done|]. cbn.
  replace (a <=? x) with true by lia. replace (x <=? b) with true by lia. cbn. by rewrite IH.
Qed.
Lemma within_length a b l : len_list (within a b l) <= len_list l.
Proof. unfold within, len_list. pose proof (List.filter_length_le (fun t => (a <=? t) && (t <=? b)) l). lia. Qed.

(** What a limiter remembers is the end of what it let through; the rest has
    left the window. *)
Record rate_inv (now : Z) (sh : RateLimiter * gmap string (list Z)) : Prop := {
  inv_suffix : forall k, exists old, allowed sh.2 k = old ++ stamps sh.1 k /\
    Forall (fun t => t < window_start now sh.1) old;
  inv_sorted : forall k, StronglySorted Z.le (allowed sh.2 k);
  inv_past : forall k, Forall (fun t => t <= now) (allowed sh.2 k);
  inv_window : forall k a, len_list (within a (a + seconds (rl_window sh.1)) (allowed sh.2 k)) <= rl_max sh.1
}.

Lemma rate_inv_start now max window : 0 <= max -> rate_inv now (new_rate_limiter max window, ∅).
Proof.
  intros Hm. split; intros k; unfold stamps, allowed; cbn; rewrite ?lookup_empty; cbn.
  - by exists [].
  - constructor.
  - constructor.
  - intros a. exact Hm.
Qed.
Lemma rate_inv_later now now' sh : now <= now' -> rate_inv now sh -> rate_inv now' sh.
Proof.
  intros Hle [H1 H2 H3 H4]. split; [|done| |done].
  - intros k. destruct (H1 k) as (old & Heq & Hold). exists old. split; [done|].
    eapply Forall_impl; [exact Hold|]. unfold window_start. cbn. lia.
  - intros k. eapply Forall_impl; [exact (H3 k)|]. cbn. lia.
Qed.

(** The stamps left after popping are those of the window. *)
Lemma popped_window now sh k :
  rate_inv now sh ->
  let l := popleft_before (window_start now sh.1) (stamps sh.1 k) in
  (exists old, allowed sh.2 k = old ++ l /\ Forall (fun t => t < window_start now sh.1) old) /\
  Forall (fun t => window_start now sh.1 <= t <= now) l /\
  within (window_start now sh.1) now (allowed sh.2 k) = l.
Proof.
  intros [H1 H2 H3 _] l. destruct (H1 k) as (old & Heq & Hold).
  destruct (popleft_split (window_start now sh.1) (stamps sh.1 k)) as (old' & Heq' & Hold').
  fold l in Heq'. assert (Forall (fun t => window_start now sh.1 <= t <= now) l) as Hl.
  { pose proof (H2 k) as Hs. pose proof (H3 k) as Hp. rewrite Heq in Hs, Hp.
    apply sorted_app_r in Hs. apply Forall_app in Hp as [_ Hp]. rewrite Heq' in Hp. apply Forall_app in Hp as [_ Hp].
    apply (popleft_sorted (window_start now sh.1)) in Hs. fold l in Hs.
    apply Forall_forall. intros t Ht. rewrite Forall_forall in Hs, Hp. split; [by apply Hs|by apply Hp]. }
  assert (allowed sh.2 k = (old ++ old') ++ l) as Hall by (rewrite Heq, Heq' at 1; by rewrite app_assoc).
  assert (Forall (fun t => t < window_start now sh.1) (old ++ old')) as Hout by by apply Forall_app.
  split_and!; [by exists (old ++ old')|done|].
  rewrite Hall, within_app, within_nil by done. by apply within_all.
Qed.

Lemma check_cases key now s :
  let l := popleft_before (window_start now s) (stamps s key) in
  (len_list l < rl_max s /\
   _check_memory key now s = (Ok (true, 0), s <| rl_clients := <[key := l ++ [now]]> (rl_clients s) |>)) \/
  (rl_max s <= len_list l /\ (_check_memory key now s).2 = s <| rl_clients := <[key := l]> (rl_clients s) |> /\
   forall n, (_check_memory key now s).1 <> Ok (true, n)).
Proof.
  intros l. unfold _check_memory. fold (stamps s key). fold l. destruct (Z.leb_spec (rl_max s) (len_list l)).
  - right. split; [done|]. by destruct l.
  - by left.
Qed.

Lemma stamps_insert s key v k :
  stamps (s <| rl_clients := <[key := v]> (rl_clients s) |>) k = if decide (key = k) then v else stamps s k.
Proof.
  change (default [] (<[key := v]> (rl_clients s) !! k) = if decide (key = k) then v else stamps s k).
  case_decide as Hk; [subst; by rewrite lookup_insert_eq|by rewrite lookup_insert_ne].
Qed.
Lemma allowed_insert (h : gmap string (list Z)) key v k :
  allowed (<[key := v]> h) k = if decide (key = k) then v else allowed h k.
Proof.
  unfold allowed. case_decide as Hk; [subst; by rewrite lookup_insert_eq|by rewrite lookup_insert_ne].
Qed.

Lemma rate_inv_check key now sh : rate_inv now sh -> rate_inv now (rate_step (Check key now) sh).
Proof.
  destruct sh as [s h]. intros Hi. destruct (popped_window now (s, h) key Hi) as ((old & Hall & Hold) & Hl & _).
  cbn [fst snd rate_step] in *. destruct (check_cases key now s) as [(Hlt & ->)|(Hge & Hs & Hr)].
  - set (l := popleft_before _ _) in *. destruct Hi as [H1 H2 H3 H4]. cbn [fst snd] in *.
    split; intros k; cbn [fst snd]; rewrite ?stamps_insert, ?allowed_insert; case_decide as Hk; subst; try done.
    + exists old. by rewrite Hall, app_assoc.
    + by apply sorted_snoc.
    + apply Forall_app. split; [done|by constructor].
    + intros a. cbn [rl_window rl_max set_field set_rl_clients]. destruct (decide (a <= now <= a + seconds (rl_window s))) as [Hin|Hout].
      * rewrite Hall, <-app_assoc, within_app, within_nil.
        2:{ eapply Forall_impl; [exact Hold|]. unfold window_start. cbn. lia. }
        pose proof (within_length a (a + seconds (rl_window s)) (l ++ [now])). unfold len_list in *.
        rewrite length_app in *. cbn [length app] in *. lia.
      * rewrite within_app. replace (within a (a + seconds (rl_window s)) [now]) with (@nil Z).
        2:{ cbn. by replace ((a <=? now) && (now <=? a + seconds (rl_window s))) with false by lia. }
        rewrite app_nil_r. apply H4.
  - destruct (_check_memory key now s) as [r s']. cbn [fst snd] in *. subst s'.
    assert (match r with Ok (true, _) => <[key:=allowed h key ++ [now]]> h | _ => h end = h) as ->.
    { destruct r as [[[] n]|]; [by edestruct Hr|done..]. }
    destruct Hi as [H1 H2 H3 H4]. split; try done.
    intros k. cbn [fst snd]. rewrite stamps_insert. case_decide as Hk; subst; [by exists old|apply H1].
Qed.
Lemma rate_inv_reset key now sh : 0 <= rl_max sh.1 -> rate_inv now sh -> rate_inv now (rate_step (Reset key) sh).
Proof.
  destruct sh as [s h]. intros Hm [H1 H2 H3 H4]. cbn [fst snd rate_step] in *.
  assert (forall k, stamps (reset key s) k = if decide (key = k) then [] else stamps s k) as Hst.
  { intros k. unfold stamps. change (rl_clients (reset key s)) with (delete key (rl_clients s)).
    case_decide; [subst; by rewrite lookup_delete_eq|by rewrite lookup_delete_ne]. }
  assert (forall k, allowed (delete key h) k = if decide (key = k) then [] else allowed h k) as Hal.
  { intros k. unfold allowed. case_decide; [subst; by rewrite lookup_delete_eq|by rewrite lookup_delete_ne]. }
  split; intros k; cbn [fst snd]; rewrite ?Hst, ?Hal; case_decide; try apply H1; try apply H2; try apply H3; try apply H4.
  - by exists [].
  - constructor.
  - constructor.
  - intros a. exact Hm.
Qed.
Lemma stale_before start (l : list Z) t :
  StronglySorted Z.le l -> last l = Some t -> t < start -> Forall (fun t => t < start) l.
Proof.
  intros Hs Hl Ht. apply last_Some in Hl as (l' & ->). apply Forall_app. split; [|by constructor].
  clear -Hs Ht. induction l' as [|x l' IH]; [done|]. cbn in Hs. inversion Hs as [|? ? Hs' Hall]; subst.
  constructor; [|by apply IH]. apply Forall_app in Hall as [_ [Hx _]%Forall_cons]. lia.
Qed.
Lemma rate_inv_cleanup now sh : rate_inv now sh -> rate_inv now (rate_step (Cleanup now) sh).
Proof.
  destruct sh as [s h]. intros [H1 H2 H3 H4]. cbn [fst snd rate_step] in *. split; try done.
  intros k. cbn [fst snd]. destruct (H1 k) as (old & Heq & Hold). unfold stamps, _periodic_cleanup in *.
  cbn [rl_clients set_field set_rl_clients]. rewrite map_lookup_filter.
  destruct (rl_clients s !! k) as [l|] eqn:E; cbn in *; [|by exists old]. change (window_start now _) with (window_start now s).
  destruct (decide (stale_client (window_start now s) l = false)) as [Hs|Hs].
  - rewrite option_guard_True by done. by exists old.
  - rewrite option_guard_False by done. cbn. exists (old ++ l). rewrite app_nil_r. split; [done|].
    apply not_false_iff_true in Hs. unfold stale_client in Hs. destruct (last l) as [t|] eqn:El; [|done].
    apply Forall_app. split; [done|]. apply (stale_before _ l t); [|done|lia].
    apply (sorted_app_r old). rewrite <-Heq. apply H2.
Qed.

(** The last clock reading of a run that starts at [now]. *)
Fixpoint last_reading (now : Z) (es : list rate_event) : Z :=
  match es with
  | [] => now
  | (Check _ t | Cleanup t) :: rest => last_reading t rest
  | Reset _ :: rest => last_reading now rest
  end.
Lemma rate_step_max e sh : rl_max (rate_step e sh).1 = rl_max sh.1 /\ rl_window (rate_step e sh).1 = rl_window sh.1.
Proof.
  destruct sh as [s h]. destruct e as [key now|key|now]; cbn [rate_step fst snd]; try done.
  destruct (check_cases key now s) as [(_ & ->)|(_ & Hs & _)]; [done|].
  destruct (_check_memory key now s) as [r s']. cbn in Hs. by subst s'.
Qed.
Lemma rate_inv_run es now sh :
  0 <= rl_max sh.1 -> monotone now es -> rate_inv now sh -> rate_inv (last_reading now es) (rate_run es sh).
Proof.
  revert now sh. induction es as [|e es IH]; intros now sh Hm Hmono Hi; [done|].
  assert (0 <= rl_max (rate_step e sh).1) as Hm' by (by rewrite (proj1 (rate_step_max e sh))).
  destruct e as [key t|key|t]; cbn [monotone last_reading rate_run foldl] in *.
  - destruct Hmono as [Hle Hmono]. apply IH; [done..|]. by apply rate_inv_check, (rate_inv_later now).
  - apply IH; [done..|]. by apply rate_inv_reset.
  - destruct Hmono as [Hle Hmono]. apply IH; [done..|]. by apply rate_inv_cleanup, (rate_inv_later now).
Qed.
Lemma rate_run_max es sh : rl_max (rate_run es sh).1 = rl_max sh.1 /\ rl_window (rate_run es sh).1 = rl_window sh.1.
Proof.
  revert sh. induction es as [|e es IH]; intros sh; [done|]. cbn [rate_run foldl].
  destruct (IH (rate_step e sh)) as [H1 H2]. destruct (rate_step_max e sh) as [H3 H4].
  split; by etrans.
Qed.

(** * Properties *)

(** C23. Whatever requests, resets and cleanups come to the limiter that keeps
    its counts in memory, no window of the configured length holds more allowed
    requests of a client than the limit, counted since the client's last
    reset. *)
Theorem rate_limit_window max window es t0 key a :
  0 <= max -> monotone t0 es ->
  let h := (rate_run es (new_rate_limiter max window, ∅)).2 in
  len_list (within a (a + seconds window) (allowed h key)) <= max.
Proof.
  intros Hm Hmono h. pose proof (rate_inv_run es t0 (new_rate_limiter max window, ∅) Hm Hmono (rate_inv_start t0 max window Hm)) as [_ _ _ H].
  specialize (H key a). by rewrite !(proj1 (rate_run_max _ _)), !(proj2 (rate_run_max _ _)) in H.
Qed.

(** At any later time a request is allowed exactly when the window that
    ends now holds fewer allowed requests of the client than the limit (no
    request is turned away early), and a refusal asks to wait between one
    second and the length of the window. *)
Theorem rate_limit_exact max window es t0 key now :
  0 < max -> 1 <= window -> monotone t0 es -> last_reading t0 es <= now ->
  let '(s, h) := rate_run es (new_rate_limiter max window, ∅) in
  exists retry s', _check_memory key now s =
    (Ok (len_list (within (now - seconds window) now (allowed h key)) <? max, retry), s') /\
    (max <= len_list (within (now - seconds window) now (allowed h key)) -> 1 <= retry <= window).
Proof.
  intros Hm Hw Hmono Hnow. set (sh := rate_run es _).
  assert (rl_max sh.1 = max /\ rl_window sh.1 = window) as [Hmax Hwin] by apply rate_run_max.
  assert (rate_inv now sh) as Hi.
  { apply (rate_inv_later (last_reading t0 es)); [done|]. apply rate_inv_run; [cbn; lia|done|].
    apply rate_inv_start. lia. }
  destruct (popped_window now sh key Hi) as (_ & Hl & Hwithin). destruct sh as [s h]. cbn [fst snd] in *.
  unfold window_start in *. rewrite Hwin in *. rewrite Hwithin. unfold _check_memory, window_start. fold (stamps s key).
  rewrite Hwin, Hmax. set (l := popleft_before _ _) in *. destruct (Z.leb_spec max (len_list l)) as [Hge|Hlt].
  - replace (len_list l <? max) with false by lia. destruct l as [|t l]; [unfold len_list in Hge; cbn in Hge; lia|].
    eexists _, _. split; [done|]. intros _. apply Forall_cons in Hl as [Ht _]. unfold seconds, US in *.
    pose proof (Z.quot_le_mono (t + window * 1000000 - now) (window * 1000000) 1000000 ltac:(lia) ltac:(lia)) as Hq.
    rewrite Z.quot_mul in Hq by lia. lia.
  - replace (len_list l <? max) with true by lia. eexists _, _. split; [done|]. lia.
Qed.

(** The limiter for WebSockets is never used: the routers of the application are
    all below [/api/v1], and no path below it is classified as a WebSocket. *)
Theorem websocket_limit_unused redis client method p now wall call_next g :
  limiter_key (rate_limiters g) ("/api/v1" +:+ p) <> "websocket" /\
  rate_limiters (dispatch redis client method ("/api/v1" +:+ p) now wall call_next g).2 !! "websocket" =
  rate_limiters g !! "websocket".
Proof.
  set (path := "/api/v1" +:+ p).
  assert (limiter_key (rate_limiters g) path <> "websocket") as Hk.
  { unfold limiter_key, _classify_path. change (startswith "/ws" path) with false.
    repeat case_match; done. }
  split; [exact Hk|]. unfold dispatch. unfold mbind at 1, M_bind at 1, gets at 1. set (k := limiter_key _ _) in *.
  destruct (_get_limiter (rate_limiters g) path) as [l|].
  - unfold mbind, M_bind, modify, lift, count_request. destruct (check _ _ now wall l) as [[[[] retry]|e] l'];
      cbn -[k]; rewrite ?lookup_insert_ne by done; try done.
    destruct call_next; cbn -[k]; by rewrite lookup_insert_ne by done.
  - by destruct call_next.
Qed.

(** * Witnesses *)
Definition demo_events : list rate_event :=
  [Check "10.1.1.1" (seconds 1); Check "10.1.1.1" (seconds 2); Check "10.1.1.1" (seconds 30);
   Cleanup (seconds 40); Check "10.1.1.2" (seconds 41); Reset "10.1.1.2"].
Lemma rate_limit_window_witness :
  len_list (within 0 (seconds 60) (allowed (rate_run demo_events (new_rate_limiter 2 60, ∅)).2 "10.1.1.1")) <= 2.
Proof.
  exact (rate_limit_window 2 60 demo_events 0 "10.1.1.1" 0 ltac:(lia) ltac:(by vm_compute)).
Defined.
Lemma rate_limit_exact_witness :
  let s := (rate_run demo_events (new_rate_limiter 2 60, ∅)).1 in
  (_check_memory "10.1.1.1" (seconds 50) s).1 = Ok (false, 11) /\
  exists r s', _check_memory "10.1.1.1" (seconds 61 + 1) s = (Ok (true, r), s').
Proof.
  cbv zeta. split; [vm_compute; reflexivity|].
  pose proof (rate_limit_exact 2 60 demo_events 0 "10.1.1.1" (seconds 61 + 1) ltac:(lia) ltac:(lia)
    ltac:(by vm_compute) ltac:(by vm_compute)) as H.
  destruct (rate_run demo_events (new_rate_limiter 2 60, ∅)) as [s h] eqn:E.
  destruct H as (r & s' & Hrun & _). exists r, s'. cbn [fst]. rewrite Hrun.
  assert (allowed h "10.1.1.1" = [seconds 1; seconds 2]) as ->.
  { change h with (s, h).2. rewrite <-E. vm_compute. reflexivity. }
  vm_compute. reflexivity.
Defined.
