(* ===== verification/WsManager.v ===== *)
(** The WebSocket connection manager of [services/ws_manager.py].

    A WebSocket is a number; whether a send to it succeeds is the argument
    [alive].  Every method body runs under the manager's lock, so a method is
    one step; the order in which a Python set is walked is that of
    [elements]. *)
From S2P Require Import Prelude PyStr Json Dict.
Local Open Scope string_scope.
Local Open Scope list_scope.

(** * State and operations *)
Record WebSocketConnectionManager := mkManager {
  ws_connections : gset nat;
  ws_daemon_connections : list (string * nat);
  ws_sent : list (nat * string)           (* texts sent, oldest first *)
}.
#[export] Instance set_ws_connections : SetField ws_connections :=
  fun v s => mkManager v (ws_daemon_connections s) (ws_sent s).
#[export] Instance set_ws_daemon_connections : SetField ws_daemon_connections :=
  fun v s => mkManager (ws_connections s) v (ws_sent s).
#[export] Instance set_ws_sent : SetField ws_sent :=
  fun v s => mkManager (ws_connections s) (ws_daemon_connections s) v.
Definition new_manager : WebSocketConnectionManager := mkManager ∅ [] [].

Definition connect (ws : nat) (s : WebSocketConnectionManager) : WebSocketConnectionManager :=
  s <| ws_connections := {[ws]} ∪ ws_connections s |>.
Definition connect_daemon (ws : nat) (device_id : string) (s : WebSocketConnectionManager)
    : WebSocketConnectionManager :=
  s <| ws_connections := {[ws]} ∪ ws_connections s |>
    <| ws_daemon_connections := dict_set device_id ws (ws_daemon_connections s) |>.

(** Discards a socket, and the first device that has it. *)
Definition forget (ws : nat) (s : WebSocketConnectionManager) : WebSocketConnectionManager :=
  s <| ws_connections := ws_connections s ∖ {[ws]} |>
    <| ws_daemon_connections :=
         match List.find (fun kv => Nat.eqb kv.2 ws) (ws_daemon_connections s) with
         | Some (did, _) => dict_del did (ws_daemon_connections s)
         | None => ws_daemon_connections s
         end |>.
Definition disconnect (ws : nat) (s : WebSocketConnectionManager) : WebSocketConnectionManager := forget ws s.

Definition broadcast (alive : nat -> bool) (message : obj) (s : WebSocketConnectionManager)
    : WebSocketConnectionManager :=
  let payload := dumps (JObj message) in
  let targets := elements (ws_connections s) in
  let reached := List.filter alive targets in
  let stale := List.filter (fun ws => negb (alive ws)) targets in
  foldl (fun s ws => forget ws s) (s <| ws_sent := ws_sent s ++ ((fun ws => (ws, payload)) <$> reached) |>) stale.

Definition send_to_device (alive : nat -> bool) (device_id : string) (message : obj)
    (s : WebSocketConnectionManager) : bool * WebSocketConnectionManager :=
  let payload := dumps (JObj message) in
  match dict_get device_id (ws_daemon_connections s) with
  | None => (false, s)
  | Some ws =>
    if alive ws then (true, s <| ws_sent := ws_sent s ++ [(ws, payload)] |>)
    else (false, s <| ws_connections := ws_connections s ∖ {[ws]} |>
                   <| ws_daemon_connections := dict_del device_id (ws_daemon_connections s) |>)
  end.

Definition active_connections (s : WebSocketConnectionManager) : nat := size (ws_connections s).
Definition active_daemon_connections (s : WebSocketConnectionManager) : nat := length (ws_daemon_connections s).
Definition is_device_connected (device_id : string) (s : WebSocketConnectionManager) : bool :=
  bool_decide (is_Some (dict_get device_id (ws_daemon_connections s))).

(** * Runs *)
Inductive ws_event :=
  | Connect (ws : nat)
  | ConnectDaemon (ws : nat) (device_id : string)
  | Disconnect (ws : nat)
  | Broadcast (alive : nat -> bool) (message : obj)
  | SendTo (alive : nat -> bool) (device_id : string) (message : obj).
Definition ws_step (s : WebSocketConnectionManager) (e : ws_event) : WebSocketConnectionManager :=
  match e with
  | Connect ws => connect ws s
  | ConnectDaemon ws d => connect_daemon ws d s
  | Disconnect ws => disconnect ws s
  | Broadcast alive m => broadcast alive m s
  | SendTo alive d m => (send_to_device alive d m s).2
  end.
(** The sockets that connect; each endpoint call has its own. *)
Definition opened (es : list ws_event) : list nat :=
  omap (fun e => match e with Connect ws | ConnectDaemon ws _ => Some ws | _ => None end) es.

(** * Invariant *)
Record ws_wf (s : WebSocketConnectionManager) : Prop := {
  wf_keys : NoDup (ws_daemon_connections s).*1;
  wf_sockets : NoDup (ws_daemon_connections s).*2;
  wf_tracked : forall d ws, (d, ws) ∈ ws_daemon_connections s -> ws ∈ ws_connections s
}.

Lemma unique_socket (d : list (string * nat)) x y :
  NoDup d.*2 -> x ∈ d -> y ∈ d -> x.2 = y.2 -> x = y.
Proof.
  intros Hnd [i Hi]%list_elem_of_lookup [j Hj]%list_elem_of_lookup Heq.
  enough (i = j) by congruence. eapply (NoDup_lookup d.*2); [done| |]; rewrite list_lookup_fmap.
  - by rewrite Hi.
  - rewrite Hj. cbn. by rewrite Heq.
Qed.
Lemma sockets_sub (d d' : list (string * nat)) :
  NoDup d'.*1 -> (forall x, x ∈ d' -> x ∈ d) -> NoDup d.*2 -> NoDup d'.*2.
Proof.
  intros Hk Hsub Hd. induction d' as [|x d' IH]; [constructor|]. cbn in *. apply NoDup_cons in Hk as [Hn Hk].
  apply NoDup_cons. split.
  - intros (y & Hy & Hin)%list_elem_of_fmap. apply Hn.
    assert (x = y) as -> by (apply (unique_socket d); [done|apply Hsub; left|apply Hsub; by right|done]).
    by apply list_elem_of_fmap_2.
  - apply IH; [done|]. intros y Hy. apply Hsub. by right.
Qed.

(** Forgetting a socket removes exactly its own entry. *)
Lemma forget_spec ws s :
  ws_wf s ->
  ws_wf (forget ws s) /\ ws_connections (forget ws s) = ws_connections s ∖ {[ws]} /\
  ws_sent (forget ws s) = ws_sent s /\
  forall x, x ∈ ws_daemon_connections (forget ws s) <-> x ∈ ws_daemon_connections s /\ x.2 <> ws.
Proof.
  intros [Hk Hs Ht]. set (d := ws_daemon_connections s) in *.
  assert (forall x, x ∈ ws_daemon_connections (forget ws s) <-> x ∈ d /\ x.2 <> ws) as Hspec.
  { intros x. cbn. fold d. destruct (List.find _ d) as [[did w]|] eqn:E.
    - apply find_some in E as [Hin Hw]. apply list_elem_of_In in Hin. apply Nat.eqb_eq in Hw. cbn in Hw. subst w.
      rewrite elem_of_dict_del. split; intros [Hx Hne]; split; try done; contradict Hne.
      + change ws with (did, ws).2 in Hne. apply (unique_socket d) in Hne; [by rewrite Hne|done..].
      + assert (x = (did, ws)) as ->; [|done]. destruct x as [k v]. cbn in Hne. subst k. f_equal.
        apply dict_get_unique in Hx, Hin; [congruence|done..].
    - split; [|tauto]. intros Hx. split; [done|]. intros Hw. apply list_elem_of_In in Hx.
      apply (find_none _ _ E), Nat.eqb_neq in Hx. done. }
  assert (NoDup (ws_daemon_connections (forget ws s)).*1) as Hk'.
  { cbn. fold d. destruct (List.find _ d) as [[did w]|]; [by apply dict_del_keys|done]. }
  split_and!; [|done|done|exact Hspec]. split; [done| |].
  - apply (sockets_sub d); [done| |done]. intros x Hx. by apply Hspec in Hx as [Hx _].
  - intros k w Hin. apply Hspec in Hin as [Hin Hne]. cbn in *. apply Ht in Hin. set_solver.
Qed.

(** Every step keeps the invariant, if the socket that connects is new. *)
Definition tracked_by (o : list nat) (s : WebSocketConnectionManager) : Prop := forall ws, ws ∈ ws_connections s -> ws ∈ o.
Lemma forget_all l s :
  ws_wf s ->
  let s' := foldl (fun s ws => forget ws s) s l in
  ws_wf s' /\ ws_connections s' = ws_connections s ∖ list_to_set l /\ ws_sent s' = ws_sent s /\
  forall x, x ∈ ws_daemon_connections s' <-> x ∈ ws_daemon_connections s /\ x.2 ∉ l.
Proof.
  revert s. induction l as [|w l IH]; intros s Hwf; cbn [foldl].
  - split_and!; [done|cbn; set_solver|done|set_solver].
  - destruct (forget_spec w s Hwf) as (Hwf1 & Hc1 & Hs1 & Hd1). destruct (IH _ Hwf1) as (Hwf2 & Hc2 & Hs2 & Hd2).
    split_and!; [done| |by rewrite Hs2|].
    + rewrite Hc2, Hc1. cbn. set_solver.
    + intros x. rewrite Hd2, Hd1. set_solver.
Qed.
Lemma broadcast_spec alive m s :
  ws_wf s ->
  let s' := broadcast alive m s in
  ws_wf s' /\ ws_connections s' = filter (fun ws => alive ws = true) (ws_connections s) /\
  ws_sent s' = ws_sent s ++ ((fun ws => (ws, dumps (JObj m))) <$> List.filter alive (elements (ws_connections s))) /\
  forall x, x ∈ ws_daemon_connections s' <-> x ∈ ws_daemon_connections s /\ alive x.2 = true.
Proof.
  intros Hwf s'. subst s'. unfold broadcast. set (s1 := s <| ws_sent := _ |>).
  assert (ws_wf s1) as Hwf1 by (destruct Hwf; by split).
  destruct (forget_all (List.filter (fun ws => negb (alive ws)) (elements (ws_connections s))) s1 Hwf1) as (Hw & Hc & Hs & Hd).
  split_and!; [done| |by rewrite Hs|].
  - rewrite Hc. apply set_eq. intros ws. change (ws_connections s1) with (ws_connections s).
    rewrite elem_of_difference, elem_of_filter, elem_of_list_to_set, elem_of_filter_list, elem_of_elements, negb_true_iff.
    destruct (alive ws); intuition congruence.
  - intros x. rewrite Hd. change (ws_daemon_connections s1) with (ws_daemon_connections s).
    rewrite elem_of_filter_list, elem_of_elements, negb_true_iff. split; intros [Hx Ha]; split; try done.
    + destruct (alive x.2) eqn:E; [done|]. exfalso. apply Ha. split; [done|]. destruct x. by eapply (wf_tracked s).
    + rewrite Ha. by intros [? _].
Qed.
Lemma ws_step_wf o s e :
  ws_wf s -> tracked_by o s ->
  (forall ws, match e with Connect w | ConnectDaemon w _ => w = ws | _ => False end -> ws ∉ o) ->
  ws_wf (ws_step s e) /\ tracked_by (o ++ opened [e]) (ws_step s e).
Proof.
  intros Hwf Ho Hnew. unfold tracked_by in *.
  destruct e as [ws|ws d|ws|alive m|alive d m]; cbn [ws_step opened omap list_omap].
  - destruct Hwf as [Hk Hs Ht]. split; [split; [done..|]|]; cbn; [intros d w Hin; apply Ht in Hin; set_solver|set_solver].
  - destruct Hwf as [Hk Hs Ht]. assert (ws ∉ o) as Hfresh by by apply Hnew. split; [split|]; cbn.
    + by apply dict_set_keys.
    + destruct (dict_set d ws (ws_daemon_connections s)) as [|y l] eqn:E; [constructor|]. rewrite <-E. clear y l E.
      apply NoDup_alt. intros i j w Hi Hj. rewrite list_lookup_fmap in Hi, Hj.
      destruct (dict_set d ws _ !! i) as [xi|] eqn:Ei; [|done]. destruct (dict_set d ws _ !! j) as [xj|] eqn:Ej; [|done].
      cbn in Hi, Hj. assert (xi = xj) as ->.
      { apply list_elem_of_lookup_2, elem_of_dict_set in Ei; [|done]. apply list_elem_of_lookup_2, elem_of_dict_set in Ej; [|done].
        assert (forall x, x ∈ ws_daemon_connections s -> x.2 <> ws) as Hne.
        { intros [k v] Hx Heq. cbn in Heq. subst v. by apply Ht, Ho in Hx. }
        destruct Ei as [->|[Ei _]], Ej as [->|[Ej _]]; cbn in *; [done| | |by apply (unique_socket (ws_daemon_connections s)); [..|congruence]].
        - apply Hne in Ej. congruence.
        - apply Hne in Ei. congruence. }
      apply (NoDup_lookup (dict_set d ws (ws_daemon_connections s)) i j xj); [|done..].
      eapply NoDup_fmap_1. by apply dict_set_keys.
    + intros k w Hin. apply elem_of_dict_set in Hin as [[= -> ->]|[Hin _]]; [set_solver| |done]. apply Ht in Hin. set_solver.
    + set_solver.
  - destruct (forget_spec ws s Hwf) as (Hw & Hc & _). split; [done|]. unfold disconnect. rewrite Hc. set_solver.
  - destruct (broadcast_spec alive m s Hwf) as (Hw & Hc & _). split; [done|]. rewrite Hc. set_solver.
  - unfold send_to_device. destruct (dict_get d _) as [w|] eqn:E; [|split; [done|set_solver]].
    destruct Hwf as [Hk Hs Ht]. destruct (alive w); [split; [by split|set_solver]|]. split; [split|]; cbn.
    + by apply dict_del_keys.
    + apply (sockets_sub (ws_daemon_connections s)); [by apply dict_del_keys| |done].
      intros x Hx. by apply elem_of_dict_del in Hx as [Hx _].
    + intros k v Hin. apply elem_of_dict_del in Hin as [Hin Hne]. cbn in Hne.
      assert (v <> w). { intros ->. apply Hne. apply dict_get_in in E.
        assert ((k, w) = (d, w)) by (by apply (unique_socket (ws_daemon_connections s))). congruence. }
      apply Ht in Hin. set_solver.
    + set_solver.
Qed.
Lemma ws_run_wf es o s :
  ws_wf s -> tracked_by o s -> NoDup (o ++ opened es) -> ws_wf (foldl ws_step s es).
Proof.
  revert o s. induction es as [|e es IH]; intros o s Hwf Ho Hnd; [done|]. cbn [foldl].
  assert (opened (e :: es) = opened [e] ++ opened es) as Heq by (unfold opened; cbn; by destruct e).
  rewrite Heq, app_assoc in Hnd. destruct (ws_step_wf o s e Hwf Ho) as [Hwf' Ho'].
  - intros ws He. rewrite NoDup_app in Hnd. destruct Hnd as [Hnd _]. rewrite NoDup_app in Hnd.
    destruct Hnd as (_ & Hdis & _). intros Hin. apply (Hdis ws Hin). destruct e; cbn; try done; subst; set_solver.
  - by eapply IH.
Qed.

Lemma ws_reachable_wf es : NoDup (opened es) -> ws_wf (foldl ws_step new_manager es).
Proof.
  intros Hnd. apply (ws_run_wf es []); [|intros ws; cbn; set_solver|done].
  split; [constructor|constructor|]. intros d ws. set_solver.
Qed.
Lemma ws_reachable_tracked es : NoDup (opened es) -> tracked_by (opened es) (foldl ws_step new_manager es).
Proof.
  induction es as [|e l IH] using rev_ind; intros Hn; [intros ws; cbn; set_solver|].
  unfold opened in *. rewrite omap_app in *. rewrite foldl_app. apply NoDup_app in Hn as (Hl & Hd & _).
  apply (ws_step_wf (opened l) _ e); [by apply ws_reachable_wf|by apply IH|].
  intros ws He Hin. apply (Hd ws Hin). destruct e; try done; subst; left.
Qed.

(** * The sockets as the outside sees them

    A record of what happened, which knows nothing of the manager: the sockets
    that are open, and for each device the last one it connected with.  A
    socket is open from its connect until it disconnects or a send to it
    fails. *)
Record socket_log := mkLog { open_sockets : gset nat; latest_socket : gmap string nat }.
Definition no_sockets : socket_log := mkLog ∅ ∅.
Definition current_socket (d : string) (o : socket_log) : option nat :=
  match latest_socket o !! d with
  | Some ws => if decide (ws ∈ open_sockets o) then Some ws else None
  | None => None
  end.
Definition log_step (o : socket_log) (e : ws_event) : socket_log :=
  match e with
  | Connect ws => mkLog ({[ws]} ∪ open_sockets o) (latest_socket o)
  | ConnectDaemon ws d => mkLog ({[ws]} ∪ open_sockets o) (<[d := ws]> (latest_socket o))
  | Disconnect ws => mkLog (open_sockets o ∖ {[ws]}) (latest_socket o)
  | Broadcast alive _ => mkLog (filter (fun ws => alive ws = true) (open_sockets o)) (latest_socket o)
  | SendTo alive d _ =>
    match current_socket d o with
    | Some ws => if alive ws then o else mkLog (open_sockets o ∖ {[ws]}) (latest_socket o)
    | None => o
    end
  end.

Lemma current_socket_some d o ws :
  current_socket d o = Some ws <-> latest_socket o !! d = Some ws /\ ws ∈ open_sockets o.
Proof. unfold current_socket. destruct (latest_socket o !! d); [case_decide|]; naive_solver. Qed.

(** The manager [s] stands for the record [o] of a run in which the sockets
    [used] connected. *)
Record stands_for (used : list nat) (s : WebSocketConnectionManager) (o : socket_log) : Prop := {
  for_open : ws_connections s = open_sockets o;
  for_device : forall d ws, (d, ws) ∈ ws_daemon_connections s <-> latest_socket o !! d = Some ws /\ ws ∈ open_sockets o;
  for_latest : forall d ws, latest_socket o !! d = Some ws -> ws ∈ used
}.
Lemma stands_current used s o d :
  ws_wf s -> stands_for used s o -> dict_get d (ws_daemon_connections s) = current_socket d o.
Proof.
  intros [Hk _ _] [_ Hd _]. apply option_eq. intros ws. rewrite current_socket_some, <-Hd.
  split; [apply dict_get_in|]. by apply dict_get_unique.
Qed.
(** Sockets that are closed, [keep] those that stay. *)
Lemma stands_closing used s s' o o' (keep : nat -> Prop) :
  stands_for used s o -> ws_connections s' = open_sockets o' -> latest_socket o' = latest_socket o ->
  (forall ws, ws ∈ open_sockets o' <-> ws ∈ open_sockets o /\ keep ws) ->
  (forall x, x ∈ ws_daemon_connections s' <-> x ∈ ws_daemon_connections s /\ keep x.2) ->
  stands_for used s' o'.
Proof.
  intros [_ Hd Hl] Hc Hlat Ho Hx. split; [done| |by rewrite Hlat].
  intros d ws. rewrite Hx, Hd, Hlat, Ho. cbn. tauto.
Qed.
(** A socket that opens is new. *)
Lemma stands_opening used s o ws :
  stands_for used s o -> ws ∉ used ->
  stands_for (used ++ [ws]) (connect ws s) (mkLog ({[ws]} ∪ open_sockets o) (latest_socket o)).
Proof.
  intros [Hc Hd Hl] Hnew. split; cbn; [by rewrite Hc| |intros d w Hw; apply Hl in Hw; set_solver].
  intros d w. rewrite Hd. split; [set_solver|]. intros [Hw [->%elem_of_singleton|Hin]%elem_of_union]; [|done].
  by apply Hl in Hw.
Qed.
Lemma ws_step_stands used s o e :
  ws_wf s -> stands_for used s o -> NoDup (used ++ opened [e]) ->
  stands_for (used ++ opened [e]) (ws_step s e) (log_step o e).
Proof.
  intros Hwf Hs Hnd. pose proof Hs as [Hc Hd Hl].
  destruct e as [ws|ws d|ws|alive m|alive d m]; cbn [ws_step opened omap list_omap log_step]; rewrite ?app_nil_r.
  - apply stands_opening; [done|]. apply NoDup_app in Hnd as (_ & Hdis & _). intros Hin. apply (Hdis ws Hin). left.
  - assert (ws ∉ used) as Hnew by (apply NoDup_app in Hnd as (_ & Hdis & _); intros Hin; apply (Hdis ws Hin); left).
    destruct (stands_opening used s o ws Hs Hnew) as [Hc' Hd' Hl']. cbn in Hc', Hd', Hl'. split; [done| |].
    + intros d' w. cbn. rewrite elem_of_dict_set by apply Hwf. cbn. destruct (decide (d' = d)) as [->|Hne].
      * rewrite lookup_insert_eq. set_solver.
      * rewrite lookup_insert_ne by done. rewrite Hd'. naive_solver.
    + intros d' w. cbn. destruct (decide (d' = d)) as [->|Hne];
        [rewrite lookup_insert_eq; set_solver|rewrite lookup_insert_ne by done; apply Hl'].
  - destruct (forget_spec ws s Hwf) as (_ & Hc' & _ & Hd'). apply (stands_closing used s _ o _ (fun w => w <> ws)); try done.
    + unfold disconnect. by rewrite Hc', Hc.
    + cbn. set_solver.
  - destruct (broadcast_spec alive m s Hwf) as (_ & Hc' & _ & Hd').
    apply (stands_closing used s _ o _ (fun w => alive w = true)); try done; [by rewrite Hc', Hc|].
    intros w. cbn. rewrite elem_of_filter. tauto.
  - unfold send_to_device. rewrite (stands_current used s o d Hwf Hs). destruct (current_socket d o) as [ws|] eqn:E; [|done].
    apply current_socket_some in E. apply Hd in E. destruct (alive ws); [by split|].
    apply (stands_closing used s _ o _ (fun w => w <> ws)); try done; cbn; [by rewrite Hc|set_solver|].
    intros [k w]. rewrite elem_of_dict_del. cbn. split; intros [Hin Hne]; (split; [done|]); contradict Hne; subst.
    + assert ((k, ws) = (d, ws)) by (by apply (unique_socket (ws_daemon_connections s)); [apply Hwf|..]). congruence.
    + apply dict_get_unique in Hin, E; [congruence|apply Hwf..].
Qed.
Lemma ws_run_stands es :
  NoDup (opened es) -> stands_for (opened es) (foldl ws_step new_manager es) (foldl log_step no_sockets es).
Proof.
  induction es as [|e l IH] using rev_ind; intros Hn; [split; [done|cbn; set_solver|done]|].
  assert (opened (l ++ [e]) = opened l ++ opened [e]) as Heq by (unfold opened; by rewrite omap_app).
  rewrite Heq in *. rewrite !foldl_app. pose proof Hn as (Hl & _)%NoDup_app.
  apply ws_step_stands; [by apply ws_reachable_wf|by apply IH|done].
Qed.

(** * Properties *)

(** C26. Whatever connects, leaves or dies, in any order, each socket connecting
    once, the manager holds exactly the open sockets and knows each device by
    the last socket it connected with, as long as that is open; no two devices
    share a socket.  So
    a broadcast is sent once to each open socket that lives, after which exactly
    those are left and no device keeps a dead one; and a message to a device
    goes once to its last socket when it is open and lives, and else to nobody,
    which the result tells. *)
Theorem ws_manager_tracks es alive m :
  NoDup (opened es) ->
  let s := foldl ws_step new_manager es in
  let o := foldl log_step no_sockets es in
  let s' := broadcast alive m s in
  ws_connections s = open_sockets o /\
  (forall d, dict_get d (ws_daemon_connections s) = current_socket d o) /\
  (NoDup (ws_daemon_connections s).*1 /\ NoDup (ws_daemon_connections s).*2) /\
  (forall ws, ws ∈ ws_connections s' <-> ws ∈ open_sockets o /\ alive ws = true) /\
  (exists targets, ws_sent s' = ws_sent s ++ ((fun ws => (ws, dumps (JObj m))) <$> targets) /\ NoDup targets /\
     forall ws, ws ∈ targets <-> ws ∈ open_sockets o /\ alive ws = true) /\
  (forall d ws, dict_get d (ws_daemon_connections s') = Some ws <->
     current_socket d o = Some ws /\ alive ws = true) /\
  (forall d, let '(sent, s1) := send_to_device alive d m s in
     match current_socket d o with
     | Some ws =>
       if alive ws then sent = true /\ s1 = s <| ws_sent := ws_sent s ++ [(ws, dumps (JObj m))] |>
       else sent = false /\ ws_sent s1 = ws_sent s /\ ws_connections s1 = open_sockets o ∖ {[ws]} /\
            dict_get d (ws_daemon_connections s1) = None
     | None => sent = false /\ s1 = s
     end).
Proof.
  intros Hnd s o s'. pose proof (ws_reachable_wf es Hnd) as Hwf. fold s in Hwf.
  pose proof (ws_run_stands es Hnd) as Hfor. fold s o in Hfor. pose proof (for_open _ _ _ Hfor) as Hopen.
  assert (forall d, dict_get d (ws_daemon_connections s) = current_socket d o) as Hcur
    by (intros d; by eapply stands_current).
  destruct (broadcast_spec alive m s Hwf) as (Hwf' & Hc & Hs & Hd). fold s' in Hwf', Hc, Hs, Hd.
  split_and!; [done|done|apply Hwf|apply Hwf|..].
  - intros ws. rewrite Hc, elem_of_filter, Hopen. tauto.
  - eexists. split; [exact Hs|]. split.
    + apply NoDup_ListNoDup, List.NoDup_filter, NoDup_ListNoDup, NoDup_elements.
    + intros ws. rewrite elem_of_filter_list, elem_of_elements, Hopen. tauto.
  - intros d ws. rewrite <-Hcur. split.
    + intros Hg%dict_get_in. apply Hd in Hg as [Hg Ha]. split; [|done]. by apply dict_get_unique; [apply Hwf|].
    + intros [Hg%dict_get_in Ha]. apply dict_get_unique; [apply Hwf'|]. by apply Hd.
  - intros d. unfold send_to_device. rewrite Hcur. destruct (current_socket d o) as [ws|]; [|done].
    destruct (alive ws); [done|]. cbn. rewrite Hopen. split_and!; try done.
    destruct (dict_get d (dict_del _ _)) eqn:E; [|done]. apply dict_get_in, elem_of_dict_del in E as [_ E]. done.
Qed.

(** A device that connects again is reached at its new socket only: the end
    of the old connection does not take the new one away. *)
Theorem ws_reconnect_survives es old new d alive m :
  NoDup (opened es ++ [new]) ->
  dict_get d (ws_daemon_connections (foldl ws_step new_manager es)) = Some old -> alive new = true ->
  let s := foldl ws_step new_manager (es ++ [ConnectDaemon new d; Disconnect old]) in
  send_to_device alive d m s = (true, s <| ws_sent := ws_sent s ++ [(new, dumps (JObj m))] |>).
Proof.
  intros Hnd Hold Ha s. assert (NoDup (opened es)) as Hnd1 by (by apply NoDup_app in Hnd as [? _]).
  pose proof (ws_reachable_wf es Hnd1) as Hwf0.
  assert (NoDup (opened (es ++ [ConnectDaemon new d]))) as Hnd2.
  { unfold opened. rewrite omap_app. exact Hnd. }
  pose proof (ws_reachable_wf _ Hnd2) as Hwf1. rewrite foldl_app in Hwf1. cbn [foldl ws_step] in Hwf1.
  set (s0 := foldl ws_step new_manager es) in *.
  assert (s = forget old (connect_daemon new d s0)) as Hs by (unfold s; by rewrite foldl_app).
  assert (old <> new) as Hne.
  { intros ->. apply dict_get_in in Hold. apply NoDup_app in Hnd as (_ & Hdis & _).
    apply (Hdis new); [|left]. apply (ws_reachable_tracked es Hnd1). by eapply (wf_tracked s0). }
  destruct (forget_spec old _ Hwf1) as (Hwf2 & _ & _ & Hd). rewrite <-Hs in Hwf2, Hd.
  assert (dict_get d (ws_daemon_connections s) = Some new) as Hg.
  { apply dict_get_unique; [apply Hwf2|]. apply Hd. split; [|cbn; congruence].
    apply elem_of_dict_set; [apply Hwf0|]. by left. }
  unfold send_to_device. by rewrite Hg, Ha.
Qed.

(** * Witnesses *)
Definition demo_ws : list ws_event :=
  [Connect 1; ConnectDaemon 2 "alice"; ConnectDaemon 3 "bob"; Disconnect 1; ConnectDaemon 4 "carol"].
Lemma demo_ws_opened : NoDup (opened demo_ws).
Proof. apply (bool_decide_unpack _). vm_compute. exact I. Qed.
Lemma ws_manager_tracks_witness :
  let s := foldl ws_step new_manager demo_ws in
  let s' := broadcast (fun ws => negb (ws =? 3)%nat) [] s in
  ws_connections s = {[2; 3; 4]}%nat /\
  dict_get "alice" (ws_daemon_connections s') = Some 2%nat /\
  dict_get "bob" (ws_daemon_connections s') = None.
Proof.
  cbv zeta. destruct (ws_manager_tracks demo_ws (fun ws => negb (ws =? 3)%nat) [] demo_ws_opened)
    as (Ho & _ & _ & _ & _ & Hd & _).
  split_and!; [rewrite Ho; vm_compute; reflexivity| |vm_compute; reflexivity].
  apply Hd. vm_compute. done.
Defined.
Lemma ws_reconnect_survives_witness :
  (send_to_device (fun _ => true) "alice" []
    (foldl ws_step new_manager (demo_ws ++ [ConnectDaemon 5 "alice"; Disconnect 2]))).1 = true.
Proof.
  rewrite (ws_reconnect_survives demo_ws 2 5 "alice" (fun _ => true) []); [reflexivity| |reflexivity|reflexivity].
  apply (bool_decide_unpack _). vm_compute. exact I.
Defined.
