(* ===== verification/EventBus.v ===== *)
(** The event bus of the server ([backend/app/services/event_bus.py]) and the
    bridge from it to the WebSockets (the lifespan of [main.py]).

    Redis is an argument: how a connection attempt ends, whether a publication
    is taken, and the stream a subscription delivers; a stream ends when the
    connection is [Lost], which raises in the loop that reads it.  An event that
    comes back from Redis is JSON of any shape, so its members are JSON values
    ([PushedEvent]).  The Counter of published events is that of
    [Effects.publish]. *)
From S2P Require Import Prelude PyStr Json JsonText PyJson Dict Models Effects WsManager.
Local Open Scope string_scope.
Local Open Scope list_scope.
Local Open Scope Z_scope.

(** * Events from outside *)
Record PushedEvent := mkPushed { pe_type : json; pe_data : json; pe_id : json; pe_created_at : json }.
(** [Event.to_dict] *)
Definition to_dict (e : PushedEvent) : obj :=
  [("id", pe_id e); ("type", pe_type e); ("created_at", pe_created_at e); ("data", pe_data e)].
(** [data["type"]] and the three [data.get]. *)
Definition event_of (text : string) : outcome PushedEvent :=
  data ← loads text;
  type ← match data with
         | JObj o => match obj_get "type" o with Some t => Ok t | None => Raise KeyError end
         | _ => Raise TypeError
         end;
  d ← get_or data "data" (JObj []);
  i ← get_or data "id" (JStr "");
  c ← get_or data "created_at" (JStr "");
  Ok (mkPushed type d i c).

Inductive redis_message := PMessage (data : string) | Unsubscribe | OtherMessage | Lost.

(** * The bus *)
Record EventBus (H : Type) := mkBus {
  _redis_url : option string;
  _redis : bool;                          (* is there a client? *)
  _pubsub : bool;
  _listener_task : bool;
  _in_memory_subscribers : list nat;
  eb_running : bool;
  EVENT_BUS_CONNECTED : Z;
  eb_sent : list (string * string);       (* what Redis took: channel and payload *)
  eb_called : list (nat * Event);         (* calls of in-memory subscribers *)
  eb_handler : H;                         (* what the handler acts on *)
  eb_slept : list Z
}.
Arguments mkBus {H}.
Arguments _redis_url {H}.
Arguments _redis {H}.
Arguments _pubsub {H}.
Arguments _listener_task {H}.
Arguments _in_memory_subscribers {H}.
Arguments eb_running {H}.
Arguments EVENT_BUS_CONNECTED {H}.
Arguments eb_sent {H}.
Arguments eb_called {H}.
Arguments eb_handler {H}.
Arguments eb_slept {H}.
Section Fields.
Context {H : Type}.
Abbreviation bus := (EventBus H).
#[export] Instance set_redis : SetField (@_redis H) := fun v b => mkBus (_redis_url b) v (_pubsub b) (_listener_task b)
  (_in_memory_subscribers b) (eb_running b) (EVENT_BUS_CONNECTED b) (eb_sent b) (eb_called b) (eb_handler b) (eb_slept b).
#[export] Instance set_pubsub : SetField (@_pubsub H) := fun v b => mkBus (_redis_url b) (_redis b) v (_listener_task b)
  (_in_memory_subscribers b) (eb_running b) (EVENT_BUS_CONNECTED b) (eb_sent b) (eb_called b) (eb_handler b) (eb_slept b).
#[export] Instance set_listener : SetField (@_listener_task H) := fun v b => mkBus (_redis_url b) (_redis b) (_pubsub b) v
  (_in_memory_subscribers b) (eb_running b) (EVENT_BUS_CONNECTED b) (eb_sent b) (eb_called b) (eb_handler b) (eb_slept b).
#[export] Instance set_subscribers : SetField (@_in_memory_subscribers H) := fun v b => mkBus (_redis_url b) (_redis b) (_pubsub b)
  (_listener_task b) v (eb_running b) (EVENT_BUS_CONNECTED b) (eb_sent b) (eb_called b) (eb_handler b) (eb_slept b).
#[export] Instance set_eb_running : SetField (@eb_running H) := fun v b => mkBus (_redis_url b) (_redis b) (_pubsub b) (_listener_task b)
  (_in_memory_subscribers b) v (EVENT_BUS_CONNECTED b) (eb_sent b) (eb_called b) (eb_handler b) (eb_slept b).
#[export] Instance set_connected : SetField (@EVENT_BUS_CONNECTED H) := fun v b => mkBus (_redis_url b) (_redis b) (_pubsub b)
  (_listener_task b) (_in_memory_subscribers b) (eb_running b) v (eb_sent b) (eb_called b) (eb_handler b) (eb_slept b).
#[export] Instance set_eb_sent : SetField (@eb_sent H) := fun v b => mkBus (_redis_url b) (_redis b) (_pubsub b) (_listener_task b)
  (_in_memory_subscribers b) (eb_running b) (EVENT_BUS_CONNECTED b) v (eb_called b) (eb_handler b) (eb_slept b).
#[export] Instance set_eb_called : SetField (@eb_called H) := fun v b => mkBus (_redis_url b) (_redis b) (_pubsub b) (_listener_task b)
  (_in_memory_subscribers b) (eb_running b) (EVENT_BUS_CONNECTED b) (eb_sent b) v (eb_handler b) (eb_slept b).
#[export] Instance set_eb_handler : SetField (@eb_handler H) := fun v b => mkBus (_redis_url b) (_redis b) (_pubsub b) (_listener_task b)
  (_in_memory_subscribers b) (eb_running b) (EVENT_BUS_CONNECTED b) (eb_sent b) (eb_called b) v (eb_slept b).
#[export] Instance set_eb_slept : SetField (@eb_slept H) := fun v b => mkBus (_redis_url b) (_redis b) (_pubsub b) (_listener_task b)
  (_in_memory_subscribers b) (eb_running b) (EVENT_BUS_CONNECTED b) (eb_sent b) (eb_called b) (eb_handler b) v.
End Fields.
Definition new_bus {H} (redis_url : option string) (handler : H) : EventBus H :=
  mkBus redis_url false false false [] false 0 [] [] handler [].

Section Bus.
Context {H : Type} (handler : PushedEvent -> M H unit).
Abbreviation B := (M (EventBus H)).

Definition _connect_redis (reachable : bool) : B bool :=
  modify (fun b => b <| _redis := reachable |> <| _pubsub := reachable |>);; mret reachable.
Definition start (reachable : bool) : B unit :=
  running ← gets eb_running;
  if (running : bool) then mret tt else
  modify (fun b => b <| eb_running := true |>);;
  url ← gets _redis_url;
  when (opt_truthy url) (_ ← _connect_redis reachable; mret tt);;
  modify (fun b => b <| EVENT_BUS_CONNECTED := if _redis b then 1 else 0 |>).
Definition stop : B unit := modify (fun b => b <| eb_running := false |> <| _listener_task := false |>).

(** [taken]: does Redis take the publication?  A failure is logged. *)
Definition publish_event (taken : bool) (e : Event) : B unit :=
  redis ← gets _redis;
  when (redis && taken) (modify (fun b => b <| eb_sent := eb_sent b ++ [(event_channel (event_type e), dumps (JObj (event_to_dict e)))] |>));;
  subscribers ← gets _in_memory_subscribers;
  for_each subscribers (fun cb => modify (fun b => b <| eb_called := eb_called b ++ [(cb, e)] |>)).
Definition subscribe_in_memory (cb : nat) : B unit :=
  modify (fun b => b <| _in_memory_subscribers := _in_memory_subscribers b ++ [cb] |>).
(** [list.remove] *)
Fixpoint list_remove (x : nat) (l : list nat) : outcome (list nat) :=
  match l with
  | [] => Raise (ValueError "list.remove(x): x not in list")
  | y :: rest => if Nat.eqb y x then Ok rest else cons y <$> list_remove x rest
  end.
Definition unsubscribe_in_memory (cb : nat) : B unit :=
  l ← gets _in_memory_subscribers;
  l' ← lift (list_remove cb l);
  modify (fun b => b <| _in_memory_subscribers := l' |>).

(** What the handler does with a message; an error is logged. *)
Definition deliver (data : string) : B unit :=
  try_except (e ← lift (event_of data); zoom eb_handler (handler e)) (fun _ => mret tt).
(** [async for message in self._pubsub.listen()]; a stream that has not ended
    leaves the loop waiting. *)
Fixpoint pubsub_loop (stream : list redis_message) : B unit :=
  match stream with
  | [] | Unsubscribe :: _ => mret tt
  | PMessage data :: rest => deliver data;; pubsub_loop rest
  | OtherMessage :: rest => pubsub_loop rest
  | Lost :: _ => raise (RequestError "Connection lost")
  end.
Definition reconnect_interval : Z := 30.
(** The turns of the loop without a subscription: each gives how the attempt to
    connect ends, with the stream that follows. *)
Fixpoint reconnect_loop (attempts : list (option (list redis_message))) : B unit :=
  match attempts with
  | [] => mret tt
  | a :: rest =>
    running ← gets eb_running;
    if negb running then mret tt else
    url ← gets _redis_url;
    redis ← gets _redis;
    if opt_truthy url && negb redis then
      connected ← _connect_redis (bool_decide (is_Some a));
      if (connected : bool) then
        modify (fun b => b <| EVENT_BUS_CONNECTED := 1 |>);;
        pubsub_loop (default [] a)
      else
        modify (fun b => b <| EVENT_BUS_CONNECTED := 0 |> <| eb_slept := eb_slept b ++ [reconnect_interval] |>);;
        reconnect_loop rest
    else
      modify (fun b => b <| eb_slept := eb_slept b ++ [reconnect_interval] |>);;
      reconnect_loop rest
  end.
Definition listen (stream : list redis_message) (attempts : list (option (list redis_message))) : B unit :=
  pubsub ← gets _pubsub;
  if (pubsub : bool) then pubsub_loop stream else reconnect_loop attempts.
Definition start_listener (stream : list redis_message) (attempts : list (option (list redis_message))) : B unit :=
  there ← gets _listener_task;
  if (there : bool) then mret tt else modify (fun b => b <| _listener_task := true |>);; listen stream attempts.
End Bus.

(** * The bridge to the WebSockets *)
Record Bridge := mkBridge { br_manager : WebSocketConnectionManager; br_messages : Z (* WS_MESSAGES_SENT *) }.
#[export] Instance set_br_manager : SetField br_manager := fun v r => mkBridge v (br_messages r).
#[export] Instance set_br_messages : SetField br_messages := fun v r => mkBridge (br_manager r) v.

Section BridgeEvents.
(** Which sockets can still be written to. *)
Context (alive : nat -> bool).
(** The connections are looked up by a text; no other value is a key. *)
Definition send_to (target : json) (message : obj) : M Bridge unit :=
  match target with
  | JStr device_id => modify (fun r => r <| br_manager := (send_to_device alive device_id message (br_manager r)).2 |>)
  | JArr _ | JObj _ => raise TypeError
  | _ => mret tt
  end.
Definition bridge_event (e : PushedEvent) : M Bridge unit :=
  modify (fun r => r <| br_manager := broadcast alive (to_dict e) (br_manager r) |>);;
  modify (fun r => r <| br_messages := br_messages r + 1 |>);;
  when (py_eq (pe_type e) (JStr EVENT_CONFIG_CHANGED)) (
    let data := if json_truthy (pe_data e) then pe_data e else JObj [] in
    target_device_id ← lift (get_or data "device_id" (JStr ""));
    when (json_truthy target_device_id) (send_to target_device_id (to_dict e))).
End BridgeEvents.

(** * Facts *)
(** What was written to one socket. *)
Definition received (ws : nat) (sent : list (nat * string)) : list string :=
  snd <$> List.filter (fun p => Nat.eqb p.1 ws) sent.
Lemma received_app ws a b : received ws (a ++ b) = received ws a ++ received ws b.
Proof. unfold received. by rewrite List.filter_app, fmap_app. Qed.
Lemma received_each ws payload l :
  NoDup l -> received ws ((fun w => (w, payload)) <$> l) = if decide (ws ∈ l) then [payload] else [].
Proof.
  intros Hnd. induction Hnd as [|w l Hw Hnd IH]; [done|]. unfold received in *. rewrite fmap_cons. cbn [List.filter fst].
  destruct (Nat.eqb_spec w ws) as [->|Hne].
  - rewrite fmap_cons, IH, decide_False by done. rewrite decide_True by (by left). done.
  - rewrite IH. destruct (decide (ws ∈ l)); [rewrite decide_True by (by right)|rewrite decide_False by set_solver]; done.
Qed.
(** An event of the server, as it comes back from Redis. *)
Definition pushed (e : Event) : PushedEvent :=
  mkPushed (JStr (event_type e)) (JObj (event_data e)) (JStr (event_id e)) (JStr (event_created_at e)).
Definition payload_of (e : Event) : string := dumps (JObj (event_to_dict e)).
Definition sendable (e : Event) : bool := plain (JObj (event_to_dict e)).
Lemma event_of_payload e : sendable e = true -> event_of (payload_of e) = Ok (pushed e).
Proof. intros He. unfold event_of, payload_of. by rewrite loads_dumps. Qed.

Section Pushes.
Context (alive : nat -> bool).

(** The socket of the device a configuration change names. *)
Definition target_socket (e : Event) (s : WebSocketConnectionManager) : option nat :=
  if String.eqb (event_type e) EVENT_CONFIG_CHANGED then
    match obj_get "device_id" (event_data e) with
    | Some (JStr d) => if truthy d then dict_get d (ws_daemon_connections s) else None
    | _ => None
    end
  else None.
Definition times_pushed (e : Event) (s : WebSocketConnectionManager) (ws : nat) : nat :=
  (if decide (ws ∈ ws_connections s) then 1 else 0) + (if decide (target_socket e s = Some ws) then 1 else 0).

Lemma broadcast_alive msg s :
  (forall ws, ws ∈ ws_connections s -> alive ws = true) ->
  broadcast alive msg s = s <| ws_sent := ws_sent s ++ ((fun ws => (ws, dumps (JObj msg))) <$> elements (ws_connections s)) |>.
Proof.
  intros Hal. unfold broadcast. assert (forall l, (forall ws, ws ∈ l -> alive ws = true) ->
    List.filter alive l = l /\ List.filter (fun ws => negb (alive ws)) l = []) as Hf.
  { induction l as [|w l IH]; [done|]. intros Hl. cbn [List.filter]. rewrite Hl by (by left).
    destruct IH as [-> ->]; [|done]. intros ws Hws. apply Hl. by right. }
  destruct (Hf (elements (ws_connections s))) as [-> ->]; [|done]. intros ws Hws. apply Hal. by apply elem_of_elements.
Qed.
(** What the bridge writes to each socket for one event. *)
Lemma bridge_received e r ws :
  (forall ws, ws ∈ ws_connections (br_manager r) -> alive ws = true) -> ws_wf (br_manager r) ->
  received ws (ws_sent (br_manager (bridge_event alive (pushed e) r).2)) =
  received ws (ws_sent (br_manager r)) ++ replicate (times_pushed e (br_manager r) ws) (payload_of e).
Proof.
  intros Hal Hwf. destruct r as [m n]. cbn [br_manager] in *.
  assert (forall more, received ws ((ws_sent m ++ ((fun w => (w, payload_of e)) <$> elements (ws_connections m))) ++ more) =
    received ws (ws_sent m) ++ (if decide (ws ∈ ws_connections m) then [payload_of e] else []) ++ received ws more) as Hrec.
  { intros more. rewrite !received_app, received_each, <-app_assoc by apply NoDup_elements.
    do 2 f_equal. by rewrite (decide_ext _ _ _ _ (elem_of_elements (ws_connections m) ws)). }
  unfold bridge_event, mbind, M_bind, modify. cbn [br_manager].
  rewrite broadcast_alive by done. change (dumps (JObj (to_dict (pushed e)))) with (payload_of e).
  set (m1 := m <| ws_sent := _ |>).
  set (r1 := mkBridge m1 n <| br_messages := n + 1 |>).
  change (_ <| br_messages := _ |>) with r1.
  set (r2 := (when _ _ r1).2).
  assert (ws_sent (br_manager r2) = ws_sent m1 ++ match target_socket e m with Some w => [(w, payload_of e)] | None => [] end) as ->.
  { unfold r2. change (py_eq (pe_type (pushed e)) (JStr EVENT_CONFIG_CHANGED)) with (String.eqb (event_type e) EVENT_CONFIG_CHANGED).
    unfold target_socket. destruct (String.eqb (event_type e) EVENT_CONFIG_CHANGED); [|by rewrite app_nil_r]. unfold when at 1.
    assert (get_or (if json_truthy (pe_data (pushed e)) then pe_data (pushed e) else JObj []) "device_id" (JStr "") =
      Ok (default (JStr "") (obj_get "device_id" (event_data e)))) as -> by (cbn; by destruct (event_data e)).
    assert (forall j b, (forall d, j <> JStr d) -> (when b (send_to alive j (to_dict (pushed e))) r1).2 = r1) as Hno.
    { intros j [] Hj; [|done]. destruct j; try done. by destruct (Hj s). }
    unfold lift. destruct (obj_get "device_id" (event_data e)) as [j|]; [|by rewrite app_nil_r].
    cbn [default from_option id]. destruct j as [| | | |d|l|o]; try (rewrite Hno by done; by rewrite app_nil_r).
    change (json_truthy (JStr d)) with (truthy d). destruct (truthy d); [|by rewrite app_nil_r].
    unfold when, send_to, modify, send_to_device. change (ws_daemon_connections (br_manager r1)) with (ws_daemon_connections m).
    destruct (dict_get d (ws_daemon_connections m)) as [w|] eqn:Ed; [|by rewrite app_nil_r].
    rewrite Hal; [done|]. eapply (wf_tracked _ Hwf). by apply dict_get_in in Ed. }
  rewrite Hrec. f_equal. unfold times_pushed. rewrite replicate_add. f_equal; [by destruct (decide _)|].
  destruct (target_socket e m) as [w|]; [|done]. unfold received. cbn [List.filter fst].
  destruct (Nat.eqb_spec w ws) as [->|Hne]; [by rewrite decide_True|]. rewrite decide_False by congruence. done.
Qed.
End Pushes.

(** A publication, and its way back through Redis. *)
Section Publishing.
Context (alive : nat -> bool).
Abbreviation manager_of b := (br_manager (eb_handler b)).
Lemma call_subscribers {H} e l (b : EventBus H) :
  exists calls, for_each l (fun cb => modify (fun b => b <| eb_called := eb_called b ++ [(cb, e)] |>)) b =
    (Ok tt, b <| eb_called := calls |>).
Proof.
  revert b. induction l as [|cb l IH]; intros b; [exists (eb_called b); by destruct b|].
  destruct (IH (b <| eb_called := eb_called b ++ [(cb, e)] |>)) as [calls Hc]. by exists calls.
Qed.
Lemma push_run e (b : EventBus Bridge) :
  _redis b = true -> _pubsub b = true -> sendable e = true ->
  (forall ws, ws ∈ ws_connections (manager_of b) -> alive ws = true) -> ws_wf (manager_of b) ->
  exists b1 b2, publish_event true e b = (Ok tt, b1) /\
    eb_sent b1 = eb_sent b ++ [(event_channel (event_type e), payload_of e)] /\
    listen (bridge_event alive) [PMessage (payload_of e)] [] b1 = (Ok tt, b2) /\
    forall ws, received ws (ws_sent (manager_of b2)) =
      received ws (ws_sent (manager_of b)) ++ replicate (times_pushed e (manager_of b) ws) (payload_of e).
Proof.
  intros Hr Hp He Hal Hwf.
  set (sent := b <| eb_sent := eb_sent b ++ [(event_channel (event_type e), payload_of e)] |>).
  assert (exists calls, publish_event true e b = (Ok tt, sent <| eb_called := calls |>)) as [calls E1].
  { destruct (call_subscribers e (_in_memory_subscribers sent) sent) as [calls Hc]. exists calls. rewrite <-Hc.
    unfold publish_event. unfold mbind at 1, M_bind at 1, gets at 1. rewrite Hr. done. }
  set (b1 := sent <| eb_called := calls |>) in *. exists b1. eexists. split; [exact E1|]. split; [done|].
  assert (deliver (bridge_event alive) (payload_of e) b1 =
    (Ok tt, b1 <| eb_handler := (bridge_event alive (pushed e) (eb_handler b1)).2 |>)) as Hd.
  { unfold deliver, try_except, mbind, M_bind, lift. rewrite event_of_payload by done. unfold zoom.
    destruct (bridge_event alive (pushed e) (eb_handler b1)) as [[[]|x] r']; done. }
  split.
  - unfold listen, gets. unfold mbind at 1, M_bind at 1. assert (_pubsub b1 = true) as -> by exact Hp.
    cbn [pubsub_loop]. rewrite (bind_ok _ _ _ _ _ Hd). reflexivity.
  - intros ws. exact (bridge_received alive e (eb_handler b) ws Hal Hwf).
Qed.
End Publishing.

(** Without a URL there is no client. *)
Lemma listen_silent {H} (handler : PushedEvent -> M H unit) stream attempts b :
  opt_truthy (_redis_url b) = false -> _pubsub b = false ->
  eb_handler (listen handler stream attempts b).2 = eb_handler b.
Proof.
  intros Hu Hp. unfold listen. unfold mbind at 1, M_bind at 1, gets at 1. rewrite Hp.
  revert b Hu Hp. induction attempts as [|a l IH]; intros b Hu Hp; [done|]. cbn [reconnect_loop].
  unfold mbind at 1, M_bind at 1, gets at 1. destruct (eb_running b); [|done]. cbn [negb].
  unfold mbind at 1, M_bind at 1, gets at 1. unfold mbind at 1, M_bind at 1, gets at 1. rewrite Hu. cbn [andb].
  unfold mbind at 1, M_bind at 1, modify at 1. rewrite IH by done. done.
Qed.

(** * Property *)

(** With the default settings, which name no Redis, the bus is silent: an
    event that is published, however many, reaches no handler, whatever the
    listener is given, so that no WebSocket is ever written to. *)
Theorem no_redis_no_push alive reachable events taken stream attempts url m :
  opt_truthy url = false ->
  let b := new_bus url (mkBridge m 0) in
  let b1 := (start reachable b).2 in
  let b2 := (for_each events (publish_event taken) b1).2 in
  let b3 := (start_listener (bridge_event alive) stream attempts b2).2 in
  eb_sent b2 = [] /\ br_manager (eb_handler b3) = m.
Proof.
  intros Hu. cbv zeta.
  set (quiet_bus := fun b : EventBus Bridge => opt_truthy (_redis_url b) = false /\ _redis b = false /\ _pubsub b = false /\
    _in_memory_subscribers b = [] /\ eb_sent b = [] /\ br_manager (eb_handler b) = m).
  assert (quiet_bus (start reachable (new_bus url (mkBridge m 0))).2) as H1.
  { unfold quiet_bus, start, mbind, M_bind, gets, modify, when. cbn. by rewrite Hu. }
  assert (forall b, quiet_bus b -> quiet_bus (for_each events (publish_event taken) b).2) as H2.
  { induction events as [|e l IH]; intros b Hq; [done|]. cbn [for_each].
    assert (publish_event taken e b = (Ok tt, b)) as E.
    { destruct Hq as (_ & Hr & _ & Hs & _). unfold publish_event, mbind, M_bind, gets. rewrite Hr. cbn. by rewrite Hs. }
    rewrite (bind_ok _ _ _ _ _ E). by apply IH. }
  specialize (H2 _ H1). split; [by apply H2|]. destruct H2 as (Hu2 & _ & Hp2 & _ & _ & Hm).
  unfold start_listener. unfold mbind at 1, M_bind at 1, gets at 1.
  destruct (_listener_task _); [exact Hm|]. unfold mbind at 1, M_bind at 1, modify at 1. by rewrite listen_silent.
Qed.
