(* ===== verification/WgAdapter.v ===== *)
(** The WireGuard adapters: [services/wg_models.py] and
    [services/wg_adapter.py].

    The abstract class is the typeclass [WireGuardAdapter] over the state of an
    adapter.  The [wg] binary is the argument [exec] of the CLI adapter; the
    mock adapter keeps its interfaces in a dict. *)
From Stdlib Require Import Ascii.
From S2P Require Import Prelude PyStr Dict.
Local Open Scope string_scope.
Local Open Scope list_scope.
Local Open Scope Z_scope.

(** * Data *)
Record WGPeer := mkWGPeer {
  wp_public_key : string;
  wp_allowed_ips : list string;
  wp_endpoint : option string;
  wp_latest_handshake : option Z;
  wp_transfer_rx : Z;
  wp_transfer_tx : Z;
  wp_persistent_keepalive : option Z
}.
Record WGInterfaceState := mkWGState {
  wi_name : string;
  wi_private_key : option string;
  wi_public_key : option string;
  wi_listen_port : Z;
  wi_fwmark : option string;
  wi_peers : list WGPeer
}.
Definition with_peers (ps : list WGPeer) (st : WGInterfaceState) : WGInterfaceState :=
  mkWGState (wi_name st) (wi_private_key st) (wi_public_key st) (wi_listen_port st) (wi_fwmark st) ps.

(** * Keys *)
Definition key_char (c : ascii) : bool :=
  let n := nat_of_ascii c in
  ((65 <=? n) && (n <=? 90) || (97 <=? n) && (n <=? 122) || (48 <=? n) && (n <=? 57) || (n =? 43) || (n =? 47))%nat.
Definition hex_key_char (c : ascii) : bool :=
  let n := nat_of_ascii c in
  ((97 <=? n) && (n <=? 102) || (65 <=? n) && (n <=? 70) || (48 <=? n) && (n <=? 57))%nat.
Definition newline : string := String (ascii_of_nat 10) "".
(** [$] matches at the end and before a final newline. *)
Definition at_end (rest : string) : bool := String.eqb rest "" || String.eqb rest newline.
Definition _PEER_KEY_PATTERN (key : string) : bool :=
  (String.length (take_str 43 key) =? 43)%nat && str_forall key_char (take_str 43 key) &&
  match drop_str 43 key with String "=" rest => at_end rest | _ => false end.
Definition _HEX_KEY_PATTERN (key : string) : bool :=
  (String.length (take_str 64 key) =? 64)%nat && str_forall hex_key_char (take_str 64 key) && at_end (drop_str 64 key).
Definition validate_wireguard_key (key : string) : bool :=
  truthy key && (_PEER_KEY_PATTERN key || _HEX_KEY_PATTERN key).

(** * The abstract class *)
Class WireGuardAdapter (S : Type) := {
  interface_exists : string -> M S bool;
  get_interface_state : string -> M S WGInterfaceState;
  add_peer : string -> string -> list string -> option string -> option Z -> M S unit;
  remove_peer : string -> string -> M S unit;
  update_peer : string -> string -> option (list string) -> option string -> option Z -> M S unit;
  set_peer_endpoint : string -> string -> string -> M S unit;
  list_interfaces : M S (list string);
  (** the [peers] of a state object got earlier, as they are now *)
  held_peers : WGInterfaceState -> S -> list WGPeer
}.

(** * The CLI adapter *)
(** A time stamp of the dump: 0 is none, [datetime] knows the years 1 to
    9999. *)
Definition _parse_dump_timestamp (raw : string) : outcome (option Z) :=
  let raw := strip raw in
  if negb (truthy raw) || String.eqb raw "0" then Ok None else
  match int_of_str raw with
  | Raise _ => Ok None
  | Ok ts =>
    if ts =? 0 then Ok None
    else if (-62135596800 <=? ts) && (ts <=? 253402300799) then Ok (Some (ts * US))
    else if (- 2 ^ 63 <=? ts) && (ts <? 2 ^ 63) then Ok None
    else Raise OverflowError
  end.

Definition int_or_zero (s : string) : outcome Z := if truthy s then int_of_str s else Ok 0.
Definition or_none (none s : string) : option string := if String.eqb s none then None else Some s.
Definition TAB : ascii := ascii_of_nat 9.

Definition parse_peer (parts : list string) : outcome WGPeer :=
  let part i := nth i parts "" in
  handshake ← _parse_dump_timestamp (part 3%nat);
  rx ← int_or_zero (part 4%nat);
  tx ← int_or_zero (part 5%nat);
  keepalive ← (if truthy (part 6%nat) && negb (String.eqb (part 6%nat) "(off)")
               then Some <$> int_of_str (part 6%nat) else Ok None);
  Ok (mkWGPeer (part 0%nat)
        (if truthy (part 1%nat) then split "," (part 1%nat) else [])
        (if truthy (part 2%nat) && negb (String.eqb (part 2%nat) "(none)") then Some (part 2%nat) else None)
        handshake rx tx keepalive).
Fixpoint parse_peers (lines : list string) : outcome (list WGPeer) :=
  match lines with
  | [] => Ok []
  | line :: rest =>
    if negb (truthy (strip line)) then parse_peers rest
    else
      let parts := split TAB line in
      if (length parts <? 5)%nat then parse_peers rest
      else p ← parse_peer parts; ps ← parse_peers rest; Ok (p :: ps)
  end.
Definition _parse_dump (raw interface : string) : outcome WGInterfaceState :=
  match split (ascii_of_nat 10) raw with
  | [] => Raise (WireGuardInterfaceNotFound interface)
  | line :: rest =>
    let first := split TAB line in
    let field i := first !! i in
    listen_port ← match field 1%nat with Some p => int_of_str p | None => Ok 51820 end;
    peers ← parse_peers rest;
    Ok (mkWGState interface
          (x ← field 0%nat; or_none "(none)" x)
          (x ← field 2%nat; or_none "(none)" x)
          listen_port
          (x ← field 3%nat; or_none "(off)" x)
          peers)
  end.

(** [s.split()] *)
Fixpoint split_ws_acc (word : string) (s : string) : list string :=
  match s with
  | EmptyString => if truthy word then [word] else []
  | String c t =>
    if is_space c then (if truthy word then word :: split_ws_acc "" t else split_ws_acc "" t)
    else split_ws_acc (word +:+ String c "") t
  end.
Definition split_ws (s : string) : list string := split_ws_acc "" s.

Record process := mkProcess { returncode : Z; stdout : string; stderr : string }.

Section Cli.
Context {S : Type} (wg_binary : string) (exec : list string -> M S process).

Definition _run (args : list string) : M S (string * string) :=
  p ← exec args;
  let out := strip (stdout p) in
  let err := strip (stderr p) in
  if negb (returncode p =? 0) then raise (WireGuardCommandError (join " " (wg_binary :: args)) (returncode p) err)
  else mret (out, err).

Definition invalid_key (public_key : string) : exn :=
  WireGuardKeyError ("Invalid public key format: " +:+ take_str 16 public_key +:+ "...").
(** A missing device, told from the error text. *)
Definition not_found (err : string) : bool :=
  contains_str "No such device" err || contains_str "does not exist" err.
Definition run_set (interface : string) (args : list string) : M S unit :=
  try_except (_run args;; mret tt) (fun e =>
    match e with
    | WireGuardCommandError _ _ err =>
      if not_found err then raise (WireGuardInterfaceNotFound interface) else raise e
    | _ => raise e
    end).

Definition cli_interface_exists (interface : string) : M S bool :=
  try_except (_run ["show"; interface];; mret true) (fun e =>
    match e with WireGuardCommandError _ _ _ => mret false | _ => raise e end).
Definition cli_get_interface_state (interface : string) : M S WGInterfaceState :=
  '(raw, _) ← _run ["show"; interface; "dump"];
  if negb (truthy raw) then raise (WireGuardInterfaceNotFound interface)
  else lift (_parse_dump raw interface).

(** The optional arguments; [add_peer] drops an empty endpoint. *)
Definition keepalive_args (persistent_keepalive : option Z) : list string :=
  match persistent_keepalive with Some k => ["persistent-keepalive"; str_int k] | None => [] end.
Definition cli_add_peer (interface public_key : string) (allowed_ips : list string)
    (endpoint : option string) (persistent_keepalive : option Z) : M S unit :=
  if negb (validate_wireguard_key public_key) then raise (invalid_key public_key)
  else run_set interface
    (["set"; interface; "peer"; public_key; "allowed-ips"; join "," allowed_ips]
     ++ (if opt_truthy endpoint then ["endpoint"; default "" endpoint] else [])
     ++ keepalive_args persistent_keepalive).
Definition cli_remove_peer (interface public_key : string) : M S unit :=
  if negb (validate_wireguard_key public_key) then raise (invalid_key public_key)
  else try_except (_run ["set"; interface; "peer"; public_key; "remove"];; mret tt) (fun e =>
    match e with
    | WireGuardCommandError _ _ err =>
      if not_found err then raise (WireGuardInterfaceNotFound interface)
      else if contains_str "Invalid peer" err || contains_str "is not a valid" err
      then raise (WireGuardKeyError ("Invalid peer key: " +:+ take_str 16 public_key +:+ "..."))
      else raise e
    | _ => raise e
    end).
Definition cli_update_peer (interface public_key : string) (allowed_ips : option (list string))
    (endpoint : option string) (persistent_keepalive : option Z) : M S unit :=
  if negb (validate_wireguard_key public_key) then raise (invalid_key public_key)
  else
    let more := match allowed_ips with Some l => ["allowed-ips"; join "," l] | None => [] end
      ++ match endpoint with Some e => ["endpoint"; e] | None => [] end
      ++ keepalive_args persistent_keepalive in
    match more with
    | [] => mret tt
    | _ => run_set interface (["set"; interface; "peer"; public_key] ++ more)
    end.
Definition cli_set_peer_endpoint (interface public_key endpoint : string) : M S unit :=
  if negb (validate_wireguard_key public_key) then raise (invalid_key public_key)
  else run_set interface ["set"; interface; "peer"; public_key; "endpoint"; endpoint].
Definition cli_list_interfaces : M S (list string) :=
  try_except ('(raw, _) ← _run ["show"; "interfaces"];
              mret (if truthy raw then split_ws raw else [])) (fun e =>
    match e with WireGuardCommandError _ _ _ => mret [] | _ => raise e end).

Definition WgCliAdapter : WireGuardAdapter S := {|
  interface_exists := cli_interface_exists;
  get_interface_state := cli_get_interface_state;
  add_peer := cli_add_peer;
  remove_peer := cli_remove_peer;
  update_peer := cli_update_peer;
  set_peer_endpoint := cli_set_peer_endpoint;
  list_interfaces := cli_list_interfaces;
  held_peers := fun st _ => wi_peers st
|}.
End Cli.

(** * The mock adapter *)
Record WgMock := mkMock {
  mk_interfaces : list (string * WGInterfaceState);
  mk_next_key_counter : Z
}.
#[export] Instance set_mk_interfaces : SetField mk_interfaces := fun v s => mkMock v (mk_next_key_counter s).
#[export] Instance set_mk_next_key_counter : SetField mk_next_key_counter := fun v s => mkMock (mk_interfaces s) v.
Definition new_mock : WgMock := mkMock [] 0.

Definition _make_mock_key : M WgMock string :=
  modify (fun s => s <| mk_next_key_counter := mk_next_key_counter s + 1 |>);;
  n ← gets mk_next_key_counter;
  mret ("MOCK_" +:+ pad 40 n +:+ "=").

Definition has_key (key : string) (p : WGPeer) : bool := String.eqb (wp_public_key p) key.
(** Replaces the first peer with the key, or appends. *)
Fixpoint put_peer (p : WGPeer) (ps : list WGPeer) : list WGPeer :=
  match ps with
  | [] => [p]
  | q :: rest => if has_key (wp_public_key p) q then p :: rest else q :: put_peer p rest
  end.
(** Changes the first peer with the key. *)
Fixpoint change_first (key : string) (f : WGPeer -> WGPeer) (ps : list WGPeer) : list WGPeer :=
  match ps with
  | [] => []
  | q :: rest => if has_key key q then f q :: rest else q :: change_first key f rest
  end.
Definition on_interface (interface : string) (f : list WGPeer -> list WGPeer) (s : WgMock) : WgMock :=
  match dict_get interface (mk_interfaces s) with
  | Some st => s <| mk_interfaces := dict_set interface (with_peers (f (wi_peers st)) st) (mk_interfaces s) |>
  | None => s
  end.

Definition mock_get_interface_state (interface : string) : M WgMock WGInterfaceState :=
  st ← gets (fun s => dict_get interface (mk_interfaces s));
  match st with Some st => mret st | None => raise (WireGuardInterfaceNotFound interface) end.
Definition mock_add_peer (interface public_key : string) (allowed_ips : list string)
    (endpoint : option string) (persistent_keepalive : option Z) : M WgMock unit :=
  st ← gets (fun s => dict_get interface (mk_interfaces s));
  when (bool_decide (st = None)) (
    key ← _make_mock_key;
    modify (fun s => s <| mk_interfaces :=
      dict_set interface (mkWGState interface None (Some key) 51820 None []) (mk_interfaces s) |>));;
  modify (on_interface interface
    (put_peer (mkWGPeer public_key allowed_ips endpoint None 0 0 persistent_keepalive))).
Definition mock_remove_peer (interface public_key : string) : M WgMock unit :=
  modify (on_interface interface (List.filter (fun p => negb (has_key public_key p)))).
Definition mock_update_peer (interface public_key : string) (allowed_ips : option (list string))
    (endpoint : option string) (persistent_keepalive : option Z) : M WgMock unit :=
  modify (on_interface interface (change_first public_key (fun p =>
    mkWGPeer (wp_public_key p)
      (match allowed_ips with Some l => l | None => wp_allowed_ips p end)
      (match endpoint with Some e => Some e | None => wp_endpoint p end)
      (wp_latest_handshake p) (wp_transfer_rx p) (wp_transfer_tx p)
      (match persistent_keepalive with Some k => Some k | None => wp_persistent_keepalive p end)))).
Definition mock_set_peer_endpoint (interface public_key endpoint : string) : M WgMock unit :=
  modify (on_interface interface (change_first public_key (fun p =>
    mkWGPeer (wp_public_key p) (wp_allowed_ips p) (Some endpoint)
      (wp_latest_handshake p) (wp_transfer_rx p) (wp_transfer_tx p) (wp_persistent_keepalive p)))).

(** The state object [get_interface_state] returns is the adapter's own: its
    peers are the current ones. *)
#[export] Instance WgMockAdapter : WireGuardAdapter WgMock := {|
  interface_exists := fun interface => gets (fun s => bool_decide (is_Some (dict_get interface (mk_interfaces s))));
  get_interface_state := mock_get_interface_state;
  add_peer := mock_add_peer;
  remove_peer := mock_remove_peer;
  update_peer := mock_update_peer;
  set_peer_endpoint := mock_set_peer_endpoint;
  list_interfaces := gets (fun s => (mk_interfaces s).*1);
  held_peers := fun st s => match dict_get (wi_name st) (mk_interfaces s) with Some st' => wi_peers st' | None => wi_peers st end
|}.

(** * What an adapter promises to the controller

    [peers_on] is the abstract state: the peers of each interface.  Adding and
    removing a peer on an existing interface do what their names say and leave
    the other interfaces alone. *)
Class AdapterLaws (S : Type) `{WireGuardAdapter S} := {
  adapter_ok : S -> Prop;
  peers_on : S -> string -> option (list WGPeer);
  exists_law : forall i s, adapter_ok s -> interface_exists i s = (Ok (bool_decide (is_Some (peers_on s i))), s);
  state_law : forall i s ps, adapter_ok s -> peers_on s i = Some ps ->
    exists st, get_interface_state i s = (Ok st, s) /\ held_peers st s = ps;
  add_law : forall i s ps key ips, adapter_ok s -> peers_on s i = Some ps ->
    exists s', add_peer i key ips None None s = (Ok tt, s') /\ adapter_ok s' /\
      peers_on s' i = Some (put_peer (mkWGPeer key ips None None 0 0 None) ps) /\
      forall j, j <> i -> peers_on s' j = peers_on s j;
  remove_law : forall i s ps key, adapter_ok s -> peers_on s i = Some ps ->
    exists s', remove_peer i key s = (Ok tt, s') /\ adapter_ok s' /\
      peers_on s' i = Some (List.filter (fun p => negb (has_key key p)) ps) /\
      forall j, j <> i -> peers_on s' j = peers_on s j
}.

(** Every state object carries its interface's name. *)
Definition mock_ok (s : WgMock) : Prop := forall i st, dict_get i (mk_interfaces s) = Some st -> wi_name st = i.
Definition mock_peers_on (s : WgMock) (i : string) : option (list WGPeer) := wi_peers <$> dict_get i (mk_interfaces s).
Lemma on_interface_spec i f s ps :
  mock_ok s -> mock_peers_on s i = Some ps ->
  mock_ok (on_interface i f s) /\ mock_peers_on (on_interface i f s) i = Some (f ps) /\
  forall j, j <> i -> mock_peers_on (on_interface i f s) j = mock_peers_on s j.
Proof.
  unfold mock_ok, mock_peers_on, on_interface. intros Hok Hps. destruct (dict_get i (mk_interfaces s)) as [st|] eqn:E; [|done].
  cbn in Hps. injection Hps as <-. cbn [mk_interfaces set_field set_mk_interfaces]. split_and!.
  - intros j st' Hj. destruct (decide (j = i)) as [->|Hne].
    + rewrite dict_get_set in Hj. injection Hj as <-. cbn. by apply Hok.
    + rewrite dict_get_set_ne in Hj by done. by apply Hok.
  - by rewrite dict_get_set.
  - intros j Hne. by rewrite dict_get_set_ne.
Qed.
#[export] Instance mock_laws : AdapterLaws WgMock.
Proof.
  refine {| adapter_ok := mock_ok; peers_on := mock_peers_on |}.
  - intros i s _. cbn. unfold gets, mock_peers_on. do 2 f_equal. apply bool_decide_ext. by rewrite fmap_is_Some.
  - intros i s ps Hok Hps. cbn. unfold mock_get_interface_state, mock_peers_on in *. unfold mbind, M_bind, gets.
    destruct (dict_get i (mk_interfaces s)) as [st|] eqn:E; [|done]. cbn in Hps. injection Hps as <-.
    exists st. split; [done|]. by rewrite (Hok i st E), E.
  - intros i s ps key ips Hok Hps. cbn. unfold mock_add_peer, mbind, M_bind, gets.
    assert (is_Some (dict_get i (mk_interfaces s))) as [st E].
    { unfold mock_peers_on in Hps. by destruct (dict_get i (mk_interfaces s)). }
    rewrite E. cbn [when]. rewrite bool_decide_eq_false_2 by done. cbn [when mret M_ret modify].
    destruct (on_interface_spec i (put_peer (mkWGPeer key ips None None 0 0 None)) s ps Hok Hps) as (H1 & H2 & H3).
    eexists. split; [done|]. done.
  - intros i s ps key Hok Hps. cbn. unfold mock_remove_peer, modify.
    destruct (on_interface_spec i (List.filter (fun p => negb (has_key key p))) s ps Hok Hps) as (H1 & H2 & H3).
    eexists. split; [done|]. done.
Defined.
