(* ===== verification/WgKeys.v ===== *)
(** The keys of the server and the key generation of
    [backend/app/services/wireguard.py], over what running a program gives:
    [None] when there is no such program. *)
From S2P Require Import Prelude PyStr IPv4 Topology WgAdapter.
Local Open Scope string_scope.
Local Open Scope list_scope.
Local Open Scope Z_scope.

Section Keys.
(** [asyncio.create_subprocess_exec] and [communicate]: the arguments and what
    is written to the program. *)
Context {S : Type} (run : list string -> option string -> M S (option process)).

(** The exit status is not looked at; the error stands for
    [FileNotFoundError]. *)
Definition missing_program : exn := OSError.
Definition finished (p : option process) : M S (string * string) :=
  match p with Some p => mret (strip (stdout p), strip (stderr p)) | None => raise missing_program end.
Definition _run_wg (args : list string) : M S (string * string) := p ← run ("wg" :: args) None; finished p.
Definition _run_wg_with_input (input_data : string) (args : list string) : M S (string * string) :=
  p ← run ("wg" :: args) (Some input_data); finished p.
Fixpoint times (n : nat) (c : string) : string := match n with O => "" | Datatypes.S m => c +:+ times m c end.
Definition generate_keypair : M S (string * string) :=
  try_except (
    '(private_key, _) ← _run_wg ["genkey"];
    '(public_key, _) ← _run_wg_with_input private_key ["pubkey"];
    mret (private_key, public_key))
  (fun e => match e with
            | OSError => mret ("MOCK_" +:+ times 44 "a", "MOCK_" +:+ times 44 "b")
            | _ => raise e
            end).
End Keys.

(** A peer of [generate_server_config]: its key, its address and the addresses
    it may be given. *)
Record server_peer := mkServerPeer { sp_public_key : string; sp_ip_address : string; sp_allowed_ips : option string }.
Definition server_peer_text (p : server_peer) : string :=
  "[Peer]" +:+ NL +:+ "PublicKey = " +:+ sp_public_key p +:+ NL +:+
  "AllowedIPs = " +:+ default (sp_ip_address p) (sp_allowed_ips p) +:+ NL +:+ NL.
Definition generate_server_config (private_key server_ip subnet : string) (listen_port : Z) (peers : list server_peer) :
    outcome string :=
  net ← IPv4Network subnet;
  Ok ("[Interface]" +:+ NL +:+ "PrivateKey = " +:+ private_key +:+ NL +:+
      "Address = " +:+ server_ip +:+ "/" +:+ str_int (prefixlen net) +:+ NL +:+
      "ListenPort = " +:+ str_int listen_port +:+ NL +:+ "SaveConfig = false" +:+ NL +:+ NL +:+
      foldr String.append "" (server_peer_text <$> peers)).

(** Without [wg] every key pair is the same one. *)
Lemma keys_without_wg {S} (run : list string -> option string -> M S (option process)) s :
  (run ["wg"; "genkey"] None s).1 = Ok None ->
  (generate_keypair run s).1 = Ok ("MOCK_" +:+ times 44 "a", "MOCK_" +:+ times 44 "b").
Proof.
  intros Hr. unfold generate_keypair, try_except, _run_wg, mbind, M_bind. destruct (run _ None s) as [o s']. cbn in Hr. by subst.
Qed.
Example server_config_ex :
  generate_server_config "k=" "10.0.0.1" "10.0.0.0/24" 51820 [mkServerPeer "p=" "10.0.0.2" None] =
  Ok (join NL ["[Interface]"; "PrivateKey = k="; "Address = 10.0.0.1/24"; "ListenPort = 51820"; "SaveConfig = false"; "";
    "[Peer]"; "PublicKey = p="; "AllowedIPs = 10.0.0.2"; ""; ""]).
Proof. vm_compute. reflexivity. Qed.
