(* ===== verification/Controller.v ===== *)
(** The WireGuard controller: [services/wg_controller.py], and
    [sync_wireguard_interface] of [services/wireguard.py].

    A step of the controller acts on the world, on the state of an adapter and
    on the result it fills in; the adapter is any instance of
    [WireGuardAdapter].  [elapsed_ms] gives the text of the float a step took.
    The background task (its sleeps and back-off) and the DNS part of a cycle
    are in [ControllerLoop.v]. *)
From S2P Require Import Prelude PyStr Dict Json Models Effects WgAdapter ConfigV2.
Local Open Scope string_scope.
Local Open Scope list_scope.
Local Open Scope Z_scope.

(** * Data ([services/wg_models.py]) *)
Record DesiredPeer := mkDesired { dp_public_key : string; dp_allowed_ips : list string; dp_remove : bool }.
Record PeerDiff := mkDiff {
  to_add : list DesiredPeer;
  to_update : list DesiredPeer;
  to_remove : list DesiredPeer
}.
Record ReconciliationResult := mkResult {
  rr_interface : string;
  rr_peers_added : Z;
  rr_peers_removed : Z;
  rr_peers_updated : Z;
  rr_errors : list string;
  rr_duration_ms : string
}.
#[export] Instance set_rr_peers_added : SetField rr_peers_added := fun v r =>
  mkResult (rr_interface r) v (rr_peers_removed r) (rr_peers_updated r) (rr_errors r) (rr_duration_ms r).
#[export] Instance set_rr_peers_removed : SetField rr_peers_removed := fun v r =>
  mkResult (rr_interface r) (rr_peers_added r) v (rr_peers_updated r) (rr_errors r) (rr_duration_ms r).
#[export] Instance set_rr_errors : SetField rr_errors := fun v r =>
  mkResult (rr_interface r) (rr_peers_added r) (rr_peers_removed r) (rr_peers_updated r) v (rr_duration_ms r).
#[export] Instance set_rr_duration_ms : SetField rr_duration_ms := fun v r =>
  mkResult (rr_interface r) (rr_peers_added r) (rr_peers_removed r) (rr_peers_updated r) (rr_errors r) v.
Definition new_result (interface : string) : ReconciliationResult := mkResult interface 0 0 0 [] "0.0".

(** * The difference between desired and actual peers *)
(** The orphaned keys come in the order of the set. *)
Definition _compute_peer_diff (desired_peers : list DesiredPeer) (actual_keys : gset string) : PeerDiff :=
  let desired_keys : gset string := list_to_set (dp_public_key <$> List.filter (fun p => negb (dp_remove p)) desired_peers) in
  let remove_keys : gset string := list_to_set (dp_public_key <$> List.filter dp_remove desired_peers) in
  let actual p := bool_decide (dp_public_key p ∈ actual_keys) in
  let orphaned := actual_keys ∖ desired_keys ∖ remove_keys in
  mkDiff (List.filter (fun p => negb (dp_remove p) && negb (actual p)) desired_peers)
         (List.filter (fun p => negb (dp_remove p) && actual p) desired_peers)
         (List.filter (fun p => dp_remove p && actual p) desired_peers
          ++ ((fun key => mkDesired key [] true) <$> elements orphaned)).

(** * The controller *)
Record Ctl (S : Type) := mkCtl {
  c_world : World;
  c_adapter : S;
  c_result : ReconciliationResult
}.
Arguments mkCtl {S}.
Arguments c_world {S}.
Arguments c_adapter {S}.
Arguments c_result {S}.

(** [str(e)] of the adapters' exceptions. *)
Definition wg_error_text (e : exn) : string :=
  match e with
  | WireGuardInterfaceNotFound i => "WireGuard interface not found: " +:+ i
  | WireGuardCommandError c n err => "wg command failed (exit " +:+ str_int n +:+ "): " +:+ c +:+ newline +:+ err
  | WireGuardKeyError m => m
  | _ => ""
  end.

Section Controller.
Context `{Env} {S : Type} `{WireGuardAdapter S} (event_bus : bool) (elapsed_ms : nat -> nat -> string).

(** A call on the world, or on the adapter, as a step of the controller. *)
Definition io {A} (m : IO A) : M (Ctl S) A := fun c =>
  let '(r, w) := m (c_world c) in (r, mkCtl w (c_adapter c) (c_result c)).
Definition ad {A} (m : M S A) : M (Ctl S) A := fun c =>
  let '(r, s) := m (c_adapter c) in (r, mkCtl (c_world c) s (c_result c)).
Definition note (f : ReconciliationResult -> ReconciliationResult) : M (Ctl S) unit :=
  modify (fun c => mkCtl (c_world c) (c_adapter c) (f (c_result c))).

Definition interface_of (network : Network.Network) : string :=
  if opt_truthy (Network.interface_name network) then default "" (Network.interface_name network)
  else wireguard_interface settings.

Definition _get_managed_interfaces : IO (gset string) :=
  networks ← select_where (R := Network.Network) (fun _ => true);
  match networks with
  | [] => mret {[wireguard_interface settings]}
  | _ => mret (list_to_set (interface_of <$> networks))
  end.

(** Does the device get a peer on the interface? *)
Definition peer_device (d : Device.Device) : bool :=
  Device.is_active d && bool_decide (is_Some (Device.public_key d)) && bool_decide (is_Some (Device.ip_address d)).
Definition route_enabled (r : AdvertisedRoute.AdvertisedRoute) : bool :=
  AdvertisedRoute.approved r && AdvertisedRoute.enabled r.
Definition desired_peer (routes_by_device : gmap string (list string)) (d : Device.Device) : DesiredPeer :=
  mkDesired (default "" (Device.public_key d))
    ((default "" (Device.ip_address d) +:+ "/32") :: default [] (routes_by_device !! Device.id d)) false.
Definition _get_desired_peers (interface : string) : IO (list DesiredPeer) :=
  ds ← select_where peer_device;
  networks ← select_where (R := Network.Network) (fun _ => true);
  let rows := ds ≫= (fun d => (fun n => (d, n)) <$>
    List.filter (fun n => String.eqb (Device.network_id d) (Network.id n)) networks) in
  let interface_devices := List.filter (fun dn =>
    String.eqb (interface_of dn.2) interface && negb (String.eqb (Device.name dn.1) SERVER_NAME)) rows in
  all_routes ← select_where route_enabled;
  let routes_by_device := group_by AdvertisedRoute.device_id AdvertisedRoute.prefix all_routes in
  mret ((fun dn => desired_peer routes_by_device dn.1) <$> interface_devices).

(** Within the last three minutes. *)
Definition online_at (now : Z) (last_handshake : option Z) : bool :=
  match last_handshake with Some t => now - t <? seconds 180 | None => false end.
Definition newer_handshake (rp : WGPeer) (d : Device.Device) : bool :=
  match wp_latest_handshake rp, Device.last_handshake d with
  | Some t, Some l => l <? t
  | Some _, None => true
  | None, _ => false
  end.
Definition _publish_device_online_event (d : Device.Device) : IO unit :=
  when event_bus (publish EVENT_DEVICE_ONLINE
    [("device_id", JStr (Device.id d)); ("device_name", JStr (Device.name d))]).
Definition _publish_device_offline_event (d : Device.Device) (last_seen : string) : IO unit :=
  when event_bus (publish EVENT_DEVICE_OFFLINE
    [("device_id", JStr (Device.id d)); ("device_name", JStr (Device.name d)); ("last_seen", JStr last_seen)]).

Definition sync_peer (now : Z) (rp : WGPeer) : IO unit :=
  device ← select_one (fun d => bool_decide (Device.public_key d = Some (wp_public_key rp)));
  match device with
  | None => mret tt
  | Some device =>
    let was_online := online_at now (Device.last_handshake device) in
    let changed := newer_handshake rp device in
    let last_handshake := if changed then wp_latest_handshake rp else Device.last_handshake device in
    when changed (update_row (Device.id device) (fun d => d <| Device.last_handshake := last_handshake |>));;
    let is_online := online_at now last_handshake in
    (if changed && is_online && negb was_online then _publish_device_online_event device
     else if changed && negb is_online && was_online then
       _publish_device_offline_event device
         (match last_handshake with Some t => isoformat t | None => "" end)
     else mret tt);;
    when changed (update_row (Device.id device) (fun d => d <| Device.updated_at := now |>))
  end.
Definition _sync_runtime_metadata (runtime_peers : list WGPeer) : IO unit :=
  t ← now; for_each runtime_peers (sync_peer t).

(** One call to the adapter; a missing interface or a bad key is noted. *)
Definition noting (verb : string) (key : string) (m : M (Ctl S) unit) : M (Ctl S) unit :=
  try_except m (fun e =>
    match e with
    | WireGuardInterfaceNotFound _ | WireGuardKeyError _ =>
      note (fun r => r <| rr_errors := rr_errors r ++ [verb +:+ " " +:+ take_str 16 key +:+ ": " +:+ wg_error_text e] |>)
    | _ => raise e
    end).
Definition remove_one (interface : string) (peer : DesiredPeer) : M (Ctl S) unit :=
  noting "remove" (dp_public_key peer) (
    ad (remove_peer interface (dp_public_key peer));;
    note (fun r => r <| rr_peers_removed := rr_peers_removed r + 1 |>)).
Definition add_one (interface : string) (peer : DesiredPeer) : M (Ctl S) unit :=
  noting "add" (dp_public_key peer) (
    ad (add_peer interface (dp_public_key peer) (dp_allowed_ips peer) None None);;
    note (fun r => r <| rr_peers_added := rr_peers_added r + 1 |>)).

(** The body of the [try]; true when the interface does not exist. *)
Definition reconcile_body (interface : string) : M (Ctl S) bool :=
  exists_ ← ad (interface_exists interface);
  if negb exists_ then mret true else
  desired ← io (_get_desired_peers interface);
  actual_state ← ad (get_interface_state interface);
  actual_peers ← ad (gets (held_peers actual_state));
  let diff := _compute_peer_diff desired (list_to_set (wp_public_key <$> actual_peers)) in
  for_each (to_remove diff) (remove_one interface);;
  for_each (to_add diff) (add_one interface);;
  runtime_peers ← ad (gets (held_peers actual_state));
  io (_sync_runtime_metadata runtime_peers);;
  mret false.

Definition _reconcile_interface (interface : string) : M (Ctl S) ReconciliationResult :=
  note (fun _ => new_result interface);;
  start ← io (tick (fun n => n));
  skipped ← (try_except (reconcile_body interface) (fun e =>
    match e with
    | WireGuardInterfaceNotFound _ => mret false
    | WireGuardCommandError _ _ _ =>
      note (fun r => r <| rr_errors := rr_errors r ++ ["command error: " +:+ wg_error_text e] |>);; mret false
    | _ => raise e
    end) : M (Ctl S) bool);
  stop ← io (tick (fun n => n));
  note (fun r => r <| rr_duration_ms := elapsed_ms start stop |>);;
  result ← gets c_result;
  if (skipped : bool) then mret result else
  io (inc (CONTROLLER_RUNS interface);;
      inc_by (CONTROLLER_PEERS_ADDED interface) (rr_peers_added result);;
      inc_by (CONTROLLER_PEERS_REMOVED interface) (rr_peers_removed result);;
      when (negb (bool_decide (rr_errors result = [])))
        (inc_by (CONTROLLER_ERRORS interface) (len_list (rr_errors result))));;
  mret result.

Definition _publish_peer_sync_event (result : ReconciliationResult) : IO unit :=
  when event_bus (publish EVENT_PEER_SYNCED
    [("interface", JStr (rr_interface result)); ("peers_added", JInt (rr_peers_added result));
     ("peers_removed", JInt (rr_peers_removed result)); ("peers_updated", JInt (rr_peers_updated result));
     ("errors", JArr (JStr <$> rr_errors result)); ("duration_ms", JFloat (rr_duration_ms result))]).

(** [async with self._session_factory() as session]: nothing commits, so what
    the body changed is dropped when the session closes. *)
Definition session_scope {A} (m : M (Ctl S) A) : M (Ctl S) A :=
  try_finally (io rollback;; m) (fun c => (io rollback c).2).
Definition reconcile_interface_now (interface : string) : M (Ctl S) ReconciliationResult :=
  session_scope (_reconcile_interface interface).

Definition is_stale_device (threshold : Z) (d : Device.Device) : bool :=
  Device.is_active d &&
  (match Device.last_handshake d with Some t => t <? threshold | None => true end) &&
  (Device.created_at d <? threshold).
Definition _cleanup_stale_peers : IO unit :=
  t ← now;
  stale_devices ← select_where (is_stale_device (t - days (stale_device_days settings)));
  for_each stale_devices (fun d =>
    t ← now;
    update_row (Device.id d) (fun d => d <| Device.is_active := false |> <| Device.updated_at := t |>)).

(** ** [sync_wireguard_interface] *)
Definition sync_wireguard_interface (network_id : uuid) : M (Ctl S) unit :=
  network ← io (select_one (R := Network.Network) (by_id network_id));
  match network with
  | None => mret tt
  | Some network =>
    let interface := interface_of network in
    exists_ ← try_except (ad (interface_exists interface)) (fun _ => mret false);
    if negb exists_ then mret tt else
    ds ← io (select_where (fun d => String.eqb (Device.network_id d) network_id && peer_device d));
    for_each ds (fun d =>
      if String.eqb (Device.name d) SERVER_NAME then mret tt
      else try_except
        (ad (add_peer interface (default "" (Device.public_key d)) [default "" (Device.ip_address d) +:+ "/32"] None None))
        (fun _ => mret tt))
  end.
End Controller.

(** * The difference *)
Definition keys (l : list DesiredPeer) : list string := dp_public_key <$> l.
Lemma elem_of_keys_filter (p : DesiredPeer -> bool) l k :
  k ∈ keys (List.filter p l) <-> exists d, d ∈ l /\ p d = true /\ dp_public_key d = k.
Proof.
  unfold keys. rewrite list_elem_of_fmap. split.
  - intros (d & -> & [Hp Hd]%elem_of_filter_list). eauto.
  - intros (d & Hd & Hp & <-). exists d. split; [done|]. by apply elem_of_filter_list.
Qed.
Definition wanted (desired : list DesiredPeer) (k : string) : Prop :=
  exists d, d ∈ desired /\ dp_remove d = false /\ dp_public_key d = k.
Definition unwanted (desired : list DesiredPeer) (k : string) : Prop :=
  exists d, d ∈ desired /\ dp_remove d = true /\ dp_public_key d = k.
Lemma to_add_keys desired actual k :
  k ∈ keys (to_add (_compute_peer_diff desired actual)) <-> wanted desired k /\ k ∉ actual.
Proof.
  cbn. rewrite elem_of_keys_filter. unfold wanted. split.
  - intros (d & Hd & [Hr%negb_true_iff Ha%negb_true_iff%bool_decide_eq_false]%andb_true_iff & <-). eauto.
  - intros [(d & Hd & Hr & <-) Ha]. exists d. split_and!; [done| |done].
    by rewrite Hr, bool_decide_eq_false_2.
Qed.
Lemma to_update_keys desired actual k :
  k ∈ keys (to_update (_compute_peer_diff desired actual)) <-> wanted desired k /\ k ∈ actual.
Proof.
  cbn. rewrite elem_of_keys_filter. unfold wanted. split.
  - intros (d & Hd & [Hr%negb_true_iff Ha%bool_decide_eq_true]%andb_true_iff & <-). eauto.
  - intros [(d & Hd & Hr & <-) Ha]. exists d. split_and!; [done| |done].
    by rewrite Hr, bool_decide_eq_true_2.
Qed.
Lemma to_remove_keys desired actual k :
  k ∈ keys (to_remove (_compute_peer_diff desired actual)) <-> k ∈ actual /\ (unwanted desired k \/ ~ wanted desired k).
Proof.
  cbn [_compute_peer_diff to_remove]. unfold keys. rewrite fmap_app, elem_of_app. fold (keys (List.filter
    (fun p => dp_remove p && bool_decide (dp_public_key p ∈ actual)) desired)). rewrite elem_of_keys_filter.
  rewrite <-list_fmap_compose. change (dp_public_key ∘ (fun key => mkDesired key [] true)) with (fun key : string => key).
  rewrite list_fmap_id, elem_of_elements, !elem_of_difference, !elem_of_list_to_set.
  fold (keys (List.filter (fun p => negb (dp_remove p)) desired)) (keys (List.filter dp_remove desired)).
  rewrite !elem_of_keys_filter. unfold unwanted, wanted. split.
  - intros [(d & Hd & [Hr Ha%bool_decide_eq_true]%andb_true_iff & <-)|[[Ha Hw] _]]; [split; [done|]; left; by exists d|].
    split; [done|]. right. intros (d & Hd & Hr & Hk). apply Hw. exists d. by rewrite Hr.
  - intros [Ha [(d & Hd & Hr & <-)|Hw]].
    + left. exists d. split_and!; [done| |done]. by rewrite Hr, bool_decide_eq_true_2.
    + destruct (decide (k ∈ keys (List.filter dp_remove desired))) as [Hin|Hin].
      * apply elem_of_keys_filter in Hin as (d & Hd & Hr & <-). left. exists d. by rewrite Hr, bool_decide_eq_true_2.
      * right. rewrite elem_of_keys_filter in Hin. split_and!; [done| |done].
        intros (d & Hd & Hr%negb_true_iff & Hk). apply Hw. eauto.
Qed.

(** * Steps of the controller and the adapter *)
Section ControllerFacts.
Context `{Env} {S : Type} `{WireGuardAdapter S} (event_bus : bool) (elapsed_ms : nat -> nat -> string).

Definition keeps_adapter (c c' : Ctl S) : Prop := c_adapter c' = c_adapter c.
#[local] Instance keeps_adapter_preorder : PreOrder keeps_adapter.
Proof. unfold keeps_adapter. split; [by intros c|]. intros c1 c2 c3. congruence. Qed.
#[local] Instance keeps_adapter_io {A} (m : IO A) : Frame keeps_adapter (io m).
Proof. intros c. unfold keeps_adapter, io. by destruct (m (c_world c)). Qed.
#[local] Instance keeps_adapter_note f : Frame keeps_adapter (note f : M (Ctl S) unit).
Proof. by intros c. Qed.

(** What follows a call without touching the adapter leaves it as the call
    left it. *)
Lemma adapter_after_bind {A B} (m : M (Ctl S) A) (k : A -> M (Ctl S) B) c :
  (forall a, Frame keeps_adapter (k a)) -> c_adapter ((m ≫= k) c).2 = c_adapter (m c).2.
Proof.
  intros Hk. unfold mbind, M_bind. destruct (m c) as [[a|e] c']; [|done]. apply (Hk a c').
Qed.
Lemma adapter_after_try {A} (m : M (Ctl S) A) h c :
  (forall e, Frame keeps_adapter (h e)) -> c_adapter (try_except m h c).2 = c_adapter (m c).2.
Proof.
  intros Hh. unfold try_except. destruct (m c) as [[a|e] c']; [done|]. apply (Hh e c').
Qed.

Definition fresh_peer (d : DesiredPeer) : WGPeer :=
  mkWGPeer (dp_public_key d) (dp_allowed_ips d) None None 0 0 None.
Definition removing (l : list DesiredPeer) (ps : list WGPeer) : list WGPeer :=
  foldl (fun ps d => List.filter (fun p => negb (has_key (dp_public_key d) p)) ps) ps l.
Definition adding (l : list DesiredPeer) (ps : list WGPeer) : list WGPeer :=
  foldl (fun ps d => put_peer (fresh_peer d) ps) ps l.

Context `{!AdapterLaws S}.

Lemma remove_all_run i l c ps :
  adapter_ok (c_adapter c) -> peers_on (c_adapter c) i = Some ps ->
  exists c', for_each l (remove_one i) c = (Ok tt, c') /\ c_world c' = c_world c /\
    adapter_ok (c_adapter c') /\ peers_on (c_adapter c') i = Some (removing l ps).
Proof.
  revert c ps. induction l as [|d l IH]; intros c ps Hok Hps; [by exists c|].
  destruct (remove_law i (c_adapter c) ps (dp_public_key d) Hok Hps) as (s' & Hrun & Hok' & Hps' & _).
  cbn [for_each removing foldl]. unfold mbind, M_bind. unfold remove_one at 1, noting, try_except, mbind, M_bind, ad.
  rewrite Hrun. cbn. exact (IH (mkCtl (c_world c) s' _) _ Hok' Hps').
Qed.
Lemma add_all_run i l c ps :
  adapter_ok (c_adapter c) -> peers_on (c_adapter c) i = Some ps ->
  exists c', for_each l (add_one i) c = (Ok tt, c') /\ c_world c' = c_world c /\
    adapter_ok (c_adapter c') /\ peers_on (c_adapter c') i = Some (adding l ps).
Proof.
  revert c ps. induction l as [|d l IH]; intros c ps Hok Hps; [by exists c|].
  destruct (add_law i (c_adapter c) ps (dp_public_key d) (dp_allowed_ips d) Hok Hps) as (s' & Hrun & Hok' & Hps' & _).
  cbn [for_each adding foldl]. unfold mbind, M_bind. unfold add_one at 1, noting, try_except, mbind, M_bind, ad.
  rewrite Hrun. cbn. exact (IH (mkCtl (c_world c) s' _) _ Hok' Hps').
Qed.
End ControllerFacts.

Lemma elem_of_removing l ps p : p ∈ removing l ps <-> p ∈ ps /\ wp_public_key p ∉ keys l.
Proof.
  revert ps. induction l as [|d l IH]; intros ps; cbn [removing foldl].
  - cbn. set_solver.
  - fold (removing l (List.filter (fun p => negb (has_key (dp_public_key d) p)) ps)). rewrite IH, elem_of_filter_list.
    unfold has_key. rewrite negb_true_iff, String.eqb_neq. unfold keys. rewrite fmap_cons, elem_of_cons. tauto.
Qed.
Lemma elem_of_put_peer q ps p :
  p ∈ put_peer q ps -> p = q \/ p ∈ ps.
Proof.
  induction ps as [|x ps IH]; cbn; [set_solver|]. destruct (has_key _ x); rewrite !elem_of_cons; [tauto|].
  intros [->|Hp]; [tauto|]. destruct (IH Hp); tauto.
Qed.
Lemma put_peer_kept q ps p : p ∈ ps -> wp_public_key p <> wp_public_key q -> p ∈ put_peer q ps.
Proof.
  induction ps as [|x ps IH]; [set_solver|]. cbn. intros Hp Hne. destruct (has_key _ x) eqn:E.
  - apply elem_of_cons in Hp as [->|Hp]; [by apply String.eqb_eq in E|]. by right.
  - apply elem_of_cons in Hp as [->|Hp]; [left|]. right. by apply IH.
Qed.
Lemma put_peer_there q ps : q ∈ put_peer q ps.
Proof. induction ps as [|x ps IH]; cbn; [left|]. destruct (has_key _ x); [left|by right]. Qed.
(** Peers whose keys are not added stay; a peer of the result was there or is
    fresh; every added key is there. *)
Lemma adding_spec l ps :
  (forall p, p ∈ ps -> wp_public_key p ∉ keys l -> p ∈ adding l ps) /\
  (forall p, p ∈ adding l ps -> p ∈ ps \/ exists d, d ∈ l /\ p = fresh_peer d) /\
  (forall k, k ∈ keys l \/ k ∈ wp_public_key <$> ps -> k ∈ wp_public_key <$> adding l ps).
Proof.
  revert ps. induction l as [|d l IH]; intros ps; cbn [adding foldl].
  - cbn. split_and!; [done|tauto|]. intros k [Hk|Hk]; [set_solver|done].
  - fold (adding l (put_peer (fresh_peer d) ps)). destruct (IH (put_peer (fresh_peer d) ps)) as (H1 & H2 & H3).
    unfold keys. rewrite fmap_cons. split_and!.
    + intros p Hp Hk. rewrite not_elem_of_cons in Hk. destruct Hk. apply H1; [|done]. by apply put_peer_kept.
    + intros p [[->|Hp]%elem_of_put_peer|(d' & Hd' & ->)]%H2; [right|by left|right]; eexists; (split; [|done]);
        [left|by right].
    + intros k [[->|Hk]%elem_of_cons|(p & -> & Hp)%list_elem_of_fmap]; apply H3; [right|by left|right].
      * apply (list_elem_of_fmap_2 wp_public_key _ (fresh_peer d)), put_peer_there.
      * destruct (decide (wp_public_key p = wp_public_key (fresh_peer d))) as [->|Hne].
        -- apply list_elem_of_fmap_2, put_peer_there.
        -- apply list_elem_of_fmap_2. by apply put_peer_kept.
Qed.

(** * The desired peers *)
Section Desired.
Context `{Env}.
Definition routes_of (db : DB) (d : uuid) : list string :=
  AdvertisedRoute.prefix <$> List.filter (fun r => String.eqb (AdvertisedRoute.device_id r) d)
    (List.filter route_enabled (routes db)).
(** Who gets a peer on an interface: the active devices with a key and an
    address in one of its networks, the server apart; with which addresses. *)
Definition peer_for (db : DB) (interface : string) (dev : Device.Device) (d : DesiredPeer) : Prop :=
  dev ∈ devices db /\ peer_device dev = true /\ Device.name dev <> SERVER_NAME /\
  (exists n, n ∈ networks db /\ Network.id n = Device.network_id dev /\ interface_of n = interface) /\
  d = mkDesired (default "" (Device.public_key dev))
        ((default "" (Device.ip_address dev) +:+ "/32") :: routes_of db (Device.id dev)) false.
Lemma get_desired_run interface w :
  exists desired, _get_desired_peers interface w = (Ok desired, w) /\
    forall d, d ∈ desired <-> exists dev, peer_for (w_db w) interface dev d.
Proof.
  unfold _get_desired_peers. unfold select_where. rewrite run_bind. cbn [gets]. rewrite run_bind. cbn [gets].
  rewrite run_bind. cbn [gets]. eexists. split; [reflexivity|]. intros d. rewrite list_elem_of_fmap. unfold peer_for.
  split.
  - intros ((dev & n) & -> & [Hf Hin]%elem_of_filter_list). exists dev. cbn [fst snd] in *.
    apply list_elem_of_bind in Hin as (dev' & Hin & Hdev). apply list_elem_of_fmap in Hin as (n' & [= <- <-] & Hn).
    apply elem_of_filter_list in Hdev as [Hp Hd], Hn as [Hid%String.eqb_eq [_ Hn]%elem_of_filter_list].
    apply andb_true_iff in Hf as [Hi%String.eqb_eq Hs%negb_true_iff%String.eqb_neq]. split_and!; [done..| |].
    + by exists n.
    + unfold desired_peer. by rewrite group_by_lookup.
  - intros (dev & Hd & Hp & Hs & (n & Hn & Hid & Hi) & ->). exists (dev, n). cbn [fst]. split.
    + unfold desired_peer. by rewrite group_by_lookup.
    + apply elem_of_filter_list. cbn [fst snd]. split; [by rewrite Hi, String.eqb_refl, (proj2 (String.eqb_neq _ _) Hs)|].
      apply list_elem_of_bind. exists dev. split; [|by apply elem_of_filter_list].
      apply list_elem_of_fmap. exists n. split; [done|]. apply elem_of_filter_list.
      split; [by rewrite Hid, String.eqb_refl|]. by apply elem_of_filter_list.
Qed.
End Desired.

(** * Only good news *)
Section Events.
Context `{Env} (event_bus : bool).
(** The events a step adds all tell that a device came online. *)
Definition adds_online (w w' : World) : Prop :=
  exists evs, w_events w' = w_events w ++ evs /\ Forall (fun e => event_type e = EVENT_DEVICE_ONLINE) evs.
#[local] Instance adds_online_preorder : PreOrder adds_online.
Proof.
  split.
  - intros w. exists []. by rewrite app_nil_r.
  - intros w1 w2 w3 (l1 & H1 & Hl1) (l2 & H2 & Hl2). exists (l1 ++ l2).
    split; [by rewrite H2, H1, app_assoc|]. by apply Forall_app.
Qed.
Lemma same_events {A} (m : IO A) : (forall w, w_events (m w).2 = w_events w) -> Frame adds_online m.
Proof. intros Hm w. exists []. by rewrite Hm, app_nil_r. Qed.
Lemma online_frame d : Frame adds_online (_publish_device_online_event event_bus d).
Proof.
  unfold _publish_device_online_event. destruct event_bus; [|by apply same_events].
  intros w. eexists. split; [reflexivity|]. by repeat constructor.
Qed.
Lemma still_online t rp d :
  newer_handshake rp d = true -> online_at t (Device.last_handshake d) = true -> online_at t (wp_latest_handshake rp) = true.
Proof.
  unfold newer_handshake, online_at. destruct (wp_latest_handshake rp) as [a|]; [|done].
  destruct (Device.last_handshake d) as [b|]; [|done]. lia.
Qed.
#[local] Instance sync_peer_frame t rp : Frame adds_online (sync_peer event_bus t rp).
Proof.
  unfold sync_peer. apply frame_bind; [apply _| |].
  { apply same_events. intros w. unfold select_one, select_where, mbind, M_bind, gets, lift. by destruct (scalar_one_or_none _). }
  intros [d|]; [|apply frame_ret, _].
  assert (forall f, Frame adds_online (when (newer_handshake rp d) (update_row (R := Device.Device) (Device.id d) f))) as Hu.
  { intros f. apply frame_when; [apply _|]. by apply same_events. }
  apply frame_bind; [apply _|apply Hu|intros _]. apply frame_bind; [apply _| |intros _; apply Hu].
  destruct (newer_handshake rp d) eqn:Hn; cbn [andb]; [|apply frame_ret, _].
  destruct (online_at t (wp_latest_handshake rp)) eqn:Hon; cbn [andb negb].
  - apply frame_if; [apply online_frame|apply frame_ret, _].
  - destruct (online_at t (Device.last_handshake d)) eqn:Hw; [|apply frame_ret, _].
    exfalso. rewrite (still_online _ _ _ Hn Hw) in Hon. done.
Qed.
Lemma sync_metadata_frame rps : Frame adds_online (_sync_runtime_metadata event_bus rps).
Proof.
  unfold _sync_runtime_metadata. apply frame_bind; [apply _|by apply same_events|]. intros t. apply _.
Qed.
End Events.

(** * Nothing commits *)
Section Commits.
Context `{Env} {S : Type} `{WireGuardAdapter S} (event_bus : bool) (elapsed_ms : nat -> nat -> string).
Definition ctl_uncommitted (c c' : Ctl S) : Prop := uncommitted (c_world c) (c_world c').
#[local] Instance ctl_uncommitted_preorder : PreOrder ctl_uncommitted.
Proof. unfold ctl_uncommitted. split; [by intros c|]. intros c1 c2 c3. by etrans. Qed.
#[local] Instance ctl_io {A} (m : IO A) : Frame uncommitted m -> Frame ctl_uncommitted (io m).
Proof. intros Hm c. unfold ctl_uncommitted, io. specialize (Hm (c_world c)). by destruct (m (c_world c)). Qed.
#[local] Instance ctl_ad {A} (m : M S A) : Frame ctl_uncommitted (ad m).
Proof. intros c. unfold ctl_uncommitted, ad. by destruct (m (c_adapter c)). Qed.
#[local] Instance ctl_note f : Frame ctl_uncommitted (note f : M (Ctl S) unit).
Proof. by intros c. Qed.
#[local] Instance ctl_gets {A} (f : Ctl S -> A) : Frame ctl_uncommitted (gets f).
Proof. by intros c. Qed.
#[local] Instance ctl_noting v k (m : M (Ctl S) unit) : Frame ctl_uncommitted m -> Frame ctl_uncommitted (noting v k m).
Proof.
  intros Hm. unfold noting. apply frame_try; [apply _|done|]. intros []; apply _.
Qed.
Lemma sync_metadata_uncommitted rps : Frame uncommitted (_sync_runtime_metadata event_bus rps).
Proof.
  unfold _sync_runtime_metadata, sync_peer, _publish_device_online_event, _publish_device_offline_event, now. apply _.
Qed.
Lemma reconcile_uncommitted i : Frame ctl_uncommitted (_reconcile_interface event_bus elapsed_ms i).
Proof.
  assert (Frame ctl_uncommitted (reconcile_body event_bus i)) as Hbody.
  { unfold reconcile_body, remove_one, add_one, _get_desired_peers.
    pose proof sync_metadata_uncommitted. apply _. }
  unfold _reconcile_interface, inc.
  apply frame_bind; [apply _|apply _|intros _]. apply frame_bind; [apply _|apply _|intros t].
  apply frame_bind; [apply _| |intros skipped; apply _].
  apply frame_try; [apply _|done|]. intros []; apply _.
Qed.
End Commits.

(** * One reconciliation, on the adapter *)
Section Reconcile.
Context `{Env} {S : Type} `{AdapterLaws S} (event_bus : bool) (elapsed_ms : nat -> nat -> string).
#[local] Existing Instances keeps_adapter_preorder keeps_adapter_io keeps_adapter_note.
#[local] Instance keeps_adapter_gets {A} (f : Ctl S -> A) : Frame keeps_adapter (gets f).
Proof. by intros c. Qed.

(** Both loops, and then steps that leave the adapter alone. *)
Lemma body_adapter i c ps :
  adapter_ok (c_adapter c) -> peers_on (c_adapter c) i = Some ps ->
  exists desired, (forall d, d ∈ desired <-> exists dev, peer_for (w_db (c_world c)) i dev d) /\
    let diff := _compute_peer_diff desired (list_to_set (wp_public_key <$> ps)) in
    peers_on (c_adapter (reconcile_body event_bus i c).2) i =
      Some (adding (to_add diff) (removing (to_remove diff) ps)).
Proof.
  intros Hok Hps. destruct (get_desired_run i (c_world c)) as (desired & Hrun & Hdes). exists desired. split; [done|].
  intros diff. unfold reconcile_body, mbind at 1, M_bind at 1. unfold ad at 1. rewrite exists_law by done.
  rewrite Hps. destruct c as [w s r]. cbn [c_world c_adapter c_result] in *.
  rewrite bool_decide_eq_true_2 by done. cbn [negb].
  unfold mbind at 1, M_bind at 1. unfold io at 1. cbn [c_world c_adapter c_result]. rewrite Hrun.
  destruct (state_law i s ps Hok Hps) as (st & Hst & Hheld).
  unfold mbind at 1, M_bind at 1. unfold ad at 1. cbn [c_world c_adapter c_result]. rewrite Hst.
  unfold mbind at 1, M_bind at 1. unfold ad at 1. cbn [c_world c_adapter c_result gets]. unfold gets at 1. rewrite Hheld.
  fold diff.
  destruct (remove_all_run i (to_remove diff) (mkCtl w s r) ps Hok Hps) as (c2 & Hr & _ & Hok2 & Hps2).
  unfold mbind at 1, M_bind at 1. rewrite Hr.
  destruct (add_all_run i (to_add diff) c2 _ Hok2 Hps2) as (c3 & Ha & _ & Hok3 & Hps3).
  unfold mbind at 1, M_bind at 1. rewrite Ha. rewrite <-Hps3. f_equal.
  assert (forall st, Frame keeps_adapter (ad (gets (held_peers st)) : M (Ctl S) (list WGPeer))) as Hg by (intros st' c'; done).
  apply (frame (R := keeps_adapter) c3).
Qed.
Lemma reconcile_adapter i (c : Ctl S) :
  exists c1, c_adapter c1 = c_adapter c /\ w_db (c_world c1) = w_db (c_world c) /\
    c_adapter (_reconcile_interface event_bus elapsed_ms i c).2 = c_adapter (reconcile_body event_bus i c1).2.
Proof.
  exists (mkCtl (ticked (c_world c)) (c_adapter c) (new_result i)). split_and!; [done|done|].
  unfold _reconcile_interface.
  unfold mbind at 1, M_bind at 1. cbn [note modify]. unfold mbind at 1, M_bind at 1. cbn [io tick].
  unfold io at 1, tick at 1. cbn [c_world c_adapter c_result].
  rewrite adapter_after_bind; [|intros b; apply _]. apply adapter_after_try. intros []; apply _.
Qed.
End Reconcile.

(** * Properties *)

(** The difference is exact: a key is added when it is wanted and not
    there, updated when it is wanted and there, removed when it is there and
    marked for removal or not wanted at all; without contradictory entries
    removing and then adding gives exactly the wanted keys. *)
Theorem peer_diff_exact desired actual :
  let diff := _compute_peer_diff desired actual in
  (forall k, k ∈ keys (to_add diff) <-> wanted desired k /\ k ∉ actual) /\
  (forall k, k ∈ keys (to_update diff) <-> wanted desired k /\ k ∈ actual) /\
  (forall k, k ∈ keys (to_remove diff) <-> k ∈ actual /\ (unwanted desired k \/ ~ wanted desired k)) /\
  ((forall k, wanted desired k -> unwanted desired k -> False) ->
   forall k, k ∈ actual ∖ list_to_set (keys (to_remove diff)) ∪ list_to_set (keys (to_add diff)) <-> wanted desired k).
Proof.
  intros diff. split_and!; [apply to_add_keys|apply to_update_keys|apply to_remove_keys|].
  intros Hdis k. rewrite elem_of_union, elem_of_difference, !elem_of_list_to_set.
  unfold diff. rewrite to_add_keys, to_remove_keys. split.
  - intros [[Ha Hn]|[Hw _]]; [|done]. destruct (decide (k ∈ keys (List.filter (fun p => negb (dp_remove p)) desired))) as [Hin|Hin].
    + apply elem_of_keys_filter in Hin as (d & Hd & Hr%negb_true_iff & <-). by exists d.
    + exfalso. apply Hn. split; [done|]. right. intros (d & Hd & Hr & Hk). apply Hin, elem_of_keys_filter.
      exists d. by rewrite Hr.
  - intros Hw. destruct (decide (k ∈ actual)) as [Ha|Ha]; [left|by right]. split; [done|].
    intros [_ [Hu|Hu]]; [by eapply Hdis|by apply Hu].
Qed.

(** C3. One reconciliation of an existing interface leaves on it exactly the
    peers the database wants there, added with their addresses; the peers
    that were there already are left exactly as they were, whatever has
    changed of their addresses since ([to_update] is computed and dropped). *)
Theorem reconcile_converges `{Env} {S} `{AdapterLaws S} event_bus elapsed_ms interface (c : Ctl S) ps :
  adapter_ok (c_adapter c) -> peers_on (c_adapter c) interface = Some ps ->
  exists ps', peers_on (c_adapter (_reconcile_interface event_bus elapsed_ms interface c).2) interface = Some ps' /\
    (forall k, k ∈ wp_public_key <$> ps' <-> exists dev d, peer_for (w_db (c_world c)) interface dev d /\ k = dp_public_key d) /\
    (forall p, p ∈ ps -> wp_public_key p ∈ wp_public_key <$> ps' -> p ∈ ps') /\
    (forall p, p ∈ ps' -> p ∈ ps \/ exists dev d, peer_for (w_db (c_world c)) interface dev d /\ p = fresh_peer d).
Proof.
  intros Hok Hps. destruct (reconcile_adapter event_bus elapsed_ms interface c) as (c1 & Hc1 & Hdb & ->).
  rewrite <-Hc1 in Hok, Hps. destruct (body_adapter event_bus interface c1 ps Hok Hps) as (desired & Hdes & ->).
  rewrite Hdb in Hdes. set (diff := _compute_peer_diff _ _).
  assert (forall d, d ∈ desired -> dp_remove d = false) as Hkeep.
  { intros d Hd. apply Hdes in Hd as (dev & _ & _ & _ & _ & ->). done. }
  assert (forall k, wanted desired k <-> k ∈ keys desired) as Hw.
  { intros k. unfold wanted, keys. rewrite list_elem_of_fmap. split; [naive_solver|].
    intros (d & -> & Hd). exists d. auto. }
  assert (forall k, k ∈ keys desired <-> exists dev d, peer_for (w_db (c_world c)) interface dev d /\ k = dp_public_key d) as Hk.
  { intros k. unfold keys. rewrite list_elem_of_fmap. split.
    - intros (d & -> & (dev & Hd)%Hdes). eauto.
    - intros (dev & d & Hd & ->). exists d. split; [done|]. apply Hdes. eauto. }
  assert (forall k, k ∈ keys (to_remove diff) <-> k ∈ wp_public_key <$> ps /\ k ∉ keys desired) as Hrem.
  { intros k. unfold diff. rewrite to_remove_keys, elem_of_list_to_set, Hw. split; [|tauto].
    intros [Hin [(d & Hd & Hr & _)|Hn]]; [|done]. by rewrite Hkeep in Hr. }
  destruct (adding_spec (to_add diff) (removing (to_remove diff) ps)) as (K1 & K2 & K3).
  eexists. split; [reflexivity|]. split_and!.
  - intros k. rewrite <-Hk. split.
    + intros (p & -> & [Hp|(d & Hd & ->)]%K2)%list_elem_of_fmap.
      * apply elem_of_removing in Hp as [Hp Hn]. destruct (decide (wp_public_key p ∈ keys desired)) as [|Hnk]; [done|].
        exfalso. apply Hn, Hrem. split; [by apply list_elem_of_fmap_2|done].
      * apply Hw. apply (to_add_keys desired (list_to_set (wp_public_key <$> ps))).
        change (dp_public_key d ∈ keys (to_add diff)). by apply list_elem_of_fmap_2.
    + intros Hkd. apply K3. destruct (decide (k ∈ wp_public_key <$> ps)) as [Hin|Hn].
      * right. apply list_elem_of_fmap in Hin as (p & -> & Hp). apply list_elem_of_fmap_2, elem_of_removing.
        split; [done|]. rewrite Hrem. tauto.
      * left. apply to_add_keys. rewrite Hw, elem_of_list_to_set. done.
  - intros p Hp (q & Hq & [Hin|(d & Hd & ->)]%K2)%list_elem_of_fmap.
    + apply K1; [apply elem_of_removing; split; [done|]; rewrite Hq; by apply elem_of_removing in Hin as [_ ?]|].
      unfold diff. rewrite to_add_keys, elem_of_list_to_set. intros [_ Hn]. apply Hn. by apply list_elem_of_fmap_2.
    + exfalso. assert (dp_public_key d ∈ keys (to_add diff)) as Hka by by apply list_elem_of_fmap_2.
      apply to_add_keys in Hka as [_ Hn]. apply Hn. rewrite elem_of_list_to_set. cbn in Hq. rewrite <-Hq. by apply list_elem_of_fmap_2.
  - intros p [Hp|(d & Hd & ->)]%K2; [left; by apply elem_of_removing in Hp as [Hp _]|right].
    unfold diff in Hd. cbn in Hd. apply elem_of_filter_list in Hd as [_ Hd]. apply Hdes in Hd as (dev & Hd). eauto.
Qed.

(** The runtime metadata never announces a device as offline: a newer
    handshake of a device that was online leaves it online. *)
Theorem no_offline_event `{Env} event_bus rps w :
  exists evs, w_events (_sync_runtime_metadata event_bus rps w).2 = w_events w ++ evs /\
    Forall (fun e => event_type e = EVENT_DEVICE_ONLINE) evs.
Proof. apply (sync_metadata_frame event_bus rps w). Qed.

(** Reconciling an interface on demand changes nothing of what is stored:
    the session closes without a commit, and the handshakes read from the
    interface are dropped with it. *)
Theorem reconcile_now_stores_nothing `{Env} {S} `{WireGuardAdapter S} event_bus elapsed_ms interface (c : Ctl S) :
  let c' := (reconcile_interface_now event_bus elapsed_ms interface c).2 in
  w_committed (c_world c') = w_committed (c_world c) /\ w_db (c_world c') = w_committed (c_world c).
Proof.
  intros c'. assert (w_committed (c_world c') = w_committed (c_world c)) as Hc.
  { unfold c', reconcile_interface_now, session_scope, try_finally. cbn [snd].
    set (c1 := (_ c).2). assert (ctl_uncommitted c c1) as Hu; [|exact Hu].
    exact (reconcile_uncommitted event_bus elapsed_ms interface (io rollback c).2). }
  split; [done|]. exact Hc.
Qed.

(** * Witness *)
Definition demo_peer (key ip : string) : WGPeer := mkWGPeer key [ip] None None 0 0 None.
Definition demo_mock : WgMock :=
  mkMock [("wg0", mkWGState "wg0" None None 51820 None [demo_peer "pk-b" "10.9.9.9/32"; demo_peer "old" "10.0.0.9/32"])] 0.
Definition demo_ctl : Ctl WgMock := mkCtl (world_of demo_db) demo_mock (new_result "").
Lemma reconcile_converges_witness :
  exists ps', peers_on (c_adapter (_reconcile_interface true (fun _ _ => "0.1") "wg0" demo_ctl).2) "wg0" = Some ps' /\
    demo_peer "pk-b" "10.9.9.9/32" ∈ ps'.
Proof.
  destruct (reconcile_converges (H := demo_env) true (fun _ _ => "0.1") "wg0" demo_ctl
    [demo_peer "pk-b" "10.9.9.9/32"; demo_peer "old" "10.0.0.9/32"]) as (ps' & Hps & Hk & Hkept & _).
  - intros i st Hst. cbn [demo_ctl c_adapter demo_mock mk_interfaces dict_get] in Hst.
    destruct (String.eqb_spec "wg0" i) as [<-|]; [|done]. by injection Hst as <-.
  - reflexivity.
  - exists ps'. split; [exact Hps|]. apply Hkept; [left|]. apply Hk.
    exists (demo_device "b" "bob" "10.0.0.3"), (mkDesired "pk-b" ["10.0.0.3/32"] false).
    split; [|reflexivity]. split_and!; [|reflexivity|discriminate| |reflexivity].
    + right. right. left.
    + exists (Network.mk "net-1" "lab" "10.0.0.0/24" None None (Some "mesh") None 0). split_and!; [left|reflexivity|reflexivity].
Defined.
