(* ===== verification/Dns.v ===== *)
(** The names the server publishes: [backend/app/services/dns_records.py] and
    [dns_provider.py].

    The zones of a network are built from the database and handed to a
    provider, an interface ([DNSProvider]) with two implementations: the one
    that writes zone files and the one that does nothing.  The zone files are
    a map from paths to texts; directories that cannot be written are not
    modelled.  [str.lower] is that of ASCII letters; a letter outside ASCII is
    several bytes here, which become one dash as the one letter does. *)
From Stdlib Require Import Ascii.
From S2P Require Import Prelude PyStr Bytes Paths Models Effects Topology IPv4 ConfigV2.
Local Open Scope string_scope.
Local Open Scope list_scope.
Local Open Scope Z_scope.

(** * Text *)
Fixpoint endswith (q s : string) : bool :=
  String.eqb s q || match s with EmptyString => false | String _ t => endswith q t end.
Fixpoint lstrip_char (c : ascii) (s : string) : string :=
  match s with EmptyString => EmptyString | String a t => if Ascii.eqb a c then lstrip_char c t else s end.
Fixpoint rstrip_char (c : ascii) (s : string) : string :=
  match s with
  | EmptyString => EmptyString
  | String a t =>
    match rstrip_char c t with
    | EmptyString => if Ascii.eqb a c then EmptyString else String a EmptyString
    | t' => String a t'
    end
  end.
Definition strip_char (c : ascii) (s : string) : string := rstrip_char c (lstrip_char c s).
(** [s.replace(old, "")] for [old] that is not empty; [skip] letters of an
    occurrence are still to be passed over. *)
Fixpoint remove_str_from (skip : nat) (old s : string) : string :=
  match s with
  | EmptyString => EmptyString
  | String a t =>
    match skip with
    | Datatypes.S k => remove_str_from k old t
    | O => if startswith old s then remove_str_from (String.length old - 1) old t else String a (remove_str_from 0 old t)
    end
  end.
Definition remove_str (old s : string) : string := remove_str_from 0 old s.
Fixpoint spaces (n : nat) : string := match n with O => "" | Datatypes.S m => String " " (spaces m) end.
(** [f"{s:<n}"] and [f"{s:>n}"] *)
Definition ljust (n : nat) (s : string) : string := s +:+ spaces (n - String.length s).
Definition rjust (n : nat) (s : string) : string := spaces (n - String.length s) +:+ s.

(** * Names *)
(** [[a-zA-Z0-9\-]] *)
Definition label_char (c : ascii) : bool :=
  let n := nat_of_ascii c in
  ((97 <=? n)%nat && (n <=? 122)%nat) || ((65 <=? n)%nat && (n <=? 90)%nat) || is_digit c || Ascii.eqb c "-".
Fixpoint label_clean (s : string) : string :=
  match s with
  | EmptyString => EmptyString
  | String c t => String (if label_char c then c else "-"%char) (label_clean t)
  end.
(** [_MULTI_DASH.sub("-", s)] *)
Fixpoint multi_dash (after_dash : bool) (s : string) : string :=
  match s with
  | EmptyString => EmptyString
  | String c t =>
    if Ascii.eqb c "-" then
      if after_dash then multi_dash true t else String c (multi_dash true t)
    else String c (multi_dash false t)
  end.
Definition sanitize_dns_name (name : string) : string :=
  let clean := strip_char "-" (multi_dash false (label_clean (lower name))) in
  if truthy clean then clean else "unnamed".

(** [int(now.strftime("%Y%m%d%H%M%S"))] *)
Definition serial_at (t : Z) : Z :=
  let sec := t / US in
  let '(y, m, d) := civil_from_days (sec / 86400) in
  let r := sec mod 86400 in
  ((((y * 100 + m) * 100 + d) * 100 + r / 3600) * 100 + r / 60 mod 60) * 100 + r mod 60.

(** [addr.packed[i]] *)
Definition octet (n : Z) (i : Z) : Z := n / 2 ^ (8 * (3 - i)) mod 256.
Definition _reverse_zone_origin (subnet : string) : option string :=
  match IPv4Network subnet with
  | Raise _ => None
  | Ok net =>
    let o i := str_int (octet (network_address net) i) in
    let p := prefixlen net in
    if p <? 8 then None else
    let prefix :=
      if 24 <=? p then o 2 +:+ "." +:+ o 1 +:+ "." +:+ o 0
      else if 16 <=? p then o 1 +:+ "." +:+ o 0
      else o 0 in
    Some (prefix +:+ ".in-addr.arpa")
  end.
Definition _reverse_record_name (ip_text subnet : string) : outcome string :=
  ip ← IPv4Address ip_text;
  net ← IPv4Network subnet;
  let o i := str_int (octet ip i) in
  let p := prefixlen net in
  Ok (if 24 <=? p then o 3
      else if 16 <=? p then o 3 +:+ "." +:+ o 2
      else if 8 <=? p then o 3 +:+ "." +:+ o 2 +:+ "." +:+ o 1
      else ip_text).

(** * Zones *)
Record DNSRecord := mkRecord { rc_name : string; rc_type : string; rc_value : string; rc_ttl : Z }.
Definition new_record (name record_type value : string) : DNSRecord := mkRecord name record_type value 300.
Record ZoneData := mkZone { z_origin : string; z_records : list DNSRecord; z_serial : Z; z_ttl : Z; z_admin_email : string }.
Definition new_zone (origin : string) (records : list DNSRecord) (serial ttl : Z) : ZoneData :=
  mkZone origin records serial ttl "admin.wg.midscale".

(** [not device.ip_address or not device.is_active] skips a device. *)
Definition named_device (d : Device.Device) : bool := opt_truthy (Device.ip_address d) && Device.is_active d.
Definition device_record (d : Device.Device) : DNSRecord :=
  new_record (sanitize_dns_name (Device.name d)) "A" (default "" (Device.ip_address d)).
Definition entry_records (origin : string) (e : DNSEntry.DNSEntry) : list DNSRecord :=
  let domain := rstrip_char "." (DNSEntry.domain e) in
  let within := endswith ("." +:+ origin) domain in
  if within || negb (contains_char "." domain) then
    let label := if within then remove_str ("." +:+ origin) domain else domain in
    [new_record (if truthy label then label else "@") "A" (DNSEntry.address e)]
  else [].

Section Zones.
Context `{Env}.

Definition origin_of (network : Network.Network) : string :=
  sanitize_dns_name (Network.name network) +:+ "." +:+ dns_domain settings.
Definition forward_records (network : Network.Network) (devices : list Device.Device)
    (dns_entries : list DNSEntry.DNSEntry) : list DNSRecord :=
  let origin := origin_of network in
  new_record "@" "NS" ("ns1." +:+ origin) :: (device_record <$> List.filter named_device devices)
  ++ (dns_entries ≫= entry_records origin).
Definition build_network_zone (network : Network.Network) (devices : list Device.Device)
    (dns_entries : list DNSEntry.DNSEntry) : IO (option ZoneData) :=
  let records := forward_records network devices dns_entries in
  match List.filter (fun r => negb (String.eqb (rc_type r) "NS")) records with
  | [] => mret None
  | _ => t ← now; mret (Some (new_zone (origin_of network) records (serial_at t) (dns_default_ttl settings)))
  end.

Definition reverse_record (network : Network.Network) (d : Device.Device) : outcome DNSRecord :=
  rev_name ← _reverse_record_name (default "" (Device.ip_address d)) (Network.subnet network);
  Ok (new_record rev_name "PTR" (sanitize_dns_name (Device.name d) +:+ "." +:+ origin_of network)).
Definition build_reverse_zone (network : Network.Network) (devices : list Device.Device) : IO (option ZoneData) :=
  match _reverse_zone_origin (Network.subnet network) with
  | None => mret None
  | Some origin =>
    records ← lift (mapM (reverse_record network) (List.filter named_device devices));
    match records with
    | [] => mret None
    | _ => t ← now; mret (Some (new_zone origin records (serial_at t) (dns_default_ttl settings)))
    end
  end.
End Zones.

(** * Providers *)
Class DNSProvider (P : Type) := {
  ensure_zone : ZoneData -> M P unit;
  remove_zone : string -> M P unit;
  reload_zones : M P unit
}.

Definition record_line (r : DNSRecord) : string :=
  let name := if String.eqb (rc_name r) "@" then "" else rc_name r in
  ljust 30 name +:+ " " +:+ str_int (rc_ttl r) +:+ " " +:+ rjust 5 (rc_type r) +:+ " " +:+ rc_value r.
Definition record_key (r : DNSRecord) : string := rc_name r +:+ ":" +:+ rc_type r +:+ ":" +:+ rc_value r.
Fixpoint record_lines (seen_names : list string) (records : list DNSRecord) : list string :=
  match records with
  | [] => []
  | r :: rest =>
    if mem (record_key r) seen_names then record_lines seen_names rest
    else record_line r :: record_lines (record_key r :: seen_names) rest
  end.
Definition zone_head (z : ZoneData) : list string :=
  ["$ORIGIN " +:+ z_origin z +:+ "."; "$TTL " +:+ str_int (z_ttl z); "";
   "@  IN SOA  ns1." +:+ z_origin z +:+ ". " +:+ replace_char "@" "." (z_admin_email z) +:+ ". (";
   "    " +:+ str_int (z_serial z) +:+ " ; serial";
   "    3600       ; refresh"; "    900        ; retry"; "    86400      ; expire";
   "    " +:+ str_int (z_ttl z) +:+ "  ; minimum"; ")"; "";
   "@  IN NS  ns1." +:+ z_origin z +:+ "."; ""].
Definition _format_zone (z : ZoneData) : string :=
  join NL (zone_head z ++ record_lines [] (z_records z) ++ [""]).

(** The files of the zones directory, and the reload commands run. *)
Record CoreDNS := mkCoreDNS { zone_files : gmap string string; reloads : list string }.
#[export] Instance set_zone_files : SetField zone_files := fun v r => mkCoreDNS v (reloads r).
#[export] Instance set_reloads : SetField reloads := fun v r => mkCoreDNS (zone_files r) v.

Section CoreDNSFileProvider.
Context (zones_path : string) (reload_cmd : option string).
Definition _zone_filepath (origin : string) : string :=
  path_join zones_path (replace_char "." "-" (rstrip_char "." origin) +:+ ".zone").
Definition core_ensure_zone (z : ZoneData) : M CoreDNS unit :=
  let filepath := _zone_filepath (z_origin z) in
  let content := _format_zone z in
  existing ← gets (fun s => default "" (zone_files s !! filepath));
  when (negb (String.eqb content existing)) (modify (fun s => s <| zone_files := <[filepath := content]> (zone_files s) |>)).
Definition core_remove_zone (origin : string) : M CoreDNS unit :=
  modify (fun s => s <| zone_files := base.delete (_zone_filepath origin) (zone_files s) |>).
Definition core_reload : M CoreDNS unit :=
  match reload_cmd with
  | Some cmd => when (truthy cmd) (modify (fun s => s <| reloads := reloads s ++ [cmd] |>))
  | None => mret tt
  end.
Definition CoreDNSFileProvider : DNSProvider CoreDNS :=
  {| ensure_zone := core_ensure_zone; remove_zone := core_remove_zone; reload_zones := core_reload |}.
End CoreDNSFileProvider.
Definition NoopDNSProvider : DNSProvider unit :=
  {| ensure_zone := fun _ => mret tt; remove_zone := fun _ => mret tt; reload_zones := mret tt |}.

(** * [sync_network_dns] *)
Record Sync (P : Type) := mkSync { sy_world : World; sy_dns : P }.
Arguments mkSync {P}.
Arguments sy_world {P}.
Arguments sy_dns {P}.
#[export] Instance set_sy_world {P} : SetField (@sy_world P) := fun v r => mkSync v (sy_dns r).
#[export] Instance set_sy_dns {P} : SetField (@sy_dns P) := fun v r => mkSync (sy_world r) v.

Section Synchronise.
Context `{Env} {P : Type} `{DNSProvider P}.

Definition resolvable (network_id : uuid) (d : Device.Device) : bool :=
  String.eqb (Device.network_id d) network_id && Device.is_active d && bool_decide (is_Some (Device.ip_address d)).
Definition put_zone (zone : option ZoneData) (origin : option string) : M (Sync P) unit :=
  match zone, origin with
  | Some z, _ => zoom sy_dns (ensure_zone z)
  | None, Some o => zoom sy_dns (remove_zone o)
  | None, None => mret tt
  end.
Definition sync_network_dns (network_id : uuid) : M (Sync P) unit :=
  network ← zoom sy_world (select_one (R := Network.Network) (by_id network_id));
  match network with
  | None => mret tt
  | Some network =>
    devices ← zoom sy_world (select_where (resolvable network_id));
    dns_entries ← zoom sy_world (select_where (fun e => String.eqb (DNSEntry.network_id e) network_id));
    forward_zone ← zoom sy_world (build_network_zone network devices dns_entries);
    put_zone forward_zone (Some (origin_of network));;
    reverse_zone ← zoom sy_world (build_reverse_zone network devices);
    put_zone reverse_zone (_reverse_zone_origin (Network.subnet network))
  end.
End Synchronise.

(** * Facts *)

(** ** Labels *)
(** A letter of a label in its normal form. *)
Definition ldh (c : ascii) : bool :=
  let n := nat_of_ascii c in ((97 <=? n)%nat && (n <=? 122)%nat) || is_digit c || Ascii.eqb c "-".
Fixpoint no_dashes (after_dash : bool) (s : string) : bool :=
  match s with
  | EmptyString => true
  | String c t => negb (after_dash && Ascii.eqb c "-") && no_dashes (Ascii.eqb c "-") t
  end.
Definition is_label (s : string) : bool :=
  truthy s && str_forall ldh s && negb (startswith "-" s) && negb (endswith "-" s) && no_dashes false s.

Lemma cleaned_char c : let d := lower_char c in ldh (if label_char d then d else "-"%char) = true.
Proof. by destruct c as [[] [] [] [] [] [] [] []]. Qed.
Lemma cleaned s : str_forall ldh (label_clean (lower s)) = true.
Proof. induction s as [|c s IH]; [done|]. cbn [lower label_clean str_forall]. by rewrite cleaned_char. Qed.
Lemma multi_dash_ldh b s : str_forall ldh s = true -> str_forall ldh (multi_dash b s) = true.
Proof.
  revert b. induction s as [|c s IH]; intros b; [done|]. cbn. intros [Hc Hs]%andb_true_iff.
  destruct (Ascii.eqb c "-"); [destruct b; [by apply IH|]|]; cbn; by rewrite Hc, IH.
Qed.
Lemma multi_dash_single b s : no_dashes b (multi_dash b s) = true.
Proof.
  revert b. induction s as [|c s IH]; intros b; [done|]. cbn [multi_dash].
  destruct (Ascii.eqb c "-") eqn:E; [destruct b; [apply IH|]|]; cbn; rewrite E, ?andb_false_r; cbn; apply IH.
Qed.
Lemma lstrip_char_keeps (p : ascii -> bool) c s : str_forall p s = true -> str_forall p (lstrip_char c s) = true.
Proof.
  induction s as [|a s IH]; [done|]. cbn. intros [Ha Hs]%andb_true_iff. destruct (Ascii.eqb a c); [by apply IH|].
  cbn. by rewrite Ha.
Qed.
Lemma rstrip_char_cons c a t :
  rstrip_char c (String a t) = if truthy (rstrip_char c t) then String a (rstrip_char c t)
                               else if Ascii.eqb a c then EmptyString else String a EmptyString.
Proof. cbn. by destruct (rstrip_char c t). Qed.
Lemma rstrip_char_keeps (p : ascii -> bool) c s : str_forall p s = true -> str_forall p (rstrip_char c s) = true.
Proof.
  induction s as [|a s IH]; [done|]. rewrite rstrip_char_cons. cbn [str_forall]. intros [Ha Hs]%andb_true_iff.
  destruct (truthy _); [|destruct (Ascii.eqb a c); [done|]]; cbn; by rewrite Ha, ?IH.
Qed.
Lemma no_dashes_weaken s : no_dashes true s = true -> no_dashes false s = true.
Proof. destruct s; [done|]. cbn. by intros [_ ->]%andb_true_iff. Qed.
Lemma lstrip_dashes b s : no_dashes b s = true -> no_dashes false (lstrip_char "-" s) = true.
Proof.
  revert b. induction s as [|a s IH]; intros b; [done|]. cbn [lstrip_char no_dashes]. intros [Ha Hs]%andb_true_iff.
  destruct (Ascii.eqb a "-") eqn:E; [by eapply IH|]. cbn. by rewrite E.
Qed.
Lemma rstrip_dashes b s : no_dashes b s = true -> no_dashes b (rstrip_char "-" s) = true.
Proof.
  revert b. induction s as [|a s IH]; intros b; [done|]. rewrite rstrip_char_cons. cbn [no_dashes].
  intros [Ha Hs]%andb_true_iff. specialize (IH _ Hs).
  destruct (truthy _); [cbn; by rewrite Ha|]. destruct (Ascii.eqb a "-") eqn:E; [done|]. cbn. rewrite E. by rewrite andb_false_r.
Qed.
Lemma lstrip_char_start c s : startswith (String c "") (lstrip_char c s) = false.
Proof. induction s as [|a s IH]; [done|]. cbn. destruct (Ascii.eqb_spec a c) as [->|]; [done|]. cbn.
  destruct (Ascii.eqb_spec c a); [by subst|done]. Qed.
Lemma rstrip_char_start c x s : startswith (String x "") s = false -> startswith (String x "") (rstrip_char c s) = false.
Proof.
  destruct s as [|a s]; [done|]. rewrite rstrip_char_cons. cbn [startswith]. intros H.
  destruct (truthy _); [|destruct (Ascii.eqb a c); [done|]]; by cbn [startswith].
Qed.
Lemma endswith_char_cons c a t : truthy t = true -> endswith (String c "") (String a t) = endswith (String c "") t.
Proof.
  intros Ht. cbn [endswith]. assert (String.eqb (String a t) (String c "") = false) as ->; [|done].
  apply String.eqb_neq. destruct t; [done|congruence].
Qed.
Lemma rstrip_char_end c s : endswith (String c "") (rstrip_char c s) = false.
Proof.
  induction s as [|a s IH]; [done|]. rewrite rstrip_char_cons. destruct (truthy _) eqn:E.
  - by rewrite endswith_char_cons.
  - destruct (Ascii.eqb_spec a c) as [->|Hne]; [done|]. cbn. by destruct (Ascii.eqb_spec a c).
Qed.
Lemma sanitize_is_label name : is_label (sanitize_dns_name name) = true.
Proof.
  unfold sanitize_dns_name. cbv zeta. set (m := multi_dash false (label_clean (lower name))).
  destruct (truthy (strip_char "-" m)) eqn:E; [|done]. unfold is_label. rewrite E. unfold strip_char.
  pose proof (multi_dash_single false (label_clean (lower name))) as Hs. fold m in Hs.
  rewrite rstrip_char_keeps by apply lstrip_char_keeps, multi_dash_ldh, cleaned.
  by rewrite rstrip_char_start, rstrip_char_end, rstrip_dashes by (apply lstrip_char_start || by eapply lstrip_dashes).
Qed.

(** A label is left as it is. *)
Lemma ldh_char c : ldh c = true -> (if label_char (lower_char c) then lower_char c else "-"%char) = c.
Proof. by destruct c as [[] [] [] [] [] [] [] []]. Qed.
Lemma clean_id s : str_forall ldh s = true -> label_clean (lower s) = s.
Proof.
  induction s as [|c s IH]; [done|]. cbn [str_forall lower label_clean]. intros [Hc Hs]%andb_true_iff. by rewrite ldh_char, IH.
Qed.
Lemma multi_dash_id b s : no_dashes b s = true -> multi_dash b s = s.
Proof.
  revert b. induction s as [|c s IH]; intros b; [done|]. cbn. intros [Hc Hs]%andb_true_iff.
  destruct (Ascii.eqb c "-"); [destruct b; [done|]|]; by rewrite IH.
Qed.
Lemma rstrip_char_id c s : endswith (String c "") s = false -> rstrip_char c s = s.
Proof.
  induction s as [|a s IH]; [done|]. intros H. rewrite rstrip_char_cons. destruct s as [|b s].
  - cbn. cbn in H. rewrite orb_false_r in H. by destruct (Ascii.eqb a c).
  - rewrite endswith_char_cons in H by done. by rewrite IH.
Qed.
Lemma sanitize_label_id s : is_label s = true -> sanitize_dns_name s = s.
Proof.
  unfold is_label. rewrite !andb_true_iff, !negb_true_iff. intros [[[[Ht Hf] Hst] He] Hd].
  unfold sanitize_dns_name. cbv zeta. rewrite clean_id, multi_dash_id by done. unfold strip_char.
  assert (lstrip_char "-" s = s) as ->.
  { destruct s as [|c s]; [done|]. change (Ascii.eqb "-" c && true = false) in Hst. cbn [lstrip_char].
    rewrite andb_true_r, Ascii.eqb_sym in Hst. by rewrite Hst. }
  by rewrite rstrip_char_id, Ht by done.
Qed.

(** ** Lines *)
Lemma split_app c s t : split c (s +:+ String c t) = split c s ++ split c t.
Proof.
  induction s as [|a s IH].
  - change (split c (String c t) = [""] ++ split c t). cbn. by rewrite Ascii.eqb_refl.
  - change (String a s +:+ String c t) with (String a (s +:+ String c t)). cbn [split]. rewrite IH.
    destruct (Ascii.eqb a c); [done|]. pose proof (split_ne c s). by destruct (split c s).
Qed.
Lemma split_join_all c w ws : split c (join (String c "") (w :: ws)) = concat (split c <$> w :: ws).
Proof.
  revert w. induction ws as [|v ws IH]; intros w; [cbn; by rewrite app_nil_r|].
  rewrite join_cons, split_app, IH. done.
Qed.
(** The lines of a text. *)
Definition lines (text : string) : list string := split (ascii_of_nat 10) text.
Definition one_line (s : string) : bool := negb (contains_char (ascii_of_nat 10) s).
Lemma lines_join ws : Forall (fun w => one_line w = true) ws -> ws <> [] -> lines (join NL ws) = ws.
Proof.
  intros Hall Hne. destruct ws as [|w ws]; [done|]. apply split_join.
  eapply Forall_impl; [exact Hall|]. intros x. unfold one_line. by rewrite negb_true_iff.
Qed.
Lemma elem_of_lines_join l w ws : l ∈ lines w -> w ∈ ws -> l ∈ lines (join NL ws).
Proof.
  intros Hl Hw. destruct ws as [|v ws]; [by apply elem_of_nil in Hw|].
  unfold lines, NL. rewrite split_join_all. apply list_elem_of_In, in_concat. exists (lines w).
  split; apply list_elem_of_In; [|done]. by apply list_elem_of_fmap_2.
Qed.
Lemma one_line_app s t : one_line (s +:+ t) = one_line s && one_line t.
Proof. unfold one_line. by rewrite contains_app, negb_orb. Qed.
Lemma one_line_spaces n : one_line (spaces n) = true.
Proof. by induction n. Qed.
Lemma one_line_forall p s : p (ascii_of_nat 10) = false -> str_forall p s = true -> one_line s = true.
Proof. intros Hp Hs. unfold one_line. by rewrite (contains_char_forall _ p). Qed.
Lemma one_line_int n : one_line (str_int n) = true.
Proof.
  assert (forall m, 0 <= m -> one_line (str_nat m) = true) as Hnat.
  { intros m Hm. apply (one_line_forall is_digit); [done|by apply str_nat_digits]. }
  unfold str_int. destruct (Z.ltb_spec n 0) as [Hn|Hn]; [|by apply Hnat].
  change (one_line ("-" +:+ str_nat (- n)) = true). rewrite one_line_app. cbn [andb]. rewrite Hnat by lia. done.
Qed.

(** ** Records *)
(** What the builders make: a known type and a value without a colon. *)
Definition standard (r : DNSRecord) : Prop :=
  rc_ttl r = 300 /\ contains_char ":" (rc_type r) = false /\ contains_char ":" (rc_value r) = false.
Lemma record_key_inj r r' : standard r -> standard r' -> record_key r = record_key r' -> r = r'.
Proof.
  destruct r as [n t v l], r' as [n' t' v' l']. unfold standard, record_key. cbn. intros (-> & Ht & Hv) (-> & Ht' & Hv') H.
  assert (forall n t v, n +:+ ":" +:+ t +:+ ":" +:+ v = (n +:+ ":" +:+ t) +:+ String ":" v) as E.
  { intros. by rewrite !str_app_assoc. }
  rewrite !E in H. apply (f_equal (rsplit1 ":")) in H. rewrite !rsplit1_app in H by done. injection H as H <-.
  apply (f_equal (rsplit1 ":")) in H. change (":" +:+ t) with (String ":" t) in H. change (":" +:+ t') with (String ":" t') in H.
  rewrite !rsplit1_app in H by done. by injection H as <- <-.
Qed.
(** The lines are those of the records that are not seen yet, in their order
    and each record once. *)
Lemma record_lines_records seen records :
  Forall standard records ->
  exists rs, record_lines seen records = record_line <$> rs /\ NoDup rs /\ rs `sublist_of` records /\
    forall r, r ∈ rs <-> r ∈ records /\ record_key r ∉ seen.
Proof.
  intros Hst. revert seen. induction Hst as [|r rs Hr Hst IH]; intros seen; cbn [record_lines].
  { exists []. split_and!; [done|constructor|constructor|set_solver]. }
  destruct (mem (record_key r) seen) eqn:E.
  - apply mem_true in E. destruct (IH seen) as (l & -> & Hnd & Hsub & Hl). exists l.
    split_and!; [done..|by constructor|]. intros x. rewrite Hl. set_solver.
  - apply mem_false in E. destruct (IH (record_key r :: seen)) as (l & -> & Hnd & Hsub & Hl). exists (r :: l).
    split_and!; [done| |by constructor|].
    + constructor; [|done]. intros [_ Hk]%Hl. set_solver.
    + intros x. rewrite !elem_of_cons, Hl, not_elem_of_cons. split; [intros [->|(? & ? & ?)]; tauto|].
      intros [[->|Hx] Hk]; [by left|]. destruct (decide (record_key x = record_key r)) as [Hk'|Hk']; [|tauto].
      left. apply record_key_inj; [|done|done]. rewrite Forall_forall in Hst. by apply Hst.
Qed.
Lemma record_lines_spec seen records l :
  Forall standard records ->
  l ∈ record_lines seen records <-> exists r, r ∈ records /\ record_key r ∉ seen /\ l = record_line r.
Proof.
  intros Hst. destruct (record_lines_records seen records Hst) as (rs & -> & _ & _ & Hl).
  rewrite list_elem_of_fmap. split; [intros (r & -> & Hr%Hl)|intros (r & Hr & Hk & ->)]; exists r; [tauto|].
  split; [done|]. by apply Hl.
Qed.

(** ** Synchronising *)
Section SyncFacts.
Context `{Env} (zones_path : string) (reload_cmd : option string).
#[local] Instance core : DNSProvider CoreDNS := CoreDNSFileProvider zones_path reload_cmd.
Abbreviation path_of := (_zone_filepath zones_path).

Lemma core_ensure_run z s :
  ensure_zone z s = (Ok tt, s <| zone_files := <[path_of (z_origin z) := _format_zone z]> (zone_files s) |>).
Proof.
  change (ensure_zone z) with (core_ensure_zone zones_path z). unfold core_ensure_zone, mbind, M_bind, gets, when.
  destruct (String.eqb_spec (_format_zone z) (default "" (zone_files s !! path_of (z_origin z)))) as [Heq|]; [|done].
  cbn [negb]. unfold mret, M_ret. do 2 f_equal. destruct s as [fs rl]. unfold set_field, set_zone_files. cbn in *.
  rewrite insert_id; [done|]. destruct (fs !! _) as [text|]; cbn in Heq; [by rewrite Heq|].
  by destruct z.
Qed.

(** What the database holds for the zones of a network. *)
Definition zone_devices (w : World) (network_id : uuid) : list Device.Device :=
  List.filter (resolvable network_id) (devices (w_db w)).
Definition zone_entries (w : World) (network_id : uuid) : list DNSEntry.DNSEntry :=
  List.filter (fun e => String.eqb (DNSEntry.network_id e) network_id) (dns_entries (w_db w)).
Definition zone_records (w : World) (n : Network.Network) : list DNSRecord :=
  forward_records n (zone_devices w (Network.id n)) (zone_entries w (Network.id n)).
Definition hosts_of (records : list DNSRecord) : list DNSRecord :=
  List.filter (fun r => negb (String.eqb (rc_type r) "NS")) records.
Definition forward_zone (w : World) (n : Network.Network) (serial : Z) : ZoneData :=
  new_zone (origin_of n) (zone_records w n) serial (dns_default_ttl settings).
Definition reverse_part (n : Network.Network) (ds : list Device.Device) : M (Sync CoreDNS) unit :=
  reverse_zone ← zoom sy_world (build_reverse_zone n ds);
  put_zone reverse_zone (_reverse_zone_origin (Network.subnet n)).

Lemma sync_forward n s :
  keyed (R := Network.Network) (sy_world s) -> n ∈ networks (w_db (sy_world s)) ->
  exists w' serial, sync_network_dns (Network.id n) s =
    reverse_part n (zone_devices (sy_world s) (Network.id n)) (mkSync w' (sy_dns s <| zone_files :=
      match hosts_of (zone_records (sy_world s) n) with
      | [] => base.delete (path_of (origin_of n)) (zone_files (sy_dns s))
      | _ => <[path_of (origin_of n) := _format_zone (forward_zone (sy_world s) n serial)]> (zone_files (sy_dns s))
      end |>)).
Proof.
  intros Hk Hn. destruct s as [w p]. cbn [sy_world sy_dns] in *.
  set (s0 := mkSync w p). unfold sync_network_dns.
  rewrite (bind_ok _ _ _ _ _ (zoom_ok sy_world _ s0 _ _ (select_by_id w n Hk Hn))).
  rewrite (bind_ok _ _ _ _ _ (zoom_ok sy_world (select_where (resolvable (Network.id n))) s0 _ _ eq_refl)).
  rewrite (bind_ok _ _ _ _ _ (zoom_ok sy_world (select_where (fun e => String.eqb (DNSEntry.network_id e) (Network.id n))) s0 _ _ eq_refl)).
  assert (exists w' serial, build_network_zone n (zone_devices w (Network.id n)) (zone_entries w (Network.id n)) w =
    (Ok (match hosts_of (zone_records w n) with [] => None | _ => Some (forward_zone w n serial) end), w')) as (w' & serial & E).
  { unfold build_network_zone. fold (zone_records w n). fold (hosts_of (zone_records w n)).
    destruct (hosts_of (zone_records w n)); [by exists w, 0|]. by eexists _, _. }
  rewrite (bind_ok _ _ _ _ _ (zoom_ok sy_world _ s0 _ _ E)). exists w', serial.
  set (s1 := s0 <| sy_world := w' |>). fold (reverse_part n (zone_devices w (Network.id n))).
  destruct (hosts_of (zone_records w n)); cbn [put_zone].
  - assert (remove_zone (origin_of n) (sy_dns s1) =
      (Ok tt, p <| zone_files := base.delete (path_of (origin_of n)) (zone_files p) |>)) as Er by done.
    by rewrite (bind_ok _ _ _ _ _ (zoom_ok sy_dns _ s1 _ _ Er)).
  - by rewrite (bind_ok _ _ _ _ _ (zoom_ok sy_dns (ensure_zone _) s1 _ _ (core_ensure_run _ _))).
Qed.
(** The reverse half leaves the other files alone. *)
Definition keeps_file (q : string) (s s' : Sync CoreDNS) : Prop := zone_files (sy_dns s') !! q = zone_files (sy_dns s) !! q.
#[local] Instance keeps_file_pre q : PreOrder (keeps_file q).
Proof. split; [done|]. intros ? ? ? H1 H2. unfold keeps_file in *. congruence. Qed.
Lemma reverse_origin n ds w z w' :
  build_reverse_zone n ds w = (Ok (Some z), w') -> _reverse_zone_origin (Network.subnet n) = Some (z_origin z).
Proof.
  unfold build_reverse_zone. destruct (_reverse_zone_origin _) as [o|]; [|done].
  intros (records & w1 & _ & Hz)%bind_inv_ok. destruct records as [|r rs]; [done|].
  apply bind_inv_ok in Hz as (t & w2 & _ & Hz). by injection Hz as <- <-.
Qed.
Lemma reverse_keeps n ds q s :
  (forall o, _reverse_zone_origin (Network.subnet n) = Some o -> path_of o <> q) -> keeps_file q s (reverse_part n ds s).2.
Proof.
  intros Hq. unfold reverse_part, keeps_file. destruct s as [w p].
  destruct (build_reverse_zone n ds w) as [[[z|]|e] w'] eqn:E.
  - rewrite (bind_ok _ _ _ _ _ (zoom_ok sy_world _ (mkSync w p) _ _ E)). cbn [put_zone].
    apply reverse_origin in E. rewrite (zoom_ok sy_dns (ensure_zone _) _ _ _ (core_ensure_run _ _)). cbn.
    apply lookup_insert_ne. by apply Hq.
  - rewrite (bind_ok _ _ _ _ _ (zoom_ok sy_world _ (mkSync w p) _ _ E)).
    destruct (_reverse_zone_origin _) as [o|]; [|done]. cbn. apply lookup_delete_ne. by apply Hq.
  - unfold zoom at 1, mbind, M_bind. cbn [sy_world]. by rewrite E.
Qed.

(** ** The records of a zone *)
Lemma entry_record_shape o e r : r ∈ entry_records o e -> rc_ttl r = 300 /\ rc_type r = "A".
Proof.
  unfold entry_records. cbv zeta. destruct (_ || _); [|by intros ?%elem_of_nil]. by intros ->%list_elem_of_singleton.
Qed.
Definition plain_record (r : DNSRecord) : bool :=
  one_line (rc_name r) && one_line (rc_value r) && negb (contains_char ":" (rc_value r)).
Lemma zone_records_shape w n :
  Forall (fun r => rc_ttl r = 300 /\ (rc_type r = "A" \/ rc_type r = "NS")) (zone_records w n).
Proof.
  unfold zone_records, forward_records. cbv zeta. constructor; [split; [done|by right]|]. apply Forall_app. split.
  - apply Forall_fmap, Forall_true. intros d. by split; [|left].
  - apply Forall_forall. intros r (e & [Httl Ht]%entry_record_shape & _)%list_elem_of_bind. by split; [|left].
Qed.
Lemma zone_records_standard w n :
  forallb (fun r => negb (contains_char ":" (rc_value r))) (zone_records w n) = true -> Forall standard (zone_records w n).
Proof.
  intros Hc. pose proof (zone_records_shape w n) as Hs. rewrite Forall_forall in Hs |- *. intros r Hr.
  destruct (Hs r Hr) as [Httl Ht]. rewrite forallb_forall in Hc. apply list_elem_of_In in Hr. specialize (Hc r Hr).
  apply negb_true_iff in Hc. split_and!; [done| |done]. by destruct Ht as [->| ->].
Qed.
Lemma one_line_ljust k s : one_line (ljust k s) = one_line s.
Proof. unfold ljust. by rewrite one_line_app, one_line_spaces, andb_true_r. Qed.
Lemma one_line_rjust k s : one_line (rjust k s) = one_line s.
Proof. unfold rjust. by rewrite one_line_app, one_line_spaces. Qed.
Lemma record_one_line r :
  one_line (rc_name r) = true -> one_line (rc_value r) = true -> rc_type r = "A" \/ rc_type r = "NS" ->
  one_line (record_line r) = true.
Proof.
  intros Hn Hv Ht. unfold record_line. cbv zeta. rewrite !one_line_app, one_line_ljust, one_line_rjust, one_line_int, Hv.
  assert (one_line (if String.eqb (rc_name r) "@" then "" else rc_name r) = true) as -> by by destruct (String.eqb _ _).
  by destruct Ht as [->| ->].
Qed.
Lemma head_one_line o rs serial ttl :
  one_line o = true -> Forall (fun w => one_line w = true) (zone_head (new_zone o rs serial ttl)).
Proof.
  intros Ho. unfold zone_head, new_zone. cbn [z_origin z_ttl z_serial z_admin_email].
  repeat (constructor; [rewrite ?one_line_app, ?Ho, ?one_line_int; done|]). constructor.
Qed.
Lemma zone_lines w n serial :
  forallb plain_record (zone_records w n) = true ->
  lines (_format_zone (forward_zone w n serial)) =
  zone_head (forward_zone w n serial) ++ record_lines [] (zone_records w n) ++ [""].
Proof.
  intros Hp. pose proof (zone_records_shape w n) as Hs. rewrite forallb_forall in Hp.
  assert (one_line (origin_of n) = true) as Ho.
  { assert (In (new_record "@" "NS" ("ns1." +:+ origin_of n)) (zone_records w n)) as H1 by by left.
    apply Hp in H1. unfold plain_record in H1. cbn [rc_name rc_value new_record] in H1.
    rewrite one_line_app in H1. by destruct (one_line (origin_of n)). }
  unfold _format_zone. apply lines_join; [|done]. apply Forall_app. split; [by apply head_one_line|].
  apply Forall_app. split; [|by constructor]. apply Forall_forall. intros l Hl.
  apply record_lines_spec in Hl as (r & Hr & _ & ->).
  - rewrite Forall_forall in Hs. destruct (Hs r Hr) as [_ Ht]. apply list_elem_of_In, Hp in Hr.
    unfold plain_record in Hr. rewrite !andb_true_iff in Hr. destruct Hr as [[Hn Hv] _]. by apply record_one_line.
  - apply zone_records_standard. apply forallb_forall. intros r Hr. apply Hp in Hr. unfold plain_record in Hr.
    by apply andb_true_iff in Hr as [_ ->].
Qed.

(** ** What is in the zone of a network after it was synchronised *)
Definition files_after (n : Network.Network) (s : Sync CoreDNS) : gmap string string :=
  zone_files (sy_dns (sync_network_dns (Network.id n) s).2).
(** The files of the two zones differ. *)
Definition zones_apart (n : Network.Network) : Prop :=
  forall o, _reverse_zone_origin (Network.subnet n) = Some o -> path_of o <> path_of (origin_of n).
Lemma forward_file n s :
  keyed (R := Network.Network) (sy_world s) -> n ∈ networks (w_db (sy_world s)) -> zones_apart n ->
  exists serial, files_after n s !! path_of (origin_of n) =
    match hosts_of (zone_records (sy_world s) n) with
    | [] => None
    | _ => Some (_format_zone (forward_zone (sy_world s) n serial))
    end.
Proof.
  intros Hk Hn Hap. destruct (sync_forward n s Hk Hn) as (w' & serial & E). exists serial.
  unfold files_after. rewrite E. rewrite (reverse_keeps n _ _ _ Hap). cbn [sy_dns].
  destruct (hosts_of _); cbn; [apply lookup_delete_eq|apply lookup_insert_eq].
Qed.
(** A record the zone is to hold. *)
Definition wanted_record (w : World) (n : Network.Network) (r : DNSRecord) : Prop :=
  (exists d, d ∈ devices (w_db w) /\ Device.network_id d = Network.id n /\ Device.is_active d = true /\
     opt_truthy (Device.ip_address d) = true /\ r = device_record d) \/
  (exists e, e ∈ dns_entries (w_db w) /\ DNSEntry.network_id e = Network.id n /\ r ∈ entry_records (origin_of n) e).
Lemma elem_of_zone_records w n r :
  r ∈ zone_records w n <-> r = new_record "@" "NS" ("ns1." +:+ origin_of n) \/ wanted_record w n r.
Proof.
  unfold zone_records, forward_records, wanted_record. cbv zeta.
  rewrite elem_of_cons, elem_of_app, list_elem_of_fmap, list_elem_of_bind. apply or_iff_compat_l.
  split; (intros [(d & H1 & H2)|(e & H1 & H2)]; [left|right]).
  - apply elem_of_filter_list in H2 as [Ha [Hr Hd]%elem_of_filter_list].
    unfold resolvable, named_device in *. rewrite !andb_true_iff in *. exists d.
    by destruct Hr as [[Hr%String.eqb_eq ?] ?], Ha.
  - apply elem_of_filter_list in H2 as [Hr%String.eqb_eq H2]. by exists e.
  - destruct H2 as (Hnet & Hact & Hip & ->). exists d. split; [done|].
    apply elem_of_filter_list. split; [unfold named_device; by rewrite Hip|].
    apply elem_of_filter_list. split; [|done]. unfold resolvable. rewrite Hnet, String.eqb_refl, Hact.
    apply bool_decide_eq_true. by destruct (Device.ip_address d).
  - destruct H2 as [Hnet Hr]. exists e. split; [done|]. apply elem_of_filter_list. by rewrite Hnet, String.eqb_refl.
Qed.

Lemma wanted_type w n r : wanted_record w n r -> rc_type r = "A".
Proof. intros [(d & _ & _ & _ & _ & ->)|(e & _ & _ & [_ He]%entry_record_shape)]; done. Qed.
Lemma hosts_wanted w n : hosts_of (zone_records w n) = [] <-> forall r, ~ wanted_record w n r.
Proof.
  split.
  - intros Hh r Hr. pose proof (wanted_type w n r Hr) as Ht.
    assert (r ∈ hosts_of (zone_records w n)) as Hin; [|rewrite Hh in Hin; by apply elem_of_nil in Hin].
    apply elem_of_filter_list. split; [by rewrite Ht|]. apply elem_of_zone_records. by right.
  - intros Hno. destruct (hosts_of _) as [|r rs] eqn:E; [done|]. exfalso.
    assert (r ∈ hosts_of (zone_records w n)) as Hin by (rewrite E; by left).
    apply elem_of_filter_list in Hin as [Ht Hz]. apply elem_of_zone_records in Hz as [->|Hz]; [done|by apply (Hno r)].
Qed.

(** ** Entries that are more than a name *)
Lemma rstrip_char_none c s : contains_char c s = false -> rstrip_char c s = s.
Proof.
  induction s as [|a s IH]; [done|]. cbn [contains_char]. intros [Ha Hs]%orb_false_iff.
  rewrite rstrip_char_cons, IH, Ha by done. by destruct s.
Qed.
Lemma endswith_none c o s : contains_char c s = false -> endswith (String c o) s = false.
Proof.
  induction s as [|a s IH]; [done|]. cbn [contains_char]. intros [Ha Hs]%orb_false_iff. cbn [endswith].
  rewrite IH, orb_false_r by done. apply String.eqb_neq. intros [= -> _]. by rewrite Ascii.eqb_refl in Ha.
Qed.
Lemma undotted_entry o e :
  contains_char "." (DNSEntry.domain e) = false -> truthy (DNSEntry.domain e) = true ->
  entry_records o e = [new_record (DNSEntry.domain e) "A" (DNSEntry.address e)].
Proof.
  intros Hd Ht. unfold entry_records. cbv zeta. rewrite rstrip_char_none by done.
  change ("." +:+ o) with (String "." o). by rewrite endswith_none, Hd, Ht.
Qed.
Lemma inner_line a l b rest : one_line l = true -> l ∈ lines ((a +:+ NL +:+ l +:+ NL +:+ b) +:+ rest).
Proof.
  intros Hl. unfold lines, NL. rewrite !str_app_assoc.
  change (String (ascii_of_nat 10) "" +:+ l +:+ String (ascii_of_nat 10) "" +:+ b +:+ rest)
    with (String (ascii_of_nat 10) (l +:+ String (ascii_of_nat 10) (b +:+ rest))).
  rewrite split_app, split_app_sep by (by apply negb_true_iff). set_solver.
Qed.

(** * Properties *)

(** C16. What the zone file of a network says after it was synchronised,
    whatever it said before: nothing when no active device has an address and no
    entry belongs to the zone; otherwise the head, then the lines of a list of
    records, each record once, which are the record of the name server, those of
    the active devices with an address and those of the entries of the zone.
    This holds for networks whose reverse zone has another file ([zones_apart])
    and for records that are one line each, with a value without a colon
    ([plain_record]); [dns_entry_injects_line] shows what another record does. *)
Theorem zone_published n s :
  keyed (R := Network.Network) (sy_world s) -> n ∈ networks (w_db (sy_world s)) -> zones_apart n ->
  forallb plain_record (zone_records (sy_world s) n) = true ->
  ((forall r, ~ wanted_record (sy_world s) n r) -> files_after n s !! path_of (origin_of n) = None) /\
  ((exists r, wanted_record (sy_world s) n r) ->
   exists text serial records, files_after n s !! path_of (origin_of n) = Some text /\
     lines text = zone_head (forward_zone (sy_world s) n serial) ++ (record_line <$> records) ++ [""] /\
     NoDup records /\ records `sublist_of` zone_records (sy_world s) n /\
     forall r, r ∈ records <->
       r = new_record "@" "NS" ("ns1." +:+ origin_of n) \/ wanted_record (sy_world s) n r).
Proof.
  intros Hk Hn Hap Hp. destruct (forward_file n s Hk Hn Hap) as (serial & ->).
  split.
  - intros Hno. by apply hosts_wanted in Hno as ->.
  - intros [r Hr]. destruct (hosts_of _) as [|h hs] eqn:Eh; [by apply (proj1 (hosts_wanted _ n) Eh) in Hr|].
    destruct (record_lines_records [] (zone_records (sy_world s) n)) as (rs & Hrs & Hnd & Hsub & Hin).
    + apply zone_records_standard, forallb_forall. rewrite forallb_forall in Hp. intros x Hx. apply Hp in Hx.
      unfold plain_record in Hx. by apply andb_true_iff in Hx as [_ ->].
    + eexists _, serial, rs. split; [done|]. split_and!; [by rewrite zone_lines, Hrs|done..|].
      intros x. rewrite Hin, elem_of_zone_records. set_solver.
Qed.

(** Nothing stops a DNS entry from being more than a name: an entry without a
    dot whose domain holds line breaks is put into the zone file as it is, so
    that any line of its owner's choice is a line of the zone file. *)
Theorem dns_entry_injects_line n s e a line b :
  keyed (R := Network.Network) (sy_world s) -> n ∈ networks (w_db (sy_world s)) -> zones_apart n ->
  forallb (fun r => negb (contains_char ":" (rc_value r))) (zone_records (sy_world s) n) = true ->
  e ∈ dns_entries (w_db (sy_world s)) -> DNSEntry.network_id e = Network.id n ->
  DNSEntry.domain e = a +:+ NL +:+ line +:+ NL +:+ b -> contains_char "." (DNSEntry.domain e) = false ->
  one_line line = true ->
  exists text, files_after n s !! path_of (origin_of n) = Some text /\ line ∈ lines text.
Proof.
  intros Hk Hn Hap Hp He Hnet Hd Hdot Hl. destruct (forward_file n s Hk Hn Hap) as (serial & ->).
  assert (truthy (DNSEntry.domain e) = true) as Ht by (rewrite Hd; by destruct a).
  set (r := new_record (DNSEntry.domain e) "A" (DNSEntry.address e)).
  assert (r ∈ zone_records (sy_world s) n) as Hr.
  { apply elem_of_zone_records. right; right. exists e. rewrite undotted_entry by done. set_solver. }
  destruct (hosts_of _) as [|h hs] eqn:Eh.
  - exfalso. apply (proj1 (hosts_wanted _ n) Eh r). by apply elem_of_zone_records in Hr as [|].
  - eexists. split; [done|]. unfold _format_zone. apply (elem_of_lines_join line (record_line r)).
    + unfold record_line, ljust. cbv zeta. unfold r. cbn [rc_name new_record].
      assert (String.eqb (DNSEntry.domain e) "@" = false) as ->.
      { apply String.eqb_neq. rewrite Hd. intros Heq. apply (f_equal (contains_char (ascii_of_nat 10))) in Heq.
        rewrite !contains_app in Heq. change (contains_char (ascii_of_nat 10) NL) with true in Heq.
        by rewrite orb_true_r in Heq. }
      rewrite Hd, str_app_assoc. by apply inner_line.
    + apply elem_of_app. right. apply elem_of_app. left. apply record_lines_spec; [by apply zone_records_standard|].
      exists r. split_and!; [exact Hr|set_solver|done].
Qed.
End SyncFacts.

(** A sanitised name is always a host label: it is not empty, it has lower
    letters, digits and single inner dashes only; and a label is left as it
    is. *)
Theorem sanitised_names_are_labels name :
  is_label (sanitize_dns_name name) = true /\
  sanitize_dns_name (sanitize_dns_name name) = sanitize_dns_name name.
Proof. split; [apply sanitize_is_label|apply sanitize_label_id, sanitize_is_label]. Qed.

(** * Witnesses *)
Definition demo_entry (domain : string) : DNSEntry.DNSEntry := DNSEntry.mk "e1" "net-1" domain "192.0.2.9" 0.
Definition demo_sync (domain : string) : Sync CoreDNS :=
  mkSync (world_of (demo_db <| dns_entries := [demo_entry domain] |>)) (mkCoreDNS ∅ []).
Definition demo_network : Network.Network := Network.mk "net-1" "lab" "10.0.0.0/24" None None (Some "mesh") None 0.
Lemma demo_keyed domain : keyed (R := Network.Network) (sy_world (demo_sync domain)).
Proof. apply NoDup_singleton. Qed.
Lemma demo_apart : zones_apart "/zones" demo_network.
Proof. intros o [= <-]. by vm_compute. Qed.
(** An entry that repeats the record of a device gives no second line. *)
Definition repeated_sync : Sync CoreDNS :=
  mkSync (world_of (demo_db <| dns_entries :=
    [DNSEntry.mk "e1" "net-1" "alice" "10.0.0.2" 0; demo_entry "wiki"; demo_entry "wiki"] |>)) (mkCoreDNS ∅ []).
Lemma zone_published_witness :
  exists text serial records,
    files_after "/zones" None demo_network repeated_sync !! _zone_filepath "/zones" (origin_of demo_network) = Some text /\
    lines text = zone_head (forward_zone (sy_world repeated_sync) demo_network serial) ++ (record_line <$> records) ++ [""] /\
    NoDup records /\ new_record "alice" "A" "10.0.0.2" ∈ records.
Proof.
  destruct (zone_published "/zones" None demo_network repeated_sync) as [_ H].
  - apply NoDup_singleton.
  - by left.
  - apply demo_apart.
  - reflexivity.
  - assert (wanted_record (sy_world repeated_sync) demo_network (device_record demo_alice)) as Ha.
    { left. exists demo_alice. split_and!; try done. right. by left. }
    destruct H as (text & serial & records & Ht & Hl & Hnd & _ & Hb); [by eexists|].
    exists text, serial, records. split_and!; try done. apply Hb. right. exact Ha.
Defined.
Lemma dns_entry_injects_line_witness :
  exists text, files_after "/zones" None demo_network (demo_sync ("x" +:+ NL +:+ "$ORIGIN com" +:+ NL +:+ "y"))
    !! _zone_filepath "/zones" (origin_of demo_network) = Some text /\ "$ORIGIN com" ∈ lines text.
Proof.
  apply (dns_entry_injects_line "/zones" None demo_network (demo_sync ("x" +:+ NL +:+ "$ORIGIN com" +:+ NL +:+ "y"))
    (demo_entry ("x" +:+ NL +:+ "$ORIGIN com" +:+ NL +:+ "y")) "x" "$ORIGIN com" "y").
  - apply demo_keyed.
  - by left.
  - apply demo_apart.
  - reflexivity.
  - by left.
  - reflexivity.
  - reflexivity.
  - reflexivity.
  - reflexivity.
Defined.
Example sanitize_ex : sanitize_dns_name "--Bob's  _Laptop_!" = "bob-s-laptop".
Proof. reflexivity. Qed.
Example reverse_ex : _reverse_zone_origin "10.1.16.0/20" = Some "1.10.in-addr.arpa" /\
  _reverse_record_name "10.1.17.5" "10.1.16.0/20" = Ok "5.17".
Proof. split; reflexivity. Qed.
(** Neighbouring networks share one reverse zone, of which the later keeps
    the file. *)
Example reverse_shared : _reverse_zone_origin "10.1.16.0/20" = _reverse_zone_origin "10.1.32.0/20".
Proof. reflexivity. Qed.
Example serial_ex : serial_at (1709210096 * US) = 20240229123456.
Proof. reflexivity. Qed.
Example zone_path_ex : _zone_filepath "/zones" (origin_of demo_network) = "/zones/lab-wg-midscale.zone".
Proof. reflexivity. Qed.
