(* ===== verification/ControllerLoop.v ===== *)
(** The background task of the server's WireGuard controller
    ([backend/app/services/wg_controller.py]): a pass over all interfaces,
    the zones, the stale sweep, and the loop around them.

    The adapter and the DNS provider are any that keep their interfaces
    ([WireGuardAdapter], [DNSProvider]); their calls return or raise, though the
    one that runs [wg] waits for it without a timeout.  A turn of the loop is what happens
    between two sleeps; [stop] cancels the task in one of them. *)
From S2P Require Import Prelude PyStr Json Models Effects IPv4 ConfigV2 WgAdapter Controller Dns.
Local Open Scope string_scope.
Local Open Scope list_scope.
Local Open Scope Z_scope.

(** * State *)
Record WireGuardController (S P : Type) := mkController {
  wc_ctl : Ctl S;                            (* the session and the adapter *)
  wc_dns : P;
  wc_task : bool;                            (* is there a task? *)
  _running : bool;
  _last_run : option Z;
  _last_results : list ReconciliationResult;
  _cycle_count : Z;
  wc_slept : list Z                          (* seconds slept, oldest first *)
}.
Arguments mkController {S P}.
Arguments wc_ctl {S P}.
Arguments wc_dns {S P}.
Arguments wc_task {S P}.
Arguments _running {S P}.
Arguments _last_run {S P}.
Arguments _last_results {S P}.
Arguments _cycle_count {S P}.
Arguments wc_slept {S P}.
Section Fields.
Context {S P : Type}.
#[export] Instance set_wc_ctl : SetField (@wc_ctl S P) :=
  fun v r => mkController v (wc_dns r) (wc_task r) (_running r) (_last_run r) (_last_results r) (_cycle_count r) (wc_slept r).
#[export] Instance set_wc_dns : SetField (@wc_dns S P) :=
  fun v r => mkController (wc_ctl r) v (wc_task r) (_running r) (_last_run r) (_last_results r) (_cycle_count r) (wc_slept r).
#[export] Instance set_wc_task : SetField (@wc_task S P) :=
  fun v r => mkController (wc_ctl r) (wc_dns r) v (_running r) (_last_run r) (_last_results r) (_cycle_count r) (wc_slept r).
#[export] Instance set_running : SetField (@_running S P) :=
  fun v r => mkController (wc_ctl r) (wc_dns r) (wc_task r) v (_last_run r) (_last_results r) (_cycle_count r) (wc_slept r).
#[export] Instance set_last_run : SetField (@_last_run S P) :=
  fun v r => mkController (wc_ctl r) (wc_dns r) (wc_task r) (_running r) v (_last_results r) (_cycle_count r) (wc_slept r).
#[export] Instance set_last_results : SetField (@_last_results S P) :=
  fun v r => mkController (wc_ctl r) (wc_dns r) (wc_task r) (_running r) (_last_run r) v (_cycle_count r) (wc_slept r).
#[export] Instance set_cycle_count : SetField (@_cycle_count S P) :=
  fun v r => mkController (wc_ctl r) (wc_dns r) (wc_task r) (_running r) (_last_run r) (_last_results r) v (wc_slept r).
#[export] Instance set_wc_slept : SetField (@wc_slept S P) :=
  fun v r => mkController (wc_ctl r) (wc_dns r) (wc_task r) (_running r) (_last_run r) (_last_results r) (_cycle_count r) v.
End Fields.
Definition new_controller {S P} (ctl : Ctl S) (dns : P) : WireGuardController S P :=
  mkController ctl dns false false None [] 0 [].

(** What the constructor takes when it is given neither adapter nor
    provider; a [probe] says how running [wg version] ends. *)
Inductive provider_choice := NoopProvider | FileProvider (zones_path : string) (reload_cmd : option string).
Definition _create_dns_provider `{Env} : provider_choice :=
  if negb (setting_dns_enabled settings) then NoopProvider
  else FileProvider (dns_zones_path settings)
    (let cmd := dns_coredns_reload_cmd settings in if truthy cmd then Some cmd else None).
Inductive adapter_choice := CliAdapter | MockAdapter.
Inductive probe := Ran | NotFound | TimedOut | Failed (e : exn).
Definition _create_adapter (p : probe) : outcome adapter_choice :=
  match p with
  | Ran => Ok CliAdapter
  | NotFound | TimedOut => Ok MockAdapter
  | Failed e => Raise e
  end.

Section Loop.
Context `{Env} {S P : Type} `{WireGuardAdapter S} `{DNSProvider P}.
Context (event_bus : bool) (elapsed_ms : nat -> nat -> string) (interval : Z).
Abbreviation C := (M (WireGuardController S P)).

Definition _CLEANUP_INTERVAL_CYCLES : Z := 120.
Definition on_world {A} (m : IO A) : C A := zoom wc_ctl (io m).
(** A call on the session and the DNS provider. *)
Definition on_sync {A} (m : M (Sync P) A) : C A := fun c =>
  let '(r, s) := m (mkSync (c_world (wc_ctl c)) (wc_dns c)) in
  (r, c <| wc_ctl := mkCtl (sy_world s) (c_adapter (wc_ctl c)) (c_result (wc_ctl c)) |> <| wc_dns := sy_dns s |>).

Definition start : C unit :=
  running ← gets _running;
  if (running : bool) then mret tt else modify (fun c => c <| _running := true |> <| wc_task := true |>).
Definition stop : C unit := modify (fun c => c <| _running := false |> <| wc_task := false |>).

Definition _sync_dns : C unit :=
  if negb (setting_dns_enabled settings) then mret tt else
  networks ← on_world (select_where (R := Network.Network) (fun _ => true));
  for_each networks (fun n =>
    try_except (on_sync (sync_network_dns (Network.id n))) (fun _ => mret tt));;
  when (event_bus && negb (bool_decide (networks = [])))
    (on_world (publish EVENT_DNS_UPDATED [("networks_synced", JInt (len_list networks))])).

Definition reconcile_one (interface : string) : C unit :=
  result ← zoom wc_ctl (_reconcile_interface event_bus elapsed_ms interface);
  modify (fun c => c <| _last_results := _last_results c ++ [result] |>);;
  on_world (_publish_peer_sync_event event_bus result).
(** The body of [async with self._session_factory() as session]. *)
Definition reconcile_session : C unit :=
  on_world rollback;;
  interfaces ← on_world _get_managed_interfaces;
  for_each (set_order (elements interfaces)) reconcile_one;;
  _sync_dns;;
  modify (fun c => c <| _cycle_count := _cycle_count c + 1 |>);;
  cycles ← gets _cycle_count;
  when (_CLEANUP_INTERVAL_CYCLES <=? cycles)
    (on_world _cleanup_stale_peers;; modify (fun c => c <| _cycle_count := 0 |>)).
Definition _reconcile_all : C unit :=
  try_except (
    try_finally reconcile_session (fun c => (on_world rollback c).2);;
    when (setting_dns_enabled settings) (zoom wc_dns reload_zones))
  (fun _ => mret tt).
Definition reconcile_all_now : C (list ReconciliationResult) :=
  modify (fun c => c <| _last_results := [] |>);;
  _reconcile_all;;
  gets _last_results.

Definition max_backoff : Z := 300.
Definition sleep (n : Z) : C unit := modify (fun c => c <| wc_slept := wc_slept c ++ [n] |>).
(** [turns] turns of the loop. *)
Fixpoint _run_loop (turns : nat) (backoff : Z) : C unit :=
  match turns with
  | O => mret tt
  | Datatypes.S turns =>
    running ← gets _running;
    if negb running then mret tt else
    raised ← try_except (_reconcile_all;; mret false) (fun _ => mret true);
    if (raised : bool) then sleep backoff;; _run_loop turns (Z.min (backoff * 2) max_backoff)
    else
      t ← on_world now;
      modify (fun c => c <| _last_run := Some t |>);;
      sleep interval;;
      _run_loop turns 1
  end.
End Loop.

(** * Facts *)
Section Facts.
Context `{Env} {S P : Type} `{WireGuardAdapter S} `{DNSProvider P}.
Context (event_bus : bool) (elapsed_ms : nat -> nat -> string) (interval : Z).
Abbreviation Ctrl := (WireGuardController S P).
Abbreviation world_at c := (c_world (wc_ctl c)).

(** A pass commits nothing, drops no result and leaves the loop's own state
    alone. *)
Definition passes (c c' : Ctrl) : Prop :=
  uncommitted (world_at c) (world_at c') /\ _last_results c `prefix_of` _last_results c' /\
  _running c' = _running c /\ wc_slept c' = wc_slept c.
#[local] Instance passes_pre : PreOrder passes.
Proof.
  unfold passes. split; [by intros c|]. intros c1 c2 c3 (? & ? & ? & ?) (? & ? & ? & ?).
  split_and!; [by etrans|by etrans|congruence|congruence].
Qed.
#[local] Instance passes_zoom_ctl {A} (m : M (Ctl S) A) : Frame ctl_uncommitted m -> Frame passes (zoom wc_ctl m).
Proof. intros Hm c. by split; [apply (Hm (wc_ctl c))|]. Qed.
#[local] Instance passes_on_world {A} (m : IO A) : Frame uncommitted m -> Frame passes (on_world m).
Proof.
  intros Hm c. split; [|done]. unfold on_world, zoom, io. cbn. specialize (Hm (world_at c)). by destruct (m (world_at c)).
Qed.
#[local] Instance passes_zoom_dns {A} (m : M P A) : Frame passes (zoom wc_dns m).
Proof. by intros c. Qed.
(** The zones are built from what the session reads. *)
Definition sync_uncommitted (s s' : Sync P) : Prop := uncommitted (sy_world s) (sy_world s').
#[local] Instance sync_uncommitted_pre : PreOrder sync_uncommitted.
Proof. unfold sync_uncommitted. split; [by intros c|]. intros c1 c2 c3. by etrans. Qed.
#[local] Instance sync_zoom_world {A} (m : IO A) : Frame uncommitted m -> Frame sync_uncommitted (zoom sy_world m).
Proof. intros Hm s. apply (Hm (sy_world s)). Qed.
#[local] Instance sync_zoom_dns {A} (m : M P A) : Frame sync_uncommitted (zoom sy_dns m).
Proof. by intros s. Qed.
Lemma put_zone_uncommitted z o : Frame sync_uncommitted (put_zone z o).
Proof. unfold put_zone. destruct z, o; apply _. Qed.
Lemma forward_uncommitted n ds es : Frame uncommitted (build_network_zone n ds es).
Proof. unfold build_network_zone, now. destruct (List.filter _ _); apply _. Qed.
Lemma reverse_uncommitted n ds : Frame uncommitted (build_reverse_zone n ds).
Proof.
  unfold build_reverse_zone, now. apply frame_option; [|apply _]. intros o. apply frame_bind; [apply _|apply _|].
  intros []; apply _.
Qed.
Lemma sync_network_uncommitted i : Frame sync_uncommitted (sync_network_dns (P := P) i).
Proof.
  unfold sync_network_dns. pose proof put_zone_uncommitted. pose proof forward_uncommitted. pose proof reverse_uncommitted.
  apply _.
Qed.
#[local] Instance passes_on_sync {A} (m : M (Sync P) A) : Frame sync_uncommitted m -> Frame passes (on_sync m).
Proof.
  intros Hm c. unfold on_sync. specialize (Hm (mkSync (world_at c) (wc_dns c))).
  destruct (m _) as [r s]. by split.
Qed.

#[local] Instance passes_modify f :
  (forall c : Ctrl, passes c (f c)) -> Frame passes (modify f).
Proof. apply frame_modify. Qed.
Lemma passes_reconcile_one i : Frame passes (reconcile_one event_bus elapsed_ms i).
Proof.
  unfold reconcile_one, _publish_peer_sync_event. pose proof reconcile_uncommitted.
  apply frame_bind; [apply _|apply _|]. intros r. apply frame_bind; [apply _| |intros _; apply _].
  apply frame_modify. intros c. split_and!; [done|by apply prefix_app_r|done|done].
Qed.
Lemma passes_sync_dns : Frame passes (_sync_dns event_bus).
Proof. unfold _sync_dns. pose proof sync_network_uncommitted. apply _. Qed.
Lemma cleanup_uncommitted : Frame uncommitted _cleanup_stale_peers.
Proof. unfold _cleanup_stale_peers, now. apply _. Qed.
Lemma passes_session : Frame passes (reconcile_session event_bus elapsed_ms).
Proof.
  unfold reconcile_session, _get_managed_interfaces. pose proof passes_reconcile_one. pose proof passes_sync_dns.
  pose proof cleanup_uncommitted.
  apply frame_bind; [apply _|apply _|intros _]. apply frame_bind; [apply _| |intros interfaces].
  { apply passes_on_world. apply frame_bind; [apply _|apply _|]. intros []; apply _. }
  apply frame_bind; [apply _|apply _|intros _]. apply frame_bind; [apply _|apply _|intros _].
  apply frame_bind; [apply _|by apply frame_modify|intros _]. apply frame_bind; [apply _|apply _|intros cycles].
  apply frame_when; [apply _|]. apply frame_bind; [apply _|apply _|intros _]. by apply frame_modify.
Qed.
Lemma passes_rollback (c : Ctrl) : passes c (on_world rollback c).2.
Proof. apply (passes_on_world rollback _ c). Qed.
Lemma passes_reconcile_all : Frame passes (_reconcile_all event_bus elapsed_ms).
Proof.
  unfold _reconcile_all. apply frame_try; [apply _| |intros e; apply _]. apply frame_bind; [apply _| |intros _; apply _].
  intros c. unfold try_finally. pose proof (passes_session c) as Hs. destruct (reconcile_session _ _ c) as [r c1].
  etrans; [exact Hs|apply passes_rollback].
Qed.
(** When the session is closed, what it changed is gone. *)
Lemma reconcile_all_drops c :
  let c' := (_reconcile_all event_bus elapsed_ms c).2 in w_db (world_at c') = w_committed (world_at c').
Proof.
  cbv zeta. unfold _reconcile_all, try_except, try_finally, mbind, M_bind.
  destruct (reconcile_session event_bus elapsed_ms c) as [[u|e] c1]; [|done].
  cbn [fst snd]. set (c2 := (on_world rollback c1).2). assert (w_db (world_at c2) = w_committed (world_at c2)) as H2 by done.
  clearbody c2. unfold when. destruct (setting_dns_enabled settings); [|done]. unfold zoom.
  destruct (reload_zones (wc_dns c2)) as [[v|e] p]; exact H2.
Qed.

(** One turn. *)
Lemma turn_run turns backoff c :
  _running c = true ->
  exists c1 t, passes c c1 /\ w_db (world_at c1) = w_committed (world_at c1) /\
    _run_loop event_bus elapsed_ms interval (Datatypes.S turns) backoff c =
    _run_loop event_bus elapsed_ms interval turns 1
      (c1 <| _last_run := Some t |> <| wc_slept := wc_slept c ++ [interval] |>).
Proof.
  intros Hr. set (c0 := (_reconcile_all event_bus elapsed_ms c).2).
  exists (on_world now c0).2, (clock (w_tick (world_at c0))).
  pose proof (passes_reconcile_all c) as Hp. fold c0 in Hp.
  assert (passes c0 (on_world now c0).2) as Hn by (unfold now; apply (passes_on_world _ _ c0)).
  split_and!; [by etrans|exact (reconcile_all_drops c)|].
  cbn [_run_loop]. unfold gets at 1, mbind at 1, M_bind at 1. rewrite Hr. cbn [negb].
  rewrite (bind_ok _ _ c false c0).
  - rewrite (bind_ok (on_world now) _ c0 (clock (w_tick (world_at c0))) (on_world now c0).2) by done.
    assert (wc_slept c = wc_slept (on_world now c0).2) as -> by (destruct Hp as (_ & _ & _ & <-); done). done.
  - unfold try_except. rewrite (bind_ok _ _ c tt c0); [done|]. unfold c0.
    pose proof (try_ignore_ok (try_finally (reconcile_session event_bus elapsed_ms) (fun c => (on_world rollback c).2);;
      when (setting_dns_enabled settings) (zoom wc_dns reload_zones)) c) as Hok.
    fold (_reconcile_all (S := S) (P := P) event_bus elapsed_ms) in Hok. by destruct (_reconcile_all _ _ c) as [r ?]; cbn in *; subst.
Qed.

(** All turns. *)
Lemma loop_run turns c :
  _running c = true ->
  exists c', _run_loop event_bus elapsed_ms interval turns 1 c = (Ok tt, c') /\
    w_committed (world_at c') = w_committed (world_at c) /\ _last_results c `prefix_of` _last_results c' /\
    wc_slept c' = wc_slept c ++ replicate turns interval /\
    ((0 < turns)%nat -> w_db (world_at c') = w_committed (world_at c') /\ is_Some (_last_run c')).
Proof.
  revert c. induction turns as [|turns IH]; intros c Hr.
  - exists c. rewrite app_nil_r. by split_and!; [| | | |lia].
  - destruct (turn_run turns 1 c Hr) as (c1 & t & (Hu & Hres & Hrun & Hsl) & Hdb & ->).
    set (c2 := c1 <| _last_run := Some t |> <| wc_slept := wc_slept c ++ [interval] |>).
    assert (_running c2 = true) as Hr2 by by rewrite <-Hr, <-Hrun.
    destruct turns as [|turns].
    + exists c2. split_and!; [done|exact Hu|exact Hres|done|]. intros _. by split; [exact Hdb|eexists].
    + destruct (IH c2 Hr2) as (c' & -> & Hc & Hp & Hs & Hlast). exists c'. split; [done|].
      split; [rewrite Hc; exact Hu|]. split; [by etrans|]. split; [rewrite Hs; cbn; by rewrite <-app_assoc|].
      intros _. apply Hlast. lia.
Qed.
End Facts.

(** * Properties *)

(** No exception stops the loop of the controller: as long as the calls of the
    adapter, the provider and the database return or raise, every turn returns,
    the next one comes one interval later (the back-off for errors is never
    used, since a pass catches them all), the time of the last run is set, and
    no earlier result is dropped.  A call that never returns is outside the
    model: a [wg] that hangs stops the loop. *)
Theorem controller_keeps_time `{Env} {S P} `{WireGuardAdapter S} `{DNSProvider P} event_bus elapsed_ms interval turns
    (c : WireGuardController S P) :
  exists c', _run_loop event_bus elapsed_ms interval turns 1 (start c).2 = (Ok tt, c') /\
    wc_slept c' = wc_slept c ++ replicate turns interval /\
    _last_results c `prefix_of` _last_results c' /\
    ((0 < turns)%nat -> is_Some (_last_run c')).
Proof.
  assert (_running (start c).2 = true /\ wc_slept (start c).2 = wc_slept c /\ _last_results (start c).2 = _last_results c)
    as (Hr & Hs & Hl).
  { unfold start, mbind, M_bind, gets. by destruct (_running c) eqn:E. }
  destruct (loop_run event_bus elapsed_ms interval turns _ Hr) as (c' & Hrun & _ & Hp & Hsl & Hlast).
  rewrite Hs in Hsl. rewrite Hl in Hp. exists c'. split_and!; [done|done|done|]. intros Ht. by apply Hlast.
Qed.

(** Nothing the controller finds out is stored: whatever number of turns it
    makes, the database is what it was committed before, so neither the
    handshakes nor the devices its sweep takes for stale are ever written. *)
Theorem controller_stores_nothing `{Env} {S P} `{WireGuardAdapter S} `{DNSProvider P} event_bus elapsed_ms interval turns
    (c : WireGuardController S P) :
  _running c = true -> (0 < turns)%nat ->
  let c' := (_run_loop event_bus elapsed_ms interval turns 1 c).2 in
  w_committed (c_world (wc_ctl c')) = w_committed (c_world (wc_ctl c)) /\
  w_db (c_world (wc_ctl c')) = w_committed (c_world (wc_ctl c)).
Proof.
  intros Hr Ht. destruct (loop_run event_bus elapsed_ms interval turns c Hr) as (c' & -> & Hc & _ & _ & Hlast).
  destruct (Hlast Ht) as [Hdb _]. cbn. split; [done|congruence].
Qed.

(** * Witnesses *)
(** The sweep of the 120th turn finds a device that was never seen, and the
    device stays active. *)
Definition dusty : World := world_of (demo_db <| devices :=
  [Device.mk "d" "old" None "net-1" (Some "pk-d") (Some "enc:sk") (Some "10.0.0.9") true true true
     None None "active" None None None (Some []) None None (- days 30) 0] |>).
#[local] Instance demo_provider : DNSProvider unit := NoopDNSProvider.
Lemma controller_stores_nothing_witness :
  devices (w_db (_cleanup_stale_peers dusty).2) <> devices (w_db dusty) /\
  devices (w_db (c_world (wc_ctl (_run_loop (S := WgMock) (P := unit) true (fun _ _ => "0.1") 30 121 1
    ((start (new_controller (mkCtl dusty demo_mock (new_result "")) tt)).2)).2))) = devices (w_db dusty).
Proof.
  split; [by vm_compute|].
  pose proof (controller_stores_nothing (S := WgMock) (P := unit) true (fun _ _ => "0.1") 30 121
    (start (new_controller (mkCtl dusty demo_mock (new_result "")) tt)).2 eq_refl ltac:(lia)) as H.
  cbv zeta in H. by rewrite (proj2 H).
Defined.
