(* ===== verification/Uuid.v ===== *)
(** [uuid.UUID(text)]: a UUID is its canonical text. *)
From Stdlib Require Import Ascii.
From S2P Require Import Prelude PyStr Bytes Json IPv6 Models.
Local Open Scope string_scope.
Local Open Scope list_scope.
Local Open Scope Z_scope.

(** [s.replace(p, "")] for a non-empty [p]; [skip] counts the characters of a
    match still to drop. *)
Fixpoint remove_from (p : string) (skip : nat) (s : string) : string :=
  match s with
  | EmptyString => EmptyString
  | String c t =>
    match skip with
    | S k => remove_from p k t
    | O => if startswith p s then remove_from p (String.length p - 1) t else String c (remove_from p 0 t)
    end
  end.
Definition remove_str (p s : string) : string := remove_from p 0 s.

(** [s.strip("{}")] *)
Definition is_brace (c : ascii) : bool := Ascii.eqb c "{" || Ascii.eqb c "}".
Fixpoint lstrip_braces (s : string) : string :=
  match s with String c t => if is_brace c then lstrip_braces t else s | EmptyString => "" end.
Fixpoint rstrip_braces (s : string) : string :=
  match s with
  | EmptyString => ""
  | String c t => match rstrip_braces t with
                  | EmptyString => if is_brace c then "" else String c ""
                  | t' => String c t'
                  end
  end.

(** [int(s, 16)]: white space around, a sign, a prefix 0x, and single
    underscores between digits (or after the prefix) are allowed. *)
Fixpoint hex_digits (may_underscore : bool) (acc : Z) (s : string) : option Z :=
  match s with
  | EmptyString => if may_underscore then Some acc else None
  | String c t =>
    if Ascii.eqb c "_" then if may_underscore then hex_digits false acc t else None
    else match hex_value c with Some v => hex_digits true (16 * acc + Z.of_N v) t | None => None end
  end.
Definition hex_unsigned (s : string) : option Z :=
  if startswith "0x" s || startswith "0X" s then
    let r := drop_str 2 s in
    hex_digits false 0 (if startswith "_" r then drop_str 1 r else r)
  else hex_digits false 0 s.
Definition int_of_hex (s : string) : option Z :=
  let s := strip s in
  if startswith "-" s then Z.opp <$> hex_unsigned (drop_str 1 s)
  else if startswith "+" s then hex_unsigned (drop_str 1 s)
  else hex_unsigned s.

(** [str(uuid)] *)
Definition uuid_text (n : Z) : uuid :=
  let h := hex (be_bytes 16 n) in
  take_str 8 h +:+ "-" +:+ take_str 4 (drop_str 8 h) +:+ "-" +:+ take_str 4 (drop_str 12 h) +:+ "-" +:+
  take_str 4 (drop_str 16 h) +:+ "-" +:+ drop_str 20 h.

Definition UUID (text : string) : outcome uuid :=
  let h := remove_str "uuid:" (remove_str "urn:" text) in
  let h := remove_str "-" (rstrip_braces (lstrip_braces h)) in
  if negb (String.length h =? 32)%nat then Raise (ValueError "badly formed hexadecimal UUID string") else
  match int_of_hex h with
  | None => Raise (ValueError "invalid literal for int() with base 16")
  | Some n => if (0 <=? n) && (n <? 2 ^ 128) then Ok (uuid_text n) else Raise (ValueError "int is out of range")
  end.

Example uuid_canonical :
  UUID "{12345678-1234-5678-1234-567812345678}" = Ok "12345678-1234-5678-1234-567812345678".
Proof. vm_compute. reflexivity. Qed.
Example uuid_urn :
  UUID "urn:uuid:12345678-1234-5678-1234-56781234ABCD" = Ok "12345678-1234-5678-1234-56781234abcd".
Proof. vm_compute. reflexivity. Qed.
Example uuid_bad : UUID "alice" = Raise (ValueError "badly formed hexadecimal UUID string").
Proof. vm_compute. reflexivity. Qed.
