(* ===== verification/Auth.v ===== *)
(** Authentication: [core/security.py], [api/deps.py], [services/auth.py] and
    the endpoints of [api/v1/auth.py].

    Hashes, signatures and random tokens come from the environment.  A [str]
    is the bytes of its UTF-8 text, so positions in a token count bytes (the
    tokens the server makes are ASCII). *)
From Stdlib Require Import Ascii.
From S2P Require Import Prelude PyStr Bytes Json Models Effects Uuid.
Local Open Scope string_scope.
Local Open Scope list_scope.
Local Open Scope Z_scope.

Section Auth.
Context `{Env}.

(** * [core/security.py] *)
Definition verify_password (plain hashed : string) : bool := pwd_verify plain hashed.
Definition hash_password (password : string) : IO string := tick (fun n => pwd_hash n password).

(** The full token, its prefix and the hash of its secret. *)
Definition token_text (prefix secret : string) : string := "midscale_device_" +:+ prefix +:+ "_" +:+ secret.
Definition generate_device_token : IO (string * string * string) :=
  raw_prefix ← tick (fun n => token_urlsafe n 6);
  let prefix := take_str 8 raw_prefix in
  secret ← tick (fun n => token_urlsafe n 36);
  hashed_secret ← hash_password secret;
  mret (token_text prefix secret, prefix, hashed_secret).

(** The expiry is written as seconds since the epoch. *)
Definition timed (data : obj) (expire : Z) (type : string) : obj :=
  obj_set "type" (JStr type) (obj_set "exp" (JInt (expire / US)) data).
Definition create_access_token (data : obj) : IO string :=
  t ← now; mret (jwt_encode (timed data (t + minutes (access_token_expire_minutes settings)) "access")).
Definition create_refresh_token (data : obj) : IO string :=
  t ← now; mret (jwt_encode (timed data (t + days (refresh_token_expire_days settings)) "refresh")).
Definition decode_token (token : string) : option obj := jwt_decode token.

(** * [api/deps.py] *)
Definition unauthorized (detail : string) : exn := HTTPException 401 detail.
Definition is_type (type : string) (payload : obj) : bool :=
  match obj_get "type" payload with Some (JStr s) => String.eqb s type | _ => false end.
(** [payload.get("sub")]: absent and null are the same. *)
Definition subject (payload : obj) : option json :=
  match obj_get "sub" payload with Some JNull | None => None | Some j => Some j end.
(** [uuid.UUID(user_id)] of a JSON value; only text has [replace]. *)
Definition uuid_of (j : json) : outcome uuid :=
  match j with JStr s => UUID s | _ => Raise (AttributeError "replace") end.

Definition get_current_user (token : string) : IO User.User :=
  match decode_token token with
  | None => raise (unauthorized "Invalid or expired token")
  | Some payload =>
    if negb (is_type "access" payload) then raise (unauthorized "Invalid or expired token") else
    match subject payload with
    | None => raise (unauthorized "Invalid token payload")
    | Some user_id =>
      uid ← (match uuid_of user_id with
             | Raise (ValueError _) => raise (unauthorized "Invalid token payload")
             | o => lift o
             end : IO uuid);
      user ← select_one (R := User.User) (by_id uid);
      match user with
      | Some user => if User.is_active user then mret user else raise (unauthorized "User not found or inactive")
      | None => raise (unauthorized "User not found or inactive")
      end
    end
  end.
Definition get_current_superuser (token : string) : IO User.User :=
  current_user ← get_current_user token;
  if negb (User.is_superuser current_user) then raise (HTTPException 403 "Superuser privileges required")
  else mret current_user.

Definition _TOKEN_PREFIX := "midscale_device_".
Definition _check_device_status (device : Device.Device) : IO Device.Device :=
  let status := Device.enrollment_status device in
  if String.eqb status "revoked" then raise (unauthorized "Device has been revoked")
  else if String.eqb status "expired" then raise (unauthorized "Device enrollment has expired")
  else if String.eqb status "pending" then raise (unauthorized "Device enrollment not yet completed")
  else mret device.

Definition has_prefix (raw_prefix : string) (d : Device.Device) : bool :=
  bool_decide (Device.device_token_prefix d = Some raw_prefix) && Device.is_active d.
Definition hash_matches (token : string) (d : Device.Device) : bool :=
  opt_truthy (Device.device_token_hash d) && verify_password token (default "" (Device.device_token_hash d)).

(** The prefix and the secret, cut out by position. *)
Definition split_token (token : string) : option (string * string) :=
  if startswith _TOKEN_PREFIX token then
    let rest := drop_str (String.length _TOKEN_PREFIX) token in
    if (9 <? String.length rest)%nat && String.eqb (take_str 1 (drop_str 8 rest)) "_"
    then Some (take_str 8 rest, drop_str 9 rest) else None
  else None.
Definition by_prefix (token : string) : IO (option Device.Device) :=
  match split_token token with
  | None => mret None
  | Some (raw_prefix, secret) =>
    device ← select_one (has_prefix raw_prefix);
    match device with
    | Some device =>
      if opt_truthy (Device.device_token_hash device) then
        if verify_password secret (default "" (Device.device_token_hash device)) then mret (Some device)
        else inc (DAEMON_AUTH_FAILURES "bad_secret");; mret None
      else mret None
    | None => mret None
    end
  end.
Definition _lookup_device_by_token (token : string) : IO (option Device.Device) :=
  found ← by_prefix token;
  match found with
  | Some device => d ← _check_device_status device; mret (Some d)
  | None =>
    ds ← select_where Device.is_active;
    match List.find (hash_matches token) ds with
    | Some device => d ← _check_device_status device; mret (Some d)
    | None => mret None
    end
  end.
Definition get_current_device (token : string) : IO Device.Device :=
  device ← _lookup_device_by_token token;
  match device with
  | Some device => mret device
  | None => inc (DAEMON_AUTH_FAILURES "invalid_token");; raise (unauthorized "Invalid device token")
  end.
Definition get_current_device_by_id (device_id : uuid) (token : string) : IO Device.Device :=
  device ← get_current_device token;
  if negb (String.eqb (Device.id device) device_id) then
    inc (DAEMON_AUTH_FAILURES "device_id_mismatch");;
    raise (HTTPException 403 "Device token does not match requested device")
  else mret device.

Definition owns (u : User.User) (n : Network.Network) : bool := bool_decide (Network.owner_id n = Some (User.id u)).
Definition require_network_owner (network_id : uuid) (current_user : User.User) : IO Network.Network :=
  network ← select_one (R := Network.Network) (by_id network_id);
  match network with
  | None => raise (HTTPException 404 "Network not found")
  | Some network =>
    if negb (User.is_superuser current_user) && negb (owns current_user network)
    then raise (HTTPException 403 "Access denied: you do not own this network")
    else mret network
  end.
Definition created_le (a b : Network.Network) : bool := Network.created_at a <=? Network.created_at b.
Definition filter_owned_networks (current_user : User.User) : IO (list Network.Network) :=
  rs ← select_where (fun n => User.is_superuser current_user || owns current_user n);
  mret (sort_stable created_le rs).

(** * [services/auth.py] *)
Definition register_user (email password display_name : string) : IO (User.User * string * string) :=
  existing ← select_one (fun u => String.eqb (User.email u) email);
  match existing with
  | Some _ => raise (HTTPException 409 "Email already registered")
  | None =>
    password_hash ← hash_password password;
    id ← new_uuid; created ← now; updated ← now;
    let user := User.mk id email password_hash display_name true false created updated in
    add_row user;;
    access_token ← create_access_token [("sub", JStr id)];
    refresh_token ← create_refresh_token [("sub", JStr id)];
    mret (user, access_token, refresh_token)
  end.
Definition login_user (email password : string) : IO (User.User * string * string) :=
  user ← select_one (fun u => String.eqb (User.email u) email);
  match user with
  | None => raise (unauthorized "Invalid email or password")
  | Some user =>
    if negb (verify_password password (User.password_hash user)) then raise (unauthorized "Invalid email or password")
    else if negb (User.is_active user) then raise (HTTPException 403 "Account is inactive") else
    access_token ← create_access_token [("sub", JStr (User.id user))];
    refresh_token ← create_refresh_token [("sub", JStr (User.id user))];
    mret (user, access_token, refresh_token)
  end.
Definition refresh_access_token (refresh_token : string) : IO string :=
  match decode_token refresh_token with
  | None => raise (unauthorized "Invalid or expired refresh token")
  | Some payload =>
    if negb (is_type "refresh" payload) then raise (unauthorized "Invalid or expired refresh token") else
    match subject payload with
    | None => raise (unauthorized "Invalid token payload")
    | Some user_id => create_access_token [("sub", user_id)]
    end
  end.

(** * [api/v1/auth.py] *)
Definition register (email password display_name : string) (client : option string) : IO (string * string) :=
  '(user, access_token, refresh_token) ← register_user email password display_name;
  audit "auth.register" "user" (Some (User.id user)) "user" (Some (User.id user))
    [("email", JStr email); ("display_name", JStr display_name)] client;;
  mret (access_token, refresh_token).
Definition login (email password : string) (client : option string) : IO (string * string) :=
  '(user, access_token, refresh_token) ← login_user email password;
  audit "auth.login" "user" (Some (User.id user)) "user" (Some (User.id user)) [("email", JStr email)] client;;
  mret (access_token, refresh_token).
Definition refresh (refresh_token : string) : IO (string * string) :=
  access_token ← refresh_access_token refresh_token;
  mret (access_token, refresh_token).
Definition me (token : string) : IO User.User := get_current_user token.

(** * Devices *)
(** The status check raises or returns the device. *)
Lemma check_status_ok d w d' w' :
  _check_device_status d w = (Ok d', w') ->
  d' = d /\ w' = w /\ ~ (Device.enrollment_status d ∈ ["revoked"; "expired"; "pending"]).
Proof.
  unfold _check_device_status. set (st := Device.enrollment_status d).
  destruct (String.eqb_spec st "revoked"); [done|]. destruct (String.eqb_spec st "expired"); [done|].
  destruct (String.eqb_spec st "pending"); [done|]. intros [= <- <-]. split_and!; [done..|].
  rewrite !elem_of_cons. intros [?|[?|[?|Hn]]]; [done..|]. by apply elem_of_nil in Hn.
Qed.
Lemma split_token_text prefix secret :
  String.length prefix = 8%nat -> secret <> "" -> split_token (token_text prefix secret) = Some (prefix, secret).
Proof.
  intros Hp Hs. unfold split_token, token_text.
  change "midscale_device_" with _TOKEN_PREFIX.
  assert (startswith _TOKEN_PREFIX (_TOKEN_PREFIX +:+ prefix +:+ "_" +:+ secret) = true) as -> by reflexivity.
  rewrite drop_str_app. rewrite !str_length_app, Hp.
  assert (drop_str 8 (prefix +:+ "_" +:+ secret) = "_" +:+ secret) as H8 by by apply drop_str_len.
  assert (drop_str 9 (prefix +:+ "_" +:+ secret) = secret) as H9.
  { rewrite <-str_app_assoc. apply drop_str_len. by rewrite str_length_app, Hp. }
  rewrite H8, H9, (take_str_len 8) by done. change (take_str 1 ("_" +:+ secret)) with "_".
  destruct secret as [|c secret]; [done|]. reflexivity.
Qed.
Lemma split_token_inv token prefix secret :
  split_token token = Some (prefix, secret) -> String.length prefix = 8%nat /\ token = token_text prefix secret.
Proof.
  unfold split_token. destruct (startswith _TOKEN_PREFIX token) eqn:E; [|done].
  set (rest := drop_str _ token). destruct (Nat.ltb_spec 9 (String.length rest)) as [Hlen|]; [|done].
  destruct (String.eqb_spec (take_str 1 (drop_str 8 rest)) "_") as [Hu|]; [|done].
  cbn [andb]. intros Hsome.
  assert (prefix = take_str 8 rest) as -> by congruence.
  assert (secret = drop_str 9 rest) as -> by congruence. clear Hsome.
  split; [rewrite take_str_length; lia|]. unfold token_text.
  rewrite (startswith_drop _ token E) at 1. fold rest. change "midscale_device_" with _TOKEN_PREFIX. f_equal.
  rewrite <-(take_drop_str 8 rest) at 1. f_equal.
  by rewrite <-(take_drop_str 1 (drop_str 8 rest)), Hu, drop_str_drop.
Qed.

(** What authenticates a device. *)
Definition authenticated (token : string) (d : Device.Device) : Prop :=
  exists h, Device.device_token_hash d = Some h /\
    (verify_password token h = true \/
     exists prefix secret, token = token_text prefix secret /\ String.length prefix = 8%nat /\
       Device.device_token_prefix d = Some prefix /\ verify_password secret h = true).
Lemma truthy_some (o : option string) : opt_truthy o = true -> exists h, o = Some h.
Proof. destruct o; [eauto|done]. Qed.
Lemma by_prefix_ok token w o w' :
  by_prefix token w = (Ok o, w') ->
  w_db w' = w_db w /\
  match o with
  | Some d => d ∈ devices (w_db w) /\ Device.is_active d = true /\ authenticated token d
  | None => True
  end.
Proof.
  unfold by_prefix. destruct (split_token token) as [[p s]|] eqn:Et; [|by intros [= <- <-]].
  rewrite run_bind. destruct (select_one (has_prefix p) w) as [[o1|e] w1] eqn:E; [|done].
  apply select_one_inv in E as [-> Ho]. destruct o1 as [d|]; [|by intros [= <- <-]].
  destruct Ho as [[Hp%bool_decide_eq_true Ha]%andb_true_iff Hin].
  destruct (opt_truthy (Device.device_token_hash d)) eqn:Eh; [|by intros [= <- <-]].
  apply truthy_some in Eh as [h Eh]. rewrite Eh. cbn [default from_option id]. destruct (verify_password s h) eqn:Ev.
  - intros Hr. apply ret_inv in Hr as [<- <-].
    split_and!; [done..|]. exists h. split; [done|]. right.
    apply split_token_inv in Et as [Hl ->]. by exists p, s.
  - rewrite run_inc. by intros [= <- <-].
Qed.
Lemma lookup_ok token w d w' :
  _lookup_device_by_token token w = (Ok (Some d), w') ->
  w_db w' = w_db w /\ d ∈ devices (w_db w) /\ Device.is_active d = true /\ authenticated token d /\
  ~ (Device.enrollment_status d ∈ ["revoked"; "expired"; "pending"]).
Proof.
  unfold _lookup_device_by_token. rewrite run_bind.
  destruct (by_prefix token w) as [[o|e] w1] eqn:E; [|done]. apply by_prefix_ok in E as [Hdb Ho]. destruct o as [d1|].
  - rewrite run_bind. destruct (_check_device_status d1 w1) as [[d2|e] w2] eqn:Ec; [|done]. intros [= <- <-].
    apply check_status_ok in Ec as (-> & -> & Hst). by destruct Ho as (? & ? & ?).
  - unfold select_where. rewrite run_bind. cbn [gets]. destruct (List.find (hash_matches token) _) as [d1|] eqn:Ef; [|done].
    rewrite run_bind. destruct (_check_device_status d1 w1) as [[d2|e] w2] eqn:Ec; [|done]. intros [= <- <-].
    apply check_status_ok in Ec as (-> & -> & Hst). apply find_some in Ef as [Hin%list_elem_of_In Hm].
    apply elem_of_filter_list in Hin as [Ha Hin]. change (rows (w_db w1)) with (devices (w_db w1)) in Hin.
    rewrite Hdb in Hin. split_and!; [done..| |done]. unfold hash_matches in Hm.
    apply andb_true_iff in Hm as [[h Hh]%truthy_some Hv]. exists h. rewrite Hh in Hv. auto.
Qed.
Lemma get_device_ok device_id token w d w' :
  get_current_device_by_id device_id token w = (Ok d, w') ->
  w_db w' = w_db w /\ d ∈ devices (w_db w) /\ Device.id d = device_id /\ Device.is_active d = true /\
  authenticated token d /\ ~ (Device.enrollment_status d ∈ ["revoked"; "expired"; "pending"]).
Proof.
  unfold get_current_device_by_id, get_current_device. rewrite !run_bind.
  destruct (_lookup_device_by_token token w) as [[[d1|]|e] w1] eqn:E; [|done..].
  apply lookup_ok in E as (Hdb & Hin & Ha & Hau & Hst). cbn [mret M_ret].
  destruct (String.eqb_spec (Device.id d1) device_id); cbn [negb]; [|done]. intros [= <- <-]. done.
Qed.
(** A device whose prefix no other active device has is found by its token. *)
Lemma token_admits d prefix secret h w :
  keyed (R := Device.Device) w -> d ∈ devices (w_db w) -> Device.is_active d = true ->
  Device.enrollment_status d = "active" -> String.length prefix = 8%nat -> secret <> "" -> h <> "" ->
  Device.device_token_prefix d = Some prefix -> Device.device_token_hash d = Some h ->
  verify_password secret h = true ->
  (forall d', d' ∈ devices (w_db w) -> Device.device_token_prefix d' = Some prefix -> Device.is_active d' = true -> d' = d) ->
  get_current_device (token_text prefix secret) w = (Ok d, w).
Proof.
  intros Hk Hin Ha Hst Hlen Hs Hh Hp Hhash Hv Huniq.
  unfold get_current_device, _lookup_device_by_token, by_prefix. rewrite split_token_text by done.
  rewrite !run_bind, (select_one_unique _ w d); [|done|done|by unfold has_prefix; rewrite bool_decide_eq_true_2|].
  2:{ intros d' Hd' [Hp'%bool_decide_eq_true Ha']%andb_true_iff. by apply Huniq. }
  rewrite Hhash. cbn [opt_truthy default from_option id]. assert (truthy h = true) as -> by by destruct h.
  rewrite Hv. cbn [mret M_ret]. unfold _check_device_status. rewrite Hst. done.
Qed.
End Auth.

(** * Properties *)

(** C11. Whoever is let in as a device is an active device of the database that
    is neither revoked nor expired nor pending, and the presented token
    verifies against its stored hash, whole or as the secret behind the
    device's own prefix; the database is only read. *)
Theorem device_auth_sound `{Env} device_id token w d w' :
  get_current_device_by_id device_id token w = (Ok d, w') ->
  w_db w' = w_db w /\ d ∈ devices (w_db w) /\ Device.id d = device_id /\ Device.is_active d = true /\
  authenticated token d /\ ~ (Device.enrollment_status d ∈ ["revoked"; "expired"; "pending"]).
Proof. apply get_device_ok. Qed.

(** C31. A token the server has made lets its device in: when the prefix is no
    other active device's and the secret verifies against the stored hash, the
    device is found by its prefix, without a change of the world. *)
Theorem device_token_round_trip `{Env} d prefix secret h w :
  keyed (R := Device.Device) w -> d ∈ devices (w_db w) -> Device.is_active d = true ->
  Device.enrollment_status d = "active" -> String.length prefix = 8%nat -> secret <> "" -> h <> "" ->
  Device.device_token_prefix d = Some prefix -> Device.device_token_hash d = Some h ->
  verify_password secret h = true ->
  (forall d', d' ∈ devices (w_db w) -> Device.device_token_prefix d' = Some prefix -> Device.is_active d' = true -> d' = d) ->
  get_current_device (token_text prefix secret) w = (Ok d, w).
Proof. apply token_admits. Qed.

(** Access and refresh tokens are kept apart: the access token made at
    login lets its active user in, a refresh token is never taken for one, and
    the refresh of an access token is refused. *)
Theorem token_kinds_separate `{Env} u w expire :
  let claims type := timed [("sub", JStr (User.id u))] expire type in
  (forall type, type ∈ ["access"; "refresh"] -> jwt_decode (jwt_encode (claims type)) = Some (claims type)) -> keyed (R := User.User) w -> u ∈ users (w_db w) ->
  User.is_active u = true -> UUID (User.id u) = Ok (User.id u) ->
  let token type := jwt_encode (claims type) in
  get_current_user (token "access") w = (Ok u, w) /\
  get_current_user (token "refresh") w = (Raise (unauthorized "Invalid or expired token"), w) /\
  refresh_access_token (token "access") w = (Raise (unauthorized "Invalid or expired refresh token"), w).
Proof.
  intros claims Hjwt Hk Hu Ha Hid token. unfold get_current_user, refresh_access_token, decode_token, token.
  rewrite !Hjwt by set_solver. cbn. rewrite Hid. unfold mbind, M_bind, lift. change (User.id u) with (row_id u).
  rewrite select_by_id by done. by rewrite Ha.
Qed.

(** * Witnesses *)
Definition auth_device : Device.Device :=
  Device.mk "dev-1" "alice" None "net-1" (Some "pk") None (Some "10.0.0.2") true true true (Some "$2b$s3cret")
    (Some "abcdefgh") "active" None None None None None None 0 0.
Definition auth_user : User.User :=
  User.mk "12345678-1234-5678-1234-567812345678" "a@b.c" "$2b$pw" "A" true false 0 0.
Definition auth_world : World := world_of (empty_db <| devices := [auth_device] |> <| users := [auth_user] |>).
Lemma device_auth_sound_witness :
  exists d, (get_current_device_by_id "dev-1" "midscale_device_abcdefgh_s3cret" auth_world).1 = Ok d /\
    Device.device_token_hash d = Some "$2b$s3cret".
Proof.
  destruct (get_current_device_by_id "dev-1" "midscale_device_abcdefgh_s3cret" auth_world) as [[d|e] w'] eqn:E.
  - exists d. split; [reflexivity|].
    destruct (device_auth_sound "dev-1" "midscale_device_abcdefgh_s3cret" auth_world d w' E) as (_ & Hin & _).
    apply list_elem_of_singleton in Hin. by subst d.
  - exfalso. apply (f_equal fst) in E. vm_compute in E. discriminate E.
Defined.
Lemma device_token_round_trip_witness :
  get_current_device (token_text "abcdefgh" "s3cret") auth_world = (Ok auth_device, auth_world).
Proof.
  apply (device_token_round_trip auth_device "abcdefgh" "s3cret" "$2b$s3cret");
    [repeat constructor; set_solver|left|reflexivity|reflexivity|reflexivity|discriminate|discriminate|reflexivity..|].
  intros d' Hd' _ _. by apply list_elem_of_singleton in Hd'.
Defined.
Lemma token_kinds_separate_witness :
  get_current_user (jwt_encode (timed [("sub", JStr (User.id auth_user))] (minutes 30) "access")) auth_world
  = (Ok auth_user, auth_world).
Proof.
  refine (proj1 (token_kinds_separate auth_user auth_world (minutes 30) _ _ _ _ _)).
  - intros type [->|[->|[]%elem_of_nil]%elem_of_cons]%elem_of_cons; vm_compute; reflexivity.
  - repeat constructor. set_solver.
  - left.
  - reflexivity.
  - vm_compute. reflexivity.
Defined.
