(* ===== verification/WsApi.v ===== *)
(** The WebSocket endpoints of the server ([backend/app/api/v1/ws.py]).

    A handler runs from the connection to its end: [..._open] is what it does
    until it waits for messages, which it only reads, and [ws_end] its
    [finally].  A refusal is the close code with its reason. *)
From S2P Require Import Prelude PyStr Json JsonText Dict Models Effects WsManager EventBus Auth.
Local Open Scope string_scope.
Local Open Scope list_scope.
Local Open Scope Z_scope.

Record refusal := mkRefusal { close_code : Z; close_reason : string }.
Definition WS_1011_INTERNAL_ERROR : Z := 1011.
Definition WS_1008_POLICY_VIOLATION : Z := 1008.
(** The manager afterwards, or why the socket was closed. *)
Abbreviation opening := (refusal + WebSocketConnectionManager)%type.

Section WsApi.
Context `{Env}.

(** [/ws], the sockets of the admin interface. *)
Definition websocket_endpoint (ws : nat) (token : option string) (manager : option WebSocketConnectionManager) : opening :=
  match manager with
  | None => inl (mkRefusal WS_1011_INTERNAL_ERROR "")
  | Some m =>
    let refused :=
      opt_truthy token &&
      match decode_token (default "" token) with Some payload => negb (is_type "access" payload) | None => true end in
    if refused then inl (mkRefusal WS_1008_POLICY_VIOLATION "") else inr (connect ws m)
  end.
(** [/daemon/ws] *)
Definition daemon_websocket_endpoint (ws : nat) (token : option string) (manager : option WebSocketConnectionManager)
    : IO opening :=
  match manager with
  | None => mret (inl (mkRefusal WS_1011_INTERNAL_ERROR ""))
  | Some m =>
    if negb (opt_truthy token) then mret (inl (mkRefusal WS_1008_POLICY_VIOLATION "Device token required")) else
    device ← _lookup_device_by_token (default "" token);
    match device with
    | None => mret (inl (mkRefusal WS_1008_POLICY_VIOLATION "Invalid device token"))
    | Some device =>
      if negb (String.eqb (Device.enrollment_status device) "active") then
        mret (inl (mkRefusal WS_1008_POLICY_VIOLATION ("Device status is '" +:+ Device.enrollment_status device +:+ "'")))
      else mret (inr (connect_daemon ws (Device.id device) m))
    end
  end.
Definition ws_end (ws : nat) (m : WebSocketConnectionManager) : WebSocketConnectionManager := disconnect ws m.
End WsApi.

(** * Properties *)

(** C30. Whoever becomes a device on the push channel is one: the socket is
    registered under the id of an active, enrolled device of the database whose
    token was shown, the session is only read, and no other device's socket is
    touched. *)
Theorem daemon_socket_sound `{Env} ws token m w m' w' :
  daemon_websocket_endpoint ws token (Some m) w = (Ok (inr m'), w') ->
  w_db w' = w_db w /\
  exists d t, token = Some t /\ d ∈ devices (w_db w) /\ Device.is_active d = true /\
    Device.enrollment_status d = "active" /\ authenticated t d /\ m' = connect_daemon ws (Device.id d) m /\
    forall i, i <> Device.id d -> dict_get i (ws_daemon_connections m') = dict_get i (ws_daemon_connections m).
Proof.
  unfold daemon_websocket_endpoint. destruct (opt_truthy token) eqn:Et; [|done]. cbn [negb].
  destruct token as [t|]; [|done]. cbn [default from_option id]. rewrite run_bind.
  destruct (_lookup_device_by_token t w) as [[[d|]|e] w1] eqn:E; [|done..].
  apply lookup_ok in E as (Hdb & Hin & Ha & Hau & _).
  destruct (String.eqb_spec (Device.enrollment_status d) "active") as [Hst|]; [|done]. cbn [negb]. intros [= <- <-].
  split; [done|]. exists d, t. split_and!; [done..|]. intros i Hi. by apply dict_get_set_ne.
Qed.

(** The admin channel asks nobody who they are: a socket that shows no token
    is accepted, and from then on it is sent every event the server publishes,
    whoever it is about. *)
Theorem anonymous_hears_everything `{Env} alive ws m e n :
  ws_wf m -> ws ∉ ws_connections m -> alive ws = true -> (forall w, w ∈ ws_connections m -> alive w = true) ->
  exists m', websocket_endpoint ws None (Some m) = inr m' /\
    received ws (ws_sent (br_manager (bridge_event alive (pushed e) (mkBridge m' n)).2)) =
    received ws (ws_sent m) ++ [payload_of e].
Proof.
  intros Hwf Hnew Ha Hal. exists (connect ws m). split; [done|].
  assert (ws_wf (connect ws m)) as Hwf'.
  { destruct Hwf as [Hk Hs Ht]. split; [done..|]. intros d w Hd. apply elem_of_union_r. by eapply Ht. }
  rewrite bridge_received; [|intros w [->%elem_of_singleton|Hw]%elem_of_union; [done|by apply Hal]|exact Hwf'].
  cbn [br_manager]. f_equal. assert (times_pushed e (connect ws m) ws = 1%nat) as ->; [|done].
  unfold times_pushed. rewrite decide_True by (apply elem_of_union_l, elem_of_singleton_2; done).
  rewrite decide_False; [done|]. unfold target_socket. intros Ht.
  destruct (String.eqb _ _); [|done]. destruct (obj_get _ _) as [[| | | |d|l|o]|]; try done.
  destruct (truthy d); [|done]. apply dict_get_in in Ht. apply Hnew. exact (wf_tracked _ Hwf _ _ Ht).
Qed.

(** * Witnesses *)
Lemma daemon_socket_sound_witness :
  exists m', (daemon_websocket_endpoint 1 (Some "midscale_device_abcdefgh_s3cret") (Some new_manager) auth_world).1 = Ok (inr m') /\
    dict_get "dev-1" (ws_daemon_connections m') = Some 1%nat.
Proof.
  destruct (daemon_websocket_endpoint 1 (Some "midscale_device_abcdefgh_s3cret") (Some new_manager) auth_world)
    as [[[r|m']|e] w'] eqn:E; [vm_compute in E; discriminate E| |vm_compute in E; discriminate E].
  exists m'. split; [reflexivity|].
  destruct (daemon_socket_sound 1 (Some "midscale_device_abcdefgh_s3cret") new_manager auth_world m' w' E)
    as (_ & d & t & _ & Hd & _ & _ & _ & -> & _).
  apply list_elem_of_singleton in Hd as ->. reflexivity.
Defined.
Lemma anonymous_hears_everything_witness :
  exists m', websocket_endpoint 7 None (Some (connect_daemon 1 "alice" new_manager)) = inr m' /\
    received 7 (ws_sent (br_manager (bridge_event (fun _ => true)
      (pushed (mkEvent EVENT_DEVICE_ENROLLED [("device_id", JStr "bob")] "e1" "now")) (mkBridge m' 0)).2)) <> [].
Proof.
  destruct (anonymous_hears_everything (fun _ => true) 7 (connect_daemon 1 "alice" new_manager)
    (mkEvent EVENT_DEVICE_ENROLLED [("device_id", JStr "bob")] "e1" "now") 0) as (m' & Hm & Hr).
  - apply (ws_reachable_wf [ConnectDaemon 1 "alice"]). apply (bool_decide_unpack _). vm_compute. exact I.
  - apply (bool_decide_unpack _). vm_compute. exact I.
  - reflexivity.
  - reflexivity.
  - exists m'. split; [exact Hm|]. rewrite Hr. discriminate.
Defined.
