(* ===== verification/DaemonSvc.v ===== *)
(** Heartbeats, endpoint reports and probe results of daemons:
    [services/daemon.py].

    A peer's id arrives as text; [bind_uuid] is the database driver's reading
    of a text bound to a UUID column. *)
From S2P Require Import Prelude PyStr Bytes Json Models Effects Scoring Acl Uuid.
Local Open Scope string_scope.
Local Open Scope list_scope.
Local Open Scope Z_scope.

Abbreviation endpoint_row := DeviceEndpoint.DeviceEndpoint.

Section Daemon.
Context `{Env} (bind_uuid : string -> outcome uuid).

(** * [process_heartbeat] *)
(** [value and value != current] *)
Definition differs_from (current value : option string) : bool :=
  opt_truthy value && bool_decide (value <> current).
Definition beat (t : Z) (public_key ip_address : option string) (d : Device.Device) : Device.Device :=
  let d' := d <| Device.last_seen_at := Some t |> in
  let d' := if differs_from (Device.public_key d) public_key then d' <| Device.public_key := public_key |> else d' in
  if differs_from (Device.ip_address d) ip_address then d' <| Device.ip_address := ip_address |> else d'.
(** When the key or the address changes, [updated_at] is set by hand in place
    of the column's [onupdate]. *)
Definition process_heartbeat (device_id : uuid) (public_key ip_address : option string) : IO obj :=
  found ← select_one (by_id (R := Device.Device) device_id);
  match found with
  | None => raise (HTTPException 404 "Device not found")
  | Some device =>
    t ← now;
    let changed := differs_from (Device.public_key device) public_key || differs_from (Device.ip_address device) ip_address in
    (if changed
     then update_row (Device.id device) (fun d => beat t public_key ip_address d <| Device.updated_at := t |>)
     else flush_device (Device.id device) (beat t public_key ip_address));;
    mret [("status", JStr "ok"); ("device_id", JStr (Device.id device)); ("last_heartbeat", JStr (isoformat t));
          ("config_url", JStr ("/api/v1/devices/" +:+ Device.id device +:+ "/config"))]
  end.

(** * [report_endpoint] *)
Definition report_endpoint (device_id : uuid) (endpoint source : string) (port : Z)
    (local_ip public_ip : option string) (priority : Z) : IO obj :=
  found ← select_one (by_id (R := Device.Device) device_id);
  match found with
  | None => raise (HTTPException 404 "Device not found")
  | Some device =>
    t ← now;
    id ← new_uuid; created ← now;
    add_row (DeviceEndpoint.mk id device_id endpoint source port local_ip public_ip priority true t
               None false None 0 0 0 created);;
    mret [("status", JStr "ok"); ("endpoint_id", JStr id); ("recorded_at", JStr (isoformat t))]
  end.

(** * [stale_endpoint_cleanup] *)
Definition stale_endpoint (cutoff : Z) (e : endpoint_row) : bool :=
  DeviceEndpoint.is_active e && (DeviceEndpoint.last_seen e <? cutoff).
Definition retired (e : endpoint_row) : endpoint_row := e <| DeviceEndpoint.is_active := false |>.
Definition stale_endpoint_cleanup (max_age_minutes : Z) : IO Z :=
  t ← now;
  let cutoff := t - minutes max_age_minutes in
  stale ← select_where (stale_endpoint cutoff);
  for_each stale (fun e => update_row (row_id e) retired);;
  mret (len_list stale).

(** * [process_probe_result] *)
Record probe_answer := mkProbeAnswer { pr_endpoint_id : uuid; pr_score : Z; pr_preferred : bool }.

Definition probed_endpoint (peer : uuid) (endpoint : string) (e : endpoint_row) : bool :=
  String.eqb (DeviceEndpoint.device_id e) peer && String.eqb (DeviceEndpoint.endpoint e) endpoint.
(** The row of a known endpoint after a probe. *)
Definition probed (t : Z) (reachable : bool) (latency_ms : option Z) (e : endpoint_row) : endpoint_row :=
  let e := e <| DeviceEndpoint.reachable := reachable |> <| DeviceEndpoint.last_probe_at := Some t |>
             <| DeviceEndpoint.latency_ms := latency_ms |> in
  let e := if reachable then e <| DeviceEndpoint.success_count := DeviceEndpoint.success_count e + 1 |>
           else e <| DeviceEndpoint.failure_count := DeviceEndpoint.failure_count e + 1 |> in
  let e := e <| DeviceEndpoint.score := compute_endpoint_score (DeviceEndpoint.reachable e)
                  (DeviceEndpoint.latency_ms e) (DeviceEndpoint.failure_count e)
                  (DeviceEndpoint.success_count e) (DeviceEndpoint.priority e) |> in
  e <| DeviceEndpoint.last_seen := t |>.
Definition active_of (peer : uuid) (e : endpoint_row) : bool :=
  String.eqb (DeviceEndpoint.device_id e) peer && DeviceEndpoint.is_active e.

(** A first probe of an endpoint makes its row. *)
Definition new_probed (t : Z) (peer_device_id endpoint : string) (reachable : bool) (latency_ms : option Z)
    (source : string) (port : Z) (local_ip public_ip : option string) : IO (uuid * Z) :=
  let failure_count := if reachable then 0 else 1 in
  let success_count := if reachable then 1 else 0 in
  let score := compute_endpoint_score reachable latency_ms failure_count success_count 100 in
  device_id ← lift (UUID peer_device_id);
  id ← new_uuid; created ← now;
  fk_device device_id;;
  add_row (DeviceEndpoint.mk id device_id endpoint source port local_ip public_ip 100 true t
             latency_ms reachable (Some t) failure_count success_count score created);;
  mret (id, score).

Definition process_probe_result (device_id : uuid) (peer_device_id endpoint : string) (reachable : bool)
    (latency_ms : option Z) (source : string) (port : Z) (local_ip public_ip : option string) : IO probe_answer :=
  t ← now;
  inc (ENDPOINT_PROBE_TOTAL (if reachable then "reachable" else "unreachable"));;
  peer ← lift (bind_uuid peer_device_id);
  existing ← select_one (probed_endpoint peer endpoint);
  '(ep_id, score) ← match existing with
    | Some e =>
      update_row (DeviceEndpoint.id e) (probed t reachable latency_ms);;
      mret (DeviceEndpoint.id e, DeviceEndpoint.score (probed t reachable latency_ms e))
    | None => new_probed t peer_device_id endpoint reachable latency_ms source port local_ip public_ip
    end;
  inc ENDPOINT_SCORE_UPDATES;;
  all_eps ← select_where (active_of peer);
  set_metric ENDPOINT_REACHABLE (len_list (List.filter DeviceEndpoint.reachable all_eps));;
  let preferred := match select_best_endpoint all_eps with
                   | Some best => String.eqb (DeviceEndpoint.id best) ep_id
                   | None => false
                   end in
  mret (mkProbeAnswer ep_id score preferred).

(** * Facts *)
Lemma probed_id t r l e : DeviceEndpoint.id (probed t r l e) = DeviceEndpoint.id e.
Proof. unfold probed. by destruct r. Qed.
Lemma probed_score_eq t r l e :
  DeviceEndpoint.score (probed t r l e) =
  compute_endpoint_score r l (DeviceEndpoint.failure_count e + if r then 0 else 1)
    (DeviceEndpoint.success_count e + if r then 1 else 0) (DeviceEndpoint.priority e).
Proof. unfold probed. destruct r; cbn; by rewrite ?Z.add_0_r. Qed.
Lemma compute_score_range r l f s p : 0 <= compute_endpoint_score r l f s p <= 200.
Proof. unfold compute_endpoint_score, SCORE_MAX. lia. Qed.

(** A flushed change of a device, as one step. *)
Definition flushed (t : Z) (f : Device.Device -> Device.Device) (d : Device.Device) : Device.Device :=
  if decide (f d = d) then d else f d <| Device.updated_at := t |>.
Lemma run_flush {B} i f (k : unit -> IO B) w :
  (flush_device i f ≫= k) w = k tt (on_rows (update_where (by_id i) (flushed (clock (w_tick w)) f)) (ticked w)).
Proof. reflexivity. Qed.
Lemma beat_ip t key ip d : truthy ip = true -> Device.ip_address (beat t key (Some ip) d) = Some ip.
Proof.
  intros Hip. unfold beat, differs_from. cbn [opt_truthy]. rewrite Hip. cbn [andb].
  case_bool_decide as Hne; [done|].
  destruct (decide (Some ip = Device.ip_address d)) as [Heq|]; [|done].
  match goal with |- context [if ?b then _ else _] => by destruct b end.
Qed.
Lemma beat_id t key ip d : Device.id (beat t key ip d) = Device.id d.
Proof. unfold beat. by destruct (differs_from (Device.public_key d) key), (differs_from (Device.ip_address d) ip). Qed.

(** What a heartbeat leaves of the device and of the database. *)
Lemma heartbeat_run d key ip w :
  keyed (R := Device.Device) w -> d ∈ devices (w_db w) ->
  exists answer w' g, process_heartbeat (Device.id d) key ip w = (Ok answer, w') /\
    w_db w' = w_db w <| devices := update_where (by_id (Device.id d)) g (devices (w_db w)) |> /\
    forall x, g x <| Device.updated_at := 0 |> = beat (clock (w_tick w)) key ip x <| Device.updated_at := 0 |>.
Proof.
  intros Hk Hd. unfold process_heartbeat. change (Device.id d) with (row_id d).
  rewrite run_bind, select_by_id by done. rewrite run_now. set (t := clock (w_tick w)).
  destruct (_ || _).
  - unfold update_row. rewrite run_modify. do 3 eexists. split_and!; [done|done|]. by intros [].
  - rewrite run_flush. do 3 eexists. split_and!; [done|done|]. intros x. unfold flushed.
    case_decide as Hx; [by rewrite Hx|]. done.
Qed.
(** A report of a known device adds one row, which says what was reported. *)
Lemma report_row d endpoint source port local_ip public_ip priority w :
  keyed (R := Device.Device) w -> d ∈ devices (w_db w) ->
  exists answer w' e, report_endpoint (Device.id d) endpoint source port local_ip public_ip priority w = (Ok answer, w') /\
    w_db w' = w_db w <| endpoints := endpoints (w_db w) ++ [e] |> /\
    DeviceEndpoint.device_id e = Device.id d /\ DeviceEndpoint.endpoint e = endpoint /\ DeviceEndpoint.port e = port.
Proof.
  intros Hk Hd. unfold report_endpoint. change (Device.id d) with (row_id d).
  rewrite run_bind, select_by_id by done. rewrite run_now, run_uuid, run_now. unfold add_row. rewrite run_modify.
  do 3 eexists. split; [reflexivity|]. by split_and!.
Qed.
Lemma report_run d endpoint source port local_ip public_ip priority w :
  keyed (R := Device.Device) w -> d ∈ devices (w_db w) ->
  exists answer w' e, report_endpoint (Device.id d) endpoint source port local_ip public_ip priority w = (Ok answer, w') /\
    w_db w' = w_db w <| endpoints := endpoints (w_db w) ++ [e] |> /\ probed_endpoint (Device.id d) endpoint e = true.
Proof.
  intros Hk Hd. destruct (report_row d endpoint source port local_ip public_ip priority w Hk Hd)
    as (answer & w' & e & Hrun & Hdb & He & Hep & _).
  exists answer, w', e. split_and!; [done|done|]. unfold probed_endpoint. by rewrite He, Hep, !String.eqb_refl.
Qed.
End Daemon.

(** * Properties *)

(** A probe of an endpoint whose row exists once changes that row and no
    other: the counters go up by one, the score is the score of the new
    figures and lies between 0 and 200, the gauge is the number of reachable
    active endpoints of the peer, and the endpoint is reported as preferred
    only if it is active and no active endpoint of the peer ranks above it. *)
Theorem probe_updates_known `{Env} bind_uuid device peer e reachable latency source port local_ip public_ip w :
  keyed (R := endpoint_row) w -> e ∈ endpoints (w_db w) -> bind_uuid peer = Ok (DeviceEndpoint.device_id e) ->
  (forall x, x ∈ endpoints (w_db w) ->
     probed_endpoint (DeviceEndpoint.device_id e) (DeviceEndpoint.endpoint e) x = true -> x = e) ->
  let e' := probed (clock (w_tick w)) reachable latency e in
  exists preferred w',
    process_probe_result bind_uuid device peer (DeviceEndpoint.endpoint e) reachable latency source port local_ip public_ip w
    = (Ok (mkProbeAnswer (DeviceEndpoint.id e) (DeviceEndpoint.score e') preferred), w') /\
    w_db w' = w_db w <| endpoints := update_where (by_id (DeviceEndpoint.id e)) (fun _ => e') (endpoints (w_db w)) |> /\
    DeviceEndpoint.score e' = compute_endpoint_score reachable latency
      (DeviceEndpoint.failure_count e + if reachable then 0 else 1)
      (DeviceEndpoint.success_count e + if reachable then 1 else 0) (DeviceEndpoint.priority e) /\
    0 <= DeviceEndpoint.score e' <= 200 /\
    w_metrics w' ENDPOINT_REACHABLE = len_list (List.filter DeviceEndpoint.reachable
      (List.filter (active_of (DeviceEndpoint.device_id e)) (endpoints (w_db w')))) /\
    (preferred = true -> DeviceEndpoint.is_active e = true /\
       forall x, x ∈ endpoints (w_db w') -> active_of (DeviceEndpoint.device_id e) x = true -> not_after e' x = true).
Proof.
  intros Hk He Hbind Huniq e'. unfold process_probe_result. rewrite run_now, run_inc, (run_lift _ _ _ _ Hbind).
  rewrite run_bind, (select_one_unique _ _ e);
    [|done|done|by unfold probed_endpoint; rewrite !String.eqb_refl|exact Huniq].
  fold e'. unfold update_row. rewrite run_bind, run_modify. cbn [mret M_ret]. rewrite run_inc, run_select.
  match goal with |- context [List.filter _ (rows (w_db ?w1))] => set (w2 := w1) end.
  assert (rows (w_db w2) = update_where (by_id (DeviceEndpoint.id e)) (fun _ => e') (endpoints (w_db w))) as Hrows.
  { change (rows (w_db w2)) with (update_where (by_id (DeviceEndpoint.id e))
      (probed (clock (w_tick w)) reachable latency) (endpoints (w_db w))).
    unfold update_where. apply list_fmap_ext. intros i x Hx. destruct (by_id _ x) eqn:E; [|done].
    apply by_id_true in E. assert (x = e) as ->; [|done].
    eapply keyed_eq; [exact Hk|by eapply list_elem_of_lookup_2|done|done]. }
  unfold set_metric. rewrite run_modify. do 2 eexists. split; [reflexivity|].
  split; [cbn; f_equal; exact Hrows|]. split; [apply probed_score_eq|].
  split; [unfold e'; rewrite probed_score_eq; apply compute_score_range|].
  split; [cbn; by rewrite decide_True|].
  destruct (select_best_endpoint _) as [best|] eqn:Eb; [|done]. intros Hid%String.eqb_eq.
  apply select_best_some in Eb as [[Hact Hin]%elem_of_filter_list Hmax].
  rewrite Hrows in Hin. apply elem_of_update_where in Hin as [(x & Hx & Hxe & ->)|[Hin Hne]].
  - split.
    + apply andb_true_iff in Hact as [_ Hact]. revert Hact. unfold e', probed. by destruct reachable.
    + intros x' Hx' Ha'. apply Hmax, elem_of_filter_list. done.
  - exfalso. apply by_id_false in Hne. done.
Qed.

(** Reports are not merged: after a device has reported one endpoint
    twice, with whatever ports and sources, every probe result for that
    endpoint raises. *)
Theorem repeated_report_breaks_probe `{Env} bind_uuid d endpoint s1 p1 l1 u1 r1 s2 p2 l2 u2 r2 w device peer
    reachable latency source port local_ip public_ip :
  keyed (R := Device.Device) w -> d ∈ devices (w_db w) -> bind_uuid peer = Ok (Device.id d) ->
  exists a1 w1 a2 w2,
    report_endpoint (Device.id d) endpoint s1 p1 l1 u1 r1 w = (Ok a1, w1) /\
    report_endpoint (Device.id d) endpoint s2 p2 l2 u2 r2 w1 = (Ok a2, w2) /\
    (process_probe_result bind_uuid device peer endpoint reachable latency source port local_ip public_ip w2).1
    = Raise MultipleResultsFound.
Proof.
  intros Hk Hd Hbind.
  destruct (report_run d endpoint s1 p1 l1 u1 r1 w Hk Hd) as (a1 & w1 & e1 & Hr1 & Hdb1 & He1).
  assert (keyed (R := Device.Device) w1) as Hk1 by (unfold keyed in *; by rewrite Hdb1).
  assert (d ∈ devices (w_db w1)) as Hd1 by by rewrite Hdb1.
  destruct (report_run d endpoint s2 p2 l2 u2 r2 w1 Hk1 Hd1) as (a2 & w2 & e2 & Hr2 & Hdb2 & He2).
  exists a1, w1, a2, w2. split_and!; [done|done|].
  unfold process_probe_result. rewrite run_now, run_inc, (run_lift _ _ _ _ Hbind).
  unfold select_one. rewrite run_bind, run_select. unfold lift. cbn.
  rewrite Hdb2, Hdb1. cbn. rewrite !List.filter_app. cbn [List.filter]. rewrite He1, He2.
  by destruct (List.filter _ _) as [|x [|y l]].
Qed.

(** A heartbeat takes any address: whatever address another device holds,
    the heartbeat of [d] that names it is answered and gives it to [d] too,
    and from then on an access check to that address raises. *)
Theorem heartbeat_takes_address `{Env} d d' ip source w :
  keyed (R := Device.Device) w -> d ∈ devices (w_db w) -> d' ∈ devices (w_db w) -> Device.id d' <> Device.id d ->
  Device.ip_address d' = Some ip -> truthy ip = true ->
  source ∈ devices (w_db w) -> Device.id source <> Device.id d -> Device.is_active source = true ->
  exists answer w', process_heartbeat (Device.id d) None (Some ip) w = (Ok answer, w') /\
    (exists x, x ∈ devices (w_db w') /\ Device.id x = Device.id d /\ Device.ip_address x = Some ip) /\
    (check_device_access (Device.id source) ip w').1 = Raise MultipleResultsFound.
Proof.
  intros Hk Hd Hd' Hne Hip Htr Hs Hsne Hact.
  destruct (heartbeat_run d None (Some ip) w Hk Hd) as (answer & w' & g & Hrun & Hdb & Hg).
  exists answer, w'. split; [done|].
  assert (forall x, Device.id (g x) = Device.id x /\ Device.ip_address (g x) = Some ip) as Hgx.
  { intros x. specialize (Hg x). split.
    - apply (f_equal Device.id) in Hg. change (Device.id (g x) = Device.id (beat (clock (w_tick w)) None (Some ip) x)) in Hg.
      by rewrite Hg, beat_id.
    - apply (f_equal Device.ip_address) in Hg.
      change (Device.ip_address (g x) = Device.ip_address (beat (clock (w_tick w)) None (Some ip) x)) in Hg.
      by rewrite Hg, beat_ip. }
  assert (g d ∈ devices (w_db w')) as Hgd.
  { rewrite Hdb. cbn. apply elem_of_update_where. left. exists d. split_and!; [done| |done]. by apply by_id_true. }
  assert (forall x, x ∈ devices (w_db w) -> Device.id x <> Device.id d -> x ∈ devices (w_db w')) as Hother.
  { intros x Hx Hxd. rewrite Hdb. cbn. apply elem_of_update_where. right. split; [done|]. by apply by_id_false. }
  split.
  - exists (g d). split; [done|]. apply Hgx.
  - assert (keyed (R := Device.Device) w') as Hk'.
    { unfold keyed. rewrite Hdb. change (NoDup (ids (update_where (by_id (Device.id d)) g (devices (w_db w))))).
      rewrite ids_update; [done|]. intros x. apply Hgx. }
    rewrite (Acl.acl_shared_address_raises source (g d) d'); try done; [by apply Hother|by apply Hother| |apply Hgx].
    intros Heq. apply Hne. rewrite <-Heq. apply Hgx.
Qed.

(** * Witnesses *)
Definition svc_id : uuid := "12345678-1234-5678-1234-567812345678".
Definition svc_device : Device.Device := acl_device svc_id "net" "10.0.0.2" "dev".
Definition svc_ep : endpoint_row :=
  DeviceEndpoint.mk "e" svc_id "203.0.113.9" "stun" 51820 None None 100 true 0 None false None 1 2 0 0.
Definition svc_world : World :=
  world_of (empty_db <| devices := [svc_device; acl_device "b" "net" "10.0.0.3" "dev"; acl_device "c" "net" "10.0.0.4" "dev"] |>
                     <| endpoints := [svc_ep] |>).
Lemma svc_keyed : keyed (R := Device.Device) svc_world.
Proof. apply (bool_decide_unpack _). vm_compute. exact I. Qed.

Lemma probe_updates_known_witness :
  exists preferred w',
    process_probe_result UUID "b" svc_id "203.0.113.9" true (Some 20) "probe" 51820 None None svc_world
    = (Ok (mkProbeAnswer "e" 49 preferred), w').
Proof.
  destruct (probe_updates_known UUID "b" svc_id svc_ep true (Some 20) "probe" 51820 None None svc_world)
    as (p & w' & Hrun & _).
  - apply (bool_decide_unpack _). vm_compute. exact I.
  - left.
  - vm_compute. reflexivity.
  - intros x Hx _. by apply list_elem_of_singleton in Hx.
  - exists p, w'. exact Hrun.
Defined.
Lemma repeated_report_breaks_probe_witness :
  exists w2, (process_probe_result UUID "b" svc_id "198.51.100.1" true None "probe" 51820 None None w2).1
    = Raise MultipleResultsFound.
Proof.
  destruct (repeated_report_breaks_probe UUID svc_device "198.51.100.1" "local" 51820 None None 100 "stun" 40000
    None None 100 svc_world "b" svc_id true None "probe" 51820 None None) as (a1 & w1 & a2 & w2 & _ & _ & Hrun).
  - apply svc_keyed.
  - left.
  - vm_compute. reflexivity.
  - exists w2. exact Hrun.
Defined.
Lemma heartbeat_takes_address_witness :
  exists w', (check_device_access "c" "10.0.0.3" w').1 = Raise MultipleResultsFound.
Proof.
  destruct (heartbeat_takes_address svc_device (acl_device "b" "net" "10.0.0.3" "dev") "10.0.0.3"
    (acl_device "c" "net" "10.0.0.4" "dev") svc_world) as (answer & w' & _ & _ & Hrun);
    [apply svc_keyed|set_solver|set_solver|discriminate|reflexivity|reflexivity|set_solver|discriminate|reflexivity|].
  exists w'. exact Hrun.
Defined.
