(* ===== verification/Background.v ===== *)
(** The background tasks of the server's lifespan ([backend/app/main.py]): the
    three cleanup loops and the loop that sets the gauges.

    A turn is what a task does between two sleeps; [asyncio] runs the turns of
    the tasks one after the other.  The scraped text and the histogram of the
    probes are not modelled. *)
From S2P Require Import Prelude PyStr Json Models Effects WsManager DaemonSvc.
From S2P Require RelayServer Relay Nat.
Local Open Scope string_scope.
Local Open Scope list_scope.
Local Open Scope Z_scope.

Section Background.
Context `{Env}.

(** [async with get_session_factory()() as session]: what was not committed is
    gone when the session closes. *)
Definition own_session {A} (m : IO A) : IO A := try_finally (rollback;; m) (fun w => (rollback w).2).
Definition ignoring {A} (m : IO A) : IO unit := try_except (_ ← m; mret tt) (fun _ => mret tt).

Definition stale_endpoint_turn : IO unit := ignoring (own_session (stale_endpoint_cleanup 30)).
(** The sweep of the relay server at [monotonic]. *)
Definition sweep_server (monotonic : Z) : IO unit :=
  modify (fun w => w <| w_relay := (fun srv =>
    RelayServer.server (RelayServer.remove_expired_tokens (RelayServer.mkRelay srv ∅ [] monotonic 0)).2) <$> w_relay w |>).
Definition relay_session_turn (monotonic : Z) : IO unit :=
  ignoring (own_session Relay.cleanup_expired_relays;; sweep_server monotonic).
Definition nat_session_turn : IO unit := ignoring (own_session Nat.expire_stale_sessions).

(** The turn of [_update_metrics]: [probes] are the health of each probe, or
    the exception it raised; the values of its gauge are returned. *)
Definition recently_seen (cutoff : Z) (d : Device.Device) : bool :=
  match Device.last_handshake d with Some t => cutoff <? t | None => false end.
Definition _update_metrics (ws_manager : option WebSocketConnectionManager) (probes : list (string * outcome bool))
    (wg_controller : bool) : IO (list (string * Z)) :=
  match ws_manager with
  | Some m =>
    set_metric WS_CONNECTIONS (Z.of_nat (active_connections m));;
    set_metric DEVICES_ONLINE (Z.of_nat (active_daemon_connections m))
  | None => mret tt
  end;;
  when wg_controller (ignoring (own_session (
    total ← select_where (R := Device.Device) (fun _ => true);
    set_metric DEVICES_TOTAL (len_list total);;
    t ← now;
    online ← select_where (recently_seen (t - seconds 180));
    set_metric DEVICES_ONLINE (len_list online))));;
  mret ((fun p => (p.1, match p.2 with Ok true => 1 | _ => 0 end)) <$> probes).

(** * Facts *)
Lemma ignoring_ok {A} (m : IO A) w : (ignoring m w).1 = Ok tt.
Proof. apply try_ignore_ok. Qed.
Lemma own_session_uncommitted {A} (m : IO A) w :
  Frame uncommitted m ->
  let w' := (own_session m w).2 in w_committed w' = w_committed w /\ w_db w' = w_committed w.
Proof.
  intros Hm. cbv zeta. unfold own_session, try_finally.
  assert (Frame uncommitted (rollback;; m)) as Hf by apply _. specialize (Hf w).
  destruct ((rollback;; m) w) as [r w1]. cbn [snd] in *. split; exact Hf.
Qed.
Lemma ignoring_state {A} (m : IO A) w : (ignoring m w).2 = (m w).2.
Proof. unfold ignoring, try_except, mbind, M_bind. by destruct (m w) as [[a|e] w']. Qed.
Lemma stale_cleanup_uncommitted n : Frame uncommitted (stale_endpoint_cleanup n).
Proof. unfold stale_endpoint_cleanup, now. apply _. Qed.
Lemma stale_turn w :
  exists w1, stale_endpoint_turn w = (Ok tt, w1) /\ w_committed w1 = w_committed w /\ w_db w1 = w_committed w.
Proof.
  pose proof (ignoring_ok (own_session (stale_endpoint_cleanup 30)) w) as Hok.
  pose proof (ignoring_state (own_session (stale_endpoint_cleanup 30)) w) as Hst.
  destruct (own_session_uncommitted (stale_endpoint_cleanup 30) w (stale_cleanup_uncommitted 30)) as [Hc Hd].
  rewrite <-Hst in Hc, Hd. unfold stale_endpoint_turn. destruct (ignoring _ w) as [r w1]. cbn in *. subst r.
  by exists w1.
Qed.
End Background.

(** * Properties *)

(** The cleanup of stale endpoints does nothing: every turn marks them in a
    session that nobody commits, so that however often it runs, the database is
    as it was before, and the endpoints stay on offer. *)
Theorem stale_endpoints_stay `{Env} turns w :
  let w' := (for_each (replicate (Datatypes.S turns) tt) (fun _ => stale_endpoint_turn) w).2 in
  w_committed w' = w_committed w /\ w_db w' = w_committed w.
Proof.
  cbv zeta. revert w. induction turns as [|n IH]; intros w; destruct (stale_turn w) as (w1 & E & Hc & Hd).
  - cbn [replicate for_each]. by rewrite (bind_ok _ _ _ _ _ E).
  - change (replicate (S (S n)) tt) with (tt :: replicate (S n) tt). cbn [for_each].
    rewrite (bind_ok _ _ _ _ _ E). destruct (IH w1) as [H1 H2]. split; congruence.
Qed.
