(* ===== verification/DevicesApi.v ===== *)
(** The device endpoints: [api/v1/devices.py].

    A handler is a call over the world and the WebSocket manager of the
    process; the user or device the dependencies authenticate is an argument,
    and [as_user] and [as_device] compose a handler with its dependency and
    the request's session.  [event_bus] says whether the process has an event
    bus, [alive] which sockets can be written, [client] is
    [request.client.host]. *)
From Stdlib Require Import Ascii.
From S2P Require Import Prelude PyStr Bytes Json Dict Models Effects Scoring IPv4 Ipam Topology ConfigV2 WsManager Uuid Auth DaemonSvc.
Local Open Scope string_scope.
Local Open Scope list_scope.
Local Open Scope Z_scope.

Record Api := mkApi { api_world : World; api_ws : option WebSocketConnectionManager }.

(** * Requests ([schemas/device.py]) *)
Record DeviceUpdate := mkDeviceUpdate {
  du_name : option string;
  du_dns_enabled : option bool;
  du_is_active : option bool;
  du_tags : option (list string);
  du_enrollment_status : option string;
  du_exit_node_id : option uuid
}.
Record EnrollByKeyRequest := mkEnrollByKey {
  ek_preauth_key : string;
  ek_name : string;
  ek_public_key : string;
  ek_hostname : option string
}.
Record EnrollByKeyResponse := mkEnrolled {
  er_device_id : uuid;
  er_device_token : string;
  er_network_id : uuid;
  er_ip_address : string;
  er_config_v2 : DeviceConfigV2Response
}.
Definition jbool_opt (b : option bool) : json := match b with Some b => JBool b | None => JNull end.
Definition jtags (l : list string) : json := JArr (JStr <$> l).
Definition jtags_opt (l : option (list string)) : json := match l with Some l => jtags l | None => JNull end.
(** [if value is not None: object.field = value] *)
Definition set_if {A R} (v : option A) (f : A -> R -> R) (r : R) : R := match v with Some x => f x r | None => r end.

(** [header.partition(" ")] *)
Fixpoint partition_space (s : string) : string * string :=
  match s with
  | EmptyString => ("", "")
  | String c t => if Ascii.eqb c " " then ("", t) else let '(h, r) := partition_space t in (String c h, r)
  end.
Section Devices.
Context `{Env} (bind_uuid : string -> outcome uuid) (event_bus : bool) (alive : nat -> bool).

(** A call that only acts on the world. *)
Definition on_world {A} (m : IO A) : M Api A := fun s => let '(r, w) := m (api_world s) in (r, mkApi w (api_ws s)).
Definition send_to (device_id : string) (message : obj) : M Api unit :=
  modify (fun s => mkApi (api_world s) ((fun m => (send_to_device alive device_id message m).2) <$> api_ws s)).
Definition api_session {A} (m : M Api A) : M Api A :=
  try_except (a ← m; on_world commit;; mret a) (fun e => on_world rollback;; raise e).
Definition as_user {A} (token : string) (h : User.User -> M Api A) : M Api A :=
  api_session (u ← on_world (get_current_user token); h u).
Definition as_device {A} (device_id : uuid) (token : string) (h : Device.Device -> M Api A) : M Api A :=
  api_session (d ← on_world (get_current_device_by_id device_id token); h d).

(** * [_publish_config_change] *)
Definition other_active (device : Device.Device) (d : Device.Device) : bool :=
  String.eqb (Device.network_id d) (Device.network_id device) && Device.is_active d &&
  negb (String.eqb (Device.id d) (Device.id device)).
Definition peer_message (device peer : Device.Device) (revision reason : string) : obj :=
  [("type", JStr "config.changed"); ("device_id", JStr (Device.id peer)); ("network_id", JStr (Device.network_id device));
   ("revision", JStr revision); ("reason", JStr reason)].
Definition _publish_config_change (device : Device.Device) (reason : string) : M Api unit :=
  try_except (
    if negb event_bus then mret tt else
    config ← on_world (build_config_v2 device);
    on_world (publish EVENT_CONFIG_CHANGED
      [("device_id", JStr (Device.id device)); ("network_id", JStr (Device.network_id device));
       ("revision", JStr (cv_revision config)); ("hash", JStr (cv_hash config)); ("reason", JStr reason)]);;
    ws_manager ← gets api_ws;
    match ws_manager with
    | Some _ =>
      peers ← on_world (select_where (other_active device));
      for_each peers (fun peer => send_to (Device.id peer) (peer_message device peer (cv_revision config) reason))
    | None => mret tt
    end)
  (fun _ => mret tt).

(** * Owners *)
Definition not_owner : exn := HTTPException 403 "Access denied: you do not own this device's network".
Definition find_device (device_id : uuid) : IO Device.Device :=
  found ← select_one (by_id (R := Device.Device) device_id);
  match found with Some d => mret d | None => raise (HTTPException 404 "Device not found") end.
Definition check_owner (current_user : User.User) (device : Device.Device) : IO unit :=
  if User.is_superuser current_user then mret tt else
  net ← select_one (R := Network.Network) (by_id (Device.network_id device));
  match net with
  | Some net => if owns current_user net then mret tt else raise not_owner
  | None => raise not_owner
  end.
(** The same with the owner in the query. *)
Definition check_owned (current_user : User.User) (device : Device.Device) : IO unit :=
  if User.is_superuser current_user then mret tt else
  net ← select_one (R := Network.Network) (fun n => by_id (Device.network_id device) n && owns current_user n);
  match net with Some _ => mret tt | None => raise not_owner end.

(** * Handlers *)
Definition created_before (a b : Device.Device) : bool := Device.created_at a <=? Device.created_at b.
Definition list_all_devices (current_user : User.User) : IO (list Device.Device) :=
  ds ← select_where (fun d => User.is_superuser current_user || bool_decide (Device.user_id d = Some (User.id current_user)));
  mret (sort_stable created_before ds).
Definition get_device (device_id : uuid) (current_user : User.User) : IO Device.Device :=
  device ← find_device device_id;
  check_owner current_user device;; mret device.

Definition updated_device (req : DeviceUpdate) (d : Device.Device) : Device.Device :=
  let d := set_if (du_name req) (fun v d => d <| Device.name := v |>) d in
  let d := set_if (du_dns_enabled req) (fun v d => d <| Device.dns_enabled := v |>) d in
  let d := set_if (du_is_active req) (fun v d => d <| Device.is_active := v |>) d in
  let d := set_if (du_tags req) (fun v d => d <| Device.tags := Some v |>) d in
  let d := set_if (du_enrollment_status req) (fun v d => d <| Device.enrollment_status := v |>) d in
  set_if (du_exit_node_id req) (fun v d => d <| Device.exit_node_id := Some v |>) d.
Definition update_device (device_id : uuid) (req : DeviceUpdate) (client : option string) (current_user : User.User)
    : IO Device.Device :=
  device ← find_device device_id;
  check_owner current_user device;;
  match du_exit_node_id req with Some i => fk_device i | None => mret tt end;;
  flush_device device_id (updated_device req);;
  audit "device.update" "user" (Some (User.id current_user)) "device" (Some device_id)
    [("name", jstr_opt (du_name req)); ("is_active", jbool_opt (du_is_active req)); ("tags", jtags_opt (du_tags req))] client;;
  reload device_id.

Definition device_heartbeat (device_id : uuid) (public_key ip_address : option string) : IO obj :=
  process_heartbeat device_id public_key ip_address.

Definition device_report_endpoint (device_id : uuid) (endpoint source : string) (port : Z)
    (local_ip public_ip : option string) (current_device : Device.Device) : M Api obj :=
  result ← on_world (report_endpoint device_id endpoint source port local_ip public_ip 100);
  _publish_config_change current_device "endpoint.updated";;
  mret result.
Definition device_probe_result (device_id : uuid) (peer_device_id endpoint : string) (reachable : bool)
    (latency_ms : option Z) (source : string) (port : Z) (local_ip public_ip : option string)
    (current_device : Device.Device) : M Api probe_answer :=
  result ← on_world (process_probe_result bind_uuid device_id peer_device_id endpoint reachable latency_ms source port
                       local_ip public_ip);
  _publish_config_change current_device "endpoint.probe";;
  mret result.

Definition enroll_device (device_id : uuid) (public_key : string) (ip_address client : option string)
    (current_user : User.User) : IO (uuid * string * string) :=
  device ← find_device device_id;
  check_owner current_user device;;
  if negb (Device.is_node_owned device) then
    raise (HTTPException 400 "Device is not configured for node-owned keys")
  else if negb (String.eqb (Device.enrollment_status device) "pending") then
    raise (HTTPException 400 ("Device enrollment status is '" +:+ Device.enrollment_status device +:+ "', expected 'pending'"))
  else
  '(device_token, prefix, hashed_secret) ← generate_device_token;
  t ← now;
  flush_device device_id (fun d =>
    let d := d <| Device.public_key := Some public_key |> in
    let d := if opt_truthy ip_address then d <| Device.ip_address := ip_address |> else d in
    d <| Device.device_token_hash := Some hashed_secret |> <| Device.device_token_prefix := Some prefix |>
      <| Device.enrollment_status := "active" |> <| Device.enrolled_at := Some t |>);;
  audit "device.enroll" "user" (Some (User.id current_user)) "device" (Some device_id)
    [("public_key", JStr (take_str 16 public_key +:+ "..."))] client;;
  mret (Device.id device, device_token, "active").

Definition get_device_config_endpoint (device_id : uuid) (current_user : User.User) : IO (string * string) :=
  device ← find_device device_id;
  check_owned current_user device;;
  config ← get_device_config device_id;
  mret (config, "midscale-" +:+ Device.name device +:+ ".conf").

Definition rotate_device_token (device_id : uuid) (current_device : Device.Device) : IO string :=
  if negb (String.eqb (Device.id current_device) device_id) then
    raise (HTTPException 403 "Device token can only be rotated by the device itself")
  else if negb (String.eqb (Device.enrollment_status current_device) "active") then
    raise (HTTPException 400 ("Cannot rotate token for device with status '" +:+ Device.enrollment_status current_device +:+ "'"))
  else if opt_truthy (Device.device_token_prefix current_device) then
    new_secret ← tick (fun n => token_urlsafe n 36);
    hashed ← hash_password new_secret;
    flush_device device_id (fun d => d <| Device.device_token_hash := Some hashed |>);;
    mret (token_text (default "" (Device.device_token_prefix current_device)) new_secret)
  else
    '(new_token, prefix, hashed) ← generate_device_token;
    flush_device device_id (fun d => d <| Device.device_token_hash := Some hashed |>
                                       <| Device.device_token_prefix := Some prefix |>);;
    mret new_token.

Definition revoked (t : Z) (d : Device.Device) : Device.Device :=
  d <| Device.enrollment_status := "revoked" |> <| Device.is_active := false |> <| Device.revoked_at := Some t |>.
Definition revoke_device (device_id : uuid) (client : option string) (current_user : User.User) : M Api unit :=
  device ← on_world (find_device device_id);
  on_world (check_owned current_user device);;
  if String.eqb (Device.enrollment_status device) "revoked" then raise (HTTPException 400 "Device is already revoked") else
  t ← on_world now;
  on_world (flush_device device_id (revoked t));;
  device ← on_world (reload device_id);
  _publish_config_change device "device.revoked";;
  on_world (audit "device.revoke" "user" (Some (User.id current_user)) "device" (Some device_id)
              [("enrollment_status", JStr "revoked")] client).

(** ** Configuration V2: any access token of an active user will do *)
Definition user_of_credentials (credentials : string) : IO (option User.User) :=
  match decode_token credentials with
  | None => mret None
  | Some payload =>
    if negb (is_type "access" payload) then mret None else
    match obj_get "sub" payload with
    | None => mret None
    | Some uid_str =>
      if negb (json_truthy uid_str) then mret None else
      match uuid_of uid_str with
      | Ok uid => select_one (R := User.User) (fun u => by_id uid u && User.is_active u)
      | Raise (ValueError _) => mret None
      | Raise e => raise e
      end
    end
  end.
Definition bad_status (device : Device.Device) : exn :=
  HTTPException 400 ("Device enrollment status is '" +:+ Device.enrollment_status device +:+ "', expected 'active'").
Definition get_device_config_v2 (device_id : uuid) (authorization : option string) : IO DeviceConfigV2Response :=
  if negb (opt_truthy authorization) then raise (unauthorized "Authentication required") else
  let '(scheme, credentials) := partition_space (default "" authorization) in
  if negb (String.eqb (lower scheme) "bearer") || negb (truthy credentials) then
    raise (unauthorized "Invalid authorization header")
  else
  user ← user_of_credentials credentials;
  device_auth ← match user with
                | Some _ => mret None
                | None => _lookup_device_by_token credentials
                end;
  if negb (bool_decide (is_Some user)) && negb (bool_decide (is_Some device_auth)) then
    raise (unauthorized "Invalid authentication")
  else if match device_auth with Some d => negb (String.eqb (Device.id d) device_id) | None => false end then
    raise (HTTPException 403 "Device token does not match requested device")
  else
  device ← find_device device_id;
  if negb (Device.is_active device) then raise (HTTPException 400 "Device is not active")
  else if negb (opt_truthy (Device.ip_address device)) then raise (HTTPException 400 "Device has no IP address assigned")
  else if negb (String.eqb (Device.enrollment_status device) "active") then raise (bad_status device)
  else build_config_v2 device.

(** ** Enrollment with a pre-auth key *)
Definition has_key (key : string) (k : PreAuthKey.PreAuthKey) : bool := String.eqb (PreAuthKey.key k) key.
Definition used (k : PreAuthKey.PreAuthKey) : bool := match PreAuthKey.used_by k with Some (_ :: _) => true | _ => false end.
(** A key for one use is deleted, another one records the device. *)
Definition spend_key (preauth : PreAuthKey.PreAuthKey) (device_id : uuid) : IO unit :=
  if negb (PreAuthKey.reusable preauth) then delete_row (R := PreAuthKey.PreAuthKey) (PreAuthKey.id preauth)
  else update_row (PreAuthKey.id preauth) (fun k =>
         k <| PreAuthKey.used_by := Some (default [] (PreAuthKey.used_by k) ++ [device_id]) |>).
Definition network_of (preauth : PreAuthKey.PreAuthKey) : IO Network.Network :=
  nets ← select_where (by_id (R := Network.Network) (PreAuthKey.network_id preauth));
  lift (scalar_one nets).

Definition enroll_by_key (req : EnrollByKeyRequest) (client : option string) : IO EnrollByKeyResponse :=
  found ← select_one (has_key (ek_preauth_key req));
  match found with
  | None => inc (DEVICE_ENROLLMENT "invalid_key");; raise (unauthorized "Invalid pre-auth key")
  | Some preauth =>
    t0 ← now;
    if PreAuthKey.expires_at preauth <? t0 then
      inc (DEVICE_ENROLLMENT "expired_key");; raise (unauthorized "Pre-auth key has expired")
    else if negb (PreAuthKey.reusable preauth) && used preauth then
      inc (DEVICE_ENROLLMENT "used_key");; raise (unauthorized "Pre-auth key has already been used")
    else
    network ← network_of preauth;
    ip ← allocate_ip (PreAuthKey.network_id preauth) (Network.subnet network);
    t ← now;
    '(device_token, prefix, hashed_secret) ← generate_device_token;
    id ← new_uuid; created ← now; updated ← now;
    let device := Device.mk id (ek_name req) None (PreAuthKey.network_id preauth) (Some (ek_public_key req)) None
      (Some ip) true true true (Some hashed_secret) (Some prefix) "active" (Some t) (Some t) None (Some []) None None
      created updated in
    add_row device;;
    spend_key preauth id;;
    config_v2 ← build_config_v2 device;
    inc (DEVICE_ENROLLMENT "success");;
    audit "device.enroll_by_key" "device" (Some id) "device" (Some id)
      [("name", JStr (ek_name req)); ("network_id", JStr (PreAuthKey.network_id preauth)); ("ip", JStr ip);
       ("hostname", jstr_opt (ek_hostname req))] client;;
    mret (mkEnrolled id device_token (PreAuthKey.network_id preauth) ip config_v2)
  end.

Definition register_device (key name : string) (client : option string) : IO Device.Device :=
  found ← select_one (has_key key);
  match found with
  | None => raise (unauthorized "Invalid pre-auth key")
  | Some preauth =>
    t0 ← now;
    if PreAuthKey.expires_at preauth <? t0 then raise (unauthorized "Pre-auth key has expired") else
    network ← network_of preauth;
    ip ← allocate_ip (PreAuthKey.network_id preauth) (Network.subnet network);
    id ← new_uuid; created ← now; updated ← now;
    add_row (Device.mk id name None (PreAuthKey.network_id preauth) None None (Some ip) true true false None None
               "active" None None None (Some []) None None created updated);;
    save_device_keys id;;
    spend_key preauth id;;
    audit "device.register" "device" (Some id) "device" (Some id)
      [("name", JStr name); ("network_id", JStr (PreAuthKey.network_id preauth)); ("ip", JStr ip)] client;;
    reload id
  end.
End Devices.

(** * Running the handlers *)
Section Runs.
Context `{Env}.

Lemma run_on_world {A B} (m : IO A) (k : A -> M Api B) s :
  (on_world m ≫= k) s =
  match m (api_world s) with
  | (Ok a, w) => k a (mkApi w (api_ws s))
  | (Raise e, w) => (Raise e, mkApi w (api_ws s))
  end.
Proof. unfold on_world, mbind, M_bind. by destruct (m (api_world s)) as [[a|e] w]. Qed.
Lemma find_device_inv i w d w' : find_device i w = (Ok d, w') -> w' = w /\ d ∈ devices (w_db w) /\ Device.id d = i.
Proof.
  unfold find_device. rewrite run_bind. destruct (select_one _ w) as [[o|e] w1] eqn:E; [|done].
  apply select_one_inv in E as [-> Ho]. destruct o as [d1|]; [|done]. destruct Ho as [Hi%by_id_true Hin].
  by intros [= <- <-].
Qed.
Lemma check_owned_inv u d w r w' : check_owned u d w = (r, w') -> w' = w.
Proof.
  unfold check_owned. destruct (User.is_superuser u); [by intros [= _ <-]|]. rewrite run_bind.
  unfold select_one, lift. rewrite run_select. destruct (scalar_one_or_none _) as [[n|]|e]; by intros [= _ <-].
Qed.

(** The configuration of an inactive device cannot be built. *)
Lemma inactive_no_config d w :
  keyed (R := Device.Device) w -> d ∈ devices (w_db w) -> Device.is_active d = false ->
  exists e, build_config_v2 d w = (Raise e, w).
Proof.
  intros Hk Hd Ha. rewrite build_config_v2_run. unfold config_parts. cbv zeta.
  destruct (scalar_one _) as [network|e]; [|eauto].
  destruct (List.find _ _) as [current|] eqn:E; [|eauto]. exfalso.
  apply find_has_id in E as [(d0 & -> & [Hp Hin]%elem_of_filter_list)%list_elem_of_fmap Hid].
  assert (d0 = d) as -> by (eapply keyed_eq; done). unfold plannable in Hp. rewrite Ha in Hp.
  by rewrite ?andb_false_r, ?andb_false_l in Hp.
Qed.
Lemma no_config_no_change (event_bus : bool) alive d reason s e :
  build_config_v2 d (api_world s) = (Raise e, api_world s) ->
  _publish_config_change event_bus alive d reason s = (Ok tt, s).
Proof.
  intros Hb. unfold _publish_config_change, try_except. destruct event_bus; [|done].
  cbn [negb]. rewrite run_on_world, Hb. by destruct s.
Qed.
Lemma audit_run action at_ ai tt_ ti details ip w :
  exists w', audit action at_ ai tt_ ti details ip w = (Ok tt, w') /\
    (exists l, w_db w' = w_db w <| audit_logs := l |>) /\ w_events w' = w_events w.
Proof.
  unfold audit. rewrite run_now, run_uuid. unfold add_row. rewrite run_modify.
  eexists. split; [reflexivity|]. split; [by eexists|done].
Qed.
Lemma flushed_id t f d : (forall x, Device.id (f x) = Device.id x) -> Device.id (flushed t f d) = Device.id d.
Proof. intros Hf. unfold flushed. case_decide; [done|]. apply Hf. Qed.
Lemma flushed_revoked t t' d : Device.is_active (flushed t (revoked t') d) = false.
Proof.
  unfold flushed. case_decide as Hd; [|done]. apply (f_equal Device.is_active) in Hd. by rewrite <-Hd.
Qed.
Lemma keyed_update_devices w w' i f :
  keyed (R := Device.Device) w -> devices (w_db w') = update_where (by_id i) f (devices (w_db w)) ->
  (forall x, Device.id (f x) = Device.id x) -> keyed (R := Device.Device) w'.
Proof.
  intros Hk Hdb Hf. unfold keyed. change (rows (w_db w')) with (devices (w_db w')). rewrite Hdb, ids_update; done.
Qed.

Lemma run_bind_api {A B} (m : M Api A) (k : A -> M Api B) s :
  (m ≫= k) s = match m s with (Ok a, s') => k a s' | (Raise e, s') => (Raise e, s') end.
Proof. reflexivity. Qed.
Lemma flush_run i f w :
  flush_device i f w = (Ok tt, on_rows (update_where (by_id i) (flushed (clock (w_tick w)) f)) (ticked w)).
Proof. reflexivity. Qed.
Lemma reload_updated (d : Device.Device) f w :
  keyed (R := Device.Device) w -> d ∈ devices (w_db w) -> (forall x, Device.id (f x) = Device.id x) ->
  reload (row_id d) (on_rows (update_where (by_id (row_id d)) f) w) =
  (Ok (f d), on_rows (update_where (by_id (row_id d)) f) w).
Proof.
  intros Hk Hd Hf. unfold reload. rewrite run_bind. cbn [gets].
  change (rows (w_db (on_rows (update_where (by_id (row_id d)) f) w)))
    with (update_where (by_id (row_id d)) f (devices (w_db w))).
  by rewrite find_updated.
Qed.

(** A revocation that returns. *)
Lemma revoke_run event_bus alive i client u s s' :
  keyed (R := Device.Device) (api_world s) ->
  revoke_device event_bus alive i client u s = (Ok tt, s') ->
  (exists d t t', d ∈ devices (w_db (api_world s)) /\ Device.id d = i /\
     devices (w_db (api_world s')) = update_where (by_id i) (flushed t (revoked t')) (devices (w_db (api_world s)))) /\
  w_events (api_world s') = w_events (api_world s) /\ api_ws s' = api_ws s.
Proof.
  intros Hk. unfold revoke_device. rewrite run_on_world.
  destruct (find_device i (api_world s)) as [[d|e] w1] eqn:Ef; [|done]. apply find_device_inv in Ef as (-> & Hd & Hi).
  rewrite run_on_world. destruct (check_owned u d _) as [[[]|e] w1] eqn:Eo; [|done]. apply check_owned_inv in Eo as ->.
  destruct (String.eqb _ "revoked"); [done|]. rewrite run_on_world. unfold now at 1, tick at 1. cbn [api_world api_ws].
  set (t := clock _). rewrite run_on_world, flush_run. cbn [api_world api_ws].
  set (w1 := api_world s <| w_tick := _ |>). set (f := flushed _ _).
  assert (forall x, Device.id (f x) = Device.id x) as Hf by (intros x; by apply flushed_id).
  rewrite run_on_world. cbn [api_world api_ws]. rewrite <-Hi. change (Device.id d) with (row_id d).
  rewrite (reload_updated d f (ticked w1)) by done.
  set (w2 := on_rows _ (ticked w1)).
  assert (devices (w_db w2) = update_where (by_id (row_id d)) f (devices (w_db (api_world s)))) as Hdb by done.
  assert (keyed (R := Device.Device) w2) as Hk2 by (by eapply keyed_update_devices).
  assert (f d ∈ devices (w_db w2)) as Hin.
  { rewrite Hdb. apply elem_of_update_where. left. exists d. split_and!; [done| |done]. by apply by_id_true. }
  destruct (inactive_no_config (f d) w2 Hk2 Hin) as [e He]; [apply flushed_revoked|].
  rewrite run_bind_api, (no_config_no_change _ _ _ _ (mkApi w2 (api_ws s)) e He). unfold on_world. cbn [api_world].
  match goal with |- context [audit ?a ?b ?c ?d ?e ?f ?g w2] =>
    destruct (audit_run a b c d e f g w2) as (w3 & Ha & [l Hl] & Hev); rewrite Ha end.
  intros [= <-]. cbn [api_world api_ws]. split; [|done]. exists d, (clock (w_tick w1)), t.
  split_and!; [done|done|]. rewrite Hl. done.
Qed.

Lemma select_one_none `{Table R} (p : R -> bool) w :
  (forall r, r ∈ rows (w_db w) -> p r = false) -> select_one p w = (Ok None, w).
Proof.
  intros Hp. unfold select_one, select_where, lift, gets, mbind, M_bind.
  destruct (List.filter p (rows (w_db w))) as [|r l] eqn:E; [done|].
  assert (r ∈ List.filter p (rows (w_db w))) as [Hr Hin]%elem_of_filter_list by (rewrite E; left).
  by rewrite Hp in Hr.
Qed.

(** ** Enrollment by key *)
Lemma allocate_ip_fresh network_id subnet w s w' :
  allocate_ip network_id subnet w = (Ok s, w') -> w' = w /\ s ∉ used_ips network_id (devices (w_db w)).
Proof.
  unfold allocate_ip. rewrite run_bind. unfold lift. destruct (_network_address subnet) as [net|e]; [|done].
  rewrite run_bind. cbn [gets]. destruct (first_free _ _ _) as [s1|] eqn:E; [|done]. intros [= -> <-].
  split; [done|]. by apply first_free_some in E as (h & pre & post & _ & -> & _ & Hu & _).
Qed.
Lemma network_of_inv k w n w' : network_of k w = (Ok n, w') -> w' = w.
Proof. unfold network_of. rewrite run_select. unfold lift. by intros [= _ <-]. Qed.
Lemma run_generate {B} (k : string * string * string -> IO B) w :
  (generate_device_token ≫= k) w =
  let n := w_tick w in
  let prefix := take_str 8 (token_urlsafe n 6) in
  let secret := token_urlsafe (S n) 36 in
  k (token_text prefix secret, prefix, pwd_hash (S (S n)) secret) (ticked (ticked (ticked w))).
Proof. reflexivity. Qed.

Definition keys_after (preauth : PreAuthKey.PreAuthKey) (device_id : uuid) (l : list PreAuthKey.PreAuthKey) :=
  if negb (PreAuthKey.reusable preauth) then List.filter (fun k => negb (by_id (PreAuthKey.id preauth) k)) l
  else update_where (by_id (PreAuthKey.id preauth)) (fun k =>
         k <| PreAuthKey.used_by := Some (default [] (PreAuthKey.used_by k) ++ [device_id]) |>) l.
Lemma run_spend {B} preauth i (k : unit -> IO B) w :
  (spend_key preauth i ≫= k) w = k tt (on_rows (keys_after preauth i) w).
Proof. unfold spend_key, keys_after. by destruct (PreAuthKey.reusable preauth). Qed.

(** What a successful enrollment has done. *)
Record enrolled (req : EnrollByKeyRequest) (w : World) (r : EnrollByKeyResponse) (w' : World) : Prop := {
  en_key : exists preauth, preauth ∈ preauth_keys (w_db w) /\ PreAuthKey.key preauth = ek_preauth_key req /\
    (forall k, k ∈ preauth_keys (w_db w) -> PreAuthKey.key k = ek_preauth_key req -> k = preauth) /\
    PreAuthKey.network_id preauth = er_network_id r /\
    preauth_keys (w_db w') = keys_after preauth (er_device_id r) (preauth_keys (w_db w)) /\
    used preauth && negb (PreAuthKey.reusable preauth) = false;
  en_device : exists d n, devices (w_db w') = devices (w_db w) ++ [d] /\
    Device.id d = er_device_id r /\ Device.network_id d = er_network_id r /\
    Device.ip_address d = Some (er_ip_address r) /\ er_ip_address r ∉ used_ips (er_network_id r) (devices (w_db w)) /\
    Device.public_key d = Some (ek_public_key req) /\ Device.is_active d = true /\ Device.enrollment_status d = "active" /\
    (w_tick w <= n)%nat /\ er_device_id r = uuid4 (S (S (S n))) /\
    (exists i p rt x t, config_parts (w_db w') d = Ok (i, p, rt, x) /\ er_config_v2 r = config_at t i p rt x) /\
    (let prefix := take_str 8 (token_urlsafe n 6) in
     let secret := token_urlsafe (S n) 36 in
     er_device_token r = token_text prefix secret /\ Device.device_token_prefix d = Some prefix /\
     Device.device_token_hash d = Some (pwd_hash (S (S n)) secret))
}.
(** The audit log plays no part in a configuration. *)
Lemma config_parts_audit db l d : config_parts (db <| audit_logs := l |>) d = config_parts db d.
Proof. reflexivity. Qed.
Lemma enroll_run req client w r w' : enroll_by_key req client w = (Ok r, w') -> enrolled req w r w'.
Proof.
  unfold enroll_by_key. rewrite run_bind.
  destruct (select_one _ w) as [[[preauth|]|e] w1] eqn:Ef; [|done..].
  pose proof Ef as Hone. apply select_one_inv in Ef as [-> [Hkey%String.eqb_eq Hin]].
  rewrite run_now. destruct (_ <? _); [done|].
  destruct (negb _ && used _) eqn:Eu; [done|].
  rewrite run_bind. destruct (network_of preauth _) as [[network|e] w1] eqn:En; [|done]. apply network_of_inv in En as ->.
  rewrite run_bind. destruct (allocate_ip _ _ _) as [[ip|e] w1] eqn:Ea; [|done].
  apply allocate_ip_fresh in Ea as [-> Hip].
  rewrite run_now, run_generate. cbv zeta beta iota. rewrite run_uuid, !run_now.
  unfold add_row at 1. rewrite run_modify, run_spend.
  match goal with |- context [build_config_v2 ?d] => set (device := d) end.
  rewrite run_bind, build_config_v2_run. destruct (config_parts _ device) as [[[[i p] rt] x]|e] eqn:Ecfg; [|done].
  rewrite run_inc. rewrite run_bind.
  match goal with |- context [audit ?a ?b ?c ?d ?e ?f ?g ?w2] =>
    destruct (audit_run a b c d e f g w2) as (w3 & Hau & [l Hl] & _); rewrite Hau end.
  intros [Hr <-]%ret_inv. subst r. split.
  - exists preauth. split_and!; [done|done| |done|by rewrite Hl|by rewrite andb_comm].
    intros k Hk Hkk. assert (k ∈ List.filter (has_key (ek_preauth_key req)) (preauth_keys (w_db w))) as Hkf.
    { apply elem_of_filter_list. split; [by apply String.eqb_eq|done]. }
    assert (preauth ∈ List.filter (has_key (ek_preauth_key req)) (preauth_keys (w_db w))) as Hpf.
    { apply elem_of_filter_list. split; [by apply String.eqb_eq|done]. }
    unfold select_one, select_where, lift, gets, mbind, M_bind in Hone.
    change (rows (w_db w)) with (preauth_keys (w_db w)) in Hone.
    destruct (List.filter _ _) as [|a [|b t]]; [done| |done].
    apply list_elem_of_singleton in Hkf, Hpf. congruence.
  - exists device, (S (S (w_tick w))). rewrite Hl. split_and!; try done; [cbn; lia|].
    exists i, p, rt, x. eexists. split; [by rewrite config_parts_audit|reflexivity].
Qed.
End Runs.

(** * Properties *)

(** C21. After a revocation that returns, the device's row is inactive and no
    token whatever is accepted for the device; and nobody is told: the
    configuration that would be announced cannot be built for an inactive
    device, so no event is published and nothing is sent to any socket. *)
Theorem revoke_locks_out `{Env} event_bus alive device_id client u s s' :
  keyed (R := Device.Device) (api_world s) ->
  revoke_device event_bus alive device_id client u s = (Ok tt, s') ->
  (forall d, d ∈ devices (w_db (api_world s')) -> Device.id d = device_id -> Device.is_active d = false) /\
  (forall token d w', get_current_device_by_id device_id token (api_world s') <> (Ok d, w')) /\
  w_events (api_world s') = w_events (api_world s) /\ api_ws s' = api_ws s.
Proof.
  intros Hk Hrun. destruct (revoke_run _ _ _ _ _ _ _ Hk Hrun) as ((d0 & t & t' & Hd & Hi & Hdb) & Hev & Hws).
  assert (forall d, d ∈ devices (w_db (api_world s')) -> Device.id d = device_id -> Device.is_active d = false) as Hin.
  { intros d. rewrite Hdb. intros [(x & _ & _ & ->)|[_ Hne%by_id_false]]%elem_of_update_where; [|done].
    intros _. apply flushed_revoked. }
  split_and!; [done| |done|done]. intros token d w' Hg.
  apply get_device_ok in Hg as (_ & Hd' & Hid & Ha & _). rewrite (Hin d Hd' Hid) in Ha. done.
Qed.

(** A pre-auth key that is not reusable enrolls one device: once an
    enrollment with it has returned, every other enrollment or registration
    that presents it is refused, as long as no key is added. *)
Theorem enroll_key_once `{Env} req client w r w' :
  enroll_by_key req client w = (Ok r, w') ->
  (forall k, k ∈ preauth_keys (w_db w) -> PreAuthKey.key k = ek_preauth_key req -> PreAuthKey.reusable k = false) ->
  forall w2 req' client' name, preauth_keys (w_db w2) = preauth_keys (w_db w') ->
    ek_preauth_key req' = ek_preauth_key req ->
    (enroll_by_key req' client' w2).1 = Raise (unauthorized "Invalid pre-auth key") /\
    (register_device (ek_preauth_key req) name client' w2).1 = Raise (unauthorized "Invalid pre-auth key").
Proof.
  intros Hrun Honce w2 req' client' name Hkeys Hreq.
  destruct (enroll_run _ _ _ _ _ Hrun) as [(k & Hk & Hkey & Huniq & _ & Hafter & _) _].
  assert (select_one (has_key (ek_preauth_key req)) w2 = (Ok None, w2)) as Hnone.
  { apply select_one_none. change (rows (w_db w2)) with (preauth_keys (w_db w2)). rewrite Hkeys, Hafter.
    unfold keys_after. rewrite (Honce k) by done. cbn [negb]. intros x [Hx Hin]%elem_of_filter_list.
    apply String.eqb_neq. intros Hxk. rewrite (Huniq x Hin Hxk) in Hx.
    unfold by_id in Hx. cbn [row_id preauth_keys_table] in Hx. by rewrite String.eqb_refl in Hx. }
  unfold enroll_by_key, register_device. rewrite Hreq, !run_bind, Hnone. done.
Qed.

(** The new device, and that its token is accepted for it from then on. *)
Lemma enroll_token `{Env} req client w r w' w2 :
  enroll_by_key req client w = (Ok r, w') ->
  keyed (R := Device.Device) w ->
  (forall d n, d ∈ devices (w_db w) -> (w_tick w <= n)%nat -> Device.id d <> uuid4 n) ->
  (forall d n, d ∈ devices (w_db w) -> (w_tick w <= n)%nat ->
     Device.device_token_prefix d <> Some (take_str 8 (token_urlsafe n 6))) ->
  (forall n, (8 <= String.length (token_urlsafe n 6))%nat /\ token_urlsafe n 36 <> "") ->
  (forall n s, pwd_verify s (pwd_hash n s) = true /\ pwd_hash n s <> "") ->
  w_db w2 = w_db w' ->
  exists d, devices (w_db w') = devices (w_db w) ++ [d] /\ Device.id d = er_device_id r /\
    Device.ip_address d = Some (er_ip_address r) /\ er_ip_address r ∉ used_ips (er_network_id r) (devices (w_db w)) /\
    Device.is_active d = true /\ Device.enrollment_status d = "active" /\ keyed (R := Device.Device) w2 /\
    get_current_device (er_device_token r) w2 = (Ok d, w2) /\
    (exists i p rt x t, config_parts (w_db w') d = Ok (i, p, rt, x) /\ er_config_v2 r = config_at t i p rt x).
Proof.
  intros Hrun Hk Hfresh Hprefix Htok Hpwd Hw2.
  destruct (enroll_run _ _ _ _ _ Hrun) as [_ (d & n & Hdb & Hid & Hnet & Hip & Hfree & Hpk & Ha & Hst & Hn & Hu & Hcfg & Ht & Hp & Hh)].
  assert (keyed (R := Device.Device) w2) as Hk2.
  { unfold keyed. change (rows (w_db w2)) with (devices (w_db w2)). rewrite Hw2, Hdb. unfold ids. rewrite fmap_app.
    apply NoDup_app. split_and!; [done| |apply NoDup_singleton].
    intros i (x & -> & Hx)%list_elem_of_fmap Hi%list_elem_of_singleton.
    apply (Hfresh x (S (S (S n)))); [done|lia|]. rewrite <-Hu, <-Hid. exact Hi. }
  exists d. split_and!; [done..| |done]. rewrite Ht.
  apply (token_admits d _ _ (pwd_hash (S (S n)) (token_urlsafe (S n) 36)) w2); try done.
  - rewrite Hw2, Hdb. apply elem_of_app. right. by left.
  - rewrite take_str_length. specialize (Htok n). lia.
  - apply Htok.
  - apply Hpwd.
  - apply Hpwd.
  - intros d' Hd' Hp' _. rewrite Hw2, Hdb in Hd'. apply elem_of_app in Hd' as [Hd'|Hd'%list_elem_of_singleton]; [|done].
    by destruct (Hprefix d' n Hd' Hn).
Qed.

(** C22. The token an enrollment returns lets the new device in: with fresh
    identifiers, prefixes of eight characters that no device has yet and a
    password library that verifies what it has hashed, the database gains
    exactly the new device, at an address no device of its network had, and
    the token is accepted for it without a change of the world. *)
Theorem enroll_admits `{Env} req client w r w' :
  enroll_by_key req client w = (Ok r, w') ->
  keyed (R := Device.Device) w ->
  (forall d n, d ∈ devices (w_db w) -> (w_tick w <= n)%nat -> Device.id d <> uuid4 n) ->
  (forall d n, d ∈ devices (w_db w) -> (w_tick w <= n)%nat ->
     Device.device_token_prefix d <> Some (take_str 8 (token_urlsafe n 6))) ->
  (forall n, (8 <= String.length (token_urlsafe n 6))%nat /\ token_urlsafe n 36 <> "") ->
  (forall n s, pwd_verify s (pwd_hash n s) = true /\ pwd_hash n s <> "") ->
  exists d, devices (w_db w') = devices (w_db w) ++ [d] /\ Device.id d = er_device_id r /\
    Device.ip_address d = Some (er_ip_address r) /\ er_ip_address r ∉ used_ips (er_network_id r) (devices (w_db w)) /\
    get_current_device_by_id (er_device_id r) (er_device_token r) w' = (Ok d, w').
Proof.
  intros Hrun Hk Hfresh Hprefix Htok Hpwd.
  destruct (enroll_token _ _ _ _ _ w' Hrun Hk Hfresh Hprefix Htok Hpwd eq_refl) as (d & Hdb & Hid & Hip & Hfree & _ & _ & _ & Hg & _).
  exists d. split_and!; [done..|]. unfold get_current_device_by_id. by rewrite run_bind, Hg, Hid, String.eqb_refl.
Qed.

(** Configuration V2 is not protected by ownership: the access token of
    any active user is answered with the configuration of any enrolled device,
    also where the older configuration endpoint refuses that user. *)
Theorem config_v2_ignores_ownership `{Env} u d token payload w :
  keyed (R := User.User) w -> keyed (R := Device.Device) w ->
  u ∈ users (w_db w) -> User.is_active u = true -> User.is_superuser u = false -> UUID (User.id u) = Ok (User.id u) ->
  d ∈ devices (w_db w) -> Device.is_active d = true -> opt_truthy (Device.ip_address d) = true ->
  Device.enrollment_status d = "active" ->
  (forall n, n ∈ networks (w_db w) -> Network.id n = Device.network_id d -> Network.owner_id n <> Some (User.id u)) ->
  jwt_decode token = Some payload -> is_type "access" payload = true -> obj_get "sub" payload = Some (JStr (User.id u)) ->
  token <> "" ->
  get_device_config_v2 (Device.id d) (Some ("Bearer " +:+ token)) w = build_config_v2 d w /\
  get_device_config_endpoint (Device.id d) u w = (Raise not_owner, w).
Proof.
  intros Hku Hkd Hu Hua Hus Huid Hd Hda Hip Hst Hnet Hdec Htype Hsub Htok.
  assert (find_device (Device.id d) w = (Ok d, w)) as Hfind.
  { unfold find_device. change (Device.id d) with (row_id d). by rewrite run_bind, select_by_id. }
  split.
  - unfold get_device_config_v2. cbn [opt_truthy default from_option id].
    change (truthy ("Bearer " +:+ token)) with true.
    change (partition_space ("Bearer " +:+ token)) with ("Bearer", token). cbn [negb].
    assert (truthy token = true) as -> by by destruct token.
    change (String.eqb (lower "Bearer") "bearer") with true. cbn [negb orb].
    assert (user_of_credentials token w = (Ok (Some u), w)) as Hcred.
    { unfold user_of_credentials, decode_token. rewrite Hdec, Htype, Hsub. cbn [negb json_truthy].
      assert (truthy (User.id u) = true) as -> by by destruct (User.id u). cbn [negb uuid_of]. rewrite Huid.
      apply select_one_unique; [done|done| |].
      - rewrite Hua, andb_true_r. by apply by_id_true.
      - intros u' Hu' [Hi%by_id_true _]%andb_true_iff. by eapply keyed_eq. }
    rewrite run_bind, Hcred, run_ret, bool_decide_eq_true_2 by done. cbn [negb andb].
    rewrite run_bind, Hfind, Hda, Hip, Hst. done.
  - unfold get_device_config_endpoint. rewrite run_bind, Hfind, run_bind. unfold check_owned. rewrite Hus.
    rewrite run_bind, select_one_none; [done|]. intros n Hn. apply andb_false_iff.
    destruct (by_id (Device.network_id d) n) eqn:E; [right|by left]. apply by_id_true in E.
    apply bool_decide_eq_false_2. by apply Hnet.
Qed.

(** * Witnesses *)
Definition api_user (i : uuid) (super : bool) : User.User := User.mk i "u@example.org" "$2b$pw" "U" true super 0 0.
Definition api_key : PreAuthKey.PreAuthKey := PreAuthKey.mk "k-1" "midscale_k" "net-1" false (days 1) 0 (Some []).
Definition api_db : DB :=
  demo_db <| preauth_keys := [api_key] |> <| users := [api_user svc_id false; api_user "root" true] |>.
Definition api_state : Api := mkApi (world_of api_db) (Some new_manager).
Definition api_req : EnrollByKeyRequest := mkEnrollByKey "midscale_k" "laptop" "pk-new" None.
Lemma api_keyed : keyed (R := Device.Device) (world_of api_db).
Proof. apply (bool_decide_unpack _). vm_compute. exact I. Qed.

Lemma revoke_locks_out_witness :
  exists s', revoke_device true (fun _ => true) "a" None (api_user "root" true) api_state = (Ok tt, s') /\
    forall token d w', get_current_device_by_id "a" token (api_world s') <> (Ok d, w').
Proof.
  destruct (revoke_device true (fun _ => true) "a" None (api_user "root" true) api_state) as [[[]|e] s'] eqn:E.
  - exists s'. split; [reflexivity|].
    exact (proj1 (proj2 (revoke_locks_out true (fun _ => true) "a" None (api_user "root" true) api_state s' api_keyed E))).
  - exfalso. apply (f_equal fst) in E. vm_compute in E. discriminate E.
Defined.
Lemma enroll_key_once_witness :
  exists r w', enroll_by_key api_req None (world_of api_db) = (Ok r, w') /\
    (register_device "midscale_k" "again" None w').1 = Raise (unauthorized "Invalid pre-auth key").
Proof.
  destruct (enroll_by_key api_req None (world_of api_db)) as [[r|e] w'] eqn:E.
  - exists r, w'. split; [reflexivity|].
    refine (proj2 (enroll_key_once api_req None (world_of api_db) r w' E _ w' api_req None "again" eq_refl eq_refl)).
    intros k Hk _. by apply list_elem_of_singleton in Hk as ->.
  - exfalso. apply (f_equal fst) in E. vm_compute in E. discriminate E.
Defined.
Lemma enroll_admits_witness :
  exists r w' d, enroll_by_key api_req None (world_of api_db) = (Ok r, w') /\
    get_current_device_by_id (er_device_id r) (er_device_token r) w' = (Ok d, w').
Proof.
  destruct (enroll_by_key api_req None (world_of api_db)) as [[r|e] w'] eqn:E.
  - destruct (enroll_admits api_req None (world_of api_db) r w' E) as (d & _ & _ & _ & _ & Hd); [apply api_keyed| | | | |].
    + intros d n Hd _. cbn in Hd. repeat (apply elem_of_cons in Hd as [->|Hd]; [discriminate|]). by apply elem_of_nil in Hd.
    + intros d n Hd _. cbn in Hd. repeat (apply elem_of_cons in Hd as [->|Hd]; [discriminate|]). by apply elem_of_nil in Hd.
    + intros n. cbn [token_urlsafe demo_env]. rewrite str_length_app. split; [cbn; lia|].
      by destruct (str_nat (Z.of_nat n)).
    + intros n p. cbn [pwd_verify pwd_hash demo_env]. split; [apply String.eqb_refl|discriminate].
    + exists r, w', d. split; [reflexivity|exact Hd].
  - exfalso. apply (f_equal fst) in E. vm_compute in E. discriminate E.
Defined.
Lemma config_v2_ignores_ownership_witness :
  get_device_config_endpoint "a" (api_user svc_id false) (world_of api_db) = (Raise not_owner, world_of api_db).
Proof.
  refine (proj2 (config_v2_ignores_ownership (api_user svc_id false) demo_alice
    (jwt_encode (timed [("sub", JStr svc_id)] (minutes 30) "access"))
    (timed [("sub", JStr svc_id)] (minutes 30) "access") (world_of api_db) _ api_keyed _ _ _ _ _ _ _ _ _ _ _ _ _)).
  - apply (bool_decide_unpack _). vm_compute. exact I.
  - left.
  - reflexivity.
  - reflexivity.
  - vm_compute. reflexivity.
  - right. left.
  - reflexivity.
  - reflexivity.
  - reflexivity.
  - intros n Hn _. apply list_elem_of_singleton in Hn as ->. discriminate.
  - vm_compute. reflexivity.
  - reflexivity.
  - reflexivity.
  - vm_compute. discriminate.
Defined.
