(* ===== verification/NetworksApi.v ===== *)
(** The network endpoints: [api/v1/networks.py].

    The user the dependency authenticates is an argument of a handler;
    [user_request] composes a handler with the dependency and the session of
    the request.  The relations of [models/network.py] and the foreign keys to
    devices and networks decide what a deletion of a network does. *)
From S2P Require Import Prelude PyStr Bytes Json Models Effects Scoring IPv4 Ipam Topology ConfigV2 Auth DaemonSvc DevicesApi.
Local Open Scope string_scope.
Local Open Scope list_scope.
Local Open Scope Z_scope.

(** * Requests ([schemas/network.py], [schemas/device.py]) *)
Record NetworkCreate := mkNetworkCreate {
  nc_name : string; nc_subnet : string; nc_description : option string; nc_interface_name : option string
}.
Record NetworkUpdate := mkNetworkUpdate {
  nu_name : option string; nu_description : option string; nu_interface_name : option string; nu_topology : option string
}.
Record DeviceCreate := mkDeviceCreate { dc_name : string; dc_dns_enabled : bool; dc_tags : list string }.

Section Networks.
Context `{Env}.

Definition user_request {A} (token : string) (h : User.User -> IO A) : IO A :=
  with_session (u ← get_current_user token; h u).

(** [str(uid)] of the acting user, for the audit log. *)
Definition user_audit (u : User.User) (action target_type : string) (target_id : uuid) (details : obj)
    (client : option string) : IO unit :=
  audit action "user" (Some (User.id u)) target_type (Some target_id) details client.

(** * Networks *)
Definition list_networks (current_user : User.User) : IO (list Network.Network) := filter_owned_networks current_user.

(** The address of the server: the first host of the subnet. *)
Definition server_address (subnet : string) : outcome string :=
  net ← IPv4Network subnet;
  match hosts net with h :: _ => Ok (ip_str h) | [] => Raise IndexError end.
Definition create_network (req : NetworkCreate) (client : option string) (current_user : User.User) : IO Network.Network :=
  id ← new_uuid; created ← now;
  let network := Network.mk id (nc_name req) (nc_subnet req) (nc_description req) (nc_interface_name req) None
                   (Some (User.id current_user)) created in
  add_row network;;
  server_ip ← lift (server_address (nc_subnet req));
  '(private_key, public_key) ← tick wg_keypair;
  enc ← tick (fun n => fernet_encrypt n private_key);
  did ← new_uuid; dcreated ← now; dupdated ← now;
  add_row (Device.mk did SERVER_NAME (Some (User.id current_user)) id (Some public_key) (Some enc) (Some server_ip)
             true true false None None "active" None None None (Some []) None None dcreated dupdated);;
  user_audit current_user "network.create" "network" id
    [("name", JStr (nc_name req)); ("subnet", JStr (nc_subnet req))] client;;
  mret network.

Definition get_network (network_id : uuid) (current_user : User.User) : IO Network.Network :=
  require_network_owner network_id current_user.

Definition updated_network (req : NetworkUpdate) (n : Network.Network) : Network.Network :=
  let n := set_if (nu_name req) (fun v n => n <| Network.name := v |>) n in
  let n := set_if (nu_description req) (fun v n => n <| Network.description := Some v |>) n in
  let n := set_if (nu_interface_name req) (fun v n => n <| Network.interface_name := Some v |>) n in
  set_if (nu_topology req) (fun v n => n <| Network.topology := (if truthy v then Some v else None) |>) n.
Definition update_network (network_id : uuid) (req : NetworkUpdate) (client : option string) (current_user : User.User)
    : IO Network.Network :=
  require_network_owner network_id current_user;;
  update_row (R := Network.Network) network_id (updated_network req);;
  user_audit current_user "network.update" "network" network_id
    [("name", jstr_opt (nu_name req)); ("description", jstr_opt (nu_description req))] client;;
  reload network_id.

(** ** Deletion: the relations cascade to devices, access rules, DNS entries
    and keys; a foreign key from any other row stops it *)
Definition refers_to_device (db : DB) (i : uuid) : bool :=
  existsb (fun e => String.eqb (DeviceEndpoint.device_id e) i) (endpoints db) ||
  existsb (fun s => String.eqb (NATSession.initiator_device_id s) i || String.eqb (NATSession.target_device_id s) i) (nat_sessions db) ||
  existsb (fun s => String.eqb (RelaySession.initiator_device_id s) i || String.eqb (RelaySession.target_device_id s) i) (relay_sessions db) ||
  existsb (fun r => String.eqb (AdvertisedRoute.device_id r) i) (routes db) ||
  existsb (fun d => bool_decide (Device.exit_node_id d = Some i) && negb (by_id i d)) (devices db).
Definition delete_device_row (d : Device.Device) : IO unit :=
  db ← gets w_db;
  if refers_to_device db (Device.id d) then raise IntegrityError else delete_row (R := Device.Device) (Device.id d).
Definition in_key_order (a b : Device.Device) : bool := String.leb (Device.id a) (Device.id b).
Definition device_in (network_id : uuid) (d : Device.Device) : bool := String.eqb (Device.network_id d) network_id.
Definition drop_network (network_id : uuid) : IO unit :=
  ds ← select_where (device_in network_id);
  for_each (sort_stable in_key_order ds) delete_device_row;;
  modify (on_rows (R := ACLRule.ACLRule) (List.filter (fun r => negb (String.eqb (ACLRule.network_id r) network_id))));;
  modify (on_rows (R := DNSEntry.DNSEntry) (List.filter (fun e => negb (String.eqb (DNSEntry.network_id e) network_id))));;
  modify (on_rows (R := PreAuthKey.PreAuthKey) (List.filter (fun k => negb (String.eqb (PreAuthKey.network_id k) network_id))));;
  rs ← select_where (fun r => String.eqb (AdvertisedRoute.network_id r) network_id);
  match rs with
  | [] => delete_row (R := Network.Network) network_id
  | _ => raise IntegrityError
  end.
Definition delete_network (network_id : uuid) (client : option string) (current_user : User.User) : IO unit :=
  network ← require_network_owner network_id current_user;
  user_audit current_user "network.delete" "network" network_id [("name", JStr (Network.name network))] client;;
  drop_network network_id.

(** * Devices of a network *)
Definition list_devices (network_id : uuid) (current_user : User.User) : IO (list Device.Device) :=
  require_network_owner network_id current_user;;
  ds ← select_where (device_in network_id);
  mret (sort_stable created_before ds).

Definition created_details (name : string) (network_id : uuid) (ip : string) : obj :=
  [("name", JStr name); ("network_id", JStr network_id); ("ip", JStr ip)].
Definition create_device (network_id : uuid) (req : DeviceCreate) (client : option string) (current_user : User.User)
    : IO Device.Device :=
  network ← require_network_owner network_id current_user;
  ip ← allocate_ip network_id (Network.subnet network);
  id ← new_uuid; created ← now; updated ← now;
  add_row (Device.mk id (dc_name req) (Some (User.id current_user)) network_id None None (Some ip) (dc_dns_enabled req)
             true false None None "active" None None None (Some (dc_tags req)) None None created updated);;
  save_device_keys id;;
  user_audit current_user "device.create" "device" id (created_details (dc_name req) network_id ip) client;;
  reload id.
Definition create_node_device (network_id : uuid) (req : DeviceCreate) (client : option string) (current_user : User.User)
    : IO Device.Device :=
  network ← require_network_owner network_id current_user;
  ip ← allocate_ip network_id (Network.subnet network);
  id ← new_uuid; created ← now; updated ← now;
  add_row (Device.mk id (dc_name req) (Some (User.id current_user)) network_id None None (Some ip) (dc_dns_enabled req)
             true true None None "pending" None None None (Some (dc_tags req)) None None created updated);;
  user_audit current_user "device.create_node_owned" "device" id (created_details (dc_name req) network_id ip) client;;
  reload id.

(** * Pre-auth keys *)
Definition newest_key_first (a b : PreAuthKey.PreAuthKey) : bool := PreAuthKey.created_at b <=? PreAuthKey.created_at a.
Definition list_preauth_keys (network_id : uuid) (current_user : User.User) : IO (list PreAuthKey.PreAuthKey) :=
  require_network_owner network_id current_user;;
  ks ← select_where (fun k => String.eqb (PreAuthKey.network_id k) network_id);
  mret (sort_stable newest_key_first ks).
Definition create_preauth_key (network_id : uuid) (reusable : bool) (expires_in_hours : Z) (client : option string)
    (current_user : User.User) : IO PreAuthKey.PreAuthKey :=
  require_network_owner network_id current_user;;
  secret ← tick (fun n => token_urlsafe n 32);
  t ← now;
  id ← new_uuid; created ← now;
  let key := PreAuthKey.mk id ("midscale_" +:+ secret) network_id reusable (t + hours expires_in_hours) created (Some []) in
  add_row key;;
  user_audit current_user "preauth_key.create" "preauth_key" id
    [("network_id", JStr network_id); ("reusable", JBool reusable); ("expires_in_hours", JInt expires_in_hours)] client;;
  mret key.
Definition delete_preauth_key (network_id key_id : uuid) (client : option string) (current_user : User.User) : IO unit :=
  require_network_owner network_id current_user;;
  found ← select_one (R := PreAuthKey.PreAuthKey)
    (fun k => by_id key_id k && String.eqb (PreAuthKey.network_id k) network_id);
  match found with
  | None => raise (HTTPException 404 "Key not found")
  | Some key =>
    user_audit current_user "preauth_key.delete" "preauth_key" key_id [("network_id", JStr network_id)] client;;
    delete_row (R := PreAuthKey.PreAuthKey) (PreAuthKey.id key)
  end.
End Networks.

(** * Running the handlers *)
Section Runs.
Context `{Env}.

Lemma require_owner_inv n u w net w' :
  require_network_owner n u w = (Ok net, w') -> w' = w /\ net ∈ networks (w_db w) /\ Network.id net = n.
Proof.
  unfold require_network_owner. rewrite run_bind. destruct (select_one _ w) as [[o|e] w1] eqn:E; [|done].
  apply select_one_inv in E as [-> Ho]. destruct o as [net1|]; [|done]. destruct Ho as [Hi%by_id_true Hin].
  destruct (_ && _); [done|]. by intros [<- <-]%ret_inv.
Qed.

(** ** Deletion *)
Lemma filter_both {A} (p q : A -> bool) l : List.filter p (List.filter q l) = List.filter (fun x => q x && p x) l.
Proof. induction l as [|x l IH]; [done|]. cbn. destruct (q x); cbn; [destruct (p x)|]; by rewrite ?IH. Qed.
Lemma filter_same {A} (p q : A -> bool) l : (forall x, x ∈ l -> p x = q x) -> List.filter p l = List.filter q l.
Proof.
  induction l as [|x l IH]; [done|]. intros Hpq. cbn. rewrite Hpq by left. rewrite IH; [done|].
  intros y Hy. apply Hpq. by right.
Qed.

Definition gone (l : list Device.Device) (d : Device.Device) : bool := mem (Device.id d) (Device.id <$> l).
Lemma drop_devices l w w' :
  for_each l delete_device_row w = (Ok tt, w') ->
  w_db w' = w_db w <| devices := List.filter (fun d => negb (gone l d)) (devices (w_db w)) |> /\
  forall d, d ∈ l -> forall e, e ∈ endpoints (w_db w) -> DeviceEndpoint.device_id e <> Device.id d.
Proof.
  revert w. induction l as [|d l IH]; intros w.
  - intros [= <-]. split; [|intros d Hd; by apply elem_of_nil in Hd].
    rewrite (filter_same _ (fun _ => true)) by done.
    assert (forall l : list Device.Device, List.filter (fun _ => true) l = l) as -> by (intros l; induction l; cbn; congruence).
    by destruct (w_db w).
  - cbn [for_each]. rewrite run_bind. unfold delete_device_row at 1. rewrite run_bind. cbn [gets].
    destruct (refers_to_device (w_db w) (Device.id d)) eqn:Er; [by intros [=]|].
    unfold delete_row, modify. intros Hrun. apply IH in Hrun as [Hdb Href]. split.
    + rewrite Hdb. unfold set_field, set_DB_devices. cbn. f_equal. rewrite filter_both. apply filter_same. intros x _. unfold gone, by_id. cbn.
      by rewrite negb_orb.
    + intros d' [->|Hd']%elem_of_cons e He; [|by apply (Href d' Hd' e)].
      intros Heq. unfold refers_to_device in Er. do 4 (apply orb_false_iff in Er as [Er _]).
      assert (existsb (fun e => String.eqb (DeviceEndpoint.device_id e) (Device.id d)) (endpoints (w_db w)) = true) as Hx.
      { apply existsb_exists. exists e. split; [by apply list_elem_of_In|by apply String.eqb_eq]. }
      congruence.
Qed.

Lemma drop_network_run n w w' :
  keyed (R := Device.Device) w -> drop_network n w = (Ok tt, w') ->
  devices (w_db w') = List.filter (fun d => negb (device_in n d)) (devices (w_db w)) /\
  acl_rules (w_db w') = List.filter (fun r => negb (String.eqb (ACLRule.network_id r) n)) (acl_rules (w_db w)) /\
  dns_entries (w_db w') = List.filter (fun e => negb (String.eqb (DNSEntry.network_id e) n)) (dns_entries (w_db w)) /\
  preauth_keys (w_db w') = List.filter (fun k => negb (String.eqb (PreAuthKey.network_id k) n)) (preauth_keys (w_db w)) /\
  networks (w_db w') = List.filter (fun x => negb (by_id n x)) (networks (w_db w)) /\
  endpoints (w_db w') = endpoints (w_db w) /\ routes (w_db w') = routes (w_db w) /\
  (forall r, r ∈ routes (w_db w) -> AdvertisedRoute.network_id r <> n) /\
  (forall d e, d ∈ devices (w_db w) -> device_in n d = true -> e ∈ endpoints (w_db w) ->
     DeviceEndpoint.device_id e <> Device.id d).
Proof.
  intros Hk. unfold drop_network. rewrite run_select. set (ds := List.filter _ _).
  rewrite run_bind. destruct (for_each _ _ w) as [[[]|e] w1] eqn:Ef; [|done].
  apply drop_devices in Ef as [Hdb Href]. rewrite !run_modify, run_select.
  match goal with |- context [List.filter ?p (rows (w_db ?w2))] =>
    assert (rows (w_db w2) = routes (w_db w)) as -> by (cbn; by rewrite Hdb) end.
  destruct (List.filter _ (routes (w_db w))) as [|r rs] eqn:Er; [|done].
  unfold delete_row, modify. intros [= <-]. cbn. rewrite Hdb. cbn. split_and!; try done.
  - apply filter_same. intros d Hd. f_equal. unfold gone. destruct (device_in n d) eqn:En.
    + apply mem_true, list_elem_of_fmap. exists d. split; [done|]. apply elem_of_sort_stable, elem_of_filter_list. done.
    + apply mem_false. intros (d' & Hid & Hd')%list_elem_of_fmap.
      apply elem_of_sort_stable, elem_of_filter_list in Hd' as [Hn' Hd'].
      assert (d = d') as <- by (eapply keyed_eq; done). congruence.
  - intros r Hr Hn. assert (r ∈ List.filter (fun r => String.eqb (AdvertisedRoute.network_id r) n) (routes (w_db w))) as Hin.
    { apply elem_of_filter_list. split; [by apply String.eqb_eq|done]. }
    rewrite Er in Hin. by apply elem_of_nil in Hin.
  - intros d e Hd Hn. apply Href, elem_of_sort_stable, elem_of_filter_list. done.
Qed.

(** ** Addresses *)
Lemma used_ips_app n l l' : used_ips n (l ++ l') = used_ips n l ++ used_ips n l'.
Proof. apply omap_app. Qed.
Definition held (n : uuid) (d : Device.Device) : list string :=
  if String.eqb (Device.network_id d) n then option_list (Device.ip_address d) else [].
Lemma used_ips_cons n d l : used_ips n (d :: l) = held n d ++ used_ips n l.
Proof. unfold used_ips, held. cbn. destruct (String.eqb _ n); [|done]. by destruct (Device.ip_address d). Qed.
Lemma used_ips_update n p f l :
  (forall d, Device.network_id (f d) = Device.network_id d /\ Device.ip_address (f d) = Device.ip_address d) ->
  used_ips n (update_where p f l) = used_ips n l.
Proof.
  intros Hf. induction l as [|d l IH]; [done|]. unfold update_where. rewrite fmap_cons, !used_ips_cons.
  fold (update_where p f l). rewrite IH. f_equal. destruct (p d); [|done]. unfold held. by destruct (Hf d) as [-> ->].
Qed.
(** Clearing addresses leaves a sublist. *)
Lemma used_ips_clear n p f l :
  (forall d, Device.network_id (f d) = Device.network_id d /\ Device.ip_address (f d) = None) ->
  used_ips n (update_where p f l) `sublist_of` used_ips n l.
Proof.
  intros Hf. induction l as [|d l IH]; [done|]. unfold update_where. rewrite fmap_cons, !used_ips_cons.
  fold (update_where p f l). apply sublist_app; [|done]. destruct (p d); [|done]. unfold held.
  destruct (Hf d) as [-> ->]. destruct (String.eqb _ n); cbn; apply sublist_nil_l.
Qed.

Definition unique_addresses (w : World) : Prop := forall n, NoDup (used_ips n (devices (w_db w))).
(** One more device, at a free address. *)
Definition adds_address (w w' : World) : Prop :=
  exists net ip, ip ∉ used_ips net (devices (w_db w)) /\
    forall n, used_ips n (devices (w_db w')) = used_ips n (devices (w_db w)) ++ (if String.eqb net n then [ip] else []).
Lemma adds_address_unique w w' : adds_address w w' -> unique_addresses w -> unique_addresses w'.
Proof.
  intros (net & ip & Hfree & Hused) Hu n. rewrite Hused.
  destruct (String.eqb_spec net n) as [->|_]; [|by rewrite app_nil_r].
  apply NoDup_app. split_and!; [apply Hu| |apply NoDup_singleton].
  intros x Hx Hin%list_elem_of_singleton. congruence.
Qed.
Lemma adds_one w w' d ip :
  devices (w_db w') = devices (w_db w) ++ [d] -> Device.ip_address d = Some ip ->
  ip ∉ used_ips (Device.network_id d) (devices (w_db w)) -> adds_address w w'.
Proof.
  intros Hdb Hip Hfree. exists (Device.network_id d), ip. split; [done|]. intros n. rewrite Hdb, used_ips_app. f_equal.
  rewrite used_ips_cons. unfold held. rewrite Hip. by destruct (String.eqb (Device.network_id d) n).
Qed.
Lemma adds_address_kept w w1 w' : adds_address w w1 ->
  (forall n, used_ips n (devices (w_db w')) = used_ips n (devices (w_db w1))) -> adds_address w w'.
Proof. intros (net & ip & Hfree & Hused) Hk. exists net, ip. split; [done|]. intros n. by rewrite Hk, Hused. Qed.

Lemma save_keys_run i w :
  exists w' f, save_device_keys i w = (Ok tt, w') /\
    w_db w' = w_db w <| devices := update_where (by_id i) f (devices (w_db w)) |> /\
    forall d, Device.network_id (f d) = Device.network_id d /\ Device.ip_address (f d) = Device.ip_address d.
Proof.
  unfold save_device_keys. rewrite run_tick. destruct (wg_keypair _) as [priv pub]. rewrite run_tick, flush_run.
  do 2 eexists. split; [reflexivity|]. split; [reflexivity|]. intros d. unfold flushed. by case_decide.
Qed.
Lemma devices_audited db l : devices (db <| audit_logs := l |>) = devices db.
Proof. done. Qed.
Lemma devices_set db l : devices (db <| devices := l |>) = l.
Proof. done. Qed.
Lemma reload_keeps {R} `{Table R} i w r w' : reload (R := R) i w = (Ok r, w') -> w' = w.
Proof. unfold reload. rewrite run_bind. cbn [gets]. destruct (List.find _ _); [by intros [_ <-]%ret_inv|done]. Qed.
Lemma audited {B} (k : IO B) action at_ ai tt_ ti details ip w r w' :
  (audit action at_ ai tt_ ti details ip;; k) w = (r, w') ->
  exists w1 l, k w1 = (r, w') /\ w_db w1 = w_db w <| audit_logs := l |>.
Proof.
  rewrite run_bind. destruct (audit_run action at_ ai tt_ ti details ip w) as (w1 & -> & [l Hl] & _). eauto.
Qed.

Lemma create_device_adds n req client u d w w' : create_device n req client u w = (Ok d, w') -> adds_address w w'.
Proof.
  unfold create_device. rewrite run_bind. destruct (require_network_owner n u w) as [[net|e] w1] eqn:Eo; [|done].
  apply require_owner_inv in Eo as (-> & _ & _). rewrite run_bind.
  destruct (allocate_ip _ _ w) as [[ip|e] w1] eqn:Ea; [|done]. apply allocate_ip_fresh in Ea as [-> Hip].
  rewrite run_uuid, !run_now. unfold add_row. rewrite run_modify.
  match goal with |- context [save_device_keys ?i] => set (id := i) end. set (w1 := on_rows _ _).
  rewrite run_bind. destruct (save_keys_run id w1) as (w2 & f & -> & Hdb & Hf).
  intros (w3 & l & Hrun & Hl)%audited. apply reload_keeps in Hrun as ->.
  eapply (adds_address_kept _ w1).
  - eapply adds_one; [reflexivity|reflexivity|exact Hip].
  - intros k. by rewrite Hl, devices_audited, Hdb, devices_set, used_ips_update.
Qed.
Lemma create_node_adds n req client u d w w' : create_node_device n req client u w = (Ok d, w') -> adds_address w w'.
Proof.
  unfold create_node_device. rewrite run_bind. destruct (require_network_owner n u w) as [[net|e] w1] eqn:Eo; [|done].
  apply require_owner_inv in Eo as (-> & _ & _). rewrite run_bind.
  destruct (allocate_ip _ _ w) as [[ip|e] w1] eqn:Ea; [|done]. apply allocate_ip_fresh in Ea as [-> Hip].
  rewrite run_uuid, !run_now. unfold add_row. rewrite run_modify. set (w1 := on_rows _ _).
  intros (w3 & l & Hrun & Hl)%audited. apply reload_keeps in Hrun as ->.
  eapply (adds_address_kept _ w1); [eapply adds_one; [reflexivity|reflexivity|exact Hip]|]. intros k. by rewrite Hl.
Qed.
Lemma enroll_adds req client r w w' : enroll_by_key req client w = (Ok r, w') -> adds_address w w'.
Proof.
  intros Hrun. destruct (enroll_run _ _ _ _ _ Hrun) as [_ (d & n & Hdb & _ & Hnet & Hip & Hfree & _)].
  eapply adds_one; [done|done|]. by rewrite Hnet.
Qed.
Lemma register_adds key name client d w w' : register_device key name client w = (Ok d, w') -> adds_address w w'.
Proof.
  unfold register_device. rewrite run_bind. destruct (select_one _ w) as [[[k|]|e] w1] eqn:Ek; [|done..].
  apply select_one_inv in Ek as [-> _]. rewrite run_now. destruct (_ <? _); [done|]. rewrite run_bind.
  destruct (network_of k _) as [[net|e] w1] eqn:En; [|done]. apply network_of_inv in En as ->. rewrite run_bind.
  destruct (allocate_ip _ _ _) as [[ip|e] w1] eqn:Ea; [|done]. apply allocate_ip_fresh in Ea as [-> Hip].
  rewrite run_uuid, !run_now. unfold add_row. rewrite run_modify.
  match goal with |- context [save_device_keys ?i] => set (id := i) end. set (w1 := on_rows _ _).
  rewrite run_bind. destruct (save_keys_run id w1) as (w2 & f & -> & Hdb & Hf). rewrite run_spend.
  intros (w3 & l & Hrun & Hl)%audited. apply reload_keeps in Hrun as ->.
  eapply (adds_address_kept _ w1).
  - eapply adds_one; [reflexivity|reflexivity|exact Hip].
  - intros n. rewrite Hl, devices_audited.
    change (devices (w_db (on_rows (keys_after k id) w2))) with (devices (w_db w2)).
    by rewrite Hdb, devices_set, used_ips_update.
Qed.
Lemma release_unique i w w' : release_ip i w = (Ok tt, w') -> unique_addresses w -> unique_addresses w'.
Proof.
  unfold release_ip. rewrite run_bind. destruct (select_one _ w) as [[[d|]|e] w1] eqn:Ed; [| |done].
  - apply select_one_inv in Ed as [-> _]. rewrite flush_run. intros [= <-] Hu n. cbn.
    eapply sublist_NoDup; [apply (Hu n)|]. apply used_ips_clear. intros x. unfold flushed.
    case_decide as Hx; [|done]. by rewrite <-Hx.
  - apply select_one_inv in Ed as [-> _]. by intros [= <-].
Qed.

(** ** Addresses that a device names itself *)
Lemma used_ips_absent n l : (forall d, d ∈ l -> Device.network_id d <> n) -> used_ips n l = [].
Proof.
  intros Hl. induction l as [|d l IH]; [done|]. rewrite used_ips_cons, IH by (intros x Hx; apply Hl; by right).
  unfold held. destruct (String.eqb_spec (Device.network_id d) n) as [Heq|]; [|done]. by apply Hl in Heq; [|left].
Qed.
Lemma create_network_adds req client u net w w' :
  create_network req client u w = (Ok net, w') ->
  (forall d, d ∈ devices (w_db w) -> Device.network_id d <> Network.id net) -> adds_address w w'.
Proof.
  unfold create_network, add_row. rewrite run_uuid, run_now, run_modify, run_bind.
  set (w1 := on_rows _ _). unfold lift at 1. destruct (server_address _) as [ip|e]; [|done]. rewrite run_tick.
  destruct (wg_keypair _) as [priv pub]. rewrite run_tick, run_uuid, !run_now, run_modify.
  set (w2 := on_rows _ _). intros (w3 & l & [<- ->]%ret_inv & Hl)%audited Hnew.
  eapply (adds_address_kept _ w2); [eapply adds_one; [reflexivity|reflexivity|]|intros k; by rewrite Hl].
  cbn [Device.network_id]. rewrite used_ips_absent; [by apply not_elem_of_nil|exact Hnew].
Qed.

(** The address [ip] a request names for device [i] is missing, or no other
    device of its network has it.  Devices have one row each: the id is the
    primary key. *)
Definition names_free_address (i : uuid) (ip : option string) (w : World) : Prop :=
  keyed (R := Device.Device) w /\
  (opt_truthy ip = true -> forall d d', d ∈ devices (w_db w) -> d' ∈ devices (w_db w) -> Device.id d = i ->
   Device.id d' <> i -> Device.network_id d' = Device.network_id d -> Device.ip_address d' <> ip).
(** One device is changed and its address becomes the one that is named, if
    one is. *)
Definition sets_address (i : uuid) (ip : option string) (w w' : World) : Prop :=
  exists f, devices (w_db w') = update_where (by_id i) f (devices (w_db w)) /\
    forall d, Device.network_id (f d) = Device.network_id d /\
              Device.ip_address (f d) = if opt_truthy ip then ip else Device.ip_address d.
Lemma update_elsewhere i f (l : list Device.Device) :
  (forall d, d ∈ l -> Device.id d <> i) -> update_where (by_id (R := Device.Device) i) f l = l.
Proof. intros Hl. apply update_where_id. intros d Hd Hi%by_id_true. by apply Hl in Hd. Qed.
Lemma sets_address_unique i ip w w' :
  sets_address i ip w w' -> names_free_address i ip w -> unique_addresses w -> unique_addresses w'.
Proof.
  intros (f & Hdb & Hf) [Hk Hfree] Hu n. rewrite Hdb. destruct (opt_truthy ip) eqn:Hip; [|by rewrite used_ips_update].
  destruct ip as [ip|]; [|done]. specialize (Hfree eq_refl).
  destruct (decide (i ∈ ids (R := Device.Device) (devices (w_db w)))) as [Hi|Hi].
  2:{ rewrite update_elsewhere; [done|]. intros d Hd <-. apply Hi. change (row_id d ∈ row_id <$> devices (w_db w)). by apply list_elem_of_fmap_2. }
  apply list_elem_of_fmap in Hi as (d & Hi & Hd). subst i. specialize (Hfree d). pose proof (Hu n) as Hun.
  unfold keyed in Hk. change (rows (w_db w)) with (devices (w_db w)) in Hk.
  apply list_elem_of_split in Hd as (l1 & l2 & Hl). rewrite Hl in *.
  unfold ids in Hk. rewrite fmap_app, fmap_cons in Hk.
  assert (forall d', d' ∈ l1 ++ l2 -> Device.id d' <> Device.id d) as Hother.
  { intros d' Hd' Heq. apply NoDup_app in Hk as (_ & H1 & [H2 _]%NoDup_cons).
    apply (list_elem_of_fmap_2 row_id) in Hd'. change (Device.id d') with (row_id d') in Heq. rewrite Heq in Hd'.
    rewrite fmap_app, elem_of_app in Hd'. destruct Hd' as [Hd'|Hd']; [|done]. apply (H1 _ Hd'). by left. }
  assert (ip ∉ used_ips (Device.network_id d) (l1 ++ l2)) as Hno.
  { intros (d' & Hd' & Hn & Ha)%elem_of_used_ips. apply (Hfree d'); [set_solver..|done| |done|done].
    by apply Hother. }
  assert (update_where (by_id (row_id d)) f (l1 ++ d :: l2) = l1 ++ f d :: l2) as ->.
  { unfold update_where. rewrite fmap_app, fmap_cons. fold (update_where (by_id (row_id d)) f l1).
    fold (update_where (by_id (row_id d)) f l2). rewrite (proj2 (by_id_true _ _) eq_refl).
    rewrite !update_elsewhere; [done|..]; intros x Hx; apply Hother; set_solver. }
  destruct (Hf d) as [Hn Ha]. revert Hun Hno. rewrite !used_ips_app, !used_ips_cons. unfold held. rewrite Hn, Ha.
  destruct (String.eqb_spec (Device.network_id d) n) as [->|]; [|done]. cbn [option_list app].
  intros Hun Hno.
  change (NoDup (used_ips n l1 ++ ip :: used_ips n l2)). rewrite <-Permutation_middle. constructor; [done|].
  eapply sublist_NoDup; [exact Hun|]. apply sublist_app; [done|]. by apply sublist_inserts_l.
Qed.
Lemma check_owner_inv u d w r w' : check_owner u d w = (r, w') -> w' = w.
Proof.
  unfold check_owner. destruct (User.is_superuser u); [by intros [= _ <-]|]. rewrite run_bind.
  unfold select_one, lift. rewrite run_select.
  destruct (scalar_one_or_none _) as [[n|]|e]; [destruct (owns u n)|..]; by intros [= _ <-].
Qed.
Lemma enroll_device_sets i key ip client u r w w' :
  enroll_device i key ip client u w = (Ok r, w') -> sets_address i ip w w'.
Proof.
  unfold enroll_device. intros (d & w1 & (-> & _ & _)%find_device_inv & Hrun)%bind_inv_ok.
  apply bind_inv_ok in Hrun as ([] & w1 & ->%check_owner_inv & Hrun).
  destruct (negb _); [done|]. destruct (negb _); [done|]. revert Hrun. rewrite run_generate. cbv zeta beta iota.
  rewrite run_now, run_bind, flush_run. cbn beta iota.
  intros (w3 & l & [_ ->]%ret_inv & Hl)%audited. eexists. split; [by rewrite Hl|]. intros x. unfold flushed.
  case_decide as Hx; [|by destruct (opt_truthy ip)]. split; [done|].
  apply (f_equal Device.ip_address) in Hx. rewrite <-Hx at 1. by destruct (opt_truthy ip).
Qed.
Lemma heartbeat_sets i key ip answer w w' :
  keyed (R := Device.Device) w -> process_heartbeat i key ip w = (Ok answer, w') -> sets_address i ip w w'.
Proof.
  intros Hk Hrun. pose proof Hrun as Hsel. unfold process_heartbeat in Hsel.
  apply bind_inv_ok in Hsel as ([d|] & w1 & Hsel & Hrest); [|done]. clear Hrest.
  apply select_one_inv in Hsel as [-> [Hi Hd]]. apply by_id_true in Hi. change (row_id d) with (Device.id d) in Hi. subst i.
  destruct (heartbeat_run d key ip w Hk Hd) as (answer' & w'' & g & Hrun' & Hdb & Hg).
  rewrite Hrun in Hrun'. injection Hrun' as <- <-. exists g. split; [by rewrite Hdb|]. intros x. specialize (Hg x).
  pose proof (f_equal Device.network_id Hg) as Hn. pose proof (f_equal Device.ip_address Hg) as Ha.
  change (Device.network_id (g x) = Device.network_id (beat (clock (w_tick w)) key ip x)) in Hn.
  change (Device.ip_address (g x) = Device.ip_address (beat (clock (w_tick w)) key ip x)) in Ha.
  rewrite Hn, Ha. unfold beat. split; [by destruct (differs_from _ key), (differs_from _ ip)|].
  unfold differs_from. destruct (opt_truthy ip) eqn:Ht; cbn [andb]; [|by destruct (_ && _)].
  case_bool_decide as Hne; [done|]. destruct (decide (ip = Device.ip_address x)) as [->|]; [|done]. by destruct (_ && _).
Qed.

(** The operations that write the address of a device.  Two of them store what
    their request says, without a look at the other devices. *)
Inductive allocation (w w' : World) : Prop :=
  | AllocNetwork req client u net :
    create_network req client u w = (Ok net, w') ->
    (forall d, d ∈ devices (w_db w) -> Device.network_id d <> Network.id net) -> allocation w w'
  | AllocDevice n req client u d : create_device n req client u w = (Ok d, w') -> allocation w w'
  | AllocNodeDevice n req client u d : create_node_device n req client u w = (Ok d, w') -> allocation w w'
  | AllocEnroll req client r : enroll_by_key req client w = (Ok r, w') -> allocation w w'
  | AllocRegister key name client d : register_device key name client w = (Ok d, w') -> allocation w w'
  | AllocEnrollDevice i key ip client u r :
    enroll_device i key ip client u w = (Ok r, w') -> names_free_address i ip w -> allocation w w'
  | AllocHeartbeat i key ip r :
    process_heartbeat i key ip w = (Ok r, w') -> names_free_address i ip w -> allocation w w'
  | AllocRelease i : release_ip i w = (Ok tt, w') -> allocation w w'.
End Runs.

(** * Properties *)

(** C10. Devices never share an address through allocation: in any run of the
    operations that write the address of a device - networks are created, with
    a new id, devices are created, enrolled by a key, registered and released,
    and devices enroll and send heartbeats that name no address or one that no
    other device of their network has - the addresses of the devices of a
    network stay pairwise distinct.  [enroll_device_takes_address] and
    [heartbeat_takes_address] show what naming a taken one does. *)
Theorem addresses_stay_unique `{Env} w w' :
  rtc allocation w w' -> unique_addresses w -> unique_addresses w'.
Proof.
  induction 1 as [w|w w1 w2 Hstep _ IH]; [done|]. intros Hu. apply IH. destruct Hstep.
  - eapply adds_address_unique; [by eapply create_network_adds|done].
  - eapply adds_address_unique; [by eapply create_device_adds|done].
  - eapply adds_address_unique; [by eapply create_node_adds|done].
  - eapply adds_address_unique; [by eapply enroll_adds|done].
  - eapply adds_address_unique; [by eapply register_adds|done].
  - eapply sets_address_unique; [by eapply enroll_device_sets|done..].
  - eapply sets_address_unique; [eapply heartbeat_sets; [by destruct H1|done]|done..].
  - by eapply release_unique.
Qed.

(** A deletion of a network that returns removes the network, its devices,
    access rules, DNS entries and keys, and no other row of these tables, and
    leaves no endpoint or route that refers to what it removed: it cannot
    succeed while a route of the network or an endpoint of one of its devices
    is left. *)
Theorem delete_network_clears `{Env} n client u w w' :
  keyed (R := Device.Device) w -> delete_network n client u w = (Ok tt, w') ->
  devices (w_db w') = List.filter (fun d => negb (device_in n d)) (devices (w_db w)) /\
  acl_rules (w_db w') = List.filter (fun r => negb (String.eqb (ACLRule.network_id r) n)) (acl_rules (w_db w)) /\
  dns_entries (w_db w') = List.filter (fun e => negb (String.eqb (DNSEntry.network_id e) n)) (dns_entries (w_db w)) /\
  preauth_keys (w_db w') = List.filter (fun k => negb (String.eqb (PreAuthKey.network_id k) n)) (preauth_keys (w_db w)) /\
  networks (w_db w') = List.filter (fun x => negb (by_id n x)) (networks (w_db w)) /\
  endpoints (w_db w') = endpoints (w_db w) /\ routes (w_db w') = routes (w_db w) /\
  (forall r, r ∈ routes (w_db w) -> AdvertisedRoute.network_id r <> n) /\
  (forall d e, d ∈ devices (w_db w) -> device_in n d = true -> e ∈ endpoints (w_db w) ->
     DeviceEndpoint.device_id e <> Device.id d).
Proof.
  intros Hk. unfold delete_network. rewrite run_bind.
  destruct (require_network_owner n u w) as [[net|e] w1] eqn:Eo; [|done]. apply require_owner_inv in Eo as (-> & _ & _).
  intros (w1 & l & Hrun & Hl)%audited. assert (keyed (R := Device.Device) w1) as Hk1 by (unfold keyed; by rewrite Hl).
  apply drop_network_run in Hrun; [|done]. by rewrite Hl in Hrun.
Qed.

(** * Witnesses *)
Definition root : User.User := api_user "root" true.
Definition net_world : World := world_of (api_db <| endpoints := [] |>).
Lemma net_world_keyed : keyed (R := Device.Device) net_world.
Proof. apply (bool_decide_unpack _). vm_compute. exact I. Qed.
Lemma net_world_unique : unique_addresses net_world.
Proof.
  intros n. change (devices (w_db net_world)) with
    [demo_device "srv" SERVER_NAME "10.0.0.1"; demo_device "a" "alice" "10.0.0.2"; demo_device "b" "bob" "10.0.0.3"].
  rewrite !used_ips_cons. unfold held. cbn [demo_device Device.network_id Device.ip_address].
  destruct (String.eqb "net-1" n); apply (bool_decide_unpack _); vm_compute; exact I.
Qed.
(** A device with a key of its own, which then enrolls and names an address. *)
Definition nas_world : World := (create_node_device "net-1" (mkDeviceCreate "nas" true []) None root net_world).2.
Definition nas_id : uuid := demo_uuid 0.
Definition nas_enrolls (ip : string) : outcome (uuid * string * string) * World :=
  enroll_device nas_id "nas-key" (Some ip) None root nas_world.
Lemma nas_names_free : names_free_address nas_id (Some "10.0.0.9") nas_world.
Proof.
  split; [apply (bool_decide_unpack _); vm_compute; exact I|]. intros _ d d' _ Hd' _ _ _.
  assert (Forall (fun d => Device.ip_address d <> Some "10.0.0.9") (devices (w_db nas_world))) as Hall
    by (apply (bool_decide_unpack _); vm_compute; exact I).
  rewrite Forall_forall in Hall. by apply Hall.
Qed.
(** The address of another device is stored as well. *)
Example enroll_device_takes_address :
  (exists token, (nas_enrolls "10.0.0.2").1 = Ok (nas_id, token, "active")) /\
  used_ips "net-1" (devices (w_db nas_world)) = ["10.0.0.1"; "10.0.0.2"; "10.0.0.3"; "10.0.0.4"] /\
  used_ips "net-1" (devices (w_db (nas_enrolls "10.0.0.2").2)) = ["10.0.0.1"; "10.0.0.2"; "10.0.0.3"; "10.0.0.2"].
Proof. split_and!; [eexists|..]; vm_compute; reflexivity. Qed.
Lemma addresses_stay_unique_witness :
  exists w', rtc allocation net_world w' /\ used_ips "net-1" (devices (w_db w')) =
    ["10.0.0.1"; "10.0.0.2"; "10.0.0.3"; "10.0.0.9"; "10.0.0.4"] /\ unique_addresses w'.
Proof.
  destruct (create_node_device "net-1" (mkDeviceCreate "nas" true []) None root net_world) as [[d|e] w1] eqn:E1.
  - assert (w1 = nas_world) as -> by (unfold nas_world; by rewrite E1).
    destruct (enroll_device nas_id "nas-key" (Some "10.0.0.9") None root nas_world) as [[a|e] w2] eqn:E2.
    + destruct (enroll_by_key api_req None w2) as [[r|e] w3] eqn:E3.
      * assert (rtc allocation net_world w3) as Hrun.
        { eapply rtc_l; [exact (AllocNodeDevice _ _ _ _ _ _ _ E1)|].
          eapply rtc_l; [exact (AllocEnrollDevice nas_world w2 nas_id "nas-key" (Some "10.0.0.9") None root a E2 nas_names_free)|].
          eapply rtc_l; [exact (AllocEnroll _ _ _ _ _ E3)|]. apply rtc_refl. }
        exists w3. split; [exact Hrun|]. split; [|exact (addresses_stay_unique net_world w3 Hrun net_world_unique)].
        apply (f_equal snd) in E2, E3. cbn [snd] in E2, E3. subst w2 w3. vm_compute. reflexivity.
      * exfalso. apply (f_equal snd) in E2. cbn [snd] in E2. subst w2. apply (f_equal fst) in E3. vm_compute in E3.
        discriminate E3.
    + exfalso. apply (f_equal fst) in E2. vm_compute in E2. discriminate E2.
  - exfalso. apply (f_equal fst) in E1. vm_compute in E1. discriminate E1.
Defined.
Lemma delete_network_clears_witness :
  exists w', delete_network "net-1" None root net_world = (Ok tt, w') /\ devices (w_db w') = [].
Proof.
  destruct (delete_network "net-1" None root net_world) as [[[]|e] w'] eqn:E.
  - exists w'. split; [reflexivity|].
    rewrite (proj1 (delete_network_clears "net-1" None root net_world w' net_world_keyed E)). vm_compute. reflexivity.
  - exfalso. apply (f_equal fst) in E. vm_compute in E. discriminate E.
Defined.
