(* ===== verification/RoutesApi.v ===== *)
(** The route endpoints: [api/v1/routes.py].

    Advertised routes wait for approval; an exit node is a route with a
    default prefix.  A handler whose result does not fit the declared response
    model raises when FastAPI serialises it, inside the request's session. *)
From S2P Require Import Prelude PyStr Bytes Json Models Effects Scoring IPv4 Ipam Topology ConfigV2 Auth DaemonSvc DevicesApi.
From S2P Require Import NetworksApi.
Local Open Scope string_scope.
Local Open Scope list_scope.
Local Open Scope Z_scope.

Abbreviation route := AdvertisedRoute.AdvertisedRoute.

Section Routes.
Context `{Env}.

(** Another route of the network with the same prefix, as text. *)
Definition same_prefix (network_id : uuid) (prefix : string) (exclude_id : option uuid) (r : route) : bool :=
  String.eqb (AdvertisedRoute.network_id r) network_id && String.eqb (AdvertisedRoute.prefix r) prefix &&
  match exclude_id with Some i => negb (by_id i r) | None => true end.
Definition _overlaps_with_existing (network_id device_id : uuid) (prefix : string) (exclude_id : option uuid)
    : IO (list route) := select_where (same_prefix network_id prefix exclude_id).

Definition newest_route_first (a b : route) : bool := AdvertisedRoute.created_at b <=? AdvertisedRoute.created_at a.
Definition list_routes (network_id : uuid) (current_user : User.User) : IO (list route) :=
  require_network_owner network_id current_user;;
  rs ← select_where (fun r => String.eqb (AdvertisedRoute.network_id r) network_id);
  mret (sort_stable newest_route_first rs).
Definition list_device_routes (device_id : uuid) (current_user : User.User) : IO (list route) :=
  device ← find_device device_id;
  require_network_owner (Device.network_id device) current_user;;
  rs ← select_where (fun r => String.eqb (AdvertisedRoute.device_id r) device_id);
  mret (sort_stable newest_route_first rs).

(** ** Advertising *)
Definition already_advertised (prefix : string) : exn :=
  HTTPException 409 ("Route " +:+ prefix +:+ " already advertised by another device").
(** The part both ways of advertising share: the checks, the new row and the
    counters. *)
Definition add_route (device_id network_id : uuid) (prefix : string) (is_exit_node : bool) : IO route :=
  lift (check_safe_prefix prefix is_exit_node);;
  overlaps ← _overlaps_with_existing network_id device_id prefix None;
  match overlaps with
  | _ :: _ => raise (already_advertised prefix)
  | [] =>
    id ← new_uuid; created ← now; updated ← now;
    let r := AdvertisedRoute.mk id device_id network_id prefix false false is_exit_node created updated in
    add_row r;;
    inc ROUTES_TOTAL;;
    when is_exit_node (inc EXIT_NODES_TOTAL);;
    mret r
  end.
Definition own_device (user_id network_id : uuid) (d : Device.Device) : bool :=
  bool_decide (Device.user_id d = Some user_id) && String.eqb (Device.network_id d) network_id.
Definition advertise_route (network_id : uuid) (prefix : string) (is_exit_node : bool) (client : option string)
    (current_user : User.User) : IO route :=
  require_network_owner network_id current_user;;
  ds ← select_where (own_device (User.id current_user) network_id);
  match ds with
  | [] => raise (HTTPException 400 "You have no devices in this network")
  | d :: _ =>
    r ← add_route (Device.id d) network_id prefix is_exit_node;
    user_audit current_user "route.advertise" "route" (AdvertisedRoute.id r)
      [("device_id", JStr (Device.id d)); ("network_id", JStr network_id); ("prefix", JStr prefix);
       ("is_exit_node", JBool is_exit_node)] client;;
    mret r
  end.
Definition device_advertise_route (device_id : uuid) (prefix : string) (is_exit_node : bool) : IO route :=
  found ← select_one (R := Device.Device) (fun d => by_id device_id d && Device.is_active d);
  match found with
  | None => raise (HTTPException 404 "Device not found or inactive")
  | Some device => add_route device_id (Device.network_id device) prefix is_exit_node
  end.

(** ** Approval, changes and deletion *)
Definition find_route (route_id : uuid) (current_user : User.User) : IO route :=
  found ← select_one (by_id (R := route) route_id);
  match found with
  | None => raise (HTTPException 404 "Route not found")
  | Some r => require_network_owner (AdvertisedRoute.network_id r) current_user;; mret r
  end.
Definition approved_route (approved enabled : bool) (t : Z) (r : route) : route :=
  r <| AdvertisedRoute.approved := approved |> <| AdvertisedRoute.enabled := enabled |>
    <| AdvertisedRoute.updated_at := t |>.
Definition approve_route (route_id : uuid) (approved enabled : bool) (client : option string) (current_user : User.User)
    : IO route :=
  r ← find_route route_id current_user;
  t ← now;
  update_row route_id (approved_route approved enabled t);;
  when (approved && negb (AdvertisedRoute.approved r)) (inc ROUTES_APPROVED);;
  user_audit current_user "route.approve" "route" route_id
    [("approved", JBool approved); ("enabled", JBool enabled); ("prefix", JStr (AdvertisedRoute.prefix r));
     ("is_exit_node", JBool (AdvertisedRoute.is_exit_node r))] client;;
  reload route_id.
Definition update_route (route_id : uuid) (enabled : option bool) (client : option string) (current_user : User.User)
    : IO route :=
  r ← find_route route_id current_user;
  t ← now;
  update_row route_id (fun r => set_if enabled (fun v r => r <| AdvertisedRoute.enabled := v |>) r
                                  <| AdvertisedRoute.updated_at := t |>);;
  user_audit current_user "route.update" "route" route_id
    [("enabled", jbool_opt enabled); ("prefix", JStr (AdvertisedRoute.prefix r))] client;;
  reload route_id.
Definition delete_route (route_id : uuid) (client : option string) (current_user : User.User) : IO unit :=
  r ← find_route route_id current_user;
  user_audit current_user "route.delete" "route" route_id
    [("prefix", JStr (AdvertisedRoute.prefix r)); ("is_exit_node", JBool (AdvertisedRoute.is_exit_node r))] client;;
  when (AdvertisedRoute.is_exit_node r) (dec EXIT_NODES_TOTAL);;
  dec ROUTES_TOTAL;;
  delete_row (R := route) route_id.

(** ** Exit nodes *)
Definition exit_route_of (network_id exit_node_id : uuid) (r : route) : bool :=
  String.eqb (AdvertisedRoute.device_id r) exit_node_id && AdvertisedRoute.is_exit_node r &&
  AdvertisedRoute.approved r && AdvertisedRoute.enabled r && String.eqb (AdvertisedRoute.network_id r) network_id.
Definition default_route_of (device_id : uuid) (r : route) : bool :=
  String.eqb (AdvertisedRoute.device_id r) device_id && String.eqb (AdvertisedRoute.prefix r) "0.0.0.0/0".
Definition check_exit_node (network_id : uuid) (exit_node_id : option uuid) : IO unit :=
  match exit_node_id with
  | Some e =>
    exit_route ← select_one (exit_route_of network_id e);
    match exit_route with
    | Some _ => mret tt
    | None => raise (HTTPException 400 "Specified device is not an approved exit node in this network")
    end
  | None => mret tt
  end.
Definition select_exit_node (device_id : uuid) (exit_node_id : option uuid) (client : option string)
    (current_user : User.User) : IO (option route) :=
  found ← select_one (R := Device.Device) (fun d =>
    by_id device_id d && bool_decide (Device.user_id d = Some (User.id current_user)));
  match found with
  | None => raise (HTTPException 404 "Device not found")
  | Some device =>
    check_exit_node (Device.network_id device) exit_node_id;;
    t ← now;
    update_row (R := Device.Device) device_id (fun d =>
      d <| Device.exit_node_id := exit_node_id |> <| Device.updated_at := t |>);;
    user_audit current_user "device.exit_node_select" "device" device_id
      [("exit_node_id", jstr_opt exit_node_id)] client;;
    select_one (default_route_of device_id)
  end.
(** [response_model=RouteResponse]: a missing route is no response. *)
Definition route_response (r : option route) : IO route :=
  match r with Some r => mret r | None => raise ResponseValidationError end.
Definition select_exit_node_request (token : string) (device_id : uuid) (exit_node_id : option uuid)
    (client : option string) : IO route :=
  user_request token (fun u => r ← select_exit_node device_id exit_node_id client u; route_response r).
End Routes.

(** * Running the handlers *)
Section Runs.
Context `{Env}.

Lemma add_route_run device n p ex w r w' :
  add_route device n p ex w = (Ok r, w') ->
  check_safe_prefix p ex = Ok tt /\
  (forall x, x ∈ routes (w_db w) -> AdvertisedRoute.network_id x = n -> AdvertisedRoute.prefix x <> p) /\
  w_db w' = w_db w <| routes := routes (w_db w) ++ [r] |> /\
  AdvertisedRoute.device_id r = device /\ AdvertisedRoute.network_id r = n /\ AdvertisedRoute.prefix r = p /\
  AdvertisedRoute.approved r = false /\ AdvertisedRoute.enabled r = false.
Proof.
  unfold add_route. rewrite run_bind. unfold lift. destruct (check_safe_prefix p ex) as [[]|e]; [|done].
  unfold _overlaps_with_existing. rewrite run_select.
  destruct (List.filter _ _) as [|x l] eqn:E; [|done].
  rewrite run_uuid, !run_now. unfold add_row. rewrite run_modify, run_inc, run_when.
  intros Hrun. split; [done|]. split.
  { intros x Hx Hn Hp. assert (x ∈ List.filter (same_prefix n p None) (routes (w_db w))) as Hin.
    { apply elem_of_filter_list. split; [|done]. unfold same_prefix. by rewrite Hn, Hp, !String.eqb_refl. }
    change (rows (w_db w)) with (routes (w_db w)) in E. rewrite E in Hin. by apply elem_of_nil in Hin. }
  destruct ex; apply ret_inv in Hrun as [<- <-]; done.
Qed.
Lemma find_route_inv i u w r w' :
  find_route i u w = (Ok r, w') -> w' = w /\ r ∈ routes (w_db w) /\ AdvertisedRoute.id r = i.
Proof.
  unfold find_route. rewrite run_bind. destruct (select_one _ w) as [[o|e] w1] eqn:E; [|done].
  apply select_one_inv in E as [-> Ho]. destruct o as [r1|]; [|done]. destruct Ho as [Hi%by_id_true Hin].
  rewrite run_bind. destruct (require_network_owner _ u w) as [[net|e] w1] eqn:Eo; [|done].
  apply require_owner_inv in Eo as (-> & _ & _). by intros [<- <-]%ret_inv.
Qed.
(** The routes of a configuration. *)
Lemma config_routes d w c :
  (build_config_v2 d w).1 = Ok c ->
  cv_routes c = AdvertisedRoute.prefix <$> List.filter (route_active (Device.network_id d)) (routes (w_db w)).
Proof.
  rewrite build_config_v2_run. unfold config_parts. cbv zeta.
  destruct (scalar_one _) as [network|e]; [|done]. destruct (List.find _ _) as [current|]; [|done].
  unfold mbind, outcome_bind. destruct (get_topology_generator _) as [g|e]; [|done].
  destruct (IPv4Network _) as [net|e]; [|done]. cbn [fst]. by intros [= <-].
Qed.
Lemma config_without_route db r d :
  AdvertisedRoute.approved r = false ->
  config_parts (db <| routes := routes db ++ [r] |>) d = config_parts db d.
Proof.
  intros Ha. unfold config_parts. cbv zeta.
  change (networks (db <| routes := routes db ++ [r] |>)) with (networks db).
  change (routes (db <| routes := routes db ++ [r] |>)) with (routes db ++ [r]).
  assert (List.filter (route_active (Device.network_id d)) (routes db ++ [r]) =
          List.filter (route_active (Device.network_id d)) (routes db)) as ->; [|done].
  rewrite List.filter_app. cbn [List.filter]. assert (route_active (Device.network_id d) r = false) as ->.
  { unfold route_active. by rewrite Ha, andb_false_r. }
  apply app_nil_r.
Qed.
Lemma check_exit_reads n e w w' : check_exit_node n e w = (Ok tt, w') -> w' = w.
Proof.
  unfold check_exit_node. destruct e as [e|]; [|by intros [= <-]]. rewrite run_bind.
  destruct (select_one _ w) as [[[r|]|x] w1] eqn:E; [|done..]. apply select_one_inv in E as [-> _]. by intros [= <-].
Qed.
Lemma user_uncommitted token : Frame uncommitted (get_current_user token).
Proof.
  unfold get_current_user. destruct (decode_token token) as [payload|]; [|apply _].
  destruct (negb _); [apply _|]. destruct (subject payload) as [j|]; [|apply _].
  apply frame_bind; [apply _| |intros uid; apply _]. destruct (uuid_of j) as [i|[]]; apply _.
Qed.
Lemma user_reads token w u w' : get_current_user token w = (Ok u, w') -> w' = w.
Proof.
  unfold get_current_user. destruct (decode_token token) as [payload|]; [|done].
  destruct (negb _); [done|]. destruct (subject payload) as [j|]; [|done]. rewrite run_bind.
  destruct (uuid_of j) as [i|[]]; try done. cbn [lift]. rewrite run_bind.
  destruct (select_one _ w) as [[[u1|]|e] w1] eqn:E; [|done..]. apply select_one_inv in E as [-> _].
  destruct (User.is_active u1); [|done]. by intros [_ <-]%ret_inv.
Qed.
End Runs.

(** * Properties *)

(** Advertising changes no configuration: an accepted advertisement is the
    first of its prefix in the network, has passed the prefix check and waits
    unapproved, and every device's configuration fails as before or has the
    hash, the peers and the routes it had. *)
Theorem advertise_inert `{Env} device_id prefix ex w r w' :
  device_advertise_route device_id prefix ex w = (Ok r, w') ->
  check_safe_prefix prefix ex = Ok tt /\
  routes (w_db w') = routes (w_db w) ++ [r] /\ AdvertisedRoute.prefix r = prefix /\
  AdvertisedRoute.approved r = false /\
  (forall x, x ∈ routes (w_db w) -> AdvertisedRoute.network_id x = AdvertisedRoute.network_id r ->
     AdvertisedRoute.prefix x <> prefix) /\
  forall d, match (build_config_v2 d w).1, (build_config_v2 d w').1 with
            | Ok c, Ok c' => cv_hash c' = cv_hash c /\ cv_peers c' = cv_peers c /\ cv_routes c' = cv_routes c
            | Raise e, Raise e' => e' = e
            | _, _ => False
            end.
Proof.
  unfold device_advertise_route. rewrite run_bind. destruct (select_one _ w) as [[[dev|]|e] w1] eqn:E; [|done..].
  apply select_one_inv in E as [-> _]. intros (Hsafe & Hfirst & Hdb & _ & Hn & Hp & Ha & _)%add_route_run.
  split_and!; [done|by rewrite Hdb|done|done|by rewrite Hn|]. intros d.
  rewrite !build_config_v2_run, Hdb, config_without_route by done.
  by destruct (config_parts (w_db w) d) as [[[[i p] rt] x]|e].
Qed.

(** C28. Approval decides: after the owner has approved or refused a route, its
    prefix is among the routes of the configurations of its network exactly
    when it is approved and enabled, if no other route of the network has that
    prefix. *)
Theorem approval_decides `{Env} i approved enabled client u w r w' d c :
  keyed (R := route) w -> approve_route i approved enabled client u w = (Ok r, w') ->
  (forall x, x ∈ routes (w_db w) -> AdvertisedRoute.network_id x = AdvertisedRoute.network_id r ->
     AdvertisedRoute.prefix x = AdvertisedRoute.prefix r -> AdvertisedRoute.id x = i) ->
  Device.network_id d = AdvertisedRoute.network_id r -> (build_config_v2 d w').1 = Ok c ->
  AdvertisedRoute.prefix r ∈ cv_routes c <-> approved && enabled = true.
Proof.
  intros Hk Hrun Huniq Hn Hc. rewrite (config_routes _ _ _ Hc), Hn. revert Hrun. unfold approve_route.
  rewrite run_bind. destruct (find_route i u w) as [[r0|e] w1] eqn:Ef; [|done].
  apply find_route_inv in Ef as (-> & Hr0 & Hi). rewrite run_now. set (t := clock _). unfold update_row.
  rewrite run_modify. set (w1 := on_rows _ _).
  assert (routes (w_db w1) = update_where (by_id i) (approved_route approved enabled t) (routes (w_db w))) as Hr1 by done.
  rewrite run_when. intros Hrun.
  assert (exists w2, w_db w2 = w_db w1 /\ (user_audit u "route.approve" "route" i
    [("approved", JBool approved); ("enabled", JBool enabled); ("prefix", JStr (AdvertisedRoute.prefix r0));
     ("is_exit_node", JBool (AdvertisedRoute.is_exit_node r0))] client;; reload i) w2 = (Ok r, w')) as (w2 & Hw2 & Hrun2).
  { destruct (approved && _); [rewrite run_inc in Hrun|]; eexists; by split; [|exact Hrun]. }
  clear Hrun. apply audited in Hrun2 as (w3 & l & Hrun & Hl). revert Hrun. rewrite <-Hi. change (AdvertisedRoute.id r0) with (row_id r0).
  unfold reload. rewrite run_bind. cbn [gets].
  assert (rows (w_db w3) = update_where (by_id i) (approved_route approved enabled t) (routes (w_db w))) as Hrows.
  { change (rows (w_db w3)) with (routes (w_db w3)). by rewrite Hl, <-Hr1, <-Hw2. }
  rewrite Hrows, <-Hi. change (AdvertisedRoute.id r0) with (row_id r0). rewrite find_updated by done. intros [Hr <-]%ret_inv.
  change (routes (w_db w3)) with (rows (R := route) (w_db w3)). rewrite Hrows. subst r. cbn [approved_route]. split.
  - intros (x & Hpx & [Hact Hx]%elem_of_filter_list)%list_elem_of_fmap.
    apply elem_of_update_where in Hx as [(y & _ & _ & ->)|[Hx Hne%by_id_false]].
    + apply andb_true_iff in Hact as [[_ Ha]%andb_true_iff He]. cbn in Ha, He. by rewrite Ha, He.
    + exfalso. apply Hne. apply andb_true_iff in Hact as [[Hnx%String.eqb_eq _]%andb_true_iff _]. cbn in Hnx.
      cbn in Huniq. exact (Huniq x Hx Hnx (eq_sym Hpx)).
  - intros [-> ->]%andb_true_iff. apply list_elem_of_fmap. exists (approved_route true true t r0). split; [done|].
    apply elem_of_filter_list. split.
    + unfold route_active. cbn. by rewrite String.eqb_refl.
    + apply elem_of_update_where. left. exists r0. split_and!; [done| |done]. by apply by_id_true.
Qed.

(** No route is ever deleted: ROUTES_TOTAL is a Counter, which has no
    [dec], so the deletion raises before the row is touched; as a request it
    leaves the database as it was committed. *)
Theorem delete_route_never `{Env} i client token w :
  counter_has_dec = false ->
  exists e w', user_request token (delete_route i client) w = (Raise e, w') /\ w_db w' = w_committed w.
Proof.
  intros Hdec. destruct (user_request token (delete_route i client) w) as [[[]|e] w'] eqn:E.
  - exfalso. apply with_session_ok in E as (w1 & E & _). revert E. rewrite run_bind.
    destruct (get_current_user token w) as [[u|e] w2]; [|done]. unfold delete_route. rewrite run_bind.
    destruct (find_route i u w2) as [[r|e] w3]; [|done]. intros (w4 & l & E & _)%audited. revert E.
    rewrite run_when. assert (forall m, is_gauge m = false -> forall (k : unit -> IO unit) w, (dec m ≫= k) w = (Raise (AttributeError "dec"), w)) as Hd.
    { intros m Hm k w5. unfold dec, dec_by. by rewrite Hm, Hdec. }
    destruct (AdvertisedRoute.is_exit_node r); rewrite Hd; done.
  - exists e, w'. split; [done|]. apply with_session_raises in E; [apply E|].
    apply frame_bind; [apply _|apply user_uncommitted|intros u].
    unfold delete_route, find_route, require_network_owner, user_audit, audit. apply _.
Qed.

(** Choosing an exit node does not work for a device that does not
    advertise a default route itself: the request answers with the device's
    own default route, and without one it raises and leaves the database as it
    was committed, so the choice is lost. *)
Theorem exit_node_choice_lost `{Env} token device_id exit_node client w :
  (forall r, r ∈ routes (w_db w) -> default_route_of device_id r = false) ->
  exists e w', select_exit_node_request token device_id exit_node client w = (Raise e, w') /\ w_db w' = w_committed w.
Proof.
  intros Hno. destruct (select_exit_node_request token device_id exit_node client w) as [[r|e] w'] eqn:E.
  - exfalso. apply with_session_ok in E as (w1 & E & _). revert E. rewrite run_bind.
    destruct (get_current_user token w) as [[u|e] w2] eqn:Eu; [|done]. apply user_reads in Eu as ->.
    rewrite run_bind. unfold select_exit_node. rewrite run_bind.
    destruct (select_one _ w) as [[[dev|]|e] w2] eqn:Ed; [|done..]. apply select_one_inv in Ed as [-> _].
    rewrite run_bind. destruct (check_exit_node _ _ w) as [[[]|e] w3] eqn:Ec; [|done]. apply check_exit_reads in Ec as ->.
    rewrite run_now. unfold update_row at 1. rewrite run_modify. set (w4 := on_rows _ _).
    destruct ((user_audit u "device.exit_node_select" "device" device_id [("exit_node_id", jstr_opt exit_node)] client;;
      select_one (default_route_of device_id)) w4) as [o w5] eqn:Ea. apply audited in Ea as (w6 & l & Ea & Hl).
    rewrite select_one_none in Ea; [by injection Ea as <- <-|]. intros x Hx. apply Hno.
    change (rows (w_db w6)) with (routes (w_db w6)) in Hx. by rewrite Hl in Hx.
  - exists e, w'. split; [done|]. apply with_session_raises in E; [apply E|].
    apply frame_bind; [apply _|apply user_uncommitted|intros u]. apply frame_bind; [apply _| |].
    + unfold select_exit_node, check_exit_node, user_audit, audit. apply frame_bind; [apply _|apply _|intros [dev|]; [|apply _]].
      apply frame_bind; [apply _|destruct exit_node; apply _|intros _; apply _].
    + intros [r|]; unfold route_response; apply _.
Qed.

(** * Witnesses *)
Definition api_route (prefix : string) : route := AdvertisedRoute.mk "r-1" "a" "net-1" prefix false false false 0 0.
Definition route_world : World := world_of (api_db <| routes := [api_route "192.168.7.0/24"] |>).
Lemma advertise_inert_witness :
  exists r w', device_advertise_route "b" "192.168.8.0/24" false route_world = (Ok r, w') /\
    AdvertisedRoute.approved r = false.
Proof.
  destruct (device_advertise_route "b" "192.168.8.0/24" false route_world) as [[r|e] w'] eqn:E.
  - exists r, w'. split; [reflexivity|].
    exact (proj1 (proj2 (proj2 (proj2 (advertise_inert "b" "192.168.8.0/24" false route_world r w' E))))).
  - exfalso. apply (f_equal fst) in E. vm_compute in E. discriminate E.
Defined.
Lemma approval_decides_witness :
  exists c, (build_config_v2 demo_alice (approve_route "r-1" true true None root route_world).2).1 = Ok c /\
    "192.168.7.0/24" ∈ cv_routes c.
Proof.
  destruct (build_config_v2 demo_alice (approve_route "r-1" true true None root route_world).2) as [[c|e] w2] eqn:Ec.
  - destruct (approve_route "r-1" true true None root route_world) as [[r|e] w'] eqn:E.
    + exists c. split; [reflexivity|]. assert (AdvertisedRoute.prefix r = "192.168.7.0/24" /\ AdvertisedRoute.network_id r = "net-1") as [Hp Hn].
      { apply (f_equal fst) in E. vm_compute in E. injection E as <-. done. }
      rewrite <-Hp. refine (proj2 (approval_decides "r-1" true true None root route_world r w' demo_alice c _ E _ _ _) eq_refl).
      * apply (bool_decide_unpack _). vm_compute. exact I.
      * intros x Hx _ _. by apply list_elem_of_singleton in Hx as ->.
      * by rewrite Hn.
      * exact (f_equal fst Ec).
    + exfalso. apply (f_equal fst) in E. vm_compute in E. discriminate E.
  - exfalso. apply (f_equal fst) in Ec. vm_compute in Ec. discriminate Ec.
Defined.
Definition root_token : string := jwt_encode (timed [("sub", JStr svc_id)] (minutes 30) "access").
Lemma delete_route_never_witness :
  exists e, (user_request root_token (delete_route "r-1" None) route_world).1 = Raise e.
Proof.
  destruct (delete_route_never (H := demo_env) "r-1" None root_token route_world eq_refl) as (e & w' & E & _).
  exists e. exact (f_equal fst E).
Defined.
Lemma exit_node_choice_lost_witness :
  exists e, (select_exit_node_request root_token "a" None None route_world).1 = Raise e.
Proof.
  destruct (exit_node_choice_lost root_token "a" None None route_world) as (e & w' & E & _).
  - intros r Hr. by apply list_elem_of_singleton in Hr as ->.
  - exists e. exact (f_equal fst E).
Defined.
