(* ===== verification/SessionsApi.v ===== *)
(** The coordination endpoints of NAT traversal and relays: [api/v1/nat.py]
    and [api/v1/relay.py].

    The device the dependency authenticates is an argument of a handler.  Ids
    arrive as text and are parsed by [uuid.UUID], whose [ValueError] nobody
    catches.  [monotonic] is the reading of [time.monotonic()]. *)
From S2P Require Import Prelude PyStr Bytes Json RelayServer Models Effects Scoring Relay Topology ConfigV2 Nat Uuid.
Local Open Scope string_scope.
Local Open Scope list_scope.
Local Open Scope Z_scope.

Section Sessions.
Context `{Env} (event_bus : bool) (monotonic : nat -> Z).

(** * [api/v1/nat.py] *)
Record punch_answer := mkPunch {
  pa_session_id : string; pa_state : string; pa_candidates : list json; pa_target_device_id : string
}.
(** The foreign keys of the new session are checked when it is committed. *)
Definition request_punch (target_device_id initiator_endpoint : string) (initiator_port : Z)
    (current_device : Device.Device) : IO punch_answer :=
  target ← lift (UUID target_device_id);
  if String.eqb (Device.id current_device) target then raise (HTTPException 400 "cannot punch to self") else
  fk_device target;;
  nat_session ← create_nat_session (Device.id current_device) target event_bus
    [("initiator_endpoint", JStr initiator_endpoint); ("initiator_port", JInt initiator_port)];
  started ← start_punch (NATSession.id nat_session) event_bus;
  match started with
  | None => raise (HTTPException 409 "session expired or already active")
  | Some nat_session =>
    candidates ← build_candidate_pairs (Device.id current_device) target;
    mret (mkPunch (NATSession.id nat_session) (NATSession.state nat_session) candidates target)
  end.

Definition report_punch_result (session_id : string) (success : bool) (selected_endpoint : option string)
    (selected_port latency_ms : option Z) (error : option string) (current_device : Device.Device)
    : IO (string * string * bool) :=
  nat_session_id ← lift (UUID session_id);
  result ← record_punch_result nat_session_id success selected_endpoint selected_port latency_ms error event_bus;
  match result with
  | None => raise (HTTPException 404 "NAT session not found")
  | Some s => mret (session_id, NATSession.state s, NATSession.connectivity_established s)
  end.
Definition report_connectivity_validation (session_id target_endpoint : string) (target_port : Z) (reachable : bool)
    (latency_ms : option Z) (current_device : Device.Device) : IO validation :=
  nat_session_id ← lift (UUID session_id);
  validate_connectivity nat_session_id target_endpoint target_port reachable latency_ms event_bus.
Definition get_session (session_id : string) (current_device : Device.Device) : IO NATSession.NATSession :=
  nat_session_id ← lift (UUID session_id);
  found ← Nat.get_session_by_id nat_session_id;
  match found with
  | None => raise (HTTPException 404 "NAT session not found")
  | Some s =>
    if negb (String.eqb (Device.id current_device) (NATSession.initiator_device_id s)) &&
       negb (String.eqb (Device.id current_device) (NATSession.target_device_id s))
    then raise (HTTPException 403 "not a participant in this session") else mret s
  end.

(** * [api/v1/relay.py] *)
Definition get_relay_candidates (current_device : Device.Device) : list relay_candidate := [get_best_relay_candidate].

Definition on_relay (f : RelayServer.RelayServer -> RelayServer.RelayServer) : IO unit :=
  modify (fun w => w <| w_relay := f <$> w_relay w |>).
Definition request_relay_session (target_device_id relay_region : string) (current_device : Device.Device)
    : IO RelaySession.RelaySession :=
  target ← lift (UUID target_device_id);
  if String.eqb (Device.id current_device) target then raise (HTTPException 400 "cannot create relay session to self") else
  fk_device target;;
  relay_session ← create_relay_session (Device.id current_device) target event_bus relay_region RELAY_DEFAULT_NODE;
  on_relay (add_valid_token (RelaySession.relay_token relay_session) (RelaySession.id relay_session));;
  mret relay_session.

Record RelayConnectResponse := mkConnect {
  cn_status : string; cn_session_id : string; cn_relay_endpoint : string;
  cn_relay_token : string; cn_relay_node : string; cn_relay_region : string
}.
Definition connect_relay_session (session_id : string) (current_device : Device.Device) : IO RelayConnectResponse :=
  relay_session_id ← lift (UUID session_id);
  found ← activate_relay_session relay_session_id event_bus;
  match found with
  | None => raise (HTTPException 404 "relay session not found or not pending")
  | Some r =>
    mret (mkConnect "connected" (RelaySession.id r) (RelaySession.relay_node r +:+ ":8765")
            (RelaySession.relay_token r) (RelaySession.relay_node r) (RelaySession.relay_region r))
  end.

Definition relay_session_for (session_id : string) (current_device : Device.Device) : IO RelaySession.RelaySession :=
  relay_session_id ← lift (UUID session_id);
  found ← get_relay_session_by_id relay_session_id;
  match found with
  | None => raise (HTTPException 404 "relay session not found")
  | Some r =>
    if negb (String.eqb (Device.id current_device) (RelaySession.initiator_device_id r)) &&
       negb (String.eqb (Device.id current_device) (RelaySession.target_device_id r))
    then raise (HTTPException 403 "not a participant in this session") else mret r
  end.
Definition get_relay_session := relay_session_for.
Definition heartbeat_relay_session (session_id : string) (current_device : Device.Device) : IO string :=
  relay_session_for session_id current_device;;
  t ← tick monotonic;
  on_relay (fun s => s <| heartbeats := <[KStr (Device.id current_device) := t]> (heartbeats s) |>);;
  mret session_id.
Definition update_relay_stats_endpoint (session_id : string) (bytes_tx bytes_rx : Z) (current_device : Device.Device)
    : IO (string * Z * Z) :=
  relay_session_id ← lift (UUID session_id);
  found ← update_relay_stats relay_session_id bytes_tx bytes_rx event_bus;
  match found with
  | None => raise (HTTPException 404 "relay session not found")
  | Some r => mret (session_id, RelaySession.bytes_tx r, RelaySession.bytes_rx r)
  end.

(** * Facts *)
Lemma fk_ok i w w' : fk_device i w = (Ok tt, w') -> w' = w.
Proof. unfold fk_device. rewrite run_select. destruct (List.filter _ _); [done|]. by intros [= <-]. Qed.
Lemma run_on_relay {B} f (k : unit -> IO B) w : (on_relay f ≫= k) w = k tt (w <| w_relay := f <$> w_relay w |>).
Proof. reflexivity. Qed.

(** A requested session: its row, its token at the relay server. *)
Lemma request_relay_run target region d w r w' :
  keyed (R := RelaySession.RelaySession) w -> (forall n, (w_tick w <= n)%nat -> uuid4 n ∉ ids (rows (R := RelaySession.RelaySession) (w_db w))) ->
  request_relay_session target region d w = (Ok r, w') ->
  keyed (R := RelaySession.RelaySession) w' /\ r ∈ relay_sessions (w_db w') /\ RelaySession.state r = "pending" /\
  RelaySession.initiator_device_id r = Device.id d /\ UUID target = Ok (RelaySession.target_device_id r) /\
  (exists n, RelaySession.id r = uuid4 n) /\
  w_relay w' = add_valid_token (RelaySession.relay_token r) (RelaySession.id r) <$> w_relay w.
Proof.
  intros Hk Hfresh. unfold request_relay_session. rewrite run_bind. cbn [lift].
  destruct (UUID target) as [t|e] eqn:Et; [|done]. cbn [lift]. destruct (String.eqb _ t); [done|].
  rewrite run_bind. destruct (fk_device t w) as [[[]|e] w1] eqn:Ef; [|done]. apply fk_ok in Ef as ->.
  rewrite run_bind.
  destruct (create_run (Device.id d) t event_bus region RELAY_DEFAULT_NODE w) as (r1 & w1 & Hc & Hid & Hst & Hi & Ht & _ & _ & Hq);
    [done|apply Hfresh; lia|].
  rewrite Hc, run_on_relay. intros [<- <-]%ret_inv. destruct Hq as (Hdb & _ & Hrel & _).
  assert (rows (R := RelaySession.RelaySession) (w_db w1) = relay_sessions (w_db w) ++ [r1]) as Hrows by (rewrite Hdb; done).
  split_and!; [|change (r1 ∈ rows (w_db w1)); rewrite Hrows; apply elem_of_app; right; by left|done|done|by rewrite Ht|eauto|
    cbn; by rewrite Hrel].
  unfold keyed. change (rows (w_db (w1 <| w_relay := _ |>))) with (rows (R := RelaySession.RelaySession) (w_db w1)).
  rewrite Hrows. unfold ids. rewrite fmap_app. apply NoDup_app. split_and!; [exact Hk| |apply NoDup_singleton].
  intros i Hin ->%list_elem_of_singleton. change (row_id r1) with (RelaySession.id r1) in Hin. rewrite Hid in Hin.
  revert Hin. apply Hfresh. lia.
Qed.
End Sessions.

(** * Properties *)

(** A relay session is open to every device: once a device has requested a
    session to a target, any other authenticated device, a participant or not,
    that names the session is connected to it and handed its token, and that
    token and session pass the relay server's validation. *)
Theorem relay_session_open_to_all `{Env} event_bus target region initiator other w r w1 srv :
  keyed (R := RelaySession.RelaySession) w ->
  (forall n, (w_tick w <= n)%nat -> uuid4 n ∉ ids (rows (R := RelaySession.RelaySession) (w_db w))) ->
  w_relay w = Some srv -> request_relay_session event_bus target region initiator w = (Ok r, w1) ->
  UUID (RelaySession.id r) = Ok (RelaySession.id r) ->
  exists answer w2 srv', connect_relay_session event_bus (RelaySession.id r) other w1 = (Ok answer, w2) /\
    cn_relay_token answer = RelaySession.relay_token r /\ cn_session_id answer = RelaySession.id r /\
    w_relay w2 = Some srv' /\
    same_session (valid_tokens srv' !! KStr (cn_relay_token answer)) (JStr (cn_session_id answer)) = true.
Proof.
  intros Hk Hfresh Hsrv Hreq Huuid.
  destruct (request_relay_run _ _ _ _ _ _ _ Hk Hfresh Hreq) as (Hk1 & Hr & Hst & _ & _ & _ & Hrel).
  unfold connect_relay_session. rewrite Huuid. rewrite run_bind. cbn [lift]. rewrite run_bind.
  destruct (activate_run (RelaySession.id r) event_bus w1 Hk1) as [[_ Hno]|(r1 & w2 & Hr1 & Hid & _ & Ha & Hq)].
  { by destruct (Hno r Hr eq_refl). }
  assert (r1 = r) as -> by (eapply keyed_eq; [exact Hk1|done..]).
  rewrite Ha. destruct Hq as (_ & _ & Hrel2 & _).
  do 2 eexists. exists (add_valid_token (RelaySession.relay_token r) (RelaySession.id r) srv).
  split; [reflexivity|]. cbn. split_and!; [done|done|rewrite Hrel2; cbn; by rewrite Hrel, Hsrv|].
  rewrite lookup_insert_eq. cbn. apply String.eqb_refl.
Qed.

(** * Witnesses *)
Definition coord_device (i : uuid) : Device.Device := demo_device i i "10.0.0.9".
Definition dev1 : uuid := "11111111-1111-4111-8111-111111111111".
Definition dev2 : uuid := "22222222-2222-4222-8222-222222222222".
Definition dev3 : uuid := "33333333-3333-4333-8333-333333333333".
Definition coord_world : World :=
  world_of (empty_db <| devices := [coord_device dev1; coord_device dev2; coord_device dev3] |>)
    <| w_relay := Some (new_server "0.0.0.0" 8765) |>.
Lemma relay_session_open_to_all_witness :
  exists r w1 answer w2,
    request_relay_session true dev2 "default" (coord_device dev1) coord_world = (Ok r, w1) /\
    connect_relay_session true (RelaySession.id r) (coord_device dev3) w1 = (Ok answer, w2) /\
    cn_relay_token answer = RelaySession.relay_token r.
Proof.
  destruct (request_relay_session true dev2 "default" (coord_device dev1) coord_world) as [[r|e] w1] eqn:E.
  - destruct (relay_session_open_to_all true dev2 "default" (coord_device dev1) (coord_device dev3) coord_world r w1
      (new_server "0.0.0.0" 8765)) as (answer & w2 & srv' & Hc & Ht & _).
    + constructor.
    + intros n _. by apply not_elem_of_nil.
    + reflexivity.
    + exact E.
    + apply (f_equal fst) in E. vm_compute in E. injection E as <-. vm_compute. reflexivity.
    + exists r, w1, answer, w2. split; [reflexivity|]. split; [exact Hc|exact Ht].
  - exfalso. apply (f_equal fst) in E. vm_compute in E. discriminate E.
Defined.
