(* ===== verification/PolicyApi.v ===== *)
(** Access rules, DNS entries and the audit log over HTTP: [api/v1/acls.py],
    [api/v1/dns.py] and [api/v1/audit.py].

    Text is ordered by its bytes, as in PostgreSQL's C collation. *)
From S2P Require Import Prelude PyStr Bytes Json Models Effects Scoring Acl Topology ConfigV2 Auth DaemonSvc DevicesApi NetworksApi.
Local Open Scope string_scope.
Local Open Scope list_scope.
Local Open Scope Z_scope.

Section Policy.
Context `{Env}.

(** * [api/v1/acls.py] *)
Record ACLRuleUpdate := mkACLUpdate {
  au_src_tags : option (list string); au_dst_tags : option (list string);
  au_action : option string; au_priority : option Z
}.
Definition list_acls (network_id : uuid) (current_user : User.User) : IO (list ACLRule.ACLRule) :=
  require_network_owner network_id current_user;;
  rs ← select_where (rules_of network_id);
  mret (sort_stable priority_le rs).
Definition create_acl (network_id : uuid) (src_tags dst_tags : list string) (action : string) (priority : Z)
    (client : option string) (current_user : User.User) : IO ACLRule.ACLRule :=
  require_network_owner network_id current_user;;
  id ← new_uuid; created ← now;
  let rule := ACLRule.mk id network_id src_tags dst_tags action priority created in
  add_row rule;;
  user_audit current_user "acl.create" "acl" id
    [("network_id", JStr network_id); ("src_tags", jtags src_tags); ("dst_tags", jtags dst_tags);
     ("action", JStr action); ("priority", JInt priority)] client;;
  mret rule.
Definition find_rule (network_id rule_id : uuid) : IO ACLRule.ACLRule :=
  found ← select_one (fun r => by_id rule_id r && rules_of network_id r);
  match found with Some rule => mret rule | None => raise (HTTPException 404 "ACL rule not found") end.
Definition updated_rule (req : ACLRuleUpdate) (r : ACLRule.ACLRule) : ACLRule.ACLRule :=
  let r := set_if (au_src_tags req) (fun v r => r <| ACLRule.src_tags := v |>) r in
  let r := set_if (au_dst_tags req) (fun v r => r <| ACLRule.dst_tags := v |>) r in
  let r := set_if (au_action req) (fun v r => r <| ACLRule.action := v |>) r in
  set_if (au_priority req) (fun v r => r <| ACLRule.priority := v |>) r.
Definition update_acl (network_id rule_id : uuid) (req : ACLRuleUpdate) (client : option string) (current_user : User.User)
    : IO ACLRule.ACLRule :=
  require_network_owner network_id current_user;;
  find_rule network_id rule_id;;
  update_row (R := ACLRule.ACLRule) rule_id (updated_rule req);;
  user_audit current_user "acl.update" "acl" rule_id
    [("network_id", JStr network_id); ("action", jstr_opt (au_action req)); ("priority", jint_opt (au_priority req))] client;;
  reload rule_id.
Definition delete_acl (network_id rule_id : uuid) (client : option string) (current_user : User.User) : IO unit :=
  require_network_owner network_id current_user;;
  find_rule network_id rule_id;;
  user_audit current_user "acl.delete" "acl" rule_id [("network_id", JStr network_id)] client;;
  delete_row (R := ACLRule.ACLRule) rule_id.

(** * [api/v1/dns.py] *)
Definition domain_le (a b : DNSEntry.DNSEntry) : bool := String.leb (DNSEntry.domain a) (DNSEntry.domain b).
Definition entry_of (network_id : uuid) (e : DNSEntry.DNSEntry) : bool := String.eqb (DNSEntry.network_id e) network_id.
Definition list_dns (network_id : uuid) (current_user : User.User) : IO (list DNSEntry.DNSEntry) :=
  require_network_owner network_id current_user;;
  es ← select_where (entry_of network_id);
  mret (sort_stable domain_le es).
Definition create_dns (network_id : uuid) (domain address : string) (client : option string) (current_user : User.User)
    : IO DNSEntry.DNSEntry :=
  require_network_owner network_id current_user;;
  id ← new_uuid; created ← now;
  let entry := DNSEntry.mk id network_id domain address created in
  add_row entry;;
  user_audit current_user "dns.create" "dns" id
    [("network_id", JStr network_id); ("domain", JStr domain); ("address", JStr address)] client;;
  mret entry.
Definition delete_dns (network_id entry_id : uuid) (client : option string) (current_user : User.User) : IO unit :=
  require_network_owner network_id current_user;;
  found ← select_one (R := DNSEntry.DNSEntry) (fun e => by_id entry_id e && entry_of network_id e);
  match found with
  | None => raise (HTTPException 404 "DNS entry not found")
  | Some entry =>
    user_audit current_user "dns.delete" "dns" entry_id [("network_id", JStr network_id)] client;;
    delete_row (R := DNSEntry.DNSEntry) (DNSEntry.id entry)
  end.

(** * [api/v1/audit.py] *)
Record AuditFilter := mkAuditFilter {
  af_actor_id : option string; af_action : option string; af_target_type : option string; af_target_id : option string
}.
(** [if value: query = query.where(column == value)] *)
Definition where_eq (value column : option string) : bool := negb (opt_truthy value) || bool_decide (column = value).
Definition audit_match (f : AuditFilter) (l : AuditLog.AuditLog) : bool :=
  where_eq (af_actor_id f) (AuditLog.actor_id l) && where_eq (af_action f) (Some (AuditLog.action l)) &&
  where_eq (af_target_type f) (Some (AuditLog.target_type l)) && where_eq (af_target_id f) (AuditLog.target_id l).
Definition newest_first (a b : AuditLog.AuditLog) : bool := AuditLog.created_at b <=? AuditLog.created_at a.
Record AuditLogPage := mkPage { ap_items : list AuditLog.AuditLog; ap_total : Z; ap_skip : nat; ap_limit : nat }.
Definition list_audit_logs (f : AuditFilter) (skip limit : nat) : IO AuditLogPage :=
  rs ← select_where (audit_match f);
  let items := take limit (drop skip (sort_stable newest_first rs)) in
  mret (mkPage items (len_list rs) skip limit).
Definition audit_page (token : string) (f : AuditFilter) (skip limit : nat) : IO AuditLogPage :=
  with_session (get_current_superuser token;; list_audit_logs f skip limit).

(** [SELECT DISTINCT action ORDER BY action] *)
Fixpoint distinct (l : list string) : list string :=
  match l with [] => [] | s :: t => if mem s t then distinct t else s :: distinct t end.
Definition list_audit_actions : IO (list string) :=
  rs ← select_where (R := AuditLog.AuditLog) (fun _ => true);
  mret (sort_stable String.leb (distinct (AuditLog.action <$> rs))).
End Policy.

Lemma newest_total a b : newest_first a b = true \/ newest_first b a = true.
Proof. unfold newest_first. lia. Qed.
Lemma newest_trans a b c : newest_first a b = true -> newest_first b c = true -> newest_first a c = true.
Proof. unfold newest_first. lia. Qed.

(** * Properties *)

(** A new access rule with a priority below that of every rule that applied
    so far takes effect at once: between two active devices of its network
    whose tags it matches, the verdict is now the action of that rule. *)
Theorem new_rule_decides `{Env} n src dst action p client u w rule w' source dest dest_ip :
  create_acl n src dst action p client u w = (Ok rule, w') ->
  keyed (R := Device.Device) w -> source ∈ devices (w_db w) -> dest ∈ devices (w_db w) ->
  Device.ip_address dest = Some dest_ip ->
  (forall d, d ∈ devices (w_db w) -> Device.ip_address d = Some dest_ip -> d = dest) ->
  reachable source dest -> Device.network_id source = n ->
  rule_applies (default [] (Device.tags source)) (default [] (Device.tags dest)) rule = true ->
  (forall r, applies (w_db w) source dest r -> p < ACLRule.priority r) ->
  check_device_access (Device.id source) dest_ip w' = (Ok (String.eqb action "allow"), w').
Proof.
  intros Hrun Hk Hs Hd Hip Huniq Hreach Hn Happ Hlow. revert Hrun. unfold create_acl. rewrite run_bind.
  destruct (require_network_owner n u w) as [[net|e] w1] eqn:Eo; [|done]. apply require_owner_inv in Eo as (-> & _ & _).
  rewrite run_uuid, run_now. unfold add_row. rewrite run_modify. set (w1 := on_rows _ _).
  intros (w2 & l & [Hrule <-]%ret_inv & Hl)%audited.
  assert (acl_rules (w_db w2) = acl_rules (w_db w) ++ [rule]) as Hrules by (rewrite Hl, <-Hrule; reflexivity).
  assert (devices (w_db w2) = devices (w_db w)) as Hdev by by rewrite Hl.
  destruct (access_verdict source dest dest_ip w2) as (verdict & -> & Hyes & Hno);
    [by unfold keyed in *; change (rows (w_db w2)) with (devices (w_db w2)); rewrite Hdev|by rewrite Hdev..|done|by rewrite Hdev|].
  assert (applies (w_db w2) source dest rule) as Hnew.
  { split_and!; [rewrite Hrules; apply elem_of_app; right; by left|by rewrite <-Hrule|done]. }
  assert (forall r, first_rule (w_db w2) source dest r -> ACLRule.action r = action) as Hfirst.
  { intros r [(Hr & Hrn & Hra) Hmin]. specialize (Hmin rule Hnew). rewrite Hrules in Hr.
    apply elem_of_app in Hr as [Hr| ->%list_elem_of_singleton]; [|by rewrite <-Hrule].
    specialize (Hlow r (conj Hr (conj Hrn Hra))). rewrite <-Hrule in Hmin. cbn in Hmin. lia. }
  do 2 f_equal. destruct verdict.
  - destruct (Hyes eq_refl) as [_ [Hnone|(r & Hf & Ha)]]; [by destruct (Hnone rule)|].
    symmetry. apply String.eqb_eq. by rewrite <-Ha, (Hfirst r).
  - destruct (Hno eq_refl) as [Hn'|(r & Hf & Ha)]; [done|].
    symmetry. apply String.eqb_neq. by rewrite <-(Hfirst r).
Qed.

(** The pages of the audit log cover it: with a limit of at least one, the
    pages at the offsets 0, limit, 2 limit, ... are disjoint pieces, in order,
    of the matching entries sorted from the newest, every page reports their
    number, and no page is longer than the limit. *)
Theorem audit_pages_cover `{Env} f limit k w :
  (0 < limit)%nat ->
  let entries := sort_stable newest_first (List.filter (audit_match f) (audit_logs (w_db w))) in
  let page i := list_audit_logs f (i * limit) limit w in
  (forall i, exists p, page i = (Ok p, w) /\ ap_total p = len_list entries /\ (length (ap_items p) <= limit)%nat) /\
  foldr (fun i acc => match (page i).1 with Ok p => ap_items p ++ acc | _ => acc end) [] (seq 0 k) = take (k * limit) entries /\
  StronglySorted (fun a b => AuditLog.created_at b <= AuditLog.created_at a) entries.
Proof.
  intros Hlim entries page.
  assert (forall i, page i = (Ok (mkPage (take limit (drop (i * limit) entries)) (len_list entries) (i * limit) limit), w)) as Hp.
  { intros i. unfold page, list_audit_logs. rewrite run_select. unfold mret, M_ret. do 3 f_equal.
    unfold len_list, entries. by rewrite sort_stable_length. }
  split_and!.
  - intros i. rewrite Hp. eexists. split; [reflexivity|]. split; [done|]. cbn. rewrite length_take. lia.
  - assert (forall j, foldr (fun i acc => match (page i).1 with Ok p => ap_items p ++ acc | _ => acc end) [] (seq j k) =
      take (k * limit) (drop (j * limit) entries)) as Hgen; [|by rewrite Hgen, drop_0].
    clear -Hp. induction k as [|k IH]; intros j; [done|]. cbn [seq foldr]. rewrite Hp, IH. cbn [fst ap_items].
    change (S k * limit)%nat with (limit + k * limit)%nat.
    replace (S j * limit)%nat with (j * limit + limit)%nat by lia. rewrite <-drop_drop.
    symmetry. rewrite <-take_take_drop. done.
  - pose proof (sort_stable_sorted newest_first newest_total newest_trans
      (List.filter (audit_match f) (audit_logs (w_db w)))) as Hs. fold entries in Hs.
    clear -Hs. induction Hs as [|a l Hs IH Hall]; constructor; [done|].
    eapply Forall_impl; [exact Hall|]. intros b. unfold newest_first. lia.
Qed.

(** * Witnesses *)
Definition policy_db : DB :=
  api_db <| devices := devices acl_db |> <| acl_rules := acl_rules acl_db |>
         <| networks := [Network.mk "net" "n" "10.0.0.0/24" None None None None 0] |>.
Definition src_dev := acl_device "a" "net" "10.0.0.2" "dev".
Definition dst_dev := acl_device "b" "net" "10.0.0.3" "prod".
Lemma new_rule_decides_witness :
  exists rule w', create_acl "net" ["dev"] ["prod"] "allow" 5 None root (world_of policy_db) = (Ok rule, w') /\
    check_device_access "a" "10.0.0.3" w' = (Ok true, w').
Proof.
  destruct (create_acl "net" ["dev"] ["prod"] "allow" 5 None root (world_of policy_db)) as [[rule|e] w'] eqn:E.
  - exists rule, w'. split; [reflexivity|].
    refine (new_rule_decides "net" ["dev"] ["prod"] "allow" 5 None root (world_of policy_db) rule w' src_dev dst_dev
      "10.0.0.3" E _ _ _ _ _ _ _ _ _).
    + exact acl_db_keyed.
    + left.
    + right. left.
    + reflexivity.
    + intros d Hd Hip. change (devices (w_db (world_of policy_db))) with (devices acl_db) in Hd. unfold acl_db in Hd. cbn in Hd.
      repeat (apply elem_of_cons in Hd as [->|Hd]; [done|]). by apply elem_of_nil in Hd.
    + done.
    + reflexivity.
    + apply (f_equal fst) in E. vm_compute in E. injection E as <-. reflexivity.
    + intros r (Hr & _). change (acl_rules (w_db (world_of policy_db))) with (acl_rules acl_db) in Hr. unfold acl_db in Hr.
      cbn in Hr. repeat (apply elem_of_cons in Hr as [->|Hr]; [cbn; lia|]). by apply elem_of_nil in Hr.
  - exfalso. apply (f_equal fst) in E. vm_compute in E. discriminate E.
Defined.
Definition policy_log (n : nat) : AuditLog.AuditLog :=
  AuditLog.mk (str_nat (Z.of_nat n)) None "user" "acl.create" "acl" None None None (Z.of_nat n).
Lemma audit_pages_cover_witness :
  foldr (fun i acc => match (list_audit_logs (mkAuditFilter None (Some "acl.create") None None) (i * 2) 2
      (world_of (empty_db <| audit_logs := policy_log <$> seq 0 3 |>))).1 with Ok p => ap_items p ++ acc | _ => acc end) [] (seq 0 2)
  = policy_log <$> [2; 1; 0]%nat.
Proof.
  refine (eq_trans (proj1 (proj2 (audit_pages_cover (mkAuditFilter None (Some "acl.create") None None) 2 2
    (world_of (empty_db <| audit_logs := policy_log <$> seq 0 3 |>)) _))) _); [lia|vm_compute; reflexivity].
Defined.
