(* ===== verification/AuditTrail.v ===== *)
(** The audit log is append-only ([models/audit.py] says so): over the
    mutating endpoints of [api/v1], no committed entry is ever changed or
    removed.

    A request is a handler with its dependency and its session; [req] lists
    the handlers with their arguments. *)
From S2P Require Import Prelude PyStr Bytes Json Models Effects Scoring Relay IPv4 Acl Ipam Topology ConfigV2 Nat WsManager Uuid.
From S2P Require Import Auth DaemonSvc DevicesApi NetworksApi RoutesApi SessionsApi PolicyApi.
Local Open Scope string_scope.
Local Open Scope list_scope.
Local Open Scope Z_scope.

(** * The relation every step respects *)
Definition append_only (w w' : World) : Prop :=
  audit_logs (w_committed w) `prefix_of` audit_logs (w_db w) ->
  audit_logs (w_committed w) `prefix_of` audit_logs (w_committed w') /\
  audit_logs (w_committed w') `prefix_of` audit_logs (w_db w').
#[export] Instance append_only_preorder : PreOrder append_only.
Proof.
  split; unfold append_only; [done|]. intros w1 w2 w3 H12 H23 H1.
  destruct (H12 H1) as [Ha Hb], (H23 Hb) as [Hc Hd]. split; [by etrans|done].
Qed.
Lemma same_log w w' :
  audit_logs (w_db w') = audit_logs (w_db w) -> w_committed w' = w_committed w -> append_only w w'.
Proof. intros Hdb Hc Hp. by rewrite Hdb, Hc. Qed.

Section Steps.
Context `{Env}.

#[export] Instance ao_tick {A} (f : nat -> A) : Frame append_only (tick f).
Proof. intros w. by apply same_log. Qed.
#[export] Instance ao_inc m n : Frame append_only (inc_by m n).
Proof. intros w. by apply same_log. Qed.
#[export] Instance ao_dec m n : Frame append_only (dec_by m n).
Proof. unfold dec_by. apply _. Qed.
#[export] Instance ao_set_metric m n : Frame append_only (set_metric m n).
Proof. intros w. by apply same_log. Qed.
#[export] Instance ao_publish t d : Frame append_only (publish t d).
Proof. intros w. by apply same_log. Qed.
#[export] Instance ao_select `{Table R} (p : R -> bool) : Frame append_only (select_where p).
Proof. intros w. by apply same_log. Qed.
#[export] Instance ao_select_one `{Table R} (p : R -> bool) : Frame append_only (select_one p).
Proof.
  intros w. apply same_log; unfold select_one, select_where, mbind, M_bind, gets, lift; by destruct (scalar_one_or_none _).
Qed.
#[export] Instance ao_reload `{Table R} i : Frame append_only (reload (R := R) i).
Proof. intros w. apply same_log; unfold reload, mbind, M_bind, gets; by destruct (List.find _ _). Qed.
#[export] Instance ao_rows `{Table R} `{!OtherTable R AuditLog.AuditLog} f : Frame append_only (modify (on_rows (R := R) f)).
Proof. intros w. apply same_log; [|done].
  change (rows (R := AuditLog.AuditLog) (set_rows (f (rows (w_db w))) (w_db w)) = rows (R := AuditLog.AuditLog) (w_db w)).
  apply rows_set_other. Qed.
#[export] Instance ao_update `{Table R} `{!OtherTable R AuditLog.AuditLog} i f : Frame append_only (update_row (R := R) i f).
Proof. apply ao_rows. Qed.
#[export] Instance ao_add `{Table R} `{!OtherTable R AuditLog.AuditLog} r : Frame append_only (add_row (R := R) r).
Proof. apply ao_rows. Qed.
#[export] Instance ao_delete `{Table R} `{!OtherTable R AuditLog.AuditLog} i : Frame append_only (delete_row (R := R) i).
Proof. apply ao_rows. Qed.
(** The only change of the log itself. *)
#[export] Instance ao_log (r : AuditLog.AuditLog) : Frame append_only (add_row r).
Proof. intros w Hp. cbn. split; [done|]. by apply prefix_app_r. Qed.
#[export] Instance ao_commit : Frame append_only commit.
Proof. intros w Hp. by split. Qed.
#[export] Instance ao_rollback : Frame append_only rollback.
Proof. intros w Hp. by split. Qed.
#[export] Instance ao_relay f : Frame append_only (on_relay f).
Proof. intros w. by apply same_log. Qed.
#[export] Instance ao_with_session {A} (m : IO A) : Frame append_only m -> Frame append_only (with_session m).
Proof. intros Hm. unfold with_session. apply _. Qed.
#[export] Instance ao_config d : Frame append_only (build_config_v2 d).
Proof.
  intros w. rewrite build_config_v2_run. destruct (config_parts _ d) as [[[[i p] r] x]|e]; by apply same_log.
Qed.
#[export] Instance frame_list {S A B} (R : relation S) (l : list B) (n : M S A) f :
  Frame R n -> (forall x t, Frame R (f x t)) -> Frame R (match l with [] => n | x :: t => f x t end).
Proof. by destruct l. Qed.
#[export] Instance frame_outcome {S A B} (R : relation S) (o : outcome B) (f : B -> M S A) g :
  (forall x, Frame R (f x)) -> (forall e, Frame R (g e)) -> Frame R (match o with Ok x => f x | Raise e => g e end).
Proof. by destruct o. Qed.
End Steps.

(** * The handlers *)
#[export] Typeclasses Transparent IO.
Section Handlers.
Context `{Env}.

#[local] Instance ao_user token : Frame append_only (get_current_user token).
Proof.
  unfold get_current_user. destruct (decode_token token) as [payload|]; [|apply _].
  destruct (negb _); [apply _|]. destruct (subject payload) as [j|]; [|apply _].
  apply frame_bind; [apply _| |intros uid; apply _]. destruct (uuid_of j) as [i|[]]; apply _.
Qed.
#[local] Instance ao_owner n u : Frame append_only (require_network_owner n u).
Proof. unfold require_network_owner. apply _. Qed.
#[local] Instance ao_audit a b c d e f g : Frame append_only (audit a b c d e f g).
Proof. unfold audit. apply _. Qed.
#[local] Instance ao_flush i f : Frame append_only (flush_device i f).
Proof. unfold flush_device, flush_row. apply _. Qed.
#[local] Instance ao_allocate n s : Frame append_only (allocate_ip n s).
Proof. unfold allocate_ip. apply _. Qed.
#[local] Instance ao_keys i : Frame append_only (save_device_keys i).
Proof. unfold save_device_keys. apply _. Qed.
#[local] Instance ao_token : Frame append_only generate_device_token.
Proof. unfold generate_device_token, hash_password. apply _. Qed.
#[local] Instance ao_spend k i : Frame append_only (spend_key k i).
Proof. unfold spend_key. apply _. Qed.
#[local] Instance ao_find i : Frame append_only (find_device i).
Proof. unfold find_device. apply _. Qed.
#[local] Instance ao_check_owner u d : Frame append_only (check_owner u d).
Proof. unfold check_owner. apply _. Qed.
#[local] Instance ao_check_owned u d : Frame append_only (check_owned u d).
Proof. unfold check_owned. apply _. Qed.
#[local] Instance ao_fk i : Frame append_only (fk_device i).
Proof. unfold fk_device. apply _. Qed.
#[local] Instance ao_net k : Frame append_only (network_of k).
Proof. unfold network_of. apply _. Qed.
#[local] Instance ao_route i u : Frame append_only (find_route i u).
Proof. unfold find_route. apply _. Qed.
#[local] Instance ao_rule n i : Frame append_only (find_rule n i).
Proof. unfold find_rule. apply _. Qed.
#[local] Instance ao_add_route d n p e : Frame append_only (add_route d n p e).
Proof. unfold add_route, _overlaps_with_existing. apply _. Qed.
#[local] Instance ao_drop n : Frame append_only (drop_network n).
Proof. unfold drop_network, delete_device_row. apply _. Qed.

(** The handlers that take the authenticated user. *)
Inductive user_req :=
  | CreateNetwork (req : NetworkCreate)
  | UpdateNetwork (n : uuid) (req : NetworkUpdate)
  | DeleteNetwork (n : uuid)
  | CreateDevice (n : uuid) (req : DeviceCreate)
  | CreateNodeDevice (n : uuid) (req : DeviceCreate)
  | CreateKey (n : uuid) (reusable : bool) (hours : Z)
  | DeleteKey (n i : uuid)
  | UpdateDevice (i : uuid) (req : DeviceUpdate)
  | EnrollDevice (i : uuid) (public_key : string) (ip : option string)
  | AdvertiseRoute (n : uuid) (prefix : string) (exit : bool)
  | ApproveRoute (i : uuid) (approved enabled : bool)
  | UpdateRoute (i : uuid) (enabled : option bool)
  | DeleteRoute (i : uuid)
  | SelectExitNode (i : uuid) (exit : option uuid)
  | CreateAcl (n : uuid) (src dst : list string) (action : string) (priority : Z)
  | UpdateAcl (n i : uuid) (req : ACLRuleUpdate)
  | DeleteAcl (n i : uuid)
  | CreateDns (n : uuid) (domain address : string)
  | DeleteDns (n i : uuid).
Definition run_user_req (client : option string) (q : user_req) (u : User.User) : IO unit :=
  match q with
  | CreateNetwork req => create_network req client u;; mret tt
  | UpdateNetwork n req => update_network n req client u;; mret tt
  | DeleteNetwork n => delete_network n client u
  | CreateDevice n req => create_device n req client u;; mret tt
  | CreateNodeDevice n req => create_node_device n req client u;; mret tt
  | CreateKey n r h => create_preauth_key n r h client u;; mret tt
  | DeleteKey n i => delete_preauth_key n i client u
  | UpdateDevice i req => update_device i req client u;; mret tt
  | EnrollDevice i k ip => enroll_device i k ip client u;; mret tt
  | AdvertiseRoute n p e => advertise_route n p e client u;; mret tt
  | ApproveRoute i a e => approve_route i a e client u;; mret tt
  | UpdateRoute i e => update_route i e client u;; mret tt
  | DeleteRoute i => delete_route i client u
  | SelectExitNode i e => r ← select_exit_node i e client u; route_response r;; mret tt
  | CreateAcl n s d a p => create_acl n s d a p client u;; mret tt
  | UpdateAcl n i req => update_acl n i req client u;; mret tt
  | DeleteAcl n i => delete_acl n i client u
  | CreateDns n d a => create_dns n d a client u;; mret tt
  | DeleteDns n i => delete_dns n i client u
  end.
Lemma user_req_append_only client q u : Frame append_only (run_user_req client q u).
Proof.
  destruct q; cbn [run_user_req]; unfold create_network, update_network, delete_network, create_device,
    create_node_device, create_preauth_key, delete_preauth_key, update_device, enroll_device, advertise_route,
    approve_route, update_route, delete_route, select_exit_node, check_exit_node, route_response, create_acl,
    update_acl, delete_acl, create_dns, delete_dns, user_audit; try apply _.
Qed.

(** The handlers that take the authenticated device, of the world alone. *)
Context (bind_uuid : string -> outcome uuid) (monotonic : nat -> Z) (event_bus : bool) (alive : nat -> bool).
Inductive device_req :=
  | Heartbeat (public_key ip : option string)
  | RotateToken
  | DeviceAdvertise (prefix : string) (exit : bool)
  | RequestPunch (target endpoint : string) (port : Z)
  | PunchResult (session : string) (success : bool) (endpoint : option string) (port latency : option Z) (error : option string)
  | Validation (session endpoint : string) (port : Z) (reachable : bool) (latency : option Z)
  | RequestRelay (target region : string)
  | ConnectRelay (session : string)
  | HeartbeatRelay (session : string)
  | RelayStats (session : string) (tx rx : Z).
Definition run_device_req (device_id : uuid) (q : device_req) (d : Device.Device) : IO unit :=
  match q with
  | Heartbeat k ip => device_heartbeat device_id k ip;; mret tt
  | RotateToken => rotate_device_token device_id d;; mret tt
  | DeviceAdvertise p e => device_advertise_route device_id p e;; mret tt
  | RequestPunch t e p => request_punch event_bus t e p d;; mret tt
  | PunchResult s ok e p l err => report_punch_result event_bus s ok e p l err d;; mret tt
  | Validation s e p r l => report_connectivity_validation event_bus s e p r l d;; mret tt
  | RequestRelay t r => request_relay_session event_bus t r d;; mret tt
  | ConnectRelay s => connect_relay_session event_bus s d;; mret tt
  | HeartbeatRelay s => heartbeat_relay_session monotonic s d;; mret tt
  | RelayStats s tx rx => update_relay_stats_endpoint event_bus s tx rx d;; mret tt
  end.
#[local] Instance ao_create_relay i t r n : Frame append_only (create_relay_session i t event_bus r n).
Proof. unfold create_relay_session. apply _. Qed.
#[local] Instance ao_promote d e p l : Frame append_only (_promote_endpoint d e p l).
Proof. unfold _promote_endpoint. apply _. Qed.
#[local] Instance ao_changed s : Frame append_only (_publish_config_changed s event_bus).
Proof. unfold _publish_config_changed. apply _. Qed.
#[local] Instance ao_fallback s : Frame append_only (relay_fallback s event_bus).
Proof. unfold relay_fallback, auto_create_relay_fallback. apply frame_bind; [apply _|apply _|intros r]. apply frame_when; [apply _|].
  intros w. by apply same_log.
Qed.
Lemma device_req_append_only i q d : Frame append_only (run_device_req i q d).
Proof.
  destruct q; cbn [run_device_req]; unfold device_heartbeat, process_heartbeat, rotate_device_token, hash_password,
    device_advertise_route, request_punch, create_nat_session, start_punch, build_candidate_pairs, get_active_endpoints_by_device,
    report_punch_result, record_punch_result, punch_succeeded, punch_failed, report_connectivity_validation,
    validate_connectivity, request_relay_session, connect_relay_session, activate_relay_session, heartbeat_relay_session,
    relay_session_for, get_relay_session_by_id, update_relay_stats_endpoint, update_relay_stats; try apply _.
Qed.

#[local] Instance ao_check d : Frame append_only (_check_device_status d).
Proof. unfold _check_device_status. apply _. Qed.
#[local] Instance ao_device i token : Frame append_only (get_current_device_by_id i token).
Proof. unfold get_current_device_by_id, get_current_device, _lookup_device_by_token, by_prefix. apply _. Qed.
#[local] Instance ao_report i e s p l u r : Frame append_only (report_endpoint i e s p l u r).
Proof. unfold report_endpoint. apply _. Qed.
#[local] Instance ao_probe i p e r l s q a b : Frame append_only (process_probe_result bind_uuid i p e r l s q a b).
Proof. unfold process_probe_result, new_probed. apply _. Qed.

(** ** On the world and the WebSocket manager *)
Definition api_append_only (s s' : Api) : Prop := append_only (api_world s) (api_world s').
#[local] Instance api_append_only_preorder : PreOrder api_append_only.
Proof. unfold api_append_only. split; [by intros s|]. intros s1 s2 s3. by etrans. Qed.
#[local] Instance api_world_frame {A} (m : IO A) : Frame append_only m -> Frame api_append_only (on_world m).
Proof. intros Hm s. unfold api_append_only, on_world. specialize (Hm (api_world s)). by destruct (m (api_world s)). Qed.
#[local] Instance api_send i m : Frame api_append_only (send_to alive i m).
Proof. intros s. unfold api_append_only. reflexivity. Qed.
#[local] Instance api_gets {A} (f : Api -> A) : Frame api_append_only (gets f).
Proof. intros s. unfold api_append_only. reflexivity. Qed.
#[local] Instance api_publish d r : Frame api_append_only (_publish_config_change event_bus alive d r).
Proof. unfold _publish_config_change. apply _. Qed.
#[local] Instance api_session_frame {A} (m : M Api A) : Frame api_append_only m -> Frame api_append_only (api_session m).
Proof. intros Hm. unfold api_session. apply _. Qed.

(** A request of [api/v1] that changes the database. *)
Inductive request :=
  | Register (email password display_name : string) (client : option string)
  | Login (email password : string) (client : option string)
  | ByUser (token : string) (client : option string) (q : user_req)
  | Revoke (token : string) (client : option string) (i : uuid)
  | ByDevice (i : uuid) (token : string) (q : device_req)
  | Report (i : uuid) (token endpoint source : string) (port : Z) (local_ip public_ip : option string)
  | Probe (i : uuid) (token peer endpoint : string) (reachable : bool) (latency : option Z) (source : string) (port : Z)
      (local_ip public_ip : option string)
  | EnrollByKey (req : EnrollByKeyRequest) (client : option string)
  | RegisterByKey (key name : string) (client : option string).
Definition run_request (r : request) : M Api unit :=
  match r with
  | Register e p n c => api_session (on_world (Auth.register e p n c);; mret tt)
  | Login e p c => api_session (on_world (Auth.login e p c);; mret tt)
  | ByUser t c q => as_user t (fun u => on_world (run_user_req c q u))
  | Revoke t c i => as_user t (revoke_device event_bus alive i c)
  | ByDevice i t q => as_device i t (fun d => on_world (run_device_req i q d))
  | Report i t e s p l u =>
    as_device i t (fun d => device_report_endpoint event_bus alive i e s p l u d;; mret tt)
  | Probe i t p e r l s q a b =>
    as_device i t (fun d => device_probe_result bind_uuid event_bus alive i p e r l s q a b d;; mret tt)
  | EnrollByKey req c => api_session (on_world (enroll_by_key req c);; mret tt)
  | RegisterByKey k n c => api_session (on_world (register_device k n c);; mret tt)
  end.
(** Requests are served one after the other; what one raises is answered. *)
Definition serve (s : Api) (r : request) : Api := (run_request r s).2.

Lemma request_append_only r : Frame api_append_only (run_request r).
Proof.
  destruct r; cbn [run_request]; unfold as_user, as_device.
  - unfold Auth.register, register_user, hash_password, create_access_token, create_refresh_token. apply _.
  - unfold Auth.login, login_user, create_access_token, create_refresh_token. apply _.
  - pose proof user_req_append_only. apply _.
  - unfold revoke_device. apply _.
  - pose proof device_req_append_only. apply _.
  - unfold device_report_endpoint. apply _.
  - unfold device_probe_result. apply _.
  - unfold enroll_by_key. apply _.
  - unfold register_device. apply _.
Qed.
End Handlers.

(** * Properties *)

(** C4. No committed entry of the audit log is ever changed, moved or removed:
    over any sequence of requests, whoever sends them and whether they succeed
    or raise, the committed log only grows at its end. *)
Theorem audit_log_append_only `{Env} bind_uuid monotonic event_bus alive rs s :
  w_db (api_world s) = w_committed (api_world s) ->
  audit_logs (w_committed (api_world s)) `prefix_of`
    audit_logs (w_committed (api_world (foldl (serve bind_uuid monotonic event_bus alive) s rs))).
Proof.
  intros Heq.
  assert (audit_logs (w_committed (api_world s)) `prefix_of` audit_logs (w_db (api_world s))) as Hp by by rewrite Heq.
  clear Heq. revert s Hp. induction rs as [|r rs IH]; intros s Hp; [done|]. cbn [foldl].
  destruct (request_append_only bind_uuid monotonic event_bus alive r s Hp) as [H1 H2].
  etrans; [exact H1|]. apply IH. exact H2.
Qed.

(** * Witnesses *)
Lemma audit_log_append_only_witness :
  let s := foldl (serve UUID (fun _ => 0) true (fun _ => true)) api_state
    [EnrollByKey api_req None; Login "nobody" "x" None; RegisterByKey "midscale_k" "again" None] in
  AuditLog.action <$> audit_logs (w_committed (api_world s)) = ["device.enroll_by_key"] /\
  audit_logs (w_committed (api_world api_state)) `prefix_of` audit_logs (w_committed (api_world s)).
Proof.
  split; [vm_compute; reflexivity|].
  apply (audit_log_append_only UUID (fun _ => 0) true (fun _ => true)). reflexivity.
Defined.
