(* ===== verification/WgRuntime.v ===== *)
(** The daemon's WireGuard interface: [midscaled/daemon/wg_runtime.py], with
    the desired state of [midscaled/daemon/models.py].

    The programs [wg] and [ip] are outside: [answer] gives what the last
    command of a history does, a process that could not be started included.
    The host is the history of commands. *)
From Stdlib Require Import Ascii.
From S2P Require Import Prelude PyStr Dict Json PyJson WgAdapter.
Local Open Scope string_scope.
Local Open Scope list_scope.
Local Open Scope Z_scope.

(** * Desired and observed state

    What a peer says comes from JSON text and is only looked at when it is
    used: its members are JSON values here. *)
Record DesiredPeer := mkDesiredPeer {
  public_key : json;
  allowed_ips : json;
  endpoint : json;
  endpoint_port : json;
  persistent_keepalive : json;
  relay_required : json;
  relay_candidates : json
}.
Record DesiredConfig := mkDesiredConfig {
  private_key : string;
  address : string;
  subnet : string;
  listen_port : option Z;
  dns_servers : json;
  peers : list DesiredPeer;
  mtu : json
}.
(** The members are of the types the dataclass names. *)
Definition is_text (j : json) : bool := match j with JStr _ => true | _ => false end.
Definition is_text_list (j : json) : bool := match j with JArr l => forallb is_text l | _ => false end.
Definition is_opt_text (j : json) : bool := match j with JStr _ | JNull => true | _ => false end.
Definition is_opt_int (j : json) : bool := match j with JInt _ | JNull => true | _ => false end.
Definition typed_peer (p : DesiredPeer) : bool :=
  is_text (public_key p) && is_text_list (allowed_ips p) && is_opt_text (endpoint p)
  && is_opt_int (endpoint_port p) && is_opt_int (persistent_keepalive p).

Record PeerState := mkPeerState {
  ps_public_key : string;
  ps_allowed_ips : list string;
  ps_endpoint : option string;
  ps_latest_handshake : option Z;
  ps_transfer_rx : Z;
  ps_transfer_tx : Z
}.
Record InterfaceState := mkInterfaceState {
  is_name : string;
  is_public_key : option string;
  is_listen_port : Z;
  is_peers : list PeerState
}.

(** * Commands *)
Inductive command := Wg (args : list string) (input : option string) | Ip (args : list string).
#[export] Instance command_eq_dec : EqDecision command.
Proof. solve_decision. Defined.
Abbreviation host := (list command).

(** [datetime.fromtimestamp]: only [ValueError] and [OSError] are caught. *)
Definition _parse_dump_timestamp (raw : string) : outcome (option Z) :=
  let raw := strip raw in
  if negb (truthy raw) || String.eqb raw "0" then Ok None else
  match int_of_str raw with
  | Raise _ => Ok None
  | Ok ts =>
    if ts =? 0 then Ok None
    else if (-62135596800 <=? ts) && (ts <=? 253402300799) then Ok (Some (ts * US))
    else if (- 2 ^ 63 <=? ts) && (ts <? 2 ^ 63) then Ok None
    else Raise OverflowError
  end.
Definition parse_peer (parts : list string) : outcome PeerState :=
  let part i := nth i parts "" in
  handshake ← _parse_dump_timestamp (part 3%nat);
  rx ← (if truthy (part 4%nat) then int_of_str (part 4%nat) else Ok 0);
  tx ← (if truthy (part 5%nat) then int_of_str (part 5%nat) else Ok 0);
  Ok (mkPeerState (part 0%nat)
        (if truthy (part 1%nat) then split "," (part 1%nat) else [])
        (if truthy (part 2%nat) && negb (String.eqb (part 2%nat) "(none)") then Some (part 2%nat) else None)
        handshake rx tx).
Fixpoint parse_peers (lines : list string) : outcome (list PeerState) :=
  match lines with
  | [] => Ok []
  | line :: rest =>
    if negb (truthy (strip line)) then parse_peers rest
    else
      let parts := split TAB line in
      if (length parts <? 5)%nat then parse_peers rest
      else p ← parse_peer parts; ps ← parse_peers rest; Ok (p :: ps)
  end.
Definition _parse_dump (raw interface : string) : outcome InterfaceState :=
  match split (ascii_of_nat 10) raw with
  | [] => Ok (mkInterfaceState interface None 51820 [])
  | line :: rest =>
    let first := split TAB line in
    listen_port ← match first !! 1%nat with Some p => int_of_str p | None => Ok 51820 end;
    peers ← parse_peers rest;
    Ok (mkInterfaceState interface
          (x ← first !! 2%nat; if String.eqb x "(none)" then None else Some x) listen_port peers)
  end.

Section Runtime.
(** What the outside does, the order in which a set is walked, and what
    [repr] prints for what is not text. *)
Context (answer : host -> outcome process) (set_order : list string -> list string) (repr : json -> string).

Definition exec (c : command) : M host process := fun h => (answer (h ++ [c]), h ++ [c]).
(** The exit status is not looked at. *)
Definition _run (args : list string) (input : option string) : M host (string * string) :=
  p ← exec (Wg args (if opt_truthy input then input else None));
  mret (strip (stdout p), strip (stderr p)).
Definition ip (args : list string) : M host unit := exec (Ip args);; mret tt.

Definition generate_keypair : M host (option string * option string) :=
  try_except (
    priv ← exec (Wg ["genkey"] None);
    if negb (returncode priv =? 0) then mret (None, None) else
    let private_key := strip (stdout priv) in
    pub ← exec (Wg ["pubkey"] (Some private_key));
    if negb (returncode pub =? 0) then mret (None, None) else
    mret (Some private_key, Some (strip (stdout pub))))
  (fun _ => mret (None, None)).

Definition interface_exists (interface : string) : M host bool :=
  try_except (_run ["show"; interface] None;; mret true) (fun _ => mret false).
Definition get_state (interface : string) : M host (option InterfaceState) :=
  try_except (
    '(raw, _) ← _run ["show"; interface; "dump"] None;
    if negb (truthy raw) then mret None
    else st ← lift (_parse_dump raw interface); mret (Some st))
  (fun _ => mret None).

(** The command of a peer: a command takes text only. *)
Definition peer_args (interface : string) (p : DesiredPeer) : outcome (list string) :=
  ips ← py_join "," (allowed_ips p);
  let endpoint_args :=
    if json_truthy (endpoint p) then
      ["endpoint"; py_str repr (endpoint p) +:+ ":" +:+
         py_str repr (if json_truthy (endpoint_port p) then endpoint_port p else JInt 51820)]
    else [] in
  let keepalive_args :=
    match persistent_keepalive p with JNull => [] | k => ["persistent-keepalive"; py_str repr k] end in
  key ← text_item (public_key p);
  Ok (["set"; interface; "peer"; key; "allowed-ips"; ips] ++ endpoint_args ++ keepalive_args).
Definition key_args (interface : string) (config : DesiredConfig) : list string :=
  ["set"; interface; "private-key"; "/dev/stdin"; "listen-port";
   str_int (match listen_port config with Some n => if n =? 0 then 51820 else n | None => 51820 end)].
Definition remove_args (interface key : string) : list string := ["set"; interface; "peer"; key; "remove"].
(** [key in desired_keys] *)
Definition wanted (key : string) (desired_keys : list json) : bool :=
  existsb (fun j => match j with JStr k => String.eqb key k | _ => false end) desired_keys.
Definition apply_config (interface : string) (config : DesiredConfig) : M host bool :=
  try_except (
    _run (key_args interface config) (Some (private_key config));;
    current ← get_state interface;
    let current_keys := match current with Some st => remove_dups (ps_public_key <$> is_peers st) | None => [] end in
    let desired_keys := public_key <$> peers config in
    if negb (forallb hashable desired_keys) then raise TypeError else
    for_each (peers config) (fun p => args ← lift (peer_args interface p); _run args None;; mret tt);;
    for_each (set_order current_keys) (fun key =>
      when (negb (wanted key desired_keys)) (_run (remove_args interface key) None;; mret tt));;
    mret true)
  (fun _ => mret false).

Definition prefix_of (subnet : string) : string := if contains_char "/" subnet then nth 1 (split "/" subnet) "" else "24".
Definition bring_up_interface (interface address subnet : string) : M host bool :=
  let addr_args := ["addr"; "add"; address +:+ "/" +:+ prefix_of subnet; "dev"; interface] in
  try_except (
    exists_ ← interface_exists interface;
    if negb exists_ then
      proc ← exec (Wg ["genkey"] None);
      ip ["link"; "add"; interface; "type"; "wireguard"];;
      ip addr_args;;
      ip ["link"; "set"; interface; "up"];;
      when ((returncode proc =? 0) && truthy (strip (stdout proc)))
        (exec (Wg ["set"; interface; "private-key"; "/dev/stdin"] (Some (strip (stdout proc))));; mret tt);;
      mret true
    else
      ip addr_args;;
      ip ["link"; "set"; interface; "up"];;
      mret true)
  (fun _ => mret false).
Definition bring_down_interface (interface : string) : M host bool :=
  try_except (
    ip ["link"; "set"; interface; "down"];;
    ip ["link"; "delete"; interface];;
    mret true)
  (fun _ => mret false).

(** * Facts *)

(** The programs start: every process runs and ends, whatever its status. *)
Context (starts : forall h, exists p, answer h = Ok p).

Lemma run_ok args input h :
  exists o, _run args input h = (Ok o, h ++ [Wg args (if opt_truthy input then input else None)]).
Proof using starts.
  unfold _run, exec, mbind, M_bind. destruct (starts (h ++ [Wg args (if opt_truthy input then input else None)])) as [p ->].
  by eexists.
Qed.
Lemma ip_ok args h : ip args h = (Ok tt, h ++ [Ip args]).
Proof using starts. unfold ip, exec, mbind, M_bind. by destruct (starts (h ++ [Ip args])) as [p ->]. Qed.
Lemma run_unit_ok args h : (_run args None;; mret tt) h = (Ok tt, h ++ [Wg args None]).
Proof using starts. unfold mbind, M_bind. by destruct (run_ok args None h) as [o ->]. Qed.
(** What the command of a typed peer is. *)
Definition peer_command (interface : string) (p : DesiredPeer) : command :=
  Wg (match peer_args interface p with Ok args => args | Raise _ => [] end) None.
Lemma text_items_ok l : forallb is_text l = true -> exists ss, mapM text_item l = Ok ss.
Proof.
  induction l as [|j l IH]; [by eexists|]. cbn [forallb]. rewrite andb_true_iff. intros [Hj [ss Hss]%IH].
  destruct j; try done. eexists. cbn. by rewrite Hss.
Qed.
Lemma peer_args_ok interface p : typed_peer p = true -> exists args, peer_args interface p = Ok args.
Proof.
  unfold typed_peer. rewrite !andb_true_iff. intros [[[[Hk Hi] _] _] _]. unfold peer_args.
  destruct (allowed_ips p) as [| | | | |l|]; try done. destruct (text_items_ok l Hi) as [ss Hss].
  destruct (public_key p); try done. cbn. rewrite Hss. by eexists.
Qed.
Lemma typed_hashable ps : forallb typed_peer ps = true -> forallb hashable (public_key <$> ps) = true.
Proof.
  induction ps as [|p ps IH]; [done|]. cbn. rewrite !andb_true_iff. intros [Hp Hps]. split; [|by apply IH].
  unfold typed_peer in Hp. rewrite !andb_true_iff in Hp. destruct Hp as [[[[Hk _] _] _] _]. by destruct (public_key p).
Qed.
Lemma run_peers interface ps h :
  forallb typed_peer ps = true ->
  for_each ps (fun p => args ← lift (peer_args interface p); _run args None;; mret tt) h =
  (Ok tt, h ++ (peer_command interface <$> ps)).
Proof using starts.
  revert h. induction ps as [|p ps IH]; intros h; [by rewrite app_nil_r|].
  cbn [forallb]. rewrite andb_true_iff. intros [Hp Hps]. destruct (peer_args_ok interface p Hp) as [args Ha].
  cbn [for_each fmap list_fmap]. unfold mbind at 1, M_bind at 1. unfold mbind at 1, M_bind at 1, lift at 1.
  rewrite Ha, run_unit_ok, IH by done. unfold peer_command at 2. rewrite Ha. by rewrite <-app_assoc.
Qed.
Lemma run_some {A} (l : list A) (b : A -> bool) (f : A -> list string) h :
  for_each l (fun x => when (b x) (_run (f x) None;; mret tt)) h =
  (Ok tt, h ++ ((fun x => Wg (f x) None) <$> List.filter b l)).
Proof using starts.
  revert h. induction l as [|x l IH]; intros h; [by rewrite app_nil_r|].
  cbn [for_each List.filter]. unfold mbind at 1, M_bind at 1, when at 1. destruct (b x).
  - rewrite run_unit_ok, IH. cbn. by rewrite <-app_assoc.
  - apply IH.
Qed.
(** What [get_state] answers: a function of the history. *)
Definition state_seen (interface : string) (h : host) : option InterfaceState :=
  match answer (h ++ [Wg ["show"; interface; "dump"] None]) with
  | Ok p => if truthy (strip (stdout p))
            then match _parse_dump (strip (stdout p)) interface with Ok st => Some st | Raise _ => None end
            else None
  | Raise _ => None
  end.
Lemma get_state_run interface h :
  get_state interface h = (Ok (state_seen interface h), h ++ [Wg ["show"; interface; "dump"] None]).
Proof using starts.
  unfold get_state, state_seen, _run, try_except, exec, mbind, M_bind. cbn [opt_truthy].
  destruct (starts (h ++ [Wg ["show"; interface; "dump"] None])) as [p ->]. cbn.
  destruct (truthy (strip (stdout p))); cbn; [|done]. unfold lift. by destruct (_parse_dump _ _).
Qed.

(** What is done to the interface for a configuration: the key and the port are
    set, then every desired peer in order, then exactly the peers that were
    seen and are not desired are removed, whatever the programs' exit statuses
    are. *)
Definition key_command (interface : string) (config : DesiredConfig) : command :=
  Wg (key_args interface config) (Some (private_key config)).
Definition unwanted (interface : string) (config : DesiredConfig) (h : host) : list string :=
  List.filter (fun k => negb (wanted k (public_key <$> peers config)))
    (set_order (match state_seen interface h with
                | Some st => remove_dups (ps_public_key <$> is_peers st) | None => [] end)).
Definition config_commands (interface : string) (config : DesiredConfig) (h : host) : list command :=
  [key_command interface config; Wg ["show"; interface; "dump"] None]
  ++ (peer_command interface <$> peers config)
  ++ ((fun k => Wg (remove_args interface k) None) <$>
        unwanted interface config (h ++ [key_command interface config])).
Lemma apply_config_run interface config h :
  truthy (private_key config) = true -> forallb typed_peer (peers config) = true ->
  apply_config interface config h = (Ok true, h ++ config_commands interface config h).
Proof using starts.
  intros Hk Ht. unfold apply_config, try_except, config_commands, unwanted, key_command. unfold mbind at 1, M_bind at 1.
  destruct (run_ok (key_args interface config) (Some (private_key config)) h) as [o ->]. cbn [opt_truthy]. rewrite Hk.
  unfold mbind at 1, M_bind at 1. rewrite get_state_run.
  rewrite typed_hashable by done. cbn [negb].
  unfold mbind at 1, M_bind at 1. rewrite run_peers by done. unfold mbind at 1, M_bind at 1. rewrite run_some.
  cbn. by rewrite <-!app_assoc.
Qed.
(** While the programs start, the interface seems to exist. *)
Definition up_commands (interface address subnet : string) : list command :=
  [Wg ["show"; interface] None;
   Ip ["addr"; "add"; address +:+ "/" +:+ prefix_of subnet; "dev"; interface];
   Ip ["link"; "set"; interface; "up"]].
Lemma bring_up_run interface address subnet h :
  bring_up_interface interface address subnet h = (Ok true, h ++ up_commands interface address subnet).
Proof using starts.
  unfold bring_up_interface, interface_exists, try_except. unfold mbind at 1, M_bind at 1.
  unfold mbind at 1, M_bind at 1. destruct (run_ok ["show"; interface] None h) as [o ->]. cbn [negb mret M_ret opt_truthy].
  unfold mbind, M_bind. rewrite !ip_ok. cbn. by rewrite <-!app_assoc.
Qed.

(** [wg show dump] prints the private key, the public key, the port and the
    mark of the interface on its first line, so that the second field is no
    number. *)
Definition dump_line (priv pub port mark : string) : string :=
  join (String TAB "") [priv; pub; port; mark].
Definition no_tab (s : string) : bool := negb (contains_char TAB s) && negb (contains_char (ascii_of_nat 10) s).
Lemma parse_dump_fails priv pub port mark rest interface e :
  no_tab priv = true -> no_tab pub = true -> no_tab port = true -> no_tab mark = true ->
  int_of_str pub = Raise e ->
  _parse_dump (join (String (ascii_of_nat 10) "") (dump_line priv pub port mark :: rest)) interface = Raise e.
Proof.
  unfold no_tab. rewrite !andb_true_iff, !negb_true_iff. intros [Hp1 Hp2] [Hq1 Hq2] [Hr1 Hr2] [Hm1 Hm2] He.
  assert (contains_char (ascii_of_nat 10) (dump_line priv pub port mark) = false) as Hn.
  { unfold dump_line. change (join (String TAB "") [priv; pub; port; mark]) with
      (priv +:+ String TAB "" +:+ pub +:+ String TAB "" +:+ port +:+ String TAB "" +:+ mark).
    rewrite !contains_app. rewrite Hp2, Hq2, Hr2, Hm2. reflexivity. }
  unfold _parse_dump.
  assert (exists lines, split (ascii_of_nat 10) (join (String (ascii_of_nat 10) "") (dump_line priv pub port mark :: rest))
    = dump_line priv pub port mark :: lines) as [lines ->].
  { destruct rest as [|l rest]; [exists []; by apply split_no_sep|].
    rewrite join_cons, split_app_sep by done. by eexists. }
  unfold dump_line. rewrite split_join by by repeat constructor. cbn. by rewrite He.
Qed.

(** * Properties *)

(** The peers of the interface are never seen, for the dump has its fields in
    another order than the parser: no peer is ever removed. *)
Theorem stale_peers_stay interface config h priv pub port mark rest p e :
  truthy (private_key config) = true -> forallb typed_peer (peers config) = true -> (forall l, set_order l ≡ₚ l) ->
  answer (h ++ [Wg (key_args interface config) (Some (private_key config)); Wg ["show"; interface; "dump"] None]) = Ok p ->
  strip (stdout p) = join (String (ascii_of_nat 10) "") (dump_line priv pub port mark :: rest) ->
  no_tab priv = true -> no_tab pub = true -> no_tab port = true -> no_tab mark = true ->
  int_of_str pub = Raise e ->
  apply_config interface config h =
  (Ok true, h ++ [Wg (key_args interface config) (Some (private_key config)); Wg ["show"; interface; "dump"] None]
    ++ (peer_command interface <$> peers config)).
Proof using starts.
  intros Hk Ht Hset Hans Hout Hp Hq Hr Hm He. rewrite apply_config_run by done. unfold config_commands, unwanted, key_command.
  assert (state_seen interface (h ++ [Wg (key_args interface config) (Some (private_key config))]) = None) as ->.
  { unfold state_seen. rewrite <-app_assoc. cbn [app]. rewrite Hans, Hout, (parse_dump_fails _ _ _ _ _ _ e) by done.
    by match goal with |- (if ?b then _ else _) = _ => destruct b end. }
  rewrite (proj1 (Permutation_nil_r _) (Hset [])). cbn. by rewrite app_nil_r.
Qed.

(** While the programs start, the interface always seems to exist, so the
    daemon never creates it. *)
Theorem interface_never_created interface address subnet h :
  exists cs, bring_up_interface interface address subnet h = (Ok true, h ++ cs) /\
  Ip ["link"; "add"; interface; "type"; "wireguard"] ∉ cs.
Proof using starts.
  exists (up_commands interface address subnet). split; [apply bring_up_run|].
  unfold up_commands. rewrite !not_elem_of_cons. split_and!; try done. apply not_elem_of_nil.
Qed.
End Runtime.

(** * Witnesses *)
Definition a_host : host -> outcome process := fun h =>
  match last h with
  | Some (Wg ["show"; _; "dump"] None) =>
    Ok (mkProcess 0 ("a" +:+ String TAB "b" +:+ String TAB "51820" +:+ String TAB "off") "")
  | _ => Ok (mkProcess 1 "" "no such device")
  end.
Lemma a_host_starts h : exists p, a_host h = Ok p.
Proof. unfold a_host. repeat case_match; by eexists. Qed.
Definition no_repr : json -> string := fun _ => "".
Definition a_config := mkDesiredConfig "key" "10.0.0.2/32" "10.0.0.0/24" None JNull
  [mkDesiredPeer (JStr "peer") (JArr [JStr "10.0.0.3/32"]) (JStr "192.0.2.1") JNull (JInt 25) (JBool false) (JArr [])] JNull.

Lemma stale_peers_stay_witness :
  apply_config a_host id no_repr "wg0" a_config [] =
  (Ok true, [Wg (key_args "wg0" a_config) (Some "key"); Wg ["show"; "wg0"; "dump"] None;
    Wg ["set"; "wg0"; "peer"; "peer"; "allowed-ips"; "10.0.0.3/32"; "endpoint"; "192.0.2.1:51820";
        "persistent-keepalive"; "25"] None]).
Proof.
  apply (stale_peers_stay a_host id no_repr a_host_starts "wg0" a_config [] "a" "b" "51820" "off" []
    (mkProcess 0 ("a" +:+ String TAB "b" +:+ String TAB "51820" +:+ String TAB "off") "")
    (ValueError "invalid literal for int()")); try reflexivity; by intros.
Defined.
Lemma interface_never_created_witness :
  exists cs, bring_up_interface a_host "wg0" "10.0.0.2" "10.0.0.0/24" [] = (Ok true, [] ++ cs) /\
  Ip ["link"; "add"; "wg0"; "type"; "wireguard"] ∉ cs.
Proof. apply (interface_never_created a_host a_host_starts "wg0" "10.0.0.2" "10.0.0.0/24" []). Defined.
