(* ===== verification/ConfigReader.v ===== *)
(** How the daemon reads a configuration: [_parse_config_ini] and
    [_parse_config_v2] of [midscaled/daemon/reconciler.py].

    The INI form is read with two regular expressions, written out here as
    the scans they are; that it reads what [WireGuardConfig.to_ini] of the
    server prints is the round trip proved below.  A letter that is not ASCII
    does not count as a word character here. *)
From Stdlib Require Import Ascii.
From S2P Require Import Prelude PyStr Bytes Dict Json PyJson IPv4 Models Scoring Topology ConfigV2 WgRuntime.
Local Open Scope string_scope.
Local Open Scope list_scope.
Local Open Scope Z_scope.

(** * The regular expressions *)
Definition newline : ascii := ascii_of_nat 10.
Definition is_newline (c : ascii) : bool := Ascii.eqb c newline.
(** [\w] *)
Definition is_word (c : ascii) : bool :=
  let n := nat_of_ascii c in
  is_digit c || ((65 <=? n)%nat && (n <=? 90)%nat) || ((97 <=? n)%nat && (n <=? 122)%nat) || (n =? 95)%nat.
#[global] Arguments is_word : simpl never.
Fixpoint take_while (p : ascii -> bool) (s : string) : string :=
  match s with String c t => if p c then String c (take_while p t) else "" | EmptyString => "" end.
Fixpoint drop_while (p : ascii -> bool) (s : string) : string :=
  match s with String c t => if p c then drop_while p t else s | EmptyString => "" end.

(** [$] without MULTILINE: at the end, or before a newline that ends the text. *)
Definition at_end (s : string) : bool :=
  match s with EmptyString => true | String c EmptyString => is_newline c | _ => false end.
(** [.*?] with DOTALL, up to the first place where [stop] holds. *)
Fixpoint until (stop : string -> bool) (s : string) : string :=
  if stop s then "" else match s with EmptyString => "" | String c t => String c (until stop t) end.
Definition section_ends (s : string) : bool := startswith "[Peer]" s || at_end s.
Definition block_ends (s : string) : bool := startswith "[" s || at_end s.

(** The group of [re.search] for the interface section. *)
Fixpoint interface_match (s : string) : option string :=
  if startswith "[Interface]" s then Some (until section_ends (drop_str 11 s))
  else match s with EmptyString => None | String _ t => interface_match t end.

(** [_INI_PEER_BLOCK.findall]; [skip] characters belong to the last match. *)
Fixpoint peer_blocks_from (skip : nat) (s : string) : list string :=
  match s with
  | EmptyString => []
  | String _ t =>
    match skip with
    | S k => peer_blocks_from k t
    | O =>
      if startswith "[Peer]" s then
        let body := until block_ends (drop_str 6 s) in
        ("[Peer]" +:+ body) :: peer_blocks_from (5 + String.length body) t
      else peer_blocks_from 0 t
    end
  end.
Definition _INI_PEER_BLOCK (s : string) : list string := peer_blocks_from 0 s.

(** A match of [_INI_KEY_VALUE] at the start of a line: the two groups and the
    length.  The white space around the sign may hold line ends. *)
Definition key_value_at (s : string) : option (string * string * nat) :=
  let k := take_while is_word s in
  if negb (truthy k) then None else
  match drop_while is_space (drop_while is_word s) with
  | String "=" r =>
    let r := drop_while is_space r in
    let v := take_while (fun c => negb (is_newline c)) r in
    Some (k, v, String.length s - String.length (drop_str (String.length v) r))%nat
  | _ => None
  end.
(** [_INI_KEY_VALUE.findall]; [bol] says that the place starts a line. *)
Fixpoint key_values_from (skip : nat) (bol : bool) (s : string) : list (string * string) :=
  match s with
  | EmptyString => []
  | String c t =>
    match skip with
    | S k => key_values_from k (is_newline c) t
    | O =>
      match (if bol then key_value_at s else None) with
      | Some (k, v, n) => (k, v) :: key_values_from (n - 1) (is_newline c) t
      | None => key_values_from 0 (is_newline c) t
      end
    end
  end.
Definition _INI_KEY_VALUE (s : string) : list (string * string) := key_values_from 0 true s.

(** [dict(pairs).get(k, "")]: the last pair of a key wins. *)
Definition kv_get (k : string) (kv : list (string * string)) : string :=
  match List.find (fun e => String.eqb e.1 k) (rev kv) with Some e => e.2 | None => "" end.

(** * [_parse_config_ini] *)
(** [[s.strip() for s in raw.split(",") if s.strip()]] *)
Definition words (raw : string) : list string := List.filter truthy (strip <$> split "," raw).
Definition texts (l : list string) : json := JArr (JStr <$> l).
Definition opt_int_of (raw : string) : outcome (option Z) :=
  if truthy raw then n ← int_of_str raw; Ok (Some n) else Ok None.
(** The address without its prefix, and the subnet made of the prefix. *)
Definition split_address (address_raw : string) : string * string :=
  (if truthy address_raw then nth 0 (split "/" address_raw) "" else "",
   if contains_char "/" address_raw then "0.0.0.0/" +:+ nth 1 (split "/" address_raw) "" else "").

Definition parse_endpoint (endpoint_raw : string) : json * json :=
  if negb (truthy endpoint_raw) then (JNull, JNull) else
  match rsplit1 ":" endpoint_raw with
  | Some (endpoint, port_str) =>
    (JStr endpoint, JInt (match int_of_str port_str with Ok n => n | Raise _ => 51820 end))
  | None => (JStr endpoint_raw, JNull)
  end.
Definition parse_block (pkv : list (string * string)) : outcome (option DesiredPeer) :=
  let public_key := kv_get "PublicKey" pkv in
  if negb (truthy public_key) then Ok None else
  let '(endpoint, endpoint_port) := parse_endpoint (kv_get "Endpoint" pkv) in
  keepalive ← opt_int_of (kv_get "PersistentKeepalive" pkv);
  Ok (Some (mkDesiredPeer (JStr public_key) (texts (words (kv_get "AllowedIPs" pkv)))
    endpoint endpoint_port (jint_opt keepalive) (JBool false) (JArr []))).
Fixpoint parse_blocks (blocks : list (list (string * string))) : outcome (list DesiredPeer) :=
  match blocks with
  | [] => Ok []
  | pkv :: rest =>
    p ← parse_block pkv;
    ps ← parse_blocks rest;
    Ok (match p with Some p => p :: ps | None => ps end)
  end.
Definition _parse_config_ini (ini : string) : outcome (option DesiredConfig) :=
  match interface_match ini with
  | None => Ok None
  | Some interface_section =>
    let kv := _INI_KEY_VALUE interface_section in
    let '(address, subnet) := split_address (kv_get "Address" kv) in
    let dns_raw := kv_get "DNS" kv in
    peers ← parse_blocks (_INI_KEY_VALUE <$> _INI_PEER_BLOCK ini);
    listen_port ← opt_int_of (kv_get "ListenPort" kv);
    mtu ← opt_int_of (kv_get "MTU" kv);
    Ok (Some (mkDesiredConfig (kv_get "PrivateKey" kv) address subnet listen_port
      (if truthy dns_raw then texts (words dns_raw) else JNull) peers (jint_opt mtu)))
  end.

(** * [_parse_config_v2] *)
(** [address_raw.split("/")[0]] and what follows, for any value. *)
Definition split_address_json (j : json) : outcome (string * string) :=
  match j with
  | JStr s => Ok (split_address s)
  | JArr l =>
    match l with
    | [] => Ok ("", "")
    | _ => Raise (AttributeError "split")
    end
  | JObj [] => Ok ("", "")
  | JObj _ => Raise (AttributeError "split")
  | _ => if json_truthy j then Raise (AttributeError "split") else Raise TypeError
  end.
Definition parse_peer_v2 (p : json) : outcome DesiredPeer :=
  relay_required ← get_or p "relay_required" (JBool false);
  relay_candidates ← get_or p "relay_candidates" JNull;
  public_key ← get_or p "public_key" (JStr "");
  allowed_ips ← get_or p "allowed_ips" (JArr []);
  endpoint ← get_or p "endpoint" JNull;
  endpoint_port ← get_or p "endpoint_port" JNull;
  persistent_keepalive ← get_or p "persistent_keepalive" JNull;
  Ok (mkDesiredPeer public_key allowed_ips endpoint endpoint_port persistent_keepalive relay_required
        (if json_truthy relay_candidates then relay_candidates else JArr [])).
Definition parse_v2 (config_v2 : json) (private_key : string) : outcome DesiredConfig :=
  interface ← get_or config_v2 "interface" (JObj []);
  address_raw ← get_or interface "address" (JStr "");
  '(address, subnet) ← split_address_json address_raw;
  peers_json ← get_or config_v2 "peers" (JArr []);
  peer_items ← items peers_json;
  peers ← mapM parse_peer_v2 peer_items;
  dns ← get_or interface "dns" JNull;
  mtu ← get_or interface "mtu" JNull;
  Ok (mkDesiredConfig private_key address subnet None dns peers mtu).
Definition _parse_config_v2 (config_v2 : json) (private_key : string) : option DesiredConfig :=
  match parse_v2 config_v2 private_key with Ok c => Some c | Raise _ => None end.

(** * Facts *)

(** ** Scanning *)
Lemma take_while_app p a c r :
  str_forall p a = true -> p c = false -> take_while p (a +:+ String c r) = a.
Proof.
  intros Ha Hc. induction a as [|x a IH].
  - change (take_while p (String c r) = ""). cbn [take_while]. by rewrite Hc.
  - cbn [str_forall] in Ha. apply andb_true_iff in Ha as [Hx Ha].
    change (take_while p (String x (a +:+ String c r)) = String x a). cbn [take_while]. by rewrite Hx, IH.
Qed.
Lemma take_while_all p a : str_forall p a = true -> take_while p a = a.
Proof. induction a as [|x a IH]; [done|]. cbn. intros [-> Ha]%andb_true_iff. by rewrite IH. Qed.
Lemma drop_while_app p a c r :
  str_forall p a = true -> p c = false -> drop_while p (a +:+ String c r) = String c r.
Proof.
  intros Ha Hc. induction a as [|x a IH].
  - change (drop_while p (String c r) = String c r). cbn [drop_while]. by rewrite Hc.
  - cbn [str_forall] in Ha. apply andb_true_iff in Ha as [Hx Ha].
    change (drop_while p (String x (a +:+ String c r)) = String c r). cbn [drop_while]. by rewrite Hx, IH.
Qed.
Lemma contains_none c s : contains_char c s = false -> str_forall (fun x => negb (Ascii.eqb x c)) s = true.
Proof. induction s as [|a s IH]; [done|]. cbn. intros [-> Hs]%orb_false_iff. by rewrite IH. Qed.

(** ** The two ends of a section *)
Lemma not_at_end c a d r : at_end (String c (a +:+ String d r)) = false.
Proof. by destruct a. Qed.
Lemma until_stop stop a d r :
  contains_char "[" a = false -> stop (String d r) = true ->
  (forall c x, c <> "["%char -> stop (String c (x +:+ String d r)) = false) ->
  until stop (a +:+ String d r) = a.
Proof.
  intros Ha Hs Hno. induction a as [|c a IH].
  - change ("" +:+ String d r) with (String d r). cbn [until]. by rewrite Hs.
  - cbn [contains_char] in Ha. apply orb_false_iff in Ha as [Hc Ha].
    change (String c a +:+ String d r) with (String c (a +:+ String d r)). cbn [until].
    rewrite Hno by (by apply Ascii.eqb_neq). by rewrite IH.
Qed.
Lemma bracket_first p c t : c <> "["%char -> startswith (String "[" p) (String c t) = false.
Proof. intros Hc. cbn [startswith]. rewrite (proj2 (Ascii.eqb_neq "[" c)) by congruence. done. Qed.
Lemma until_section a d r :
  contains_char "[" a = false -> section_ends (String d r) = true -> until section_ends (a +:+ String d r) = a.
Proof.
  intros Ha Hs. apply until_stop; [done..|]. intros c x Hc. unfold section_ends.
  by rewrite bracket_first, not_at_end.
Qed.
Lemma until_block a d r :
  contains_char "[" a = false -> block_ends (String d r) = true -> until block_ends (a +:+ String d r) = a.
Proof.
  intros Ha Hs. apply until_stop; [done..|]. intros c x Hc. unfold block_ends.
  by rewrite bracket_first, not_at_end.
Qed.

(** ** The blocks *)
Lemma blocks_skip a r : peer_blocks_from (String.length a) (a +:+ r) = peer_blocks_from 0 r.
Proof. by induction a. Qed.
Lemma blocks_none a r : contains_char "[" a = false -> peer_blocks_from 0 (a +:+ r) = peer_blocks_from 0 r.
Proof.
  induction a as [|c a IH]; [done|]. cbn [contains_char]. intros [Hc Ha]%orb_false_iff.
  change (String c a +:+ r) with (String c (a +:+ r)). cbn [peer_blocks_from].
  rewrite bracket_first by (by apply Ascii.eqb_neq). by apply IH.
Qed.
Lemma blocks_peer a d r :
  contains_char "[" a = false -> block_ends (String d r) = true ->
  peer_blocks_from 0 ("[Peer]" +:+ a +:+ String d r) = ("[Peer]" +:+ a) :: peer_blocks_from 0 (String d r).
Proof.
  intros Ha Hs. change ("[Peer]" +:+ a +:+ String d r) with (String "[" ("Peer]" +:+ a +:+ String d r)).
  cbn [peer_blocks_from]. change (startswith "[Peer]" (String "[" ("Peer]" +:+ a +:+ String d r))) with true. cbv iota.
  change (drop_str 6 (String "[" ("Peer]" +:+ a +:+ String d r))) with (a +:+ String d r).
  rewrite until_block by done. f_equal.
  rewrite <-str_app_assoc. change (5 + String.length a)%nat with (String.length ("Peer]" +:+ a)). apply blocks_skip.
Qed.

(** ** Keys and values *)
Definition line (e : string * string) : string := e.1 +:+ " = " +:+ e.2.
Definition plain_value (v : string) : bool :=
  match v with String c _ => negb (is_space c) | _ => false end
  && negb (contains_char newline v) && negb (contains_char "[" v).
Definition plain_pair (e : string * string) : bool :=
  truthy e.1 && str_forall is_word e.1 && plain_value e.2.
(** What may follow a value: nothing, or a line end. *)
Definition ends_line (t : string) : Prop := t = "" \/ exists r, t = String newline r.

Lemma word_char c : is_word c = true -> is_newline c = false /\ is_space c = false /\ c <> "["%char.
Proof. by destruct c as [[] [] [] [] [] [] [] []]. Qed.
Lemma take_value v t :
  contains_char newline v = false -> ends_line t ->
  take_while (fun c => negb (is_newline c)) (v +:+ t) = v.
Proof.
  intros Hv [->|[r ->]].
  - rewrite str_app_nil. by apply take_while_all, contains_none.
  - apply take_while_app; [by apply contains_none|done].
Qed.
Lemma key_value_line e t :
  plain_pair e = true -> ends_line t ->
  key_value_at (line e +:+ t) = Some (e.1, e.2, String.length (line e)).
Proof.
  destruct e as [k v]. unfold plain_pair, plain_value, line. cbn [fst snd]. rewrite !andb_true_iff.
  intros [[Hk Hw] [[Hsp Hn] _]] Ht. rewrite negb_true_iff in Hn.
  assert ((k +:+ " = " +:+ v) +:+ t = k +:+ String " " (String "=" (String " " (v +:+ t)))) as E
    by (by rewrite !str_app_assoc).
  unfold key_value_at. rewrite E, take_while_app, drop_while_app, Hk by done. cbn [negb].
  change (drop_while is_space (String " " (String "=" (String " " (v +:+ t))))) with (String "=" (String " " (v +:+ t))).
  cbv iota. change (drop_while is_space (String " " (v +:+ t))) with (drop_while is_space (v +:+ t)).
  assert (drop_while is_space (v +:+ t) = v +:+ t) as ->.
  { destruct v as [|c v]; [done|]. change (String c v +:+ t) with (String c (v +:+ t)). cbn [drop_while].
    rewrite negb_true_iff in Hsp. by rewrite Hsp. }
  rewrite take_value, drop_str_app by done. do 2 f_equal.
  rewrite !str_length_app. cbn [String.length]. rewrite !str_length_app. lia.
Qed.
Lemma pairs_skip a r : contains_char newline a = false -> key_values_from (String.length a) false (a +:+ r) = key_values_from 0 false r.
Proof.
  induction a as [|c a IH]; [done|]. cbn [contains_char]. intros [Hc Ha]%orb_false_iff.
  change (String c a +:+ r) with (String c (a +:+ r)). cbn [String.length key_values_from].
  unfold is_newline. rewrite Hc. by apply IH.
Qed.
Lemma no_newline_words k : str_forall is_word k = true -> contains_char newline k = false.
Proof. by apply contains_char_forall. Qed.
Lemma pairs_line e t :
  plain_pair e = true -> ends_line t -> key_values_from 0 true (line e +:+ t) = e :: key_values_from 0 false t.
Proof.
  intros He Ht. pose proof (key_value_line e t He Ht) as Hkv. destruct e as [k v].
  unfold plain_pair, plain_value in He. rewrite !andb_true_iff in He. destruct He as [[Hk Hw] [[_ Hn] _]]. cbn [fst snd] in *.
  destruct k as [|c k]; [done|]. cbn [str_forall] in Hw. apply andb_true_iff in Hw as [Hc Hw].
  unfold line in *. cbn [fst snd] in *.
  change ((String c k +:+ " = " +:+ v) +:+ t) with (String c ((k +:+ " = " +:+ v) +:+ t)) in *.
  cbn [key_values_from]. rewrite Hkv. f_equal.
  change (String.length (String c k +:+ " = " +:+ v)) with (S (String.length (k +:+ " = " +:+ v))).
  cbn [Nat.sub]. rewrite Nat.sub_0_r. destruct (word_char c Hc) as [-> _]. apply pairs_skip.
  rewrite !contains_app, no_newline_words by done. cbn. by rewrite negb_true_iff in Hn.
Qed.
Lemma pairs_lines kvs t :
  kvs <> [] -> forallb plain_pair kvs = true -> ends_line t ->
  key_values_from 0 true (join NL (line <$> kvs) +:+ t) = kvs ++ key_values_from 0 false t.
Proof.
  intros Hne Hall Ht. induction kvs as [|e kvs IH]; [done|]. clear Hne.
  cbn [forallb] in Hall. apply andb_true_iff in Hall as [He Hall].
  destruct kvs as [|e' kvs]; [by apply pairs_line|].
  change (join NL (line <$> e :: e' :: kvs)) with (line e +:+ NL +:+ join NL (line <$> e' :: kvs)).
  rewrite !str_app_assoc, pairs_line by (done || (right; by eexists)).
  change (key_values_from 0 false (NL +:+ ?x)) with (key_values_from 0 true x). by rewrite IH.
Qed.

(** ** The text of a configuration, by sections *)
Lemma join_app sep (a b : list string) :
  a <> [] -> b <> [] -> join sep (a ++ b) = join sep a +:+ sep +:+ join sep b.
Proof.
  intros Ha Hb. induction a as [|x a IH]; [done|]. destruct a as [|y a].
  - by destruct b.
  - change ((x :: y :: a) ++ b) with (x :: (y :: a) ++ b).
    change (join sep (x :: (y :: a) ++ b)) with (x +:+ sep +:+ join sep ((y :: a) ++ b)).
    rewrite IH by done. change (join sep (x :: y :: a)) with (x +:+ sep +:+ join sep (y :: a)).
    by rewrite !str_app_assoc.
Qed.
Definition body (kv : list (string * string)) : string := NL +:+ join NL (line <$> kv).
Definition block_lines (kv : list (string * string)) : list string := "[Peer]" :: (line <$> kv) ++ [""].
Lemma header_lines h kv : kv <> [] -> join NL (h :: (line <$> kv) ++ [""]) = h +:+ body kv +:+ NL.
Proof.
  intros Hkv. change (h :: (line <$> kv) ++ [""]) with ((h :: (line <$> kv)) ++ [""]). rewrite join_app by done.
  unfold body. destruct kv as [|e kv]; [done|].
  change (join NL (h :: (line <$> e :: kv))) with (h +:+ NL +:+ join NL (line <$> e :: kv)).
  by rewrite !str_app_assoc.
Qed.
Lemma blocks_join kv rest :
  kv <> [] -> join NL (concat (block_lines <$> kv :: rest)) =
  "[Peer]" +:+ body kv +:+ NL +:+
  match rest with [] => "" | _ => NL +:+ join NL (concat (block_lines <$> rest)) end.
Proof.
  intros Hkv. cbn [fmap list_fmap concat]. destruct rest as [|kv' rest].
  - rewrite app_nil_r. unfold block_lines. by rewrite header_lines, str_app_nil.
  - rewrite join_app by done. unfold block_lines at 1. rewrite header_lines by done. by rewrite !str_app_assoc.
Qed.

(** A body holds its pairs, whatever newlines follow it. *)
Lemma body_pairs h kv t :
  h = "" \/ h = "[Peer]" -> kv <> [] -> forallb plain_pair kv = true -> t = "" \/ t = NL +:+ NL ->
  _INI_KEY_VALUE (h +:+ body kv +:+ t) = kv.
Proof.
  intros Hh Hne Hkv Ht.
  transitivity (key_values_from 0 true (join NL (line <$> kv) +:+ t)); [by destruct Hh as [-> | ->]|].
  rewrite pairs_lines; [|done..|].
  - destruct Ht as [-> | ->]; by rewrite app_nil_r.
  - destruct Ht as [-> | ->]; [by left|right; by eexists].
Qed.
Lemma body_no_bracket kv : forallb plain_pair kv = true -> contains_char "[" (body kv) = false.
Proof.
  intros H. unfold body. rewrite contains_app. apply orb_false_iff. split; [done|].
  induction kv as [|[k v] kv IH]; [done|]. cbn [forallb] in H. apply andb_true_iff in H as [He Hkv].
  assert (contains_char "[" (line (k, v)) = false) as Hl.
  { unfold plain_pair, plain_value in He. rewrite !andb_true_iff in He. destruct He as [[_ Hw] [_ Hb]]. cbn [fst snd] in *.
    unfold line. cbn [fst snd]. rewrite !contains_app. rewrite negb_true_iff in Hb. rewrite Hb.
    by rewrite (contains_char_forall "[" is_word). }
  destruct kv as [|e kv]; [exact Hl|].
  change (join NL (line <$> (k, v) :: e :: kv)) with (line (k, v) +:+ NL +:+ join NL (line <$> e :: kv)).
  by rewrite !contains_app, Hl, IH.
Qed.

Lemma blocks_pairs kvs :
  Forall (fun kv => kv <> [] /\ forallb plain_pair kv = true) kvs -> kvs <> [] ->
  _INI_KEY_VALUE <$> peer_blocks_from 0 (join NL (concat (block_lines <$> kvs))) = kvs.
Proof.
  induction 1 as [|kv kvs [Hne Hkv] Hall IH]; [done|]. intros _. rewrite blocks_join by done.
  pose proof (body_no_bracket kv Hkv) as Hnb.
  destruct kvs as [|kv' kvs].
  - change ("[Peer]" +:+ body kv +:+ NL +:+ "") with ("[Peer]" +:+ body kv +:+ String newline "").
    rewrite blocks_peer by done. cbn [fmap list_fmap].
    change (peer_blocks_from 0 (String newline "")) with (@nil string). cbn [fmap list_fmap]. f_equal.
    rewrite <-(str_app_nil (body kv)). apply body_pairs; auto.
  - specialize (IH ltac:(done)). inversion Hall as [|? ? [Hne' _] ?]; subst.
    rewrite blocks_join in * by done.
    set (rest := body kv' +:+ NL +:+ _) in *.
    assert (body kv +:+ NL +:+ NL +:+ "[Peer]" +:+ rest = (body kv +:+ NL +:+ NL) +:+ String "[" ("Peer]" +:+ rest)) as ->
      by (by rewrite !str_app_assoc).
    rewrite blocks_peer; [|by rewrite !contains_app, Hnb|done].
    cbn [fmap list_fmap]. f_equal; [|exact IH].
    apply body_pairs; auto.
Qed.

(** ** What the server prints *)
Definition clean_char (c : ascii) : bool :=
  negb (is_space c) && negb (Ascii.eqb c "[") && negb (Ascii.eqb c ",").
Definition clean (s : string) : bool := truthy s && str_forall clean_char s.
Definition natural (n : option Z) : bool := match n with Some z => 0 <=? z | None => true end.
Definition clean_peer (p : PeerConfig) : bool :=
  clean (pc_public_key p) && (negb (opt_truthy (pc_endpoint p)) || clean (default "" (pc_endpoint p)))
  && natural (pc_endpoint_port p) && forallb clean (pc_allowed_ips p) && natural (pc_persistent_keepalive p).
(** Keys, addresses and names are not empty and hold no white space, bracket
    or comma; numbers are not negative. *)
Definition clean_config (c : WireGuardConfig) : bool :=
  clean (wc_private_key c) && clean (wc_address c) && negb (contains_char "/" (wc_address c))
  && natural (wc_listen_port c) && forallb clean (default [] (wc_dns_servers c)) && natural (wc_mtu c)
  && forallb clean_peer (wc_peers c).

(** What the daemon wants then. *)
Definition desired_peer (p : PeerConfig) : DesiredPeer :=
  let there := opt_truthy (pc_endpoint p) in
  mkDesiredPeer (JStr (pc_public_key p)) (texts (pc_allowed_ips p))
    (if there then JStr (default "" (pc_endpoint p)) else JNull)
    (if there then JInt (default 51820 (or_int (pc_endpoint_port p) None)) else JNull)
    (jint_opt (pc_persistent_keepalive p)) (JBool false) (JArr []).
Definition desired_config (c : WireGuardConfig) (prefix : Z) : DesiredConfig :=
  mkDesiredConfig (wc_private_key c) (wc_address c) ("0.0.0.0/" +:+ str_int prefix)
    (if int_truthy (wc_listen_port c) then wc_listen_port c else None)
    (match wc_dns_servers c with Some (d :: ds) => texts (d :: ds) | _ => JNull end)
    (desired_peer <$> wc_peers c)
    (if int_truthy (wc_mtu c) then jint_opt (wc_mtu c) else JNull).

Definition listed (k : string) (l : list string) : list (string * string) :=
  if list_truthy l then [(k, join ", " l)] else [].
Definition peer_pairs (p : PeerConfig) : list (string * string) :=
  [("PublicKey", pc_public_key p)]
  ++ (if opt_truthy (pc_endpoint p) then
        [("Endpoint", default "" (pc_endpoint p) +:+ ":" +:+ str_int (default 51820 (or_int (pc_endpoint_port p) None)))]
      else [])
  ++ listed "AllowedIPs" (pc_allowed_ips p)
  ++ match pc_persistent_keepalive p with Some k => [("PersistentKeepalive", str_int k)] | None => [] end.
Definition interface_pairs (c : WireGuardConfig) (prefix : Z) : list (string * string) :=
  [("PrivateKey", wc_private_key c); ("Address", wc_address c +:+ "/" +:+ str_int prefix)]
  ++ (if int_truthy (wc_listen_port c) then [("ListenPort", str_int (default 0 (wc_listen_port c)))] else [])
  ++ listed "DNS" (default [] (wc_dns_servers c))
  ++ (if int_truthy (wc_mtu c) then [("MTU", str_int (default 0 (wc_mtu c)))] else []).

Lemma peer_lines_pairs p : peer_lines p = block_lines (peer_pairs p).
Proof.
  unfold peer_lines, block_lines, peer_pairs, listed.
  by destruct (opt_truthy _), (pc_allowed_ips p), (pc_persistent_keepalive p).
Qed.
Lemma to_ini_text c net :
  IPv4Network (wc_subnet c) = Ok net ->
  let head := "[Interface]" +:+ body (interface_pairs c (prefixlen net)) +:+ NL in
  to_ini c = Ok (match wc_peers c with
                 | [] => head
                 | ps => head +:+ NL +:+ join NL (concat (block_lines <$> (peer_pairs <$> ps))) end).
Proof.
  intros Hnet head. unfold to_ini. rewrite Hnet. cbn [mbind outcome_bind]. f_equal.
  set (kv := interface_pairs c (prefixlen net)) in *.
  assert (forall x, ["[Interface]"; "PrivateKey = " +:+ wc_private_key c;
     "Address = " +:+ wc_address c +:+ "/" +:+ str_int (prefixlen net)]
    ++ (if int_truthy (wc_listen_port c) then ["ListenPort = " +:+ str_int (default 0 (wc_listen_port c))] else [])
    ++ (match wc_dns_servers c with Some (s :: l) => ["DNS = " +:+ join ", " (s :: l)] | _ => [] end)
    ++ (if int_truthy (wc_mtu c) then ["MTU = " +:+ str_int (default 0 (wc_mtu c))] else [])
    ++ [""] ++ x = ("[Interface]" :: (line <$> kv) ++ [""]) ++ x) as ->.
  { intros x. unfold kv, interface_pairs, listed.
    by destruct (int_truthy (wc_listen_port c)), (wc_dns_servers c) as [[]|], (int_truthy (wc_mtu c)). }
  assert (join NL ("[Interface]" :: (line <$> kv) ++ [""]) = head) as Hhead by (by apply header_lines).
  destruct (wc_peers c) as [|p ps]; [by rewrite app_nil_r|].
  rewrite join_app by done. rewrite Hhead. do 3 f_equal. rewrite <-list_fmap_compose. f_equal.
  apply list_fmap_ext. intros. apply peer_lines_pairs.
Qed.

(** ** Reading it back *)
Lemma clean_no s c : clean_char c = false -> clean s = true -> contains_char c s = false.
Proof. intros Hc. unfold clean. rewrite andb_true_iff. intros [_ H]. by apply (contains_char_forall c clean_char). Qed.
Lemma clean_space c : clean_char c = true -> is_space c = false.
Proof. unfold clean_char. rewrite !andb_true_iff, negb_true_iff. by intros [[? _] _]. Qed.
Lemma strip_clean s : str_forall clean_char s = true -> strip s = s.
Proof.
  intros H. unfold strip. assert (lstrip s = s) as ->.
  { destruct s as [|c s]; [done|]. cbn in *. apply andb_true_iff in H as [Hc _]. by rewrite (clean_space c). }
  induction s as [|c s IH]; [done|]. cbn in *. apply andb_true_iff in H as [Hc Hs].
  rewrite IH by done. rewrite (clean_space c) by done. by destruct s.
Qed.
Lemma digits_clean s : str_forall is_digit s = true -> str_forall clean_char s = true.
Proof.
  induction s as [|c s IH]; [done|]. cbn. rewrite !andb_true_iff. intros [Hc Hs]. split; [|by apply IH].
  by destruct c as [[] [] [] [] [] [] [] []].
Qed.
Lemma clean_app s t : clean s = true -> str_forall clean_char t = true -> clean (s +:+ t) = true.
Proof.
  unfold clean. rewrite !andb_true_iff, str_forall_app. intros [Hs Hsc] Ht. rewrite Hsc, Ht.
  split; [by destruct s|done].
Qed.
Lemma clean_int n : 0 <= n -> clean (str_int n) = true /\ str_forall is_digit (str_int n) = true.
Proof.
  intros Hn. unfold str_int. destruct (Z.ltb_spec n 0); [lia|]. pose proof (str_nat_digits n Hn) as Hd.
  split; [|done]. unfold clean. rewrite digits_clean by done.
  pose proof (str_nat_ne n). by destruct (str_nat n).
Qed.
Lemma clean_plain s : clean s = true -> plain_value s = true.
Proof.
  intros H. pose proof (clean_no s newline eq_refl H) as Hn. pose proof (clean_no s "[" eq_refl H) as Hb.
  unfold plain_value. rewrite Hn, Hb. unfold clean in H. apply andb_true_iff in H as [Ht Hc].
  destruct s as [|c s]; [done|]. cbn in Hc. apply andb_true_iff in Hc as [Hc _]. by rewrite clean_space.
Qed.
Lemma plain_join l : l <> [] -> forallb clean l = true -> plain_value (join ", " l) = true.
Proof.
  intros Hne Hl.
  assert (contains_char newline (join ", " l) = false /\ contains_char "[" (join ", " l) = false) as [Hn Hb].
  { clear Hne. induction l as [|w l IH]; [done|]. cbn [forallb] in Hl. apply andb_true_iff in Hl as [Hw Hl].
    destruct (IH Hl) as [H1 H2]. pose proof (clean_no w newline eq_refl Hw). pose proof (clean_no w "[" eq_refl Hw).
    destruct l as [|v l]; [done|]. change (join ", " (w :: v :: l)) with (w +:+ ", " +:+ join ", " (v :: l)).
    rewrite !contains_app, H1, H2. split; apply orb_false_iff; auto. }
  unfold plain_value. rewrite Hn, Hb, !andb_true_r. destruct l as [|w l]; [done|]. cbn [forallb] in Hl.
  apply andb_true_iff in Hl as [Hw _]. apply clean_plain in Hw. unfold plain_value in Hw.
  destruct w as [|c w]; [done|]. rewrite !andb_true_iff in Hw. destruct Hw as [[Hc _] _]. by destruct l.
Qed.
Lemma split_words w l :
  forallb clean (w :: l) = true -> split "," (join ", " (w :: l)) = w :: ((fun v => String " " v) <$> l).
Proof.
  revert w. induction l as [|v l IH]; intros w; cbn [forallb]; rewrite andb_true_iff; intros [Hw Hl].
  - apply split_no_sep. by apply clean_no.
  - change (join ", " (w :: v :: l)) with (w +:+ String "," (String " " (join ", " (v :: l)))).
    rewrite split_app_sep by (by apply clean_no). f_equal.
    specialize (IH v Hl). cbn [fmap list_fmap]. change (split "," (String " " ?t)) with
      (match split "," t with w :: ws => String " " w :: ws | [] => [" "] end). by rewrite IH.
Qed.
Lemma words_join l : forallb clean l = true -> words (join ", " l) = l.
Proof.
  intros Hl. destruct l as [|w l]; [done|]. unfold words. rewrite split_words by done.
  cbn [fmap list_fmap]. assert (forall v, clean v = true -> strip v = v /\ truthy v = true) as Hs.
  { intros v. unfold clean. rewrite andb_true_iff. intros [? ?]. by rewrite strip_clean. }
  cbn [forallb] in Hl. apply andb_true_iff in Hl as [Hw Hl]. destruct (Hs w Hw) as [-> Htw].
  cbn [List.filter]. rewrite Htw. f_equal.
  induction l as [|v l IH]; [done|]. cbn [forallb] in Hl. apply andb_true_iff in Hl as [Hv Hl].
  cbn [fmap list_fmap]. change (strip (String " " v)) with (strip v). destruct (Hs v Hv) as [-> Htv].
  cbn [List.filter]. rewrite Htv. f_equal. by apply IH.
Qed.
Lemma opt_int_natural n : 0 <= n -> opt_int_of (str_int n) = Ok (Some n).
Proof.
  intros Hn. unfold opt_int_of. destruct (clean_int n Hn) as [Hc _]. unfold clean in Hc.
  apply andb_true_iff in Hc as [-> _]. by rewrite int_of_str_int.
Qed.
Lemma split_address_clean a p :
  clean a = true -> contains_char "/" a = false -> 0 <= p ->
  split_address (a +:+ "/" +:+ str_int p) = (a, "0.0.0.0/" +:+ str_int p).
Proof.
  intros Ha Hs Hp. unfold split_address. destruct (clean_int p Hp) as [_ Hd].
  change ("/" +:+ str_int p) with (String "/" (str_int p)).
  rewrite split_app_sep by done. rewrite split_no_sep by (by apply (contains_char_forall _ is_digit)).
  rewrite contains_app. cbn [contains_char]. rewrite Ascii.eqb_refl, orb_true_r.
  unfold clean in Ha. by destruct a.
Qed.
Lemma parse_endpoint_clean e n :
  clean e = true -> 0 <= n -> parse_endpoint (e +:+ ":" +:+ str_int n) = (JStr e, JInt n).
Proof.
  intros He Hn. unfold parse_endpoint. destruct (clean_int n Hn) as [_ Hd].
  change (":" +:+ str_int n) with (String ":" (str_int n)).
  rewrite rsplit1_app by (by apply (contains_char_forall _ is_digit)). rewrite int_of_str_int by done.
  by destruct e.
Qed.
Lemma int_truthy_natural n : natural n = true -> 0 <= default 0 n /\ 0 <= default 51820 (or_int n None).
Proof.
  unfold natural, or_int. destruct n as [z|]; [|by split]. intros ?%Z.leb_le. cbn.
  destruct (z =? 0); cbn; lia.
Qed.
Lemma plain_listed k l :
  truthy k = true -> str_forall is_word k = true -> forallb clean l = true -> forallb plain_pair (listed k l) = true.
Proof.
  intros Hk Hw Hl. unfold listed. destruct l as [|w l]; [done|]. cbn [list_truthy forallb].
  unfold plain_pair. cbn [fst snd]. by rewrite Hk, Hw, plain_join.
Qed.
Lemma plain_clean k v :
  truthy k = true -> str_forall is_word k = true -> clean v = true -> plain_pair (k, v) = true.
Proof. intros Hk Hw Hv. unfold plain_pair. cbn [fst snd]. by rewrite Hk, Hw, clean_plain. Qed.

Lemma peer_pairs_plain p : clean_peer p = true -> forallb plain_pair (peer_pairs p) = true.
Proof.
  unfold clean_peer, peer_pairs. rewrite !andb_true_iff. intros [[[[Hk He] Hp] Ha] Hka].
  rewrite !forallb_app, !andb_true_iff. split; [cbn [forallb]; by rewrite plain_clean|].
  split; [|split; [by apply plain_listed|]].
  - destruct (opt_truthy (pc_endpoint p)); [|done]. cbn [negb orb] in He. cbn [forallb]. rewrite andb_true_r. apply plain_clean; [done..|].
    apply clean_app; [done|]. destruct (int_truthy_natural _ Hp) as [_ Hn].
    change (":" +:+ ?t) with (String ":" t). cbn [str_forall]. by rewrite digits_clean by apply (clean_int _ Hn).
  - destruct (pc_persistent_keepalive p) as [k|]; [|done]. cbn in Hka. apply Z.leb_le in Hka.
    cbn [forallb]. by rewrite plain_clean by (done || apply clean_int, Hka).
Qed.
Lemma interface_pairs_plain c prefix :
  clean_config c = true -> 0 <= prefix -> forallb plain_pair (interface_pairs c prefix) = true.
Proof.
  unfold clean_config, interface_pairs. rewrite !andb_true_iff. intros [[[[[[Hk Ha] Hs] Hl] Hd] Hm] _] Hp.
  rewrite !forallb_app, !andb_true_iff.
  split; [|split; [|split; [by apply plain_listed|]]].
  - cbn [forallb]. rewrite (plain_clean "PrivateKey") by done. rewrite andb_true_r. apply plain_clean; [done..|].
    apply clean_app; [done|].
    change ("/" +:+ ?t) with (String "/" t). cbn [str_forall]. by rewrite digits_clean by apply (clean_int _ Hp).
  - destruct (int_truthy _); [|done]. cbn [forallb]. rewrite andb_true_r. apply plain_clean; [done..|].
    by apply clean_int, int_truthy_natural.
  - destruct (int_truthy (wc_mtu c)); [|done]. cbn [forallb]. rewrite andb_true_r. apply plain_clean; [done..|].
    by apply clean_int, int_truthy_natural.
Qed.

Lemma parse_peer_pairs p : clean_peer p = true -> parse_block (peer_pairs p) = Ok (Some (desired_peer p)).
Proof.
  unfold clean_peer. rewrite !andb_true_iff. intros [[[[Hk He] Hp] Ha] Hka]. unfold parse_block, desired_peer.
  assert (kv_get "PublicKey" (peer_pairs p) = pc_public_key p /\
    kv_get "Endpoint" (peer_pairs p) = (if opt_truthy (pc_endpoint p) then
       default "" (pc_endpoint p) +:+ ":" +:+ str_int (default 51820 (or_int (pc_endpoint_port p) None)) else "") /\
    kv_get "AllowedIPs" (peer_pairs p) = join ", " (pc_allowed_ips p) /\
    kv_get "PersistentKeepalive" (peer_pairs p) = match pc_persistent_keepalive p with Some k => str_int k | None => "" end)
    as (-> & -> & -> & ->).
  { unfold peer_pairs, listed.
    by destruct (opt_truthy (pc_endpoint p)), (pc_allowed_ips p), (pc_persistent_keepalive p). }
  rewrite words_join by done. assert (truthy (pc_public_key p) = true) as ->.
  { unfold clean in Hk. by apply andb_true_iff in Hk as [? _]. }
  cbn [negb]. destruct (int_truthy_natural _ Hp) as [_ Hn].
  assert (opt_int_of match pc_persistent_keepalive p with Some k => str_int k | None => "" end
    = Ok (pc_persistent_keepalive p)) as Hopt.
  { destruct (pc_persistent_keepalive p) as [k|]; [|done]. cbn in Hka. apply opt_int_natural. by apply Z.leb_le. }
  destruct (opt_truthy (pc_endpoint p)).
  - cbn [negb orb] in He. rewrite parse_endpoint_clean by done. rewrite Hopt. done.
  - change (parse_endpoint "") with (JNull, JNull). cbv iota. rewrite Hopt. done.
Qed.
Lemma parse_all_pairs ps :
  forallb clean_peer ps = true -> parse_blocks (peer_pairs <$> ps) = Ok (desired_peer <$> ps).
Proof.
  induction ps as [|p ps IH]; [done|]. cbn [forallb]. rewrite andb_true_iff. intros [Hp Hps].
  cbn [fmap list_fmap parse_blocks]. rewrite parse_peer_pairs by done. cbn [mbind outcome_bind].
  fold (peer_pairs <$> ps). by rewrite IH.
Qed.

(** The two parts the scans find in the text. *)
Lemma ini_parts c net text :
  clean_config c = true -> IPv4Network (wc_subnet c) = Ok net -> to_ini c = Ok text ->
  (exists section, interface_match text = Some section /\ _INI_KEY_VALUE section = interface_pairs c (prefixlen net)) /\
  _INI_KEY_VALUE <$> _INI_PEER_BLOCK text = peer_pairs <$> wc_peers c.
Proof.
  intros Hc Hnet Htext. rewrite (to_ini_text c net Hnet) in Htext.
  apply (f_equal (fun o => match o with Ok t => t | Raise _ => "" end)) in Htext. cbv beta iota in Htext. subst text.
  pose proof (IPv4Network_wf _ _ Hnet) as [Hp _].
  set (kv := interface_pairs c (prefixlen net)). assert (forallb plain_pair kv = true) as Hkv
    by (apply interface_pairs_plain; [done|lia]). assert (kv <> []) as Hne by done.
  pose proof (body_no_bracket kv Hkv) as Hnb.
  assert (forallb clean_peer (wc_peers c) = true) as Hps.
  { unfold clean_config in Hc. by apply andb_true_iff in Hc as [_ Hc]. }
  destruct (wc_peers c) as [|p ps].
  - split.
    + exists (body kv). split.
      * change (interface_match ("[Interface]" +:+ body kv +:+ NL)) with (Some (until section_ends (body kv +:+ String newline ""))).
        by rewrite until_section.
      * rewrite <-(str_app_nil (body kv)). apply (body_pairs ""); auto.
    + change (_INI_KEY_VALUE <$> peer_blocks_from 0 ("Interface]" +:+ body kv +:+ NL) = []).
      rewrite <-str_app_assoc, <-(str_app_nil (("Interface]" +:+ body kv) +:+ NL)), blocks_none; [done|].
      by rewrite !contains_app, Hnb.
  - assert (Forall (fun kv => kv <> [] /\ forallb plain_pair kv = true) (peer_pairs <$> p :: ps)) as Hall.
    { apply Forall_fmap. apply Forall_forall. intros x Hx. split; [done|]. apply peer_pairs_plain.
      rewrite forallb_forall in Hps. apply Hps. by apply list_elem_of_In. }
    set (kvs := peer_pairs <$> p :: ps) in *.
    assert (exists r, join NL (concat (block_lines <$> kvs)) = String "[" ("Peer]" +:+ r)) as [r Hr].
    { unfold kvs. change (peer_pairs <$> p :: ps) with (peer_pairs p :: (peer_pairs <$> ps)).
      rewrite blocks_join by done. by eexists. }
    assert (("[Interface]" +:+ body kv +:+ NL) +:+ NL +:+ join NL (concat (block_lines <$> kvs)) =
            "[Interface]" +:+ (body kv +:+ NL +:+ NL) +:+ join NL (concat (block_lines <$> kvs))) as ->
      by (by rewrite !str_app_assoc).
    split.
    + exists (body kv +:+ NL +:+ NL). split; [|apply (body_pairs ""); auto].
      change (interface_match ("[Interface]" +:+ ?t)) with (Some (until section_ends t)). rewrite Hr.
      rewrite until_section; [done| |done]. by rewrite !contains_app, Hnb.
    + transitivity (_INI_KEY_VALUE <$> peer_blocks_from 0 (join NL (concat (block_lines <$> kvs))));
        [f_equal|by apply blocks_pairs].
      change (peer_blocks_from 0 ("Interface]" +:+ (body kv +:+ NL +:+ NL) +:+ join NL (concat (block_lines <$> kvs)))
              = peer_blocks_from 0 (join NL (concat (block_lines <$> kvs)))).
      rewrite <-str_app_assoc, blocks_none; [done|]. by rewrite !contains_app, Hnb.
Qed.

(** ** The JSON form *)
(** What the daemon wants of a peer of the server's answer. *)
Definition desired_info (p : PeerInfo) : DesiredPeer :=
  mkDesiredPeer (JStr (pi_public_key p)) (texts (pi_allowed_ips p)) (jstr_opt (pi_endpoint p))
    (jint_opt (pi_endpoint_port p)) (jint_opt (pi_persistent_keepalive p)) (JBool (pi_relay_required p))
    (match pi_relay_candidates p with Some (c :: l) => JArr (dump_relay <$> c :: l) | _ => JArr [] end).
Definition desired_v2 (i : interface_config) (ps : list PeerInfo) (private_key : string) : DesiredConfig :=
  mkDesiredConfig private_key (split_address (if_address i)).1 (split_address (if_address i)).2 None
    (match if_dns i with Some l => texts l | None => JNull end) (desired_info <$> ps) JNull.
Lemma parse_peer_dump p : parse_peer_v2 (dump_peer p) = Ok (desired_info p).
Proof. unfold parse_peer_v2, desired_info. cbn. by destruct (pi_relay_candidates p) as [[|c l]|]. Qed.
Lemma parse_peers_dump ps : mapM parse_peer_v2 (dump_peer <$> ps) = Ok (desired_info <$> ps).
Proof.
  induction ps as [|p ps IH]; [done|].
  change (mapM parse_peer_v2 (dump_peer <$> p :: ps)) with
    (x ← parse_peer_v2 (dump_peer p); k ← mapM parse_peer_v2 (dump_peer <$> ps); mret (x :: k)).
  by rewrite parse_peer_dump, IH.
Qed.
Lemma parse_v2_dump i ps more private_key :
  _parse_config_v2 (JObj (("interface", dump_interface i) :: ("peers", JArr (dump_peer <$> ps)) :: more)) private_key =
  Some (desired_v2 i ps private_key).
Proof.
  unfold _parse_config_v2, parse_v2.
  set (j := JObj (("interface", dump_interface i) :: ("peers", JArr (dump_peer <$> ps)) :: more)).
  change (get_or j "interface" (JObj [])) with (Ok (dump_interface i)).
  change (get_or j "peers" (JArr [])) with (Ok (JArr (dump_peer <$> ps))).
  assert (get_or (dump_interface i) "address" (JStr "") = Ok (JStr (if_address i)) /\
    get_or (dump_interface i) "dns" JNull = Ok (match if_dns i with Some l => texts l | None => JNull end) /\
    get_or (dump_interface i) "mtu" JNull = Ok JNull) as (H1 & H2 & H3) by done.
  unfold mbind, outcome_bind. rewrite H1. unfold split_address_json, desired_v2.
  destruct (split_address (if_address i)) as [a sub]. unfold items. fold (@mbind outcome _). rewrite parse_peers_dump, H2, H3.
  done.
Qed.
(** Whatever the server answers, the daemon's peers are of the types their
    class names. *)
Lemma texts_typed l : is_text_list (texts l) = true.
Proof. by induction l. Qed.
Lemma desired_info_typed ps : forallb typed_peer (desired_info <$> ps) = true.
Proof.
  induction ps as [|p ps IH]; [done|]. cbn [fmap list_fmap forallb]. apply andb_true_iff. split; [|exact IH].
  unfold typed_peer, desired_info.
  cbn [WgRuntime.public_key WgRuntime.allowed_ips WgRuntime.endpoint WgRuntime.endpoint_port WgRuntime.persistent_keepalive].
  rewrite texts_typed. by destruct (pi_endpoint p), (pi_endpoint_port p), (pi_persistent_keepalive p).
Qed.

(** What [wg set] is given for a peer of the server's answer. *)
Definition wg_peer_args (interface : string) (p : PeerInfo) : list string :=
  ["set"; interface; "peer"; pi_public_key p; "allowed-ips"; join "," (pi_allowed_ips p)]
  ++ (if opt_truthy (pi_endpoint p)
      then ["endpoint"; default "" (pi_endpoint p) +:+ ":" +:+ str_int (default 51820 (or_int (pi_endpoint_port p) None))]
      else [])
  ++ match pi_persistent_keepalive p with Some n => ["persistent-keepalive"; str_int n] | None => [] end.
Lemma text_items_texts l : mapM text_item (JStr <$> l) = Ok l.
Proof. induction l as [|s l IH]; [done|]. cbn in *. by rewrite IH. Qed.
Lemma peer_args_desired repr interface p : peer_args repr interface (desired_info p) = Ok (wg_peer_args interface p).
Proof.
  unfold peer_args, desired_info, wg_peer_args, texts, py_join.
  cbn [WgRuntime.public_key WgRuntime.allowed_ips WgRuntime.endpoint WgRuntime.endpoint_port WgRuntime.persistent_keepalive].
  unfold items. cbn [mbind outcome_bind]. rewrite text_items_texts. cbn [mbind outcome_bind].
  destruct (pi_endpoint p) as [[|x e]|], (pi_endpoint_port p) as [n|], (pi_persistent_keepalive p) as [k|]; unfold or_int; cbn; try done;
    by destruct (n =? 0).
Qed.

(** * Properties *)

(** C20. Types survive the way: the answer the server gives for a configuration is
    always read, what is read is of the types its classes name, its peers are
    the server's in order, and for each of them the arguments the daemon hands
    to [wg] are made without an error and are its key, addresses, endpoint and
    keep-alive. *)
Theorem v2_config_typed repr interface i ps more private_key :
  exists cfg, _parse_config_v2 (JObj (("interface", dump_interface i) :: ("peers", JArr (dump_peer <$> ps)) :: more)) private_key = Some cfg /\
    WgRuntime.private_key cfg = private_key /\
    forallb typed_peer (peers cfg) = true /\
    (is_text_list (dns_servers cfg) = true \/ dns_servers cfg = JNull) /\
    Forall2 (fun p d => peer_args repr interface d = Ok (wg_peer_args interface p)) ps (peers cfg).
Proof.
  exists (desired_v2 i ps private_key). split_and!.
  - apply parse_v2_dump.
  - done.
  - apply desired_info_typed.
  - unfold desired_v2. cbn. destruct (if_dns i) as [l|]; [left; apply texts_typed|by right].
  - unfold desired_v2. cbn. induction ps as [|p ps IH]; constructor; [apply peer_args_desired|done].
Qed.

(** C13. The INI form is a round trip: of a configuration the server prints, whose
    keys, addresses and names are not empty and hold no white space, bracket or
    comma, whose address has no slash and whose numbers are not negative
    ([clean_config]), the daemon reads
    its key, its address and prefix, its numbers and its peers, in order, with
    their addresses, endpoints and keep-alives.  An endpoint in brackets (IPv6)
    and an empty key are outside of it; [ini_empty_value] shows how an empty
    value takes the next line. *)
Theorem ini_round_trip c net text :
  clean_config c = true -> IPv4Network (wc_subnet c) = Ok net -> to_ini c = Ok text ->
  _parse_config_ini text = Ok (Some (desired_config c (prefixlen net))).
Proof.
  intros Hc Hnet Htext. destruct (ini_parts c net text Hc Hnet Htext) as [(section & Hm & Hkv) Hb].
  pose proof (IPv4Network_wf _ _ Hnet) as [Hp _].
  unfold _parse_config_ini. rewrite Hm, Hkv, Hb.
  unfold clean_config in Hc. rewrite !andb_true_iff in Hc. destruct Hc as [[[[[[Hk Ha] Hs] Hl] Hd] Hmtu] Hps].
  set (kv := interface_pairs c (prefixlen net)).
  assert (kv_get "PrivateKey" kv = wc_private_key c /\
    kv_get "Address" kv = wc_address c +:+ "/" +:+ str_int (prefixlen net) /\
    kv_get "DNS" kv = join ", " (default [] (wc_dns_servers c)) /\
    kv_get "ListenPort" kv = (if int_truthy (wc_listen_port c) then str_int (default 0 (wc_listen_port c)) else "") /\
    kv_get "MTU" kv = (if int_truthy (wc_mtu c) then str_int (default 0 (wc_mtu c)) else ""))
    as (-> & -> & -> & -> & ->).
  { unfold kv, interface_pairs, listed.
    by destruct (int_truthy (wc_listen_port c)), (wc_dns_servers c) as [[]|], (int_truthy (wc_mtu c)). }
  apply negb_true_iff in Hs. rewrite split_address_clean; [|done|done|lia].
  rewrite parse_all_pairs by done. rewrite words_join by done. cbn [mbind outcome_bind].
  assert (forall n, natural n = true -> opt_int_of (if int_truthy n then str_int (default 0 n) else "") =
    Ok (if int_truthy n then n else None)) as Hopt.
  { intros [n|] Hn; [|done]. cbn. destruct (n =? 0); [done|]. cbn. apply opt_int_natural. by apply Z.leb_le. }
  rewrite !Hopt by done. cbn [mbind outcome_bind]. unfold desired_config. do 3 f_equal.
  - destruct (wc_dns_servers c) as [[|d ds]|]; [done| |done]. cbn [default from_option id].
    cbn [default from_option id forallb] in Hd. apply andb_true_iff in Hd as [Hd _]. unfold clean in Hd.
    apply andb_true_iff in Hd as [Hd _]. destruct d as [|x d]; [done|]. by destruct ds.
  - by destruct (int_truthy (wc_mtu c)).
Qed.

(** * Witnesses *)
Definition printed : WireGuardConfig :=
  mkWireGuardConfig "aGVsbG8=" "10.0.0.2" "10.0.0.0/24" (Some 51820) (Some ["1.1.1.1"; "9.9.9.9"])
    [mkPeerConfig "cGVlcg==" ["10.0.0.1/32"; "10.1.0.0/16"] (Some "192.0.2.7") None (Some 25);
     mkPeerConfig "b3RoZXI=" [] None None None] None.
Lemma ini_round_trip_witness :
  exists text, to_ini printed = Ok text /\ _parse_config_ini text = Ok (Some (desired_config printed 24)).
Proof.
  eexists. split; [vm_compute; reflexivity|].
  apply (ini_round_trip printed (mkNet 167772160 24)); vm_compute; reflexivity.
Defined.
Example ini_ex :
  _parse_config_ini (join NL ["[Interface]"; "PrivateKey = a="; "Address = 10.0.0.2/24"; ""; "[Peer]"; "PublicKey = b=";
    "Endpoint = fd00::1:51820"; "AllowedIPs = 10.0.0.1/32, 10.1.0.0/16"; "";
    "[Peer]"; "PublicKey = c="; "AllowedIPs = 10.0.0.3/32"; "PersistentKeepalive = 25"; ""]) =
  Ok (Some (mkDesiredConfig "a=" "10.0.0.2" "0.0.0.0/24" None JNull
    [mkDesiredPeer (JStr "b=") (texts ["10.0.0.1/32"; "10.1.0.0/16"]) (JStr "fd00::1") (JInt 51820) JNull (JBool false) (JArr []);
     mkDesiredPeer (JStr "c=") (texts ["10.0.0.3/32"]) JNull JNull (JInt 25) (JBool false) (JArr [])] JNull)).
Proof. vm_compute. reflexivity. Qed.
(** An empty value takes the next line. *)
Example ini_empty_value :
  _INI_KEY_VALUE (join NL ["PrivateKey = "; "Address = 10.0.0.2/24"; ""]) = [("PrivateKey", "Address = 10.0.0.2/24")].
Proof. vm_compute. reflexivity. Qed.
