(* ===== verification/ApiClient.v ===== *)
(** The daemon's client of the control plane:
    [midscaled/daemon/api_client.py].

    The network and the server are outside: [server] gives what the last
    request of a history is answered with, a failure of httpx included.  The
    bodies of answers are UTF-8 text. *)
From Stdlib Require Import Ascii.
From S2P Require Import Prelude PyStr Bytes Json JsonText PyJson.
Local Open Scope string_scope.
Local Open Scope list_scope.
Local Open Scope Z_scope.

(** * Requests and answers *)
Inductive http_method := GET | POST.
Record request := mkRequest {
  rq_method : http_method;
  rq_url : string;
  rq_json : option json;
  rq_headers : list (string * string)
}.
Record response := mkResponse { status_code : Z; resp_text : string }.

Record MidscaleAPIClient := mkApi {
  _base_url : string;
  _device_id : json;
  _device_token : json;
  requests : list request
}.
#[export] Instance set_device_id : SetField _device_id :=
  fun v r => mkApi (_base_url r) v (_device_token r) (requests r).
#[export] Instance set_device_token : SetField _device_token :=
  fun v r => mkApi (_base_url r) (_device_id r) v (requests r).
#[export] Instance set_requests : SetField requests :=
  fun v r => mkApi (_base_url r) (_device_id r) (_device_token r) v.

(** [s.rstrip("/")] *)
Fixpoint rstrip_slash (s : string) : string :=
  match s with
  | EmptyString => ""
  | String c t =>
    match rstrip_slash t with
    | EmptyString => if Ascii.eqb c "/" then "" else String c ""
    | t' => String c t'
    end
  end.
Definition new_api (server_url : string) : MidscaleAPIClient := mkApi (rstrip_slash server_url) JNull JNull [].

(** * Results ([midscaled/daemon/models.py]) *)
Record RegistrationResult := mkRegistrationResult { rg_success : bool; rg_device_id : json; rg_error : option string }.
Record EnrollResult := mkEnrollResult {
  en_success : bool; en_device_id : json; en_device_token : json; en_network_id : json;
  en_ip_address : json; en_config_v2 : json; en_error : option string }.
Record ConfigPullResult := mkConfigPullResult {
  cp_success : bool; cp_config_ini : json; cp_filename : json; cp_error : option string }.
Record ConfigV2PullResult := mkConfigV2PullResult {
  cv2_success : bool; cv2_interface : json; cv2_peers : json; cv2_routes : json; cv2_exit_node : json;
  cv2_revision : json; cv2_hash : json; cv2_version : json; cv2_error : option string }.
(** [HeartbeatResult], [EndpointReportResult], [ProbeReportResult] and
    [RouteAdvertiseResult] have the same two fields. *)
Record ReportResult := mkReportResult { rp_success : bool; rp_error : option string }.
Record RelaySessionResult := mkRelaySessionResult {
  rs_success : bool; rs_session_id : json; rs_relay_token : json; rs_relay_region : json;
  rs_relay_node : json; rs_error : option string }.

Section Client.
Context (server : list request -> outcome response) (repr : json -> string).

Definition set_device_auth (device_id token : json) : M MidscaleAPIClient unit :=
  modify (fun c => c <| _device_id := device_id |> <| _device_token := token |>).
Definition _auth_headers (c : MidscaleAPIClient) : list (string * string) :=
  if json_truthy (_device_token c) then [("Authorization", "Bearer " +:+ py_str repr (_device_token c))] else [].

(** [self._client.get] and [post]. *)
Definition send (method : http_method) (path : string) (body : option json) (with_auth : bool) :
    M MidscaleAPIClient response :=
  c ← get;
  let history := requests c ++
    [mkRequest method (_base_url c +:+ path) body (if with_auth then _auth_headers c else [])] in
  modify (fun c => c <| requests := history |>);;
  lift (server history).
(** [except httpx.RequestError as e: return f(str(e))] *)
Definition on_request_error {A} (f : string -> A) (m : M MidscaleAPIClient A) : M MidscaleAPIClient A :=
  try_except m (fun e => match e with RequestError msg => mret (f msg) | _ => raise e end).

(** [resp.json()] *)
Definition resp_json (r : response) : outcome json := text ← decode (resp_text r); loads text.
Definition error_item (e : json) : outcome json := get_or e "msg" (JStr (py_str repr e)).
Definition _extract_error (r : response) : outcome string :=
  match resp_json r with
  | Ok body =>
    match body with
    | JObj o =>
      match default body (obj_get "detail" o) with
      | JArr l => msgs ← mapM error_item l; py_join "; " (JArr msgs)
      | detail => Ok (py_str repr detail)
      end
    | _ => Ok (py_str repr body)
    end
  | Raise (JSONDecodeError | ValueError _) => Ok (join "" (take 200 (chars (resp_text r))))
  | Raise e => Raise e
  end.
(** [data.get(k)] *)
Definition member (data : json) (k : string) : outcome json := get_or data k JNull.
Definition device_path (c : MidscaleAPIClient) (rest : string) : string :=
  "/api/v1/devices/" +:+ py_str repr (_device_id c) +:+ rest.

(** * Enrolment and registration *)
Definition enroll_failed (e : string) : EnrollResult := mkEnrollResult false JNull JNull JNull JNull JNull (Some e).
Definition enroll (preauth_key device_name public_key : string) : M MidscaleAPIClient EnrollResult :=
  on_request_error enroll_failed (
    resp ← send POST "/api/v1/devices/enroll"
      (Some (JObj [("preauth_key", JStr preauth_key); ("name", JStr device_name); ("public_key", JStr public_key)])) false;
    if status_code resp =? 201 then
      data ← lift (resp_json resp);
      device_id ← lift (member data "device_id");
      device_token ← lift (member data "device_token");
      network_id ← lift (member data "network_id");
      ip_address ← lift (member data "ip_address");
      config_v2 ← lift (member data "config_v2");
      set_device_auth device_id device_token;;
      mret (mkEnrollResult true device_id device_token network_id ip_address config_v2 None)
    else
      detail ← lift (_extract_error resp);
      mret (enroll_failed detail)).
Definition register_failed (e : string) : RegistrationResult := mkRegistrationResult false JNull (Some e).
Definition register (preauth_key device_name : string) : M MidscaleAPIClient RegistrationResult :=
  on_request_error register_failed (
    resp ← send POST "/api/v1/devices/register"
      (Some (JObj [("key", JStr preauth_key); ("name", JStr device_name)])) false;
    if status_code resp =? 201 then
      data ← lift (resp_json resp);
      device_id ← lift (member data "id");
      _ ← lift (member data "ip_address");
      mret (mkRegistrationResult true device_id None)
    else
      detail ← lift (_extract_error resp);
      mret (register_failed detail)).

(** * Configurations *)
Definition pull_v2_failed (e : string) : ConfigV2PullResult :=
  mkConfigV2PullResult false JNull JNull JNull JNull JNull JNull JNull (Some e).
Definition pull_config_v2 : M MidscaleAPIClient ConfigV2PullResult :=
  c ← get;
  if negb (json_truthy (_device_id c)) || negb (json_truthy (_device_token c))
  then mret (pull_v2_failed "not enrolled") else
  on_request_error pull_v2_failed (
    resp ← send GET (device_path c "/config-v2") None true;
    if status_code resp =? 200 then
      data ← lift (resp_json resp);
      interface ← lift (member data "interface");
      peers ← lift (member data "peers");
      routes ← lift (member data "routes");
      exit_node ← lift (member data "exit_node");
      revision ← lift (member data "revision");
      hash ← lift (member data "hash");
      version ← lift (member data "version");
      mret (mkConfigV2PullResult true interface peers routes exit_node revision hash version None)
    else
      detail ← lift (_extract_error resp);
      mret (pull_v2_failed detail)).
Definition pull_failed (e : string) : ConfigPullResult := mkConfigPullResult false JNull JNull (Some e).
(** The only request about a device that goes out without its credentials. *)
Definition pull_config : M MidscaleAPIClient ConfigPullResult :=
  c ← get;
  if negb (json_truthy (_device_id c)) then mret (pull_failed "not registered") else
  on_request_error pull_failed (
    resp ← send GET (device_path c "/config") None false;
    if status_code resp =? 200 then
      data ← lift (resp_json resp);
      config ← lift (member data "config");
      filename ← lift (member data "filename");
      mret (mkConfigPullResult true config filename None)
    else
      detail ← lift (_extract_error resp);
      mret (pull_failed detail)).

(** * Reports *)
Definition report_failed (e : string) : ReportResult := mkReportResult false (Some e).
Definition report (path : string) (body : json) (accepted : Z -> bool) : M MidscaleAPIClient ReportResult :=
  on_request_error report_failed (
    resp ← send POST path (Some body) true;
    if accepted (status_code resp) then mret (mkReportResult true None)
    else
      detail ← lift (_extract_error resp);
      mret (report_failed detail)).
Definition is_200 (status : Z) : bool := status =? 200.
(** [body[k] = v] when the argument is there. *)
Definition given (k : string) (v : option json) : obj := match v with Some j => [(k, j)] | None => [] end.
Definition given_text (k : string) (v : option string) : obj := given k (JStr <$> v).

Definition send_heartbeat (public_key ip_address : option string) : M MidscaleAPIClient ReportResult :=
  c ← get;
  if negb (json_truthy (_device_id c)) then mret (report_failed "not registered") else
  report (device_path c "/heartbeat")
    (JObj [("public_key", jstr_opt public_key); ("ip_address", jstr_opt ip_address)]) is_200.
Definition report_endpoint (endpoint source : string) (port : Z) (local_ip public_ip : option string) :
    M MidscaleAPIClient ReportResult :=
  c ← get;
  if negb (json_truthy (_device_id c)) then mret (report_failed "not registered") else
  report (device_path c "/endpoint")
    (JObj ([("endpoint", JStr endpoint); ("source", JStr source); ("port", JInt port)]
           ++ given_text "local_ip" local_ip ++ given_text "public_ip" public_ip)) is_200.
(** The latency is a number with a point, or absent. *)
Definition report_probe_result (peer_device_id endpoint : json) (reachable : bool) (port : json)
    (latency_ms : option json) (local_ip public_ip : option string) : M MidscaleAPIClient ReportResult :=
  c ← get;
  if negb (json_truthy (_device_id c)) then mret (report_failed "not enrolled") else
  report (device_path c "/probe-result")
    (JObj ([("peer_device_id", peer_device_id); ("endpoint", endpoint); ("reachable", JBool reachable);
            ("port", port); ("source", JStr "probe")]
           ++ given "latency_ms" latency_ms ++ given_text "local_ip" local_ip ++ given_text "public_ip" public_ip)) is_200.
Definition advertise_route (prefix : string) : M MidscaleAPIClient ReportResult :=
  c ← get;
  if negb (json_truthy (_device_id c)) then mret (report_failed "not registered") else
  report ("/api/v1/routes/devices/" +:+ py_str repr (_device_id c) +:+ "/advertise")
    (JObj [("prefix", JStr prefix); ("is_exit_node", JBool false)])
    (fun status => (status =? 200) || (status =? 201)).

(** * NAT traversal *)
Definition truthy_text (k : string) (v : option string) : obj := if opt_truthy v then given_text k v else [].
Definition request_nat_punch (target_device_id initiator_endpoint : string) (initiator_port : Z)
    (initiator_local_ip initiator_public_ip : option string) : M MidscaleAPIClient (option json) :=
  c ← get;
  if negb (json_truthy (_device_id c)) then mret None else
  on_request_error (fun _ => None) (
    resp ← send POST "/api/v1/nat/punch"
      (Some (JObj ([("target_device_id", JStr target_device_id); ("initiator_endpoint", JStr initiator_endpoint);
                    ("initiator_port", JInt initiator_port)]
                   ++ truthy_text "initiator_local_ip" initiator_local_ip
                   ++ truthy_text "initiator_public_ip" initiator_public_ip))) true;
    if status_code resp =? 201 then data ← lift (resp_json resp); mret (Some data) else mret None).
Definition report_nat_punch_result (session_id : string) (success : bool) (selected_endpoint : option string)
    (selected_port latency_ms : option Z) (error : option string) : M MidscaleAPIClient bool :=
  c ← get;
  if negb (json_truthy (_device_id c)) then mret false else
  on_request_error (fun _ => false) (
    resp ← send POST ("/api/v1/nat/" +:+ session_id +:+ "/result")
      (Some (JObj ([("session_id", JStr session_id); ("success", JBool success)]
                   ++ truthy_text "selected_endpoint" selected_endpoint
                   ++ (if json_truthy (jint_opt selected_port) then given "selected_port" (JInt <$> selected_port) else [])
                   ++ given "latency_ms" (JInt <$> latency_ms)
                   ++ truthy_text "error" error))) true;
    mret (status_code resp =? 200)).
Definition report_nat_connectivity_validation (session_id target_endpoint : string) (target_port : Z)
    (reachable : bool) (latency_ms : option Z) : M MidscaleAPIClient (option json) :=
  c ← get;
  if negb (json_truthy (_device_id c)) then mret None else
  on_request_error (fun _ => None) (
    resp ← send POST ("/api/v1/nat/" +:+ session_id +:+ "/validate")
      (Some (JObj ([("session_id", JStr session_id); ("target_endpoint", JStr target_endpoint);
                    ("target_port", JInt target_port); ("reachable", JBool reachable)]
                   ++ given "latency_ms" (JInt <$> latency_ms)))) true;
    if status_code resp =? 200 then data ← lift (resp_json resp); mret (Some data) else mret None).

(** * Relay sessions *)
Definition relay_failed (e : string) : RelaySessionResult := mkRelaySessionResult false JNull JNull JNull JNull (Some e).
(** The answer's members, its session under [id_member]. *)
Definition relay_answer (id_member : string) (resp : response) : M MidscaleAPIClient RelaySessionResult :=
  data ← lift (resp_json resp);
  session_id ← lift (member data id_member);
  relay_token ← lift (member data "relay_token");
  relay_region ← lift (member data "relay_region");
  relay_node ← lift (member data "relay_node");
  mret (mkRelaySessionResult true session_id relay_token relay_region relay_node None).
Definition request_relay_session (target_device_id : json) (relay_region : string) :
    M MidscaleAPIClient RelaySessionResult :=
  c ← get;
  if negb (json_truthy (_device_id c)) then mret (relay_failed "not enrolled") else
  on_request_error relay_failed (
    resp ← send POST "/api/v1/relay/sessions"
      (Some (JObj [("target_device_id", target_device_id); ("relay_region", JStr relay_region)])) true;
    if status_code resp =? 201 then relay_answer "id" resp
    else
      detail ← lift (_extract_error resp);
      mret (relay_failed detail)).
Definition connect_relay_session (session_id : string) : M MidscaleAPIClient RelaySessionResult :=
  c ← get;
  if negb (json_truthy (_device_id c)) then mret (relay_failed "not enrolled") else
  on_request_error relay_failed (
    resp ← send POST "/api/v1/relay/connect" (Some (JObj [("session_id", JStr session_id)])) true;
    if status_code resp =? 200 then relay_answer "session_id" resp
    else
      detail ← lift (_extract_error resp);
      mret (relay_failed detail)).
Definition request_relay_session_update (relay_session_id : string) (bytes_tx bytes_rx : Z) : M MidscaleAPIClient bool :=
  c ← get;
  if negb (json_truthy (_device_id c)) then mret false else
  on_request_error (fun _ => false) (
    resp ← send POST ("/api/v1/relay/" +:+ relay_session_id +:+ "/stats")
      (Some (JObj [("session_id", JStr relay_session_id); ("bytes_tx", JInt bytes_tx); ("bytes_rx", JInt bytes_rx)])) true;
    mret (status_code resp =? 200)).
Definition health_check : M MidscaleAPIClient bool :=
  on_request_error (fun _ => false) (
    resp ← send GET "/health" None false;
    mret (status_code resp =? 200)).

(** * Calls of an enrolled device *)
Inductive device_call :=
  | PullConfigV2
  | SendHeartbeat (public_key ip_address : option string)
  | ReportEndpoint (endpoint source : string) (port : Z) (local_ip public_ip : option string)
  | ReportProbe (peer endpoint : json) (reachable : bool) (port : json) (latency_ms : option json)
      (local_ip public_ip : option string)
  | AdvertiseRoute (prefix : string)
  | RequestPunch (target endpoint : string) (port : Z) (local_ip public_ip : option string)
  | ReportPunch (session_id : string) (success : bool) (endpoint : option string) (port latency_ms : option Z)
      (error : option string)
  | Validate (session_id endpoint : string) (port : Z) (reachable : bool) (latency_ms : option Z)
  | RequestRelay (target : json) (region : string)
  | ConnectRelay (session_id : string)
  | UpdateRelay (session_id : string) (tx rx : Z).
Definition run_call (k : device_call) : M MidscaleAPIClient unit :=
  match k with
  | PullConfigV2 => pull_config_v2;; mret tt
  | SendHeartbeat k ip => send_heartbeat k ip;; mret tt
  | ReportEndpoint e s p l q => report_endpoint e s p l q;; mret tt
  | ReportProbe d e r p m l q => report_probe_result d e r p m l q;; mret tt
  | AdvertiseRoute p => advertise_route p;; mret tt
  | RequestPunch d e p l q => request_nat_punch d e p l q;; mret tt
  | ReportPunch i s e p m x => report_nat_punch_result i s e p m x;; mret tt
  | Validate i e p r m => report_nat_connectivity_validation i e p r m;; mret tt
  | RequestRelay d r => request_relay_session d r;; mret tt
  | ConnectRelay i => connect_relay_session i;; mret tt
  | UpdateRelay i tx rx => request_relay_session_update i tx rx;; mret tt
  end.
(** A task that makes calls goes on after one that raised. *)
Definition run_calls (ks : list device_call) : M MidscaleAPIClient unit :=
  for_each ks (fun k => try_except (run_call k) (fun _ => mret tt)).

(** * Facts *)
#[local] Instance frame_on_error {A} (f : string -> A) (m : M MidscaleAPIClient A) :
  Frame eq m -> Frame eq (on_request_error f m).
Proof. intros Hm. unfold on_request_error. apply frame_try; [apply _|done|]. intros []; apply _. Qed.
#[local] Instance frame_relay_answer k resp : Frame eq (relay_answer k resp).
Proof. unfold relay_answer. apply _. Qed.

(** The request [send] makes, and that a call makes no other. *)
Definition request_of (c : MidscaleAPIClient) (method : http_method) (path : string) (body : option json)
    (with_auth : bool) : request :=
  mkRequest method (_base_url c +:+ path) body (if with_auth then _auth_headers c else []).
Definition sent (r : request) (c : MidscaleAPIClient) : MidscaleAPIClient := c <| requests := requests c ++ [r] |>.
Lemma send_run method path body auth c :
  send method path body auth c =
  (server (requests c ++ [request_of c method path body auth]), sent (request_of c method path body auth) c).
Proof. done. Qed.
Lemma sends_one {A} (f : string -> A) (k : response -> M MidscaleAPIClient A) method path body auth c :
  (forall resp, Frame eq (k resp)) ->
  (on_request_error f (resp ← send method path body auth; k resp) c).2 = sent (request_of c method path body auth) c.
Proof.
  intros Hk. unfold on_request_error, try_except. unfold mbind at 1, M_bind at 1. rewrite send_run.
  destruct (server _) as [resp|e]; [|by destruct e]. pose proof (Hk resp (sent (request_of c method path body auth) c)) as H.
  by destruct (k resp _) as [[a|[]] c''].
Qed.
Lemma dropped {A} (m : M MidscaleAPIClient A) c : (try_except (m;; mret tt) (fun _ => mret tt) c).2 = (m c).2.
Proof. unfold try_except, mbind, M_bind. by destruct (m c) as [[a|e] c']. Qed.

(** A call of an enrolled device makes one request, with its token. *)
Definition authorised (token base : string) (r : request) : Prop :=
  rq_headers r = [("Authorization", "Bearer " +:+ token)] /\ startswith base (rq_url r) = true.
Definition enrolled_as (i t base : string) (c : MidscaleAPIClient) : Prop :=
  _device_id c = JStr i /\ _device_token c = JStr t /\ _base_url c = base.
Lemma startswith_app (a b : string) : startswith a (a +:+ b) = true.
Proof.
  induction a as [|x a IH]; [done|]. change (startswith (String x a) (String x (a +:+ b)) = true).
  cbn [startswith]. by rewrite Ascii.eqb_refl.
Qed.
Lemma request_authorised i t base c method path body :
  truthy t = true -> enrolled_as i t base c -> authorised t base (request_of c method path body true).
Proof.
  intros Ht (_ & Hc & Hb). unfold authorised, request_of, _auth_headers. rewrite Hc, <-Hb. cbn.
  rewrite Ht. split; [done|apply startswith_app].
Qed.
Lemma guarded {A} i t base c (m : MidscaleAPIClient -> M MidscaleAPIClient A) (dflt : M MidscaleAPIClient A) :
  truthy i = true -> enrolled_as i t base c ->
  (c ← get; if negb (json_truthy (_device_id c)) then dflt else m c) c = m c c.
Proof. intros Hi (Hid & _). unfold mbind, M_bind, get. rewrite Hid. cbn. by rewrite Hi. Qed.
Lemma call_sends k i t base c :
  truthy i = true -> truthy t = true -> enrolled_as i t base c ->
  exists method path body,
    (try_except (run_call k) (fun _ => mret tt) c).2 = sent (request_of c method path body true) c.
Proof.
  intros Hi Ht Hc.
  destruct k; unfold run_call; rewrite dropped;
    unfold pull_config_v2, send_heartbeat, report_endpoint, report_probe_result, advertise_route, request_nat_punch,
      report_nat_punch_result, report_nat_connectivity_validation, request_relay_session, connect_relay_session,
      request_relay_session_update;
    [|rewrite (guarded i t base) by done; eexists _, _, _; unfold report; apply sends_one; intros; apply _..].
  unfold mbind at 1, M_bind at 1, get. destruct Hc as (Hid & Htok & Hb). rewrite Hid, Htok. cbn [json_truthy].
  rewrite Hi, Ht. cbn [negb orb]. eexists _, _, _. apply sends_one. intros. apply _.
Qed.
Lemma calls_send ks i t base c :
  truthy i = true -> truthy t = true -> enrolled_as i t base c ->
  exists l c', run_calls ks c = (Ok tt, c') /\ requests c' = requests c ++ l /\
    Forall (authorised t base) l /\ length l = length ks.
Proof.
  intros Hi Ht. revert c. induction ks as [|k ks IH]; intros c Hc.
  - exists [], c. by rewrite app_nil_r.
  - destruct (call_sends k i t base c Hi Ht Hc) as (m & p & b & E).
    pose proof (try_ignore_ok (run_call k) c) as Hok.
    destruct (try_except (run_call k) (fun _ => mret tt) c) as [o c1] eqn:Ek. cbn in Hok, E. subst o c1.
    destruct (IH (sent (request_of c m p b true) c)) as (l & c' & Hrun & Hl & Hall & Hlen); [exact Hc|].
    exists (request_of c m p b true :: l), c'. split_and!.
    + unfold run_calls in *. cbn [for_each]. unfold mbind, M_bind in *. by rewrite Ek.
    + rewrite Hl. cbn. by rewrite <-app_assoc.
    + constructor; [by eapply request_authorised|done].
    + cbn. by rewrite Hlen.
Qed.
(** A successful enrolment leaves its identity in the client. *)
Lemma enroll_auth preauth_key name key c r c1 :
  enroll preauth_key name key c = (Ok r, c1) -> en_success r = true ->
  _device_id c1 = en_device_id r /\ _device_token c1 = en_device_token r /\ _base_url c1 = _base_url c.
Proof.
  unfold enroll, on_request_error, try_except. unfold mbind at 1, M_bind at 1. rewrite send_run.
  destruct (server _) as [resp|[]]; try (intros [= <- <-]; done).
  unfold mbind, M_bind, lift. cbn beta iota.
  destruct (status_code resp =? 201).
  - repeat (match goal with
    | |- context [match ?x with Ok _ => _ | Raise _ => _ end] => destruct x as [?|[]]; try (intros [= <- <-]; done); try done
    end). all: intros [= <- <-]; done.
  - destruct (_extract_error resp) as [?|[]]; intros [= <- <-] ?; done.
Qed.

(** An enrolment sends the key pair's public half. *)
Definition same_requests (a b : MidscaleAPIClient) : Prop := requests b = requests a.
#[local] Instance same_requests_pre : PreOrder same_requests.
Proof. split; [done|]. intros a b d H1 H2. unfold same_requests in *. congruence. Qed.
#[local] Instance set_auth_frame i t : Frame same_requests (set_device_auth i t).
Proof. unfold set_device_auth. by apply frame_modify. Qed.
#[local] Typeclasses Opaque set_device_auth.
Lemma enroll_one_request preauth_key name key c :
  exists q, requests (enroll preauth_key name key c).2 = requests c ++ [q] /\ rq_json q =
    Some (JObj [("preauth_key", JStr preauth_key); ("name", JStr name); ("public_key", JStr key)]).
Proof.
  unfold enroll, on_request_error, try_except. unfold mbind at 1, M_bind at 1. rewrite send_run.
  set (q := request_of _ _ _ _ _). exists q. split; [|done].
  destruct (server (requests c ++ [q])) as [resp|e]; [|by destruct e].
  match goal with |- requests (match ?m ?s with _ => _ end).2 = _ =>
    assert (Frame same_requests m) as Hm by apply _; specialize (Hm s); destruct (m s) as [[a|[]] c''] end; exact Hm.
Qed.

(** A registration does not touch the identity of the client. *)
Definition same_identity (a b : MidscaleAPIClient) : Prop := _device_id b = _device_id a.
#[local] Instance same_identity_pre : PreOrder same_identity.
Proof. split; [done|]. intros a b d H1 H2. unfold same_identity in *. congruence. Qed.
#[local] Instance send_identity method path body auth : Frame same_identity (send method path body auth).
Proof. intros c. done. Qed.
#[local] Typeclasses Opaque send.
Lemma register_keeps_identity preauth_key name c : _device_id (register preauth_key name c).2 = _device_id c.
Proof.
  assert (Frame same_identity (register preauth_key name)) as H; [|exact (H c)].
  unfold register, on_request_error. apply frame_try; [apply _|apply _|]. intros []; apply _.
Qed.

(** * Properties *)

(** C29. After an enrolment, every call of the device makes one request, to the
    configured server and with the token the enrolment answered, whatever the
    calls before it were answered; none is made twice. *)
Theorem enrolled_calls_authenticated preauth_key name key c r c1 i t ks :
  enroll preauth_key name key c = (Ok r, c1) -> en_success r = true ->
  en_device_id r = JStr i -> en_device_token r = JStr t -> truthy i = true -> truthy t = true ->
  exists l c2, run_calls ks c1 = (Ok tt, c2) /\ requests c2 = requests c1 ++ l /\
    Forall (authorised t (_base_url c)) l /\ length l = length ks.
Proof.
  intros Hen Hs Hi Ht Hit Htt. destruct (enroll_auth _ _ _ _ _ _ Hen Hs) as (H1 & H2 & H3).
  apply (calls_send ks i); [done..|]. split_and!; congruence.
Qed.
End Client.

(** * Witnesses *)
(** A server that enrols and fails every other request. *)
Definition a_server (h : list request) : outcome response :=
  match last h with
  | Some r =>
    if String.eqb (rq_url r) "http://m/api/v1/devices/enroll"
    then Ok (mkResponse 201 (dumps (JObj [("device_id", JStr "d-1"); ("device_token", JStr "pre.secret")])))
    else Raise (RequestError "refused")
  | None => Raise (RequestError "refused")
  end.
Definition no_text : json -> string := fun _ => "".
Lemma enrolled_calls_authenticated_witness :
  exists l c2, run_calls a_server no_text [PullConfigV2; SendHeartbeat None None]
    (enroll a_server no_text "k" "n" "p" (new_api "http://m/")).2 = (Ok tt, c2) /\
    requests c2 = requests (enroll a_server no_text "k" "n" "p" (new_api "http://m/")).2 ++ l /\
    Forall (authorised "pre.secret" "http://m") l /\ length l = 2%nat.
Proof.
  apply (enrolled_calls_authenticated a_server no_text "k" "n" "p" (new_api "http://m/")
    (mkEnrollResult true (JStr "d-1") (JStr "pre.secret") JNull JNull JNull None) _ "d-1" "pre.secret");
    [vm_compute; reflexivity|reflexivity..].
Defined.
