(* ===== verification/DaemonModels.v ===== *)
(** The state the daemon's tasks share: [DaemonState] of
    [midscaled/daemon/models.py].  Times are microseconds since the epoch. *)
From S2P Require Import Prelude Json.
Local Open Scope string_scope.
Local Open Scope Z_scope.

Record DaemonState := mkDaemonState {
  registered : bool;
  enrolled : bool;
  ds_device_id : json;
  device_name : option string;
  ds_network_id : option string;
  interface_name : string;
  last_handshake : option Z;
  last_config_fetch : option Z;
  last_heartbeat : option Z;
  last_endpoint_report : option Z;
  current_endpoint : option string;
  reconfigure_count : Z;
  error_count : Z;
  last_config_hash : json;
  last_config_revision : json
}.
(** [DaemonState()] *)
Definition new_daemon_state : DaemonState :=
  mkDaemonState false false JNull None None "midscale0" None None None None None 0 0 JNull JNull.
#[export] Instance set_registered : SetField registered := fun v r =>
  mkDaemonState v (enrolled r) (ds_device_id r) (device_name r) (ds_network_id r) (interface_name r) (last_handshake r)
    (last_config_fetch r) (last_heartbeat r) (last_endpoint_report r) (current_endpoint r) (reconfigure_count r)
    (error_count r) (last_config_hash r) (last_config_revision r).
#[export] Instance set_enrolled : SetField enrolled := fun v r =>
  mkDaemonState (registered r) v (ds_device_id r) (device_name r) (ds_network_id r) (interface_name r) (last_handshake r)
    (last_config_fetch r) (last_heartbeat r) (last_endpoint_report r) (current_endpoint r) (reconfigure_count r)
    (error_count r) (last_config_hash r) (last_config_revision r).
#[export] Instance set_ds_device_id : SetField ds_device_id := fun v r =>
  mkDaemonState (registered r) (enrolled r) v (device_name r) (ds_network_id r) (interface_name r) (last_handshake r)
    (last_config_fetch r) (last_heartbeat r) (last_endpoint_report r) (current_endpoint r) (reconfigure_count r)
    (error_count r) (last_config_hash r) (last_config_revision r).
#[export] Instance set_last_config_fetch : SetField last_config_fetch := fun v r =>
  mkDaemonState (registered r) (enrolled r) (ds_device_id r) (device_name r) (ds_network_id r) (interface_name r) (last_handshake r)
    v (last_heartbeat r) (last_endpoint_report r) (current_endpoint r) (reconfigure_count r)
    (error_count r) (last_config_hash r) (last_config_revision r).
#[export] Instance set_last_heartbeat : SetField last_heartbeat := fun v r =>
  mkDaemonState (registered r) (enrolled r) (ds_device_id r) (device_name r) (ds_network_id r) (interface_name r) (last_handshake r)
    (last_config_fetch r) v (last_endpoint_report r) (current_endpoint r) (reconfigure_count r)
    (error_count r) (last_config_hash r) (last_config_revision r).
#[export] Instance set_last_endpoint_report : SetField last_endpoint_report := fun v r =>
  mkDaemonState (registered r) (enrolled r) (ds_device_id r) (device_name r) (ds_network_id r) (interface_name r) (last_handshake r)
    (last_config_fetch r) (last_heartbeat r) v (current_endpoint r) (reconfigure_count r)
    (error_count r) (last_config_hash r) (last_config_revision r).
#[export] Instance set_current_endpoint : SetField current_endpoint := fun v r =>
  mkDaemonState (registered r) (enrolled r) (ds_device_id r) (device_name r) (ds_network_id r) (interface_name r) (last_handshake r)
    (last_config_fetch r) (last_heartbeat r) (last_endpoint_report r) v (reconfigure_count r)
    (error_count r) (last_config_hash r) (last_config_revision r).
#[export] Instance set_reconfigure_count : SetField reconfigure_count := fun v r =>
  mkDaemonState (registered r) (enrolled r) (ds_device_id r) (device_name r) (ds_network_id r) (interface_name r) (last_handshake r)
    (last_config_fetch r) (last_heartbeat r) (last_endpoint_report r) (current_endpoint r) v
    (error_count r) (last_config_hash r) (last_config_revision r).
#[export] Instance set_error_count : SetField error_count := fun v r =>
  mkDaemonState (registered r) (enrolled r) (ds_device_id r) (device_name r) (ds_network_id r) (interface_name r) (last_handshake r)
    (last_config_fetch r) (last_heartbeat r) (last_endpoint_report r) (current_endpoint r) (reconfigure_count r)
    v (last_config_hash r) (last_config_revision r).
#[export] Instance set_last_config_hash : SetField last_config_hash := fun v r =>
  mkDaemonState (registered r) (enrolled r) (ds_device_id r) (device_name r) (ds_network_id r) (interface_name r) (last_handshake r)
    (last_config_fetch r) (last_heartbeat r) (last_endpoint_report r) (current_endpoint r) (reconfigure_count r)
    (error_count r) v (last_config_revision r).
#[export] Instance set_last_config_revision : SetField last_config_revision := fun v r =>
  mkDaemonState (registered r) (enrolled r) (ds_device_id r) (device_name r) (ds_network_id r) (interface_name r) (last_handshake r)
    (last_config_fetch r) (last_heartbeat r) (last_endpoint_report r) (current_endpoint r) (reconfigure_count r)
    (error_count r) (last_config_hash r) v.
