(* ===== verification/Reconciler.v ===== *)
(** The daemon's reconciliation loop: [midscaled/daemon/reconciler.py], over
    the API client, the WireGuard runtime, the state store and the relay
    client.

    A task the code starts and does not wait for is kept in [tasks] until it
    runs. *)
From Stdlib Require Import Ascii.
From S2P Require Import Prelude PyStr Bytes Json JsonText PyJson Paths StateStore RelayClient IPv4 Models Topology ConfigV2 WgAdapter WgRuntime ConfigReader ApiClient DaemonModels.
Local Open Scope string_scope.
Local Open Scope list_scope.
Local Open Scope Z_scope.

(** [ProbeTarget] of [midscaled/daemon/peer_prober.py]. *)
Record ProbeTarget := mkProbeTarget {
  pt_peer_device_id : json; pt_public_key : json; pt_endpoint : json; pt_port : json }.

Record Reconciler := mkReconciler {
  r_interface_name : string;
  _api : MidscaleAPIClient;
  _wg : host;
  _state : StateStore;
  _last_config : json;
  _push_event : bool;
  r_running : bool;
  _peer_prober : option (list ProbeTarget);
  _relay_client : option DaemonRelayClient;
  daemon_state : DaemonState;
  tasks : list DesiredPeer;
  now : Z
}.
#[export] Instance set_api : SetField _api := fun v r =>
  mkReconciler (r_interface_name r) v (_wg r) (_state r) (_last_config r) (_push_event r) (r_running r) (_peer_prober r)
    (_relay_client r) (daemon_state r) (tasks r) (now r).
#[export] Instance set_wg : SetField _wg := fun v r =>
  mkReconciler (r_interface_name r) (_api r) v (_state r) (_last_config r) (_push_event r) (r_running r) (_peer_prober r)
    (_relay_client r) (daemon_state r) (tasks r) (now r).
#[export] Instance set_state : SetField _state := fun v r =>
  mkReconciler (r_interface_name r) (_api r) (_wg r) v (_last_config r) (_push_event r) (r_running r) (_peer_prober r)
    (_relay_client r) (daemon_state r) (tasks r) (now r).
#[export] Instance set_last_config : SetField _last_config := fun v r =>
  mkReconciler (r_interface_name r) (_api r) (_wg r) (_state r) v (_push_event r) (r_running r) (_peer_prober r)
    (_relay_client r) (daemon_state r) (tasks r) (now r).
#[export] Instance set_push_event : SetField _push_event := fun v r =>
  mkReconciler (r_interface_name r) (_api r) (_wg r) (_state r) (_last_config r) v (r_running r) (_peer_prober r)
    (_relay_client r) (daemon_state r) (tasks r) (now r).
#[export] Instance set_r_running : SetField r_running := fun v r =>
  mkReconciler (r_interface_name r) (_api r) (_wg r) (_state r) (_last_config r) (_push_event r) v (_peer_prober r)
    (_relay_client r) (daemon_state r) (tasks r) (now r).
#[export] Instance set_peer_prober : SetField _peer_prober := fun v r =>
  mkReconciler (r_interface_name r) (_api r) (_wg r) (_state r) (_last_config r) (_push_event r) (r_running r) v
    (_relay_client r) (daemon_state r) (tasks r) (now r).
#[export] Instance set_relay_client : SetField _relay_client := fun v r =>
  mkReconciler (r_interface_name r) (_api r) (_wg r) (_state r) (_last_config r) (_push_event r) (r_running r) (_peer_prober r)
    v (daemon_state r) (tasks r) (now r).
#[export] Instance set_daemon_state : SetField daemon_state := fun v r =>
  mkReconciler (r_interface_name r) (_api r) (_wg r) (_state r) (_last_config r) (_push_event r) (r_running r) (_peer_prober r)
    (_relay_client r) v (tasks r) (now r).
#[export] Instance set_tasks : SetField tasks := fun v r =>
  mkReconciler (r_interface_name r) (_api r) (_wg r) (_state r) (_last_config r) (_push_event r) (r_running r) (_peer_prober r)
    (_relay_client r) (daemon_state r) v (now r).
#[export] Instance set_now : SetField now := fun v r =>
  mkReconciler (r_interface_name r) (_api r) (_wg r) (_state r) (_last_config r) (_push_event r) (r_running r) (_peer_prober r)
    (_relay_client r) (daemon_state r) (tasks r) v.

(** [Reconciler(config, api_client, wg_runtime, state_store, relay_client)], as
    the daemon makes it: without a prober. *)
Definition new_reconciler (interface : string) (api : MidscaleAPIClient) (wg : host) (store : StateStore)
    (relay : option DaemonRelayClient) (d : DaemonState) : Reconciler :=
  mkReconciler interface api wg store JNull false false None relay d [] 0.

Section Reconcile.
(** What the programs and the server do, how buffered text reaches the disk,
    the mode of a new file, the order of a set, and what [repr] prints. *)
Context (answer : host -> outcome process) (server : list request -> outcome response).
Context (flush : string -> list string) (created_mode : Z).
Context (set_order : list string -> list string) (repr : json -> string).

Definition on_daemon (f : DaemonState -> DaemonState) : M Reconciler unit :=
  modify (fun r => r <| daemon_state := f (daemon_state r) |>).
Definition cached (key : string) : M Reconciler json :=
  v ← zoom _state (get_cache key); mret (default JNull v).
Definition fetched_now : M Reconciler unit :=
  t ← gets now; on_daemon (fun d => d <| last_config_fetch := Some t |>).

Definition _apply_config (config : DesiredConfig) : M Reconciler unit :=
  interface ← gets r_interface_name;
  up ← zoom _wg (bring_up_interface answer interface (address config) (subnet config));
  if negb up then mret tt else
  ok ← zoom _wg (apply_config answer set_order repr interface config);
  if ok : bool then on_daemon (fun d => d <| reconfigure_count := reconfigure_count d + 1 |>)
  else on_daemon (fun d => d <| error_count := error_count d + 1 |>).

(** [_parse_config_ini] of a value that may not be text. *)
Definition parse_ini (ini : json) : outcome (option DesiredConfig) :=
  match ini with JStr s => _parse_config_ini s | _ => Raise TypeError end.
Definition _reconcile_v1 : M Reconciler unit :=
  result ← zoom _api (pull_config server repr);
  last ← gets _last_config;
  if negb (cp_success result) then
    cached_config ← cached "last_config";
    when (json_truthy cached_config && match last with JNull => true | _ => false end) (
      modify (fun r => r <| _last_config := cached_config |>);;
      config ← lift (parse_ini cached_config);
      match config with Some c => _apply_config c | None => mret tt end)
  else
    let ini := cp_config_ini result in
    if negb (json_truthy ini) then mret tt
    else if py_eq ini last then fetched_now
    else
      zoom _state (update_cache flush "last_config" ini);;
      modify (fun r => r <| _last_config := ini |>);;
      config ← lift (parse_ini ini);
      match config with Some c => _apply_config c | None => mret tt end.

(** [open(key_path).read().strip()]; a missing file is no key. *)
Definition read_private_key : M StateStore (option string) :=
  path ← get_private_key_path;
  fs ← gets (fun s => fs_of created_mode (disk s));
  match fs !! path with
  | None => mret None
  | Some f => text ← lift (decode (contents f)); mret (Some (strip text))
  end.

(** The endpoints of a peer that are to be probed. *)
Definition candidate_target (key endpoint port cand : json) : outcome ProbeTarget :=
  e ← get_or cand "endpoint" (if json_truthy endpoint then endpoint else JStr "");
  p ← get_or cand "port" port;
  Ok (mkProbeTarget key key e p).
Definition peer_targets (peer : json) : outcome (list ProbeTarget) :=
  key ← get_or peer "public_key" (JStr "");
  endpoint ← get_or peer "endpoint" JNull;
  port ← get_or peer "endpoint_port" (JInt 51820);
  cands ← get_or peer "endpoint_candidates" (JArr []);
  cands ← items cands;
  more ← mapM (candidate_target key endpoint port) cands;
  Ok ((if json_truthy endpoint then [mkProbeTarget key key endpoint port] else []) ++ more).
Definition update_targets (targets : list ProbeTarget) : M Reconciler unit :=
  modify (fun r => r <| _peer_prober := Some targets |>).

Definition config_v2_of (result : ConfigV2PullResult) : json :=
  JObj [("interface", cv2_interface result); ("peers", cv2_peers result); ("routes", cv2_routes result);
        ("exit_node", cv2_exit_node result)].
Definition needs_relay (p : DesiredPeer) : bool :=
  json_truthy (relay_required p) && json_truthy (relay_candidates p).
(** What follows the checks of [_reconcile_v2]. *)
Definition apply_v2 (result : ConfigV2PullResult) (config_v2 : json) (cache_key private_key : string) :
    M Reconciler unit :=
  match _parse_config_v2 config_v2 private_key with
  | None => mret tt
  | Some config =>
    _apply_config config;;
    relay ← gets _relay_client;
    when (match relay with Some c => _connected c | None => false end)
      (modify (fun r => r <| tasks := tasks r ++ List.filter needs_relay (peers config) |>));;
    zoom _state (update_cache flush "last_config_v2" (JStr cache_key));;
    when (json_truthy (cv2_hash result)) (
      zoom _state (update_cache flush "last_config_hash" (cv2_hash result));;
      on_daemon (fun d => d <| last_config_hash := cv2_hash result |>
                            <| last_config_revision := cv2_revision result |>));;
    prober ← gets _peer_prober;
    match prober with
    | Some _ =>
      if json_truthy (cv2_peers result) then
        ps ← lift (items (cv2_peers result));
        targets ← lift (mapM peer_targets ps);
        update_targets (concat targets)
      else mret tt
    | None => mret tt
    end
  end.
Definition _reconcile_v2 : M Reconciler unit :=
  key ← zoom _state read_private_key;
  let private_key := default "" key in
  if negb (truthy private_key) then mret tt else
  result ← zoom _api (pull_config_v2 server repr);
  if negb (cv2_success result) then mret tt else
  last_hash ← (if json_truthy (cv2_hash result) then cached "last_config_hash" else mret JNull);
  if json_truthy (cv2_hash result) && py_eq (cv2_hash result) last_hash then fetched_now else
  let config_v2 := config_v2_of result in
  let cache_key := dumps (sort_keys config_v2) in
  last ← cached "last_config_v2";
  if negb (json_truthy (cv2_hash result)) && py_eq (JStr cache_key) last then fetched_now
  else apply_v2 result config_v2 cache_key private_key.

Definition reconcile_once : M Reconciler unit :=
  d ← gets daemon_state;
  if enrolled d then _reconcile_v2 else _reconcile_v1.

(** * The loop *)
Definition trigger : M Reconciler unit := modify (fun r => r <| _push_event := true |>).
Definition start : M Reconciler unit :=
  running ← gets r_running;
  when (negb running) (modify (fun r => r <| r_running := true |>)).
Definition stop : M Reconciler unit := modify (fun r => r <| r_running := false |> <| _push_event := true |>).
(** One turn of [_run_loop], and its turns at the given times; whether the wait
    ends by the event or by its timeout makes no difference. *)
Definition loop_turn (t : Z) : M Reconciler unit :=
  running ← gets r_running;
  when running (
    modify (fun r => r <| now := t |>);;
    try_except (reconcile_once;; fetched_now)
      (fun _ => on_daemon (fun d => d <| error_count := error_count d + 1 |>));;
    modify (fun r => r <| _push_event := false |>)).
Definition _run_loop (times : list Z) : M Reconciler unit := for_each times loop_turn.

(** * Relay activation *)
Fixpoint device_of_key (public_key : json) (ps : list json) : outcome json :=
  match ps with
  | [] => Ok JNull
  | p :: rest =>
    k ← get_or p "public_key" JNull;
    if py_eq k public_key then get_or p "device_id" JNull else device_of_key public_key rest
  end.
Definition _resolve_peer_device_id (public_key : json) : M Reconciler json :=
  last ← gets _last_config;
  if negb (json_truthy last) then mret JNull else
  try_except (
    cached_v2 ← cached "last_config_v2";
    if json_truthy cached_v2 then
      j ← lift (match cached_v2 with JStr s => loads s | _ => Raise TypeError end);
      ps ← lift (get_or j "peers" (JArr []));
      ps ← lift (items ps);
      lift (device_of_key public_key ps)
    else mret JNull)
  (fun _ => mret JNull).
(** The relay client takes ids and tokens that are text. *)
Definition open_session (session_id token : json) : M Reconciler unit :=
  relay ← gets _relay_client;
  match relay, session_id, token with
  | Some c, JStr s, JStr t =>
    let r := connect_session s t c in
    modify (fun x => x <| _relay_client := Some r.2 |>);;
    lift r.1
  | _, _, _ => raise TypeError
  end.
Definition _activate_relay_for_peer (peer : DesiredPeer) : M Reconciler unit :=
  relay ← gets _relay_client;
  api ← gets _api;
  match relay with
  | None => mret tt
  | Some _ =>
    if negb (json_truthy (ApiClient._device_id api)) then mret tt else
    try_except (
      if negb (json_truthy (relay_candidates peer)) then mret tt else
      target_device_id ← _resolve_peer_device_id (public_key peer);
      if negb (json_truthy target_device_id) then mret tt else
      result ← zoom _api (request_relay_session server repr target_device_id "default");
      when (rs_success result && json_truthy (rs_session_id result) && json_truthy (rs_relay_token result))
        (open_session (rs_session_id result) (rs_relay_token result)))
    (fun _ => mret tt)
  end.
(** The next task that was started runs. *)
Definition run_task : M Reconciler unit :=
  ts ← gets tasks;
  match ts with
  | [] => mret tt
  | p :: rest => modify (fun r => r <| tasks := rest |>);; _activate_relay_for_peer p
  end.

(** * Facts *)
Lemma state_same r : r <| _state := _state r |> = r.
Proof. by destruct r. Qed.
Lemma cached_run key r o : _cache (_state r) = JObj o -> cached key r = (Ok (default JNull (obj_get key o)), r).
Proof.
  intros Ho. unfold cached. rewrite (bind_ok _ _ r (obj_get key o) r); [done|].
  rewrite <-(state_same r) at 2. apply zoom_ok. unfold get_cache, mbind, M_bind, gets. by rewrite Ho.
Qed.
Definition stored (k : string) (v : json) (o : obj) (s : StateStore) : StateStore :=
  s <| _cache := JObj (obj_set k v o) |>
    <| disk := disk s ++ write_ops flush (_cache_file s) (dump_indent (JObj (obj_set k v o))) |>.
Lemma update_cache_run k v s o : _cache s = JObj o -> update_cache flush k v s = (Ok tt, stored k v o s).
Proof. intros Ho. unfold update_cache, mbind, M_bind, gets. by rewrite Ho. Qed.

(** ** What the server answers *)
(** The body of [DeviceConfigV2Response]. *)
Definition response_json (c : DeviceConfigV2Response) : json :=
  JObj [("interface", dump_interface (cv_interface c)); ("peers", JArr (dump_peer <$> cv_peers c));
        ("routes", jstrs (cv_routes c)); ("exit_node", jstr_opt (cv_exit_node c)); ("version", JStr (cv_version c));
        ("config_version", JStr (cv_config_version c)); ("schema_version", JStr (cv_schema_version c));
        ("min_daemon_version", jstr_opt (cv_min_daemon_version c)); ("revision", JStr (cv_revision c));
        ("generated_at", JStr (cv_generated_at c)); ("hash", JStr (cv_hash c))].
(** Whatever was asked before, the address answers this text. *)
Definition serves (url text : string) : Prop :=
  forall h r, rq_url r = url -> server (h ++ [r]) = Ok (mkResponse 200 text).
Definition config_url (base i : string) : string := base +:+ "/api/v1/devices/" +:+ i +:+ "/config-v2".
Definition serves_config (base i : string) (c : DeviceConfigV2Response) : Prop :=
  exists text, serves (config_url base i) text /\ resp_json (mkResponse 200 text) = Ok (response_json c).
Definition result_of (c : DeviceConfigV2Response) : ConfigV2PullResult :=
  mkConfigV2PullResult true (dump_interface (cv_interface c)) (JArr (dump_peer <$> cv_peers c)) (jstrs (cv_routes c))
    (jstr_opt (cv_exit_node c)) (JStr (cv_revision c)) (JStr (cv_hash c)) (JStr (cv_version c)) None.
Definition config_request (i : string) (c : MidscaleAPIClient) : request :=
  request_of repr c GET ("/api/v1/devices/" +:+ i +:+ "/config-v2") None true.
Lemma pull_v2_run i t base c cfg :
  truthy i = true -> truthy t = true -> enrolled_as i t base c -> serves_config base i cfg ->
  pull_config_v2 server repr c = (Ok (result_of cfg), sent (config_request i c) c).
Proof.
  intros Hi Ht (Hid & Htok & Hb) (text & Hs & Hj). unfold pull_config_v2. unfold mbind at 1, M_bind at 1, get.
  rewrite Hid, Htok. cbn [json_truthy]. rewrite Hi, Ht. cbn [negb orb].
  unfold on_request_error, try_except. unfold mbind at 1, M_bind at 1. rewrite send_run.
  unfold device_path. rewrite Hid. cbn [py_str]. fold (config_request i c).
  rewrite (Hs (requests c) (config_request i c)) by (unfold config_request, request_of, config_url; cbn; by rewrite Hb).
  cbn [status_code]. rewrite Z.eqb_refl. unfold mbind at 1, M_bind at 1, lift. rewrite Hj. reflexivity.
Qed.

(** ** An enrolled daemon *)
Definition key_on_disk (k : string) (s : StateStore) : Prop :=
  exists f text, fs_of created_mode (disk s) !! key_file (_state_dir s) = Some f /\
    decode (contents f) = Ok text /\ strip text = k.
Lemma key_read k s : key_on_disk k s -> read_private_key s = (Ok (Some k), s).
Proof.
  intros (f & text & Hf & Hd & <-). unfold read_private_key, get_private_key_path, mbind, M_bind, gets, lift.
  by rewrite Hf, Hd.
Qed.
Definition ready (i t base k : string) (o : obj) (r : Reconciler) : Prop :=
  enrolled (daemon_state r) = true /\ enrolled_as i t base (_api r) /\
  key_on_disk k (_state r) /\ _cache (_state r) = JObj o /\ _peer_prober r = None.
(** What the daemon does for a configuration, and what it then remembers. *)
Definition wanted_config (k : string) (cfg : DeviceConfigV2Response) : DesiredConfig :=
  desired_v2 (cv_interface cfg) (cv_peers cfg) k.
Definition applied (interface : string) (config : DesiredConfig) (h : host) : host :=
  let h1 := h ++ up_commands interface (address config) (subnet config) in
  h1 ++ config_commands answer set_order repr interface config h1.
Definition cache_key_of (cfg : DeviceConfigV2Response) : string := dumps (sort_keys (config_v2_of (result_of cfg))).
Definition remembered (cfg : DeviceConfigV2Response) (o : obj) : obj :=
  obj_set "last_config_hash" (JStr (cv_hash cfg)) (obj_set "last_config_v2" (JStr (cache_key_of cfg)) o).
Definition known_hash (cfg : DeviceConfigV2Response) (o : obj) : bool :=
  py_eq (JStr (cv_hash cfg)) (default JNull (obj_get "last_config_hash" o)).

(** Applying a configuration always returns; when the programs start it does
    what [applied] says. *)
Lemma apply_config_ok config r :
  (forall h, exists p, answer h = Ok p) ->
  truthy (private_key config) = true -> forallb typed_peer (peers config) = true ->
  _apply_config config r =
  (Ok tt, r <| _wg := applied (r_interface_name r) config (_wg r) |>
            <| daemon_state := daemon_state r <| reconfigure_count := reconfigure_count (daemon_state r) + 1 |> |>).
Proof.
  intros starts Hk Ht. unfold _apply_config. unfold mbind at 1, M_bind at 1, gets.
  rewrite (bind_ok _ _ _ _ _ (zoom_ok _wg _ r _ _ (bring_up_run answer starts _ _ _ _))). cbn [negb].
  rewrite (bind_ok _ _ _ _ _ (zoom_ok _wg _ _ _ _ (apply_config_run answer set_order repr starts _ _ _ Hk Ht))).
  reflexivity.
Qed.
Lemma apply_config_nothing config r :
  (forall h, exists e, answer h = Raise e) ->
  exists h, _apply_config config r = (Ok tt, r <| _wg := h |>).
Proof.
  intros Hno. unfold _apply_config. unfold mbind at 1, M_bind at 1, gets.
  assert (forall i a n h, exists h', bring_up_interface answer i a n h = (Ok false, h')) as Hup.
  { intros i a n h. unfold bring_up_interface, interface_exists, _run, exec, try_except, mbind, M_bind.
    destruct (Hno (h ++ [Wg ["show"; i] (if opt_truthy None then None else None)])) as [e1 ->]. cbn [negb mret M_ret].
    destruct (Hno ((h ++ [Wg ["show"; i] (if opt_truthy None then None else None)]) ++ [Wg ["genkey"] None])) as [e2 ->].
    by eexists. }
  destruct (Hup (r_interface_name r) (address config) (subnet config) (_wg r)) as [h' Hh]. exists h'.
  by rewrite (bind_ok _ _ _ _ _ (zoom_ok _wg _ r _ _ Hh)).
Qed.
Definition to_activate (r : Reconciler) (config : DesiredConfig) : list DesiredPeer :=
  if match _relay_client r with Some c => _connected c | None => false end
  then tasks r ++ List.filter needs_relay (peers config) else tasks r.
Lemma start_tasks config r :
  when (match _relay_client r with Some c => _connected c | None => false end)
    (modify (fun r => r <| tasks := tasks r ++ List.filter needs_relay (peers config) |>)) r =
  (Ok tt, r <| tasks := to_activate r config |>).
Proof. unfold when, to_activate. destruct (match _relay_client r with Some c => _ | None => _ end); [done|by destruct r]. Qed.

Lemma reconcile_known i t base k o r cfg :
  ready i t base k o r -> truthy i = true -> truthy t = true -> truthy k = true -> truthy (cv_hash cfg) = true ->
  serves_config base i cfg -> known_hash cfg o = true ->
  reconcile_once r =
  (Ok tt, r <| _api := sent (config_request i (_api r)) (_api r) |>
            <| daemon_state := daemon_state r <| last_config_fetch := Some (now r) |> |>).
Proof.
  intros (He & Ha & Hk%key_read & Ho & Hp) Hi Ht Htk Hh Hs Hknown. unfold reconcile_once. unfold mbind at 1, M_bind at 1, gets.
  rewrite He. unfold _reconcile_v2.
  rewrite (bind_ok _ _ _ _ _ (zoom_ok _state _ r _ _ Hk)). rewrite state_same. cbn [default from_option id]. rewrite Htk. cbn [negb].
  rewrite (bind_ok _ _ _ _ _ (zoom_ok _api _ r _ _ (pull_v2_run i t base (_api r) cfg Hi Ht Ha Hs))).
  set (r1 := r <| _api := _ |>). cbn [cv2_success result_of negb cv2_hash json_truthy]. rewrite Hh.
  rewrite (bind_ok _ _ _ _ _ (cached_run "last_config_hash" r1 o Ho)). fold (known_hash cfg o). rewrite Hknown.
  reflexivity.
Qed.
Lemma reconcile_new i t base k o r cfg h d :
  ready i t base k o r -> truthy i = true -> truthy t = true -> truthy k = true -> truthy (cv_hash cfg) = true ->
  serves_config base i cfg -> known_hash cfg o = false ->
  let r1 := r <| _api := sent (config_request i (_api r)) (_api r) |> in
  _apply_config (wanted_config k cfg) r1 = (Ok tt, r1 <| _wg := h |> <| daemon_state := d |>) ->
  reconcile_once r =
  (Ok tt, r1 <| _wg := h |>
            <| tasks := to_activate r (wanted_config k cfg) |>
            <| _state := stored "last_config_hash" (JStr (cv_hash cfg)) (obj_set "last_config_v2" (JStr (cache_key_of cfg)) o)
                 (stored "last_config_v2" (JStr (cache_key_of cfg)) o (_state r)) |>
            <| daemon_state := d <| last_config_hash := JStr (cv_hash cfg) |>
                 <| last_config_revision := JStr (cv_revision cfg) |> |>).
Proof.
  intros (He & Ha & Hk%key_read & Ho & Hp) Hi Ht Htk Hh Hs Hnew r1 Hap.
  unfold reconcile_once. unfold mbind at 1, M_bind at 1, gets. rewrite He. unfold _reconcile_v2.
  rewrite (bind_ok _ _ _ _ _ (zoom_ok _state _ r _ _ Hk)). rewrite state_same. cbn [default from_option id]. rewrite Htk. cbn [negb].
  rewrite (bind_ok _ _ _ _ _ (zoom_ok _api _ r _ _ (pull_v2_run i t base (_api r) cfg Hi Ht Ha Hs))).
  fold r1. cbn [cv2_success result_of negb cv2_hash json_truthy]. rewrite Hh.
  rewrite (bind_ok _ _ _ _ _ (cached_run "last_config_hash" r1 o Ho)). fold (known_hash cfg o). rewrite Hnew. cbn [andb].
  rewrite (bind_ok _ _ _ _ _ (cached_run "last_config_v2" r1 o Ho)). cbn [negb andb].
  unfold apply_v2. unfold config_v2_of. cbn [cv2_interface cv2_peers result_of]. rewrite parse_v2_dump.
  fold (wanted_config k cfg).
  rewrite (bind_ok _ _ _ _ _ Hap).
  set (r2 := r1 <| _wg := _ |> <| daemon_state := _ |>). unfold mbind at 1, M_bind at 1, gets.
  rewrite (bind_ok _ _ _ _ _ (start_tasks (wanted_config k cfg) r2)). set (r3 := r2 <| tasks := _ |>).
  rewrite (bind_ok _ _ _ _ _ (zoom_ok _state _ r3 _ _ (update_cache_run "last_config_v2" (JStr (cache_key_of cfg)) (_state r3) o Ho))).
  cbn [cv2_hash result_of json_truthy]. rewrite Hh. cbn [when].
  set (r4 := r3 <| _state := _ |>).
  set (o1 := obj_set "last_config_v2" (JStr (cache_key_of cfg)) o).
  assert (zoom _state (update_cache flush "last_config_hash" (JStr (cv_hash cfg))) r4 =
    (Ok tt, r4 <| _state := stored "last_config_hash" (JStr (cv_hash cfg)) o1 (_state r4) |>)) as Hz
    by (by apply zoom_ok, update_cache_run).
  unfold mbind at 1, M_bind at 1. rewrite (bind_ok _ _ _ _ _ Hz). unfold on_daemon, modify.
  unfold mbind, M_bind, gets. cbn beta iota.
  match goal with |- context [match _peer_prober ?x with _ => _ end] =>
    replace (_peer_prober x) with (@None (list ProbeTarget)) by (symmetry; exact Hp) end.
  subst r4 r3 r2 r1 o1. by destruct r.
Qed.

(** ** Turns of the loop that find nothing new *)
Lemma turn_known i t base k o r cfg at_ :
  ready i t base k o r -> truthy i = true -> truthy t = true -> truthy k = true -> truthy (cv_hash cfg) = true ->
  serves_config base i cfg -> known_hash cfg o = true -> r_running r = true ->
  exists r', loop_turn at_ r = (Ok tt, r') /\ ready i t base k o r' /\ r_running r' = true /\
    _wg r' = _wg r /\ _state r' = _state r.
Proof.
  intros Hr Hi Ht Hk Hh Hs Hknown Hrun. unfold loop_turn. unfold mbind at 1, M_bind at 1, gets. rewrite Hrun. cbn [when].
  unfold mbind at 1, M_bind at 1, modify. set (r1 := r <| now := at_ |>).
  assert (ready i t base k o r1) as Hr1 by exact Hr.
  pose proof (reconcile_known i t base k o r1 cfg Hr1 Hi Ht Hk Hh Hs Hknown) as E. set (r2 := r1 <| _api := _ |> <| daemon_state := _ |>) in E.
  unfold mbind, M_bind, try_except. rewrite E. cbn. eexists. split; [reflexivity|].
  destruct Hr as (He & Ha & Hkk & Ho & Hp). split_and!; try done.
Qed.
Lemma turns_known i t base k o r cfg times :
  ready i t base k o r -> truthy i = true -> truthy t = true -> truthy k = true -> truthy (cv_hash cfg) = true ->
  serves_config base i cfg -> known_hash cfg o = true -> r_running r = true ->
  _wg (_run_loop times r).2 = _wg r /\ _state (_run_loop times r).2 = _state r.
Proof.
  intros Hr Hi Ht Hk Hh Hs Hknown. revert r Hr. induction times as [|at_ times IH]; intros r Hr Hrun; [done|].
  destruct (turn_known i t base k o r cfg at_ Hr Hi Ht Hk Hh Hs Hknown Hrun) as (r' & E & Hr' & Hrun' & Hw & Hst).
  unfold _run_loop in *. cbn [for_each]. unfold mbind, M_bind in *. rewrite E.
  destruct (IH r' Hr' Hrun') as [-> ->]. done.
Qed.
Lemma known_remembered cfg o : known_hash cfg (remembered cfg o) = true.
Proof. unfold known_hash, remembered. rewrite obj_get_set. cbn [default from_option id]. apply py_eq_str_refl. Qed.

(** ** The store after a configuration *)
Context (flush_text : forall t, foldr String.append "" (flush t) = t).
Lemma stored_disk k v o s :
  disk (stored k v o s) = disk s ++ write_ops flush (_cache_file s) (dump_indent (JObj (obj_set k v o))).
Proof. done. Qed.
Lemma stored_other k v o s q :
  q <> _cache_file s -> fs_of created_mode (disk (stored k v o s)) !! q = fs_of created_mode (disk s) !! q.
Proof. intros Hq. rewrite stored_disk, fs_of_app. by apply apply_ops_other, write_names. Qed.
Lemma stored_cache k v o s :
  plain (JObj (obj_set k v o)) = true ->
  read_json (fs_of created_mode (disk (stored k v o s))) (_cache_file s) = Ok (JObj (obj_set k v o)).
Proof using flush_text.
  intros Hp. destruct (write_run flush created_mode flush_text (fs_of created_mode (disk s)) (_cache_file s)
    (dump_indent (JObj (obj_set k v o)))) as [m Hm].
  apply (read_dumped _ _ _ m Hp). by rewrite stored_disk, fs_of_app.
Qed.
Lemma other_files s :
  key_file (_state_dir s) <> _cache_file s /\ _identity_file s <> _cache_file s /\ _enrollment_file s <> _cache_file s.
Proof.
  destruct (path_join_pre (_state_dir s)) as (pre & Hpre). pose proof (key_file_pre _ _ Hpre) as Hk.
  unfold _cache_file, _identity_file, _enrollment_file. rewrite Hk, !Hpre by done. split_and!; intros E%app_inj; discriminate E.
Qed.
Definition store_after (cfg : DeviceConfigV2Response) (o : obj) (s : StateStore) : StateStore :=
  stored "last_config_hash" (JStr (cv_hash cfg)) (obj_set "last_config_v2" (JStr (cache_key_of cfg)) o)
    (stored "last_config_v2" (JStr (cache_key_of cfg)) o s).
Lemma after_other cfg o s q :
  q <> _cache_file s -> fs_of created_mode (disk (store_after cfg o s)) !! q = fs_of created_mode (disk s) !! q.
Proof. intros Hq. unfold store_after. rewrite !stored_other; done. Qed.
Lemma key_after k cfg o s : key_on_disk k s -> key_on_disk k (store_after cfg o s).
Proof.
  intros (f & text & Hf & Hd & Hs). exists f, text. split_and!; [|done..].
  change (_state_dir (store_after cfg o s)) with (_state_dir s). by rewrite after_other by apply other_files.
Qed.
(** What the next start of the daemon loads. *)
Lemma load_after cfg o s e d :
  plain (JObj (remembered cfg o)) = true ->
  read_json (fs_of created_mode (disk s)) (_identity_file s) = Ok (JObj d) ->
  read_json (fs_of created_mode (disk s)) (_enrollment_file s) = Ok (JObj e) ->
  load created_mode (new_store (_state_dir s) (disk (store_after cfg o s))) =
  (Ok tt, mkStore (_state_dir s) (JObj d) (JObj e) (JObj (remembered cfg o)) (disk (store_after cfg o s))).
Proof using flush_text.
  intros Hp Hd He. destruct (other_files s) as (_ & Hi & Hen). apply load_run.
  - rewrite <-Hd. apply (read_same _ _ (_identity_file s)). by apply after_other.
  - rewrite <-He. apply (read_same _ _ (_enrollment_file s)). by apply after_other.
  - apply (stored_cache _ _ _ (stored "last_config_v2" (JStr (cache_key_of cfg)) o s)), Hp.
Qed.

(** ** Relay activation in a run *)
Inductive step := Turn (at_ : Z) | RunTask | Trigger.
Definition run_step (s : step) : M Reconciler unit :=
  match s with Turn t => loop_turn t | RunTask => run_task | Trigger => trigger end.
Definition gets_only (r r' : Reconciler) : Prop :=
  exists l, requests (_api r') = requests (_api r) ++ l /\ Forall (fun q => rq_method q = GET) l.
(** An enrolled daemon that never read an INI configuration. *)
Definition inactive (r r' : Reconciler) : Prop :=
  enrolled (daemon_state r) = true -> _last_config r = JNull ->
  enrolled (daemon_state r') = true /\ _last_config r' = JNull /\ _relay_client r' = _relay_client r /\ gets_only r r'.
#[local] Instance inactive_pre : PreOrder inactive.
Proof.
  split.
  - intros r He Hl. split_and!; try done. exists []. by rewrite app_nil_r.
  - intros a b c Hab Hbc He Hl. destruct (Hab He Hl) as (He' & Hl' & Hr & l & E & Hg).
    destruct (Hbc He' Hl') as (He'' & Hl'' & Hr' & l' & E' & Hg'). split_and!; [done|done|congruence|].
    exists (l ++ l'). rewrite E', E, app_assoc. split; [done|by apply Forall_app].
Qed.
Lemma inactive_keeps r r' :
  enrolled (daemon_state r') = enrolled (daemon_state r) -> _last_config r' = _last_config r ->
  _relay_client r' = _relay_client r -> _api r' = _api r -> inactive r r'.
Proof.
  intros He Hl Hr Ha He' Hl'. split_and!; try congruence. exists []. by rewrite Ha, app_nil_r.
Qed.
#[local] Instance inactive_wg {A} (m : M host A) : Frame inactive (zoom _wg m).
Proof. intros r. by apply inactive_keeps. Qed.
#[local] Instance inactive_state {A} (m : M StateStore A) : Frame inactive (zoom _state m).
Proof. intros r. by apply inactive_keeps. Qed.
#[local] Instance inactive_pull : Frame inactive (zoom _api (pull_config_v2 server repr)).
Proof.
  intros r He Hl. split_and!; try done. unfold gets_only, zoom. cbn [snd].
  change (_api (r <| _api := ?v |>)) with v. unfold pull_config_v2. unfold mbind at 1, M_bind at 1, get.
  destruct (_ || _).
  - exists []. by rewrite app_nil_r.
  - rewrite sends_one by (intros; apply _). eexists [_]. split; [reflexivity|by repeat constructor].
Qed.
#[local] Instance inactive_modify (f : Reconciler -> Reconciler) :
  (forall r, enrolled (daemon_state (f r)) = enrolled (daemon_state r) /\ _last_config (f r) = _last_config r /\
     _relay_client (f r) = _relay_client r /\ _api (f r) = _api r) -> Frame inactive (modify f).
Proof. intros H. apply frame_modify. intros r. destruct (H r) as (? & ? & ? & ?). by apply inactive_keeps. Qed.
#[local] Hint Extern 0 (Frame inactive (modify _)) => apply inactive_modify; done : typeclass_instances.
#[local] Instance inactive_fetched : Frame inactive fetched_now.
Proof. unfold fetched_now, on_daemon. apply _. Qed.
#[local] Instance inactive_cached key : Frame inactive (cached key).
Proof. unfold cached. apply _. Qed.
#[local] Instance inactive_apply config : Frame inactive (_apply_config config).
Proof. unfold _apply_config, on_daemon. apply _. Qed.
#[local] Typeclasses Opaque fetched_now cached _apply_config.
#[local] Instance inactive_apply_v2 result j s k : Frame inactive (apply_v2 result j s k).
Proof.
  unfold apply_v2, on_daemon, update_targets. destruct (_parse_config_v2 j k); [|apply _].
  repeat (apply frame_bind; [apply _|apply _|intros]). apply frame_option; apply _.
Qed.
#[local] Instance inactive_v2 : Frame inactive _reconcile_v2.
Proof. unfold _reconcile_v2. apply _. Qed.
#[local] Instance inactive_once : Frame inactive reconcile_once.
Proof.
  intros r He Hl. unfold reconcile_once, mbind, M_bind, gets. rewrite He. exact (inactive_v2 r He Hl).
Qed.
#[local] Typeclasses Opaque reconcile_once.
#[local] Instance inactive_turn t : Frame inactive (loop_turn t).
Proof. unfold loop_turn, on_daemon. apply _. Qed.
Lemma resolve_none pk r : _last_config r = JNull -> _resolve_peer_device_id pk r = (Ok JNull, r).
Proof. intros Hl. unfold _resolve_peer_device_id, mbind, M_bind, gets. by rewrite Hl. Qed.
Lemma activation_idle p r : _last_config r = JNull -> (_activate_relay_for_peer p r).2 = r.
Proof.
  intros Hl. unfold _activate_relay_for_peer, gets. unfold mbind at 1, M_bind at 1.
  unfold mbind at 1, M_bind at 1. cbn beta iota. destruct (_relay_client r); [|done].
  destruct (negb (json_truthy (ApiClient._device_id (_api r)))); [done|]. unfold try_except.
  destruct (negb (json_truthy (relay_candidates p))); [done|].
  rewrite (bind_ok _ _ _ _ _ (resolve_none (public_key p) r Hl)). done.
Qed.
#[local] Instance inactive_task : Frame inactive run_task.
Proof.
  intros r He Hl. unfold run_task, mbind, M_bind, gets. cbn beta iota.
  destruct (tasks r) as [|p rest]; [by apply inactive_pre|]. unfold modify. cbn beta iota.
  rewrite activation_idle by exact Hl. by apply inactive_keeps.
Qed.
Lemma inactive_run steps : Frame inactive (for_each steps (fun s => try_except (run_step s) (fun _ => mret tt))).
Proof.
  apply frame_for_each; [apply _|]. intros s. apply frame_try; [apply _| |apply _].
  destruct s; cbn [run_step]; [apply _|apply _|]. unfold trigger. apply _.
Qed.

(** ** A daemon whose API client has no identity *)
Definition unidentified (o : obj) (r : Reconciler) : Prop :=
  enrolled (daemon_state r) = false /\ _cache (_state r) = JObj o /\ obj_get "last_config" o = None /\
  json_truthy (ApiClient._device_id (_api r)) = false.
Lemma unidentified_turn at_ o r :
  unidentified o r ->
  exists r', loop_turn at_ r = (Ok tt, r') /\ unidentified o r' /\ _wg r' = _wg r /\ _api r' = _api r.
Proof.
  intros (He & Hc & Hl & Hid). unfold loop_turn. unfold mbind at 1, M_bind at 1, gets.
  destruct (r_running r); cbn [when]; [|by exists r].
  unfold mbind at 1, M_bind at 1, modify. set (r1 := r <| now := at_ |>).
  assert (reconcile_once r1 = (Ok tt, r1)) as E.
  { unfold reconcile_once. unfold mbind at 1, M_bind at 1, gets. change (enrolled (daemon_state r1)) with (enrolled (daemon_state r)).
    rewrite He. unfold _reconcile_v1.
    assert (zoom _api (pull_config server repr) r1 = (Ok (pull_failed "not registered"), r1)) as E.
    { unfold zoom. change (_api r1) with (_api r). unfold pull_config, mbind, M_bind, get. rewrite Hid. cbn.
      subst r1. by destruct r. }
    rewrite (bind_ok _ _ _ _ _ E). unfold mbind at 1, M_bind at 1, gets. cbn [cp_success pull_failed negb].
    rewrite (bind_ok _ _ _ _ _ (cached_run "last_config" r1 o Hc)). by rewrite Hl. }
  unfold mbind, M_bind, try_except. rewrite E. eexists. split; [reflexivity|]. done.
Qed.
Lemma unidentified_turns times o r :
  unidentified o r -> _wg (_run_loop times r).2 = _wg r /\ _api (_run_loop times r).2 = _api r.
Proof.
  revert r. induction times as [|t times IH]; intros r Hr; [done|].
  destruct (unidentified_turn t o r Hr) as (r' & E & Hr' & Hw & Ha). unfold _run_loop in *. cbn [for_each].
  unfold mbind, M_bind in *. rewrite E, <-Hw, <-Ha. by apply IH.
Qed.
End Reconcile.

(** * Properties *)

(** C2. What one pass of the loop does with a new configuration of the server,
    when the programs of the host can be started: the daemon asks for it with
    its credentials, issues the commands that bring the interface up and set its
    address, key and peers to those the server named, and remembers the
    configuration's hash.  Whether a command succeeds is not asked: the same
    ones are issued and the hash is remembered when they fail
    ([interface_never_created]). *)
Theorem reconcile_applies_config answer server flush created_mode set_order repr i t base k o r cfg :
  (forall h, exists p, answer h = Ok p) ->
  ready created_mode i t base k o r -> truthy i = true -> truthy t = true -> truthy k = true ->
  truthy (cv_hash cfg) = true -> serves_config server base i cfg -> known_hash cfg o = false ->
  exists r', reconcile_once answer server flush created_mode set_order repr r = (Ok tt, r') /\
    _wg r' = applied answer set_order repr (r_interface_name r) (wanted_config k cfg) (_wg r) /\
    requests (_api r') = requests (_api r) ++ [config_request repr i (_api r)] /\
    _cache (_state r') = JObj (remembered cfg o) /\
    reconfigure_count (daemon_state r') = reconfigure_count (daemon_state r) + 1 /\
    last_config_hash (daemon_state r') = JStr (cv_hash cfg).
Proof.
  intros starts Hr Hi Ht Hk Hh Hs Hnew. eexists. split.
  - eapply (reconcile_new answer server flush created_mode set_order repr i t base k o r cfg); try done.
    apply (apply_config_ok answer set_order repr (wanted_config k cfg)); [exact starts|exact Hk|apply desired_info_typed].
  - by split_and!.
Qed.

(** The hash that is remembered outlives the interface: after a restart of the
    machine the daemon finds the configuration unchanged and runs no command,
    however often it reconciles, so that the interface is never set up. *)
Theorem reboot_not_configured answer server flush created_mode set_order repr i t base k o r cfg e ident api relay d times :
  (forall text, foldr String.append "" (flush text) = text) -> (forall h, exists p, answer h = Ok p) ->
  ready created_mode i t base k o r -> truthy i = true -> truthy t = true -> truthy k = true ->
  truthy (cv_hash cfg) = true -> serves_config server base i cfg -> known_hash cfg o = false ->
  plain (JObj (remembered cfg o)) = true ->
  read_json (fs_of created_mode (disk (_state r))) (_identity_file (_state r)) = Ok (JObj ident) ->
  read_json (fs_of created_mode (disk (_state r))) (_enrollment_file (_state r)) = Ok (JObj e) ->
  enrolled d = true -> enrolled_as i t base api ->
  exists r', reconcile_once answer server flush created_mode set_order repr r = (Ok tt, r') /\
    _wg r' = applied answer set_order repr (r_interface_name r) (wanted_config k cfg) (_wg r) /\
    let store := (load created_mode (new_store (_state_dir (_state r')) (disk (_state r')))).2 in
    let restarted := (new_reconciler (r_interface_name r) api [] store relay d) <| r_running := true |> in
    _wg (_run_loop answer server flush created_mode set_order repr times restarted).2 = [].
Proof.
  intros Hflush starts Hr Hi Ht Hk Hh Hs Hnew Hp Hident Hen Hd Hapi. eexists. split; [|split].
  - eapply (reconcile_new answer server flush created_mode set_order repr i t base k o r cfg); try done.
    apply (apply_config_ok answer set_order repr (wanted_config k cfg)); [exact starts|exact Hk|apply desired_info_typed].
  - done.
  - cbv zeta. match goal with |- context [load created_mode (new_store ?dir ?disk)] =>
      change (load created_mode (new_store dir disk)) with
        (load created_mode (new_store (_state_dir (_state r)) (StateStore.disk (store_after flush cfg o (_state r))))) end.
    rewrite (load_after flush created_mode Hflush cfg o (_state r) e ident Hp Hident Hen).
    match goal with |- _wg (_run_loop _ _ _ _ _ _ _ ?x).2 = _ => set (r0 := x) end.
    destruct (turns_known answer server flush created_mode set_order repr i t base k (remembered cfg o) r0 cfg times) as [-> _];
      try done; [|apply known_remembered].
    split_and!; [exact Hd|exact Hapi| |done|done]. apply (key_after flush created_mode k cfg o (_state r)). by destruct Hr as (_ & _ & ? & _).
Qed.

(** A configuration that could not be applied, because no program starts, is
    remembered like one that was: it is never tried again, although the
    programs work later. *)
Theorem failed_apply_never_retried answer answer' server flush created_mode set_order repr i t base k o r cfg times :
  (forall h, exists e, answer h = Raise e) ->
  ready created_mode i t base k o r -> truthy i = true -> truthy t = true -> truthy k = true ->
  truthy (cv_hash cfg) = true -> serves_config server base i cfg -> known_hash cfg o = false -> r_running r = true ->
  exists r', reconcile_once answer server flush created_mode set_order repr r = (Ok tt, r') /\
    reconfigure_count (daemon_state r') = reconfigure_count (daemon_state r) /\
    error_count (daemon_state r') = error_count (daemon_state r) /\
    _wg (_run_loop answer' server flush created_mode set_order repr times r').2 = _wg r'.
Proof.
  intros Hno Hr Hi Ht Hk Hh Hs Hnew Hrun. set (r1 := r <| _api := sent (config_request repr i (_api r)) (_api r) |>).
  destruct (apply_config_nothing answer set_order repr (wanted_config k cfg) r1 Hno) as [h Ha].
  eexists. split; [|split; [|split]].
  - eapply (reconcile_new answer server flush created_mode set_order repr i t base k o r cfg h (daemon_state r)); try done.
  - done.
  - done.
  - match goal with |- _wg (_run_loop _ _ _ _ _ _ _ ?x).2 = _ => set (r2 := x) end.
    destruct (turns_known answer' server flush created_mode set_order repr i t base k (remembered cfg o) r2 cfg times) as [-> _];
      try done; [|apply known_remembered].
    destruct Hr as (He & Hapi & Hkey & Ho & Hpr). split_and!; [exact He|exact Hapi| |done|exact Hpr].
    by apply (key_after flush created_mode k cfg o (_state r)).
Qed.

(** In no run of an enrolled daemon does the reconciler open a relay session,
    or ask for one: the device of a peer is looked up only when an INI
    configuration was read, and an enrolled daemon reads none. *)
Theorem relay_never_activated answer server flush created_mode set_order repr steps r :
  enrolled (daemon_state r) = true -> _last_config r = JNull ->
  let r' := (for_each steps (fun s =>
    try_except (run_step answer server flush created_mode set_order repr s) (fun _ => mret tt)) r).2 in
  _relay_client r' = _relay_client r /\
  exists l, requests (_api r') = requests (_api r) ++ l /\ Forall (fun q => rq_method q = GET) l.
Proof.
  intros He Hl. by destruct (inactive_run answer server flush created_mode set_order repr steps r He Hl) as (_ & _ & ? & ?).
Qed.

(** * Witnesses *)
Definition some_config : DeviceConfigV2Response :=
  config_at 0 (mkInterface "10.0.0.2/24" None)
    [mkPeerInfo "cGVlcg==" ["10.0.0.3/32"] (Some "192.0.2.1") (Some 51820) (Some 25) [] false None false] [] None.
Definition some_server : list request -> outcome response := fun h =>
  match last h with
  | Some q => if String.eqb (rq_url q) (config_url "http://m" "d-1")
              then Ok (mkResponse 200 (dumps (response_json some_config))) else Ok (mkResponse 401 "{}")
  | None => Raise (RequestError "")
  end.
Lemma some_server_serves : serves_config some_server "http://m" "d-1" some_config.
Proof.
  exists (dumps (response_json some_config)). split; [|vm_compute; reflexivity].
  intros h q Hq. unfold some_server. by rewrite last_snoc, Hq, String.eqb_refl.
Qed.
Definition some_store : StateStore :=
  new_store "/var/lib/midscaled" (write_ops two_pieces (key_file "/var/lib/midscaled") ("K" +:+ NL)).
Definition some_daemon : Reconciler :=
  new_reconciler "wg0" (mkApi "http://m" (JStr "d-1") (JStr "t-1") []) [] some_store None
    (new_daemon_state <| enrolled := true |>) <| r_running := true |>.
Lemma some_ready : ready 420 "d-1" "t-1" "http://m" "K" [] some_daemon.
Proof.
  split_and!; try done. exists (mkFile ("K" +:+ NL) 420), ("K" +:+ NL). split_and!; vm_compute; reflexivity.
Qed.

Lemma reconcile_applies_config_witness :
  exists r', reconcile_once a_host some_server two_pieces 420 id no_repr some_daemon = (Ok tt, r') /\
    _wg r' = applied a_host id no_repr "wg0" (wanted_config "K" some_config) [].
Proof.
  destruct (reconcile_applies_config a_host some_server two_pieces 420 id no_repr "d-1" "t-1" "http://m" "K" []
    some_daemon some_config a_host_starts some_ready) as (r' & H1 & H2 & _);
    [reflexivity|reflexivity|reflexivity|vm_compute; reflexivity|apply some_server_serves|vm_compute; reflexivity|].
  exists r'. split; [exact H1|exact H2].
Defined.
Lemma reboot_not_configured_witness :
  exists r', reconcile_once a_host some_server two_pieces 420 id no_repr some_daemon = (Ok tt, r') /\
    _wg (_run_loop a_host some_server two_pieces 420 id no_repr [30; 60]
      (new_reconciler "wg0" (_api some_daemon) []
         (load 420 (new_store (_state_dir (_state r')) (disk (_state r')))).2 None (daemon_state some_daemon)
         <| r_running := true |>)).2 = [].
Proof.
  destruct (reboot_not_configured a_host some_server two_pieces 420 id no_repr "d-1" "t-1" "http://m" "K" []
    some_daemon some_config [] [] (_api some_daemon) None (daemon_state some_daemon) [30; 60] two_pieces_text a_host_starts some_ready)
    as (r' & H1 & _ & H2);
    [reflexivity|reflexivity|reflexivity|vm_compute; reflexivity|apply some_server_serves
    |vm_compute; reflexivity|vm_compute; reflexivity|vm_compute; reflexivity|vm_compute; reflexivity|reflexivity|by split_and!|].
  exists r'. split; [exact H1|exact H2].
Defined.
Definition nothing_starts : host -> outcome process := fun _ => Raise OSError.
Lemma failed_apply_never_retried_witness :
  exists r', reconcile_once nothing_starts some_server two_pieces 420 id no_repr some_daemon = (Ok tt, r') /\
    _wg (_run_loop a_host some_server two_pieces 420 id no_repr [30; 60] r').2 = _wg r'.
Proof.
  destruct (failed_apply_never_retried nothing_starts a_host some_server two_pieces 420 id no_repr "d-1" "t-1" "http://m" "K" []
    some_daemon some_config [30; 60]) as (r' & H1 & _ & _ & H2);
    [by eexists|exact some_ready|reflexivity|reflexivity|reflexivity|vm_compute; reflexivity|apply some_server_serves
    |vm_compute; reflexivity|reflexivity|].
  exists r'. split; [exact H1|exact H2].
Defined.
Definition some_task : DesiredPeer :=
  mkDesiredPeer (JStr "cGVlcg==") (JArr []) JNull JNull JNull (JBool true) (JArr [JObj []]).
Definition relaying : Reconciler :=
  some_daemon <| _relay_client := Some demo_client |> <| tasks := [some_task] |>.
Lemma relay_never_activated_witness :
  _relay_client (for_each [Turn 30; RunTask] (fun s =>
    try_except (run_step a_host some_server two_pieces 420 id no_repr s) (fun _ => mret tt)) relaying).2 = Some demo_client.
Proof.
  destruct (relay_never_activated a_host some_server two_pieces 420 id no_repr [Turn 30; RunTask] relaying) as [H _];
    [reflexivity|reflexivity|exact H].
Defined.
