(* ===== verification/EndpointMonitor.v ===== *)
(** How the daemon finds and reports its own address:
    [midscaled/daemon/endpoint_monitor.py], and the queries of
    [midscaled/daemon/stun_client.py].

    What the network delivers to a query is an argument, and so is the address
    the UDP socket trick of [_get_local_ip] finds.  The round-trip time of a
    query is only logged and is left out. *)
From Stdlib Require Import Ascii.
From S2P Require Import Prelude PyStr Bytes Json JsonText PyJson IPv4 Models Effects Scoring DaemonSvc Topology ConfigV2 WgRuntime ConfigReader Stun ApiClient DaemonModels.
Local Open Scope string_scope.
Local Open Scope list_scope.
Local Open Scope Z_scope.

(** * STUN queries *)
Record StunResult := mkStunResult { public_ip : string; public_port : Z; server_str : string }.
(** What happens to the socket of a query before its time is over. *)
Inductive stun_event := Datagram (data : bytes) (addr : string * Z) | ErrorReceived | ConnectionLost.
(** [_StunClientProtocol]: [done] is the future, set at most once.  An
    exception of the parser is left to the event loop. *)
Definition datagram_received (tid data : bytes) (addr : string * Z) (done : option (option StunResult)) :
    option (option StunResult) :=
  match done with
  | Some _ => done
  | None =>
    match _parse_binding_response data tid with
    | Ok (Some (ip, port)) => Some (Some (mkStunResult ip port (addr.1 +:+ ":" +:+ str_int addr.2)))
    | Ok None => Some None
    | Raise _ => None
    end
  end.
Definition protocol_event (tid : bytes) (done : option (option StunResult)) (e : stun_event) : option (option StunResult) :=
  match e with
  | Datagram data addr => datagram_received tid data addr done
  | ErrorReceived | ConnectionLost => match done with Some _ => done | None => Some None end
  end.
(** A query that cannot resolve its server or open its socket, or that waits
    for its future until a timeout. *)
Inductive attempt := Unresolved | Failed | Sent (events : list stun_event).
Definition query_stun_server (tid : bytes) (a : attempt) : option StunResult :=
  match a with
  | Unresolved | Failed => None
  | Sent events => default None (foldl (protocol_event tid) None events)
  end.
(** [net] says what the query of the server at a place of the list meets; every
    query has its own transaction id. *)
Section Queries.
Context (net : nat -> attempt) (tids : nat -> bytes).
Fixpoint query_from (n : nat) (servers : list (string * Z)) : option StunResult :=
  match servers with
  | [] => None
  | _ :: rest =>
    match query_stun_server (tids n) (net n) with
    | Some r => Some r
    | None => query_from (S n) rest
    end
  end.
Definition query_stun_servers (servers : list (string * Z)) : option StunResult := query_from 0 servers.
End Queries.

(** * [urlparse(url).hostname] *)
Definition scheme_char (c : ascii) : bool :=
  let n := nat_of_ascii c in
  is_digit c || ((65 <=? n)%nat && (n <=? 90)%nat) || ((97 <=? n)%nat && (n <=? 122)%nat)
  || Ascii.eqb c "+" || Ascii.eqb c "-" || Ascii.eqb c ".".
Definition letter (c : ascii) : bool :=
  let n := nat_of_ascii c in ((65 <=? n)%nat && (n <=? 90)%nat) || ((97 <=? n)%nat && (n <=? 122)%nat).
(** [s.partition(c)] without the separator. *)
Fixpoint partition (c : ascii) (s : string) : string * option string :=
  match s with
  | EmptyString => ("", None)
  | String a t => if Ascii.eqb a c then ("", Some t) else let '(h, r) := partition c t in (String a h, r)
  end.
Fixpoint lstrip_control (s : string) : string :=
  match s with String c t => if (nat_of_ascii c <=? 32)%nat then lstrip_control t else s | EmptyString => "" end.
Fixpoint without_breaks (s : string) : string :=
  match s with
  | EmptyString => ""
  | String c t =>
    let n := nat_of_ascii c in
    if (n =? 9)%nat || (n =? 10)%nat || (n =? 13)%nat then without_breaks t else String c (without_breaks t)
  end.
Definition without_scheme (url : string) : string :=
  match partition ":" url with
  | (String a _ as scheme, Some rest) => if letter a && str_forall scheme_char scheme then rest else url
  | _ => url
  end.
Fixpoint netloc_of (s : string) : string :=
  match s with
  | EmptyString => ""
  | String c t => if Ascii.eqb c "/" || Ascii.eqb c "?" || Ascii.eqb c "#" then "" else String c (netloc_of t)
  end.
(** Only that brackets come in pairs is checked of what they hold. *)
Definition hostname (url : string) : outcome (option string) :=
  let url := without_scheme (without_breaks (lstrip_control url)) in
  let netloc := if startswith "//" url then netloc_of (drop_str 2 url) else "" in
  if negb (Bool.eqb (contains_char "[" netloc) (contains_char "]" netloc)) then Raise (ValueError "Invalid IPv6 URL") else
  let hostinfo := match rsplit1 "@" netloc with Some (_, h) => h | None => netloc end in
  let host := match partition "[" hostinfo with
              | (_, Some bracketed) => (partition "]" bracketed).1
              | (_, None) => (partition ":" hostinfo).1
              end in
  if negb (truthy host) then Ok None else
  Ok (Some (match partition "%" host with (h, Some zone) => lower h +:+ "%" +:+ zone | (h, None) => lower h end)).

(** * [EndpointMonitor] *)
Record EndpointMonitor := mkMonitor {
  stun_enabled : bool;
  wg_port : Z;
  _stun_servers : list (string * Z);
  em_api : MidscaleAPIClient;
  em_state : DaemonState
}.
#[export] Instance set_em_api : SetField em_api := fun v r =>
  mkMonitor (stun_enabled r) (wg_port r) (_stun_servers r) v (em_state r).
#[export] Instance set_em_state : SetField em_state := fun v r =>
  mkMonitor (stun_enabled r) (wg_port r) (_stun_servers r) (em_api r) v.

Definition parse_server (entry : string) : option (string * Z) :=
  let entry := strip entry in
  if negb (truthy entry) then None else
  match rsplit1 ":" entry with
  | Some (host, port_str) => Some (host, match int_of_str port_str with Ok p => p | Raise _ => 3478 end)
  | None => Some (entry, 3478)
  end.
Definition _parse_stun_servers (entries : list string) (server_url : string) : outcome (list (string * Z)) :=
  match omap parse_server entries with
  | [] => host ← hostname server_url; Ok [(match host with Some h => h | None => "localhost" end, 3478)]
  | servers => Ok servers
  end.

(** What a turn of the loop can see: the local address, at both looks, and the
    network of the queries. *)
Record surroundings := mkSurroundings {
  local_ip : option string; local_ip_again : option string; net : nat -> attempt; tids : nat -> bytes; at_ : Z }.
Definition endpoint_text (ip : string) (m : EndpointMonitor) : string := ip +:+ ":" +:+ str_int (wg_port m).
Definition _detect_endpoint_stun (w : surroundings) (m : EndpointMonitor) : option (string * string * string) :=
  if negb (stun_enabled m) || match _stun_servers m with [] => true | _ => false end then None else
  match query_stun_servers (net w) (tids w) (_stun_servers m) with
  | Some r => Some (endpoint_text (public_ip r) m, public_ip r,
                    if opt_truthy (local_ip w) then default "" (local_ip w) else public_ip r)
  | None => None
  end.
Definition _detect_endpoint_local (w : surroundings) (m : EndpointMonitor) : option (string * string * string) :=
  if opt_truthy (local_ip_again w)
  then let ip := default "" (local_ip_again w) in Some (endpoint_text ip m, ip, ip) else None.
Definition _detect_endpoint (w : surroundings) (m : EndpointMonitor) : option (string * string * string * string) :=
  match _detect_endpoint_stun w m with
  | Some (ep, pub, loc) => Some (ep, "stun", pub, loc)
  | None =>
    match _detect_endpoint_local w m with
    | Some (ep, pub, loc) => Some (ep, "local", pub, loc)
    | None => None
    end
  end.

Section Monitor.
Context (server : list request -> outcome response) (repr : json -> string).
(** One turn of [_run_loop]. *)
Definition monitor_turn (w : surroundings) : M EndpointMonitor unit :=
  try_except (
    detected ← gets (_detect_endpoint w);
    match detected with
    | None => mret tt
    | Some (endpoint, source, pub, loc) =>
      d ← gets em_state;
      when (negb (bool_decide (current_endpoint d = Some endpoint))) (
        port ← gets wg_port;
        result ← zoom em_api (report_endpoint server repr endpoint source port (Some loc) (Some pub));
        when (rp_success result) (modify (fun m => m <| em_state :=
          em_state m <| current_endpoint := Some endpoint |> <| last_endpoint_report := Some (at_ w) |> |>)))
    end)
  (fun _ => mret tt).
Definition _run_loop (ws : list surroundings) : M EndpointMonitor unit := for_each ws monitor_turn.

(** * Facts *)
(** What a report asks the server to store. *)
Definition report_body (m : EndpointMonitor) (d : string * string * string * string) : json :=
  let '(endpoint, source, pub, loc) := d in
  JObj [("endpoint", JStr endpoint); ("source", JStr source); ("port", JInt (wg_port m));
        ("local_ip", JStr loc); ("public_ip", JStr pub)].
Definition report_of (m : EndpointMonitor) (d : string * string * string * string) : request :=
  request_of repr (em_api m) POST (device_path repr (em_api m) "/endpoint") (Some (report_body m d)) true.
(** The findings of a run that differ from the one before them. *)
Fixpoint changes (current : option string) (ds : list (string * string * string * string)) :
    list (string * string * string * string) :=
  match ds with
  | [] => []
  | d :: rest =>
    if bool_decide (current = Some d.1.1.1) then changes current rest else d :: changes (Some d.1.1.1) rest
  end.
Definition accepting : Prop := forall h, exists text, server h = Ok (mkResponse 200 text).
Lemma report_accepted m endpoint source pub loc :
  accepting -> json_truthy (ApiClient._device_id (em_api m)) = true ->
  report_endpoint server repr endpoint source (wg_port m) (Some loc) (Some pub) (em_api m) =
  (Ok (mkReportResult true None), sent (report_of m (endpoint, source, pub, loc)) (em_api m)).
Proof.
  intros Hacc Hid. unfold report_endpoint. unfold mbind at 1, M_bind at 1, get. rewrite Hid. cbn [negb].
  unfold report, on_request_error, try_except. unfold mbind at 1, M_bind at 1. rewrite send_run.
  change (request_of repr (em_api m) POST (device_path repr (em_api m) "/endpoint") _ true) with
    (report_of m (endpoint, source, pub, loc)).
  destruct (Hacc (requests (em_api m) ++ [report_of m (endpoint, source, pub, loc)])) as [text ->]. reflexivity.
Qed.
Lemma monitor_turn_run w m :
  accepting -> json_truthy (ApiClient._device_id (em_api m)) = true ->
  exists m', monitor_turn w m = (Ok tt, m') /\
    stun_enabled m' = stun_enabled m /\ wg_port m' = wg_port m /\ _stun_servers m' = _stun_servers m /\
    ApiClient._device_id (em_api m') = ApiClient._device_id (em_api m) /\
    _device_token (em_api m') = _device_token (em_api m) /\ _base_url (em_api m') = _base_url (em_api m) /\
    match _detect_endpoint w m with
    | Some d =>
      if bool_decide (current_endpoint (em_state m) = Some d.1.1.1) then m' = m
      else requests (em_api m') = requests (em_api m) ++ [report_of m d] /\
           current_endpoint (em_state m') = Some d.1.1.1
    | None => m' = m
    end.
Proof.
  intros Hacc Hid. unfold monitor_turn, try_except. unfold mbind at 1, M_bind at 1, gets.
  destruct (_detect_endpoint w m) as [[[[endpoint source] pub] loc]|]; [|by eexists].
  unfold mbind at 1, M_bind at 1. cbn [fst snd]. destruct (bool_decide _); cbn [negb when]; [by eexists|].
  pose proof (report_accepted m endpoint source pub loc Hacc Hid) as E.
  unfold mbind, M_bind, zoom. rewrite E. cbn. eexists. split; [reflexivity|]. by split_and!.
Qed.
Lemma detect_config w m m' :
  stun_enabled m' = stun_enabled m -> wg_port m' = wg_port m -> _stun_servers m' = _stun_servers m ->
  _detect_endpoint w m' = _detect_endpoint w m.
Proof.
  intros H1 H2 H3. unfold _detect_endpoint, _detect_endpoint_stun, _detect_endpoint_local, endpoint_text.
  by rewrite H1, H2, H3.
Qed.
End Monitor.

Example hostname_ex : hostname "https://user@Hub.Example.com:8443/x" = Ok (Some "hub.example.com").
Proof. vm_compute. reflexivity. Qed.
Example hostname_v6 : hostname "http://[FD00::1]:80" = Ok (Some "fd00::1").
Proof. vm_compute. reflexivity. Qed.
Example hostname_none : hostname "localhost:8000" = Ok None.
Proof. vm_compute. reflexivity. Qed.
Example stun_servers_ex : _parse_stun_servers ["stun.l.example:19302"; " a "; "b:x"] "" =
  Ok [("stun.l.example", 19302); ("a", 3478); ("b", 3478)].
Proof. vm_compute. reflexivity. Qed.

(** * Properties *)

(** C33. Against a server that accepts its reports the monitor reports every change
    of the detected endpoint, once, in order, and nothing else. *)
Theorem monitor_reports_changes server repr ws m :
  accepting server -> json_truthy (ApiClient._device_id (em_api m)) = true ->
  exists m', _run_loop server repr ws m = (Ok tt, m') /\
    requests (em_api m') = requests (em_api m) ++
      (report_of repr m <$> changes (current_endpoint (em_state m)) (omap (fun w => _detect_endpoint w m) ws)).
Proof.
  intros Hacc. revert m. induction ws as [|w ws IH]; intros m Hid; [exists m; by rewrite app_nil_r|].
  destruct (monitor_turn_run server repr w m Hacc Hid) as (m1 & E & Hen & Hport & Hsrv & Hid1 & Htok & Hb & Hd).
  rewrite <-Hid1 in Hid. destruct (IH m1 Hid) as (m' & E' & Hreq). exists m'. split.
  { unfold _run_loop in *. cbn [for_each]. unfold mbind, M_bind in *. by rewrite E. }
  assert (forall d, report_of repr m1 d = report_of repr m d) as Hrep.
  { intros [[[a b] c] e]. unfold report_of, request_of, device_path, report_body, _auth_headers. by rewrite Hid1, Htok, Hb, Hport. }
  assert (forall l, report_of repr m1 <$> l = report_of repr m <$> l) as Hmap by (intros l; apply list_fmap_ext; auto).
  assert (omap (fun w => _detect_endpoint w m1) ws = omap (fun w => _detect_endpoint w m) ws) as Hdet.
  { clear -Hen Hport Hsrv. induction ws as [|x ws IH]; [done|]. cbn. by rewrite (detect_config x m m1), IH. }
  rewrite Hreq, Hmap, Hdet. clear Hreq Hmap Hdet. cbn [omap list_omap].
  destruct (_detect_endpoint w m) as [d|]; [|by rewrite Hd]. cbn [changes].
  case_bool_decide; [by rewrite Hd|]. destruct Hd as [-> ->]. cbn [fmap list_fmap]. by rewrite <-app_assoc.
Qed.

(** The endpoint the monitor reports holds a port already, and the server keeps
    it so: a peer configured with that row is given to [wg] with the port
    twice. *)
Theorem endpoint_port_doubled `{Env} repr m ip source pub loc d priority w interface p :
  keyed (R := Device.Device) w -> d ∈ devices (w_db w) -> truthy ip = true -> 0 < wg_port m ->
  exists answer w' e,
    DaemonSvc.report_endpoint (Device.id d) (endpoint_text ip m) source (wg_port m) loc pub priority w = (Ok answer, w') /\
    endpoints (w_db w') = endpoints (w_db w) ++ [e] /\
    (pi_endpoint p = Some (DeviceEndpoint.endpoint e) -> pi_endpoint_port p = Some (DeviceEndpoint.port e) ->
     exists before after, peer_args repr interface (desired_info p) =
       Ok (before ++ ["endpoint"; ip +:+ ":" +:+ str_int (wg_port m) +:+ ":" +:+ str_int (wg_port m)] ++ after)).
Proof.
  intros Hk Hd Hip Hport.
  destruct (report_row d (endpoint_text ip m) source (wg_port m) loc pub priority w Hk Hd)
    as (answer & w' & e & Hrun & Hdb & _ & He & Hp).
  exists answer, w', e. split_and!; [done|by rewrite Hdb|]. rewrite He, Hp. intros Hep Hpp.
  unfold peer_args, desired_info. cbn [WgRuntime.allowed_ips WgRuntime.endpoint WgRuntime.endpoint_port
    WgRuntime.persistent_keepalive WgRuntime.public_key]. rewrite Hep, Hpp. cbn [jstr_opt jint_opt].
  destruct (text_items_ok (JStr <$> pi_allowed_ips p)) as [ss Hss]; [exact (texts_typed (pi_allowed_ips p))|].
  unfold texts, py_join. rewrite Hss. cbn [fmap outcome_fmap mbind outcome_bind text_item].
  assert (json_truthy (JStr (endpoint_text ip m)) = true) as -> by (cbn; unfold endpoint_text; by destruct ip).
  assert (json_truthy (JInt (wg_port m)) = true) as -> by (cbn; destruct (Z.eqb_spec (wg_port m) 0); [lia|done]).
  exists ["set"; interface; "peer"; pi_public_key p; "allowed-ips"; join "," ss].
  eexists. unfold endpoint_text. cbn [py_str]. rewrite !str_app_assoc. reflexivity.
Qed.

(** Any datagram that is no answer ends a query, from whomever it comes: the
    server's answer behind it is not read. *)
Theorem stray_datagram_ends_query tid data addr events :
  (String.length data < STUN_HEADER_SIZE)%nat ->
  query_stun_server tid (Sent (Datagram data addr :: events)) = None.
Proof.
  intros Hl. cbn [query_stun_server foldl protocol_event datagram_received].
  assert (_parse_binding_response data tid = Ok None) as ->.
  { unfold _parse_binding_response. by rewrite (proj2 (Nat.ltb_lt _ _) Hl). }
  induction events as [|e events IH]; [done|]. cbn [foldl]. by destruct e.
Qed.

(** * Witnesses *)
Definition accepts : list request -> outcome response := fun _ => Ok (mkResponse 200 "{}").
Definition home (ip : string) : surroundings := mkSurroundings (Some ip) (Some ip) (fun _ => Failed) (fun _ => "") 0.
Definition a_monitor : EndpointMonitor :=
  mkMonitor true 51820 [] (mkApi "http://m" (JStr "d-1") (JStr "t") []) new_daemon_state.
Lemma monitor_reports_changes_witness :
  exists m', _run_loop accepts no_text [home "10.0.0.1"; home "10.0.0.1"; home "10.0.0.2"] a_monitor = (Ok tt, m') /\
    rq_json <$> requests (em_api m') = (fun ip => Some (JObj [("endpoint", JStr (ip +:+ ":51820")); ("source", JStr "local");
      ("port", JInt 51820); ("local_ip", JStr ip); ("public_ip", JStr ip)])) <$> ["10.0.0.1"; "10.0.0.2"].
Proof.
  destruct (monitor_reports_changes accepts no_text [home "10.0.0.1"; home "10.0.0.1"; home "10.0.0.2"] a_monitor)
    as (m' & E & Hreq); [by eexists|reflexivity|]. exists m'. split; [exact E|]. rewrite Hreq. vm_compute. reflexivity.
Defined.
Definition a_peer : PeerInfo :=
  mkPeerInfo "cGVlcg==" ["10.0.0.2/32"] (Some "203.0.113.5:51820") (Some 51820) None [] false None false.
Lemma endpoint_port_doubled_witness :
  peer_args no_text "wg0" (desired_info a_peer) =
  Ok ["set"; "wg0"; "peer"; "cGVlcg=="; "allowed-ips"; "10.0.0.2/32"; "endpoint"; "203.0.113.5:51820:51820"].
Proof.
  destruct (endpoint_port_doubled no_text a_monitor "203.0.113.5" "stun" None None svc_device 100 svc_world "wg0" a_peer)
    as (answer & w' & e & Hrun & Hrows & Hargs); [apply svc_keyed|left|reflexivity|reflexivity|].
  vm_compute in Hrun. injection Hrun as <- <-. vm_compute in Hrows. injection Hrows as <-.
  destruct (Hargs eq_refl eq_refl) as (before & after & _). vm_compute. reflexivity.
Defined.
Definition an_answer : bytes := "any answer".
Lemma stray_datagram_ends_query_witness :
  query_stun_server "abcdefghijkl" (Sent [Datagram "x" ("198.51.100.9", 1); Datagram an_answer ("192.0.2.1", 3478)]) = None.
Proof. apply stray_datagram_ends_query. vm_compute. lia. Defined.
