(* ===== verification/DaemonMain.v ===== *)
(** The daemon as a whole: [midscaled/daemon/main.py], the push channel of
    [midscaled/daemon/ws_client.py] and the heartbeat of
    [midscaled/daemon/heartbeat.py].

    Ids and tokens the server answers are text: with another value the
    commands below raise where Python would store it.  Creating the state
    directories is left out. *)
From Stdlib Require Import Ascii.
From S2P Require Import Prelude PyStr Bytes Json JsonText PyJson Paths StateStore RelayClient WgAdapter WgRuntime ConfigReader ApiClient DaemonModels Reconciler.
Local Open Scope string_scope.
Local Open Scope list_scope.
Local Open Scope Z_scope.

Definition text_of (j : json) : outcome string := match j with JStr s => Ok s | _ => Raise TypeError end.
Definition opt_text_of (j : json) : outcome (option string) :=
  match j with JStr s => Ok (Some s) | JNull => Ok None | _ => Raise TypeError end.

(** * The [enroll] command *)
Record EnrollCommand := mkEnrollCommand {
  c_store : StateStore; c_api : MidscaleAPIClient; c_wg : host }.
#[export] Instance set_c_store : SetField c_store := fun v r => mkEnrollCommand v (c_api r) (c_wg r).
#[export] Instance set_c_api : SetField c_api := fun v r => mkEnrollCommand (c_store r) v (c_wg r).
#[export] Instance set_c_wg : SetField c_wg := fun v r => mkEnrollCommand (c_store r) (c_api r) v.

(** * The running daemon: what [run] starts *)
Record DaemonConfig := mkDaemonFlags {
  preauth_key : string;
  device_name : string;
  relay_enabled : bool;
  ws_enabled : bool;
  advertised_routes : list string
}.
Inductive part :=
  | RelayPart (device_id token : json)
  | ReconcilerPart
  | HeartbeatPart
  | EndpointMonitorPart
  | HolePuncherPart
  | RouteAdvertiserPart
  | PushPart (device_id token : json).
Record MidscaledDaemon := mkDaemon {
  _state_store : StateStore; _api_client : MidscaleAPIClient; md_state : DaemonState }.
#[export] Instance set_state_store : SetField _state_store := fun v r => mkDaemon v (_api_client r) (md_state r).
#[export] Instance set_api_client : SetField _api_client := fun v r => mkDaemon (_state_store r) v (md_state r).
#[export] Instance set_md_state : SetField md_state := fun v r => mkDaemon (_state_store r) (_api_client r) v.

Section Daemon.
Context (answer : host -> outcome process) (server : list request -> outcome response).
Context (flush : string -> list string) (created_mode : Z).
Context (set_order : list string -> list string) (repr : json -> string).

Definition _apply_enrolled_config (interface : string) (config_v2 : json) (private_key : string) : M host unit :=
  if negb (json_truthy config_v2) then mret tt else
  match _parse_config_v2 config_v2 private_key with
  | None => mret tt
  | Some parsed =>
    up ← bring_up_interface answer interface (address parsed) (subnet parsed);
    if negb up then mret tt else apply_config answer set_order repr interface parsed;; mret tt
  end.

(** The exit status of [midscaled enroll]. *)
Definition cmd_enroll (preauth name interface : string) (apply : bool) : M EnrollCommand Z :=
  zoom c_store (load created_mode);;
  already ← zoom c_store (has_enrollment created_mode);
  if already : bool then mret 0 else
  try_except (
    '(private_key, public_key) ← zoom c_wg (generate_keypair answer);
    if negb (opt_truthy private_key) || negb (opt_truthy public_key) then mret 1 else
    let private_key := default "" private_key in
    result ← zoom c_api (enroll server repr preauth name (default "" public_key));
    if negb (en_success result) then mret 1 else
    device_id ← lift (text_of (en_device_id result));
    device_token ← lift (text_of (en_device_token result));
    network_id ← lift (opt_text_of (en_network_id result));
    zoom c_store (save_enrollment flush device_id device_token private_key network_id);;
    zoom c_store (save_identity flush device_id);;
    when apply (zoom c_wg (_apply_enrolled_config interface (en_config_v2 result) private_key));;
    mret 0)
  (fun _ => mret 1).

Definition _legacy_register (cfg : DaemonConfig) : M MidscaledDaemon unit :=
  result ← zoom _api_client (register server repr (preauth_key cfg) (device_name cfg));
  if rg_success result && json_truthy (rg_device_id result) then
    modify (fun m => m <| md_state := md_state m <| ds_device_id := rg_device_id result |> <| registered := true |> |>);;
    device_id ← lift (text_of (rg_device_id result));
    zoom _state_store (save_identity flush device_id)
  else mret tt.

(** The parts [run] starts, in order, or [None] when it exits with 1.  Its
    first steps are those of [restore]. *)
Definition run (cfg : DaemonConfig) : M MidscaledDaemon (option (list part)) :=
  found ← zoom _state_store (restore created_mode (preauth_key cfg));
  stored_id ← zoom _state_store get_device_id;
  device_token ← zoom _state_store get_device_token;
  match found with
  | Restored i t =>
    modify (fun m => m <| md_state := md_state m <| ds_device_id := i |> <| registered := true |> <| enrolled := true |> |>);;
    zoom _api_client (set_device_auth i t)
  | LegacyRegister => _legacy_register cfg
  | Incomplete | NoKey => mret tt
  end;;
  d ← gets md_state;
  if negb (registered d) then mret None else
  let token := default JNull device_token in
  let device := match stored_id with Some i => if json_truthy i then i else JStr "" | None => JStr "" end in
  mret (Some (
    (if relay_enabled cfg && json_truthy token then [RelayPart device token] else [])
    ++ [ReconcilerPart; HeartbeatPart; EndpointMonitorPart; HolePuncherPart]
    ++ (match advertised_routes cfg with [] => [] | _ => [RouteAdvertiserPart] end)
    ++ (if ws_enabled cfg && enrolled d && json_truthy token then [PushPart device token] else []))).

(** * Heartbeats: one turn of [HeartbeatSender._run_loop] *)
Definition heartbeat_turn (at_ : Z) : M MidscaledDaemon unit :=
  try_except (
    result ← zoom _api_client (send_heartbeat server repr None None);
    when (rp_success result)
      (modify (fun m => m <| md_state := md_state m <| last_heartbeat := Some at_ |> |>)))
  (fun _ => mret tt).

(** * Facts on the commands *)
Lemma try_total {S A} (m : M S A) (a : A) s : exists b s', try_except m (fun _ => mret a) s = (Ok b, s').
Proof. unfold try_except. destruct (m s) as [[b|e] s']; by eexists _, _. Qed.
Lemma apply_enrolled_total interface j k h : exists h', _apply_enrolled_config interface j k h = (Ok tt, h').
Proof.
  unfold _apply_enrolled_config. destruct (negb (json_truthy j)); [by eexists|].
  destruct (_parse_config_v2 j k) as [parsed|]; [|by eexists]. unfold mbind, M_bind.
  destruct (try_total (S := host) (A := bool) (fun h => bring_up_interface answer interface (address parsed) (subnet parsed) h) false h)
    as (b & h1 & E).
  assert (exists b h1, bring_up_interface answer interface (address parsed) (subnet parsed) h = (Ok b, h1)) as (b' & h1' & ->)
    by apply try_total.
  destruct b'; cbn [negb]; [|by eexists].
  assert (exists b h2, apply_config answer set_order repr interface parsed h1' = (Ok b, h2)) as (b2 & h2 & ->) by apply try_total.
  by eexists.
Qed.
(** A state directory with none of the store's files. *)
Definition fresh (s : StateStore) : Prop :=
  forall p, p ∈ [_identity_file s; _enrollment_file s; _cache_file s; key_file (_state_dir s)] ->
    fs_of created_mode (disk s) !! p = None.
Lemma fresh_read s p :
  fresh s -> p ∈ [_identity_file s; _enrollment_file s; _cache_file s; key_file (_state_dir s)] ->
  read_json (fs_of created_mode (disk s)) p = Ok (JObj []).
Proof. intros Hf Hp. unfold read_json. by rewrite (Hf p Hp). Qed.
Definition loaded (s : StateStore) : StateStore := mkStore (_state_dir s) (JObj []) (JObj []) (JObj []) (disk s).
Lemma fresh_load s : fresh s -> load created_mode s = (Ok tt, loaded s).
Proof.
  intros Hf. unfold load, _read_json, mbind, M_bind, gets, lift, modify.
  rewrite (fresh_read s (_identity_file s) Hf) by set_solver. cbn beta iota.
  set (s1 := s <| _identity := JObj [] |>). change (disk s1) with (disk s). change (_enrollment_file s1) with (_enrollment_file s).
  rewrite (fresh_read s (_enrollment_file s) Hf) by set_solver. cbn beta iota.
  set (s2 := s1 <| _enrollment := JObj [] |>). change (disk s2) with (disk s). change (_cache_file s2) with (_cache_file s).
  rewrite (fresh_read s (_cache_file s) Hf) by set_solver. cbn. by destruct s.
Qed.
End Daemon.

(** * Events pushed to the daemon *)

(** What a handler does: it wakes the reconciler, or starts a task. *)
Inductive reaction :=
  | Reconcile
  | Punch (session_id target_device_id candidates : json)
  | OpenRelay (session_id : json).
Record Handlers := mkHandlers {
  has_reconciler : bool;
  puncher_enabled : bool;
  relay_connected : bool;
  reactions : list reaction
}.
#[export] Instance set_reactions : SetField reactions := fun v r =>
  mkHandlers (has_reconciler r) (puncher_enabled r) (relay_connected r) v.
Definition react (x : reaction) : M Handlers unit := modify (fun h => h <| reactions := reactions h ++ [x] |>).
(** [data.get("data", {}).get(k, default)] *)
Definition event_member (data : json) (k : string) (dflt : json) : outcome json :=
  d ← get_or data "data" (JObj []); get_or d k dflt.

Definition _on_ws_config_changed (data : json) : M Handlers unit :=
  there ← gets has_reconciler;
  when there (_ ← lift (get_or data "reason" (JStr "unknown")); react Reconcile).
Definition _on_nat_punch_requested (data : json) : M Handlers unit :=
  enabled ← gets puncher_enabled;
  if negb enabled then mret tt else
  session_id ← lift (event_member data "session_id" (JStr ""));
  target_device_id ← lift (event_member data "target_device_id" (JStr ""));
  candidates ← lift (event_member data "candidates" (JArr []));
  if negb (json_truthy session_id) || negb (json_truthy target_device_id) then mret tt
  else react (Punch session_id target_device_id candidates).
Definition _on_nat_punch_started (data : json) : M Handlers unit :=
  _ ← lift (event_member data "session_id" (JStr "")); mret tt.
Definition _on_relay_fallback (data : json) : M Handlers unit :=
  connected ← gets relay_connected;
  if negb connected then mret tt else
  relay_session_id ← lift (event_member data "relay_session_id" (JStr ""));
  _ ← lift (event_member data "target_device_id" (JStr ""));
  when (json_truthy relay_session_id) (react (OpenRelay relay_session_id)).
Definition _on_ws_message (data : json) : M Handlers unit :=
  msg_type ← lift (get_or data "type" (JStr ""));
  if py_eq msg_type (JStr "config.changed") then _on_ws_config_changed data
  else if py_eq msg_type (JStr "nat.punch_requested") then _on_nat_punch_requested data
  else if py_eq msg_type (JStr "nat.punch_started") then _on_nat_punch_started data
  else mret tt.
(** [DaemonWebSocketClient._on_message], with all four callbacks given. *)
Definition _on_message (data : json) : M Handlers unit :=
  msg_type ← lift (get_or data "type" (JStr ""));
  if py_eq msg_type (JStr "config.changed") then _on_ws_config_changed data
  else if py_eq msg_type (JStr "nat.punch_requested") then _on_nat_punch_requested data
  else if py_eq msg_type (JStr "nat.punch_started") then _on_nat_punch_started data
  else if py_eq msg_type (JStr "relay.fallback") then _on_relay_fallback data
  else mret tt.

(** [WebSocketClient.listen] over the messages of the connection: any exception
    but a syntax error of JSON ends it, and the socket is forgotten. *)
Definition listen_one (message : string) : M Handlers unit :=
  try_except (data ← lift (loads message); _on_ws_message data)
    (fun e => match e with JSONDecodeError => mret tt | _ => raise e end).
Definition listen (messages : list string) : M Handlers unit :=
  try_except (for_each messages listen_one) (fun _ => mret tt).

(** [DaemonWebSocketClient._run]: the waits it makes and the reconciliations
    its polling triggers.  After an upgrade it polls for ever, [polls] times in
    the run considered. *)
Inductive ws_attempt := Upgraded (polls : nat) | NotUpgraded | WsError.
Definition WS_BASE_DELAY : Z := 1.
Definition WS_MAX_DELAY : Z := 60.
Definition _poll_interval : Z := 15.
Definition poll_event : json := JObj [("type", JStr "config.changed"); ("source", JStr "poll")].
Definition ws_run_state : Type := list Z * Handlers.
Definition ws_sleep (seconds : Z) : M ws_run_state unit := modify (fun s => (s.1 ++ [seconds], s.2)).
Definition ws_handle (m : M Handlers unit) : M ws_run_state unit := fun s => let r := m s.2 in (r.1, (s.1, r.2)).
Definition poll_turn : M ws_run_state unit := ws_sleep _poll_interval;; ws_handle (_on_ws_config_changed poll_event).
Fixpoint ws_attempts (delay : Z) (l : list ws_attempt) : M ws_run_state unit :=
  match l with
  | [] => mret tt
  | Upgraded polls :: _ => for_each (replicate polls tt) (fun _ => poll_turn)
  | (NotUpgraded | WsError) :: rest => ws_sleep delay;; ws_attempts (Z.min (delay * 2) WS_MAX_DELAY) rest
  end.
Definition ws_run (l : list ws_attempt) : M ws_run_state unit := ws_sleep 1;; ws_attempts WS_BASE_DELAY l.

(** * Properties *)

(** C12. Enrolment, end to end: in an empty state directory, when the server
    answers an identity and a token, in ASCII, and the network, as this server
    does, or leaves the network out, a successful [enroll] exits with 0, sends one request, with the public key and not the private
    one, and leaves a directory from which the next start of the daemon
    restores the identity and token the server answered, next to the private
    key, which only its owner can read. *)
Theorem enroll_then_restart answer server flush created_mode set_order repr preauth name interface apply c k pub h r i t net api' preauth_key :
  (forall text, foldr String.append "" (flush text) = text) -> fresh created_mode (c_store c) ->
  generate_keypair answer (c_wg c) = (Ok (Some k, Some pub), h) -> truthy k = true -> truthy pub = true ->
  enroll server repr preauth name pub (c_api c) = (Ok r, api') -> en_success r = true ->
  en_device_id r = JStr i -> en_device_token r = JStr t -> opt_text_of (en_network_id r) = Ok net ->
  ascii_text i = true -> ascii_text t = true -> ascii_text (default "" net) = true -> truthy i = true -> truthy t = true ->
  exists c', cmd_enroll answer server flush created_mode set_order repr preauth name interface apply c = (Ok 0, c') /\
    (exists q, requests (c_api c') = requests (c_api c) ++ [q] /\ rq_json q =
       Some (JObj [("preauth_key", JStr preauth); ("name", JStr name); ("public_key", JStr pub)])) /\
    let dir := _state_dir (c_store c) in
    (restore created_mode preauth_key (new_store dir (disk (c_store c')))).1 = Ok (Restored (JStr i) (JStr t)) /\
    fs_of created_mode (disk (c_store c')) !! key_file dir = Some (mkFile (k +:+ String (ascii_of_nat 10) "") OWNER_ONLY).
Proof.
  intros Hflush Hf Hgen Hk Hpub Hen Hs Hi Ht Hn Hai Hat Han Hti Htt.
  set (s := loaded (c_store c)).
  destruct (restart_restores flush created_mode Hflush s [] [] (JObj []) i t k net preauth_key)
    as (s' & Hstore & Hrest & Hkey); try done.
  { apply (fresh_read created_mode (c_store c) (_cache_file (c_store c)) Hf). set_solver. }
  unfold store_enrollment in Hstore. apply bind_inv_ok in Hstore as ([] & s1 & Hsave & Hid).
  destruct (apply_enrolled_total answer set_order repr interface (en_config_v2 r) k h) as [h' Happly].
  set (c1 := c <| c_store := s |> <| c_wg := h |> <| c_api := api' |> <| c_store := s1 |> <| c_store := s' |>).
  exists (if apply then c1 <| c_wg := h' |> else c1). split; [|split].
  - unfold cmd_enroll. rewrite (bind_ok _ _ _ _ _ (zoom_ok c_store _ c _ _ (fresh_load created_mode (c_store c) Hf))). fold s.
    set (c0 := c <| c_store := s |>).
    rewrite (bind_ok _ _ c0 false c0).
    2:{ unfold zoom. change (c_store c0) with s. unfold has_enrollment, get_private_key_path, file_exists, mbind, M_bind, gets, lift.
        cbn. by destruct c. }
    unfold try_except.
    rewrite (bind_ok _ _ _ _ _ (zoom_ok c_wg _ c0 _ _ Hgen)). cbn [opt_truthy default from_option id]. rewrite Hk, Hpub. cbn [negb orb].
    set (c2 := c0 <| c_wg := h |>). rewrite (bind_ok _ _ _ _ _ (zoom_ok c_api _ c2 _ _ Hen)). rewrite Hs. cbn [negb].
    set (c3 := c2 <| c_api := api' |>). rewrite Hi, Ht, Hn. cbn [text_of].
    unfold mbind at 1, M_bind at 1, lift at 1. unfold mbind at 1, M_bind at 1, lift at 1. unfold mbind at 1, M_bind at 1, lift at 1.
    rewrite (bind_ok _ _ _ _ _ (zoom_ok c_store _ c3 _ _ Hsave)). set (c4 := c3 <| c_store := s1 |>).
    rewrite (bind_ok _ _ _ _ _ (zoom_ok c_store _ c4 _ _ Hid)). fold c1.
    change (c4 <| c_store := s' |>) with c1. destruct apply; cbn [when].
    + by rewrite (bind_ok _ _ _ _ _ (zoom_ok c_wg _ c1 _ _ Happly)).
    + reflexivity.
  - assert (c_api (if apply then c1 <| c_wg := h' |> else c1) = api') as -> by by destruct apply.
    assert (api' = (enroll server repr preauth name pub (c_api c)).2) as E by by rewrite Hen.
    pose proof (enroll_one_request server repr preauth name pub (c_api c)) as Hreq. rewrite <-E in Hreq. exact Hreq.
  - assert (c_store (if apply then c1 <| c_wg := h' |> else c1) = s') as -> by by destruct apply.
    split; [exact Hrest|exact Hkey].
Qed.

(** A daemon that registers with a pre-auth key keeps the id on disk only: its
    API client is not told, so the reconciler that is started asks for nothing
    and configures nothing, and the next start registers again. *)
Theorem legacy_registration_idle answer server flush created_mode set_order repr cfg m r api' i interface relay times :
  (forall text, foldr String.append "" (flush text) = text) -> fresh created_mode (_state_store m) ->
  json_truthy (ApiClient._device_id (_api_client m)) = false -> enrolled (md_state m) = false ->
  truthy (preauth_key cfg) = true ->
  register server repr (preauth_key cfg) (device_name cfg) (_api_client m) = (Ok r, api') ->
  rg_success r = true -> rg_device_id r = JStr i -> truthy i = true -> ascii_text i = true ->
  exists ps m', run server flush created_mode repr cfg m = (Ok (Some ps), m') /\ ReconcilerPart ∈ ps /\
    registered (md_state m') = true /\
    let started := (new_reconciler interface (_api_client m') [] (_state_store m') relay (md_state m')) <| r_running := true |> in
    let after := (_run_loop answer server flush created_mode set_order repr times started).2 in
    _wg after = [] /\ requests (_api after) = requests (_api_client m') /\
    (restore created_mode (preauth_key cfg) (new_store (_state_dir (_state_store m)) (disk (_state_store m')))).1 = Ok LegacyRegister.
Proof.
  intros Hflush Hf Hid Hen Hpk Hreg Hs Hi Hti Hai. set (s := _state_store m) in *. set (l := loaded s).
  assert (restore created_mode (preauth_key cfg) s = (Ok LegacyRegister, l)) as Hrest.
  { unfold restore. rewrite (bind_ok _ _ _ _ _ (fresh_load created_mode s Hf)).
    unfold get_device_id, get_device_token, has_enrollment, get_private_key_path, file_exists, mbind, M_bind, gets, lift. cbn.
    by rewrite Hpk. }
  assert (ApiClient._device_id api' = ApiClient._device_id (_api_client m)) as Hid'.
  { pose proof (register_keeps_identity server repr (preauth_key cfg) (device_name cfg) (_api_client m)) as H.
    by rewrite Hreg in H. }
  pose proof (save_identity_run flush i l [] eq_refl) as Hsave.
  set (s1 := l <| _identity := JObj (obj_set "device_id" (JStr i) []) |> <| disk := _ |>) in Hsave.
  set (m1 := m <| _state_store := l |>). set (m2 := m1 <| _api_client := api' |>).
  set (m3 := m2 <| md_state := md_state m2 <| ds_device_id := JStr i |> <| registered := true |> |>).
  set (m4 := m3 <| _state_store := s1 |>).
  assert (_legacy_register server flush repr cfg m1 = (Ok tt, m4)) as Hleg.
  { unfold _legacy_register. rewrite (bind_ok _ _ _ _ _ (zoom_ok _api_client _ m1 _ _ Hreg)). rewrite Hs, Hi.
    cbn [json_truthy]. rewrite Hti. cbn [andb]. unfold mbind at 1, M_bind at 1, modify. fold m2. fold m3.
    unfold mbind, M_bind, lift. cbn [text_of]. exact (zoom_ok _state_store _ m3 _ _ Hsave). }
  eexists _, m4. split; [|split; [|split; [|split; [|split]]]].
  - unfold run. rewrite (bind_ok _ _ _ _ _ (zoom_ok _state_store _ m _ _ Hrest)). fold m1.
    rewrite (bind_ok _ _ m1 None m1) by (unfold zoom, get_device_id, mbind, M_bind, gets, lift; cbn; by destruct m).
    rewrite (bind_ok _ _ m1 None m1) by (unfold zoom, get_device_token, mbind, M_bind, gets, lift; cbn; by destruct m).
    rewrite (bind_ok _ _ _ _ _ Hleg). reflexivity.
  - apply elem_of_app. right. left.
  - done.
  - apply (unidentified_turns answer server flush created_mode set_order repr times []). split_and!; [exact Hen|done|done|].
    change (json_truthy (ApiClient._device_id api') = false). by rewrite Hid'.
  - match goal with |- requests (_api (_run_loop _ _ _ _ _ _ _ ?x).2) = _ =>
      destruct (unidentified_turns answer server flush created_mode set_order repr times [] x) as [_ ->] end; [|done].
    split_and!; [exact Hen|done|done|]. change (json_truthy (ApiClient._device_id api') = false). by rewrite Hid'.
  - change (_state_store m4) with s1.
    destruct (after_identity flush created_mode Hflush (fs_of created_mode (disk s)) (_state_dir s) i []) as ((mode & Hident) & Henr & Hca & Hky).
    assert (disk s1 = disk s ++ identity_ops flush (_state_dir s) i []) as Hd by done.
    assert (forall p, p ∈ [_identity_file s; _enrollment_file s; _cache_file s; key_file (_state_dir s)] ->
      fs_of created_mode (disk s) !! p = None) as Hnone by exact Hf.
    rewrite (restore_run created_mode (preauth_key cfg) (_state_dir s) (disk s1) (obj_set "device_id" (JStr i) []) [] (JObj [])).
    + cbn. by rewrite Hpk.
    + apply (read_dumped _ _ _ mode); [cbn; by rewrite Hai|]. rewrite Hd, fs_of_app. exact Hident.
    + unfold read_json. rewrite Hd, fs_of_app. change (_enrollment_file (new_store (_state_dir s) _)) with (_enrollment_file s).
      unfold _enrollment_file. rewrite Henr. fold (_enrollment_file s). by rewrite Hnone by set_solver.
    + unfold read_json. rewrite Hd, fs_of_app. change (_cache_file (new_store (_state_dir s) _)) with (_cache_file s).
      unfold _cache_file. rewrite Hca. fold (_cache_file s). by rewrite Hnone by set_solver.
Qed.

(** One message that is JSON but no object ends the push channel: what comes
    behind it is not read. *)
Theorem malformed_event_ends_push before bad after j h :
  loads bad = Ok j -> (forall o, j <> JObj o) ->
  (listen (before ++ bad :: after) h).2 = (listen before h).2.
Proof.
  intros Hj Hno. unfold listen, try_except. rewrite for_each_app. unfold mbind, M_bind.
  destruct (for_each before listen_one h) as [[[]|e] h1]; [|done].
  assert (listen_one bad h1 = (Raise (AttributeError "get"), h1)) as E.
  { unfold listen_one, try_except, mbind, M_bind, lift. rewrite Hj. unfold _on_ws_message, mbind, M_bind, lift.
    destruct j; try done. by destruct (Hno members). }
  cbn [for_each]. unfold mbind, M_bind. by rewrite E.
Qed.

(** * Witnesses *)
Definition key_host : host -> outcome process := fun h =>
  match last h with
  | Some (Wg ["genkey"] None) => Ok (mkProcess 0 ("K" +:+ NEWLINE) "")
  | Some (Wg ["pubkey"] _) => Ok (mkProcess 0 ("P" +:+ NEWLINE) "")
  | _ => Ok (mkProcess 0 "" "")
  end.
Definition empty_dir : StateStore := new_store "/var/lib/midscaled" [].
Lemma empty_fresh : fresh 420 empty_dir.
Proof. intros p _. reflexivity. Qed.
Definition an_enrolment : EnrollCommand := mkEnrollCommand empty_dir (new_api "http://m/") [].
(** What the server answers to an enrolment ([EnrollByKeyResponse]). *)
Definition enrolled_config : json :=
  JObj [("interface", JObj [("address", JStr "10.0.0.4/24"); ("dns", JNull); ("mtu", JNull)]); ("peers", JArr []);
    ("routes", JArr []); ("exit_node", JNull); ("version", JStr "2.1"); ("config_version", JStr "v2");
    ("schema_version", JStr "2.1"); ("min_daemon_version", JNull); ("revision", JStr "1700000000");
    ("generated_at", JStr "2024-01-01T00:00:00+00:00"); ("hash", JStr "abc")].
Definition enrolling_server (h : list request) : outcome response :=
  Ok (mkResponse 201 (dumps (JObj [("device_id", JStr "d-1"); ("device_token", JStr "pre.secret");
    ("network_id", JStr "net-1"); ("ip_address", JStr "10.0.0.4"); ("config_v2", enrolled_config)]))).
Definition run_enrolment : outcome Z * EnrollCommand :=
  cmd_enroll key_host enrolling_server two_pieces 420 id no_repr "k" "n" "wg0" true an_enrolment.
Lemma enroll_then_restart_witness :
  run_enrolment.1 = Ok 0 /\
  (restore 420 "" (new_store "/var/lib/midscaled" (disk (c_store run_enrolment.2)))).1 =
    Ok (Restored (JStr "d-1") (JStr "pre.secret")).
Proof.
  destruct (enroll_then_restart key_host enrolling_server two_pieces 420 id no_repr "k" "n" "wg0" true an_enrolment "K" "P"
    [Wg ["genkey"] None; Wg ["pubkey"] (Some "K")]
    (mkEnrollResult true (JStr "d-1") (JStr "pre.secret") (JStr "net-1") (JStr "10.0.0.4") enrolled_config None)
    "d-1" "pre.secret" (Some "net-1") (enroll enrolling_server no_repr "k" "n" "P" (new_api "http://m/")).2 "") as (c' & Hrun & _ & Hrest & _);
    [exact two_pieces_text|exact empty_fresh|vm_compute; reflexivity|reflexivity|reflexivity|vm_compute; reflexivity|reflexivity..|].
  unfold run_enrolment. rewrite Hrun. split; [reflexivity|exact Hrest].
Defined.
Definition registering : list request -> outcome response := fun _ =>
  Ok (mkResponse 201 (dumps (JObj [("id", JStr "d-9")]))).
Definition a_daemon : MidscaledDaemon := mkDaemon empty_dir (new_api "http://m/") new_daemon_state.
Definition a_flags : DaemonConfig := mkDaemonFlags "key" "laptop" true true [].
Lemma legacy_registration_idle_witness :
  exists ps m', run registering two_pieces 420 no_repr a_flags a_daemon = (Ok (Some ps), m') /\
    _wg (_run_loop a_host registering two_pieces 420 id no_repr [30; 60]
      ((new_reconciler "wg0" (_api_client m') [] (_state_store m') None (md_state m')) <| r_running := true |>)).2 = [].
Proof.
  destruct (legacy_registration_idle a_host registering two_pieces 420 id no_repr a_flags a_daemon
    (mkRegistrationResult true (JStr "d-9") None) (register registering no_repr "key" "laptop" (new_api "http://m/")).2
    "d-9" "wg0" None [30; 60]) as (ps & m' & Hrun & _ & _ & Hw & _);
    [exact two_pieces_text|exact empty_fresh|reflexivity|reflexivity|reflexivity|vm_compute; reflexivity|reflexivity..|].
  exists ps, m'. split; [exact Hrun|exact Hw].
Defined.
Definition all_on : Handlers := mkHandlers true true true [].
Definition changed_event : string := dumps (JObj [("type", JStr "config.changed")]).
Lemma malformed_event_ends_push_witness :
  reactions (listen [changed_event; "[]"; changed_event] all_on).2 = [Reconcile].
Proof.
  change [changed_event; "[]"; changed_event] with ([changed_event] ++ "[]" :: [changed_event]).
  rewrite (malformed_event_ends_push [changed_event] "[]" [changed_event] (JArr []) all_on);
    [vm_compute; reflexivity|vm_compute; reflexivity|by intros].
Defined.
(** The relay fallback the server announces is handled by the client that
    never listens, and not by the one that does. *)
Definition fallback_event : json :=
  JObj [("type", JStr "relay.fallback"); ("data", JObj [("relay_session_id", JStr "s-1")])].
Example fallback_unheard :
  reactions (_on_ws_message fallback_event all_on).2 = [] /\ reactions (_on_message fallback_event all_on).2 = [OpenRelay (JStr "s-1")].
Proof. vm_compute. split; reflexivity. Qed.
