(* ===== verification/DaemonTasks.v ===== *)
(** The daemon's configuration and its smaller tasks:
    [midscaled/daemon/config.py], [route_advertiser.py] and
    [peer_prober.py].

    A number with a point is kept as the text it was read from.  What a probe
    meets on the network is an argument. *)
From Stdlib Require Import Ascii.
From S2P Require Import Prelude PyStr Bytes Json JsonText PyJson ConfigReader ApiClient WgAdapter Reconciler.
Local Open Scope string_scope.
Local Open Scope list_scope.
Local Open Scope Z_scope.

(** * [DaemonConfig] *)
Record DaemonConfig := mkDaemonConfig {
  server_url : string; preauth_key : string; device_name : string; device_token : string;
  interface_name : string; wg_binary : string; wg_port : Z;
  polling_interval_seconds : Z; heartbeat_interval_seconds : Z; endpoint_check_interval_seconds : Z;
  ws_enabled : bool; ws_reconnect_delay : string; advertised_routes : list string;
  stun_enabled : bool; stun_servers : list string; stun_timeout : string;
  probe_enabled : bool; probe_interval_seconds : Z; probe_timeout : string;
  hole_punch_enabled : bool; hole_punch_timeout : string; hole_punch_retries : Z;
  relay_enabled : bool; relay_host : string; relay_port : Z; relay_region : string; relay_reconnect_delay : string;
  state_dir : string; config_dir : string; log_dir : string;
  tls_verify : bool; request_timeout_seconds : Z; debug : bool
}.
(** [DaemonConfig()] *)
Definition default_config : DaemonConfig :=
  mkDaemonConfig "http://localhost:8000" "" "" "" "midscale0" "wg" 51820 30 60 120 true "5.0" [] true [] "3.0"
    true 180 "5.0" true "10.0" 3 true "127.0.0.1" 8765 "default" "5.0" "/var/lib/midscaled" "/etc/midscaled"
    "/var/log/midscaled" true 30 false.

(** [float(s)]: the text of a number, white space around it dropped. *)
Definition drop_sign (s : string) : string :=
  match s with String c t => if Ascii.eqb c "+" || Ascii.eqb c "-" then t else s | EmptyString => "" end.
Definition digits_ok (s : string) : bool := match int_digits false s with Some _ => true | None => false end.
Definition exponent_ok (s : string) : bool := digits_ok (drop_sign s).
Definition mantissa_ok (s : string) : bool :=
  match split "." s with
  | [whole] => digits_ok whole
  | [whole; frac] =>
    (truthy whole || truthy frac) && (negb (truthy whole) || digits_ok whole) && (negb (truthy frac) || digits_ok frac)
  | _ => false
  end.
Definition float_ok (s : string) : bool :=
  let s := lower (drop_sign s) in
  mem s ["inf"; "infinity"; "nan"]
  || match split "e" s with
     | [m] => mantissa_ok m
     | [m; e] => mantissa_ok m && exponent_ok e
     | _ => false
     end.
Definition float_of_str (s : string) : outcome string :=
  let s := strip s in
  if float_ok s then Ok s else Raise (ValueError "could not convert string to float").

Section Load.
(** [os.environ] and [os.uname().nodename]. *)
Context (environ : string -> option string) (nodename : string).
Definition env (k dflt : string) : string := default dflt (environ k).
Definition env_bool (k dflt : string) : bool := String.eqb (lower (env k dflt)) "true".
Definition env_int (k dflt : string) : outcome Z := int_of_str (env k dflt).
Definition env_float (k dflt : string) : outcome string := float_of_str (env k dflt).
Definition env_words (k : string) : list string := words (env k "").
Definition load : outcome DaemonConfig :=
  wg_port ← env_int "MIDSCALE_WG_PORT" "51820";
  poll ← env_int "MIDSCALE_POLL_INTERVAL" "30";
  heartbeat ← env_int "MIDSCALE_HEARTBEAT_INTERVAL" "60";
  endpoint ← env_int "MIDSCALE_ENDPOINT_INTERVAL" "120";
  request_timeout ← env_int "MIDSCALE_REQUEST_TIMEOUT" "30";
  ws_delay ← env_float "MIDSCALE_WS_RECONNECT_DELAY" "5.0";
  stun_timeout ← env_float "MIDSCALE_STUN_TIMEOUT" "3.0";
  probe_interval ← env_int "MIDSCALE_PROBE_INTERVAL" "180";
  probe_timeout ← env_float "MIDSCALE_PROBE_TIMEOUT" "5.0";
  punch_timeout ← env_float "MIDSCALE_HOLE_PUNCH_TIMEOUT" "10.0";
  punch_retries ← env_int "MIDSCALE_HOLE_PUNCH_RETRIES" "3";
  relay_port ← env_int "MIDSCALE_RELAY_PORT" "8765";
  relay_delay ← env_float "MIDSCALE_RELAY_RECONNECT_DELAY" "5.0";
  Ok (mkDaemonConfig
    (env "MIDSCALE_SERVER_URL" "http://localhost:8000") (env "MIDSCALE_PREAUTH_KEY" "")
    (env "MIDSCALE_DEVICE_NAME" nodename) (env "MIDSCALE_DEVICE_TOKEN" "")
    (env "MIDSCALE_INTERFACE" "midscale0") (env "MIDSCALE_WG_BINARY" "wg") wg_port poll heartbeat endpoint
    (env_bool "MIDSCALE_WS_ENABLED" "true") ws_delay (env_words "MIDSCALE_ADVERTISED_ROUTES")
    (env_bool "MIDSCALE_STUN_ENABLED" "true") (env_words "MIDSCALE_STUN_SERVERS") stun_timeout
    (env_bool "MIDSCALE_PROBE_ENABLED" "true") probe_interval probe_timeout
    (env_bool "MIDSCALE_HOLE_PUNCH_ENABLED" "true") punch_timeout punch_retries
    (env_bool "MIDSCALE_RELAY_ENABLED" "true") (env "MIDSCALE_RELAY_HOST" "127.0.0.1") relay_port
    (env "MIDSCALE_RELAY_REGION" "default") relay_delay
    (env "MIDSCALE_STATE_DIR" "/var/lib/midscaled") (env "MIDSCALE_CONFIG_DIR" "/etc/midscaled")
    (env "MIDSCALE_LOG_DIR" "/var/log/midscaled") (env_bool "MIDSCALE_TLS_VERIFY" "true") request_timeout
    (env_bool "MIDSCALE_DEBUG" "false")).
End Load.

(** * Route advertisement *)
Section Advertise.
Context (server : list request -> outcome response) (repr : json -> string).
(** One turn of [RouteAdvertiser._run_loop]. *)
Definition advertise_turn (routes : list string) : M MidscaleAPIClient unit :=
  try_except (for_each routes (fun prefix => advertise_route server repr prefix;; mret tt)) (fun _ => mret tt).
End Advertise.

(** The programs [sysctl] and [iptables]: the history of commands, and what
    the last one of a history does. *)
Section Forwarding.
Context (answer : list (list string) -> outcome process).
Definition sp_run (c : list string) : M (list (list string)) process := fun h => (answer (h ++ [c]), h ++ [c]).
Definition ensure_ip_forwarding : M (list (list string)) bool :=
  try_except (
    result ← sp_run ["sysctl"; "-n"; "net.ipv4.ip_forward"];
    if String.eqb (strip (stdout result)) "1" then mret true else
    sp_run ["sysctl"; "-w"; "net.ipv4.ip_forward=1"];;
    mret true)
  (fun _ => mret false).
(** [rule.split()]; the name of the interface is split too when it holds white
    space, which the kernel does not allow. *)
Definition nat_rule (interface : string) : list string := ["-s"; "100.64.0.0/10"; "-o"; interface; "-j"; "MASQUERADE"].
Definition ensure_nat (interface : string) : M (list (list string)) bool :=
  try_except (
    result ← sp_run (["iptables"; "-t"; "nat"; "-C"; "POSTROUTING"] ++ nat_rule interface);
    if returncode result =? 0 then mret true else
    sp_run (["iptables"; "-t"; "nat"; "-A"; "POSTROUTING"] ++ nat_rule interface);;
    mret true)
  (fun _ => mret false).
End Forwarding.

(** * Probes *)
(** What a probe meets: an answer or a silence of some length, in
    milliseconds, or an exception before either. *)
Inductive probe_event := Answered (elapsed : json) | Silent (elapsed : json) | Broken (message : string).
Record ProbeResult := mkProbeResult {
  pr_peer_device_id : json; pr_endpoint : json; pr_port : json; pr_reachable : bool;
  pr_latency_ms : option json; pr_error : option string }.
Definition _probe_endpoint (e : probe_event) (target : ProbeTarget) : ProbeResult :=
  let result := mkProbeResult (pt_peer_device_id target) (pt_endpoint target) (pt_port target) in
  match e with
  | Answered ms => result true (Some ms) None
  | Silent ms => result false (Some ms) (Some "timeout")
  | Broken message => result false None (Some message)
  end.
Section Probe.
Context (server : list request -> outcome response) (repr : json -> string).
(** [stops n] says whether the prober is stopped before its [n]th look. *)
Context (meets : nat -> probe_event) (stopped : nat -> bool).
Fixpoint probe_targets (n : nat) (targets : list ProbeTarget) : M MidscaleAPIClient unit :=
  match targets with
  | [] => mret tt
  | target :: rest =>
    if stopped (2 * n) then mret tt else
    let result := _probe_endpoint (meets n) target in
    (if stopped (2 * n + 1) then mret tt else
     report_probe_result server repr (pr_peer_device_id result) (pr_endpoint result) (pr_reachable result)
       (pr_port result) (pr_latency_ms result) None None;; mret tt);;
    probe_targets (S n) rest
  end.
Definition _run_probe_cycle (targets : list ProbeTarget) : M MidscaleAPIClient unit := probe_targets 0 targets.
(** One turn of [PeerProber._run_loop]. *)
Definition probe_turn (enabled : bool) (targets : list ProbeTarget) : M MidscaleAPIClient unit :=
  when enabled (try_except (_run_probe_cycle targets) (fun _ => mret tt)).
End Probe.

(** * Properties *)

(** The defaults of [load] are those of the class: in an empty environment it
    gives [DaemonConfig()] with the name of the machine. *)
Theorem load_defaults nodename :
  load (fun _ => None) nodename =
  Ok (mkDaemonConfig "http://localhost:8000" "" nodename "" "midscale0" "wg" 51820 30 60 120 true "5.0" [] true [] "3.0"
    true 180 "5.0" true "10.0" 3 true "127.0.0.1" 8765 "default" "5.0" "/var/lib/midscaled" "/etc/midscaled"
    "/var/log/midscaled" true 30 false).
Proof. vm_compute. reflexivity. Qed.
(** A switch of the environment is on when it says "true", in any case; any
    other word, "1" and "yes" too, turns it off. *)
Example switches : (fun v => env_bool (fun _ => Some v) "MIDSCALE_RELAY_ENABLED" "true") <$> ["true"; "TRUE"; "1"; "yes"; ""]
  = [true; true; false; false; false].
Proof. vm_compute. reflexivity. Qed.
Example floats : float_ok <$> ["5"; "5."; ".5"; "1e-3"; "1_0.5"; "nan"; "-inf"; "."; ""; "1e"; "5s"] =
  [true; true; true; true; true; true; true; false; false; false; false].
Proof. vm_compute. reflexivity. Qed.
