(* ===== verification/Push.v ===== *)
(** From the server's event bus to the daemons: the bus and its bridge
    ([EventBus.v]), the WebSockets ([WsManager.v]) and the daemon's handlers of
    pushed events ([DaemonMain.v]) put together. *)
From S2P Require Import Prelude PyStr Json JsonText PyJson Dict Models Effects WsManager EventBus Nat DaemonMain.
Local Open Scope string_scope.
Local Open Scope list_scope.

Section Push.
Context (alive : nat -> bool).
Abbreviation manager_of b := (br_manager (eb_handler b)).
(** The bus after an event was published and came back from Redis, and what
    the socket [ws] was sent for it. *)
Definition pushed_through (e : Event) (b : EventBus Bridge) : EventBus Bridge :=
  (EventBus.listen (bridge_event alive) (PMessage <$> (drop (length (eb_sent b)) (eb_sent (publish_event true e b).2)).*2) []
    (publish_event true e b).2).2.
Definition news (ws : nat) (e : Event) (b : EventBus Bridge) : list string :=
  drop (length (received ws (ws_sent (manager_of b)))) (received ws (ws_sent (manager_of (pushed_through e b)))).

(** The bus is connected, and every open socket can be written to. *)
Record up (b : EventBus Bridge) : Prop := {
  up_redis : _redis b = true;
  up_pubsub : _pubsub b = true;
  up_alive : forall ws, ws ∈ ws_connections (manager_of b) -> alive ws = true;
  up_wf : ws_wf (manager_of b)
}.
Lemma news_run e b ws :
  up b -> sendable e = true -> news ws e b = replicate (times_pushed e (manager_of b) ws) (payload_of e).
Proof.
  intros [Hr Hp Hal Hwf] He. destruct (push_run alive e b Hr Hp He Hal Hwf) as (b1 & b2 & E1 & Es & E2 & Hn).
  unfold news, pushed_through. rewrite E1. cbn [snd]. rewrite Es, drop_app_length. cbn [fmap list_fmap snd].
  rewrite E2. cbn [snd]. by rewrite Hn, drop_app_length.
Qed.

(** The daemon's loop over [n] copies of a message that its handler takes. *)
Lemma listen_copies n e x h :
  sendable e = true ->
  (forall h', has_reconciler h' = has_reconciler h -> puncher_enabled h' = puncher_enabled h ->
     _on_ws_message (JObj (event_to_dict e)) h' = (Ok tt, h' <| reactions := reactions h' ++ [x] |>)) ->
  reactions (DaemonMain.listen (replicate n (payload_of e)) h).2 = reactions h ++ replicate n x.
Proof.
  intros He Hon. unfold DaemonMain.listen, try_except.
  assert (forall h', has_reconciler h' = has_reconciler h -> puncher_enabled h' = puncher_enabled h ->
    exists h'', for_each (replicate n (payload_of e)) listen_one h' = (Ok tt, h'') /\
      reactions h'' = reactions h' ++ replicate n x) as Hall.
  { induction n as [|n IH]; intros h' Hr Hp; [exists h'; by rewrite app_nil_r|]. cbn [replicate for_each].
    assert (listen_one (payload_of e) h' = (Ok tt, h' <| reactions := reactions h' ++ [x] |>)) as E.
    { unfold listen_one, try_except, mbind, M_bind, lift, payload_of. rewrite loads_dumps by exact He.
      by rewrite (Hon h' Hr Hp). }
    rewrite (bind_ok _ _ _ _ _ E). destruct (IH (h' <| reactions := reactions h' ++ [x] |>)) as (h'' & -> & Hh); [done..|].
    exists h''. split; [done|]. rewrite Hh. cbn. by rewrite <-app_assoc. }
  destruct (Hall h eq_refl eq_refl) as (h'' & -> & Hh). exact Hh.
Qed.
End Push.

(** * Properties *)

(** C17. A change of configuration, end to end, on a bus that is connected and
    subscribed to Redis and with open sockets that all live ([up]): once it is
    published, the daemon behind every open socket reconciles, whichever device
    the change is for, and the daemon of the device it names reconciles twice;
    nothing else happens.  Without Redis, which is how a server starts by
    default, nobody is told ([no_redis_no_push]). *)
Theorem config_change_wakes_all alive e b h ws :
  up alive b -> sendable e = true -> event_type e = EVENT_CONFIG_CHANGED -> has_reconciler h = true ->
  reactions (DaemonMain.listen (news alive ws e b) h).2 =
  reactions h ++ replicate (times_pushed e (br_manager (eb_handler b)) ws) Reconcile.
Proof.
  intros Hup He Ht Hr. rewrite news_run by done. apply listen_copies; [done|]. intros h' Hr' _.
  unfold event_to_dict. rewrite Ht. set (data := JObj _).
  change (_on_ws_message data h') with (_on_ws_config_changed data h').
  unfold _on_ws_config_changed, mbind, M_bind, gets. rewrite Hr', Hr. done.
Qed.

(** A request to punch names its two devices, but nobody looks: when a NAT
    session is announced, every daemon behind an open socket starts a punch
    towards the target, the target itself included, and without a single
    candidate. *)
Theorem punch_request_starts_all alive e b h ws s :
  up alive b -> sendable e = true ->
  event_type e = EVENT_NAT_PUNCH_REQUESTED -> event_data e = nat_event_data s [] ->
  truthy (NATSession.id s) = true -> truthy (NATSession.target_device_id s) = true ->
  puncher_enabled h = true -> ws ∈ ws_connections (br_manager (eb_handler b)) ->
  reactions (DaemonMain.listen (news alive ws e b) h).2 =
  reactions h ++ [Punch (JStr (NATSession.id s)) (JStr (NATSession.target_device_id s)) (JArr [])].
Proof.
  intros Hup He Ht Hd Hi Htg Hp Hws. rewrite news_run by done.
  assert (times_pushed e (br_manager (eb_handler b)) ws = 1%nat) as ->.
  { unfold times_pushed, target_socket. rewrite Ht, decide_True by done. done. }
  apply (listen_copies 1); [done|]. intros h' _ Hp'.
  unfold event_to_dict. rewrite Ht, Hd. set (data := JObj _).
  change (_on_ws_message data h') with (_on_nat_punch_requested data h').
  unfold _on_nat_punch_requested, mbind, M_bind, gets. rewrite Hp', Hp. cbn. by rewrite Hi, Htg.
Qed.

(** * Witnesses *)
Definition demo_bus : EventBus Bridge :=
  new_bus (Some "redis://localhost") (mkBridge (connect_daemon 2 "bob" (connect_daemon 1 "alice" new_manager)) 0)
    <| _redis := true |> <| _pubsub := true |>.
Lemma demo_up : up (fun _ => true) demo_bus.
Proof.
  split; [done..|]. apply (ws_reachable_wf [ConnectDaemon 1 "alice"; ConnectDaemon 2 "bob"]).
  apply (bool_decide_unpack _). vm_compute. exact I.
Qed.
Definition demo_handlers : Handlers := mkHandlers true true false [].
Definition demo_change : Event :=
  mkEvent EVENT_CONFIG_CHANGED (config_changed_payload (Some "bob") "net-1" None None "route" "now") "e1" "now".
Lemma config_change_wakes_all_witness :
  reactions (DaemonMain.listen (news (fun _ => true) 1 demo_change demo_bus) demo_handlers).2 = [Reconcile] /\
  reactions (DaemonMain.listen (news (fun _ => true) 2 demo_change demo_bus) demo_handlers).2 = [Reconcile; Reconcile].
Proof.
  rewrite !config_change_wakes_all; try (exact demo_up || reflexivity). split; vm_compute; reflexivity.
Defined.
Definition demo_session : NATSession.NATSession :=
  NATSession.mk "s1" "alice" "carol" "pending" None false None 0 0 600.
Lemma punch_request_starts_all_witness :
  reactions (DaemonMain.listen (news (fun _ => true) 2
    (mkEvent EVENT_NAT_PUNCH_REQUESTED (nat_event_data demo_session []) "e2" "now") demo_bus) demo_handlers).2 =
  [Punch (JStr "s1") (JStr "carol") (JArr [])].
Proof.
  rewrite (punch_request_starts_all (fun _ => true) _ demo_bus demo_handlers 2 demo_session); try (exact demo_up || reflexivity).
Defined.
