(* ===== verification/PunchReports.v ===== *)
(** What the daemon does when a hole punch ends: the three callbacks of
    [midscaled/daemon/main.py], over the API client and the relay client.

    A callback starts tasks; a task that raises ends there, the others go on.
    An identifier that is not text, which no server answers, ends its task. *)
From S2P Require Import Prelude PyStr Bytes Dict Json JsonText PyJson.
From S2P Require HolePuncher RelayServer RelayClient.
From S2P Require Import ApiClient.
Local Open Scope string_scope.
Local Open Scope list_scope.
Local Open Scope Z_scope.

Record PunchDaemon := mkPunchDaemon {
  pd_triggered : nat;                                (* [self._reconciler.trigger()] *)
  pd_api : MidscaleAPIClient;
  pd_relay : option RelayClient.DaemonRelayClient
}.
#[export] Instance set_pd_triggered : SetField pd_triggered := fun v r => mkPunchDaemon v (pd_api r) (pd_relay r).
#[export] Instance set_pd_api : SetField pd_api := fun v r => mkPunchDaemon (pd_triggered r) v (pd_relay r).
#[export] Instance set_pd_relay : SetField pd_relay := fun v r => mkPunchDaemon (pd_triggered r) (pd_api r) v.

Section Callbacks.
Context (server : list request -> outcome response) (repr : json -> string).
Abbreviation D := (M PunchDaemon).

(** [asyncio.create_task]: the task has run when the next callback is called. *)
Definition task (m : D unit) : D unit := try_except m (fun _ => mret tt).
Definition on_relay (m : M RelayClient.DaemonRelayClient unit) : D unit := fun d =>
  match pd_relay d with
  | None => (Ok tt, d)
  | Some c => let r := m c in (r.1, d <| pd_relay := Some r.2 |>)
  end.
Definition _on_punch_success (s : HolePuncher.PunchSession) : D unit :=
  modify (fun d => d <| pd_triggered := S (pd_triggered d) |>);;
  task (zoom pd_api (report_nat_punch_result server repr (HolePuncher.session_id s) true (HolePuncher.result_endpoint s)
    (HolePuncher.result_port s) (HolePuncher.result_latency_ms s) None);; mret tt);;
  task (zoom pd_api (report_nat_connectivity_validation server repr (HolePuncher.session_id s)
    (default "" (HolePuncher.result_endpoint s))
    (match HolePuncher.result_port s with Some p => if p =? 0 then 51820 else p | None => 51820 end)
    true (HolePuncher.result_latency_ms s));; mret tt).
Definition _on_punch_failure (session_id : string) : D unit :=
  task (zoom pd_api (report_nat_punch_result server repr session_id false None None None (Some "all candidate pairs failed"));; mret tt).
Definition json_text (j : json) : outcome string := match j with JStr s => Ok s | _ => Raise TypeError end.
Definition _request_relay_fallback (target_device_id : string) : D unit :=
  result ← zoom pd_api (request_relay_session server repr (JStr target_device_id) "default");
  if rs_success result && json_truthy (rs_session_id result) && json_truthy (rs_relay_token result) then
    session_id ← lift (json_text (rs_session_id result));
    token ← lift (json_text (rs_relay_token result));
    on_relay (RelayClient.connect_session session_id token)
  else mret tt.
Definition _on_punch_relay_fallback (target_device_id : string) : D unit :=
  relay ← gets pd_relay;
  match relay with None => mret tt | Some _ => task (_request_relay_fallback target_device_id) end.
(** The callbacks of a session, in the order the puncher calls them. *)
Definition on_callback (s : HolePuncher.PunchSession) (target : string) (c : HolePuncher.callback * string) : D unit :=
  match c.1 with
  | HolePuncher.OnSuccess => _on_punch_success s
  | HolePuncher.OnFailure => _on_punch_failure c.2
  | HolePuncher.OnRelayFallback => _on_punch_relay_fallback target
  end.

(** * Facts *)
Definition failure_report (sid : string) (c : MidscaleAPIClient) : request :=
  request_of repr c POST ("/api/v1/nat/" +:+ sid +:+ "/result")
    (Some (JObj [("session_id", JStr sid); ("success", JBool false); ("error", JStr "all candidate pairs failed")])) true.
Definition relay_request (target : string) (c : MidscaleAPIClient) : request :=
  request_of repr c POST "/api/v1/relay/sessions"
    (Some (JObj [("target_device_id", JStr target); ("relay_region", JStr "default")])) true.

Lemma task_ok m d d' : m d = (Ok tt, d') -> task m d = (Ok tt, d').
Proof. unfold task, try_except. by intros ->. Qed.
Lemma punch_failure_run sid i t base d :
  enrolled_as i t base (pd_api d) -> truthy i = true ->
  _on_punch_failure sid d = (Ok tt, d <| pd_api := sent (failure_report sid (pd_api d)) (pd_api d) |>).
Proof.
  intros He Hi. unfold _on_punch_failure.
  assert (exists o, zoom pd_api (report_nat_punch_result server repr sid false None None None (Some "all candidate pairs failed")) d =
    (o, d <| pd_api := sent (failure_report sid (pd_api d)) (pd_api d) |>)) as [o Ho].
  { unfold zoom. eexists. f_equal. f_equal. unfold report_nat_punch_result. rewrite (guarded i t base) by done.
    apply sends_one. intros. apply _. }
  unfold task, try_except, mbind, M_bind. rewrite Ho. by destruct o.
Qed.

(** The answer of [POST /relay/sessions] that opens a session. *)
Definition opens_session (resp : response) (sid token : string) : Prop :=
  status_code resp = 201 /\ exists o, resp_json resp = Ok (JObj o) /\
    obj_get "id" o = Some (JStr sid) /\ obj_get "relay_token" o = Some (JStr token).
Lemma relay_session_run target i t base sid token c resp :
  enrolled_as i t base c -> truthy i = true -> server (requests c ++ [relay_request target c]) = Ok resp ->
  opens_session resp sid token ->
  exists r, request_relay_session server repr (JStr target) "default" c = (Ok r, sent (relay_request target c) c) /\
    rs_success r = true /\ rs_session_id r = JStr sid /\ rs_relay_token r = JStr token.
Proof.
  intros He Hi Hs (Hst & o & Ho & Hid & Htok). unfold request_relay_session. rewrite (guarded i t base) by done.
  unfold on_request_error, try_except. unfold mbind at 1, M_bind at 1. rewrite send_run. fold (relay_request target c).
  rewrite Hs, Hst. cbn [Z.eqb Pos.eqb]. unfold relay_answer, mbind, M_bind, lift. rewrite Ho.
  unfold member, get_or. rewrite Hid, Htok. by eexists.
Qed.
Lemma relay_fallback_run target i t base sid token f rc resp d :
  enrolled_as i t base (pd_api d) -> truthy i = true -> pd_relay d = Some rc -> RelayClient._writer rc = true ->
  server (requests (pd_api d) ++ [relay_request target (pd_api d)]) = Ok resp -> opens_session resp sid token ->
  truthy sid = true -> truthy token = true ->
  RelayServer.frame_of (RelayClient.message RelayClient.MSG_TYPE_CONNECT
    (dumps (JObj (RelayClient.connect_members token (RelayClient._device_id rc) sid)))) = Ok f ->
  _on_punch_relay_fallback target d = (Ok tt, d <| pd_api := sent (relay_request target (pd_api d)) (pd_api d) |>
    <| pd_relay := Some (RelayClient.connect_session sid token rc).2 |>).
Proof.
  intros He Hi Hrc Hw Hs Ho Hsid Htok Hf. unfold _on_punch_relay_fallback. rewrite (bind_ok (gets pd_relay) _ d _ d eq_refl). rewrite Hrc.
  apply task_ok. unfold _request_relay_fallback.
  destruct (relay_session_run target i t base sid token (pd_api d) resp He Hi Hs Ho) as (r & E & H1 & H2 & H3).
  rewrite (bind_ok _ _ _ _ _ (zoom_ok pd_api _ d _ _ E)). rewrite H1, H2, H3. cbn [andb json_truthy]. rewrite Hsid, Htok.
  set (d1 := d <| pd_api := _ |>). unfold mbind, M_bind, lift. cbn [json_text andb]. unfold on_relay.
  cbn beta iota. change (pd_relay d1) with (pd_relay d). rewrite Hrc. by rewrite (RelayClient.connect_run _ _ _ _ Hw Hf).
Qed.
End Callbacks.

(** * Property *)

(** C27. Every punch ends at the relay: whatever datagrams arrive, the session the
    daemon was asked to punch fails, the daemon reports the failure to the
    server, asks it for a relay session and, when the server opens one, sends
    the relay a CONNECT with the answered session and token; it makes no other
    request and never reports a success. *)
Theorem punch_ends_at_relay server repr shuffle w p sid target cs s p1 d i t base rid token rc resp f :
  (forall l, shuffle l ≡ₚ l) -> HolePuncher._expected_responses p = [] -> (forall n, HolePuncher.running_at w n = true) ->
  HolePuncher._enabled p = true ->
  HolePuncher.initiate_punch shuffle sid target cs [HolePuncher.OnSuccess; HolePuncher.OnFailure; HolePuncher.OnRelayFallback] p
    = (Ok s, p1) ->
  enrolled_as i t base (pd_api d) -> truthy i = true -> pd_relay d = Some rc -> RelayClient._writer rc = true ->
  let failed := sent (failure_report repr sid (pd_api d)) (pd_api d) in
  server (requests failed ++ [relay_request repr target failed]) = Ok resp -> opens_session resp rid token ->
  truthy rid = true -> truthy token = true ->
  RelayServer.frame_of (RelayClient.message RelayClient.MSG_TYPE_CONNECT
    (dumps (JObj (RelayClient.connect_members token (RelayClient._device_id rc) rid)))) = Ok f ->
  exists s' p' d' rc', HolePuncher._execute_punch w s p1 = (Ok s', p') /\ HolePuncher.state s' = "failed" /\
    for_each (drop (length (HolePuncher.called p)) (HolePuncher.called p')) (on_callback server repr s' target) d = (Ok tt, d') /\
    requests (pd_api d') = requests (pd_api d) ++ [failure_report repr sid (pd_api d); relay_request repr target (pd_api d)] /\
    pd_triggered d' = pd_triggered d /\ pd_relay d' = Some rc' /\
    RelayClient.written rc' = RelayClient.written rc ++ [f].
Proof.
  intros Hsh Hexp Hrun Hen Hinit He Hi Hrc Hw failed Hs Ho Hrid Htok Hf.
  destruct (HolePuncher.punch_never_connects shuffle w p sid target cs _ s p1 Hsh Hexp Hrun Hen Hinit)
    as (s' & p' & Hex & Hst & _ & _ & Hc & _).
  exists s', p'. do 2 eexists. split; [exact Hex|]. split; [exact Hst|]. rewrite Hc, drop_app_length.
  cbn [List.filter fst bool_decide]. rewrite !bool_decide_eq_true_2 by set_solver. cbn [for_each on_callback fst snd].
  rewrite (bind_ok _ _ _ _ _ (punch_failure_run server repr sid i t base d He Hi)). fold failed.
  set (d1 := d <| pd_api := failed |>).
  rewrite (bind_ok _ _ _ _ _ (relay_fallback_run server repr target i t base rid token f rc resp d1 He Hi Hrc Hw Hs Ho Hrid Htok Hf)).
  split; [reflexivity|]. split; [by cbn; rewrite <-app_assoc|]. split; [done|]. split; [reflexivity|].
  by rewrite (RelayClient.connect_run _ _ _ _ Hw Hf).
Qed.

(** * Witness *)
Definition demo_answer : response :=
  mkResponse 201 (dumps (JObj [("id", JStr "rs-1"); ("relay_token", JStr "tok"); ("relay_region", JStr "default")])).
Definition demo_server (history : list request) : outcome response :=
  match last history with
  | Some q => if String.eqb (rq_url q) "http://s/api/v1/relay/sessions" then Ok demo_answer else Ok (mkResponse 200 "{}")
  | None => Raise (RequestError "")
  end.
Definition demo_relay : RelayClient.DaemonRelayClient :=
  RelayClient.mkClient "dev-a" true true [] 0 0 true [] [] [] 0.
Definition demo_daemon : PunchDaemon :=
  mkPunchDaemon 0 (mkApi "http://s" (JStr "dev-a") (JStr "t") []) (Some demo_relay).
Lemma punch_ends_at_relay_witness :
  exists s p1, HolePuncher.initiate_punch (fun l => l) "n-1" "dev-b" HolePuncher.demo_candidates
      [HolePuncher.OnSuccess; HolePuncher.OnFailure; HolePuncher.OnRelayFallback] HolePuncher.demo_puncher = (Ok s, p1) /\
  exists s' p' d', HolePuncher._execute_punch HolePuncher.answering s p1 = (Ok s', p') /\
    for_each (HolePuncher.called p') (on_callback demo_server (fun _ => "") s' "dev-b") demo_daemon = (Ok tt, d') /\
    length (requests (pd_api d')) = 2%nat.
Proof.
  destruct (HolePuncher.initiate_punch (fun l => l) "n-1" "dev-b" HolePuncher.demo_candidates
      [HolePuncher.OnSuccess; HolePuncher.OnFailure; HolePuncher.OnRelayFallback] HolePuncher.demo_puncher)
    as [[s|e] p1] eqn:Hi; [|vm_compute in Hi; discriminate Hi].
  exists s, p1. split; [done|].
  destruct (RelayServer.frame_of (RelayClient.message RelayClient.MSG_TYPE_CONNECT
    (dumps (JObj (RelayClient.connect_members "tok" (RelayClient._device_id demo_relay) "rs-1"))))) as [f|e] eqn:Hf;
    [|vm_compute in Hf; discriminate Hf].
  destruct (punch_ends_at_relay demo_server (fun _ => "") (fun l => l) HolePuncher.answering HolePuncher.demo_puncher "n-1" "dev-b"
    HolePuncher.demo_candidates s p1 demo_daemon "dev-a" "t" "http://s" "rs-1" "tok" demo_relay demo_answer f)
    as (s' & p' & d' & rc' & Hex & _ & Hcb & Hreq & _); try done.
  - split; [done|]. eexists. split; [vm_compute; reflexivity|]. by split.
  - exists s', p', d'. split; [exact Hex|]. split; [exact Hcb|]. rewrite Hreq. reflexivity.
Defined.
