(* ===== verification/Migrations.v ===== *)
(** The migrations of the server's database: [backend/alembic/versions/], the
    way [backend/alembic/env.py] runs them, and the tables the models declare
    ([backend/app/models/]).

    A migration is the list of the operations its [upgrade] and [downgrade]
    hand to Alembic, as written.  What an operation does to a database is what
    PostgreSQL documents of the statement it stands for; a database is its
    tables with their columns, constraints, indexes and rows, a cell the text
    of a value or NULL.  [value_of] is the value of an SQL expression that is a
    default. *)
From S2P Require Import Prelude.
Local Open Scope string_scope.
Local Open Scope list_scope.

(** * Operations *)
Inductive sql_type := UUID | String' (length : Z) | Text | Boolean | Integer | BigInteger | DateTime (timezone : bool) | JSON.
#[export] Instance sql_type_eq_dec : EqDecision sql_type.
Proof. solve_decision. Defined.
(** A default of the server: the text of a value, or an SQL expression. *)
Inductive sql_default := Literal (v : string) | Expression (sql : string).
#[export] Instance sql_default_eq_dec : EqDecision sql_default.
Proof. solve_decision. Defined.

Record Column := mkColumn {
  col_name : string; col_type : sql_type; col_nullable : bool; col_server_default : option sql_default;
  col_foreign_key : option (string * string); col_primary_key : bool; col_index : bool; col_unique : bool
}.
#[export] Instance Column_eq_dec : EqDecision Column.
Proof. solve_decision. Defined.
Definition column (name : string) (type : sql_type) (nullable : bool) : Column :=
  mkColumn name type nullable None None false false false.
Definition server_default (d : sql_default) (c : Column) : Column :=
  mkColumn (col_name c) (col_type c) (col_nullable c) (Some d) (col_foreign_key c) (col_primary_key c) (col_index c) (col_unique c).
Definition ForeignKey (t c' : string) (c : Column) : Column :=
  mkColumn (col_name c) (col_type c) (col_nullable c) (col_server_default c) (Some (t, c')) (col_primary_key c) (col_index c) (col_unique c).
Definition primary_key (c : Column) : Column :=
  mkColumn (col_name c) (col_type c) false (col_server_default c) (col_foreign_key c) true (col_index c) (col_unique c).
Definition indexed (c : Column) : Column :=
  mkColumn (col_name c) (col_type c) (col_nullable c) (col_server_default c) (col_foreign_key c) (col_primary_key c) true (col_unique c).
Definition unique (c : Column) : Column :=
  mkColumn (col_name c) (col_type c) (col_nullable c) (col_server_default c) (col_foreign_key c) (col_primary_key c) (col_index c) true.

Inductive table_item :=
  | Col (c : Column)
  | ForeignKeyConstraint (columns : list string) (table : string) (refs : list string)
  | PrimaryKeyConstraint (columns : list string)
  | UniqueConstraint (columns : list string).
Inductive operation :=
  | create_table (name : string) (items : list table_item)
  | drop_table (name : string)
  | add_column (table : string) (c : Column)
  | drop_column (table c : string)
  | alter_column (table c : string) (nullable : bool)
  | create_index (name table : string) (columns : list string) (unique : bool)
  | drop_index (name table : string)
  | create_foreign_key (name : option string) (source referent : string) (local_cols remote_cols : list string)
  | drop_constraint (name : option string) (table : string).
#[export] Instance table_item_eq_dec : EqDecision table_item.
Proof. solve_decision. Defined.
#[export] Instance operation_eq_dec : EqDecision operation.
Proof. solve_decision. Defined.
Record migration := mkMigration {
  revision : string; down_revision : option string; upgrade : list operation; downgrade : list operation
}.

#[export] Instance migration_eq_dec : EqDecision migration.
Proof. solve_decision. Defined.

(** * Databases *)
Inductive ddl_error :=
  | DuplicateTable | UndefinedTable | DuplicateColumn | UndefinedColumn | DuplicateIndex | UndefinedIndex
  | DependentObjects | NotNullViolation | UniqueViolation | ForeignKeyViolation | NamelessConstraint | UndefinedConstraint.
Abbreviation cell := (option string).
Abbreviation row := (gmap string cell).
Record column_def := mkDef { def_type : sql_type; def_nullable : bool; def_default : option sql_default }.
#[export] Instance column_def_eq_dec : EqDecision column_def.
Proof. solve_decision. Defined.
Abbreviation foreign := (list string * (string * list string))%type.
Record table := mkTable {
  t_columns : gmap string column_def;
  t_keys : gset (list string);                               (* the primary key and the unique constraints *)
  t_foreign : gset foreign;
  t_indexes : gmap string (list string * bool);
  t_rows : list row
}.
#[export] Instance table_eq_dec : EqDecision table.
Proof. solve_decision. Defined.
Abbreviation database := (gmap string table).
Definition empty_table : table := mkTable ∅ ∅ ∅ ∅ [].

(** ** Structure *)
Definition def_of (c : Column) : column_def := mkDef (col_type c) (col_nullable c) (col_server_default c).
Definition index_name (t : string) (c : Column) : string := "ix_" +:+ t +:+ "_" +:+ col_name c.
(** What a column brings with it besides itself. *)
Definition column_keys (c : Column) : gset (list string) :=
  if col_primary_key c || (col_unique c && negb (col_index c)) then {[ [col_name c] ]} else ∅.
Definition column_foreign (c : Column) : gset foreign :=
  match col_foreign_key c with Some (t, r) => {[ ([col_name c], (t, [r])) ]} | None => ∅ end.
Definition column_indexes (t : string) (c : Column) : gmap string (list string * bool) :=
  if col_index c then {[ index_name t c := ([col_name c], col_unique c) ]} else ∅.

Definition with_column (t : string) (c : Column) (fill : cell) (s : table) : table :=
  mkTable (<[col_name c := def_of c]> (t_columns s)) (column_keys c ∪ t_keys s) (column_foreign c ∪ t_foreign s)
    (column_indexes t c ∪ t_indexes s) ((fun r => <[col_name c := fill]> r) <$> t_rows s).
Definition with_item (t : string) (s : table) (i : table_item) : table :=
  match i with
  | Col c => with_column t c None s
  | ForeignKeyConstraint cs r rs => mkTable (t_columns s) (t_keys s) ({[ (cs, (r, rs)) ]} ∪ t_foreign s) (t_indexes s) (t_rows s)
  | PrimaryKeyConstraint cs | UniqueConstraint cs =>
    mkTable (t_columns s) ({[ cs ]} ∪ t_keys s) (t_foreign s) (t_indexes s) (t_rows s)
  end.
Definition without_column (c : string) (s : table) : table :=
  mkTable (delete c (t_columns s)) (filter (fun k => c ∉ k) (t_keys s)) (filter (fun f => c ∉ f.1) (t_foreign s))
    (filter (fun i => c ∉ i.2.1) (t_indexes s)) (delete c <$> t_rows s).
Definition with_nullable (c : string) (d : column_def) (nullable : bool) (s : table) : table :=
  mkTable (<[c := mkDef (def_type d) nullable (def_default d)]> (t_columns s)) (t_keys s) (t_foreign s) (t_indexes s) (t_rows s).
Definition with_indexes (f : gmap string (list string * bool) -> gmap string (list string * bool)) (s : table) : table :=
  mkTable (t_columns s) (t_keys s) (t_foreign s) (f (t_indexes s)) (t_rows s).
Definition with_foreign (cs : list string) (r : string) (rs : list string) (s : table) : table :=
  mkTable (t_columns s) (t_keys s) ({[ (cs, (r, rs)) ]} ∪ t_foreign s) (t_indexes s) (t_rows s).

(** Whether [s] has the columns, and whether the constraint [f] refers to
    a key that is there ([t] names the table it belongs to). *)
Definition has_columns (s : table) (cs : list string) : bool := forallb (fun c => bool_decide (is_Some (t_columns s !! c))) cs.
Definition refers (db : database) (t : string) (s : table) (f : foreign) : bool :=
  has_columns s f.1 &&
  match (if String.eqb f.2.1 t then Some s else db !! f.2.1) with
  | Some r => has_columns r f.2.2 && bool_decide (f.2.2 ∈ t_keys r)
  | None => false
  end.
(** Constraints of other tables on a table, and of any table on a column. *)
Definition depends_on_table (t : string) (db : database) : bool :=
  existsb (fun kv => negb (String.eqb kv.1 t) && existsb (fun f : foreign => String.eqb f.2.1 t) (elements (t_foreign kv.2))) (map_to_list db).
Definition depends_on_column (t c : string) (db : database) : bool :=
  existsb (fun kv => existsb (fun f : foreign => String.eqb f.2.1 t && bool_decide (c ∈ f.2.2) &&
    negb (String.eqb kv.1 t && bool_decide (c ∈ f.1))) (elements (t_foreign kv.2))) (map_to_list db).
Definition index_taken (i : string) (db : database) : bool :=
  existsb (fun kv => bool_decide (is_Some (t_indexes kv.2 !! i))) (map_to_list db).

(** ** Rows *)
Definition key_of (cs : list string) (r : row) : option (list string) := mapM (fun c => default None (r !! c)) cs.
(** NULLs are distinct from one another, and refer to nothing. *)
Definition unique_ok (cs : list string) (rows : list row) : bool := bool_decide (NoDup (omap (key_of cs) rows)).
Definition foreign_ok (cs rs : list string) (rows refs : list row) : bool :=
  forallb (fun r => match key_of cs r with Some k => bool_decide (k ∈ omap (key_of rs) refs) | None => true end) rows.
Definition not_null_ok (c : string) (rows : list row) : bool :=
  forallb (fun r => match r !! c with Some (Some _) => true | _ => false end) rows.

Abbreviation result A := (ddl_error + A)%type.
Definition guard_ddl {A} (b : bool) (e : ddl_error) (k : result A) : result A := if b then k else inl e.
Definition with_table {A} (t : string) (db : database) (k : table -> result A) : result A :=
  match db !! t with Some s => k s | None => inl UndefinedTable end.

Section Databases.
Context (value_of : string -> string).
Definition fill_of (c : Column) : cell :=
  match col_server_default c with
  | Some (Literal v) => Some v
  | Some (Expression e) => Some (value_of e)
  | None => None
  end.

(** An operation as far as the rows are concerned: [None] when they do not
    stand in its way. *)
Definition violation (o : operation) (db : database) : option ddl_error :=
  match o with
  | add_column t c =>
    match db !! t with
    | Some s =>
      if negb (col_nullable c) && negb (bool_decide (is_Some (fill_of c))) && negb (bool_decide (t_rows s = []))
      then Some NotNullViolation
      else match col_foreign_key c with
           | Some (r, rc) =>
             let filled := (fun x => <[col_name c := fill_of c]> x) <$> t_rows s in
             match (if String.eqb r t then Some filled else t_rows <$> db !! r) with
             | Some refs => if foreign_ok [col_name c] [rc] filled refs then None else Some ForeignKeyViolation
             | None => None
             end
           | None => None
           end
    | None => None
    end
  | alter_column t c false =>
    match db !! t with Some s => if not_null_ok c (t_rows s) then None else Some NotNullViolation | None => None end
  | create_index _ t cs true =>
    match db !! t with Some s => if unique_ok cs (t_rows s) then None else Some UniqueViolation | None => None end
  | create_foreign_key _ t r cs rs =>
    match db !! t, db !! r with
    | Some s, Some q => if foreign_ok cs rs (t_rows s) (t_rows q) then None else Some ForeignKeyViolation
    | _, _ => None
    end
  | _ => None
  end.

(** The rest of an operation: what it requires of the tables, and the tables
    after it. *)
Definition item_columns (items : list table_item) : list string :=
  omap (fun i => match i with Col c => Some (col_name c) | _ => None end) items.
Definition free_indexes (ixs : gmap string (list string * bool)) (db : database) : bool :=
  forallb (fun kv => negb (index_taken kv.1 db)) (map_to_list ixs).
Definition ddl (o : operation) (db : database) : result database :=
  match o with
  | create_table t items =>
    guard_ddl (negb (bool_decide (is_Some (db !! t)))) DuplicateTable (
    guard_ddl (bool_decide (NoDup (item_columns items))) DuplicateColumn (
    let s := foldl (with_item t) empty_table items in
    guard_ddl (forallb (has_columns s) (elements (t_keys s))) UndefinedColumn (
    guard_ddl (forallb (refers db t s) (elements (t_foreign s))) UndefinedTable (
    guard_ddl (free_indexes (t_indexes s) db) DuplicateIndex (
    inr (<[t := s]> db))))))
  | drop_table t => with_table t db (fun _ =>
    guard_ddl (negb (depends_on_table t db)) DependentObjects (inr (delete t db)))
  | add_column t c => with_table t db (fun s =>
    guard_ddl (negb (bool_decide (is_Some (t_columns s !! col_name c)))) DuplicateColumn (
    let s' := with_column t c (fill_of c) s in
    guard_ddl (forallb (refers db t s') (elements (column_foreign c))) UndefinedTable (
    guard_ddl (free_indexes (column_indexes t c) db) DuplicateIndex (
    inr (<[t := s']> db)))))
  | drop_column t c => with_table t db (fun s =>
    guard_ddl (bool_decide (is_Some (t_columns s !! c))) UndefinedColumn (
    guard_ddl (negb (depends_on_column t c db)) DependentObjects (
    inr (<[t := without_column c s]> db))))
  | alter_column t c nullable => with_table t db (fun s =>
    match t_columns s !! c with
    | Some d => inr (<[t := with_nullable c d nullable s]> db)
    | None => inl UndefinedColumn
    end)
  | create_index i t cs u => with_table t db (fun s =>
    guard_ddl (negb (index_taken i db)) DuplicateIndex (
    guard_ddl (has_columns s cs) UndefinedColumn (
    inr (<[t := with_indexes (insert i (cs, u)) s]> db))))
  | drop_index i t => with_table t db (fun s =>
    guard_ddl (bool_decide (is_Some (t_indexes s !! i))) UndefinedIndex (
    inr (<[t := with_indexes (delete i) s]> db)))
  | create_foreign_key _ t r cs rs => with_table t db (fun s =>
    guard_ddl (refers db t s (cs, (r, rs))) UndefinedTable (
    inr (<[t := with_foreign cs r rs s]> db)))
  | drop_constraint None _ => inl NamelessConstraint
  | drop_constraint (Some _) t => with_table t db (fun _ => inl UndefinedConstraint)
  end.
Definition run_op (o : operation) (db : database) : result database :=
  match ddl o db with
  | inl e => inl e
  | inr db' => match violation o db with Some e => inl e | None => inr db' end
  end.
Fixpoint run_ops (os : list operation) (db : database) : result database :=
  match os with
  | [] => inr db
  | o :: rest => match run_op o db with inl e => inl e | inr db' => run_ops rest db' end
  end.
End Databases.

(** * The migrations *)
Definition m_add_owner_id_to_networks : migration := mkMigration "1ea06c46da06" (Some "ae1b2c3d4e5f") [
    add_column "networks" (column "owner_id" UUID true);
    create_index "ix_networks_owner_id" "networks" ["owner_id"] false;
    create_foreign_key None "networks" "users" ["owner_id"] ["id"]] [
    drop_constraint None "networks";
    drop_index "ix_networks_owner_id" "networks";
    drop_column "networks" "owner_id"].
Definition m_add_interface_name_to_networks : migration := mkMigration "2c1a3b5e6d7f" (Some "e44cb5174045") [
    add_column "networks" (column "interface_name" (String' 15) true)] [
    drop_column "networks" "interface_name"].
Definition m_add_device_endpoints_table : migration := mkMigration "3d4e5f6a7b8c" (Some "2c1a3b5e6d7f") [
    create_table "device_endpoints" [
      Col (column "id" UUID false);
      Col (column "device_id" UUID false);
      Col (column "endpoint" (String' 255) false);
      Col (column "source" (String' 20) false);
      Col (column "port" Integer false);
      Col (column "last_seen" (DateTime true) false);
      Col (column "created_at" (DateTime true) false);
      ForeignKeyConstraint ["device_id"] "devices" ["id"];
      PrimaryKeyConstraint ["id"]]] [
    drop_table "device_endpoints"].
Definition m_add_audit_logs_table : migration := mkMigration "4a5b6c7d8e9f" (Some "3d4e5f6a7b8c") [
    create_table "audit_logs" [
      Col (column "id" UUID false);
      Col (column "actor_id" (String' 255) true);
      Col (server_default (Literal "user") (column "actor_type" (String' 20) false));
      Col (column "action" (String' 50) false);
      Col (server_default (Literal "none") (column "target_type" (String' 50) false));
      Col (column "target_id" (String' 255) true);
      Col (column "details" JSON true);
      Col (column "ip_address" (String' 45) true);
      Col (column "created_at" (DateTime true) false);
      PrimaryKeyConstraint ["id"]];
    create_index "ix_audit_logs_actor_id" "audit_logs" ["actor_id"] false;
    create_index "ix_audit_logs_action" "audit_logs" ["action"] false;
    create_index "ix_audit_logs_created_at" "audit_logs" ["created_at"] false] [
    drop_index "ix_audit_logs_created_at" "audit_logs";
    drop_index "ix_audit_logs_action" "audit_logs";
    drop_index "ix_audit_logs_actor_id" "audit_logs";
    drop_table "audit_logs"].
Definition m_add_advertised_routes_and_exit_node : migration := mkMigration "5f6a7b8c9d0e" (Some "4a5b6c7d8e9f") [
    create_table "advertised_routes" [
      Col (primary_key (column "id" UUID true));
      Col (indexed (ForeignKey "devices" "id" (column "device_id" UUID false)));
      Col (indexed (ForeignKey "networks" "id" (column "network_id" UUID false)));
      Col (column "prefix" (String' 43) false);
      Col (column "enabled" Boolean false);
      Col (column "approved" Boolean false);
      Col (column "is_exit_node" Boolean false);
      Col (column "created_at" (DateTime true) false);
      Col (column "updated_at" (DateTime true) false)];
    add_column "devices" (ForeignKey "devices" "id" (column "exit_node_id" UUID true))] [
    drop_column "devices" "exit_node_id";
    drop_table "advertised_routes"].
Definition m_add_node_owned_key_fields : migration := mkMigration "6a7b8c9d0e1f" (Some "5f6a7b8c9d0e") [
    add_column "devices" (server_default (Expression "false") (column "is_node_owned" Boolean false));
    add_column "devices" (column "device_token_hash" (String' 255) true);
    add_column "devices" (server_default (Expression "'active'") (column "enrollment_status" (String' 20) false));
    add_column "devices" (column "enrolled_at" (DateTime true) true);
    add_column "devices" (column "last_seen_at" (DateTime true) true);
    add_column "devices" (column "revoked_at" (DateTime true) true)] [
    drop_column "devices" "revoked_at";
    drop_column "devices" "last_seen_at";
    drop_column "devices" "enrolled_at";
    drop_column "devices" "enrollment_status";
    drop_column "devices" "device_token_hash";
    drop_column "devices" "is_node_owned"].
Definition m_add_topology_field_to_networks : migration := mkMigration "737e64bcc13f" (Some "8c9d0e1f2a3b") [
    add_column "device_endpoints" (column "local_ip" (String' 45) true);
    add_column "device_endpoints" (column "public_ip" (String' 45) true);
    add_column "device_endpoints" (server_default (Literal "100") (column "priority" Integer false));
    add_column "device_endpoints" (server_default (Literal "true") (column "is_active" Boolean false));
    create_index "ix_device_endpoints_device_id" "device_endpoints" ["device_id"] false;
    add_column "networks" (column "topology" (String' 10) true)] [
    drop_column "networks" "topology";
    drop_index "ix_device_endpoints_device_id" "device_endpoints";
    drop_column "device_endpoints" "is_active";
    drop_column "device_endpoints" "priority";
    drop_column "device_endpoints" "public_ip";
    drop_column "device_endpoints" "local_ip"].
Definition m_make_device_user_id_nullable : migration := mkMigration "7b8c9d0e1f2a" (Some "6a7b8c9d0e1f") [
    alter_column "devices" "user_id" true] [
    alter_column "devices" "user_id" false].
Definition m_add_device_token_prefix : migration := mkMigration "8c9d0e1f2a3b" (Some "7b8c9d0e1f2a") [
    add_column "devices" (column "device_token_prefix" (String' 16) true);
    create_index "ix_devices_device_token_prefix" "devices" ["device_token_prefix"] false] [
    drop_index "ix_devices_device_token_prefix" "devices";
    drop_column "devices" "device_token_prefix"].
Definition m_add_nat_sessions : migration := mkMigration "9d0e1f2a3b4c" (Some "c3cdac7f1f30") [
    create_table "nat_sessions" [
      Col (primary_key (column "id" UUID true));
      Col (indexed (ForeignKey "devices" "id" (column "initiator_device_id" UUID false)));
      Col (indexed (ForeignKey "devices" "id" (column "target_device_id" UUID false)));
      Col (indexed (column "state" (String' 20) false));
      Col (column "selected_candidate" JSON true);
      Col (column "connectivity_established" Boolean false);
      Col (column "extra_metadata" JSON true);
      Col (column "created_at" (DateTime true) false);
      Col (column "updated_at" (DateTime true) false);
      Col (column "expires_at" (DateTime true) false)]] [
    drop_table "nat_sessions"].
Definition m_add_relay_sessions : migration := mkMigration "ae1b2c3d4e5f" (Some "9d0e1f2a3b4c") [
    create_table "relay_sessions" [
      Col (primary_key (column "id" UUID true));
      Col (indexed (ForeignKey "devices" "id" (column "initiator_device_id" UUID false)));
      Col (indexed (ForeignKey "devices" "id" (column "target_device_id" UUID false)));
      Col (column "relay_region" (String' 64) false);
      Col (column "relay_node" (String' 128) false);
      Col (column "relay_token" (String' 255) false);
      Col (indexed (column "state" (String' 20) false));
      Col (column "bytes_tx" BigInteger false);
      Col (column "bytes_rx" BigInteger false);
      Col (column "connected_at" (DateTime true) true);
      Col (column "expires_at" (DateTime true) true);
      Col (column "created_at" (DateTime true) false);
      Col (column "updated_at" (DateTime true) false)]] [
    drop_table "relay_sessions"].
Definition m_initial : migration := mkMigration "b02bde8a120e" None [
    create_table "networks" [
      Col (column "id" UUID false);
      Col (column "name" (String' 255) false);
      Col (column "subnet" (String' 18) false);
      Col (column "description" Text true);
      Col (server_default (Expression "now()") (column "created_at" (DateTime true) false));
      PrimaryKeyConstraint ["id"]];
    create_table "users" [
      Col (column "id" UUID false);
      Col (column "email" (String' 255) false);
      Col (column "password_hash" (String' 255) false);
      Col (column "display_name" (String' 255) false);
      Col (column "is_active" Boolean false);
      Col (column "is_superuser" Boolean false);
      Col (server_default (Expression "now()") (column "created_at" (DateTime true) false));
      Col (server_default (Expression "now()") (column "updated_at" (DateTime true) false));
      PrimaryKeyConstraint ["id"]];
    create_index "ix_users_email" "users" ["email"] true;
    create_table "acl_rules" [
      Col (column "id" UUID false);
      Col (column "network_id" UUID false);
      Col (column "src_tags" JSON false);
      Col (column "dst_tags" JSON false);
      Col (column "action" (String' 10) false);
      Col (column "priority" Integer false);
      Col (server_default (Expression "now()") (column "created_at" (DateTime true) false));
      ForeignKeyConstraint ["network_id"] "networks" ["id"];
      PrimaryKeyConstraint ["id"]];
    create_table "devices" [
      Col (column "id" UUID false);
      Col (column "name" (String' 255) false);
      Col (column "user_id" UUID false);
      Col (column "network_id" UUID false);
      Col (column "public_key" Text true);
      Col (column "private_key_enc" Text true);
      Col (column "ip_address" (String' 45) true);
      Col (column "dns_enabled" Boolean false);
      Col (column "is_active" Boolean false);
      Col (column "tags" JSON true);
      Col (column "last_handshake" (DateTime true) true);
      Col (server_default (Expression "now()") (column "created_at" (DateTime true) false));
      Col (server_default (Expression "now()") (column "updated_at" (DateTime true) false));
      ForeignKeyConstraint ["network_id"] "networks" ["id"];
      ForeignKeyConstraint ["user_id"] "users" ["id"];
      PrimaryKeyConstraint ["id"]];
    create_table "dns_entries" [
      Col (column "id" UUID false);
      Col (column "network_id" UUID false);
      Col (column "domain" (String' 255) false);
      Col (column "address" (String' 45) false);
      Col (server_default (Expression "now()") (column "created_at" (DateTime true) false));
      ForeignKeyConstraint ["network_id"] "networks" ["id"];
      PrimaryKeyConstraint ["id"]];
    create_table "preauth_keys" [
      Col (column "id" UUID false);
      Col (column "key" (String' 255) false);
      Col (column "network_id" UUID false);
      Col (column "reusable" Boolean false);
      Col (column "expires_at" (DateTime true) false);
      Col (server_default (Expression "now()") (column "created_at" (DateTime true) false));
      Col (column "used_by" JSON true);
      ForeignKeyConstraint ["network_id"] "networks" ["id"];
      PrimaryKeyConstraint ["id"];
      UniqueConstraint ["key"]]] [
    drop_table "preauth_keys";
    drop_table "dns_entries";
    drop_table "devices";
    drop_table "acl_rules";
    drop_index "ix_users_email" "users";
    drop_table "users";
    drop_table "networks"].
Definition m_add_endpoint_scoring_fields : migration := mkMigration "c3cdac7f1f30" (Some "737e64bcc13f") [
    add_column "device_endpoints" (column "latency_ms" Integer true);
    add_column "device_endpoints" (server_default (Expression "false") (column "reachable" Boolean false));
    add_column "device_endpoints" (column "last_probe_at" (DateTime true) true);
    add_column "device_endpoints" (server_default (Expression "0") (column "failure_count" Integer false));
    add_column "device_endpoints" (server_default (Expression "0") (column "success_count" Integer false));
    add_column "device_endpoints" (server_default (Expression "0") (column "score" Integer false))] [
    drop_column "device_endpoints" "score";
    drop_column "device_endpoints" "success_count";
    drop_column "device_endpoints" "failure_count";
    drop_column "device_endpoints" "last_probe_at";
    drop_column "device_endpoints" "reachable";
    drop_column "device_endpoints" "latency_ms"].
Definition m_python_side_defaults : migration := mkMigration "e44cb5174045" (Some "b02bde8a120e") [] [].
(** The files of the directory, in the order of their names. *)
Definition versions : list migration := [
  m_add_owner_id_to_networks;
  m_add_interface_name_to_networks;
  m_add_device_endpoints_table;
  m_add_audit_logs_table;
  m_add_advertised_routes_and_exit_node;
  m_add_node_owned_key_fields;
  m_add_topology_field_to_networks;
  m_make_device_user_id_nullable;
  m_add_device_token_prefix;
  m_add_nat_sessions;
  m_add_relay_sessions;
  m_initial;
  m_add_endpoint_scoring_fields;
  m_python_side_defaults].

(** * The models

    The tables [Base.metadata] holds, as [create_all] would make them; the
    defaults of the models are Python's and leave no trace in a table. *)
Definition User_table : operation := create_table "users" [
  Col (primary_key (column "id" UUID false));
  Col (indexed (unique (column "email" (String' 255) false)));
  Col (column "password_hash" (String' 255) false);
  Col (column "display_name" (String' 255) false);
  Col (column "is_active" Boolean false);
  Col (column "is_superuser" Boolean false);
  Col (column "created_at" (DateTime true) false);
  Col (column "updated_at" (DateTime true) false)].
Definition Network_table : operation := create_table "networks" [
  Col (primary_key (column "id" UUID false));
  Col (column "name" (String' 255) false);
  Col (column "subnet" (String' 18) false);
  Col (column "description" Text true);
  Col (column "interface_name" (String' 15) true);
  Col (column "topology" (String' 10) true);
  Col (indexed (ForeignKey "users" "id" (column "owner_id" UUID true)));
  Col (column "created_at" (DateTime true) false)].
Definition Device_table : operation := create_table "devices" [
  Col (primary_key (column "id" UUID false));
  Col (column "name" (String' 255) false);
  Col (ForeignKey "users" "id" (column "user_id" UUID true));
  Col (ForeignKey "networks" "id" (column "network_id" UUID false));
  Col (column "public_key" Text true);
  Col (column "private_key_enc" Text true);
  Col (column "ip_address" (String' 45) true);
  Col (column "dns_enabled" Boolean false);
  Col (column "is_active" Boolean false);
  Col (column "is_node_owned" Boolean false);
  Col (column "device_token_hash" (String' 255) true);
  Col (indexed (column "device_token_prefix" (String' 16) true));
  Col (column "enrollment_status" (String' 20) false);
  Col (column "enrolled_at" (DateTime true) true);
  Col (column "last_seen_at" (DateTime true) true);
  Col (column "revoked_at" (DateTime true) true);
  Col (column "tags" JSON true);
  Col (column "last_handshake" (DateTime true) true);
  Col (ForeignKey "devices" "id" (column "exit_node_id" UUID true));
  Col (column "created_at" (DateTime true) false);
  Col (column "updated_at" (DateTime true) false)].
Definition PreAuthKey_table : operation := create_table "preauth_keys" [
  Col (primary_key (column "id" UUID false));
  Col (unique (column "key" (String' 255) false));
  Col (ForeignKey "networks" "id" (column "network_id" UUID false));
  Col (column "reusable" Boolean false);
  Col (column "expires_at" (DateTime true) false);
  Col (column "created_at" (DateTime true) false);
  Col (column "used_by" JSON true)].
Definition ACLRule_table : operation := create_table "acl_rules" [
  Col (primary_key (column "id" UUID false));
  Col (ForeignKey "networks" "id" (column "network_id" UUID false));
  Col (column "src_tags" JSON false);
  Col (column "dst_tags" JSON false);
  Col (column "action" (String' 10) false);
  Col (column "priority" Integer false);
  Col (column "created_at" (DateTime true) false)].
Definition DNSEntry_table : operation := create_table "dns_entries" [
  Col (primary_key (column "id" UUID false));
  Col (ForeignKey "networks" "id" (column "network_id" UUID false));
  Col (column "domain" (String' 255) false);
  Col (column "address" (String' 45) false);
  Col (column "created_at" (DateTime true) false)].
Definition DeviceEndpoint_table : operation := create_table "device_endpoints" [
  Col (primary_key (column "id" UUID false));
  Col (indexed (ForeignKey "devices" "id" (column "device_id" UUID false)));
  Col (column "endpoint" (String' 255) false);
  Col (column "source" (String' 20) false);
  Col (column "port" Integer false);
  Col (column "local_ip" (String' 45) true);
  Col (column "public_ip" (String' 45) true);
  Col (column "priority" Integer false);
  Col (column "is_active" Boolean false);
  Col (column "last_seen" (DateTime true) false);
  Col (column "latency_ms" Integer true);
  Col (column "reachable" Boolean false);
  Col (column "last_probe_at" (DateTime true) true);
  Col (column "failure_count" Integer false);
  Col (column "success_count" Integer false);
  Col (column "score" Integer false);
  Col (column "created_at" (DateTime true) false)].
Definition AuditLog_table : operation := create_table "audit_logs" [
  Col (primary_key (column "id" UUID false));
  Col (indexed (column "actor_id" (String' 255) true));
  Col (column "actor_type" (String' 20) false);
  Col (indexed (column "action" (String' 50) false));
  Col (column "target_type" (String' 50) false);
  Col (column "target_id" (String' 255) true);
  Col (column "details" JSON true);
  Col (column "ip_address" (String' 45) true);
  Col (indexed (column "created_at" (DateTime true) false))].
Definition AdvertisedRoute_table : operation := create_table "advertised_routes" [
  Col (primary_key (column "id" UUID false));
  Col (indexed (ForeignKey "devices" "id" (column "device_id" UUID false)));
  Col (indexed (ForeignKey "networks" "id" (column "network_id" UUID false)));
  Col (column "prefix" (String' 43) false);
  Col (column "enabled" Boolean false);
  Col (column "approved" Boolean false);
  Col (column "is_exit_node" Boolean false);
  Col (column "created_at" (DateTime true) false);
  Col (column "updated_at" (DateTime true) false)].
Definition NATSession_table : operation := create_table "nat_sessions" [
  Col (primary_key (column "id" UUID false));
  Col (indexed (ForeignKey "devices" "id" (column "initiator_device_id" UUID false)));
  Col (indexed (ForeignKey "devices" "id" (column "target_device_id" UUID false)));
  Col (indexed (column "state" (String' 20) false));
  Col (column "selected_candidate" JSON true);
  Col (column "connectivity_established" Boolean false);
  Col (column "extra_metadata" JSON true);
  Col (column "created_at" (DateTime true) false);
  Col (column "updated_at" (DateTime true) false);
  Col (column "expires_at" (DateTime true) false)].
Definition RelaySession_table : operation := create_table "relay_sessions" [
  Col (primary_key (column "id" UUID false));
  Col (indexed (ForeignKey "devices" "id" (column "initiator_device_id" UUID false)));
  Col (indexed (ForeignKey "devices" "id" (column "target_device_id" UUID false)));
  Col (column "relay_region" (String' 64) false);
  Col (column "relay_node" (String' 128) false);
  Col (column "relay_token" (String' 255) false);
  Col (indexed (column "state" (String' 20) false));
  Col (column "bytes_tx" BigInteger false);
  Col (column "bytes_rx" BigInteger false);
  Col (column "connected_at" (DateTime true) true);
  Col (column "expires_at" (DateTime true) true);
  Col (column "created_at" (DateTime true) false);
  Col (column "updated_at" (DateTime true) false)].
Definition metadata : list operation := [
  User_table; Network_table; Device_table; PreAuthKey_table; ACLRule_table; DNSEntry_table; DeviceEndpoint_table; AuditLog_table; AdvertisedRoute_table; NATSession_table; RelaySession_table].

(** * Running them ([env.py], [alembic upgrade head], [alembic downgrade])

    Alembic keeps the revision it is at next to the tables.  The migrations
    from there on are those that revise it, one after the other; with
    PostgreSQL they run in one transaction. *)
Record deployed := mkDeployed { at_revision : option string; tables : database }.
Definition fresh_database : deployed := mkDeployed None ∅.
Definition next_migration (v : option string) : option migration :=
  find (fun m => bool_decide (down_revision m = v)) versions.
Fixpoint path_from (fuel : nat) (v : option string) : list migration :=
  match fuel with
  | O => []
  | S fuel =>
    match next_migration v with
    | Some m => m :: path_from fuel (Some (revision m))
    | None => []
    end
  end.
Definition path (v : option string) : list migration := path_from (length versions) v.
Definition current (v : option string) : option migration := find (fun m => bool_decide (Some (revision m) = v)) versions.

Section Alembic.
Context (value_of : string -> string).
Definition run_migrations (target : option string) (os : list operation) (d : deployed) : option ddl_error * deployed :=
  match run_ops value_of os (tables d) with
  | inr db => (None, mkDeployed target db)
  | inl e => (Some e, d)
  end.
Definition upgrade_head (d : deployed) : option ddl_error * deployed :=
  let ms := path (at_revision d) in
  run_migrations (match last ms with Some m => Some (revision m) | None => at_revision d end) (concat (upgrade <$> ms)) d.
(** [alembic downgrade -1]. *)
Definition downgrade_one (d : deployed) : option ddl_error * deployed :=
  match current (at_revision d) with
  | Some m => run_migrations (down_revision m) (downgrade m) d
  | None => (None, d)
  end.
Definition create_all (db : database) : result database := run_ops value_of metadata db.
End Alembic.

(** What PostgreSQL keeps of a default does not distinguish two tables for the
    ORM, which always gives a value. *)
Definition forget_defaults (s : table) : table :=
  mkTable ((fun d => mkDef (def_type d) (def_nullable d) None) <$> t_columns s) (t_keys s) (t_foreign s) (t_indexes s) (t_rows s).

(** * What the tables say of the rows *)
Definition shape (s : table) : table := mkTable (t_columns s) (t_keys s) (t_foreign s) (t_indexes s) [].
Abbreviation shapes db := (shape <$> (db : database)).
(** A row has the columns of its table, and a value where the column asks for one. *)
Definition row_ok (cs : gmap string column_def) (r : row) : Prop :=
  dom r = dom cs /\ forall c d, cs !! c = Some d -> def_nullable d = false -> exists v, r !! c = Some (Some v).
Definition conforms (db : database) : Prop := forall t s, db !! t = Some s -> Forall (row_ok (t_columns s)) (t_rows s).
(** Every row is still there, with at least the cells it had. *)
Definition extends (db db' : database) : Prop :=
  forall t s, db !! t = Some s -> exists s', db' !! t = Some s' /\ Forall2 subseteq (t_rows s) (t_rows s').
#[export] Instance extends_preorder : PreOrder extends.
Proof.
  split.
  - intros db t s Hs. exists s. split; [done|]. by apply Forall_Forall2_diag, Forall_forall.
  - intros d1 d2 d3 H12 H23 t s Hs. destruct (H12 t s Hs) as (s2 & H2 & R2). destruct (H23 t s2 H2) as (s3 & H3 & R3).
    exists s3. split; [done|]. by etrans.
Qed.

Lemma table_ext s s' : shape s = shape s' -> t_rows s = t_rows s' -> s = s'.
Proof. destruct s, s'. cbn. by intros [= -> -> -> ->] ->. Qed.

(** ** An operation sees no rows *)
Lemma existsb_shapes (f : string * table -> bool) db :
  (forall t s, f (t, shape s) = f (t, s)) -> existsb f (map_to_list (shapes db)) = existsb f (map_to_list db).
Proof.
  intros H. rewrite map_to_list_fmap. generalize (map_to_list db) as l.
  induction l as [|[t s] l IH]; [done|]. cbn. by rewrite H, IH.
Qed.
Lemma refers_shape db t s f : refers (shapes db) t (shape s) f = refers db t s f.
Proof.
  unfold refers, has_columns. rewrite lookup_fmap. destruct (String.eqb _ _); [done|]. by destruct (db !! f.2.1).
Qed.
Lemma index_taken_shape i db : index_taken i (shapes db) = index_taken i db.
Proof. by apply existsb_shapes. Qed.
Lemma free_indexes_shape ixs db : free_indexes ixs (shapes db) = free_indexes ixs db.
Proof.
  unfold free_indexes. generalize (map_to_list ixs) as l. induction l as [|i l IH]; [done|].
  cbn. by rewrite index_taken_shape, IH.
Qed.
Lemma depends_on_table_shape t db : depends_on_table t (shapes db) = depends_on_table t db.
Proof. by apply existsb_shapes. Qed.
Lemma depends_on_column_shape t c db : depends_on_column t c (shapes db) = depends_on_column t c db.
Proof. by apply existsb_shapes. Qed.
Lemma items_no_rows t items s : t_rows s = [] -> t_rows (foldl (with_item t) s items) = [].
Proof. revert s. induction items as [|[] items IH]; intros s Hs; [done|..]; apply IH; cbn; by rewrite Hs. Qed.
Lemma new_table_shape t items :
  shape (foldl (with_item t) empty_table items) = foldl (with_item t) empty_table items.
Proof. apply table_ext; [by destruct (foldl _ _ _)|]. symmetry. by apply items_no_rows. Qed.
Lemma refers_all_shape db t s fs : forallb (refers (shapes db) t (shape s)) fs = forallb (refers db t s) fs.
Proof. induction fs as [|f fs IH]; [done|]. cbn. by rewrite refers_shape, IH. Qed.

Lemma run_op_ddl value_of o db db' :
  run_op value_of o db = inr db' -> ddl value_of o db = inr db' /\ violation value_of o db = None.
Proof. unfold run_op. destruct (ddl _ o db); [done|]. destruct (violation _ _ _) eqn:E; [done|]. by intros [= ->]. Qed.
Lemma run_op_ok value_of o db db' :
  ddl value_of o db = inr db' -> violation value_of o db = None -> run_op value_of o db = inr db'.
Proof. unfold run_op. by intros -> ->. Qed.

Section Facts.
Context (value_of : string -> string).
Abbreviation ddl := (ddl value_of).
Abbreviation run_op := (run_op value_of).
Abbreviation run_ops := (run_ops value_of).

Lemma ddl_shape o db :
  ddl o (shapes db) = match ddl o db with inl e => inl e | inr db' => inr (shapes db') end.
Proof.
  destruct o as [t items|t|t c|t c|t c n|i t cs u|i t|n t r cs rs|[n|] t]; cbn; unfold with_table, guard_ddl;
    rewrite ?lookup_fmap; try done.
  - assert (is_Some (shape <$> db !! t) <-> is_Some (db !! t)) as E by apply fmap_is_Some.
    rewrite (bool_decide_ext _ _ E), free_indexes_shape. 
    set (s := foldl _ _ _). assert (shape s = s) as Hs by apply new_table_shape.
    rewrite <-(refers_all_shape db t s), Hs.
    repeat case_match; try done. by rewrite fmap_insert, Hs.
  - destruct (db !! t) as [s|]; [|done]. cbn. rewrite depends_on_table_shape. case_match; [|done]. by rewrite fmap_delete.
  - destruct (db !! t) as [s|]; [|done]. cbn. rewrite free_indexes_shape.
    change (with_column t c ?v (shape s)) with (shape (with_column t c v s)). rewrite refers_all_shape.
    repeat case_match; try done. by rewrite fmap_insert.
  - destruct (db !! t) as [s|]; [|done]. cbn. rewrite depends_on_column_shape. repeat case_match; try done. by rewrite fmap_insert.
  - destruct (db !! t) as [s|]; [|done]. cbn. case_match; [|done]. by rewrite fmap_insert.
  - destruct (db !! t) as [s|]; [|done]. cbn. rewrite index_taken_shape. unfold has_columns. cbn. repeat case_match; try done. by rewrite fmap_insert.
  - destruct (db !! t) as [s|]; [|done]. cbn. repeat case_match; try done. by rewrite fmap_insert.
  - destruct (db !! t) as [s|]; [|done]. cbn. rewrite refers_shape. repeat case_match; try done. by rewrite fmap_insert.
  - by destruct (db !! t).
Qed.
Lemma ddl_shapes o db db' : ddl o db = inr db' -> ddl o (shapes db) = inr (shapes db').
Proof. intros H. by rewrite ddl_shape, H. Qed.
Lemma run_ops_app os os' db :
  run_ops (os ++ os') db = match run_ops os db with inl e => inl e | inr db' => run_ops os' db' end.
Proof. revert db. induction os as [|o os IH]; intros db; [done|]. cbn. destruct (run_op o db); [done|]. apply IH. Qed.

(** ** Operations keep rows and columns in step *)
Lemma conforms_insert db t s :
  conforms db -> Forall (row_ok (t_columns s)) (t_rows s) -> conforms (<[t := s]> db).
Proof. intros H Hs t' s' [[<- <-]|[_ Hl]]%lookup_insert_Some; [done|]. by eapply H. Qed.
Lemma extends_insert db t s s' :
  db !! t = Some s -> Forall2 subseteq (t_rows s) (t_rows s') -> extends db (<[t := s']> db).
Proof.
  intros Hs HR t1 s1 H1. destruct (decide (t = t1)) as [<-|Hne].
  - exists s'. rewrite lookup_insert_eq. by simplify_eq.
  - exists s1. rewrite lookup_insert_ne by done. split; [done|]. by apply Forall_Forall2_diag, Forall_forall.
Qed.
Lemma same_rows (l : list row) : Forall2 subseteq l l.
Proof. by apply Forall_Forall2_diag, Forall_forall. Qed.
Lemma fresh_column c fill cs r :
  cs !! col_name c = None -> (col_nullable c = false -> is_Some fill) -> row_ok cs r ->
  row_ok (<[col_name c := def_of c]> cs) (<[col_name c := fill]> r).
Proof.
  intros Hc Hf [Hd Hn]. split; [by rewrite !dom_insert_L, Hd|]. intros c' d [[<- <-]|[Hne Hl]]%lookup_insert_Some Hnull.
  - rewrite lookup_insert_eq. destruct (Hf Hnull) as [v ->]. by exists v.
  - rewrite lookup_insert_ne by done. by eapply Hn.
Qed.
Lemma dropped_column c cs r : row_ok cs r -> row_ok (delete c cs) (delete c r).
Proof.
  intros [Hd Hn]. split; [by rewrite !dom_delete_L, Hd|]. intros c' d [Hne Hl]%lookup_delete_Some Hnull.
  rewrite lookup_delete_ne by done. by eapply Hn.
Qed.
Lemma row_fresh cs (r : row) c : row_ok cs r -> cs !! c = None -> r !! c = None.
Proof. intros [Hd _] Hc. apply not_elem_of_dom. rewrite Hd. by apply not_elem_of_dom. Qed.

Ltac ddl_cases H := cbn in H; unfold with_table, guard_ddl in H; repeat case_match; simplify_eq.
(** What an operation requires, without the rows. *)
Lemma added_column t c db db' :
  ddl (add_column t c) db = inr db' ->
  exists s, db !! t = Some s /\ t_columns s !! col_name c = None /\
    db' = <[t := with_column t c (fill_of value_of c) s]> db.
Proof.
  intros H. ddl_cases H. eexists. split_and!; [done| |done]. apply eq_None_not_Some. by eapply bool_decide_eq_false, negb_true_iff.
Qed.
Lemma not_null_ok_cell c rows r : not_null_ok c rows = true -> r ∈ rows -> exists v, r !! c = Some (Some v).
Proof.
  unfold not_null_ok. rewrite forallb_forall. intros H Hin. specialize (H r ltac:(by apply list_elem_of_In)).
  destruct (r !! c) as [[v|]|]; try done. by exists v.
Qed.
Lemma run_op_conforms o db db' : conforms db -> run_op o db = inr db' -> conforms db'.
Proof.
  intros Hc [Hd Hv]%run_op_ddl. destruct o as [t items|t|t c|t c|t c n|i t cs u|i t|n t r cs rs|[n|] t].
  3:{ apply added_column in Hd as (s & Hs & Hf & ->). apply conforms_insert; [done|]. cbn. apply Forall_fmap.
      apply Forall_forall. intros r Hin. apply fresh_column; [done| |by eapply Forall_forall; [by eapply Hc|]].
      intros Hn. cbn in Hv. rewrite Hs, Hn in Hv. destruct (fill_of value_of c) as [v|]; [by eexists|].
      cbn in Hv. case_bool_decide as Hr; [|done]. rewrite Hr in Hin. by apply not_elem_of_nil in Hin. }
  all: ddl_cases Hd.
  - apply conforms_insert; [done|]. by rewrite items_no_rows.
  - intros t' s' [_ Hl]%lookup_delete_Some. by eapply Hc.
  - apply conforms_insert; [done|]. cbn. apply Forall_fmap. eapply Forall_impl; [by eapply Hc|]. intros r. apply dropped_column.
  - apply conforms_insert; [done|]. cbn. apply Forall_forall. intros r Hin.
    eapply Forall_forall in Hin as Hr; [|by eapply Hc]. destruct Hr as [Hr Hn].
    split; [by rewrite Hr, dom_insert_lookup_L by (rewrite H0; by eexists)|].
    intros c' d' [[<- <-]|[Hne Hl]]%lookup_insert_Some Hnull; [|by eapply Hn]. cbn in Hnull. subst n. cbn in Hv.
    rewrite H in Hv. destruct (not_null_ok c _) eqn:E; [|done]. by eapply not_null_ok_cell.
  - apply conforms_insert; [done|]. cbn. by eapply Hc.
  - apply conforms_insert; [done|]. cbn. by eapply Hc.
  - apply conforms_insert; [done|]. cbn. by eapply Hc.
Qed.
Lemma run_ops_conforms os db db' : conforms db -> run_ops os db = inr db' -> conforms db'.
Proof.
  revert db. induction os as [|o os IH]; intros db Hc; cbn; [by intros [= <-]|].
  destruct (run_op o db) eqn:E; [done|]. apply IH. by eapply run_op_conforms.
Qed.
(** ** Which operations no rows stand in the way of *)
(** What is known while migrations run: the shape of the tables, tables that
    hold no rows and columns that hold no values. *)
Record facts := mkFacts { f_schema : database; f_empty : list string; f_null : list (string * string) }.
Record holds (f : facts) (db : database) : Prop := {
  holds_schema : shapes db = f_schema f;
  holds_empty : forall t s, t ∈ f_empty f -> db !! t = Some s -> t_rows s = [];
  holds_null : forall t c s, (t, c) ∈ f_null f -> db !! t = Some s -> Forall (fun r => r !! c = Some None) (t_rows s)
}.
Definition safe (f : facts) (o : operation) : bool :=
  match o with
  | create_table _ _ | alter_column _ _ true => true
  | add_column t c =>
    bool_decide (t ∈ f_empty f) ||
    (if col_server_default c then negb (bool_decide (is_Some (col_foreign_key c))) else col_nullable c)
  | create_index _ t _ u => negb u || bool_decide (t ∈ f_empty f)
  | create_foreign_key _ t _ cs _ =>
    bool_decide (t ∈ f_empty f) || existsb (fun c => bool_decide ((t, c) ∈ f_null f)) cs
  | _ => false
  end.
Definition learn (f : facts) (o : operation) (schema : database) : facts :=
  mkFacts schema
    (match o with create_table t _ => t :: f_empty f | _ => f_empty f end)
    (match o with
     | add_column t c => if col_server_default c then f_null f else (t, col_name c) :: f_null f
     | _ => f_null f
     end).
Fixpoint analyse (f : facts) (os : list operation) : option facts :=
  match os with
  | [] => Some f
  | o :: rest =>
    match ddl o (f_schema f) with
    | inr schema => if safe f o then analyse (learn f o schema) rest else None
    | inl _ => None
    end
  end.

Lemma fill_default c : col_server_default c = None -> fill_of value_of c = None.
Proof. unfold fill_of. by intros ->. Qed.
Lemma fill_some c : is_Some (col_server_default c) -> is_Some (fill_of value_of c).
Proof. unfold fill_of. intros [[v|e] ->]; by eexists. Qed.
Lemma key_null cs c (r : row) : c ∈ cs -> r !! c = Some None -> key_of cs r = None.
Proof. intros Hin Hr. apply mapM_None. apply Exists_exists. exists c. by rewrite Hr. Qed.
Lemma foreign_ok_null cs rs rows refs : Forall (fun r => key_of cs r = None) rows -> foreign_ok cs rs rows refs = true.
Proof. unfold foreign_ok. rewrite forallb_forall, Forall_forall. intros H r Hin%list_elem_of_In. by rewrite H. Qed.
Lemma shape_lookup db t s : db !! t = Some s -> shapes db !! t = Some (shape s).
Proof. intros H. by rewrite lookup_fmap, H. Qed.

Lemma nothing_known db : holds (mkFacts (shapes db) [] []) db.
Proof. split; cbn; [done|by intros t s ?%not_elem_of_nil|by intros t c s ?%not_elem_of_nil]. Qed.
Lemma safe_no_violation f o db : holds f db -> safe f o = true -> violation value_of o db = None.
Proof.
  intros [Hs He Hn] Hsafe. destruct o as [t items|t|t c|t c|t c []|i t cs u|i t|n t r cs rs|n t]; cbn in *; try done.
  - destruct (db !! t) as [s|] eqn:Et; [|done]. apply orb_true_iff in Hsafe as [Hin%bool_decide_eq_true|Hd].
    + rewrite (He t s Hin Et). cbn. rewrite andb_false_r. repeat case_match; done.
    + destruct (col_server_default c) eqn:Ed.
      * rewrite (bool_decide_eq_true_2 (is_Some (fill_of value_of c))) by (apply fill_some; by rewrite Ed).
        rewrite andb_false_r. cbn. apply negb_true_iff, bool_decide_eq_false in Hd.
        destruct (col_foreign_key c); [|done]. destruct Hd. by eexists.
      * rewrite Hd. cbn. rewrite fill_default by done. destruct (col_foreign_key c) as [[r rc]|]; [|done].
        case_match; [|done]. rewrite foreign_ok_null; [done|]. apply Forall_fmap, Forall_forall. intros x _. unfold compose.
        apply (key_null _ (col_name c)); [by constructor|]. by rewrite lookup_insert_eq.
  - destruct u; [|done]. destruct (db !! t) as [s|] eqn:Et; [|done]. apply bool_decide_eq_true in Hsafe.
    by rewrite (He t s Hsafe Et).
  - destruct (db !! t) as [s|] eqn:Et; [|done]. destruct (db !! r) as [q|]; [|done].
    rewrite foreign_ok_null; [done|]. apply orb_true_iff in Hsafe as [Hin%bool_decide_eq_true|Hex].
    + by rewrite (He t s Hin Et).
    + apply existsb_exists in Hex as (c & Hc%list_elem_of_In & Hin%bool_decide_eq_true).
      eapply Forall_impl; [by apply (Hn t c)|]. intros x. by apply key_null.
Qed.

(** What such an operation keeps. *)
Lemma safe_extends f o db db' : conforms db -> safe f o = true -> ddl o db = inr db' -> extends db db'.
Proof.
  intros Hc Hsafe Hd. destruct o as [t items|t|t c|t c|t c []|i t cs u|i t|n t r cs rs|n t]; try done.
  2:{ apply added_column in Hd as (s & Hs & Hf & ->). eapply extends_insert; [done|]. cbn. apply Forall2_fmap_r.
      apply Forall_Forall2_diag. eapply Forall_impl; [by eapply Hc|]. intros r Hr. apply insert_subseteq. by eapply row_fresh. }
  all: ddl_cases Hd.
  - intros t' s' Hl. exists s'. split; [|apply same_rows]. rewrite lookup_insert_ne; [done|]. intros ->.
    rewrite bool_decide_eq_true_2 in H; [done|]. by eexists.
  - eapply extends_insert; [done|apply same_rows].
  - eapply extends_insert; [done|apply same_rows].
  - eapply extends_insert; [done|apply same_rows].
Qed.
Lemma learn_holds f o db db' :
  conforms db -> holds f db -> safe f o = true -> ddl o db = inr db' -> holds (learn f o (shapes db')) db'.
Proof.
  intros Hc [Hs He Hn] Hsafe Hd. destruct o as [t items|t|t c|t c|t c []|i t cs u|i t|n t r cs rs|n t]; try done.
  2:{ apply added_column in Hd as (s & Hl & Hf & ->). split; [done|..]; cbn.
      - intros t' s' Hin [[<- <-]|[_ Hl']]%lookup_insert_Some; [|by eapply He]. cbn. by rewrite (He t s).
      - intros t' c' s' Hin [[<- <-]|[Hne Hl']]%lookup_insert_Some.
        + cbn. apply Forall_fmap.
          assert ((t, c') ∈ f_null f \/ (c' = col_name c /\ fill_of value_of c = None)) as [Hk|[-> ->]].
          { destruct (col_server_default c) eqn:Ed; [by left|].
            apply elem_of_cons in Hin as [[= ->]|]; [right|by left]. by rewrite fill_default. }
          * apply Forall_forall. intros r Hr. unfold compose. eapply (Forall_forall _ _) in Hr as Hr0; [|by eapply Hc].
            pose proof (Hn t c' s Hk Hl) as HN. rewrite Forall_forall in HN. specialize (HN r Hr).
            rewrite lookup_insert_ne; [done|]. intros <-. by rewrite (row_fresh _ _ _ Hr0 Hf) in HN.
          * apply Forall_forall. intros r _. unfold compose. by rewrite lookup_insert_eq.
        + assert ((t', c') ∈ f_null f) as Hk; [|by eapply Hn].
          destruct (col_server_default c); [done|]. apply elem_of_cons in Hin as [[= ->]|]; done. }
  all: ddl_cases Hd; split; cbn; try done.
  - intros t' s' Hin [[<- <-]|[Hne Hl]]%lookup_insert_Some; [by apply items_no_rows|].
    apply elem_of_cons in Hin as [->|]; [done|by eapply He].
  - intros t' c' s' Hin [[<- <-]|[Hne Hl]]%lookup_insert_Some; [by rewrite items_no_rows|by eapply Hn].
  - intros t' s' Hin [[<- <-]|[Hne Hl]]%lookup_insert_Some; cbn; by eapply He.
  - intros t' c' s' Hin [[<- <-]|[Hne Hl]]%lookup_insert_Some; cbn; by eapply Hn.
  - intros t' s' Hin [[<- <-]|[Hne Hl]]%lookup_insert_Some; cbn; by eapply He.
  - intros t' c' s' Hin [[<- <-]|[Hne Hl]]%lookup_insert_Some; cbn; by eapply Hn.
  - intros t' s' Hin [[<- <-]|[Hne Hl]]%lookup_insert_Some; cbn; by eapply He.
  - intros t' c' s' Hin [[<- <-]|[Hne Hl]]%lookup_insert_Some; cbn; by eapply Hn.
Qed.
(** The analysis is sound: what it accepts runs on any rows, and keeps them. *)
Lemma analyse_sound os f f' db :
  conforms db -> holds f db -> analyse f os = Some f' ->
  exists db', run_ops os db = inr db' /\ holds f' db' /\ conforms db' /\ extends db db'.
Proof.
  revert f db. induction os as [|o os IH]; intros f db Hc Hf; cbn; [intros [= <-]; by exists db|].
  rewrite <-(holds_schema _ _ Hf), ddl_shape. destruct (ddl o db) as [e|db1] eqn:Hd; [done|].
  destruct (safe f o) eqn:Hs; [|done]. intros Ha. pose proof (safe_no_violation _ _ _ Hf Hs) as Hv.
  pose proof (run_op_ok _ _ _ _ Hd Hv) as Hr. rewrite Hr.
  destruct (IH (learn f o (shapes db1)) db1) as (db' & ? & ? & ? & Hx); [by eapply run_op_conforms|by eapply learn_holds|done|].
  exists db'. split_and!; [done..|]. etrans; [by eapply safe_extends|done].
Qed.

Lemma violation_shapes o db : violation value_of o (shapes db) = None.
Proof.
  destruct o as [t items|t|t c|t c|t c []|i t cs []|i t|n t r cs rs|n t]; cbn; rewrite ?lookup_fmap; try done.
  - destruct (db !! t) as [s|]; [|done]. cbn. rewrite andb_false_r. repeat case_match; done.
  - by destruct (db !! t).
  - by destruct (db !! t).
  - by destruct (db !! t), (db !! r).
Qed.
Lemma run_ops_shapes os db db' : run_ops os db = inr db' -> run_ops os (shapes db) = inr (shapes db').
Proof.
  revert db. induction os as [|o os IH]; intros db; cbn; [by intros [= <-]|].
  destruct (run_op o db) as [e|db1] eqn:E; [done|]. apply run_op_ddl in E as [Hd _].
  rewrite (run_op_ok _ _ _ (shapes db1)); [apply IH|by apply ddl_shapes|apply violation_shapes].
Qed.

(** ** Operations taken back *)
Definition inverse (o : operation) : option operation :=
  match o with
  | create_table t _ => Some (drop_table t)
  | add_column t c => Some (drop_column t (col_name c))
  | alter_column t c true => Some (alter_column t c false)
  | create_index i t _ _ => Some (drop_index i t)
  | _ => None
  end.
Lemma database_ext (d1 d2 : database) :
  shapes d1 = shapes d2 -> (forall t s1 s2, d1 !! t = Some s1 -> d2 !! t = Some s2 -> t_rows s1 = t_rows s2) -> d1 = d2.
Proof.
  intros Hs Hr. apply map_eq. intros t. pose proof (f_equal (lookup t) Hs) as H. rewrite !lookup_fmap in H.
  destruct (d1 !! t) as [s1|] eqn:E1, (d2 !! t) as [s2|] eqn:E2; try done. f_equal. cbn in H. apply table_ext; [congruence|].
  by eapply Hr.
Qed.
Lemma undo_op o o' db db' :
  conforms db -> run_op o db = inr db' -> inverse o = Some o' -> ddl o' (shapes db') = inr (shapes db) ->
  run_op o' db' = inr db.
Proof.
  intros Hc [Hd Hv]%run_op_ddl Hi Hu. rewrite ddl_shape in Hu. destruct (ddl o' db') as [e|db2] eqn:Hd'; [done|].
  injection Hu as Hu.
  assert (violation value_of o' db' = None /\ forall t s1 s2, db2 !! t = Some s1 -> db !! t = Some s2 -> t_rows s1 = t_rows s2)
    as [Hv' Hrows]; [|apply run_op_ok; [by rewrite Hd', (database_ext db2 db)|done]].
  destruct o as [t items|t|t c|t c|t c []|i t cs u|i t|n t r cs rs|n t]; cbn in Hi; simplify_eq.
  - split; [done|]. ddl_cases Hd. ddl_cases Hd'. intros t' s1 s2 [Hne L1]%lookup_delete_Some L2.
    rewrite lookup_insert_ne in L1 by done. by simplify_eq.
  - split; [done|]. apply added_column in Hd as (s & Hs & Hf & ->). ddl_cases Hd'.
    intros t' s1 s2 [[<- <-]|[Hne L1]]%lookup_insert_Some L2.
    + rewrite lookup_insert_eq in H. simplify_eq. cbn. rewrite <-list_fmap_compose.
      transitivity (id <$> t_rows s); [|apply list_fmap_id]. apply Forall_fmap_ext_1. eapply Forall_impl; [by eapply Hc|]. intros r Hr. cbn.
      rewrite delete_insert_id; [done|]. by eapply row_fresh.
    + rewrite lookup_insert_ne in L1 by done. by simplify_eq.
  - ddl_cases Hd. cbn in Hd'. unfold with_table in Hd'. rewrite lookup_insert_eq in Hd'. cbn in Hd'.
    rewrite lookup_insert_eq in Hd'. injection Hd' as <-.
    pose proof (f_equal (lookup t) Hu) as Ht. rewrite lookup_fmap, lookup_insert_eq, lookup_fmap, H in Ht.
    assert (def_nullable c0 = false) as Hnull.
    { apply (f_equal (fmap (fun x => t_columns x !! c))) in Ht. cbn in Ht. rewrite lookup_insert_eq, H0 in Ht. injection Ht as Ht. by rewrite <-Ht. }
    split.
    + cbn. rewrite lookup_insert_eq. cbn [with_nullable t_rows].
      assert (not_null_ok c (t_rows t0) = true) as ->; [|done]. apply forallb_forall. intros r Hin%list_elem_of_In. pose proof (Hc _ _ H) as HF. rewrite Forall_forall in HF.
      destruct (HF r Hin) as [_ Hn]. by destruct (Hn c c0 H0 Hnull) as [v ->].
    + intros t' s1 s2 [[<- <-]|[Hne L1]]%lookup_insert_Some L2; [by simplify_eq|].
      rewrite lookup_insert_ne in L1 by done. by simplify_eq.
  - split; [done|]. ddl_cases Hd. ddl_cases Hd'. intros t' s1 s2 [[<- <-]|[Hne L1]]%lookup_insert_Some L2.
    + by simplify_map_eq.
    + by simplify_map_eq.
Qed.
(** A list of operations and, in its order, those that take them back. *)
Fixpoint undoes (os undo : list operation) (schema : database) : bool :=
  match os, undo with
  | [], [] => true
  | o :: os, o' :: undo =>
    bool_decide (inverse o = Some o') &&
    match run_op o schema with
    | inr schema' =>
      match ddl o' schema' with inr s => bool_decide (s = schema) | inl _ => false end && undoes os undo schema'
    | inl _ => false
    end
  | _, _ => false
  end.
Lemma undoes_sound os undo db db' :
  conforms db -> undoes os undo (shapes db) = true -> run_ops os db = inr db' -> run_ops (reverse undo) db' = inr db.
Proof.
  revert undo db. induction os as [|o os IH]; intros [|o' undo] db Hc; [cbn; by intros _ [= ->]|done..|]. cbn [undoes]. intros H Hrun. cbn in Hrun. revert H Hrun.
  intros [Hi%bool_decide_eq_true Hrest]%andb_true_iff Hr. destruct (run_op o db) as [e|db1] eqn:E; [done|].
  assert (run_ops [o] (shapes db) = inr (shapes db1)) as Es by (apply run_ops_shapes; cbn; by rewrite E). cbn in Es.
  destruct (run_op o (shapes db)) as [|db1']; [done|]. injection Es as ->.
  apply andb_true_iff in Hrest as [Hback Hrest]. destruct (ddl o' (shapes db1)) as [|s] eqn:Ed; [done|].
  apply bool_decide_eq_true in Hback as ->. rewrite reverse_cons, run_ops_app.
  rewrite (IH undo db1); [|by eapply run_op_conforms|done..]. cbn. by rewrite (undo_op o o' db db1).
Qed.
End Facts.

(** * Deployments

    What becomes of a database: it starts empty, is migrated step by step (each
    step was the newest once), taken back where that succeeds, and written to
    in between, within what its columns ask for. *)
Section Life.
Context (value_of : string -> string).
(** [alembic upgrade +1]. *)
Definition upgrade_one (d : deployed) : option ddl_error * deployed :=
  match next_migration (at_revision d) with
  | Some m => run_migrations value_of (Some (revision m)) (upgrade m) d
  | None => (None, d)
  end.
Inductive life : deployed -> Prop :=
  | life_fresh : life fresh_database
  | life_upgrade d e d' : life d -> upgrade_one d = (e, d') -> life d'
  | life_downgrade d e d' : life d -> downgrade_one value_of d = (e, d') -> life d'
  | life_write d db : life d -> shapes db = shapes (tables d) -> conforms db -> life (mkDeployed (at_revision d) db).

(** The tables of each revision. *)
Fixpoint schemas_from (ms : list migration) (v : option string) (db : database) : list (option string * database) :=
  (v, db) ::
  match ms with
  | [] => []
  | m :: rest =>
    match run_ops value_of (upgrade m) db with
    | inr db' => schemas_from rest (Some (revision m)) db'
    | inl _ => []
    end
  end.
Definition schemas : list (option string * database) := schemas_from (path None) None ∅.
Definition settles (os : list operation) (v : option string) (schema : database) : bool :=
  match run_ops value_of os schema with
  | inr schema' => bool_decide ((v, schema') ∈ schemas)
  | inl _ => true
  end.
Lemma schemas_closed : forallb (fun x =>
    match next_migration x.1 with Some m => settles (upgrade m) (Some (revision m)) x.2 | None => true end &&
    match current x.1 with Some m => settles (downgrade m) (down_revision m) x.2 | None => true end) schemas = true.
Proof. vm_compute. reflexivity. Qed.

Lemma in_schemas {P : option string * database -> bool} x : forallb P schemas = true -> x ∈ schemas -> P x = true.
Proof. rewrite forallb_forall. intros H Hin%list_elem_of_In. by apply H. Qed.
Record settled (d : deployed) : Prop := {
  settled_shape : (at_revision d, shapes (tables d)) ∈ schemas;
  settled_rows : conforms (tables d)
}.
Lemma settled_run d os v e d' :
  settled d -> settles os v (shapes (tables d)) = true -> run_migrations value_of v os d = (e, d') -> settled d'.
Proof.
  intros [Hs Hc] Hset. unfold run_migrations. destruct (run_ops value_of os (tables d)) as [|db] eqn:E; intros [= <- <-]; [done|].
  split; cbn; [|by eapply run_ops_conforms]. apply run_ops_shapes in E. unfold settles in Hset. rewrite E in Hset.
  by apply bool_decide_eq_true in Hset.
Qed.
Lemma life_settled d : life d -> settled d.
Proof.
  induction 1 as [|d e d' _ IH Hu|d e d' _ IH Hd|d db _ [Hs Hc] Hsh Hdb].
  - split; cbn; [|by intros t s]. rewrite fmap_empty. unfold schemas. destruct (path None); by constructor.
  - pose proof (in_schemas _ schemas_closed (settled_shape _ IH)) as [Hs _]%andb_true_iff. unfold upgrade_one in Hu.
    destruct (next_migration _); [by eapply settled_run|by injection Hu as _ <-].
  - pose proof (in_schemas _ schemas_closed (settled_shape _ IH)) as [_ Hs]%andb_true_iff. unfold downgrade_one in Hd.
    destruct (current _); [by eapply settled_run|by injection Hd as _ <-].
  - split; cbn; [|done]. by rewrite Hsh.
Qed.

Definition head : option string := revision <$> last (path None).
Definition reaches_models (x : option string * database) : bool :=
  match analyse value_of (mkFacts x.2 [] []) (concat (upgrade <$> path x.1)), create_all value_of ∅ with
  | Some f, inr models =>
    bool_decide (forget_defaults <$> f_schema f = forget_defaults <$> models) &&
    bool_decide (match last (path x.1) with Some m => Some (revision m) | None => x.1 end = head)
  | _, _ => false
  end.
Lemma schemas_analysed : forallb reaches_models schemas = true.
Proof. vm_compute. reflexivity. Qed.
Definition taken_back (m : migration) (x : option string * database) : bool :=
  bool_decide (current (Some (revision m)) = Some m) && bool_decide (down_revision m = x.1) &&
  (if bool_decide (Some (revision m) = head)
   then match downgrade m with drop_constraint None _ :: _ => true | _ => false end
   else undoes value_of (upgrade m) (reverse (downgrade m)) x.2).
Lemma schemas_undone :
  forallb (fun x => match next_migration x.1 with Some m => taken_back m x | None => true end) schemas = true.
Proof. vm_compute. reflexivity. Qed.

(** * Properties *)

(** C5. However old a deployment is and whatever it holds, the migrations it still
    lacks run to the newest one; its tables are then those the models declare
    (defaults, which the ORM does not use, aside), no row is lost or loses a
    cell, and every row has what its columns ask for. *)
Theorem upgrade_reaches_models d :
  life d ->
  exists d' models, upgrade_head value_of d = (None, d') /\ at_revision d' = head /\
    create_all value_of ∅ = inr models /\ forget_defaults <$> shapes (tables d') = forget_defaults <$> models /\
    conforms (tables d') /\ extends (tables d) (tables d').
Proof.
  intros [Hs Hc]%life_settled. pose proof (in_schemas _ schemas_analysed Hs) as Ha.
  unfold reaches_models in Ha. cbn [fst snd] in Ha.
  destruct (analyse _ _ _) as [f|] eqn:E; [|discriminate Ha].
  destruct (create_all value_of ∅) as [|models]; [discriminate Ha|].
  apply andb_true_iff in Ha as [Hm%bool_decide_eq_true Hh%bool_decide_eq_true].
  destruct (analyse_sound value_of _ _ _ (tables d) Hc (nothing_known _) E) as (db & Hr & Hf & Hdb & Hx).
  exists (mkDeployed head db), models. unfold upgrade_head, run_migrations. rewrite Hr, Hh. split_and!; try done.
  cbn. by rewrite (holds_schema _ _ Hf).
Qed.

(** C40. Every step but the last can be taken back, and then leaves the database it
    was made from, rows included; the last one cannot, since its constraint has
    no name, and no deployment gets off the newest revision again. *)
Theorem downgrade_undoes_upgrade d d' :
  life d -> is_Some (next_migration (at_revision d)) -> upgrade_one d = (None, d') ->
  downgrade_one value_of d' = if decide (at_revision d' = head) then (Some NamelessConstraint, d') else (None, d).
Proof.
  intros [Hs Hc]%life_settled [m Hm] Hu. pose proof (in_schemas _ schemas_undone Hs) as Hund.
  cbn [fst snd] in Hund.
  unfold upgrade_one, run_migrations in Hu. rewrite Hm in Hu, Hund.
  destruct (run_ops _ _ (tables d)) as [|db] eqn:E; [done|]. injection Hu as <-.
  unfold taken_back in Hund. apply andb_true_iff in Hund as [[Hcur%bool_decide_eq_true Hdown%bool_decide_eq_true]%andb_true_iff Hund].
  unfold downgrade_one. cbn [at_revision tables]. rewrite Hcur. case_decide as Hhead.
  - rewrite bool_decide_eq_true_2 in Hund by done. unfold run_migrations.
    clear -Hund. destruct (downgrade m) as [|[| | | | | | | |[n|] t] os]; try discriminate Hund. reflexivity.
  - rewrite bool_decide_eq_false_2 in Hund by done. unfold run_migrations. cbn [tables].
    pose proof (undoes_sound value_of _ _ _ db Hc Hund E) as Hback. rewrite reverse_involutive in Hback.
    rewrite Hback, Hdown. by destruct d.
Qed.
End Life.

(** * Witnesses *)
Definition filled_row (cs : gmap string column_def) (v : string) : row := (fun _ => Some v) <$> cs.
Lemma filled_row_ok cs v : row_ok cs (filled_row cs v).
Proof. split; [apply dom_fmap_L|]. intros c d Hc _. exists v. unfold filled_row. by rewrite lookup_fmap, Hc. Qed.
(** A row more in the table [t]. *)
Definition insert_row (t v : string) (d : deployed) : deployed :=
  mkDeployed (at_revision d) (alter (fun s =>
    mkTable (t_columns s) (t_keys s) (t_foreign s) (t_indexes s) (filled_row (t_columns s) v :: t_rows s)) t (tables d)).
Lemma life_insert value_of t v d : life value_of d -> life value_of (insert_row t v d).
Proof.
  intros Hl. pose proof (settled_rows _ _ (life_settled _ _ Hl)) as Hc. apply life_write; [done|..].
  - apply map_eq. intros t'. rewrite !lookup_fmap. destruct (decide (t = t')) as [<-|].
    + rewrite lookup_alter_eq. by destruct (tables d !! t).
    + by rewrite lookup_alter_ne.
  - intros t' s. destruct (decide (t = t')) as [<-|].
    + rewrite lookup_alter_eq. destruct (tables d !! t) as [s0|] eqn:E; [|done]. intros [= <-]. constructor; [apply filled_row_ok|].
      exact (Hc _ _ E).
    + rewrite lookup_alter_ne by done. apply Hc.
Qed.
(** A deployment of the fourth revision with a user, a network and a device. *)
Fixpoint upgrades (n : nat) (d : deployed) : deployed := match n with O => d | S n => upgrades n (upgrade_one id d).2 end.
Lemma life_upgrades n d : life id d -> life id (upgrades n d).
Proof.
  revert d. induction n as [|n IH]; intros d Hl; [done|]. apply IH. eapply (life_upgrade _ d (upgrade_one id d).1); [done|].
  by destruct (upgrade_one id d).
Qed.
Definition old_deployment : deployed := insert_row "devices" "d" (insert_row "networks" "n" (insert_row "users" "u" (upgrades 4 fresh_database))).
Lemma old_life : life id old_deployment.
Proof. do 3 apply life_insert. apply life_upgrades, life_fresh. Qed.
Lemma upgrade_reaches_models_witness :
  at_revision old_deployment = Some "3d4e5f6a7b8c" /\
  (length ∘ t_rows <$> tables old_deployment !! "devices") = Some 1%nat /\
  exists d' models, upgrade_head id old_deployment = (None, d') /\ at_revision d' = head /\
    create_all id ∅ = inr models /\ forget_defaults <$> shapes (tables d') = forget_defaults <$> models /\
    conforms (tables d') /\ extends (tables old_deployment) (tables d').
Proof. split; [vm_compute; reflexivity|]. split; [vm_compute; reflexivity|]. exact (upgrade_reaches_models id old_deployment old_life). Defined.
Lemma downgrade_undoes_upgrade_witness :
  let d := insert_row "devices" "e" (upgrades 6 old_deployment) in
  at_revision d = Some "737e64bcc13f" /\ downgrade_one id (upgrade_one id d).2 = (None, d).
Proof.
  set (d := insert_row _ _ _). split; [vm_compute; reflexivity|].
  pose proof (downgrade_undoes_upgrade id d (upgrade_one id d).2 (life_insert _ _ _ _ (life_upgrades 6 _ old_life))) as H.
  assert ((upgrade_one id d).1 = None) as E by (vm_compute; reflexivity).
  assert (at_revision (upgrade_one id d).2 <> head) as Hh by (vm_compute; discriminate).
  rewrite decide_False in H by exact Hh. apply H; [vm_compute; by eexists|]. rewrite <-E. by destruct (upgrade_one id d).
Defined.
