(* ===== verification/Schemas.v ===== *)
(** The request bodies and answers of the HTTP interface: [app/schemas/*.py].

    A request class is the list of its fields with their types, defaults and
    constraints.  pydantic, which reads a body by them, is outside: how it takes
    a value for a type, matches a pattern and writes an instant is the class
    [Pydantic], and what the code relies on is [PydanticLaws].  An answer class
    is the JSON of the row or record it is made from. *)
From Stdlib Require Import Ascii.
From S2P Require Import Prelude PyStr Bytes Json PyJson Models Effects Nat ConfigV2 Uuid DaemonSvc DevicesApi NetworksApi RoutesApi SessionsApi PolicyApi.
Local Open Scope string_scope.
Local Open Scope list_scope.
Local Open Scope Z_scope.

(** * Fields *)
Inductive field_type := TStr | TInt | TBool | TUuid | TDict | TList (t : field_type) | TOptional (t : field_type).
Record Field := mkField {
  f_name : string;
  f_type : field_type;
  f_default : option json;                  (* [None]: the field is required *)
  f_min_length : option Z;
  f_max_length : option Z;
  f_pattern : option string;
  f_ge : option Z;
  f_le : option Z
}.
Definition field (name : string) (type : field_type) : Field := mkField name type None None None None None None.
Definition default_is (d : json) (f : Field) : Field :=
  mkField (f_name f) (f_type f) (Some d) (f_min_length f) (f_max_length f) (f_pattern f) (f_ge f) (f_le f).
Definition length_in (lo hi : option Z) (f : Field) : Field :=
  mkField (f_name f) (f_type f) (f_default f) lo hi (f_pattern f) (f_ge f) (f_le f).
Definition pattern (p : string) (f : Field) : Field :=
  mkField (f_name f) (f_type f) (f_default f) (f_min_length f) (f_max_length f) (Some p) (f_ge f) (f_le f).
Definition in_range (lo hi : Z) (f : Field) : Field :=
  mkField (f_name f) (f_type f) (f_default f) (f_min_length f) (f_max_length f) (f_pattern f) (Some lo) (Some hi).
(** [Optional[t] = None] *)
Definition optional (name : string) (type : field_type) : Field := default_is JNull (field name (TOptional type)).

(** A JSON value that is of a type as it stands. *)
Fixpoint has_type (t : field_type) (j : json) : bool :=
  match t, j with
  | TStr, JStr _ | TInt, JInt _ | TBool, JBool _ | TDict, JObj _ => true
  | TUuid, JStr s => bool_decide (UUID s = Ok s)
  | TList t, JArr l => forallb (has_type t) l
  | TOptional _, JNull => true
  | TOptional t, j => has_type t j
  | _, _ => false
  end.
(** A number written with digits after the point that are not all zero. *)
Definition has_fraction (literal : string) : bool :=
  match rsplit1 "." literal with
  | Some (_, digits) => str_forall is_digit digits && negb (str_forall (fun c => Ascii.eqb c "0") digits)
  | None => false
  end.
Class Pydantic := {
  coerce : field_type -> json -> option json;          (* the value taken for the type *)
  search : string -> string -> bool;                   (* does the pattern match? *)
  time_text : Z -> string;                             (* an instant in an answer *)
  (** what is said of the parameters and the body of a request that is refused *)
  error_list : string -> list (string * string) -> option json -> list json
}.
Class PydanticLaws `(P : Pydantic) := {
  coerce_typed t j : has_type t j = true -> coerce t j = Some j;
  coerce_has_type t j j' : coerce t j = Some j' -> has_type t j' = true;
  (** a number with a fraction is no integer *)
  coerce_fraction t l : t = TInt \/ t = TOptional TInt -> has_fraction l = true -> coerce t (JFloat l) = None
}.

Section Validation.
Context `{Pydantic}.
Definition above (lo : option Z) (n : Z) : bool := match lo with Some l => l <=? n | None => true end.
Definition below (hi : option Z) (n : Z) : bool := match hi with Some h => n <=? h | None => true end.
Definition constraints_ok (f : Field) (j : json) : bool :=
  match j with
  | JStr s =>
    above (f_min_length f) (len_list (chars s)) && below (f_max_length f) (len_list (chars s)) &&
    match f_pattern f with Some p => search p s | None => true end
  | JInt n => above (f_ge f) n && below (f_le f) n
  | _ => true
  end.
Definition check_field (body : obj) (f : Field) : option (string * json) :=
  match obj_get (f_name f) body with
  | None => pair (f_name f) <$> f_default f
  | Some v =>
    match coerce (f_type f) v with
    | Some v => if constraints_ok f v then Some (f_name f, v) else None
    | None => None
    end
  end.
(** Members the class does not name are ignored. *)
Definition validate (fs : list Field) (body : json) : option obj :=
  match body with JObj o => mapM (check_field o) fs | _ => None end.
End Validation.

(** ** The fields of a validated body, each of its type *)
Definition text_at (k : string) (o : obj) : string := match obj_get k o with Some (JStr s) => s | _ => "" end.
Definition opt_text_at (k : string) (o : obj) : option string := match obj_get k o with Some (JStr s) => Some s | _ => None end.
Definition int_at (k : string) (o : obj) : Z := match obj_get k o with Some (JInt n) => n | _ => 0 end.
Definition opt_int_at (k : string) (o : obj) : option Z := match obj_get k o with Some (JInt n) => Some n | _ => None end.
Definition bool_at (k : string) (o : obj) : bool := match obj_get k o with Some (JBool b) => b | _ => false end.
Definition opt_bool_at (k : string) (o : obj) : option bool := match obj_get k o with Some (JBool b) => Some b | _ => None end.
Definition texts_of (l : list json) : list string := omap (fun j => match j with JStr s => Some s | _ => None end) l.
Definition opt_texts_at (k : string) (o : obj) : option (list string) :=
  match obj_get k o with Some (JArr l) => Some (texts_of l) | _ => None end.
Definition texts_at (k : string) (o : obj) : list string := default [] (opt_texts_at k o).

(** * Requests *)
Definition RegisterRequest : list Field := [
  length_in (Some 3) (Some 255) (field "email" TStr);
  length_in (Some 8) None (field "password" TStr);
  length_in (Some 1) (Some 255) (field "display_name" TStr)].
Definition LoginRequest : list Field := [field "email" TStr; field "password" TStr].
Definition RefreshRequest : list Field := [field "refresh_token" TStr].

Definition interface_name_field : Field :=
  pattern "^[a-zA-Z0-9_\-]+$" (length_in None (Some 15) (optional "interface_name" TStr)).
Definition NetworkCreate_fields : list Field := [
  length_in (Some 1) (Some 255) (field "name" TStr);
  pattern "^\d{1,3}\.\d{1,3}\.\d{1,3}\.\d{1,3}/\d{1,2}$" (field "subnet" TStr);
  optional "description" TStr;
  interface_name_field].
Definition read_NetworkCreate (o : obj) : NetworkCreate :=
  mkNetworkCreate (text_at "name" o) (text_at "subnet" o) (opt_text_at "description" o) (opt_text_at "interface_name" o).
Definition NetworkUpdate_fields : list Field := [
  optional "name" TStr; optional "description" TStr; interface_name_field;
  pattern "^(star|mesh|hybrid)?$" (length_in None (Some 10) (optional "topology" TStr))].
Definition read_NetworkUpdate (o : obj) : NetworkUpdate :=
  mkNetworkUpdate (opt_text_at "name" o) (opt_text_at "description" o) (opt_text_at "interface_name" o) (opt_text_at "topology" o).

Definition name_field : Field := length_in (Some 1) (Some 255) (field "name" TStr).
Definition DeviceCreate_fields : list Field := [
  name_field; default_is (JBool true) (field "dns_enabled" TBool); default_is (JArr []) (field "tags" (TList TStr))].
Definition read_DeviceCreate (o : obj) : DeviceCreate :=
  mkDeviceCreate (text_at "name" o) (bool_at "dns_enabled" o) (texts_at "tags" o).
(** [NodeDeviceCreate] has the same fields. *)
Definition NodeDeviceCreate_fields : list Field := [
  name_field; default_is (JBool true) (field "dns_enabled" TBool); default_is (JArr []) (field "tags" (TList TStr))].
Definition DeviceUpdate_fields : list Field := [
  optional "name" TStr; optional "dns_enabled" TBool; optional "is_active" TBool; optional "tags" (TList TStr);
  optional "enrollment_status" TStr; optional "exit_node_id" TUuid].
Definition read_DeviceUpdate (o : obj) : DeviceUpdate :=
  mkDeviceUpdate (opt_text_at "name" o) (opt_bool_at "dns_enabled" o) (opt_bool_at "is_active" o) (opt_texts_at "tags" o)
    (opt_text_at "enrollment_status" o) (opt_text_at "exit_node_id" o).
Definition DeviceRegisterRequest : list Field := [field "key" TStr; name_field].
Definition EnrollRequest : list Field := [
  length_in (Some 1) None (field "public_key" TStr); optional "ip_address" TStr].
Definition EnrollByKeyRequest_fields : list Field := [
  length_in (Some 1) None (field "preauth_key" TStr); name_field;
  length_in (Some 1) None (field "public_key" TStr);
  optional "machine_info" TStr; optional "hostname" TStr; default_is (JArr []) (field "advertised_routes" (TList TStr))].
(** The machine's description and the routes are read by nobody. *)
Definition read_EnrollByKey (o : obj) : EnrollByKeyRequest :=
  mkEnrollByKey (text_at "preauth_key" o) (text_at "name" o) (text_at "public_key" o) (opt_text_at "hostname" o).
Definition HeartbeatRequest : list Field := [optional "public_key" TStr; optional "ip_address" TStr].
Definition port_field (name : string) : Field := default_is (JInt 51820) (field name TInt).
Definition EndpointReport : list Field := [
  field "endpoint" TStr; default_is (JStr "reported") (field "source" TStr); port_field "port";
  optional "local_ip" TStr; optional "public_ip" TStr].
Definition ProbeResultRequest : list Field := [
  field "peer_device_id" TStr; field "endpoint" TStr; default_is (JStr "probe") (field "source" TStr); port_field "port";
  default_is (JBool false) (field "reachable" TBool); optional "latency_ms" TInt;
  optional "local_ip" TStr; optional "public_ip" TStr].

Definition PreAuthKeyCreate : list Field := [
  default_is (JBool false) (field "reusable" TBool);
  in_range 1 8760 (default_is (JInt 24) (field "expires_in_hours" TInt))].
Definition ACLRuleCreate : list Field := [
  field "src_tags" (TList TStr); field "dst_tags" (TList TStr);
  default_is (JStr "allow") (field "action" TStr); default_is (JInt 100) (field "priority" TInt)].
Definition ACLRuleUpdate_fields : list Field := [
  optional "src_tags" (TList TStr); optional "dst_tags" (TList TStr); optional "action" TStr; optional "priority" TInt].
Definition read_ACLRuleUpdate (o : obj) : ACLRuleUpdate :=
  mkACLUpdate (opt_texts_at "src_tags" o) (opt_texts_at "dst_tags" o) (opt_text_at "action" o) (opt_int_at "priority" o).
Definition DNSEntryCreate : list Field := [
  length_in (Some 1) (Some 255) (field "domain" TStr);
  pattern "^\d{1,3}\.\d{1,3}\.\d{1,3}\.\d{1,3}$" (field "address" TStr)].

Definition RouteAdvertiseRequest : list Field := [
  pattern "^(\d{1,3}\.\d{1,3}\.\d{1,3}\.\d{1,3}/\d{1,2}|::/0)$" (field "prefix" TStr);
  default_is (JBool false) (field "is_exit_node" TBool)].
Definition RouteApproveRequest : list Field := [
  default_is (JBool true) (field "approved" TBool); default_is (JBool true) (field "enabled" TBool)].
Definition RouteUpdateRequest : list Field := [optional "enabled" TBool].
Definition ExitNodeSelectRequest : list Field := [optional "exit_node_id" TUuid].

Definition PunchRequest : list Field := [
  field "target_device_id" TStr; field "initiator_endpoint" TStr; port_field "initiator_port";
  optional "initiator_local_ip" TStr; optional "initiator_public_ip" TStr].
Definition PunchResult : list Field := [
  field "session_id" TStr; field "success" TBool; optional "selected_endpoint" TStr; optional "selected_port" TInt;
  optional "latency_ms" TInt; optional "error" TStr].
Definition ConnectivityValidationRequest : list Field := [
  field "session_id" TStr; field "target_endpoint" TStr; port_field "target_port"; field "reachable" TBool;
  optional "latency_ms" TInt].

Definition RelaySessionRequest : list Field := [
  field "target_device_id" TStr; default_is (JStr "default") (field "relay_region" TStr)].
Definition RelayConnectRequest : list Field := [field "session_id" TStr].
Definition RelayHeartbeat : list Field := [field "session_id" TStr; optional "state" TStr].
Definition RelayStatsUpdate : list Field := [
  field "session_id" TStr; default_is (JInt 0) (field "bytes_tx" TInt); default_is (JInt 0) (field "bytes_rx" TInt)].

(** * Answers *)
Section Answers.
Context `{Pydantic}.
Definition jtime (t : Z) : json := JStr (time_text t).
Definition jtime_opt (t : option Z) : json := match t with Some t => jtime t | None => JNull end.
Definition jobj_opt (o : option obj) : json := match o with Some o => JObj o | None => JNull end.
(** A field that must be a list: a NULL of the column is an error of the answer. *)
Definition strict_texts (l : option (list string)) : outcome json :=
  match l with Some l => Ok (jstrs l) | None => Raise ResponseValidationError end.

Definition TokenResponse (access refresh : string) : json :=
  JObj [("access_token", JStr access); ("refresh_token", JStr refresh); ("token_type", JStr "bearer")].
Definition UserResponse (u : User.User) : json :=
  JObj [("id", JStr (User.id u)); ("email", JStr (User.email u)); ("display_name", JStr (User.display_name u));
    ("is_active", JBool (User.is_active u)); ("is_superuser", JBool (User.is_superuser u));
    ("created_at", jtime (User.created_at u)); ("updated_at", jtime (User.updated_at u))].
Definition NetworkResponse (n : Network.Network) : json :=
  JObj [("id", JStr (Network.id n)); ("name", JStr (Network.name n)); ("subnet", JStr (Network.subnet n));
    ("description", jstr_opt (Network.description n)); ("interface_name", jstr_opt (Network.interface_name n));
    ("topology", jstr_opt (Network.topology n)); ("owner_id", jstr_opt (Network.owner_id n));
    ("created_at", jtime (Network.created_at n))].
Definition DeviceResponse (d : Device.Device) : outcome json :=
  tags ← strict_texts (Device.tags d);
  Ok (JObj [("id", JStr (Device.id d)); ("name", JStr (Device.name d)); ("user_id", jstr_opt (Device.user_id d));
    ("network_id", JStr (Device.network_id d)); ("public_key", jstr_opt (Device.public_key d));
    ("ip_address", jstr_opt (Device.ip_address d)); ("dns_enabled", JBool (Device.dns_enabled d));
    ("is_active", JBool (Device.is_active d)); ("is_node_owned", JBool (Device.is_node_owned d));
    ("enrollment_status", JStr (Device.enrollment_status d)); ("enrolled_at", jtime_opt (Device.enrolled_at d));
    ("last_seen_at", jtime_opt (Device.last_seen_at d)); ("revoked_at", jtime_opt (Device.revoked_at d));
    ("tags", tags); ("last_handshake", jtime_opt (Device.last_handshake d));
    ("exit_node_id", jstr_opt (Device.exit_node_id d));
    ("created_at", jtime (Device.created_at d)); ("updated_at", jtime (Device.updated_at d))]).
Definition DeviceConfigResponse (config filename : string) : json :=
  JObj [("config", JStr config); ("filename", JStr filename)].
Definition EnrollResponse (device_id : uuid) (token status : string) : json :=
  JObj [("device_id", JStr device_id); ("device_token", JStr token); ("status", JStr status)].
Definition TokenRotationResponse (token : string) : json := JObj [("device_token", JStr token)].
Definition dump_config_v2 (c : DeviceConfigV2Response) : json :=
  JObj [("interface", dump_interface (cv_interface c)); ("peers", JArr (dump_peer <$> cv_peers c));
    ("routes", jstrs (cv_routes c)); ("exit_node", jstr_opt (cv_exit_node c)); ("version", JStr (cv_version c));
    ("config_version", JStr (cv_config_version c)); ("schema_version", JStr (cv_schema_version c));
    ("min_daemon_version", jstr_opt (cv_min_daemon_version c)); ("revision", JStr (cv_revision c));
    ("generated_at", JStr (cv_generated_at c)); ("hash", JStr (cv_hash c))].
Definition dump_EnrollByKey (r : EnrollByKeyResponse) : json :=
  JObj [("device_id", JStr (er_device_id r)); ("device_token", JStr (er_device_token r));
    ("network_id", JStr (er_network_id r)); ("ip_address", JStr (er_ip_address r));
    ("config_v2", dump_config_v2 (er_config_v2 r))].
Definition ProbeResultResponse (p : probe_answer) : json :=
  JObj [("status", JStr "ok"); ("endpoint_id", JStr (pr_endpoint_id p)); ("score", JInt (pr_score p));
    ("preferred", JBool (pr_preferred p))].
Definition PreAuthKeyResponse (k : PreAuthKey.PreAuthKey) : outcome json :=
  used_by ← strict_texts (PreAuthKey.used_by k);
  Ok (JObj [("id", JStr (PreAuthKey.id k)); ("key", JStr (PreAuthKey.key k)); ("network_id", JStr (PreAuthKey.network_id k));
    ("reusable", JBool (PreAuthKey.reusable k)); ("expires_at", jtime (PreAuthKey.expires_at k));
    ("created_at", jtime (PreAuthKey.created_at k)); ("used_by", used_by)]).
Definition ACLRuleResponse (r : ACLRule.ACLRule) : json :=
  JObj [("id", JStr (ACLRule.id r)); ("network_id", JStr (ACLRule.network_id r)); ("src_tags", jstrs (ACLRule.src_tags r));
    ("dst_tags", jstrs (ACLRule.dst_tags r)); ("action", JStr (ACLRule.action r)); ("priority", JInt (ACLRule.priority r));
    ("created_at", jtime (ACLRule.created_at r))].
Definition DNSEntryResponse (e : DNSEntry.DNSEntry) : json :=
  JObj [("id", JStr (DNSEntry.id e)); ("network_id", JStr (DNSEntry.network_id e)); ("domain", JStr (DNSEntry.domain e));
    ("address", JStr (DNSEntry.address e)); ("created_at", jtime (DNSEntry.created_at e))].
Definition RouteResponse (r : AdvertisedRoute.AdvertisedRoute) : json :=
  JObj [("id", JStr (AdvertisedRoute.id r)); ("device_id", JStr (AdvertisedRoute.device_id r));
    ("network_id", JStr (AdvertisedRoute.network_id r)); ("prefix", JStr (AdvertisedRoute.prefix r));
    ("enabled", JBool (AdvertisedRoute.enabled r)); ("approved", JBool (AdvertisedRoute.approved r));
    ("is_exit_node", JBool (AdvertisedRoute.is_exit_node r)); ("created_at", jtime (AdvertisedRoute.created_at r));
    ("updated_at", jtime (AdvertisedRoute.updated_at r))].
Definition AuditLogResponse (l : AuditLog.AuditLog) : json :=
  JObj [("id", JStr (AuditLog.id l)); ("actor_id", jstr_opt (AuditLog.actor_id l)); ("actor_type", JStr (AuditLog.actor_type l));
    ("action", JStr (AuditLog.action l)); ("target_type", JStr (AuditLog.target_type l));
    ("target_id", jstr_opt (AuditLog.target_id l)); ("details", jobj_opt (AuditLog.details l));
    ("ip_address", jstr_opt (AuditLog.ip_address l)); ("created_at", jtime (AuditLog.created_at l))].
Definition dump_AuditLogPage (p : AuditLogPage) : json :=
  JObj [("items", JArr (AuditLogResponse <$> ap_items p)); ("total", JInt (ap_total p));
    ("skip", JInt (Z.of_nat (ap_skip p))); ("limit", JInt (Z.of_nat (ap_limit p)))].
Definition NATSessionResponse (s : NATSession.NATSession) : json :=
  JObj [("id", JStr (NATSession.id s)); ("initiator_device_id", JStr (NATSession.initiator_device_id s));
    ("target_device_id", JStr (NATSession.target_device_id s)); ("state", JStr (NATSession.state s));
    ("selected_candidate", jobj_opt (NATSession.selected_candidate s));
    ("connectivity_established", JBool (NATSession.connectivity_established s));
    ("extra_metadata", jobj_opt (NATSession.extra_metadata s)); ("created_at", jtime (NATSession.created_at s));
    ("updated_at", jtime (NATSession.updated_at s)); ("expires_at", jtime (NATSession.expires_at s))].
Definition ConnectivityValidationResponse (v : validation) : json :=
  JObj [("status", JStr (v_status v)); ("session_id", JStr (v_session_id v));
    ("direct_path_promoted", JBool (v_direct_path_promoted v)); ("score", JInt (v_score v)); ("preferred", JBool (v_preferred v))].
Definition RelayCandidate (c : Relay.relay_candidate) : json :=
  JObj [("relay_node", JStr (Relay.rc_relay_node c)); ("relay_region", JStr (Relay.rc_relay_region c));
    ("relay_endpoint", JStr (Relay.rc_relay_endpoint c)); ("priority", JInt (Relay.rc_priority c));
    ("preferred", JBool (Relay.rc_preferred c)); ("latency_ms", JNull)].
Definition RelaySessionResponse (r : RelaySession.RelaySession) : json :=
  JObj [("id", JStr (RelaySession.id r)); ("initiator_device_id", JStr (RelaySession.initiator_device_id r));
    ("target_device_id", JStr (RelaySession.target_device_id r)); ("relay_region", JStr (RelaySession.relay_region r));
    ("relay_node", JStr (RelaySession.relay_node r)); ("relay_token", JStr (RelaySession.relay_token r));
    ("state", JStr (RelaySession.state r)); ("bytes_tx", JInt (RelaySession.bytes_tx r));
    ("bytes_rx", JInt (RelaySession.bytes_rx r)); ("connected_at", jtime_opt (RelaySession.connected_at r));
    ("expires_at", jtime_opt (RelaySession.expires_at r)); ("created_at", jtime (RelaySession.created_at r));
    ("updated_at", jtime (RelaySession.updated_at r))].
Definition dump_RelayConnect (r : RelayConnectResponse) : json :=
  JObj [("status", JStr (cn_status r)); ("session_id", JStr (cn_session_id r)); ("relay_endpoint", JStr (cn_relay_endpoint r));
    ("relay_token", JStr (cn_relay_token r)); ("relay_node", JStr (cn_relay_node r)); ("relay_region", JStr (cn_relay_region r))].
End Answers.
