(* ===== verification/Http.v ===== *)
(** The HTTP interface of the server: the routers of [api/v1/*.py], the way
    [main.py] puts them together, and what a request is answered.

    A route is a method, a path and an endpoint: the dependencies of the
    handler, its parameters and body, the handler, and the answer it is turned
    into.  Starlette tries the routes in order.  The rate limiter and CORS come
    before ([RateLimit.v]), and FastAPI's own documentation pages and its
    redirection of a path with a slash too many are left out; a path is given
    as decoded. *)
From Stdlib Require Import Ascii.
From S2P Require Import Prelude PyStr Bytes Json Models Effects Topology ConfigV2 Nat Uuid WsManager DaemonSvc Health Auth.
From S2P Require Import DevicesApi NetworksApi RoutesApi SessionsApi PolicyApi Schemas.
Local Open Scope string_scope.
Local Open Scope list_scope.
Local Open Scope Z_scope.

Inductive method := Get | Post | Put | Delete.
#[export] Instance method_eq_dec : EqDecision method.
Proof. solve_decision. Defined.
Record http_request := mkHttp {
  q_method : method;
  q_path : string;
  q_query : list (string * string);
  q_body : option json;
  q_authorization : option string;
  q_client : option string
}.
Inductive reply := Json (status : Z) (body : json) | NoContent | Plain (status : Z) (text : string).
Definition status_of (r : reply) : Z := match r with Json s _ | Plain s _ => s | NoContent => 204 end.

(** What an endpoint gets: the request and the parameters in its path. *)
Record call := mkCall { c_params : list (string * string); c_request : http_request }.

(** What the process has besides the database: its event bus and sockets, the
    clocks and probes it reads, and FastAPI's [HTTPBearer]. *)
Class Process := {
  event_bus : bool;
  alive : nat -> bool;
  monotonic : nat -> Z;
  bind_uuid : string -> outcome uuid;
  bearer : option string -> outcome string;
  probes : ProbeSettings;
  str_exn : exn -> string;
  database_answer : outcome unit;
  bus_gauge : outcome Z;
  fernet_key : outcome unit;
  wg_missing : bool;
  health_checker : option HealthChecker;
  controller_state : option (bool * option Z);
  stun_state : option (bool * Z);
  generate_latest : string
}.
(** [HTTPBearer]: the credentials of a bearer header, or an answer of 401 or
    403. *)
Class BearerLaws `(P : Process) := {
  bearer_credentials h t : bearer h = Ok t <->
    exists header scheme, h = Some header /\ partition_space header = (scheme, t) /\ lower scheme = "bearer" /\ t <> "";
  bearer_refuses h e : bearer h = Raise e -> exists s d, e = HTTPException s d /\ (s = 401 \/ s = 403)
}.

Section Endpoints.
Context `{Env} `{Pydantic} `{Process}.

(** * Parameters *)
Definition uuid_param (k : string) (c : call) : M Api uuid :=
  match List.find (fun p => String.eqb p.1 k) (c_params c) with
  | Some (_, text) => match coerce TUuid (JStr text) with Some (JStr i) => mret i | _ => raise RequestValidationError end
  | None => raise RequestValidationError
  end.
Definition text_param (k : string) (c : call) : M Api string :=
  match List.find (fun p => String.eqb p.1 k) (c_params c) with
  | Some (_, text) => mret text
  | None => raise RequestValidationError
  end.
Definition checked (fs : list Field) (body : option json) : M Api obj :=
  match body with
  | Some j => match validate fs j with Some o => mret o | None => raise RequestValidationError end
  | None => raise RequestValidationError
  end.
Definition body_of (fs : list Field) (c : call) : M Api obj := checked fs (q_body (c_request c)).
Definition query_of (fs : list Field) (c : call) : M Api obj :=
  checked fs (Some (JObj ((fun p => (p.1, JStr p.2)) <$> q_query (c_request c)))).
Definition client (c : call) : option string := q_client (c_request c).

(** * Dependencies: they run before the parameters and the body are read *)
Definition credentials (c : call) : M Api string := lift (bearer (q_authorization (c_request c))).
Definition plain_endpoint (h : call -> M Api reply) (c : call) : M Api reply := api_session (h c).
Definition user_endpoint (h : User.User -> call -> M Api reply) (c : call) : M Api reply :=
  api_session (token ← credentials c; u ← on_world (get_current_user token); h u c).
Definition superuser_endpoint (h : call -> M Api reply) (c : call) : M Api reply :=
  api_session (token ← credentials c; on_world (get_current_superuser token);; h c).
Definition device_endpoint (h : Device.Device -> call -> M Api reply) (c : call) : M Api reply :=
  api_session (token ← credentials c; d ← on_world (get_current_device token); h d c).
(** The dependency itself takes the id in the path. *)
Definition own_device_endpoint (h : uuid -> Device.Device -> call -> M Api reply) (c : call) : M Api reply :=
  api_session (token ← credentials c; i ← uuid_param "device_id" c;
    d ← on_world (get_current_device_by_id i token); h i d c).

Definition ok (j : json) : M Api reply := mret (Json 200 j).
Definition created (j : json) : M Api reply := mret (Json 201 j).
Definition ok_or_raise (j : outcome json) : M Api reply := j ← lift j; mret (Json 200 j).
Definition created_or_raise (j : outcome json) : M Api reply := j ← lift j; mret (Json 201 j).
Definition no_content : M Api reply := mret NoContent.

(** * Routers *)
Record Route := mkRoute { rt_method : method; rt_path : string; rt_endpoint : call -> M Api reply }.
Record APIRouter := mkRouter { rt_prefix : string; rt_routes : list Route }.

Definition auth_router : APIRouter := mkRouter "/auth" [
  mkRoute Post "/register" (plain_endpoint (fun c =>
    b ← body_of RegisterRequest c;
    '(a, r) ← on_world (Auth.register (text_at "email" b) (text_at "password" b) (text_at "display_name" b) (client c));
    created (TokenResponse a r)));
  mkRoute Post "/login" (plain_endpoint (fun c =>
    b ← body_of LoginRequest c;
    '(a, r) ← on_world (Auth.login (text_at "email" b) (text_at "password" b) (client c));
    ok (TokenResponse a r)));
  mkRoute Post "/refresh" (fun c =>
    b ← body_of RefreshRequest c;
    '(a, r) ← on_world (Auth.refresh (text_at "refresh_token" b));
    ok (TokenResponse a r));
  mkRoute Get "/me" (user_endpoint (fun u _ => ok (UserResponse u)))].

Definition networks_router : APIRouter := mkRouter "/networks" [
  mkRoute Get "" (user_endpoint (fun u _ =>
    ns ← on_world (list_networks u); ok (JArr (NetworkResponse <$> ns))));
  mkRoute Post "" (user_endpoint (fun u c =>
    b ← body_of NetworkCreate_fields c;
    n ← on_world (create_network (read_NetworkCreate b) (client c) u); created (NetworkResponse n)));
  mkRoute Get "/{network_id}" (user_endpoint (fun u c =>
    i ← uuid_param "network_id" c; n ← on_world (get_network i u); ok (NetworkResponse n)));
  mkRoute Put "/{network_id}" (user_endpoint (fun u c =>
    i ← uuid_param "network_id" c; b ← body_of NetworkUpdate_fields c;
    n ← on_world (update_network i (read_NetworkUpdate b) (client c) u); ok (NetworkResponse n)));
  mkRoute Delete "/{network_id}" (user_endpoint (fun u c =>
    i ← uuid_param "network_id" c; on_world (delete_network i (client c) u);; no_content));
  mkRoute Get "/{network_id}/devices" (user_endpoint (fun u c =>
    i ← uuid_param "network_id" c; ds ← on_world (list_devices i u);
    ok_or_raise (JArr <$> mapM DeviceResponse ds)));
  mkRoute Post "/{network_id}/devices" (user_endpoint (fun u c =>
    i ← uuid_param "network_id" c; b ← body_of DeviceCreate_fields c;
    d ← on_world (create_device i (read_DeviceCreate b) (client c) u); created_or_raise (DeviceResponse d)));
  mkRoute Post "/{network_id}/node-devices" (user_endpoint (fun u c =>
    i ← uuid_param "network_id" c; b ← body_of NodeDeviceCreate_fields c;
    d ← on_world (create_node_device i (read_DeviceCreate b) (client c) u); created_or_raise (DeviceResponse d)));
  mkRoute Get "/{network_id}/preauth-keys" (user_endpoint (fun u c =>
    i ← uuid_param "network_id" c; ks ← on_world (list_preauth_keys i u);
    ok_or_raise (JArr <$> mapM PreAuthKeyResponse ks)));
  mkRoute Post "/{network_id}/preauth-keys" (user_endpoint (fun u c =>
    i ← uuid_param "network_id" c; b ← body_of PreAuthKeyCreate c;
    k ← on_world (create_preauth_key i (bool_at "reusable" b) (int_at "expires_in_hours" b) (client c) u);
    created_or_raise (PreAuthKeyResponse k)));
  mkRoute Delete "/{network_id}/preauth-keys/{key_id}" (user_endpoint (fun u c =>
    i ← uuid_param "network_id" c; k ← uuid_param "key_id" c;
    on_world (delete_preauth_key i k (client c) u);; no_content))].

Definition http_device_heartbeat : call -> M Api reply := own_device_endpoint (fun i _ c =>
    b ← body_of HeartbeatRequest c;
    r ← on_world (device_heartbeat i (opt_text_at "public_key" b) (opt_text_at "ip_address" b)); ok (JObj r)).
Definition http_device_report_endpoint : call -> M Api reply := own_device_endpoint (fun i d c =>
    b ← body_of EndpointReport c;
    r ← device_report_endpoint event_bus alive i (text_at "endpoint" b) (text_at "source" b) (int_at "port" b)
          (opt_text_at "local_ip" b) (opt_text_at "public_ip" b) d; ok (JObj r)).
Definition http_device_probe_result : call -> M Api reply := own_device_endpoint (fun i d c =>
    b ← body_of ProbeResultRequest c;
    r ← device_probe_result bind_uuid event_bus alive i (text_at "peer_device_id" b) (text_at "endpoint" b)
          (bool_at "reachable" b) (opt_int_at "latency_ms" b) (text_at "source" b) (int_at "port" b)
          (opt_text_at "local_ip" b) (opt_text_at "public_ip" b) d; ok (ProbeResultResponse r)).
Definition http_get_device_config_v2 : call -> M Api reply := plain_endpoint (fun c =>
    i ← uuid_param "device_id" c; r ← on_world (get_device_config_v2 i (q_authorization (c_request c)));
    ok (dump_config_v2 r)).
Definition http_enroll_by_key : call -> M Api reply := plain_endpoint (fun c =>
    b ← body_of EnrollByKeyRequest_fields c;
    r ← on_world (enroll_by_key (read_EnrollByKey b) (client c)); created (dump_EnrollByKey r)).
Definition http_register_device : call -> M Api reply := plain_endpoint (fun c =>
    b ← body_of DeviceRegisterRequest c;
    d ← on_world (register_device (text_at "key" b) (text_at "name" b) (client c)); created_or_raise (DeviceResponse d)).
Definition devices_router : APIRouter := mkRouter "/devices" [
  mkRoute Get "" (user_endpoint (fun u _ =>
    ds ← on_world (list_all_devices u); ok_or_raise (JArr <$> mapM DeviceResponse ds)));
  mkRoute Get "/{device_id}" (user_endpoint (fun u c =>
    i ← uuid_param "device_id" c; d ← on_world (get_device i u); ok_or_raise (DeviceResponse d)));
  mkRoute Put "/{device_id}" (user_endpoint (fun u c =>
    i ← uuid_param "device_id" c; b ← body_of DeviceUpdate_fields c;
    d ← on_world (update_device i (read_DeviceUpdate b) (client c) u); ok_or_raise (DeviceResponse d)));
  mkRoute Post "/{device_id}/heartbeat" http_device_heartbeat;
  mkRoute Post "/{device_id}/endpoint" http_device_report_endpoint;
  mkRoute Post "/{device_id}/probe-result" http_device_probe_result;
  mkRoute Post "/{device_id}/enroll" (user_endpoint (fun u c =>
    i ← uuid_param "device_id" c; b ← body_of EnrollRequest c;
    '(d, token, status) ← on_world (enroll_device i (text_at "public_key" b) (opt_text_at "ip_address" b) (client c) u);
    ok (EnrollResponse d token status)));
  mkRoute Get "/{device_id}/config" (user_endpoint (fun u c =>
    i ← uuid_param "device_id" c; '(config, filename) ← on_world (get_device_config_endpoint i u);
    ok (DeviceConfigResponse config filename)));
  mkRoute Post "/{device_id}/rotate-token" (device_endpoint (fun d c =>
    i ← uuid_param "device_id" c; token ← on_world (rotate_device_token i d); ok (TokenRotationResponse token)));
  mkRoute Post "/{device_id}/revoke" (user_endpoint (fun u c =>
    i ← uuid_param "device_id" c; revoke_device event_bus alive i (client c) u;; no_content));
  mkRoute Get "/{device_id}/config-v2" http_get_device_config_v2;
  mkRoute Post "/enroll" http_enroll_by_key;
  mkRoute Post "/register" http_register_device].

Definition acls_router : APIRouter := mkRouter "/networks/{network_id}/acls" [
  mkRoute Get "" (user_endpoint (fun u c =>
    i ← uuid_param "network_id" c; rs ← on_world (list_acls i u); ok (JArr (ACLRuleResponse <$> rs))));
  mkRoute Post "" (user_endpoint (fun u c =>
    i ← uuid_param "network_id" c; b ← body_of ACLRuleCreate c;
    r ← on_world (create_acl i (texts_at "src_tags" b) (texts_at "dst_tags" b) (text_at "action" b) (int_at "priority" b)
          (client c) u); created (ACLRuleResponse r)));
  mkRoute Put "/{rule_id}" (user_endpoint (fun u c =>
    i ← uuid_param "network_id" c; k ← uuid_param "rule_id" c; b ← body_of ACLRuleUpdate_fields c;
    r ← on_world (update_acl i k (read_ACLRuleUpdate b) (client c) u); ok (ACLRuleResponse r)));
  mkRoute Delete "/{rule_id}" (user_endpoint (fun u c =>
    i ← uuid_param "network_id" c; k ← uuid_param "rule_id" c; on_world (delete_acl i k (client c) u);; no_content))].

Definition dns_router : APIRouter := mkRouter "/networks/{network_id}/dns" [
  mkRoute Get "" (user_endpoint (fun u c =>
    i ← uuid_param "network_id" c; es ← on_world (list_dns i u); ok (JArr (DNSEntryResponse <$> es))));
  mkRoute Post "" (user_endpoint (fun u c =>
    i ← uuid_param "network_id" c; b ← body_of DNSEntryCreate c;
    e ← on_world (create_dns i (text_at "domain" b) (text_at "address" b) (client c) u); created (DNSEntryResponse e)));
  mkRoute Delete "/{entry_id}" (user_endpoint (fun u c =>
    i ← uuid_param "network_id" c; k ← uuid_param "entry_id" c; on_world (delete_dns i k (client c) u);; no_content))].

Definition http_device_advertise_route : call -> M Api reply := own_device_endpoint (fun i _ c =>
    b ← body_of RouteAdvertiseRequest c;
    r ← on_world (device_advertise_route i (text_at "prefix" b) (bool_at "is_exit_node" b)); created (RouteResponse r)).
Definition routes_router : APIRouter := mkRouter "/routes" [
  mkRoute Get "/networks/{network_id}" (user_endpoint (fun u c =>
    i ← uuid_param "network_id" c; rs ← on_world (list_routes i u); ok (JArr (RouteResponse <$> rs))));
  mkRoute Get "/devices/{device_id}" (user_endpoint (fun u c =>
    i ← uuid_param "device_id" c; rs ← on_world (list_device_routes i u); ok (JArr (RouteResponse <$> rs))));
  mkRoute Post "/networks/{network_id}/advertise" (user_endpoint (fun u c =>
    i ← uuid_param "network_id" c; b ← body_of RouteAdvertiseRequest c;
    r ← on_world (advertise_route i (text_at "prefix" b) (bool_at "is_exit_node" b) (client c) u);
    created (RouteResponse r)));
  mkRoute Post "/{route_id}/approve" (user_endpoint (fun u c =>
    i ← uuid_param "route_id" c; b ← body_of RouteApproveRequest c;
    r ← on_world (approve_route i (bool_at "approved" b) (bool_at "enabled" b) (client c) u); ok (RouteResponse r)));
  mkRoute Put "/{route_id}" (user_endpoint (fun u c =>
    i ← uuid_param "route_id" c; b ← body_of RouteUpdateRequest c;
    r ← on_world (update_route i (opt_bool_at "enabled" b) (client c) u); ok (RouteResponse r)));
  mkRoute Delete "/{route_id}" (user_endpoint (fun u c =>
    i ← uuid_param "route_id" c; on_world (delete_route i (client c) u);; no_content));
  mkRoute Post "/devices/{device_id}/exit-node" (user_endpoint (fun u c =>
    i ← uuid_param "device_id" c; b ← body_of ExitNodeSelectRequest c;
    r ← on_world (select_exit_node i (opt_text_at "exit_node_id" b) (client c) u);
    r ← on_world (route_response r); ok (RouteResponse r)));
  mkRoute Post "/devices/{device_id}/advertise" http_device_advertise_route].

(** The query of the audit log. *)
Definition audit_query : list Field := [
  optional "actor_id" TStr; optional "action" TStr; optional "target_type" TStr; optional "target_id" TStr;
  mkField "skip" TInt (Some (JInt 0)) None None None (Some 0) None;
  in_range 1 500 (default_is (JInt 50) (field "limit" TInt))].
Definition audit_router : APIRouter := mkRouter "/audit" [
  mkRoute Get "" (superuser_endpoint (fun c =>
    b ← query_of audit_query c;
    p ← on_world (list_audit_logs (mkAuditFilter (opt_text_at "actor_id" b) (opt_text_at "action" b)
          (opt_text_at "target_type" b) (opt_text_at "target_id" b)) (Z.to_nat (int_at "skip" b)) (Z.to_nat (int_at "limit" b)));
    ok (dump_AuditLogPage p)));
  mkRoute Get "/actions" (superuser_endpoint (fun _ => l ← on_world list_audit_actions; ok (jstrs l)))].

Definition http_request_punch : call -> M Api reply := device_endpoint (fun d c =>
    b ← body_of PunchRequest c;
    r ← on_world (request_punch event_bus (text_at "target_device_id" b) (text_at "initiator_endpoint" b)
          (int_at "initiator_port" b) d);
    created (JObj [("session_id", JStr (pa_session_id r)); ("state", JStr (pa_state r));
      ("candidates", JArr (pa_candidates r)); ("target_device_id", JStr (pa_target_device_id r))])).
Definition http_report_punch_result : call -> M Api reply := device_endpoint (fun d c =>
    i ← text_param "session_id" c; b ← body_of PunchResult c;
    '(s, state, established) ← on_world (report_punch_result event_bus i (bool_at "success" b)
       (opt_text_at "selected_endpoint" b) (opt_int_at "selected_port" b) (opt_int_at "latency_ms" b) (opt_text_at "error" b) d);
    ok (JObj [("session_id", JStr s); ("state", JStr state); ("connectivity_established", JBool established)])).
Definition http_report_connectivity_validation : call -> M Api reply := device_endpoint (fun d c =>
    i ← text_param "session_id" c; b ← body_of ConnectivityValidationRequest c;
    v ← on_world (report_connectivity_validation event_bus i (text_at "target_endpoint" b) (int_at "target_port" b)
          (bool_at "reachable" b) (opt_int_at "latency_ms" b) d);
    ok (ConnectivityValidationResponse v)).
Definition nat_router : APIRouter := mkRouter "/nat" [
  mkRoute Post "/punch" http_request_punch;
  mkRoute Post "/{session_id}/result" http_report_punch_result;
  mkRoute Post "/{session_id}/validate" http_report_connectivity_validation;
  mkRoute Get "/{session_id}" (device_endpoint (fun d c =>
    i ← text_param "session_id" c; s ← on_world (get_session i d); ok (NATSessionResponse s)))].

Definition http_request_relay_session : call -> M Api reply := device_endpoint (fun d c =>
    b ← body_of RelaySessionRequest c;
    r ← on_world (request_relay_session event_bus (text_at "target_device_id" b) (text_at "relay_region" b) d);
    created (RelaySessionResponse r)).
Definition http_connect_relay_session : call -> M Api reply := device_endpoint (fun d c =>
    b ← body_of RelayConnectRequest c;
    r ← on_world (connect_relay_session event_bus (text_at "session_id" b) d); ok (dump_RelayConnect r)).
Definition http_update_relay_stats : call -> M Api reply := device_endpoint (fun d c =>
    i ← text_param "session_id" c; b ← body_of RelayStatsUpdate c;
    '(s, tx, rx) ← on_world (update_relay_stats_endpoint event_bus i (int_at "bytes_tx" b) (int_at "bytes_rx" b) d);
    ok (JObj [("status", JStr "ok"); ("session_id", JStr s); ("bytes_tx", JInt tx); ("bytes_rx", JInt rx)])).
Definition relay_router : APIRouter := mkRouter "/relay" [
  mkRoute Get "/candidates" (device_endpoint (fun d _ => ok (JArr (RelayCandidate <$> get_relay_candidates d))));
  mkRoute Post "/sessions" http_request_relay_session;
  mkRoute Post "/connect" http_connect_relay_session;
  mkRoute Get "/sessions/{session_id}" (device_endpoint (fun d c =>
    i ← text_param "session_id" c; r ← on_world (get_relay_session i d); ok (RelaySessionResponse r)));
  mkRoute Post "/{session_id}/heartbeat" (device_endpoint (fun d c =>
    i ← text_param "session_id" c; body_of RelayHeartbeat c;;
    s ← on_world (heartbeat_relay_session monotonic i d); ok (JObj [("status", JStr "ok"); ("session_id", JStr s)])));
  mkRoute Post "/{session_id}/stats" http_update_relay_stats].

Definition probe_reply (m : IO (Z * json)) : M Api reply := '(status, body) ← on_world m; mret (Json status body).
Definition health_router : APIRouter := mkRouter "" [
  mkRoute Get "/health/live" (fun _ => probe_reply (health_live health_checker));
  mkRoute Get "/health/ready" (fun _ => probe_reply (health_ready probes str_exn database_answer bus_gauge health_checker));
  mkRoute Get "/health/startup" (fun _ =>
    probe_reply (health_startup probes str_exn database_answer fernet_key wg_missing health_checker))].

(** ** The application *)
Definition include_router (prefix : string) (r : APIRouter) : list Route :=
  (fun x => mkRoute (rt_method x) (prefix +:+ rt_prefix r +:+ rt_path x) (rt_endpoint x)) <$> rt_routes r.
Definition auth_header (c : call) : string := default "" (q_authorization (c_request c)).
Definition app : list Route :=
  concat (include_router "/api/v1" <$>
    [auth_router; networks_router; devices_router; acls_router; dns_router; routes_router; audit_router; nat_router; relay_router])
  ++ include_router "" health_router ++ [
  mkRoute Get "/health" (fun c s => probe_reply
    (health probes (auth_header c) controller_state (api_ws s) stun_state (bool_decide (is_Some (w_relay (api_world s))))) s);
  mkRoute Get "/metrics" (fun c => text ← on_world (metrics generate_latest (auth_header c)); mret (Plain 200 text))].

(** * Dispatch *)
Definition param_name (segment : string) : option string :=
  if startswith "{" segment then Some (take_str (String.length segment - 2) (drop_str 1 segment)) else None.
Fixpoint match_segments (t p : list string) : option (list (string * string)) :=
  match t, p with
  | [], [] => Some []
  | s :: t, w :: p =>
    match param_name s with
    | Some x => if truthy w then cons (x, w) <$> match_segments t p else None
    | None => if String.eqb s w then match_segments t p else None
    end
  | _, _ => None
  end.
Definition match_path (template path : string) : option (list (string * string)) :=
  match_segments (split "/" template) (split "/" path).
Inductive dispatched := Found (r : Route) (params : list (string * string)) | MethodNotAllowed | NotFound.
Fixpoint dispatch (rs : list Route) (partial : bool) (m : method) (path : string) : dispatched :=
  match rs with
  | [] => if partial then MethodNotAllowed else NotFound
  | r :: rs =>
    match match_path (rt_path r) path with
    | Some params => if decide (rt_method r = m) then Found r params else dispatch rs true m path
    | None => dispatch rs partial m path
    end
  end.

Definition detail (status : Z) (j : json) : reply := Json status (JObj [("detail", j)]).
(** The handlers of exceptions. *)
Definition on_exception (template : string) (params : list (string * string)) (body : option json) (e : exn) : reply :=
  match e with
  | HTTPException status text => detail status (JStr text)
  | RequestValidationError => detail 422 (JArr (error_list template params body))
  | _ => Plain 500 "Internal Server Error"
  end.
Definition answered (template : string) (params : list (string * string)) (body : option json) (r : outcome reply * Api) : reply * Api :=
  match r with
  | (Ok a, s') => (a, s')
  | (Raise e, s') => (on_exception template params body e, s')
  end.
Definition handle (q : http_request) (s : Api) : reply * Api :=
  match dispatch app false (q_method q) (q_path q) with
  | NotFound => (detail 404 (JStr "Not Found"), s)
  | MethodNotAllowed => (detail 405 (JStr "Method Not Allowed"), s)
  | Found r params => answered (rt_path r) params (q_body q) (rt_endpoint r (mkCall params q) s)
  end.
End Endpoints.

(** * Strangers *)
Section Strangers.
Context `{Env} `{Pydantic} `{P : Process} `{!BearerLaws P}.

(** The header holds no token that is a user's or a device's. *)
Record stranger (header : option string) (w : World) : Prop := {
  no_user t : bearer header = Ok t -> decode_token t = None;
  no_device t d : bearer header = Ok t -> d ∈ devices (w_db w) -> ~ authenticated t d
}.
(** The routes a request needs no token for. *)
Definition public : list (method * string) := [
  (Post, "/api/v1/auth/register"); (Post, "/api/v1/auth/login"); (Post, "/api/v1/auth/refresh");
  (Post, "/api/v1/devices/enroll"); (Post, "/api/v1/devices/register");
  (Get, "/health/live"); (Get, "/health/ready"); (Get, "/health/startup"); (Get, "/health"); (Get, "/metrics")].
Definition is_public (r : Route) : bool := bool_decide ((rt_method r, rt_path r) ∈ public).

(** Nothing but the counters moves. *)
Definition only_metrics (w w' : World) : Prop :=
  w_db w' = w_db w /\ w_committed w' = w_committed w /\ w_events w' = w_events w /\ w_relay w' = w_relay w.
#[local] Instance only_metrics_preorder : PreOrder only_metrics.
Proof. unfold only_metrics. split; [by intros w|]. intros w1 w2 w3 (?&?&?&?) (?&?&?&?). split_and!; congruence. Qed.
#[local] Instance om_inc m n : Frame only_metrics (inc_by m n).
Proof. by intros w. Qed.
#[local] Instance om_select_where `{Table R} (p : R -> bool) : Frame only_metrics (select_where p).
Proof. by intros w. Qed.
#[local] Instance om_select_one `{Table R} (p : R -> bool) : Frame only_metrics (select_one p).
Proof. unfold select_one. apply _. Qed.
#[local] Instance om_counted m : Frame only_metrics (inc m).
Proof. unfold inc. apply _. Qed.
Definition undisturbed (s s' : Api) : Prop := only_metrics (api_world s) (api_world s') /\ api_ws s' = api_ws s.
Definition error_status (e : exn) : Prop := match e with HTTPException s _ => 400 <= s | _ => True end.
Definition refused {A} (m : M Api A) (s : Api) : Prop :=
  exists e s', m s = (Raise e, s') /\ error_status e /\ undisturbed s s'.

Lemma undisturbed_refl s : undisturbed s s.
Proof. by split. Qed.
Lemma session_refused {A} (m : M Api A) s :
  w_db (api_world s) = w_committed (api_world s) -> refused m s -> refused (api_session m) s.
Proof.
  intros Hc (e & s' & Hm & He & (Hdb & Hcom & Hev & Hrel) & Hws). unfold refused, api_session, try_except.
  rewrite (bind_raise _ _ _ _ _ Hm). exists e, (mkApi (rollback (api_world s')).2 (api_ws s')).
  split_and!; [by destruct s'|done|split; [|done]]. unfold only_metrics. cbn. split_and!; congruence.
Qed.
Lemma refused_bind {A B} (m : M Api A) (k : A -> M Api B) s : refused m s -> refused (m ≫= k) s.
Proof. intros (e & s' & Hm & ?). exists e, s'. by rewrite (bind_raise _ _ _ _ _ Hm). Qed.
Lemma refused_world {A} (m : IO A) e s w' :
  m (api_world s) = (Raise e, w') -> error_status e -> only_metrics (api_world s) w' -> refused (on_world m) s.
Proof. intros Hm He Hw. unfold refused, on_world. rewrite Hm. by eexists _, _. Qed.
Lemma refused_raise {A} e s : error_status e -> refused (raise e : M Api A) s.
Proof. intros He. exists e, s. split_and!; [done|done|apply undisturbed_refl]. Qed.
(** Either there are no credentials, or the continuation refuses those there are. *)
Lemma credentials_refused {A} (k : string -> M Api A) c s :
  (forall t, bearer (q_authorization (c_request c)) = Ok t -> refused (k t) s) -> refused (token ← credentials c; k token) s.
Proof.
  intros Hk. unfold credentials. destruct (bearer _) as [t|e] eqn:E.
  - destruct (Hk t eq_refl) as (e & s' & Hm & ?). by exists e, s'.
  - exists e, s. split_and!; [done| |apply undisturbed_refl]. apply bearer_refuses in E as (st & d & -> & Hst). cbn. lia.
Qed.

(** ** The dependencies refuse strangers *)
#[local] Instance om_check d : Frame only_metrics (_check_device_status d).
Proof. unfold _check_device_status. apply _. Qed.
#[local] Instance om_lookup t : Frame only_metrics (_lookup_device_by_token t).
Proof. unfold _lookup_device_by_token, by_prefix. apply _. Qed.
#[local] Instance om_device t : Frame only_metrics (get_current_device t).
Proof. unfold get_current_device. apply _. Qed.
#[local] Instance om_own_device i t : Frame only_metrics (get_current_device_by_id i t).
Proof. unfold get_current_device_by_id. apply _. Qed.

Lemma select_one_raises `{Table R} (p : R -> bool) w e w' : select_one p w = (Raise e, w') -> e = MultipleResultsFound.
Proof.
  unfold select_one, select_where, lift, gets, mbind, M_bind, scalar_one_or_none.
  destruct (List.filter _ _) as [|? [|? ?]]; intros [=]; done.
Qed.
Lemma check_status_raises d w e w' : _check_device_status d w = (Raise e, w') -> error_status e.
Proof.
  unfold _check_device_status. repeat (destruct (String.eqb _ _); [by intros [= <- _]|]). done.
Qed.
Lemma lookup_raises t w e w' : _lookup_device_by_token t w = (Raise e, w') -> error_status e.
Proof.
  unfold _lookup_device_by_token. rewrite run_bind. destruct (by_prefix t w) as [[o|e1] w1] eqn:E.
  - destruct o as [d|].
    + rewrite run_bind. destruct (_check_device_status d w1) as [[d1|e1] w2] eqn:Ec; [done|]. intros [= <- _].
      by eapply check_status_raises.
    + rewrite run_select. destruct (List.find _ _) as [d|]; [|done]. rewrite run_bind.
      destruct (_check_device_status d w1) as [[d1|e1] w2] eqn:Ec; [done|]. intros [= <- _]. by eapply check_status_raises.
  - intros [= <- _]. unfold by_prefix in E. destruct (split_token t) as [[p q]|]; [|done].
    rewrite run_bind in E. destruct (select_one _ w) as [[[d|]|e2] w2] eqn:Es; [|done|].
    + destruct (opt_truthy _); [|done]. destruct (verify_password _ _); done.
    + injection E as <- _. by apply select_one_raises in Es as ->.
Qed.
Lemma stranger_lookup header t w :
  stranger header w -> bearer header = Ok t ->
  exists r w', _lookup_device_by_token t w = (r, w') /\ only_metrics w w' /\
    match r with Ok None => True | Ok (Some _) => False | Raise e => error_status e end.
Proof.
  intros [_ Hd] Ht. pose proof (om_lookup t w) as Hf. destruct (_lookup_device_by_token t w) as [r w'] eqn:E.
  exists r, w'. split_and!; [done|done|]. destruct r as [[d|]|e]; [|done|by eapply lookup_raises].
  apply lookup_ok in E as (_ & Hin & _ & Ha & _). by eapply Hd.
Qed.
Lemma stranger_device header t w :
  stranger header w -> bearer header = Ok t ->
  exists e w', get_current_device t w = (Raise e, w') /\ error_status e /\ only_metrics w w'.
Proof.
  intros Hs Ht. destruct (stranger_lookup _ _ _ Hs Ht) as (r & w1 & E & Hw & Hr).
  unfold get_current_device. rewrite run_bind, E. destruct r as [[d|]|e]; [done| |by exists e, w1].
  rewrite run_inc. eexists _, _. split_and!; [reflexivity|cbn; lia|done].
Qed.
Lemma stranger_user header t w :
  stranger header w -> bearer header = Ok t -> exists e, get_current_user t w = (Raise e, w) /\ error_status e.
Proof.
  intros [Hu _] Ht. unfold get_current_user. rewrite (Hu t Ht). eexists. split; [reflexivity|cbn; lia].
Qed.

(** ** The endpoints *)
Definition guarded (ep : call -> M Api reply) : Prop := forall c s,
  stranger (q_authorization (c_request c)) (api_world s) -> w_db (api_world s) = w_committed (api_world s) -> refused (ep c) s.

Lemma user_guarded h : guarded (user_endpoint h).
Proof.
  intros c s Hs Hc. apply session_refused; [done|]. apply credentials_refused. intros t Ht. apply refused_bind.
  destruct (stranger_user _ _ _ Hs Ht) as (e & He & Hst). by eapply refused_world.
Qed.
Lemma superuser_guarded h : guarded (superuser_endpoint h).
Proof.
  intros c s Hs Hc. apply session_refused; [done|]. apply credentials_refused. intros t Ht. apply refused_bind.
  destruct (stranger_user _ _ _ Hs Ht) as (e & He & Hst). eapply refused_world; [|done..].
  unfold get_current_superuser. by rewrite run_bind, He.
Qed.
Lemma device_guarded h : guarded (device_endpoint h).
Proof.
  intros c s Hs Hc. apply session_refused; [done|]. apply credentials_refused. intros t Ht. apply refused_bind.
  destruct (stranger_device _ _ _ Hs Ht) as (e & w' & He & Hst & Hw). by eapply refused_world.
Qed.
Lemma own_device_guarded h : guarded (own_device_endpoint h).
Proof.
  intros c s Hs Hc. apply session_refused; [done|]. apply credentials_refused. intros t Ht.
  unfold uuid_param. destruct (List.find _ _) as [[x v]|]; [|by apply refused_bind, refused_raise].
  destruct (coerce TUuid (JStr v)) as [[| | | |i| |]|]; try by apply refused_bind, refused_raise.
  apply (refused_bind (on_world (get_current_device_by_id i t))).
  destruct (stranger_device _ _ _ Hs Ht) as (e & w' & He & Hst & Hw). eapply refused_world; [|done..].
  unfold get_current_device_by_id. by rewrite run_bind, He.
Qed.
Lemma config_v2_guarded (h : DeviceConfigV2Response -> M Api reply) :
  guarded (plain_endpoint (fun c => i ← uuid_param "device_id" c;
    r ← on_world (get_device_config_v2 i (q_authorization (c_request c))); h r)).
Proof.
  intros c s Hs Hc. apply session_refused; [done|]. unfold uuid_param.
  destruct (List.find _ _) as [[x v]|]; [|by apply refused_bind, refused_raise].
  destruct (coerce TUuid (JStr v)) as [[| | | |i| |]|]; try by apply refused_bind, refused_raise.
  apply (refused_bind (on_world (get_device_config_v2 i (q_authorization (c_request c))))).
  set (header := q_authorization (c_request c)) in *. unfold get_device_config_v2.
  destruct (opt_truthy header) eqn:Eh; [|eapply refused_world; [reflexivity|cbn; lia|done]].
  cbn [negb]. apply truthy_some in Eh as [text Eh]. destruct (partition_space (default "" header)) as [scheme t] eqn:Ep.
  destruct (String.eqb_spec (lower scheme) "bearer") as [Hl|]; [|eapply refused_world; [reflexivity|cbn; lia|done]].
  destruct (truthy t) eqn:Et; [|eapply refused_world; [reflexivity|cbn; lia|done]]. cbn [negb orb].
  assert (bearer header = Ok t) as Ht.
  { apply bearer_credentials. rewrite Eh in Ep. exists text, scheme. split_and!; try done. by intros ->. }
  destruct (stranger_lookup _ _ _ Hs Ht) as (r & w1 & E & Hw & Hr).
  set (w := api_world s) in *.
  assert (user_of_credentials t w = (Ok None, w)) as Hu by (unfold user_of_credentials; by rewrite (no_user _ _ Hs t Ht)).
  destruct r as [[d|]|e]; [done| |].
  - eapply refused_world; [rewrite run_bind; fold w; rewrite Hu; cbn beta iota; rewrite run_bind, E; reflexivity|cbn; lia|done].
  - eapply refused_world; [rewrite run_bind; fold w; rewrite Hu; cbn beta iota; rewrite run_bind, E; reflexivity|done|done].
Qed.
Lemma app_guarded : Forall (fun r => is_public r = true \/ guarded (rt_endpoint r)) app.
Proof.
  unfold app, include_router. cbn [fmap list_fmap rt_routes rt_prefix rt_method rt_path rt_endpoint concat app
    auth_router networks_router devices_router acls_router dns_router routes_router audit_router nat_router relay_router health_router].
  repeat (apply Forall_cons; split; [first [left; vm_compute; reflexivity | right; cbn [rt_endpoint];
    first [apply user_guarded | apply superuser_guarded | apply device_guarded | apply own_device_guarded | apply config_v2_guarded]]|]).
  apply Forall_nil_2.
Qed.
Lemma dispatch_found rs partial m path r params : dispatch rs partial m path = Found r params -> r ∈ rs.
Proof.
  revert partial. induction rs as [|x rs IH]; intros partial; cbn; [by destruct partial|].
  destruct (match_path _ _) as [ps|]; [case_decide|]; try (intros Hd; right; by eapply IH). intros [= <- _]. by left.
Qed.
End Strangers.

(** * Properties *)

(** C8. Whoever shows no token, or one that is no user's and no device's, gets an
    error from every route but the public ones, and changes nothing: not the
    database, committed or not, not an event, not the relay server's tokens,
    not a socket. *)
Theorem strangers_change_nothing `{Env} `{Pydantic} `{P : Process} `{!BearerLaws P} q s :
  stranger (q_authorization q) (api_world s) -> w_db (api_world s) = w_committed (api_world s) ->
  (forall r params, dispatch app false (q_method q) (q_path q) = Found r params -> is_public r = false) ->
  400 <= status_of (handle q s).1 /\ undisturbed s (handle q s).2.
Proof.
  intros Hs Hc Hp. unfold handle. destruct (dispatch app _ _ _) as [r params| |] eqn:E;
    [|split; [cbn; lia|apply undisturbed_refl]..].
  pose proof (Hp r params eq_refl) as Hpub. apply dispatch_found in E.
  pose proof app_guarded as Hall. rewrite Forall_forall in Hall. destruct (Hall r E) as [Hyes|Hg]; [congruence|].
  destruct (Hg (mkCall params q) s Hs Hc) as (e & s' & -> & He & Hu). cbn [fst snd]. split; [|done].
  destruct e; cbn in *; lia.
Qed.

(** * Witnesses *)
(** A pydantic that takes nothing but what has the type already, and a server
    whose probes and counters are quiet. *)
Definition strict_pydantic : Pydantic := {|
  coerce := fun t j => if has_type t j then Some j else None;
  search := fun _ _ => true;
  time_text := isoformat;
  error_list := fun _ _ _ => []
|}.
Lemma strict_laws : PydanticLaws strict_pydantic.
Proof.
  split; cbn.
  - by intros t j ->.
  - intros t j j'. destruct (has_type t j) eqn:E; [by intros [= <-]|done].
  - by intros t l [-> | ->].
Qed.
Definition bearer_of (h : option string) : outcome string :=
  match h with
  | Some header =>
    let '(scheme, t) := partition_space header in
    if String.eqb (lower scheme) "bearer" && truthy t then Ok t else Raise (HTTPException 403 "Not authenticated")
  | None => Raise (HTTPException 403 "Not authenticated")
  end.
Definition quiet_process : Process := {|
  event_bus := true; alive := fun _ => true; monotonic := fun n => Z.of_nat n; bind_uuid := UUID; bearer := bearer_of;
  probes := default_probe_settings; str_exn := fun _ => ""; database_answer := Ok tt; bus_gauge := Ok 0; fernet_key := Ok tt;
  wg_missing := false; health_checker := None; controller_state := None; stun_state := None; generate_latest := ""
|}.
Lemma quiet_bearer : BearerLaws quiet_process.
Proof.
  split; cbn; intros h t; unfold bearer_of; destruct h as [header|].
  - destruct (partition_space header) as [scheme u] eqn:E. destruct (String.eqb_spec (lower scheme) "bearer") as [Hl|Hl].
    + destruct u as [|a u]; cbn; split; [done| |intros [= <-]; by exists header, scheme|].
      * intros (? & ? & [= <-] & Hp & _ & Hne). rewrite E in Hp. injection Hp as <- <-. done.
      * intros (? & ? & [= <-] & Hp & _). rewrite E in Hp. by injection Hp as <- <-.
    + split; [done|]. intros (? & ? & [= <-] & Hp & Hb & _). rewrite E in Hp. by injection Hp as <- <-.
  - split; [done|]. by intros (? & ? & ? & _).
  - destruct (partition_space header) as [scheme u]. destruct (_ && _); [done|]. intros [= <-]. eauto 6.
  - intros [= <-]. eauto 6.
Qed.
Definition no_one : http_request := mkHttp Get "/api/v1/devices" [] None (Some "Bearer nobody") None.
Lemma strangers_change_nothing_witness :
  undisturbed api_state (handle (H0 := strict_pydantic) (H1 := quiet_process) no_one api_state).2.
Proof.
  refine (proj2 (strangers_change_nothing (H0 := strict_pydantic) (P := quiet_process) (BearerLaws0 := quiet_bearer)
    no_one api_state _ eq_refl _)).
  - split.
    + intros t [= <-]. vm_compute. reflexivity.
    + intros t d [= <-] Hd. cbn in Hd.
      repeat (apply elem_of_cons in Hd as [->|Hd]; [intros (h & Hh & _); discriminate Hh|]). by apply elem_of_nil in Hd.
  - assert (match dispatch (app (H0 := strict_pydantic) (H1 := quiet_process)) false (q_method no_one) (q_path no_one) with
            | Found r _ => is_public r | _ => false end = false) as E by (vm_compute; reflexivity).
    intros r params Hr. rewrite Hr in E. exact E.
Defined.
