(* ===== verification/EndToEnd.v ===== *)
(** The daemon and the server together, over HTTP: the calls of the daemon's
    client ([midscaled/daemon/api_client.py]) are served by the routes of
    [Http.v], and an enrolment ends with a configuration.

    Between the two stand httpx, uvicorn and the network: [to_http] is the
    request as it arrives, [render] the text of an answer. *)
From Stdlib Require Import Ascii.
From S2P Require Import Prelude PyStr Bytes Json JsonText PyJson Models Effects Topology ConfigV2 Nat Uuid WsManager DaemonSvc Auth Ipam.
From S2P Require Import DevicesApi NetworksApi RoutesApi SessionsApi PolicyApi Schemas Http ApiClient.
Local Open Scope string_scope.
Local Open Scope list_scope.
Local Open Scope Z_scope.

(** * A request on its way *)
Definition method_of (m : http_method) : method := match m with GET => Get | POST => Post end.
Definition header (k : string) (hs : list (string * string)) : option string :=
  snd <$> List.find (fun p => String.eqb p.1 k) hs.
Definition to_http (base : string) (client : option string) (r : request) : http_request :=
  mkHttp (method_of (rq_method r)) (drop_str (String.length base) (rq_url r)) [] (rq_json r)
    (header "Authorization" (rq_headers r)) client.

Section Remote.
Context `{Env} `{Pyd : Pydantic} `{P : Process}.

(** * The calls, made inside the server

    What the handler of a call does with the arguments of the call. *)
Definition as_any_device {A} (token : string) (h : Device.Device -> M Api A) : M Api A :=
  api_session (d ← on_world (get_current_device token); h d).
Definition opt_truthy_text (s : option string) : option string := if opt_truthy s then s else None.
Definition opt_truthy_int (n : option Z) : option Z := if json_truthy (jint_opt n) then n else None.
Definition local_call (i : uuid) (token : string) (k : device_call) : M Api reply :=
  match k with
  | PullConfigV2 =>
    api_session (c ← on_world (get_device_config_v2 i (Some ("Bearer " +:+ token))); ok (dump_config_v2 c))
  | SendHeartbeat key ip => as_device i token (fun _ => r ← on_world (device_heartbeat i key ip); ok (JObj r))
  | ReportEndpoint e src p l q =>
    as_device i token (fun d => r ← device_report_endpoint event_bus alive i e src p l q d; ok (JObj r))
  | ReportProbe (JStr peer) (JStr e) r (JInt p) None l q =>
    as_device i token (fun d =>
      a ← device_probe_result bind_uuid event_bus alive i peer e r None "probe" p l q d; ok (ProbeResultResponse a))
  | ReportProbe (JStr peer) (JStr e) r (JInt p) (Some (JInt ms)) l q =>
    as_device i token (fun d =>
      a ← device_probe_result bind_uuid event_bus alive i peer e r (Some ms) "probe" p l q d; ok (ProbeResultResponse a))
  | ReportProbe _ _ _ _ _ _ _ => as_device i token (fun _ => raise RequestValidationError)
  | AdvertiseRoute p =>
    as_device i token (fun _ => r ← on_world (device_advertise_route i p false); created (RouteResponse r))
  | RequestPunch t e p _ _ => as_any_device token (fun d =>
      r ← on_world (request_punch event_bus t e p d);
      created (JObj [("session_id", JStr (pa_session_id r)); ("state", JStr (pa_state r));
        ("candidates", JArr (pa_candidates r)); ("target_device_id", JStr (pa_target_device_id r))]))
  | ReportPunch session success e p ms error => as_any_device token (fun d =>
      '(s, state, established) ← on_world (report_punch_result event_bus session success (opt_truthy_text e)
         (opt_truthy_int p) ms (opt_truthy_text error) d);
      ok (JObj [("session_id", JStr s); ("state", JStr state); ("connectivity_established", JBool established)]))
  | Validate session e p r ms => as_any_device token (fun d =>
      v ← on_world (report_connectivity_validation event_bus session e p r ms d); ok (ConnectivityValidationResponse v))
  | RequestRelay (JStr t) region => as_any_device token (fun d =>
      r ← on_world (SessionsApi.request_relay_session event_bus t region d); created (RelaySessionResponse r))
  | RequestRelay _ _ => as_any_device token (fun _ => raise RequestValidationError)
  | ConnectRelay session => as_any_device token (fun d =>
      r ← on_world (SessionsApi.connect_relay_session event_bus session d); ok (dump_RelayConnect r))
  | UpdateRelay session tx rx => as_any_device token (fun d =>
      '(s, tx, rx) ← on_world (update_relay_stats_endpoint event_bus session tx rx d);
      ok (JObj [("status", JStr "ok"); ("session_id", JStr s); ("bytes_tx", JInt tx); ("bytes_rx", JInt rx)]))
  end.

(** The arguments a call is made with: ids in the path are one segment of it,
    a prefix has the form the schema asks for, the latency of a probe is
    absent, an integer, or a number with a fraction. *)
Definition segment (s : string) : bool := truthy s && negb (contains_char "/" s).
Definition sendable (k : device_call) : bool :=
  match k with
  | ReportProbe (JStr _) (JStr _) _ (JInt _) latency _ _ =>
    match latency with None | Some (JInt _) => true | Some (JFloat l) => has_fraction l | _ => false end
  | ReportProbe _ _ _ _ _ _ _ => false
  | AdvertiseRoute p => search "^(\d{1,3}\.\d{1,3}\.\d{1,3}\.\d{1,3}/\d{1,2}|::/0)$" p
  | ReportPunch session _ _ _ _ _ | Validate session _ _ _ _ | UpdateRelay session _ _ => segment session
  | RequestRelay (JStr _) _ => true
  | RequestRelay _ _ => false
  | _ => true
  end.

(** * Finding the route *)
Definition table (rs : list Route) : list (method * list string) := (fun r => (rt_method r, split "/" (rt_path r))) <$> rs.
Fixpoint route_index (rs : list (method * list string)) (m : method) (path : list string) : option (nat * list (string * string)) :=
  match rs with
  | [] => None
  | (m', t) :: rs =>
    match (if decide (m' = m) then if (length t =? length path)%nat then match_segments t path else None else None) with
    | Some params => Some (O, params)
    | None => prod_map S id <$> route_index rs m path
    end
  end.
Lemma match_length t p params : match_segments t p = Some params -> length t = length p.
Proof.
  revert p params. induction t as [|x t IH]; intros [|y p] params; cbn; [done..|]. destruct (param_name x).
  - destruct (truthy y); [|done]. destruct (match_segments t p) eqn:E; [|done]. intros _. f_equal. by eapply IH.
  - destruct (String.eqb x y); [|done]. intros Hm. f_equal. by eapply IH.
Qed.
Lemma dispatch_index rs partial m path n params r :
  route_index (table rs) m (split "/" path) = Some (n, params) -> rs !! n = Some r ->
  dispatch rs partial m path = Found r params.
Proof.
  revert partial n. induction rs as [|x rs IH]; intros partial n; cbn; [done|]. unfold match_path.
  assert (forall partial, prod_map S id <$> route_index (table rs) m (split "/" path) = Some (n, params) ->
    (x :: rs) !! n = Some r -> dispatch rs partial m path = Found r params) as Hrest.
  { intros b. destruct (route_index _ _ _) as [[n' ps']|]; [|done]. intros [= <- <-] Hr. by eapply IH. }
  case_decide; [|intros ? ?; destruct (match_segments _ _); by apply Hrest].
  destruct (match_segments _ _) as [ps|] eqn:E.
  - apply match_length in E. rewrite E, Nat.eqb_refl. by intros [= <- <-] [= <-].
  - destruct (_ =? _)%nat; apply Hrest.
Qed.
Definition app_table : list (method * list string) := Eval vm_compute in table app.
Lemma app_table_eq : table app = app_table.
Proof. vm_compute. reflexivity. Qed.
Lemma handle_found q s n params r :
  route_index app_table (q_method q) (split "/" (q_path q)) = Some (n, params) -> app !! n = Some r ->
  handle q s = answered (rt_path r) params (q_body q) (rt_endpoint r (mkCall params q) s).
Proof. intros Hi Hr. unfold handle. rewrite <-app_table_eq in Hi. by rewrite (dispatch_index _ _ _ _ _ _ _ Hi Hr). Qed.

(** * Reading a call *)
Context {PL : PydanticLaws Pyd} {BL : BearerLaws P}.

Lemma bearer_text t : truthy t = true -> bearer (Some ("Bearer " +:+ t)) = Ok t.
Proof. intros Ht. apply bearer_credentials. exists ("Bearer " +:+ t), "Bearer". split_and!; [done..|]. by intros ->. Qed.
Lemma session_ext {A} (m1 m2 : M Api A) s : m1 s = m2 s -> api_session m1 s = api_session m2 s.
Proof. intros Hm. unfold api_session, try_except, mbind, M_bind. by rewrite Hm. Qed.
Lemma body_reads {A} fs body o (k : obj -> M Api A) c s r :
  q_body (c_request c) = Some body -> validate fs body = Some o -> k o s = r -> (b ← body_of fs c; k b) s = r.
Proof. intros Hb Hv <-. unfold body_of, checked. by rewrite Hb, Hv. Qed.
Lemma body_refused {A} fs body (k : obj -> M Api A) c s :
  q_body (c_request c) = Some body -> validate fs body = None -> (b ← body_of fs c; k b) s = (Raise RequestValidationError, s).
Proof. intros Hb Hv. unfold body_of, checked. by rewrite Hb, Hv. Qed.
Lemma uuid_reads {A} k i (f : uuid -> M Api A) c s :
  List.find (fun p => String.eqb p.1 k) (c_params c) = Some (k, i) -> UUID i = Ok i -> (x ← uuid_param k c; f x) s = f i s.
Proof.
  intros Hp Hi. unfold uuid_param. rewrite Hp, coerce_typed; [done|]. cbn. by apply bool_decide_eq_true_2.
Qed.
Lemma text_reads {A} k i (f : string -> M Api A) c s r :
  List.find (fun p => String.eqb p.1 k) (c_params c) = Some (k, i) -> f i s = r -> (x ← text_param k c; f x) s = r.
Proof. intros Hp <-. unfold text_param. by rewrite Hp. Qed.
Lemma own_device_reads h h' i t c s :
  q_authorization (c_request c) = Some ("Bearer " +:+ t) -> truthy t = true ->
  List.find (fun p => String.eqb p.1 "device_id") (c_params c) = Some ("device_id", i) -> UUID i = Ok i ->
  (forall d s, h i d c s = h' d s) ->
  own_device_endpoint h c s = as_device i t h' s.
Proof.
  intros Ha Ht Hp Hi Hh. apply session_ext. unfold credentials. rewrite Ha, bearer_text by done.
  unfold lift. unfold mbind at 1, M_bind at 1. rewrite (uuid_reads _ i) by done. unfold mbind, M_bind.
  destruct (on_world _ s) as [[d|e] s1]; [apply Hh|done].
Qed.
Lemma device_reads h h' t c s :
  q_authorization (c_request c) = Some ("Bearer " +:+ t) -> truthy t = true ->
  (forall d s, h d c s = h' d s) -> device_endpoint h c s = as_any_device t h' s.
Proof.
  intros Ha Ht Hh. apply session_ext. unfold credentials. rewrite Ha, bearer_text by done.
  unfold lift. unfold mbind, M_bind. destruct (on_world _ s) as [[d|e] s1]; [apply Hh|done].
Qed.

(** The path of a request and its segments. *)
Lemma path_sent base path : drop_str (String.length base) (base +:+ path) = path.
Proof. apply drop_str_app. Qed.
Lemma split_param a i b :
  contains_char "/" i = false -> split "/" (a +:+ String "/" (i +:+ String "/" b)) = split "/" a ++ i :: split "/" b.
Proof.
  intros Hi. induction a as [|c a IH].
  - simpl. by rewrite split_app_sep.
  - simpl. rewrite IH. destruct (Ascii.eqb c "/"); [done|]. pose proof (split_ne "/" a). by destruct (split "/" a).
Qed.
Definition arrived (m : http_method) (path : string) (body : option json) (t : string) (client : option string) : http_request :=
  mkHttp (method_of m) path [] body (Some ("Bearer " +:+ t)) client.
Lemma sent_arrives repr base client i t c m path body :
  enrolled_as i t base c -> truthy t = true ->
  to_http base client (request_of repr c m path body true) = arrived m path body t client.
Proof.
  intros (_ & Htok & Hb) Ht. unfold to_http, request_of, _auth_headers. cbn [rq_method rq_url rq_json rq_headers].
  rewrite Hb, path_sent, Htok. cbn [json_truthy]. by rewrite Ht.
Qed.
Lemma canonical_truthy i : UUID i = Ok i -> truthy i = true.
Proof. by destruct i. Qed.
Lemma segment_spec x : segment x = true -> truthy x = true /\ contains_char "/" x = false.
Proof. unfold segment. intros [? ?%negb_true_iff]%andb_true_iff. done. Qed.

(** ** Canonical ids are one segment *)
Lemma hex_no_slash b : contains_char "/" (hex b) = false.
Proof.
  induction b as [|c b IH]; [done|]. cbn [hex contains_char]. rewrite IH.
  destruct c as [[] [] [] [] [] [] [] []]; reflexivity.
Qed.
Lemma contains_take c n x : contains_char c x = false -> contains_char c (take_str n x) = false.
Proof. rewrite <-(take_drop_str n x) at 1. rewrite contains_app. by intros [? _]%orb_false_iff. Qed.
Lemma contains_drop c n x : contains_char c x = false -> contains_char c (drop_str n x) = false.
Proof. rewrite <-(take_drop_str n x) at 1. rewrite contains_app. by intros [_ ?]%orb_false_iff. Qed.
Lemma canonical_segment i : UUID i = Ok i -> segment i = true.
Proof.
  intros Hi. unfold segment. rewrite canonical_truthy by done. cbn. apply negb_true_iff.
  unfold UUID in Hi. destruct (negb _); [done|]. destruct (int_of_hex _) as [n|]; [|done].
  destruct (_ && _); [|done]. injection Hi as Hi. rewrite <-Hi. unfold uuid_text.
  pose proof (hex_no_slash (be_bytes 16 n)) as Hh. rewrite !contains_app.
  repeat (rewrite contains_take by (try apply contains_drop; done)). by rewrite contains_drop.
Qed.

(** The segments of the paths below a device and of those with a session. *)
Lemma device_segments repr c i t base rest :
  enrolled_as i t base c -> contains_char "/" i = false ->
  split "/" (device_path repr c (String "/" rest)) = ["";"api";"v1";"devices"] ++ i :: split "/" rest.
Proof.
  intros (Hid & _) Hi. unfold device_path. rewrite Hid. cbn [py_str].
  change ("/api/v1/devices/" +:+ i +:+ String "/" rest) with ("/api/v1/devices" +:+ String "/" (i +:+ String "/" rest)).
  by rewrite split_param.
Qed.
Lemma session_segments a x rest :
  contains_char "/" x = false -> split "/" ((a +:+ "/") +:+ x +:+ String "/" rest) = split "/" a ++ x :: split "/" rest.
Proof.
  intros Hx. rewrite str_app_assoc. change ("/" +:+ x +:+ String "/" rest) with (String "/" (x +:+ String "/" rest)). by rewrite split_param.
Qed.
End Remote.

(** * Every call *)
Section Calls.
Context `{Env} `{Pyd : Pydantic} `{P : Process} {PL : PydanticLaws Pyd} {BL : BearerLaws P}.
Context (server : list request -> outcome response) (repr : json -> string) (base : string) (client : option string).
Context (i t : string) (c : MidscaleAPIClient) (s : Api).
Context (Hc : enrolled_as i t base c) (Ht : truthy t = true) (Hi : UUID i = Ok i).

(** The call makes one request, and the server answers it as it would the call
    made inside it. *)
Definition served (k : device_call) : Prop :=
  exists q, requests (try_except (run_call server repr k) (fun _ => mret tt) c).2 = requests c ++ [q] /\
    exists template params, handle (to_http base client q) s = answered template params (rq_json q) (local_call i t k s).
Lemma call_served {A} k (m : MidscaleAPIClient -> M MidscaleAPIClient A) dflt f (g : response -> M MidscaleAPIClient A) method path body n params r :
  run_call server repr k = ((c ← get; if negb (json_truthy (_device_id c)) then dflt else m c);; mret tt) ->
  m c = on_request_error f (resp ← send server repr method path body true; g resp) ->
  (forall resp, Frame eq (g resp)) ->
  route_index app_table (method_of method) (split "/" path) = Some (n, params) -> app !! n = Some r ->
  rt_endpoint r (mkCall params (arrived method path body t client)) s = local_call i t k s ->
  served k.
Proof.
  intros Hk Hm Hg Hn Hr Hl. unfold served. rewrite Hk, dropped, (guarded i t base) by (done || by apply canonical_truthy).
  rewrite Hm, sends_one by done. eexists. split; [reflexivity|].
  rewrite (sent_arrives repr base client i t) by done. rewrite (handle_found _ _ n params r) by done.
  eexists _, _. by rewrite Hl.
Qed.
Ltac one_segment x := destruct x as [|? ?]; [done|]; vm_compute; reflexivity.
Ltac typed := cbn; rewrite ?coerce_typed by reflexivity; reflexivity.

(** The endpoint reads the body back to the arguments. *)
Ltac reads := eapply body_reads; [reflexivity|typed|reflexivity].
Ltac serve find := eapply call_served; [reflexivity|reflexivity|intros; apply _|find|reflexivity|].
Ltac at_device :=
  destruct (segment_spec i (canonical_segment i Hi)) as [Hti Hni];
  serve ltac:(rewrite (device_segments _ _ i t base) by done; one_segment i); apply own_device_reads; try done; intros d s'.
Ltac at_any := serve ltac:(vm_compute; reflexivity); apply device_reads; try done; intros d s'.
(** [prefix] ends before the slash that [session] follows. *)
Ltac session_path prefix session rest :=
  match goal with |- route_index _ _ (split _ ?p) = _ =>
    change p with ((prefix +:+ "/") +:+ session +:+ String "/" rest) end;
  rewrite session_segments by done; one_segment session.
Ltac at_session prefix session rest :=
  serve ltac:(session_path prefix session rest);
  apply device_reads; try done; intros d s'; eapply text_reads; [reflexivity|].

Lemma heartbeat_served key ip : served (SendHeartbeat key ip).
Proof. at_device. destruct key, ip; reads. Qed.
Lemma endpoint_served e src p l q : served (ReportEndpoint e src p l q).
Proof. at_device. destruct l, q; reads. Qed.
Lemma probe_served peer e r p m l q :
  (m = None \/ exists ms, m = Some (JInt ms)) -> served (ReportProbe (JStr peer) (JStr e) r (JInt p) m l q).
Proof. intros [->|[ms ->]]; at_device; destruct l, q; reads. Qed.
Lemma probe_refused peer e r p m l q :
  has_fraction m = true -> served (ReportProbe (JStr peer) (JStr e) r (JInt p) (Some (JFloat m)) l q).
Proof.
  intros Hm. at_device.
  eapply body_refused; [reflexivity|]. destruct l, q; cbn; rewrite (coerce_fraction _ m) by auto; typed.
Qed.
Lemma advertise_served p :
  search "^(\d{1,3}\.\d{1,3}\.\d{1,3}\.\d{1,3}/\d{1,2}|::/0)$" p = true -> served (AdvertiseRoute p).
Proof.
  intros Hp. destruct (segment_spec i (canonical_segment i Hi)) as [Hti Hni].
  serve ltac:(destruct Hc as (-> & _); session_path "/api/v1/routes/devices" i "advertise").
  apply own_device_reads; try done. intros d s'.
  eapply body_reads; [reflexivity|cbn; rewrite ?coerce_typed by reflexivity; cbn; rewrite Hp; reflexivity|reflexivity].
Qed.
Lemma punch_served target e p l q : served (RequestPunch target e p l q).
Proof. at_any. destruct l as [[]|], q as [[]|]; reads. Qed.
Lemma punch_result_served session success e p ms error :
  segment session = true -> served (ReportPunch session success e p ms error).
Proof.
  intros [Hs Hn]%segment_spec. at_session "/api/v1/nat" session "result".
  destruct e as [[]|], p as [[]|], ms, error as [[]|]; reads.
Qed.
Lemma validation_served session e p r ms : segment session = true -> served (Validate session e p r ms).
Proof. intros [Hs Hn]%segment_spec. at_session "/api/v1/nat" session "validate". destruct ms; reads. Qed.
Lemma relay_served target region : served (RequestRelay (JStr target) region).
Proof. at_any. reads. Qed.
Lemma connect_served session : served (ConnectRelay session).
Proof. at_any. reads. Qed.
Lemma stats_served session tx rx : segment session = true -> served (UpdateRelay session tx rx).
Proof. intros [Hs Hn]%segment_spec. at_session "/api/v1/relay" session "stats". reads. Qed.
(** The request of [pull_config_v2], and its answer. *)
Lemma config_answer h :
  q_method h = Get -> q_path h = "/api/v1/devices/" +:+ i +:+ "/config-v2" -> q_authorization h = Some ("Bearer " +:+ t) ->
  handle h s = answered "/api/v1/devices/{device_id}/config-v2" [("device_id", i)] (q_body h) (local_call i t PullConfigV2 s).
Proof.
  intros Hm Hp Ha. destruct (segment_spec i (canonical_segment i Hi)) as [Hti Hni].
  erewrite (handle_found h s); cycle 1.
  { rewrite Hm, Hp. session_path "/api/v1/devices" i "config-v2". }
  { reflexivity. }
  cbn [rt_path rt_endpoint]. f_equal. apply session_ext. rewrite (uuid_reads _ i) by done. cbn [c_request]. by rewrite Ha.
Qed.
Lemma pull_sends : pull_config_v2 server repr c = on_request_error pull_v2_failed (
    resp ← send server repr GET ("/api/v1/devices/" +:+ i +:+ "/config-v2") None true;
    if status_code resp =? 200 then
      data ← lift (resp_json resp);
      interface ← lift (member data "interface");
      peers ← lift (member data "peers");
      routes ← lift (member data "routes");
      exit_node ← lift (member data "exit_node");
      revision ← lift (member data "revision");
      hash ← lift (member data "hash");
      version ← lift (member data "version");
      mret (mkConfigV2PullResult true interface peers routes exit_node revision hash version None)
    else
      detail ← lift (_extract_error repr resp);
      mret (pull_v2_failed detail)) c.
Proof.
  unfold pull_config_v2. unfold mbind at 1, M_bind at 1, get. destruct Hc as (Hid & Htok & _). unfold device_path. rewrite Hid, Htok.
  cbn [json_truthy]. rewrite (canonical_truthy i Hi), Ht. reflexivity.
Qed.
Lemma pull_served : served PullConfigV2.
Proof.
  unfold served. change (run_call server repr PullConfigV2) with (pull_config_v2 server repr;; mret tt).
  rewrite dropped, pull_sends, sends_one by (intros; apply _).
  eexists. split; [reflexivity|]. rewrite (sent_arrives repr base client i t) by done. eexists _, _. by apply config_answer.
Qed.
Lemma all_served k : sendable k = true -> served k.
Proof.
  intros Hk. destruct k.
  - apply pull_served.
  - apply heartbeat_served.
  - apply endpoint_served.
  - destruct peer as [| | | |peer| |]; try done. destruct endpoint as [| | | |e| |]; try done.
    destruct port as [| |p| | | |]; try done. destruct latency_ms as [[| |ms|m| | |]|]; try done.
    + apply probe_served. eauto.
    + by apply probe_refused.
    + apply probe_served. auto.
  - by apply advertise_served.
  - apply punch_served.
  - by apply punch_result_served.
  - by apply validation_served.
  - destruct target; try done. apply relay_served.
  - apply connect_served.
  - by apply stats_served.
Qed.
End Calls.

(** * The server behind the client *)
Section Server.
Context `{Env} `{Pyd : Pydantic} `{P : Process} {PL : PydanticLaws Pyd} {BL : BearerLaws P}.
Context (base : string) (client : option string) (render : json -> string) (repr : json -> string).

Definition render_reply (r : reply) : response :=
  match r with
  | Json status j => mkResponse status (render j)
  | NoContent => mkResponse 204 ""
  | Plain status text => mkResponse status text
  end.
(** What the last request of a history is answered by a server that was in
    state [s] before the first and serves no one else in between. *)
Fixpoint server_from (s : Api) (history : list request) : outcome response :=
  match history with
  | [] => Raise (RequestError "no request")
  | [q] => Ok (render_reply (handle (to_http base client q) s).1)
  | q :: rest => server_from (handle (to_http base client q) s).2 rest
  end.

Lemma chars_some x : truthy x = true -> 1 <= len_list (chars x).
Proof.
  intros Hx. destruct x as [|a x]; [done|]. cbn. destruct (chars x) as [|y l]; [done|].
  destruct y; [unfold len_list; cbn; lia|]. case_match; unfold len_list; cbn; lia.
Qed.
Lemma ascii_isoformat t : ascii_text (isoformat t) = true.
Proof.
  assert (forall n, ascii_text (zeros n) = true) as Hz by (induction n; done).
  assert (forall w n, ascii_text (pad w n) = true) as Hp by (intros w n; unfold pad; by rewrite ascii_app, Hz, ascii_int).
  unfold isoformat. destruct (civil_from_days _) as [[y m] d]. rewrite !ascii_app, !Hp.
  destruct (_ =? 0); [done|]. by rewrite ascii_app, Hp.
Qed.
Lemma plain_config_at t t' i p rt x :
  plain (dump_config_v2 (config_at t i p rt x)) = true -> plain (dump_config_v2 (config_at t' i p rt x)) = true.
Proof.
  unfold dump_config_v2. cbn [cv_interface cv_peers cv_routes cv_exit_node cv_version cv_config_version cv_schema_version
    cv_min_daemon_version cv_revision cv_generated_at cv_hash config_at]. set (k := compute_config_hash _). clearbody k.
  cbn [plain]. intros [Hm Hk]%andb_true_iff. apply andb_true_iff. split; [|exact Hk].
  cbn [forallb] in Hm |- *. rewrite !andb_true_iff in Hm |- *. decompose [and] Hm. split_and!; try done.
  - apply ascii_int.
  - apply ascii_isoformat.
Qed.

Lemma plain_enrolled r : plain (dump_EnrollByKey r) = true -> plain (dump_config_v2 (er_config_v2 r)) = true.
Proof.
  unfold dump_EnrollByKey. generalize (dump_config_v2 (er_config_v2 r)). intros j. cbn. rewrite !andb_true_iff. tauto.
Qed.

(** ** Enrolment *)
Definition key_request (key name pub : string) : EnrollByKeyRequest := mkEnrollByKey key name pub None.
Lemma enroll_answer key name pub s r w1 headers :
  truthy key = true -> truthy name = true -> len_list (chars name) <= 255 -> truthy pub = true ->
  enroll_by_key (key_request key name pub) client (api_world s) = (Ok r, w1) ->
  handle (to_http base client (mkRequest POST (base +:+ "/api/v1/devices/enroll")
    (Some (JObj [("preauth_key", JStr key); ("name", JStr name); ("public_key", JStr pub)])) headers)) s =
  (Json 201 (dump_EnrollByKey r), DevicesApi.mkApi (committed w1) (api_ws s)).
Proof.
  intros Hk Hn Hl Hp Hrun.
  erewrite handle_found; cycle 1.
  { cbn [to_http q_method q_path rq_method rq_url]. rewrite path_sent. vm_compute. reflexivity. }
  { reflexivity. }
  cbn [rt_path rt_endpoint]. unfold http_enroll_by_key, plain_endpoint, api_session, try_except. unfold mbind at 1, M_bind at 1.
  erewrite body_reads; [| reflexivity | | reflexivity].
  2: { cbn. rewrite ?coerce_typed by reflexivity. cbn. unfold constraints_ok, above, below. cbn.
       apply chars_some in Hk, Hn, Hp. rewrite !(proj2 (Z.leb_le 1 _)) by done. rewrite (proj2 (Z.leb_le _ 255)) by done. reflexivity. }
  change (read_EnrollByKey _) with (key_request key name pub). rewrite run_on_world.
  unfold Http.client; cbn [c_request to_http q_client]. rewrite Hrun. reflexivity.
Qed.
(** An answer of plain JSON reads back. *)
Context (Hrender : forall j st, plain j = true -> resp_json (mkResponse st (render j)) = Ok j).
Lemma enroll_member j k : member (JObj j) k = Ok (default JNull (obj_get k j)).
Proof. unfold member, get_or. by destruct (obj_get k j). Qed.
Lemma client_enrolls key name pub s r w1 c :
  requests c = [] -> _base_url c = base ->
  truthy key = true -> truthy name = true -> len_list (chars name) <= 255 -> truthy pub = true ->
  enroll_by_key (key_request key name pub) client (api_world s) = (Ok r, w1) -> plain (dump_EnrollByKey r) = true ->
  exists q, (handle (to_http base client q) s).2 = DevicesApi.mkApi (committed w1) (api_ws s) /\
    enroll (server_from s) repr key name pub c =
    (Ok (mkEnrollResult true (JStr (er_device_id r)) (JStr (er_device_token r)) (JStr (er_network_id r))
           (JStr (er_ip_address r)) (dump_config_v2 (er_config_v2 r)) None),
     mkApi base (JStr (er_device_id r)) (JStr (er_device_token r)) [q]).
Proof.
  intros Hq Hb Hk Hn Hl Hp Hrun Hplain.
  pose proof (enroll_answer key name pub s r w1 [] Hk Hn Hl Hp Hrun) as Ha.
  eexists. split; [by rewrite Ha|]. destruct c as [b i t qs]. cbn in Hq, Hb. subst b qs.
  unfold enroll, on_request_error, try_except, send. unfold mbind, M_bind, get, modify, lift. cbn [requests _base_url Datatypes.app].
  cbn [server_from]. rewrite Ha. cbn [fst render_reply status_code]. rewrite Hrender by done. reflexivity.
Qed.

(** ** The first configuration *)
Lemma config_of_token d tok w p :
  keyed (R := Device.Device) w -> d ∈ devices (w_db w) -> get_current_device tok w = (Ok d, w) ->
  truthy tok = true -> decode_token tok = None ->
  Device.is_active d = true -> opt_truthy (Device.ip_address d) = true -> Device.enrollment_status d = "active" ->
  config_parts (w_db w) d = Ok p ->
  get_device_config_v2 (Device.id d) (Some ("Bearer " +:+ tok)) w =
    (Ok (let '(i, ps, rt, x) := p in config_at (clock (w_tick w)) i ps rt x), ticked w).
Proof.
  intros Hk Hd Hg Ht Hj Ha Hip Hst Hparts.
  assert (_lookup_device_by_token tok w = (Ok (Some d), w)) as Hlook.
  { unfold get_current_device in Hg. rewrite run_bind in Hg.
    destruct (_lookup_device_by_token tok w) as [[[d'|]|e] w'] eqn:E; [by injection Hg as -> ->|by rewrite run_inc in Hg|done]. }
  assert (find_device (Device.id d) w = (Ok d, w)) as Hfind.
  { unfold find_device. change (Device.id d) with (row_id d). by rewrite run_bind, select_by_id. }
  unfold get_device_config_v2. cbn [opt_truthy default from_option id]. change (truthy ("Bearer " +:+ tok)) with true.
  change (partition_space ("Bearer " +:+ tok)) with ("Bearer", tok). cbn [negb]. rewrite Ht.
  change (String.eqb (lower "Bearer") "bearer") with true. cbn [negb orb].
  assert (user_of_credentials tok w = (Ok None, w)) as Hu by (unfold user_of_credentials; by rewrite Hj).
  rewrite run_bind, Hu. cbn beta iota. rewrite run_bind, Hlook, (bool_decide_eq_true_2 (is_Some (Some d))) by done.
  rewrite String.eqb_refl, andb_false_r. cbn [negb]. rewrite run_bind, Hfind, Ha, Hip, Hst. cbn [negb String.eqb Ascii.eqb Bool.eqb].
  rewrite build_config_v2_run, Hparts. by destruct p as [[[? ?] ?] ?].
Qed.
Definition pulled (cfg : DeviceConfigV2Response) : ConfigV2PullResult :=
  mkConfigV2PullResult true (dump_interface (cv_interface cfg)) (JArr (dump_peer <$> cv_peers cfg)) (jstrs (cv_routes cfg))
    (jstr_opt (cv_exit_node cfg)) (JStr (cv_revision cfg)) (JStr (cv_hash cfg)) (JStr (cv_version cfg)) None.
Lemma pull_reads server i t c cfg :
  enrolled_as i t base c -> truthy t = true -> UUID i = Ok i -> plain (dump_config_v2 cfg) = true ->
  server (requests c ++ [request_of repr c GET ("/api/v1/devices/" +:+ i +:+ "/config-v2") None true]) =
    Ok (mkResponse 200 (render (dump_config_v2 cfg))) ->
  (pull_config_v2 server repr c).1 = Ok (pulled cfg).
Proof.
  intros Hc Ht Hi Hp Hs. rewrite (pull_sends server repr base i t c Hc Ht Hi).
  unfold on_request_error, try_except. unfold mbind at 1, M_bind at 1. rewrite send_run, Hs. cbn [status_code].
  change (200 =? 200) with true. cbn iota. unfold lift. rewrite Hrender by done. reflexivity.
Qed.
Lemma pull_handled i t c w ws cfg :
  enrolled_as i t base c -> truthy t = true -> UUID i = Ok i ->
  get_device_config_v2 i (Some ("Bearer " +:+ t)) w = (Ok cfg, ticked w) ->
  (handle (to_http base client (request_of repr c GET ("/api/v1/devices/" +:+ i +:+ "/config-v2") None true))
     (DevicesApi.mkApi w ws)).1 = Json 200 (dump_config_v2 cfg).
Proof.
  intros Hc Ht Hi Hg. rewrite (sent_arrives repr base client i t) by done.
  rewrite (config_answer base i t c) by done. cbn [local_call]. unfold api_session, try_except.
  unfold mbind at 1, M_bind at 1. rewrite run_on_world. cbn [api_world]. by rewrite Hg.
Qed.
End Server.

(** * Properties *)

(** C7. A call of an enrolled device over HTTP is the call made inside the server:
    it makes one request, which finds the route of its handler; the body
    validates and reads back to the arguments; and the answer and the state
    after it are those of the handler.  The one exception is a probe whose
    latency has a fraction, as the prober measures it: it is refused. *)
Theorem remote_calls_served `{Env} `{Pyd : Pydantic} `{P : Process} {PL : PydanticLaws Pyd} {BL : BearerLaws P}
    server repr base client i t c s k :
  enrolled_as i t base c -> truthy t = true -> UUID i = Ok i -> sendable k = true ->
  exists q template params,
    requests (try_except (run_call server repr k) (fun _ => mret tt) c).2 = requests c ++ [q] /\
    handle (to_http base client q) s = answered template params (rq_json q) (local_call i t k s).
Proof.
  intros Hc Ht Hi Hk. destruct (all_served server repr base client i t c s Hc Ht Hi k Hk) as (q & Hq & template & params & Hh).
  by exists q, template, params.
Qed.

(** C6. A device that enrols over HTTP is configured: with fresh ids, tokens and
    token prefixes, passwords that verify, and answers of plain JSON that
    reads back, a client that has sent nothing yet enrols, and what it pulls
    next is the configuration it was given at the enrolment.  Each answer is
    what the application of [Http.v] makes of the request the client sends; the
    token goes from one to the other. *)
Theorem enrolled_device_configured `{Env} `{Pyd : Pydantic} `{P : Process} {PL : PydanticLaws Pyd} {BL : BearerLaws P}
    base client render repr key name pub s c r w1 :
  (forall j st, plain j = true -> resp_json (mkResponse st (render j)) = Ok j) ->
  requests c = [] -> _base_url c = base ->
  truthy key = true -> truthy name = true -> len_list (chars name) <= 255 -> truthy pub = true ->
  enroll_by_key (key_request key name pub) client (api_world s) = (Ok r, w1) ->
  keyed (R := Device.Device) (api_world s) ->
  (forall d n, d ∈ devices (w_db (api_world s)) -> (w_tick (api_world s) <= n)%nat -> Device.id d <> uuid4 n) ->
  (forall d n, d ∈ devices (w_db (api_world s)) -> (w_tick (api_world s) <= n)%nat ->
     Device.device_token_prefix d <> Some (take_str 8 (token_urlsafe n 6))) ->
  (forall n, (8 <= String.length (token_urlsafe n 6))%nat /\ token_urlsafe n 36 <> "") ->
  (forall n s, pwd_verify s (pwd_hash n s) = true /\ pwd_hash n s <> "") ->
  UUID (er_device_id r) = Ok (er_device_id r) -> decode_token (er_device_token r) = None -> truthy (er_ip_address r) = true ->
  plain (dump_EnrollByKey r) = true ->
  let server := server_from base client render s in
  let cfg := er_config_v2 r in
  exists c1, enroll server repr key name pub c =
      (Ok (mkEnrollResult true (JStr (er_device_id r)) (JStr (er_device_token r)) (JStr (er_network_id r))
             (JStr (er_ip_address r)) (dump_config_v2 cfg) None), c1) /\
    exists revision, (pull_config_v2 server repr c1).1 =
      Ok (mkConfigV2PullResult true (dump_interface (cv_interface cfg)) (JArr (dump_peer <$> cv_peers cfg))
            (jstrs (cv_routes cfg)) (jstr_opt (cv_exit_node cfg)) revision (JStr (cv_hash cfg)) (JStr (cv_version cfg)) None).
Proof.
  intros Hrender Hreq Hb Hk Hn Hl Hp Hrun Hkeyed Hfresh Hprefix Htok Hpwd Hi Hjwt Hip Hplain server cfg. subst server.
  destruct (client_enrolls base client render repr Hrender key name pub s r w1 c Hreq Hb Hk Hn Hl Hp Hrun Hplain)
    as (q & Hq & He).
  eexists. split; [exact He|].
  destruct (enroll_run _ _ _ _ _ Hrun) as [_ (d0 & n & _ & _ & _ & _ & _ & _ & _ & _ & _ & _ & _ & Ht & _)].
  destruct (enroll_token _ _ _ _ _ (committed w1) Hrun Hkeyed Hfresh Hprefix Htok Hpwd eq_refl)
    as (d & Hdb & Hid & Hdip & _ & Ha & Hst & Hk2 & Hg & i & p & rt & x & t & Hparts & Hcfg).
  assert (truthy (er_device_token r) = true) as Htt by by rewrite Ht.
  set (c1 := mkApi base _ _ _) in *.
  assert (enrolled_as (er_device_id r) (er_device_token r) base c1) as Hc1 by done.
  assert (d ∈ devices (w_db (committed w1))) as Hin by (cbn; rewrite Hdb; apply elem_of_app; right; by left).
  assert (opt_truthy (Device.ip_address d) = true) as Hdip' by by rewrite Hdip.
  pose proof (config_of_token d _ _ _ Hk2 Hin Hg Htt Hjwt Ha Hdip' Hst Hparts) as Hget. rewrite Hid in Hget.
  set (t' := clock (w_tick (committed w1))) in Hget.
  assert (plain (dump_config_v2 (config_at t' i p rt x)) = true) as Hplain'.
  { apply (plain_config_at t). rewrite <-Hcfg. by apply plain_enrolled. }
  exists (JStr (cv_revision (config_at t' i p rt x))).
  erewrite (pull_reads base render repr Hrender _ _ _ c1 (config_at t' i p rt x) Hc1 Htt Hi Hplain'); [by subst cfg; rewrite Hcfg|].
  cbn [requests c1 Datatypes.app server_from]. rewrite Hq.
  by rewrite (pull_handled base client repr _ _ c1 _ _ _ Hc1 Htt Hi Hget).
Qed.

(** * Witnesses *)
Definition remote_client : MidscaleAPIClient := mkApi "http://m" (JStr svc_id) (JStr "tok") [].
Lemma remote_calls_served_witness :
  exists q template params,
    requests (try_except (run_call a_server no_text (SendHeartbeat None (Some "10.0.0.9"))) (fun _ => mret tt) remote_client).2 = [q] /\
    handle (H0 := strict_pydantic) (H1 := quiet_process) (to_http "http://m" None q) api_state =
      answered (H0 := strict_pydantic) template params (rq_json q)
        (local_call (Pyd := strict_pydantic) (P := quiet_process) svc_id "tok" (SendHeartbeat None (Some "10.0.0.9")) api_state).
Proof.
  exact (remote_calls_served (Pyd := strict_pydantic) (P := quiet_process) (PL := strict_laws) (BL := quiet_bearer)
    a_server no_text "http://m" None svc_id "tok" remote_client api_state (SendHeartbeat None (Some "10.0.0.9"))
    (conj eq_refl (conj eq_refl eq_refl)) eq_refl eq_refl eq_refl).
Defined.

Definition clear_answer (r : EnrollByKeyResponse) : bool :=
  bool_decide (UUID (er_device_id r) = Ok (er_device_id r)) && bool_decide (decode_token (er_device_token r) = None) &&
  truthy (er_ip_address r) && plain (dump_EnrollByKey r).
Lemma enrolled_device_configured_witness :
  exists r c1, (enroll (server_from (Pyd := strict_pydantic) (P := quiet_process) "http://m" None dumps api_state) no_text
      "midscale_k" "laptop" "pk-new" (new_api "http://m")).2 = c1 /\
    exists revision, (pull_config_v2 (server_from (Pyd := strict_pydantic) (P := quiet_process) "http://m" None dumps api_state) no_text c1).1 =
      Ok (mkConfigV2PullResult true (dump_interface (cv_interface (er_config_v2 r))) (JArr (dump_peer <$> cv_peers (er_config_v2 r)))
        (jstrs (cv_routes (er_config_v2 r))) (jstr_opt (cv_exit_node (er_config_v2 r))) revision (JStr (cv_hash (er_config_v2 r)))
        (JStr (cv_version (er_config_v2 r))) None).
Proof.
  assert (match (enroll_by_key api_req None (world_of api_db)).1 with Ok r => clear_answer r | Raise _ => false end = true) as Hr
    by (vm_compute; reflexivity).
  destruct (enroll_by_key api_req None (world_of api_db)) as [[r|e] w1] eqn:E; [|discriminate Hr].
  unfold clear_answer in Hr. apply andb_true_iff in Hr as [[[Hi%bool_decide_eq_true Hj%bool_decide_eq_true]%andb_true_iff Hip]%andb_true_iff Hp].
  destruct (enrolled_device_configured (Pyd := strict_pydantic) (P := quiet_process) (PL := strict_laws) (BL := quiet_bearer)
    "http://m" None dumps no_text "midscale_k" "laptop" "pk-new" api_state (new_api "http://m") r w1) as (c1 & He & Hc).
  - intros j st Hj'. unfold resp_json. cbn [resp_text]. rewrite decode_dumps by done. cbn. by apply loads_dumps.
  - reflexivity.
  - reflexivity.
  - reflexivity.
  - reflexivity.
  - vm_compute. discriminate.
  - reflexivity.
  - exact E.
  - apply api_keyed.
  - intros d n Hd _. cbn in Hd. repeat (apply elem_of_cons in Hd as [->|Hd]; [discriminate|]). by apply elem_of_nil in Hd.
  - intros d n Hd _. cbn in Hd. repeat (apply elem_of_cons in Hd as [->|Hd]; [discriminate|]). by apply elem_of_nil in Hd.
  - intros n. cbn [token_urlsafe demo_env]. rewrite str_length_app. split; [cbn; lia|].
    by destruct (str_nat (Z.of_nat n)).
  - intros n p. cbn [pwd_verify pwd_hash demo_env]. split; [apply String.eqb_refl|discriminate].
  - exact Hi.
  - exact Hj.
  - exact Hip.
  - exact Hp.
  - exists r, c1. split; [by rewrite He|exact Hc].
Defined.
