(* ===== verification/Lifespan.v ===== *)
(** The server's process: what [lifespan] of [backend/app/main.py] starts, and
    what it stops when the server shuts down, with the parts of the rate
    limiters, the relay's listener and the engine that only this uses.

    What a part needs of the machine is an argument: does Redis answer, what
    [wg version] gives, which ports can be bound.  Closing a connection to Redis
    and disposing of the engine succeed.  [Server.wait_closed] returns once the
    server has no connections left, as asyncio documents for Python 3.12, the
    version of the image: [l_attached] are the connections asyncio counts.
    A shutdown that waits for ever is the answer [false]. *)
From S2P Require Import Prelude PyStr Bytes Json Models Effects WsManager EventBus WgAdapter Controller Dns ControllerLoop Health RateLimit Stun.
From S2P Require RelayServer.
Local Open Scope string_scope.
Local Open Scope list_scope.
Local Open Scope Z_scope.

(** * Rate limiters *)
Record Limiter := mkLimiter {
  li_limiter : RateLimiter;
  li_redis_url : string;
  li_redis : bool;                           (* is there a client? *)
  li_cleanup_task : bool
}.
Definition new_limiter (max_requests window_seconds : Z) (redis_url : string) : Limiter :=
  mkLimiter (new_rate_limiter max_requests window_seconds) redis_url false false.
Definition limiter_start (reachable : bool) (l : Limiter) : Limiter :=
  mkLimiter (li_limiter l) (li_redis_url l) (if truthy (li_redis_url l) then reachable else li_redis l) true.
Definition limiter_stop (l : Limiter) : Limiter := mkLimiter (li_limiter l) (li_redis_url l) false false.

(** * The relay's listener *)
Record Listener := mkListener {
  l_relay : RelayServer.Relay;
  l_server : bool;                           (* [self._server] *)
  l_attached : list nat
}.
#[export] Instance set_l_relay : SetField l_relay := fun v l => mkListener v (l_server l) (l_attached l).
#[export] Instance set_l_server : SetField l_server := fun v l => mkListener (l_relay l) v (l_attached l).
#[export] Instance set_l_attached : SetField l_attached := fun v l => mkListener (l_relay l) (l_server l) v.
Definition new_listener (host : string) (port : Z) : Listener :=
  mkListener (RelayServer.mkRelay (RelayServer.new_server host port) ∅ [] 0 0) false [].
Definition relay_running (b : bool) : M Listener unit :=
  modify (fun l => l <| l_relay := RelayServer.on_server (RelayServer.set_running b) (l_relay l) |>).
Definition relay_start (bound : bool) : M Listener unit :=
  running ← gets (fun l => RelayServer.running (RelayServer.server (l_relay l)));
  if (running : bool) then mret tt else
  relay_running true;;
  if bound then modify (fun l => l <| l_server := true |>) else raise OSError.
(** Does it come to its end? *)
Definition relay_stop : M Listener bool :=
  relay_running false;;
  server ← gets l_server;
  attached ← gets l_attached;
  if server && negb (bool_decide (attached = [])) then mret false else
  modify (fun l => l <| l_server := false |>);;
  zoom l_relay RelayServer.stop;;
  mret true.
(** asyncio's side of a connection: what [connection_lost] raises is logged. *)
Definition client_connects (c : nat) (addr : string) : M Listener unit :=
  zoom l_relay (RelayServer.connection_made c addr);; modify (fun l => l <| l_attached := l_attached l ++ [c] |>).
Definition client_sends (c : nat) (data : bytes) : M Listener unit := zoom l_relay (RelayServer.data_received c data).
Definition client_leaves (c : nat) : M Listener unit :=
  try_except (zoom l_relay (RelayServer.connection_lost c)) (fun _ => mret tt);;
  modify (fun l => l <| l_attached := filter (fun x => x <> c) (l_attached l) |>).

(** * The process *)
Inductive background := StaleEndpoints | RelaySessions | NatSessions | UpdateMetrics.
#[export] Instance background_eq_dec : EqDecision background.
Proof. solve_decision. Defined.
Record Server (S P : Type) := mkServer {
  sv_engine : bool;                          (* is there an engine that is not disposed of? *)
  sv_limiters : list (string * Limiter);
  sv_bus : option (EventBus Bridge);         (* with the socket manager it is bridged to *)
  sv_controller : option (WireGuardController S P);
  sv_health : bool;
  sv_stun : option StunServer;
  sv_relay : option Listener;
  sv_get_relay : bool;                       (* does [get_relay_server] find it? *)
  sv_tasks : list background
}.
Arguments mkServer {S P}.
Arguments sv_engine {S P}.
Arguments sv_limiters {S P}.
Arguments sv_bus {S P}.
Arguments sv_controller {S P}.
Arguments sv_health {S P}.
Arguments sv_stun {S P}.
Arguments sv_relay {S P}.
Arguments sv_get_relay {S P}.
Arguments sv_tasks {S P}.
Section Fields.
Context {S P : Type}.
#[export] Instance set_sv_engine : SetField (@sv_engine S P) := fun v s => mkServer v (sv_limiters s) (sv_bus s)
  (sv_controller s) (sv_health s) (sv_stun s) (sv_relay s) (sv_get_relay s) (sv_tasks s).
#[export] Instance set_sv_limiters : SetField (@sv_limiters S P) := fun v s => mkServer (sv_engine s) v (sv_bus s)
  (sv_controller s) (sv_health s) (sv_stun s) (sv_relay s) (sv_get_relay s) (sv_tasks s).
#[export] Instance set_sv_bus : SetField (@sv_bus S P) := fun v s => mkServer (sv_engine s) (sv_limiters s) v
  (sv_controller s) (sv_health s) (sv_stun s) (sv_relay s) (sv_get_relay s) (sv_tasks s).
#[export] Instance set_sv_controller : SetField (@sv_controller S P) := fun v s => mkServer (sv_engine s) (sv_limiters s) (sv_bus s)
  v (sv_health s) (sv_stun s) (sv_relay s) (sv_get_relay s) (sv_tasks s).
#[export] Instance set_sv_health : SetField (@sv_health S P) := fun v s => mkServer (sv_engine s) (sv_limiters s) (sv_bus s)
  (sv_controller s) v (sv_stun s) (sv_relay s) (sv_get_relay s) (sv_tasks s).
#[export] Instance set_sv_stun : SetField (@sv_stun S P) := fun v s => mkServer (sv_engine s) (sv_limiters s) (sv_bus s)
  (sv_controller s) (sv_health s) v (sv_relay s) (sv_get_relay s) (sv_tasks s).
#[export] Instance set_sv_relay : SetField (@sv_relay S P) := fun v s => mkServer (sv_engine s) (sv_limiters s) (sv_bus s)
  (sv_controller s) (sv_health s) (sv_stun s) v (sv_get_relay s) (sv_tasks s).
#[export] Instance set_sv_get_relay : SetField (@sv_get_relay S P) := fun v s => mkServer (sv_engine s) (sv_limiters s) (sv_bus s)
  (sv_controller s) (sv_health s) (sv_stun s) (sv_relay s) v (sv_tasks s).
#[export] Instance set_sv_tasks : SetField (@sv_tasks S P) := fun v s => mkServer (sv_engine s) (sv_limiters s) (sv_bus s)
  (sv_controller s) (sv_health s) (sv_stun s) (sv_relay s) (sv_get_relay s) v.
End Fields.
Definition new_process {S P} : Server S P := mkServer false [] None None false None None false [].

(** What the machine gives the parts: does the n-th connection to Redis succeed,
    how does [wg version] end, the port the STUN server gets, and can the
    relay's port be bound? *)
Record Machine := mkMachine { m_redis : nat -> bool; m_wg : probe; m_stun : option Z; m_relay : bool }.

Section Lifespan.
Context `{Env} {S P : Type} (probes : ProbeSettings) (stun_host : string) (stun_port : Z).
Context (adapter_of : adapter_choice -> Ctl S) (provider_of : provider_choice -> P) (alive : nat -> bool).
Abbreviation Sv := (M (Server S P)).

(** [if part: ...part...] *)
Definition on_part {T A} (proj : Server S P -> option T) `{!SetField proj} (dflt : A) (m : M T A) : Sv A := fun s =>
  match proj s with
  | None => (Ok dflt, s)
  | Some t => let '(r, t') := m t in (r, s <| proj := Some t' |>)
  end.
Definition limiter_of (max_requests window_seconds : Z) : Limiter := new_limiter max_requests window_seconds (redis_url probes).
Definition rate_limiters : list (string * Limiter) := [
  ("default", limiter_of (rate_limit_default_max settings) (rate_limit_default_window_seconds settings));
  ("auth", limiter_of (rate_limit_auth_max settings) (rate_limit_auth_window_seconds settings));
  ("register", limiter_of (rate_limit_register_max settings) (rate_limit_register_window_seconds settings));
  ("heartbeat", limiter_of (rate_limit_heartbeat_max settings) (rate_limit_heartbeat_window_seconds settings));
  ("websocket", limiter_of (rate_limit_websocket_max settings) (rate_limit_websocket_window_seconds settings));
  ("admin", limiter_of (rate_limit_admin_max settings) (rate_limit_admin_window_seconds settings))].
Definition bus_url : option string := if truthy (redis_url probes) then Some (redis_url probes) else None.

(** Up to the [yield]. *)
Definition startup (m : Machine) : Sv unit :=
  modify (fun s => s <| sv_engine := true |>);;
  when (rate_limit_enabled settings)
    (modify (fun s => s <| sv_limiters := imap (fun n l => (l.1, limiter_start (m_redis m n) l.2)) rate_limiters |>));;
  modify (fun s => s <| sv_bus := Some (new_bus bus_url (mkBridge new_manager 0)) |>);;
  on_part sv_bus tt (EventBus.start (m_redis m 6));;
  on_part sv_bus tt (start_listener (bridge_event alive) [] []);;
  when (wg_controller_enabled probes) (
    adapter ← lift (_create_adapter (m_wg m));
    modify (fun s => s <| sv_controller := Some (new_controller (adapter_of adapter) (provider_of _create_dns_provider)) |>);;
    on_part sv_controller tt ControllerLoop.start);;
  modify (fun s => s <| sv_health := true |>);;
  when (stun_enabled probes)
    (modify (fun s => s <| sv_stun := Some (Stun.start (m_stun m) (new_stun_server stun_host stun_port)) |>));;
  when (relay_enabled probes) (
    modify (fun s => s <| sv_relay := Some (new_listener (relay_host settings) (relay_port settings)) |>);;
    on_part sv_relay tt (relay_start (m_relay m));;
    modify (fun s => s <| sv_get_relay := true |>));;
  modify (fun s => s <| sv_tasks := [StaleEndpoints; RelaySessions; NatSessions; UpdateMetrics] |>).

Definition cancel (t : background) : Sv unit := modify (fun s => s <| sv_tasks := filter (fun x => x <> t) (sv_tasks s) |>).
(** After it. *)
Definition shutdown : Sv bool :=
  for_each [NatSessions; StaleEndpoints; RelaySessions; UpdateMetrics] cancel;;
  on_part sv_stun tt (modify Stun.stop);;
  ended ← on_part sv_relay true relay_stop;
  if negb ended then mret false else
  modify (fun s => s <| sv_get_relay := match sv_relay s with Some _ => false | None => sv_get_relay s end |>);;
  on_part sv_controller tt ControllerLoop.stop;;
  on_part sv_bus tt EventBus.stop;;
  modify (fun s => s <| sv_limiters := prod_map id limiter_stop <$> sv_limiters s |>);;
  modify (fun s => s <| sv_engine := false |>);;
  mret true.
End Lifespan.

(** * The relay's own shutdown *)
(** Can the connection say goodbye?  [unregister_connection] raises on a device
    id that is a list or an object. *)
Definition named (r : RelayServer.Relay) (c : nat) : bool :=
  match RelayServer.protocols r !! c with
  | Some p => negb (json_truthy (RelayServer.device_id p)) ||
      match RelayServer.hash_key (RelayServer.device_id p) with Ok _ => true | Raise _ => false end
  | None => false
  end.
Definition registered (r : RelayServer.Relay) : list nat := (map_to_list (RelayServer.connections (RelayServer.server r))).*2.

Lemma goodbye c r :
  exists r', (RelayServer._handle_disconnect c r).2 = r' /\ (forall c', c' <> c -> named r' c' = named r c') /\
    if named r c then (RelayServer._handle_disconnect c r).1 = Ok tt /\ named r' c = true
    else exists e, (RelayServer._handle_disconnect c r).1 = Raise e.
Proof.
  unfold RelayServer._handle_disconnect, RelayServer.attr. unfold mbind at 1 3 5, M_bind at 1 3 5. unfold named at 3.
  destruct (RelayServer.protocols r !! c) as [p|] eqn:E; [|eexists; split_and!; eauto].
  unfold RelayServer.unregister_connection, when, mbind, M_bind, lift, modify, mret, M_ret.
  assert (forall (r' : RelayServer.Relay) f, RelayServer.protocols r' = RelayServer.protocols r ->
    (forall c', c' <> c -> named (RelayServer.on_protocol c f r') c' = named r c') /\
    (RelayServer.device_id (f p) = JNull -> named (RelayServer.on_protocol c f r') c = true)) as Hother.
  { intros r' f Hp. unfold named, RelayServer.on_protocol. cbn. rewrite Hp. split.
    - intros c' Hc. by rewrite lookup_alter_ne.
    - intros Hf. by rewrite lookup_alter_eq, E; cbn; rewrite Hf. }
  destruct (json_truthy (RelayServer.device_id p)); cbn [negb orb].
  - destruct (RelayServer.hash_key (RelayServer.device_id p)) as [k|e]; cbn.
    + eexists. split; [reflexivity|]. split; [by apply Hother|]. split; [done|]. by apply Hother.
    + eexists. split_and!; eauto.
  - eexists. split; [reflexivity|]. split; [by apply Hother|]. split; [done|]. by apply Hother.
Qed.
Lemma goodbyes l r :
  if forallb (named r) l then (for_each l RelayServer._handle_disconnect r).1 = Ok tt
  else exists e, (for_each l RelayServer._handle_disconnect r).1 = Raise e.
Proof.
  revert r. induction l as [|c l IH]; intros r; [done|]. cbn [for_each forallb].
  destruct (goodbye c r) as (r' & Hr' & Hother & Hc). unfold mbind, M_bind.
  destruct (RelayServer._handle_disconnect c r) as [x r1]. cbn in Hr', Hc. subst r1.
  destruct (named r c) eqn:En; cbn [andb].
  - destruct Hc as [-> Hn]. specialize (IH r').
    assert (forallb (named r') l = forallb (named r) l) as Hl; [|by rewrite Hl in IH].
    clear IH. induction l as [|c' l IH]; [done|]. cbn. rewrite IH. f_equal.
    destruct (decide (c' = c)) as [->|Hne]; [congruence|by apply Hother].
  - destruct Hc as [e ->]. by exists e.
Qed.
Definition waiting (l : Listener) : bool := l_server l && negb (bool_decide (l_attached l = [])).
Definition all_named (l : Listener) : bool := forallb (named (l_relay l)) (registered (l_relay l)).
Record closed (l : Listener) : Prop := {
  cl_running : RelayServer.running (RelayServer.server (l_relay l)) = false;
  cl_server : l_server l = false;
  cl_connections : RelayServer.connections (RelayServer.server (l_relay l)) = ∅;
  cl_tokens : RelayServer.valid_tokens (RelayServer.server (l_relay l)) = ∅
}.
Lemma goodbyes_keep l r : RelayServer.running (RelayServer.server (for_each l RelayServer._handle_disconnect r).2) =
  RelayServer.running (RelayServer.server r).
Proof.
  set (R := fun r r' : RelayServer.Relay => RelayServer.running (RelayServer.server r') = RelayServer.running (RelayServer.server r)).
  assert (PreOrder R) by (split; [by intros ?|intros ??? H1 H2; red in H1, H2; red; congruence]).
  assert (forall c A (a : RelayServer.RelayProtocol -> A), Frame R (RelayServer.attr c a)) as Ha.
  { intros c A a s. unfold RelayServer.attr, R. by destruct (RelayServer.protocols s !! c). }
  assert (forall f, (forall s, R s (f s)) -> Frame R (modify f)) as Hm by (intros f; apply frame_modify).
  assert (forall c, Frame R (RelayServer._handle_disconnect c)) as Hd.
  { intros c. unfold RelayServer._handle_disconnect, RelayServer.unregister_connection.
    apply frame_bind; [exact _|apply Ha|]. intros d. apply frame_bind; [apply _| |intros; by apply Hm].
    apply frame_when; [apply _|]. apply frame_bind; [apply _..|]. intros k. by apply Hm. }
  pose proof (frame_for_each R l RelayServer._handle_disconnect Hd r) as Hf. exact Hf.
Qed.
Lemma relay_stop_run l :
  exists l', (relay_stop l).2 = l' /\
    if waiting l then (relay_stop l).1 = Ok false
    else if all_named l then (relay_stop l).1 = Ok true /\ closed l'
    else exists e, (relay_stop l).1 = Raise e.
Proof.
  eexists. split; [reflexivity|]. unfold relay_stop, relay_running, RelayServer.stop, waiting.
  unfold mbind, M_bind, modify, gets, mret, M_ret, zoom. cbn beta iota.
  destruct (_ && _); [done|]. cbn [fst snd].
  set (r0 := RelayServer.on_server _ _). set (conns := (map_to_list _).*2).
  change conns with (registered (l_relay l)). clear conns. unfold all_named.
  assert (forallb (named (l_relay l)) (registered (l_relay l)) = forallb (named r0) (registered (l_relay l))) as -> by done.
  pose proof (goodbyes (registered (l_relay l)) r0) as Hg. pose proof (goodbyes_keep (registered (l_relay l)) r0) as Hk.
  destruct (for_each _ _ r0) as [x r1]. cbn [fst snd] in *. destruct (forallb _ _).
  - subst x. split; [done|]. split; cbn; [exact Hk|done..].
  - destruct Hg as [e ->]. by exists e.
Qed.

(** * The whole shutdown *)
Section Shutdown.
Context `{Env} {S P : Type}.
(** Nothing runs any more. *)
Record stopped (s : Server S P) : Prop := {
  sd_tasks : sv_tasks s = [];
  sd_stun st : sv_stun s = Some st -> st_transport st = false;
  sd_relay l : sv_relay s = Some l -> closed l /\ sv_get_relay s = false;
  sd_controller c : sv_controller s = Some c -> _running c = false /\ wc_task c = false;
  sd_bus b : sv_bus s = Some b -> eb_running b = false /\ _listener_task b = false;
  sd_limiters n l : (n, l) ∈ sv_limiters s -> li_redis l = false /\ li_cleanup_task l = false;
  sd_engine : sv_engine s = false
}.
(** What the shutdown has not reached. *)
Definition still_up (s s' : Server S P) : Prop :=
  sv_controller s' = sv_controller s /\ sv_bus s' = sv_bus s /\ sv_limiters s' = sv_limiters s /\ sv_engine s' = sv_engine s.
Definition relay_waits (s : Server S P) : bool := match sv_relay s with Some l => waiting l | None => false end.
Definition relay_named (s : Server S P) : bool := match sv_relay s with Some l => all_named l | None => true end.

Lemma cancelled l (s : Server S P) : for_each l cancel s =
  (Ok tt, s <| sv_tasks := foldl (fun ts t => filter (fun x => x <> t) ts) (sv_tasks s) l |>).
Proof.
  revert s. induction l as [|t l IH]; intros s; [by destruct s|]. cbn [for_each]. unfold mbind, M_bind, cancel at 1, modify.
  rewrite IH. reflexivity.
Qed.
Lemma no_tasks ts : foldl (fun ts t => filter (fun x => x <> t) ts) ts [NatSessions; StaleEndpoints; RelaySessions; UpdateMetrics] = [].
Proof.
  cbn. apply elem_of_nil_inv. intros t. rewrite !list_elem_of_filter. intros (? & ? & ? & ? & _). by destruct t.
Qed.
Lemma shutdown_run (s : Server S P) :
  (forall st, sv_stun s = Some st -> st_transport st = true -> st_running st = true) ->
  let '(r, s') := shutdown s in
  if relay_waits s then r = Ok false /\ still_up s s'
  else if relay_named s then r = Ok true /\ stopped s'
  else (exists e, r = Raise e) /\ still_up s s'.
Proof.
  intros Hstun. unfold shutdown. unfold mbind at 1, M_bind at 1. rewrite cancelled, no_tasks.
  destruct s as [engine limiters evb controller health stun relay get tasks]. unfold relay_waits, relay_named. cbn [sv_relay sv_stun] in *.
  unfold on_part, mbind, M_bind, modify, mret, M_ret. cbn [sv_stun set_field set_sv_tasks].
  assert (forall st, stun = Some st -> st_transport (Stun.stop st) = false) as Hst.
  { intros st ->. unfold Stun.stop. destruct (st_running st) eqn:Er; [done|].
    destruct (st_transport st) eqn:Et; [|done]. by rewrite (Hstun st eq_refl Et) in Er. }
  assert (forall n l, (n, l) ∈ prod_map id limiter_stop <$> limiters -> li_redis l = false /\ li_cleanup_task l = false) as Hlim.
  { intros n l ([n' l'] & [= -> ->] & _)%list_elem_of_fmap. done. }
  destruct relay as [l|]; [destruct (relay_stop_run l) as (l' & Hl' & Hl); destruct (relay_stop l) as [r l1] eqn:E; cbn in Hl', Hl; subst l1;
    destruct (waiting l); [subst r|destruct (all_named l); [destruct Hl as [-> Hc]|destruct Hl as [e ->]]]|].
  all: destruct stun as [st|], controller as [ct|], evb as [b|]; cbn; rewrite ?E; cbn; (split; [eauto|]); try done.
  all: split; cbn; try done; intros; simplify_eq; eauto.
Qed.

(** ** After the start *)
Context (probes : ProbeSettings) (stun_host : string) (stun_port : Z).
Context (adapter_of : adapter_choice -> Ctl S) (provider_of : provider_choice -> P) (alive : nat -> bool).
Definition listening (host : string) (port monotonic utcnow : Z) : Listener :=
  mkListener (RelayServer.mkRelay (RelayServer.mkRelayServer host port true ∅ ∅ ∅) ∅ [] monotonic utcnow) true [].
Record up (m : Machine) (s : Server S P) : Prop := {
  up_engine : sv_engine s = true;
  up_tasks t : t ∈ sv_tasks s;
  up_limiters : (sv_limiters s).*1 = if rate_limit_enabled settings
    then ["default"; "auth"; "register"; "heartbeat"; "websocket"; "admin"] else [];
  up_cleanup n l : (n, l) ∈ sv_limiters s -> li_cleanup_task l = true;
  up_bus : exists b, sv_bus s = Some b /\ eb_running b = true /\ _listener_task b = true;
  up_controller : if wg_controller_enabled probes
    then exists c, sv_controller s = Some c /\ _running c = true /\ wc_task c = true else sv_controller s = None;
  up_stun : if stun_enabled probes
    then exists st, sv_stun s = Some st /\ st_running st = bool_decide (is_Some (m_stun m)) /\ st_transport st = st_running st
    else sv_stun s = None;
  up_relay : if relay_enabled probes
    then sv_relay s = Some (listening (relay_host settings) (relay_port settings) 0 0) /\ sv_get_relay s = true
    else sv_relay s = None
}.
Lemma bus_up reachable (b : EventBus Bridge) :
  eb_running b = false -> _listener_task b = false -> exists b1 b2,
  EventBus.start reachable b = (Ok tt, b1) /\ start_listener (bridge_event alive) [] [] b1 = (Ok tt, b2) /\
    eb_running b2 = true /\ _listener_task b2 = true.
Proof.
  destruct b as [url redis pubsub task subs run conn sent called h slept]. cbn. intros -> ->.
  unfold EventBus.start, start_listener, listen. unfold mbind, M_bind, gets, modify, when, mret, M_ret. cbn.
  destruct (opt_truthy url), reachable, pubsub; cbn; eexists _, _; split_and!; reflexivity.
Qed.
Lemma all_tasks t : t ∈ [StaleEndpoints; RelaySessions; NatSessions; UpdateMetrics].
Proof. apply (bool_decide_unpack _). by destruct t. Qed.
Lemma startup_run m :
  let '(r, s) := startup probes stun_host stun_port adapter_of provider_of alive m new_process in
  match (if wg_controller_enabled probes then _create_adapter (m_wg m) else Ok CliAdapter) with
  | Raise e => r = Raise e
  | Ok _ => if relay_enabled probes && negb (m_relay m) then r = Raise OSError else r = Ok tt /\ up m s
  end.
Proof.
  destruct (bus_up (m_redis m 6) (new_bus (bus_url probes) (mkBridge new_manager 0)) eq_refl eq_refl)
    as (b1 & b2 & E1 & E2 & Hb & Hl).
  unfold startup, on_part. unfold mbind, M_bind, modify, when, lift, mret, M_ret. cbn -[imap limiter_start rate_limiters].
  destruct (rate_limit_enabled settings) eqn:Er; cbn -[imap limiter_start rate_limiters]; rewrite E1; cbn -[imap limiter_start rate_limiters];
    rewrite E2; cbn -[imap limiter_start rate_limiters].
  all: destruct (wg_controller_enabled probes) eqn:Ew; [destruct (_create_adapter (m_wg m)) as [a|e]; [|reflexivity]|].
  all: destruct (stun_enabled probes) eqn:Es, (relay_enabled probes) eqn:Ey, (m_relay m); cbn -[imap limiter_start rate_limiters];
    try reflexivity; (split; [reflexivity|]).
  all: split; rewrite ?Er, ?Ew, ?Es, ?Ey; cbn; try reflexivity; try (by exists b2); try (eexists; split; [reflexivity|by split]).
  all: first [apply all_tasks | by intros n l []%elem_of_nil
    | intros n l Hin; repeat (apply elem_of_cons in Hin as [[= -> ->]|Hin]; [reflexivity|]); by apply elem_of_nil in Hin
    | eexists; split; [reflexivity|]; destruct (m_stun m); done
    | split; reflexivity].
Qed.
Lemma up_sane m s st : up m s -> sv_stun s = Some st -> st_transport st = true -> st_running st = true.
Proof.
  intros Hu Hs Ht. pose proof (up_stun _ _ Hu) as H1. destruct (stun_enabled probes); [|congruence].
  destruct H1 as (st' & H1 & _ & H2). assert (st' = st) as -> by congruence. congruence.
Qed.
End Shutdown.

(** * A visitor of the relay *)
Definition connect_frame (members : obj) : bytes :=
  let payload := RelayServer.RELAY_MAGIC +:+ String (byte_of_Z RelayServer.MSG_TYPE_CONNECT) (dumps (JObj members)) in
  match RelayServer.frame_of payload with Ok f => f | Raise _ => "" end.
Definition two_names : bytes :=
  connect_frame [("token", JStr ""); ("device_id", JStr "a"); ("session_id", JNull)] +:+
  connect_frame [("token", JStr ""); ("device_id", JArr [JInt 0]); ("session_id", JStr "")].
Definition visit (addr : string) : M Listener unit :=
  client_connects 0 addr;; client_sends 0 two_names;; client_leaves 0.
Lemma visited host port monotonic utcnow addr :
  let '(r, l) := visit addr (listening host port monotonic utcnow) in
  r = Ok tt /\ waiting l = false /\ all_named l = false.
Proof. vm_compute. split_and!; reflexivity. Qed.

(** * Properties *)
(** While the server serves, its STUN socket stays as it was opened. *)
Definition serves {S P} (s s' : Server S P) : Prop :=
  (fun st => (st_running st, st_transport st)) <$> sv_stun s' = (fun st => (st_running st, st_transport st)) <$> sv_stun s.
Lemma started `{Env} {S P} probes stun_host stun_port (adapter_of : adapter_choice -> Ctl S)
    (provider_of : provider_choice -> P) alive m s :
  startup probes stun_host stun_port adapter_of provider_of alive m new_process = (Ok tt, s) -> up probes m s.
Proof.
  intros Hs. pose proof (startup_run probes stun_host stun_port adapter_of provider_of alive m) as Hup. rewrite Hs in Hup.
  destruct (if wg_controller_enabled probes then _ else _); [|done]. destruct (_ && _); [done|]. by destruct Hup.
Qed.
Lemma sane_later `{Env} {S P} probes m (s0 s1 : Server S P) :
  up probes m s0 -> serves s0 s1 -> forall st, sv_stun s1 = Some st -> st_transport st = true -> st_running st = true.
Proof.
  unfold serves. intros Hup Hserve st Hst. rewrite Hst in Hserve.
  destruct (sv_stun s0) as [st0|] eqn:E; [|done]. injection Hserve as -> ->. by eapply up_sane.
Qed.

(** C9. A server that has started runs all its settings ask for, and a shutdown
    after any time of service ends in one of three ways: it waits as long as a
    client of the relay is connected; it stops everything; or, when a
    registered connection has an id that is no key, it raises where the relay
    stops.  In the first and the last case the controller, the event bus, the
    rate limiters and the engine are left as they were. *)
Theorem service_stops `{Env} {S P} probes stun_host stun_port (adapter_of : adapter_choice -> Ctl S)
    (provider_of : provider_choice -> P) alive m s0 s1 :
  startup probes stun_host stun_port adapter_of provider_of alive m new_process = (Ok tt, s0) -> serves s0 s1 ->
  up probes m s0 /\ exists r s2, shutdown s1 = (r, s2) /\
    if relay_waits s1 then r = Ok false /\ still_up s1 s2
    else if relay_named s1 then r = Ok true /\ stopped s2
    else (exists e, r = Raise e) /\ still_up s1 s2.
Proof.
  intros Hs Hserve. apply started in Hs. split; [done|].
  pose proof (shutdown_run s1 (sane_later probes m s0 s1 Hs Hserve)) as Hd. destruct (shutdown s1) as [r s2]. by exists r, s2.
Qed.

(** C39. A client without any token can keep the server from shutting down: it
    connects to the relay, names itself, names itself again with a list, and
    leaves.  The shutdown then raises, with the controller, the event bus and
    the engine still in use. *)
Theorem visitor_breaks_shutdown `{Env} {S P} probes stun_host stun_port (adapter_of : adapter_choice -> Ctl S)
    (provider_of : provider_choice -> P) alive m s0 s1 monotonic utcnow addr :
  startup probes stun_host stun_port adapter_of provider_of alive m new_process = (Ok tt, s0) -> serves s0 s1 ->
  sv_relay s1 = Some (listening (relay_host settings) (relay_port settings) monotonic utcnow) ->
  exists s2 e s3, on_part sv_relay tt (visit addr) s1 = (Ok tt, s2) /\ shutdown s2 = (Raise e, s3) /\ still_up s1 s3.
Proof.
  intros Hs Hserve Hr. unfold on_part. rewrite Hr.
  pose proof (visited (relay_host settings) (relay_port settings) monotonic utcnow addr) as Hv.
  destruct (visit _ _) as [r l]. destruct Hv as (-> & Hw & Hn).
  apply started in Hs. set (s2 := s1 <| sv_relay := Some l |>).
  pose proof (shutdown_run s2 (sane_later probes m s0 s1 Hs Hserve)) as Hd.
  assert (relay_waits s2 = false) as Hw' by exact Hw. assert (relay_named s2 = false) as Hn' by exact Hn.
  destruct (shutdown s2) as [r s3] eqn:E. rewrite Hw', Hn' in Hd.
  destruct Hd as [[e ->] Hd]. by exists s2, e, s3.
Qed.

(** * Witnesses *)
Definition calm : Machine := mkMachine (fun _ => true) NotFound (Some 3478) true.
Definition a_process : outcome unit * Server WgMock unit :=
  startup default_probe_settings "0.0.0.0" 3478 (fun _ => demo_ctl) (fun _ => tt) (fun _ => true) calm new_process.
Lemma a_process_up :
  startup default_probe_settings "0.0.0.0" 3478 (fun _ => demo_ctl) (fun _ => tt) (fun _ => true) calm new_process = (Ok tt, a_process.2).
Proof. vm_compute. reflexivity. Qed.
Lemma serves_refl {S P} (s : Server S P) : serves s s.
Proof. reflexivity. Qed.
Lemma a_process_relay : sv_relay a_process.2 = Some (listening (relay_host settings) (relay_port settings) 0 0).
Proof. vm_compute. reflexivity. Qed.
Lemma service_stops_witness : exists s2, shutdown a_process.2 = (Ok true, s2) /\ stopped s2.
Proof.
  assert (relay_waits a_process.2 = false) as Hw by (vm_compute; reflexivity).
  assert (relay_named a_process.2 = true) as Hn by (vm_compute; reflexivity).
  destruct (service_stops default_probe_settings "0.0.0.0" 3478 (fun _ => demo_ctl) (fun _ => tt) (fun _ => true) calm
    a_process.2 a_process.2 a_process_up (serves_refl _)) as (_ & r & s2 & E & Hs).
  rewrite Hw, Hn in Hs. destruct Hs as [-> Hs]. exact (ex_intro _ s2 (conj E Hs)).
Defined.
Lemma visitor_breaks_shutdown_witness :
  exists s2 e s3, on_part sv_relay tt (visit "203.0.113.9:4711") a_process.2 = (Ok tt, s2) /\
    shutdown s2 = (Raise e, s3) /\ still_up a_process.2 s3.
Proof.
  exact (visitor_breaks_shutdown default_probe_settings "0.0.0.0" 3478 (fun _ => demo_ctl) (fun _ => tt) (fun _ => true) calm
    a_process.2 a_process.2 0 0 "203.0.113.9:4711" a_process_up (serves_refl _) a_process_relay).
Defined.
